(* ===== verification/_CoqProject ===== *)
-Q . S2P
Prelude.v
Encoding.v
Net.v
Io.v
Hash.v
Frame.v
Sharing.v
Connect.v
Wire.v
Identity.v
Registry.v
Auth.v
Float.v
Shaping.v
Bcl.v
Burst.v
Close.v
Pipe.v
Mux.v
Socks.v
Telemetry.v
Metrics.v
Config.v
Transport.v
HttpProxy.v
Tunnel.v
Listener.v
Client.v
Bridge.v
Upstream.v
Invite.v
Dashboard.v
Terminal.v
Commands.v
CommandFacts.v
Processes.v
Launch.v
Diagnostics.v
Enrolment.v
Cli.v
Serving.v
