(* ===== verification/Prelude.v ===== *)
(** * Daxson tunnel: verification library

    Daxson tunnels a user's connections through a TLS connection that is shaped
    to look like ordinary web traffic.  On the user's machine a SOCKS5 and an HTTP
    proxy accept connections and ask the tunnel client for a stream; the client
    keeps one authenticated, multiplexed session to a server, which dials the
    target and relays bytes.  A relay may sit between the two.  A registry decides
    which devices may log in, invites enrol new ones, a dashboard and metrics show
    what goes on, and the commands of the CLI manage all of it.  This library models those parts, written in Go, as executable functions
    and step relations, and proves what they do.

    ** How the code is modelled

    A Go function that reads and writes a state [S] is a function in [M S], below:
    it returns a value, an error or a panic, and the state it leaves behind in
    each case.  A [net.Conn] is a [conn] (Io): what the network will deliver, cut
    into arbitrary segments and ended by an arbitrary error; what was written; a
    script of write faults; deadlines; whether it is closed.  Clock, randomness
    and file system are scripts of the same kind, so a theorem about every state
    is a theorem about every environment.  Integers are [Z], bounded by their
    checks or wrapped where the code wraps; floats are IEEE 754 binary64, with the
    Standard Library's executable operations.  A mutex held from start to end
    makes an operation atomic, and histories are sequences of operations;
    goroutines that interleave are a step relation with one rule per select branch,
    per call, or, where they share a field or a buffer without a lock, per
    stretch of code between two accesses.

    ** Files and the code they model

    - Prelude: bytes, Go slices and arrays, errors, the monad with its program
      logic, tactics.  Encoding: encoding/binary, hex, strconv.  Net: the text
      functions of net, strings and path/filepath.  Hash: SHA-256 and HMAC.  Float:
      float64.
    - Io: readers, connections, clock, randomness, files; the [JSON] interface.
    - Frame: pkg/protocol/frame.go, the frame [Writer] and [ReadFrame].  Sharing:
      [WriteFrame] as the building of a frame in the writer's buffer and the
      sending of that buffer, for two goroutines on one writer.
    - Connect: internal/tunnel/protocol.go, and its copy in internal/relay/relay.go
      (Module [Relay]).
    - Wire and Invite: pkg/invite/invite.go, the binary authentication messages and
      the invite links.
    - Identity: pkg/identity, keys and key files; the [Ed25519] interface.
    - Registry: internal/registry/registry.go.
    - Auth: internal/auth/hmac.go and device.go, both ends of the three handshakes
      and [ServerDispatch].
    - Shaping: internal/bcl/math.go, padding.go, personality.go and
      internal/obfs/conn.go.  Bcl: the pacer (pacing.go), fragmentation and the
      reader (conn.go).  Burst: the goroutines of conn.go as one machine: the
      sender's selects and its flush in three steps per frame (sample, build, send),
      the keepalive loop's looks and its PING in the same two steps, the callers of
      [Write], the reader, and [Close] in its three steps, the second of which may
      cut a frame that is being sent.  Run alone, the machine's flush is
      [fragmentAndSend] and its keepalive turn that of [keepaliveLoop]
      ([flush_alone], [turn_alone]).  Close: what [Close] leaves and when it returns.
    - Pipe: [Relay] of internal/mux/session.go, two copiers over two connections.  Mux:
      its sessions, over the [Smux] interface.
    - Socks: internal/proxy/socks5/server.go.  HttpProxy: internal/proxy/http/server.go,
      with the [HTTP] interface to net/http, and the accept loops of both proxies.
    - Telemetry: internal/telemetry/collector.go.  Metrics: internal/metrics/metrics.go,
      as the calls to the [Prometheus] interface.
    - Config: internal/config/config.go, with time.ParseDuration; [YAML] interface.
    - Transport: internal/transport/tls/client.go, over a [network], and the interface
      of internal/transport/transport.go as a class.
    - Tunnel: internal/tunnel/server.go, and of client.go the streams and the retry
      policy.  Listener: the accept loop of server.go and the end of sessions.
      Client: the rest of client.go, [connect] and [Run] as a whole.
    - Bridge: the handlers and the upstream session of internal/relay/relay.go, as
      functions; Upstream: that session as the relay's goroutines share it, one step
      per access of the field.
    - Dashboard: internal/dashboard/api.go and the routes of server.go.
    - Terminal, Commands, CommandFacts: cmd/daxson/cmd, the commands that run and
      end, and what they guarantee.  Launch: connect.go, serve.go and
      cmd/daxsond/main.go, the commands that start the components.  Processes:
      commands running beside a server on one registry file.  Diagnostics: what
      doctor and status say.
    - Enrolment: the operator's command, the server and the user's command together,
      from an invite to a login.
    - Cli: the command tree of root.go and its siblings, the two main functions, the
      loggers; the [Cobra] and [Zap] interfaces.
    - Serving: the creation of the listeners (server.go of internal/tunnel and of
      internal/dashboard, [Serve] of metrics.go, [listenDownstream] of relay.go), and
      the process of [daxson serve], in which connections, streams and requests to
      the dashboard interleave.

    The calls follow the code: the proxies open their streams through the [Dialer] class,
    which Tunnel and Bridge implement with [client_OpenStream] and
    [relay_OpenStream]; [Tunnel.handleConn] runs [Auth.ServerDispatch] on the
    Registry and writes to the Telemetry collector; [fragmentAndSend] draws sizes
    through the class [SizeSource], which the padding selector of Shaping
    implements, and writes with [WriteFrame]; Tunnel, the proxies and Bridge end in
    [Pipe.Relay]; the tunnel client authenticates through the class [ClientAuth],
    with the HMAC and the device handshake of Auth as instances; a command runs the
    operations of Identity, Registry, Invite, Auth, Transport and Config on the
    environment of its process ([cli]), and [Cli.perform] picks the command.  Serving
    runs the handlers of Tunnel, Listener and Dashboard on one state.

    ** What the theorems show

    - Data path.  Frames round trip in every segmentation; the reader and the
      writer are described on every input and fault; what a burst sends is what
      the peer reads; in every interleaving of sender, keepalive loop, callers
      and timers accepted writes reach the wire in order, unless the two goroutines
      meet in the frame buffer; what closing a connection at any moment leaves on
      the wire and drops, and when [Close] can return (Frame, Bcl, Burst, Close).
    - Proxying.  The SOCKS5 server decides as a specification of RFC 1928 does, and
      the HTTP proxy as one on plain bytes; a request through client and server, or client, relay and server, dials
      exactly the requested target and loses no byte; the byte relay delivers
      unchanged prefixes, always returns, and with no write fault delivers one
      direction whole (Socks, HttpProxy, Connect, Tunnel, Bridge, Pipe).
    - Authentication.  Each handshake's verdict as a function of request, clock
      and registry; exchanges in which both ends succeed; no input makes the
      dispatch panic (Auth, Wire, Tunnel, Bridge).
    - Registry.  An invariant over all histories and faults, what revocation and
      enrolment guarantee for ever after, atomic saving; what a running server makes
      of changes to its file; the whole way from an invite made by the operator to
      a user's login, before and after a restart (Registry, Identity, Processes,
      Enrolment).
    - Shaping.  Size sampling against a reference; which rejection loops return
      (Shaping).
    - Operation.  How the client gets and replaces its session, reconnection and
      its back-off, the relay's upstream session, alone and under races; the books
      of the serving process, and the one input that stops it; the collector as a
      digest of its history; metric labels; invite links, profiles, what the
      dashboard can change (Client, Tunnel, Bridge, Upstream, Listener, Serving,
      Telemetry, Metrics, Invite, Config, Dashboard).
    - Commands.  What every command line comes down to; what importing an invite
      checks and does, that a key rotation keeps the old key, what the diagnostics
      report, what becomes of [daxson connect], that nothing starts a relay (Cli,
      CommandFacts, Diagnostics, Launch).

    Several theorems state behaviour the code cannot have meant: video sampling
    that never returns, and the [Close] that waits for it, revocation defeated by a colliding short ID, a probe
    upstream that is sent a truncated request, the empty pre-shared key of a
    server configured by identity alone, profiles that cannot be loaded back, the
    unlocked frame writer, dashboard routes that reach no handler, a CONNECT request
    that takes the server down, revocations a running server undoes, a [daxson
    connect] that never serves, a relay that no command runs.

    ** Fuel

    Loops that are not structural run on fuel that is proved or computed to be
    enough.  A read makes at most one call per segment and one at the end
    ([read_fuel]; [read_loop_spec]).  Fragmentation makes one round per byte left
    and each round sends at least one byte ([fragmentAndSend_frames]).  [Conn_Read]
    takes one frame per round and a frame takes at least one byte of what remains.
    Bisection halves an interval no longer than the table ([bisect_reference]).
    The rejection loop of the padding selector and every other loop that may not
    return has [None] for not having returned, and its theorem says when it does; to the machine of Burst
    a sampling of more draws than the bound given to [shaper_source] is a hang.
    Duration parsing consumes a byte per group, trimming a byte per round, an
    IPv6 address has eight groups.  [http.ReadRequest] gets at least one byte or an
    error per round.  Loops that run until a context is done (accept, reconnection,
    keepalive) consume a script of what they meet and have no fuel.

    ** Interfaces

    crypto/ed25519 (signatures of a key pair verify; nothing on forgery),
    encoding/json (what it marshals it gives back), yaml.v3 (how a struct is laid
    out, that a field's own method decodes a mapping, that a mapping is not a
    string),
    math.Pow, Log and Exp (any functions), smux (sessions are scripts of the
    streams they open), http.ReadRequest (a prefix decides), Prometheus (accepts
    a label exactly if it is valid UTF-8), TCP and uTLS (a handshake without a
    name to verify fails), cobra (a command runs with its required flags given and
    its arguments counted, an unknown one is refused), zap (the names of the
    levels).  Each class has an instance on which the theorems are
    exercised.

    ** Not modelled

    Context cancellation inside a call; smux itself; a wait that overflows the 64
    bits of a duration (backoff and jitter are exact sums, far below 2^63 ns for any
    delay of less than a century); in the machine of Burst, a connection that
    fails by itself, and one goroutine writing to the frame buffer while the
    connection copies from it ([conn.Write] takes the buffer at one moment, or is
    cut by [Close]); the relay's loop that accepts
    the streams of a downstream session (its handler and its end are); how answers
    of the dashboard, the metrics and the page are rendered; pprof, which serves
    nothing of the program; Windows paths.  Logging has no effect on the state and
    is left out throughout; which logger a command builds is in Cli.  What is left
    of each source file is its imports and comments.  The events of Processes are
    whole calls and whole commands, those of Serving whole handlers: the file
    operations of two processes do not interleave within them. *)

From Stdlib Require Import Strings.Byte String ZArith Lia.
From stdpp Require Import base list numbers strings countable.
#[global] Open Scope Z_scope.

(** ** Bytes and Go strings

    A Go [string] and a Go [[]byte] are both a sequence of bytes here; the type
    [byte] of the Standard Library has exactly 256 inhabitants, so the width of
    a byte is enforced by typing. *)

Abbreviation bytes := (list byte).

#[global] Instance byte_eq_dec : EqDecision byte := Byte.byte_eq_dec.
#[global] Instance byte_countable : Countable byte :=
  inj_countable Byte.to_N Byte.of_N Byte.of_to_N.

(** A literal Go string. *)
Definition str (s : string) : bytes := list_byte_of_string s.

(** [int(b)] for a byte, and the truncating conversion [byte(z)]. *)
Definition Z_of_byte (b : byte) : Z := Z.of_N (Byte.to_N b).
Definition byte_of_Z (z : Z) : byte :=
  match Byte.of_N (Z.to_N (z `mod` 256)) with Some b => b | None => x00 end.

Lemma Z_of_byte_range b : 0 <= Z_of_byte b < 256.
Proof. unfold Z_of_byte. pose proof (Byte.to_N_bounded b). lia. Qed.

Lemma byte_of_Z_of_byte b : byte_of_Z (Z_of_byte b) = b.
Proof.
  unfold byte_of_Z. rewrite Z.mod_small by apply Z_of_byte_range.
  unfold Z_of_byte. rewrite N2Z.id. by rewrite Byte.of_to_N.
Qed.

Lemma Z_of_byte_of_Z z : Z_of_byte (byte_of_Z z) = z `mod` 256.
Proof.
  unfold byte_of_Z, Z_of_byte.
  assert (0 <= z `mod` 256 < 256) by (apply Z.mod_pos_bound; lia).
  destruct (Byte.of_N _) as [b|] eqn:Hb.
  - apply Byte.to_of_N in Hb. rewrite Hb. rewrite Z2N.id; lia.
  - apply Byte.of_N_None_iff in Hb. lia.
Qed.

Lemma Z_of_byte_inj b1 b2 : Z_of_byte b1 = Z_of_byte b2 → b1 = b2.
Proof. intros H. rewrite <- (byte_of_Z_of_byte b1), H. apply byte_of_Z_of_byte. Qed.

(** ** Lists and lengths

    Go's [len] is an [int]; lengths of lists are [nat]. *)

Definition len {A} (l : list A) : Z := Z.of_nat (length l).
Arguments len : simpl never.

Lemma len_nonneg {A} (l : list A) : 0 <= len l.
Proof. unfold len. lia. Qed.

Lemma len_app {A} (l k : list A) : len (l ++ k) = len l + len k.
Proof. unfold len. rewrite length_app. lia. Qed.

Lemma take_app_exact {A} (l k : list A) n : n = length l → take n (l ++ k) = l.
Proof. intros ->. apply take_app_length. Qed.

Lemma drop_app_exact {A} (l k : list A) n : n = length l → drop n (l ++ k) = k.
Proof. intros ->. apply drop_app_length. Qed.

Lemma length_take_le {A} (l : list A) n : (n <= length l)%nat → length (take n l) = n.
Proof. intros. rewrite length_take. lia. Qed.

(** [copy(dst[off:], src)]: overwrites as much of [dst] from [off] on as [src]
    covers; what does not fit is not copied. *)
Definition blit {A} (off : nat) (src dst : list A) : list A :=
  take off dst ++ take (length dst - off) src ++ drop (off + length src) dst.

Lemma length_blit {A} off (src dst : list A) :
  (off <= length dst)%nat → length (blit off src dst) = length dst.
Proof.
  intros. unfold blit. rewrite !length_app, !length_take, length_drop. lia.
Qed.

(** A buffer that is filled from the left: what is already written is kept and
    the next part lands right behind it. *)
Lemma blit_frontier {A} off (done rest src : list A) :
  off = length done → (length src <= length rest)%nat →
  blit off src (done ++ rest) = (done ++ src) ++ drop (length src) rest.
Proof.
  intros -> Hle. unfold blit.
  rewrite take_app_length, length_app.
  rewrite (take_ge src) by lia.
  rewrite <- app_assoc. f_equal. f_equal.
  rewrite drop_app_ge by lia. f_equal. lia.
Qed.

(** A fixed-size Go array receives [copy(arr[:], src)]. *)
Definition to_array (n : nat) (src : bytes) : bytes :=
  blit 0 src (replicate n x00).

Lemma length_to_array n src : length (to_array n src) = n.
Proof. unfold to_array. rewrite length_blit; rewrite ?length_replicate; lia. Qed.

Lemma to_array_exact n src : length src = n → to_array n src = src.
Proof.
  intros <-. unfold to_array, blit. cbn [take]. rewrite length_replicate.
  rewrite Nat.sub_0_r, firstn_all. cbn [app].
  rewrite drop_ge by (rewrite length_replicate; lia). apply app_nil_r.
Qed.

(** [int64(z)], with its wrap-around. *)
Definition int64 (z : Z) : Z := (z + 2 ^ 63) `mod` 2 ^ 64 - 2 ^ 63.

Lemma int64_small z : - 2 ^ 63 <= z < 2 ^ 63 → int64 z = z.
Proof. intros Hz. unfold int64. rewrite Z.mod_small; lia. Qed.

Lemma int64_add a b : int64 (int64 a + b) = int64 (a + b).
Proof.
  unfold int64.
  replace ((a + 2 ^ 63) `mod` 2 ^ 64 - 2 ^ 63 + b + 2 ^ 63) with ((a + 2 ^ 63) `mod` 2 ^ 64 + b) by lia.
  rewrite Zplus_mod_idemp_l. do 2 f_equal. lia.
Qed.

(** ** Errors and outcomes

    [error] is a Go error value.  [ErrSentinel] is a package-level
    [errors.New] variable, which is compared by identity; [ErrNew] is an error
    made where it is returned (message and the numbers it formats); [ErrWrap]
    is [fmt.Errorf] with [%w]; [ErrEnv] is an error of the operating system or
    the network (deadline exceeded, connection reset, ...). *)
Inductive error : Type :=
  | EOF
  | ErrUnexpectedEOF
  | ErrSentinel (name : string)
  | ErrNew (msg : string) (args : list Z)
  | ErrWrap (ctx : string) (inner : error)
  | ErrEnv (code : Z).

#[global] Instance error_eq_dec : EqDecision error.
Proof. solve_decision. Defined.

(** [errors.Is(err, target)] for a comparable target. *)
Fixpoint errors_Is (e target : error) : bool :=
  if decide (e = target) then true
  else match e with ErrWrap _ i => errors_Is i target | _ => false end.

(** A Go function ends with a value, with a non-nil error, or panics. *)
Inductive result (A : Type) : Type :=
  | Ok (a : A)
  | Err (e : error)
  | Panic.
Arguments Ok {A} a.
Arguments Err {A} e.
Arguments Panic {A}.

Definition is_ok {A} (r : result A) : bool := match r with Ok _ => true | _ => false end.
Definition is_panic {A} (r : result A) : bool := match r with Panic => true | _ => false end.

(** [b[i]] and [b[i:j]]: they panic out of range. *)
Definition index (b : bytes) (i : Z) : result byte :=
  if (0 <=? i) && (i <? len b) then Ok (nth (Z.to_nat i) b x00) else Panic.
Definition slice {A} (b : list A) (i j : Z) : result (list A) :=
  if (0 <=? i) && (i <=? j) && (j <=? len b)
  then Ok (take (Z.to_nat (j - i)) (drop (Z.to_nat i) b)) else Panic.

Lemma index_Ok b i : 0 <= i < len b → index b i = Ok (nth (Z.to_nat i) b x00).
Proof. intros [? ?]. unfold index. rewrite (proj2 (Z.leb_le _ _)), (proj2 (Z.ltb_lt _ _)) by lia. done. Qed.

Lemma slice_Ok {A} (b : list A) i j :
  0 <= i <= j → j <= len b →
  slice b i j = Ok (take (Z.to_nat (j - i)) (drop (Z.to_nat i) b)).
Proof. intros [? ?] ?. unfold slice. rewrite !(proj2 (Z.leb_le _ _)) by lia. done. Qed.

(** ** The state and error monad of the models

    [M S A] is a Go function that reads and writes the state [S]: the state it
    leaves behind is there on every outcome, errors and panics included. *)
Definition M (S A : Type) : Type := S → result A * S.

Definition ret {S A} (a : A) : M S A := λ s, (Ok a, s).
Definition fail {S A} (e : error) : M S A := λ s, (Err e, s).
Definition panic {S A} : M S A := λ s, (Panic, s).
Definition bind {S A B} (m : M S A) (k : A → M S B) : M S B := λ s,
  match m s with
  | (Ok a, s') => k a s'
  | (Err e, s') => (Err e, s')
  | (Panic, s') => (Panic, s')
  end.
Definition lift {S A} (r : result A) : M S A := λ s, (r, s).
Definition gets {S A} (f : S → A) : M S A := λ s, (Ok (f s), s).
Definition modify {S} (f : S → S) : M S unit := λ s, (Ok tt, f s).

(** [v, err := m]: the caller looks at the error itself. *)
Definition try {S A} (m : M S A) : M S (A + error) := λ s,
  match m s with
  | (Ok a, s') => (Ok (inl a), s')
  | (Err e, s') => (Ok (inr e), s')
  | (Panic, s') => (Panic, s')
  end.

(** [if _, err := m; err != nil { return fmt.Errorf("ctx: %w", err) }] *)
Definition wrap {S A} (ctx : string) (m : M S A) : M S A := λ s,
  match m s with (Err e, s') => (Err (ErrWrap ctx e), s') | o => o end.

(** [m //nolint:errcheck]: the error is dropped. *)
Definition ignore {S A} (m : M S A) : M S unit := bind (try m) (λ _, ret tt).

(** [defer fin; m]: the deferred action runs on every way out of [m]. *)
Definition defer {S A} (fin : S → S) (m : M S A) : M S A := λ s,
  match m s with (r, s') => (r, fin s') end.

(** [for _, a := range l { if err := f(a); err != nil { return err } }] *)
Fixpoint each {S A} (f : A → M S unit) (l : list A) : M S unit :=
  match l with
  | [] => ret tt
  | a :: l' => bind (f a) (λ _, each f l')
  end.

(** [n] calls in a row, with their results. *)
Fixpoint times {S A} (n : nat) (m : M S A) : M S (list A) :=
  match n with
  | O => ret []
  | S n' => bind m (λ a, bind (times n' m) (λ l, ret (a :: l)))
  end.

(** A computation on a part of the state. *)
Definition zoom {S T A} (get : S → T) (put : T → S → S) (m : M T A) : M S A := λ s,
  match m (get s) with (r, t) => (r, put t s) end.

Declare Scope go_scope.
Delimit Scope go_scope with go.
Notation "x <- m ;; k" := (bind m (λ x, k))
  (at level 100, m at next level, right associativity) : go_scope.
Notation "m ;;; k" := (bind m (λ _, k))
  (at level 100, right associativity) : go_scope.
Notation "'when' c 'do' m 'od'" := (if c then m else ret tt)
  (at level 0, c at level 99, m at level 200) : go_scope.
#[global] Open Scope go_scope.

(** Symbolic execution of a bind whose first part is known. *)
Lemma bind_Ok {S A B} (m : M S A) (k : A → M S B) s a s' :
  m s = (Ok a, s') → bind m k s = k a s'.
Proof. unfold bind. by intros ->. Qed.

Lemma bind_Err {S A B} (m : M S A) (k : A → M S B) s e s' :
  m s = (Err e, s') → bind m k s = (Err e, s').
Proof. unfold bind. by intros ->. Qed.

Lemma bind_bind {S A B C} (m : M S A) (k : A → M S B) (h : B → M S C) s :
  bind (bind m k) h s = bind m (λ a, bind (k a) h) s.
Proof. unfold bind. by destruct (m s) as [[] ?]. Qed.

Lemma bind_ext {S A B} (m : M S A) (k k' : A → M S B) s :
  (∀ a s', k a s' = k' a s') → bind m k s = bind m k' s.
Proof. intros Hk. unfold bind. destruct (m s) as [[] ?]; [apply Hk|done|done]. Qed.

Lemma wrap_Ok {S A} c (m : M S A) s a s' : m s = (Ok a, s') → wrap c m s = (Ok a, s').
Proof. unfold wrap. by intros ->. Qed.

Lemma wrap_Err {S A} c (m : M S A) s e s' :
  m s = (Err e, s') → wrap c m s = (Err (ErrWrap c e), s').
Proof. unfold wrap. by intros ->. Qed.

(** What a successful sequence went through. *)
Lemma bind_inv_Ok {S A B} (m : M S A) (k : A → M S B) s b s' :
  bind m k s = (Ok b, s') → ∃ a s1, m s = (Ok a, s1) ∧ k a s1 = (Ok b, s').
Proof. unfold bind. destruct (m s) as [[] ?]; intros; naive_solver. Qed.

Lemma wrap_inv_Ok {S A} c (m : M S A) s a s' : wrap c m s = (Ok a, s') → m s = (Ok a, s').
Proof. unfold wrap. destruct (m s) as [[] ?]; intros; naive_solver. Qed.

(** ** Program logic

    [hoare P m Q E]: from a state in [P] the call does not panic; it returns
    with [Q] or reports an error with [E]. *)
Definition hoare {S A} (P : S → Prop) (m : M S A) (Q : A → S → Prop) (E : error → S → Prop) : Prop :=
  ∀ s, P s → match m s with (Ok a, s') => Q a s' | (Err e, s') => E e s' | (Panic, _) => False end.

Section hoare.
Context {S : Type}.
Implicit Types P : S → Prop.

Lemma hoare_ret {A} P (a : A) Q E : (∀ s, P s → Q a s) → hoare P (ret a) Q E.
Proof. intros HQ s Hs. by apply HQ. Qed.
Lemma hoare_fail {A} P (e : error) (Q : A → S → Prop) E : (∀ s, P s → E e s) → hoare P (fail e) Q E.
Proof. intros HE s Hs. by apply HE. Qed.
Lemma hoare_bind {A B} P (m : M S A) (k : A → M S B) Q R E :
  hoare P m R E → (∀ a, hoare (R a) (k a) Q E) → hoare P (bind m k) Q E.
Proof.
  intros Hm Hk s Hs. unfold bind. specialize (Hm s Hs).
  destruct (m s) as [[a|e|] s']; [by apply Hk|done|done].
Qed.
Lemma hoare_try {A} P (m : M S A) Q R E :
  hoare P m R E → (∀ a s, R a s → Q (inl a) s) → (∀ e s, E e s → Q (inr e) s) →
  hoare P (try m) Q (λ _ _, False).
Proof.
  intros Hm H1 H2 s Hs. unfold try. specialize (Hm s Hs).
  destruct (m s) as [[a|e|] s']; auto.
Qed.
Lemma hoare_wrap {A} P c (m : M S A) Q (I : S → Prop) :
  hoare P m Q (λ _, I) → hoare P (wrap c m) Q (λ _, I).
Proof.
  intros Hm s Hs. unfold wrap. specialize (Hm s Hs). by destruct (m s) as [[a|e|] s'].
Qed.
Lemma hoare_ignore {A} P (m : M S A) (I : S → Prop) E :
  hoare P m (λ _, I) (λ _, I) → hoare P (ignore m) (λ _, I) E.
Proof.
  intros Hm s Hs. unfold ignore, try, bind. specialize (Hm s Hs). by destruct (m s) as [[a|e|] s'].
Qed.
Lemma hoare_try_inv {A} P (m : M S A) (I : S → Prop) E :
  hoare P m (λ _, I) (λ _, I) → hoare P (try m) (λ _, I) E.
Proof.
  intros Hm s Hs. unfold try. specialize (Hm s Hs). by destruct (m s) as [[a|e|] s'].
Qed.
Lemma hoare_lift {A} P (r : result A) (Q : A → S → Prop) E :
  (∀ s, P s → match r with Ok a => Q a s | Err e => E e s | Panic => False end) → hoare P (lift r) Q E.
Proof. intros HQ s Hs. specialize (HQ s Hs). unfold lift. by destruct r. Qed.
Lemma hoare_gets {A} P (f : S → A) Q E : (∀ s, P s → Q (f s) s) → hoare P (gets f) Q E.
Proof. intros HQ s Hs. by apply HQ. Qed.
Lemma hoare_modify P (f : S → S) Q E : (∀ s, P s → Q tt (f s)) → hoare P (modify f) Q E.
Proof. intros HQ s Hs. by apply HQ. Qed.
Lemma hoare_if {A} P (c : bool) (m1 m2 : M S A) Q E :
  (c = true → hoare P m1 Q E) → (c = false → hoare P m2 Q E) → hoare P (if c then m1 else m2) Q E.
Proof. destruct c; auto. Qed.
Lemma hoare_weaken {A} (P P' : S → Prop) (m : M S A) (Q Q' : A → S → Prop) (E E' : error → S → Prop) :
  hoare P' m Q' E' → (∀ s, P s → P' s) → (∀ a s, Q' a s → Q a s) → (∀ e s, E' e s → E e s) →
  hoare P m Q E.
Proof.
  intros Hm HP HQ HE s Hs. specialize (Hm s (HP s Hs)). destruct (m s) as [[a|e|] s']; auto.
Qed.
End hoare.

(** [keeps P m]: whatever the outcome of the call, a panic included, [P] survives it. *)
Definition keeps {S A} (P : S → Prop) (m : M S A) : Prop := ∀ s, P s → P (snd (m s)).

Section keeps.
Context {S : Type}.
Implicit Types P : S → Prop.

Lemma keeps_pure {A} P (r : result A) : keeps P (λ s, (r, s)).
Proof. by intros s. Qed.
Lemma keeps_ret {A} P (a : A) : keeps P (ret a).
Proof. by intros s. Qed.
Lemma keeps_fail {A} P e : keeps P (fail (A := A) e).
Proof. by intros s. Qed.
Lemma keeps_lift {A} P (r : result A) : keeps P (lift r).
Proof. by intros s. Qed.
Lemma keeps_gets {A} P (f : S → A) : keeps P (gets f).
Proof. by intros s. Qed.
Lemma keeps_modify P f : (∀ s, P s → P (f s)) → keeps P (modify f).
Proof. intros Hf s Hs. by apply Hf. Qed.
Lemma keeps_bind {A B} P (m : M S A) (k : A → M S B) : keeps P m → (∀ a, keeps P (k a)) → keeps P (bind m k).
Proof.
  intros Hm Hk s Hs. unfold bind. specialize (Hm s Hs). destruct (m s) as [[a|e|] s']; [by apply Hk|done|done].
Qed.
Lemma keeps_try {A} P (m : M S A) : keeps P m → keeps P (try m).
Proof. intros Hm s Hs. unfold try. specialize (Hm s Hs). by destruct (m s) as [[a|e|] s']. Qed.
Lemma keeps_wrap {A} P c (m : M S A) : keeps P m → keeps P (wrap c m).
Proof. intros Hm s Hs. unfold wrap. specialize (Hm s Hs). by destruct (m s) as [[a|e|] s']. Qed.
Lemma keeps_ignore {A} P (m : M S A) : keeps P m → keeps P (ignore m).
Proof. intros Hm. apply keeps_bind; [by apply keeps_try|]. intros a. apply keeps_ret. Qed.
Lemma keeps_if {A} P (c : bool) (m1 m2 : M S A) : keeps P m1 → keeps P m2 → keeps P (if c then m1 else m2).
Proof. by destruct c. Qed.
End keeps.

Create HintDb gokeeps.
#[export] Hint Resolve keeps_ret keeps_fail keeps_lift keeps_gets keeps_pure keeps_bind keeps_try keeps_wrap
  keeps_ignore keeps_if : gokeeps.

(** ** Automation *)

(** Case analysis on the conditions of the code, with the arithmetic facts they
    state. *)
Ltac case_bool :=
  match goal with
  | |- context [if (?a <? ?b) then _ else _] => destruct (Z.ltb_spec a b)
  | |- context [if (?a <=? ?b) then _ else _] => destruct (Z.leb_spec a b)
  | |- context [if (?a =? ?b) then _ else _] => destruct (Z.eqb_spec a b)
  | |- context [if (?a >? ?b) then _ else _] => rewrite (Z.gtb_ltb a b); destruct (Z.ltb_spec b a)
  | |- context [if (?a >=? ?b) then _ else _] => rewrite (Z.geb_leb a b); destruct (Z.leb_spec b a)
  end.

(** Invert a successful run: one equation per call of the body. *)
Ltac inv_ok H :=
  repeat match type of H with
  | bind _ _ _ = (Ok _, _) =>
      let a := fresh "a" in let s := fresh "s" in let H1 := fresh "Hrun" in
      apply bind_inv_Ok in H as (a & s & H1 & H)
  end.

Lemma length_of_len {A} (l : list A) n : len l = Z.of_nat n ↔ length l = n.
Proof. unfold len. lia. Qed.

Create Rewrite HintDb golen.
#[export] Hint Rewrite @length_app @length_replicate @length_take @length_drop
  @length_to_array : golen.

(** Lengths of concatenations, prefixes and arrays, down to linear arithmetic. *)
Ltac len_tac := unfold len in *; autorewrite with golen; cbn [length]; try lia.
