(* ===== verification/Encoding.v ===== *)
(** Encodings of the Go standard library that the wire formats use:
    [encoding/binary.BigEndian], [encoding/hex] and [strconv.FormatInt]. *)

From Stdlib Require Import Strings.Byte String ZArith Lia DecimalString DecimalZ DecimalFacts.
From stdpp Require Import base list.
From S2P Require Import Prelude.

(** ** encoding/binary, big endian *)

(** [BigEndian.PutUint8n]: the byte at index [i] is [byte(v >> 8*(n-1-i))]. *)
Fixpoint be_put (n : nat) (v : Z) : bytes :=
  match n with
  | O => []
  | S n' => byte_of_Z (Z.shiftr v (8 * Z.of_nat n')) :: be_put n' v
  end.

(** [BigEndian.Uint8n]: bytes are shifted in from the left. *)
Definition be_acc (acc : Z) (b : byte) : Z := Z.lor (Z.shiftl acc 8) (Z_of_byte b).
Definition be_get (bs : bytes) : Z := fold_left be_acc bs 0.

Lemma length_be_put n v : length (be_put n v) = n.
Proof. induction n; simpl; auto. Qed.
#[export] Hint Rewrite length_be_put : golen.

Lemma be_acc_arith acc b : be_acc acc b = acc * 256 + Z_of_byte b.
Proof.
  unfold be_acc. pose proof (Z_of_byte_range b).
  assert (Hd : Z.land (Z.shiftl acc 8) (Z_of_byte b) = 0).
  { apply Z.bits_inj'. intros n Hn. rewrite Z.land_spec, Z.bits_0.
    destruct (Z.lt_ge_cases n 8).
    + rewrite Z.shiftl_spec_low; [done|lia].
    + rewrite <- (Z.mod_small (Z_of_byte b) (2 ^ 8)) by (change (2 ^ 8) with 256; lia).
      rewrite Z.mod_pow2_bits_high by lia.
      apply andb_false_r. }
  rewrite <- Z.lxor_lor, <- Z.add_nocarry_lxor by done.
  rewrite Z.shiftl_mul_pow2 by lia. lia.
Qed.

Lemma be_fold_arith bs acc :
  fold_left be_acc bs acc = acc * 256 ^ len bs + be_get bs.
Proof.
  unfold be_get. revert acc. induction bs as [|b bs IH]; intros acc.
  - cbn. unfold len. cbn. lia.
  - cbn [fold_left]. rewrite IH, (IH (be_acc 0 b)), !be_acc_arith.
    replace (len (b :: bs)) with (1 + len bs) by (unfold len; cbn [length]; lia).
    rewrite Z.pow_add_r by (try apply len_nonneg; lia). lia.
Qed.

Lemma be_get_cons b bs : be_get (b :: bs) = Z_of_byte b * 256 ^ len bs + be_get bs.
Proof.
  unfold be_get at 1. cbn [fold_left]. rewrite be_fold_arith, be_acc_arith. lia.
Qed.

Lemma be_get_app bs1 bs2 : be_get (bs1 ++ bs2) = be_get bs1 * 256 ^ len bs2 + be_get bs2.
Proof. unfold be_get at 1. rewrite fold_left_app. apply be_fold_arith. Qed.

Lemma be_get_range bs : 0 <= be_get bs < 256 ^ len bs.
Proof.
  induction bs as [|b bs IH]; [unfold be_get, len; cbn; lia|].
  rewrite be_get_cons. pose proof (Z_of_byte_range b).
  replace (len (b :: bs)) with (1 + len bs) by (unfold len; cbn [length]; lia).
  rewrite Z.pow_add_r by (try apply len_nonneg; lia). nia.
Qed.

Lemma be_get_put n v : be_get (be_put n v) = v `mod` 256 ^ Z.of_nat n.
Proof.
  induction n as [|n IH]; [unfold be_get; cbn; by rewrite Z.mod_1_r|].
  cbn [be_put]. rewrite be_get_cons, IH, Z_of_byte_of_Z.
  unfold len. rewrite length_be_put.
  rewrite Z.shiftr_div_pow2 by lia.
  replace (2 ^ (8 * Z.of_nat n)) with (256 ^ Z.of_nat n)
    by (rewrite Z.pow_mul_r by lia; done).
  rewrite Nat2Z.inj_succ, <- Z.add_1_r.
  rewrite (Z.pow_add_r 256) by lia. change (256 ^ 1) with 256.
  rewrite Z.rem_mul_r by (try apply Z.pow_nonzero; lia). lia.
Qed.

Lemma be_get_put_small n v : 0 <= v < 256 ^ Z.of_nat n → be_get (be_put n v) = v.
Proof. intros. rewrite be_get_put. by apply Z.mod_small. Qed.

Lemma be_put_mod n v k : be_put n (k * 256 ^ Z.of_nat n + v) = be_put n v.
Proof.
  revert k. induction n as [|n IH]; intros k; [done|]. cbn [be_put]. f_equal.
  - apply Z_of_byte_inj. rewrite !Z_of_byte_of_Z, !Z.shiftr_div_pow2 by lia.
    replace (2 ^ (8 * Z.of_nat n)) with (256 ^ Z.of_nat n)
      by (rewrite Z.pow_mul_r by lia; done).
    rewrite Nat2Z.inj_succ, Z.pow_succ_r by lia.
    replace (k * (256 * 256 ^ Z.of_nat n) + v)
      with (v + (k * 256) * 256 ^ Z.of_nat n) by lia.
    rewrite Z.div_add by (apply Z.pow_nonzero; lia).
    rewrite Z.mod_add by lia. done.
  - rewrite <- (IH (k * 256)). f_equal.
    rewrite Nat2Z.inj_succ, Z.pow_succ_r by lia. lia.
Qed.

Lemma be_put_get bs : be_put (length bs) (be_get bs) = bs.
Proof.
  induction bs as [|b bs IH]; [done|]. cbn [length be_put]. rewrite be_get_cons.
  unfold len. f_equal.
  - rewrite <- (byte_of_Z_of_byte b) at 2. f_equal.
    rewrite Z.shiftr_div_pow2 by lia.
    replace (2 ^ (8 * Z.of_nat (length bs))) with (256 ^ Z.of_nat (length bs))
      by (rewrite Z.pow_mul_r by lia; done).
    rewrite Z.div_add_l by (apply Z.pow_nonzero; lia).
    rewrite Z.div_small; [lia|]. pose proof (be_get_range bs). unfold len in *. lia.
  - by rewrite be_put_mod.
Qed.

Lemma be_put_get_len n bs : length bs = n → be_put n (be_get bs) = bs.
Proof. intros <-. apply be_put_get. Qed.

(** ** encoding/hex *)

Definition hex_digit (d : Z) : byte :=
  byte_of_Z (if d <? 10 then 48 + d else 97 + (d - 10)).

(** [hex.EncodeToString]: two lower-case digits per byte. *)
Fixpoint hex_encode (bs : bytes) : bytes :=
  match bs with
  | [] => []
  | b :: bs' => hex_digit (Z.shiftr (Z_of_byte b) 4)
                :: hex_digit (Z.land (Z_of_byte b) 15) :: hex_encode bs'
  end.

Definition unhex (b : byte) : Z :=
  let z := Z_of_byte b in if z <? 97 then z - 48 else z - 97 + 10.

Lemma unhex_digit d : 0 <= d < 16 → unhex (hex_digit d) = d.
Proof.
  intros. unfold unhex, hex_digit. rewrite Z_of_byte_of_Z.
  destruct (Z.ltb_spec d 10); rewrite Z.mod_small by lia; case_bool; lia.
Qed.

Lemma hex_encode_inj bs1 bs2 : hex_encode bs1 = hex_encode bs2 → bs1 = bs2.
Proof.
  revert bs2. induction bs1 as [|b1 bs1 IH]; intros [|b2 bs2]; try done.
  cbn [hex_encode]. intros [= H1 H2 H3].
  f_equal; [|by apply IH]. apply Z_of_byte_inj.
  pose proof (Z_of_byte_range b1). pose proof (Z_of_byte_range b2).
  assert (Hh : ∀ z, 0 <= z < 256 → 0 <= Z.shiftr z 4 < 16 ∧ 0 <= Z.land z 15 < 16
                   ∧ z = Z.shiftr z 4 * 16 + Z.land z 15).
  { intros z ?. change 15 with (Z.ones 4). rewrite Z.land_ones, Z.shiftr_div_pow2 by lia.
    change (2 ^ 4) with 16. Z.to_euclidean_division_equations. lia. }
  destruct (Hh (Z_of_byte b1)) as (? & ? & ->); [done|].
  destruct (Hh (Z_of_byte b2)) as (? & ? & ->); [done|].
  apply (f_equal unhex) in H1, H2. rewrite !unhex_digit in H1, H2 by done. congruence.
Qed.

Lemma length_hex_encode bs : length (hex_encode bs) = (2 * length bs)%nat.
Proof. induction bs as [|b bs IH]; cbn [hex_encode length]; [done|]. rewrite IH. lia. Qed.

(** ** strconv.FormatInt(z, 10) *)

Definition dec (z : Z) : bytes := str (NilZero.string_of_int (Z.to_int z)).

Lemma str_inj s1 s2 : str s1 = str s2 → s1 = s2.
Proof.
  unfold str. intros H. apply (f_equal string_of_list_byte) in H.
  by rewrite !string_of_list_byte_of_string in H.
Qed.

Lemma dec_inj z1 z2 : dec z1 = dec z2 → z1 = z2.
Proof.
  unfold dec. intros H%str_inj. apply (f_equal NilZero.int_of_string) in H.
  assert (Hn : ∀ z, Z.to_int z ≠ Decimal.Pos Decimal.Nil ∧ Z.to_int z ≠ Decimal.Neg Decimal.Nil).
  { intros [|p|p]; split; cbn; try done; intros [=];
      apply (DecimalPos.Unsigned.to_uint_nonnil p); auto. }
  rewrite !NilZero.isi in H by apply Hn.
  injection H as H. by apply DecimalZ.to_int_inj in H.
Qed.

(** What is checked for all 65536 ports holds of every port. *)
Definition below_256 : list nat := seq 0 256.
Definition all_ports (P : Z → bool) : bool :=
  forallb (λ a, forallb (λ b, P (256 * Z.of_nat a + Z.of_nat b)) below_256) below_256.

Lemma elem_below_256 n : (n < 256)%nat → In n below_256.
Proof. intros. apply in_seq. lia. Qed.

Lemma forall_ports (P : Z → bool) p : all_ports P = true → 0 <= p < 65536 → P p = true.
Proof.
  intros Hall Hp. unfold all_ports in Hall.
  assert (Hq : 0 <= p / 256 < 256) by (split; [apply Z.div_pos; lia|apply Z.div_lt_upper_bound; lia]).
  assert (Hr : 0 <= p `mod` 256 < 256) by (apply Z.mod_pos_bound; lia).
  assert (Hqn : (Z.to_nat (p / 256) < 256)%nat) by lia.
  assert (Hrn : (Z.to_nat (p `mod` 256) < 256)%nat) by lia.
  rewrite forallb_forall in Hall. pose proof (Hall (Z.to_nat (p / 256)) (elem_below_256 _ Hqn)) as Ha.
  cbv beta in Ha. rewrite forallb_forall in Ha.
  pose proof (Ha (Z.to_nat (p `mod` 256)) (elem_below_256 _ Hrn)) as Hb. cbv beta in Hb.
  rewrite !Z2Nat.id in Hb by lia. by rewrite <- Z.div_mod in Hb by lia.
Qed.

Definition is_digit (c : byte) : bool := (48 <=? Z_of_byte c) && (Z_of_byte c <=? 57).

Lemma dec_port p : 0 <= p < 65536 → (length (dec p) <= 5)%nat ∧ Forall (λ b, is_digit b = true) (dec p).
Proof.
  intros Hp. pose proof (forall_ports (λ p, (length (dec p) <=? 5)%nat && forallb is_digit (dec p)) p) as Hall.
  cbv beta in Hall. rewrite andb_true_iff, Nat.leb_le, forallb_forall in Hall.
  destruct Hall as [H1 H2]; [vm_compute; reflexivity|done|]. split; [done|]. by apply List.Forall_forall.
Qed.

(** The decimal text of a port contains no byte that is not a digit. *)
Lemma dec_port_not_in p b : 0 <= p < 65536 → is_digit b = false → b ∉ dec p.
Proof.
  intros Hp Hb Hin. destruct (dec_port p Hp) as [_ Hd]. rewrite Forall_forall in Hd.
  apply Hd in Hin. congruence.
Qed.

Arguments be_put : simpl never.
Arguments be_get : simpl never.
