(* ===== verification/Net.v ===== *)
(** The parts of Go's [net], [net/netip], [strconv] and [path/filepath] that
    take texts apart: [SplitHostPort], [ParseIP], [ParseUint], and the Unix
    [Clean] and [Join]. *)

From Stdlib Require Import Strings.Byte String ZArith Lia.
From stdpp Require Import base list.
From S2P Require Import Prelude Encoding.

(** ** Positions in a text *)

Definition colon : byte := x3a.
Definition lbracket : byte := x5b.
Definition rbracket : byte := x5d.
Definition dot : byte := x2e.
Definition slash : byte := x2f.

(** [strings.IndexByte] and [strings.LastIndexByte]. *)
Definition IndexByte (s : bytes) (c : byte) : option nat := fst <$> list_find (λ x, x = c) s.
Definition LastIndexByte (s : bytes) (c : byte) : option nat :=
  (λ k, length s - 1 - k)%nat <$> IndexByte (rev s) c.

Lemma IndexByte_None s c : IndexByte s c = None ↔ c ∉ s.
Proof.
  unfold IndexByte. rewrite fmap_None, list_find_None, Forall_forall. split.
  - intros H Hin. by apply (H c).
  - intros H x Hx ->. done.
Qed.

Lemma IndexByte_app s c t : c ∉ s → IndexByte (s ++ c :: t) c = Some (length s).
Proof.
  intros Hs. unfold IndexByte.
  replace (list_find (λ x, x = c) (s ++ c :: t)) with (Some (length s, c)); [done|].
  symmetry. apply list_find_Some. split; [by rewrite list_lookup_middle|]. split; [done|].
  intros j y Hj Hlt ->. rewrite lookup_app_l in Hj by done. apply Hs. by eapply list_elem_of_lookup_2.
Qed.

Lemma LastIndexByte_app s c t : c ∉ t → LastIndexByte (s ++ c :: t) c = Some (length s).
Proof.
  intros Ht. unfold LastIndexByte. rewrite rev_app_distr. cbn [rev]. rewrite <- app_assoc. cbn [app].
  rewrite IndexByte_app by (intros Hin%list_elem_of_In; by apply Ht, list_elem_of_In, in_rev).
  cbn. rewrite length_app, length_rev. cbn [length]. f_equal. lia.
Qed.

(** ** [net.SplitHostPort] *)

Definition missingPort {A} : result A := Err (ErrNew "missing port in address" []).
Definition tooManyColons {A} : result A := Err (ErrNew "too many colons in address" []).

Definition SplitHostPort (hostport : bytes) : result (bytes * bytes) :=
  match LastIndexByte hostport colon with
  | None => missingPort
  | Some i =>
      let port := drop (S i) hostport in
      let finish host j k :=
        if bool_decide (lbracket ∈ drop j hostport) then Err (ErrNew "unexpected '[' in address" [])
        else if bool_decide (rbracket ∈ drop k hostport) then Err (ErrNew "unexpected ']' in address" [])
        else Ok (host, port) in
      if bool_decide (head hostport = Some lbracket) then
        match IndexByte hostport rbracket with
        | None => Err (ErrNew "missing ']' in address" [])
        | Some e =>
            if (S e =? length hostport)%nat then missingPort
            else if (S e =? i)%nat then finish (drop 1 (take e hostport)) 1%nat (S e)
            else if bool_decide (hostport !! S e = Some colon) then tooManyColons else missingPort
        end
      else
        let host := take i hostport in
        if bool_decide (colon ∈ host) then tooManyColons else finish host 0%nat 0%nat
  end.

Example SplitHostPort_tests :
  map SplitHostPort [str "example.com:443"; str "[::1]:80"; str ":8080"; str "h:"; str "[fe80::1%eth0]:22"] =
    map Ok [(str "example.com", str "443"); (str "::1", str "80"); ([], str "8080"); (str "h", []); (str "fe80::1%eth0", str "22")] ∧
  map (λ s, is_ok (SplitHostPort s)) [str "example.com"; str "::1:80"; str "[::1]"; str "[::1"; str "[a]b:1"; str "a[b:1"; str "[a]:b:1"] =
    replicate 7 false.
Proof. vm_compute. done. Qed.

(** ** [strconv.ParseUint(s, 10, 16)] *)

Definition ParseUint16 (s : bytes) : result Z :=
  if bool_decide (s = []) then Err (ErrNew "invalid syntax" [])
  else fold_left (λ acc c, match acc with
    | Ok n =>
        if is_digit c then
          let n' := n * 10 + (Z_of_byte c - 48) in
          if n' >? 65535 then Err (ErrNew "value out of range" []) else Ok n'
        else Err (ErrNew "invalid syntax" [])
    | e => e
    end) s (Ok 0).

(** ** [net.ParseIP]: the 16-byte form of an address *)

Definition digit_value (c : byte) : option Z :=
  let z := Z_of_byte c in
  if (48 <=? z) && (z <=? 57) then Some (z - 48)
  else if (97 <=? z) && (z <=? 102) then Some (z - 97 + 10)
  else if (65 <=? z) && (z <=? 70) then Some (z - 65 + 10)
  else None.

(** [parseIPv4Fields]: the value and length of the field that is being read, and
    the fields before it. *)
Fixpoint ip4_fields (fields : list Z) (val : Z) (digLen : nat) (s : bytes) : option (list Z) :=
  match s with
  | [] => if (length fields =? 3)%nat && (0 <? digLen)%nat then Some (fields ++ [val]) else None
  | c :: s' =>
      if is_digit c then
        if (digLen =? 1)%nat && (val =? 0) then None
        else let val' := val * 10 + (Z_of_byte c - 48) in
             if val' >? 255 then None else ip4_fields fields val' (S digLen) s'
      else if bool_decide (c = dot) then
        if (digLen =? 0)%nat || (length fields =? 3)%nat then None
        else ip4_fields (fields ++ [val]) 0 0 s'
      else None
  end.

Definition parseIPv4 (s : bytes) : option bytes := map byte_of_Z <$> ip4_fields [] 0 0 s.

(** A group of hexadecimal digits: its value, its length and the rest.  More than
    four digits are refused. *)
Fixpoint hex_field (acc : Z) (off : nat) (s : bytes) : option (Z * nat * bytes) :=
  match s with
  | c :: s' =>
      match digit_value c with
      | Some d =>
          let acc' := acc * 16 + d in
          if (3 <? off)%nat || (acc' >? 65535) then None else hex_field acc' (S off) s'
      | None => Some (acc, off, s)
      end
  | [] => Some (acc, off, [])
  end.

(** The loop of [parseIPv6]: what has been read, the place of the ellipsis in
    it, and the text that is left. *)
Fixpoint ip6_loop (fuel : nat) (ip : bytes) (ellipsis : option nat) (s : bytes)
    : option (bytes * option nat * bytes) :=
  match fuel with
  | O => Some (ip, ellipsis, s)
  | S fuel' =>
      if (16 <=? length ip)%nat then Some (ip, ellipsis, s) else
      match hex_field 0 0 s with
      | None => None
      | Some (acc, off, rest) =>
          if (off =? 0)%nat then None
          else if bool_decide (head rest = Some dot) then
            if bool_decide (ellipsis = None) && negb (length ip =? 12)%nat then None
            else if (16 <? length ip + 4)%nat then None
            else match parseIPv4 s with Some v4 => Some (ip ++ v4, ellipsis, []) | None => None end
          else
            let ip := ip ++ be_put 2 acc in
            match rest with
            | [] => Some (ip, ellipsis, [])
            | c :: s1 =>
                if negb (bool_decide (c = colon)) then None else
                match s1 with
                | [] => None
                | c1 :: s2 =>
                    if bool_decide (c1 = colon) then
                      if negb (bool_decide (ellipsis = None)) then None
                      else match s2 with
                           | [] => Some (ip, Some (length ip), [])
                           | _ => ip6_loop fuel' ip (Some (length ip)) s2
                           end
                    else ip6_loop fuel' ip ellipsis s1
                end
            end
      end
  end.

(** [netip.parseIPv6] of a text without a zone. *)
Definition parseIPv6 (s : bytes) : option bytes :=
  let '(ellipsis, s) :=
    match s with
    | c1 :: c2 :: s' => if bool_decide (c1 = colon) && bool_decide (c2 = colon) then (Some O, s') else (None, s)
    | _ => (None, s)
    end in
  if bool_decide (ellipsis = Some O) && bool_decide (s = []) then Some (replicate 16 x00) else
  match ip6_loop 8 [] ellipsis s with
  | Some (ip, ellipsis, []) =>
      if (length ip <? 16)%nat then
        match ellipsis with
        | Some e => Some (take e ip ++ replicate (16 - length ip) x00 ++ drop e ip)
        | None => None
        end
      else match ellipsis with Some _ => None | None => Some ip end
  | _ => None
  end.

(** An address with a zone is not an IP. *)
Definition ParseIP (s : bytes) : option bytes :=
  match list_find (λ c, c = dot ∨ c = colon ∨ c = x25) s with
  | Some (_, c) =>
      if bool_decide (c = dot) then (λ v4, replicate 10 x00 ++ [xff; xff] ++ v4) <$> parseIPv4 s
      else if bool_decide (c = colon) then if bool_decide (x25 ∈ s) then None else parseIPv6 s
      else None
  | None => None
  end.

Example ParseIP_tests :
  map ParseIP [str "127.0.0.1"; str "::1"; str "2001:DB8::1"; str "::ffff:1.2.3.4"; str "::"; str "1:2:3:4:5:6:7:8"] =
    map Some [replicate 10 x00 ++ [xff; xff; x7f; x00; x00; x01]; replicate 15 x00 ++ [x01];
      [x20; x01; x0d; xb8] ++ replicate 11 x00 ++ [x01]; replicate 10 x00 ++ [xff; xff; x01; x02; x03; x04];
      replicate 16 x00; [x00; x01; x00; x02; x00; x03; x00; x04; x00; x05; x00; x06; x00; x07; x00; x08]] ∧
  map ParseIP [[]; str "example.com"; str "1.2.3"; str "01.2.3.4"; str "256.1.1.1"; str "[::1]"; str ":::"; str "1::2::3";
      str "fe80::1%eth0"; str "12345::"; str "1:2:3:4:5:6:7:8:9"; str "1:2:3:4:5:6:7::8:9"; str "::1:"] = replicate 13 None.
Proof. vm_compute. done. Qed.

(** ** [path/filepath] on Unix *)

Fixpoint segments (cur s : bytes) : list bytes :=
  match s with
  | [] => [cur]
  | c :: s' => if bool_decide (c = slash) then cur :: segments [] s' else segments (cur ++ [c]) s'
  end.

(** One element of the path; the stack holds those that stay, innermost first. *)
Definition clean_element (rooted : bool) (stack : list bytes) (seg : bytes) : list bytes :=
  if bool_decide (seg = []) || bool_decide (seg = str ".") then stack
  else if bool_decide (seg = str "..") then
    match stack with
    | top :: stack' => if bool_decide (top = str "..") then seg :: stack else stack'
    | [] => if rooted then [] else [seg]
    end
  else seg :: stack.

Fixpoint join_with (sep : bytes) (l : list bytes) : bytes :=
  match l with
  | [] => []
  | [s] => s
  | s :: l' => s ++ sep ++ join_with sep l'
  end.

Definition Clean (path : bytes) : bytes :=
  if bool_decide (path = []) then str "." else
  let rooted := bool_decide (head path = Some slash) in
  let elems := rev (fold_left (clean_element rooted) (segments [] path) []) in
  let out := (if rooted then [slash] else []) ++ join_with [slash] elems in
  if bool_decide (out = []) then str "." else out.

Fixpoint Join (elems : list bytes) : bytes :=
  match elems with
  | [] => []
  | e :: rest => if bool_decide (e = []) then Join rest else Clean (join_with [slash] elems)
  end.

Example Join_tests :
  map Join [[str "/home/u"; str ".daxson"]; [str "a"; str "../b"]; [[]; str "c"]; [str "/"; str "../x/./y/"]; [str "a"; str "../../z"]; []] =
  [str "/home/u/.daxson"; str "b"; str "c"; str "/x/y"; str "../z"; []].
Proof. vm_compute. reflexivity. Qed.
