(* ===== verification/Io.v ===== *)
(** The run-time environment the program talks to: byte streams that arrive in
    segments ([io.Reader], [io.ReadFull]), connections, the wall clock, the
    random source and the file system.

    A reader is a script of segments followed by a final error, so that every
    way the network may cut a byte stream is one script.  [io.ReadFull] is the
    loop of Go's [io.ReadAtLeast]; [ReadFull_spec] shows that its result only
    depends on the bytes, never on the segmentation, and [M_proper] carries that
    to everything that reads through it. *)

From Stdlib Require Import Strings.Byte String ZArith Lia.
From stdpp Require Import base list gmap.
From S2P Require Import Prelude Encoding.

(** ** Readers *)

(** [rd_chunks]: what the next calls of [Read] deliver (a segment longer than
    the buffer is delivered in parts, an empty one is a [0, nil] read);
    [rd_fin]: the error of every later call; [rd_eager]: the reader reports
    [rd_fin] together with the last bytes instead of in a call of its own
    (both are allowed by the [io.Reader] contract). *)
Record reader := Reader { rd_chunks : list bytes; rd_fin : error; rd_eager : bool }.

Definition set_chunks (cs : list bytes) (r : reader) : reader :=
  Reader cs (rd_fin r) (rd_eager r).

(** All bytes that are still to come. *)
Definition flatten (r : reader) : bytes := concat (rd_chunks r).

(** [n, err := r.Read(p)] with [len(p) = n]. *)
Definition rd_read (n : nat) (r : reader) : bytes * option error * reader :=
  match rd_chunks r with
  | [] => ([], Some (rd_fin r), r)
  | c :: cs =>
      if (length c <=? n)%nat
      then (c, (if rd_eager r then match cs with [] => Some (rd_fin r) | _ => None end else None),
            set_chunks cs r)
      else (take n c, None, set_chunks (drop n c :: cs) r)
  end.

(** The loop of [io.ReadAtLeast(r, buf, k)]: [for n < min && err == nil]. *)
Fixpoint read_loop (fuel k : nat) (acc : bytes) (err : option error) (r : reader)
    : option (bytes * option error * reader) :=
  match fuel with
  | O => None
  | S fuel' =>
      match err with
      | None =>
          if (length acc <? k)%nat
          then let '(bs, e, r') := rd_read (k - length acc) r in
               read_loop fuel' k (acc ++ bs) e r'
          else Some (acc, err, r)
      | Some _ => Some (acc, err, r)
      end
  end.

(** One read per segment, the read that meets the end, and the last test. *)
Definition read_fuel (r : reader) : nat := S (S (length (rd_chunks r))).

(** [io.ReadFull(r, buf)] with [len(buf) = k]: the bytes that were read, the
    error, and the reader after the call. *)
Definition ReadFull_raw (k : nat) (r : reader) : bytes * option error * reader :=
  match read_loop (read_fuel r) k [] None r with
  | Some (acc, err, r') =>
      if (k <=? length acc)%nat then (acc, None, r')
      else if (0 <? length acc)%nat && bool_decide (err = Some EOF)
           then (acc, Some ErrUnexpectedEOF, r') else (acc, err, r')
  | None => ([], None, r)
  end.

Definition ReadFull (k : nat) : M reader bytes := λ r,
  match ReadFull_raw k r with
  | (bs, None, r') => (Ok bs, r')
  | (_, Some e, r') => (Err e, r')
  end.

(** ** The stream a reader stands for *)

(** What [io.ReadFull] reports when a stream ends too early. *)
Definition short_error (got : bytes) (fin : error) : error :=
  match got with
  | [] => fin
  | _ => if decide (fin = EOF) then ErrUnexpectedEOF else fin
  end.

(** Two readers are equivalent when they deliver the same bytes and then the
    same error, however the bytes are cut into segments. *)
#[global] Instance reader_equiv : Equiv reader := λ r1 r2,
  flatten r1 = flatten r2 ∧ rd_fin r1 = rd_fin r2.

#[global] Instance reader_equivalence : Equivalence (≡@{reader}).
Proof.
  split.
  - done.
  - intros r1 r2 [? ?]. done.
  - intros r1 r2 r3 [H1 H2] [H3 H4]. split; congruence.
Qed.

(** The reader that delivers [bs] in one segment and ends with [e]. *)
Definition stream (bs : bytes) (e : error) : reader := Reader [bs] e false.

Lemma flatten_stream bs e : flatten (stream bs e) = bs.
Proof. apply app_nil_r. Qed.

Lemma rd_read_spec n r :
  (0 < n)%nat →
  ∃ bs e r', rd_read n r = (bs, e, r') ∧
    flatten r = bs ++ flatten r' ∧ rd_fin r' = rd_fin r ∧ rd_eager r' = rd_eager r ∧
    (length bs <= n)%nat ∧
    match e with
    | Some e' => e' = rd_fin r ∧ flatten r' = [] ∧ rd_chunks r' = []
    | None => length bs = n ∨ (length (rd_chunks r') < length (rd_chunks r))%nat
    end.
Proof.
  intros Hn. unfold rd_read, flatten, set_chunks.
  destruct r as [[|c cs] fin eager]; cbn [rd_chunks rd_fin rd_eager].
  - do 3 eexists. split; [done|]. cbn. split_and!; try done. lia.
  - destruct (Nat.leb_spec (length c) n).
    + do 3 eexists. split; [done|]. cbn. split_and!; try done.
      destruct eager; [destruct cs|]; cbn; auto; right; lia.
    + do 3 eexists. split; [done|]. cbn.
      rewrite app_assoc, take_drop. split_and!; try done.
      * rewrite length_take. lia.
      * left. rewrite length_take. lia.
Qed.

(** The loop ends within its fuel, and with all the bytes it was asked for or
    everything the stream still had. *)
Lemma read_loop_spec fuel k acc r :
  (length acc <= k)%nat → (length (rd_chunks r) + 2 <= fuel)%nat →
  ∃ got err r', read_loop fuel k acc None r = Some (acc ++ got, err, r') ∧
    flatten r = got ++ flatten r' ∧ rd_fin r' = rd_fin r ∧ rd_eager r' = rd_eager r ∧
    (length (acc ++ got) = k
     ∨ (length (acc ++ got) < k)%nat ∧ flatten r' = [] ∧ err = Some (rd_fin r)).
Proof.
  revert acc r. induction fuel as [|fuel IH]; intros acc r Hacc Hfuel; [lia|].
  cbn [read_loop]. destruct (Nat.ltb_spec (length acc) k) as [Hlt|Hge].
  - destruct (rd_read_spec (k - length acc) r) as (bs & e & r1 & Hrd & Hfl & Hfin & Heag & Hbs & He);
      [lia|]. rewrite Hrd.
    assert (Hl : (length (acc ++ bs) <= k)%nat) by (rewrite length_app; lia).
    destruct e as [e'|].
    + destruct He as (-> & Hfl' & Hcs). destruct fuel as [|fuel]; [lia|]. cbn [read_loop].
      exists bs, (Some (rd_fin r)), r1. split_and!; try done.
      destruct (Nat.eq_dec (length (acc ++ bs)) k); [by left|right].
      split_and!; [lia|done|done].
    + destruct He as [He|He].
      * destruct fuel as [|fuel]; [lia|]. cbn [read_loop].
        rewrite length_app, He. rewrite (proj2 (Nat.ltb_ge _ _)) by lia.
        exists bs, None, r1. split_and!; try done. left. rewrite length_app. lia.
      * destruct (IH (acc ++ bs) r1) as (got & err & r' & Hrun & Hfl' & Hfin' & Heag' & Hres);
          [done|lia|].
        exists (bs ++ got), err, r'. rewrite (app_assoc acc bs got), <- Hfin.
        split_and!; try done; try congruence.
        by rewrite Hfl, Hfl', app_assoc.
  - exists [], None, r. rewrite app_nil_r. split_and!; try done. left. lia.
Qed.

(** The abstract specification of [io.ReadFull]: a function of the remaining
    bytes and of the final error. *)
Lemma ReadFull_ok k r :
  (k <= length (flatten r))%nat →
  ∃ r', ReadFull k r = (Ok (take k (flatten r)), r') ∧
    flatten r' = drop k (flatten r) ∧ rd_fin r' = rd_fin r ∧ rd_eager r' = rd_eager r.
Proof.
  intros Hk. unfold ReadFull, ReadFull_raw.
  destruct (read_loop_spec (read_fuel r) k [] r) as (got & err & r' & Hrun & Hfl & Hfin & Heag & Hres);
    [cbn; lia|unfold read_fuel; lia|].
  rewrite Hrun. cbn [app] in *.
  destruct Hres as [Hg|(Hg & Hfl' & _)].
  - rewrite (proj2 (Nat.leb_le _ _)) by lia. exists r'.
    rewrite Hfl, take_app_exact, drop_app_exact by done. done.
  - rewrite Hfl, Hfl', app_nil_r in Hk. lia.
Qed.

Lemma ReadFull_short k r :
  (length (flatten r) < k)%nat →
  ∃ r', ReadFull k r = (Err (short_error (flatten r) (rd_fin r)), r') ∧
    flatten r' = [] ∧ rd_fin r' = rd_fin r ∧ rd_eager r' = rd_eager r.
Proof.
  intros Hk. unfold ReadFull, ReadFull_raw.
  destruct (read_loop_spec (read_fuel r) k [] r) as (got & err & r' & Hrun & Hfl & Hfin & Heag & Hres);
    [cbn; lia|unfold read_fuel; lia|].
  rewrite Hrun. cbn [app] in *.
  destruct Hres as [Hg|(Hg & Hfl' & ->)].
  - apply (f_equal length) in Hfl. rewrite length_app in Hfl. lia.
  - rewrite (proj2 (Nat.leb_gt _ _)) by lia. exists r'.
    rewrite Hfl, Hfl', app_nil_r. unfold short_error.
    destruct got as [|b got]; cbn [length Nat.ltb Nat.leb andb]; [done|].
    destruct (decide (rd_fin r = EOF)) as [E|E].
    + rewrite bool_decide_true by congruence. done.
    + rewrite bool_decide_false by congruence. done.
Qed.

(** Both cases at once, for programs that read a fixed-size block. *)
Lemma ReadFull_spec k r :
  ∃ r', rd_fin r' = rd_fin r ∧ rd_eager r' = rd_eager r ∧ flatten r' = drop k (flatten r) ∧
    ReadFull k r =
      (if (k <=? length (flatten r))%nat then Ok (take k (flatten r))
       else Err (short_error (flatten r) (rd_fin r)), r').
Proof.
  destruct (Nat.leb_spec k (length (flatten r))) as [H|H].
  - destruct (ReadFull_ok k r H) as (r' & ? & ? & ? & ?). eauto.
  - destruct (ReadFull_short k r H) as (r' & ? & Hfl & ? & ?).
    exists r'. split_and!; try done. rewrite Hfl. by rewrite drop_ge by lia.
Qed.

(** Reading a block that the stream starts with. *)
Lemma ReadFull_app k r bs rest :
  flatten r = bs ++ rest → k = length bs →
  ∃ r', ReadFull k r = (Ok bs, r') ∧ flatten r' = rest ∧ rd_fin r' = rd_fin r.
Proof.
  intros Hfl ->. destruct (ReadFull_ok (length bs) r) as (r' & Hrun & Hfl' & ? & ?).
  { rewrite Hfl, length_app. lia. }
  rewrite Hfl in Hrun, Hfl'. rewrite take_app_length in Hrun. rewrite drop_app_length in Hfl'.
  eauto.
Qed.

Lemma ReadFull_not_panic k r : is_panic (fst (ReadFull k r)) = false.
Proof.
  destruct (ReadFull_spec k r) as (r' & _ & _ & _ & ->). by destruct (_ <=? _)%nat.
Qed.

(** ** Segmentation independence

    Equivalent readers give the same outcome and equivalent readers again. *)
Definition M_equiv {S A} `{Equiv S} : relation (result A * S) := λ o1 o2,
  fst o1 = fst o2 ∧ snd o1 ≡ snd o2.

Definition M_proper {S A} `{Equiv S} (m : M S A) : Prop :=
  ∀ s1 s2, s1 ≡ s2 → M_equiv (m s1) (m s2).

Create HintDb gomonad.

Lemma M_proper_ReadFull k : M_proper (ReadFull k).
Proof.
  intros r1 r2 [Hfl Hfin].
  destruct (ReadFull_spec k r1) as (r1' & Hf1 & _ & Hd1 & ->).
  destruct (ReadFull_spec k r2) as (r2' & Hf2 & _ & Hd2 & ->).
  rewrite Hfl, Hfin in *. split; [done|]. split; cbn; congruence.
Qed.

Section proper.
Context {S : Type} `{Equiv S}.

Lemma M_proper_ret {A} (a : A) : M_proper (S := S) (ret a).
Proof. intros s1 s2 ?. by split. Qed.
Lemma M_proper_fail {A} e : M_proper (S := S) (A := A) (fail e).
Proof. intros s1 s2 ?. by split. Qed.
Lemma M_proper_panic {A} : M_proper (S := S) (A := A) panic.
Proof. intros s1 s2 ?. by split. Qed.
Lemma M_proper_lift {A} (r : result A) : M_proper (S := S) (lift r).
Proof. intros s1 s2 ?. by split. Qed.
Lemma M_proper_bind {A B} (m : M S A) (k : A → M S B) :
  M_proper m → (∀ a, M_proper (k a)) → M_proper (bind m k).
Proof.
  intros Hm Hk s1 s2 Hs. unfold bind. destruct (Hm s1 s2 Hs) as [H1 H2].
  destruct (m s1) as [o1 s1'], (m s2) as [o2 s2']. cbn in *. subst.
  destruct o2; [by apply Hk|by split|by split].
Qed.
Lemma M_proper_wrap {A} c (m : M S A) : M_proper m → M_proper (wrap c m).
Proof.
  intros Hm s1 s2 Hs. unfold wrap. destruct (Hm s1 s2 Hs) as [H1 H2].
  destruct (m s1) as [o1 s1'], (m s2) as [o2 s2']. cbn in *. subst.
  destruct o2; by split.
Qed.
Lemma M_proper_times {A} n (m : M S A) : M_proper m → M_proper (times n m).
Proof.
  intros Hm. induction n as [|n IH]; cbn [times].
  - apply M_proper_ret.
  - apply M_proper_bind; [done|]. intros a. apply M_proper_bind; [done|]. intros l. apply M_proper_ret.
Qed.
Lemma M_proper_if {A} (c : bool) (m1 m2 : M S A) :
  M_proper m1 → M_proper m2 → M_proper (if c then m1 else m2).
Proof. by destruct c. Qed.
End proper.

#[export] Hint Resolve M_proper_ReadFull M_proper_ret M_proper_fail M_proper_panic
  M_proper_lift M_proper_bind M_proper_wrap M_proper_times M_proper_if : gomonad.

(** ** Connections

    A [net.Conn]: what it will deliver, what was written to it, a script of
    write faults ([None] for a write that succeeds, [Some (n, e)] for one that
    transmits [n] bytes and fails with [e]; an exhausted script is fault free),
    the read and write deadlines, and whether it is closed. *)
Record conn := Conn {
  c_rd : reader;
  c_out : bytes;
  c_wr : list (option (nat * error));
  c_rdl : option Z;
  c_wdl : option Z;
  c_closed : bool
}.

Definition ErrClosed : error := ErrSentinel "use of closed network connection".

(** A connection whose peer sends [bs] and then closes, with no faults. *)
Definition conn_of (bs : bytes) : conn := Conn (stream bs EOF) [] [] None None false.

Definition put_rd (r : reader) (c : conn) : conn :=
  Conn r (c_out c) (c_wr c) (c_rdl c) (c_wdl c) (c_closed c).
Definition put_rdl (d : option Z) (c : conn) : conn :=
  Conn (c_rd c) (c_out c) (c_wr c) d (c_wdl c) (c_closed c).
Definition put_wdl (d : option Z) (c : conn) : conn :=
  Conn (c_rd c) (c_out c) (c_wr c) (c_rdl c) d (c_closed c).
Definition put_dl (d : option Z) (c : conn) : conn := put_rdl d (put_wdl d c).
Definition conn_close (c : conn) : conn :=
  Conn (c_rd c) (c_out c) (c_wr c) (c_rdl c) (c_wdl c) true.

(** [io.ReadFull(conn, buf)] *)
Definition conn_ReadFull (k : nat) : M conn bytes := λ c,
  if c_closed c then (Err ErrClosed, c) else zoom c_rd put_rd (ReadFull k) c.

(** [conn.Write(b)] *)
Definition conn_Write (b : bytes) : M conn unit := λ c,
  if c_closed c then (Err ErrClosed, c) else
  match c_wr c with
  | [] => (Ok tt, Conn (c_rd c) (c_out c ++ b) [] (c_rdl c) (c_wdl c) false)
  | None :: w => (Ok tt, Conn (c_rd c) (c_out c ++ b) w (c_rdl c) (c_wdl c) false)
  | Some (n, e) :: w =>
      (Err e, Conn (c_rd c) (c_out c ++ take n b) w (c_rdl c) (c_wdl c) false)
  end.

Lemma conn_Write_ok b c :
  c_closed c = false → c_wr c = [] →
  conn_Write b c = (Ok tt, Conn (c_rd c) (c_out c ++ b) [] (c_rdl c) (c_wdl c) false).
Proof. unfold conn_Write. by intros -> ->. Qed.

Lemma conn_ReadFull_app k c bs rest :
  c_closed c = false → flatten (c_rd c) = bs ++ rest → k = length bs →
  ∃ r', conn_ReadFull k c = (Ok bs, put_rd r' c) ∧ flatten r' = rest ∧ rd_fin r' = rd_fin (c_rd c).
Proof.
  intros Hc Hfl Hk. destruct (ReadFull_app k _ _ _ Hfl Hk) as (r' & Hrun & ? & ?).
  exists r'. unfold conn_ReadFull, zoom. by rewrite Hc, Hrun.
Qed.

(** [view c out inp]: an open connection without pending write faults, what has
    been written to it and what it still delivers. *)
Definition view (c : conn) (out inp : bytes) : Prop :=
  c_closed c = false ∧ c_wr c = [] ∧ c_out c = out ∧ flatten (c_rd c) = inp.

Lemma view_conn_of bs : view (conn_of bs) [] bs.
Proof. split_and!; try done. apply flatten_stream. Qed.

Lemma view_put_rdl out inp d c : view c out inp → view (put_rdl d c) out inp.
Proof. done. Qed.
Lemma view_put_wdl out inp d c : view c out inp → view (put_wdl d c) out inp.
Proof. done. Qed.
Lemma view_put_dl out inp d c : view c out inp → view (put_dl d c) out inp.
Proof. done. Qed.

Lemma view_read k c out inp :
  view c out inp →
  ∃ c', view c' out (drop k inp) ∧ snd (conn_ReadFull k c) = c' ∧
    if (k <=? length inp)%nat then fst (conn_ReadFull k c) = Ok (take k inp)
    else ∃ e, fst (conn_ReadFull k c) = Err e.
Proof.
  intros (Hc & Hw & Ho & <-). destruct (ReadFull_spec k (c_rd c)) as (r' & _ & _ & Hd & Hr).
  exists (put_rd r' c). unfold conn_ReadFull, zoom. rewrite Hc, Hr. cbn.
  destruct (k <=? _)%nat; (split; [done|]); eauto.
Qed.

Lemma view_read_app k c out bs rest :
  view c out (bs ++ rest) → k = length bs →
  ∃ c', conn_ReadFull k c = (Ok bs, c') ∧ view c' out rest.
Proof.
  intros (Hc & Hw & Ho & Hi) Hk.
  destruct (conn_ReadFull_app k _ _ _ Hc Hi Hk) as (r' & Hr & Hfl & _).
  exists (put_rd r' c). by rewrite Hr.
Qed.

Lemma view_read_short k c out inp :
  view c out inp → (length inp < k)%nat →
  ∃ e c', conn_ReadFull k c = (Err e, c') ∧ view c' out [].
Proof.
  intros Hv Hk. destruct (view_read k c out inp Hv) as (c' & Hv' & Hs & Hf).
  rewrite (proj2 (Nat.leb_gt _ _) Hk) in Hf. destruct Hf as [e Hf].
  exists e, c'. rewrite drop_ge in Hv' by lia. split; [|done].
  by rewrite (surjective_pairing (conn_ReadFull k c)), Hf, Hs.
Qed.

Lemma view_write b c out inp :
  view c out inp → ∃ c', conn_Write b c = (Ok tt, c') ∧ view c' (out ++ b) inp.
Proof.
  intros (Hc & Hw & Ho & Hi). rewrite conn_Write_ok by done. eexists. split; [done|].
  unfold view. cbn. by rewrite Ho.
Qed.

(** ** Wall clock: nanoseconds since the epoch, and how much passes before each
    later reading (the script may also step backwards). *)
Record clock := Clock { cl_now : Z; cl_ticks : list Z }.

Definition nanosecond : Z := 1.
Definition second : Z := 1000000000.
Definition unix (t : Z) : Z := t / second.

Definition time_Now : M clock Z := λ c,
  match cl_ticks c with
  | [] => (Ok (cl_now c), c)
  | d :: ds => let t := cl_now c + d in (Ok t, Clock t ds)
  end.

(** [time.Sleep(d)] *)
Definition time_Sleep (d : Z) : M clock unit :=
  modify (λ c, Clock (cl_now c + Z.max 0 d) (cl_ticks c)).

(** Every time the clock can still report. *)
Fixpoint readings_from (now : Z) (ticks : list Z) : list Z :=
  match ticks with [] => [now] | d :: ds => (now + d) :: readings_from (now + d) ds end.
Definition clock_readings (c : clock) : list Z := readings_from (cl_now c) (cl_ticks c).

Lemma time_Now_reading c :
  ∃ t c', time_Now c = (Ok t, c') ∧ t ∈ clock_readings c ∧ clock_readings c' ⊆ clock_readings c.
Proof.
  destruct c as [now [|d ds]]; unfold time_Now, clock_readings; cbn [cl_ticks cl_now readings_from].
  - do 2 eexists. split_and!; [done|by apply list_elem_of_singleton|done].
  - do 2 eexists. split_and!; [done|by left|]. cbn [cl_now cl_ticks]. intros x Hx.
    destruct ds; cbn [readings_from] in *; [|by right].
    apply list_elem_of_singleton in Hx as ->. by left.
Qed.

(** ** crypto/rand: [rand.Read(buf)] is [io.ReadFull] on the system source.  A
    call whose error is dropped leaves the unread part of the array zero. *)
Definition rand_Read (n : nat) : M reader bytes := ReadFull n.
Definition rand_Read_ignoring (n : nat) : M reader bytes := λ r,
  match ReadFull_raw n r with (bs, _, r') => (Ok (to_array n bs), r') end.

Lemma rand_Read_ignoring_spec n r :
  ∃ bs r', rand_Read_ignoring n r = (Ok bs, r') ∧ length bs = n.
Proof.
  unfold rand_Read_ignoring. destruct (ReadFull_raw n r) as [[bs e] r'].
  do 2 eexists. split; [done|]. apply length_to_array.
Qed.

(** ** File system: contents by path, and a script of faults as for
    connections; a failing [WriteFile] leaves the first [n] bytes behind. *)
Record fs := Fs { fs_files : gmap bytes bytes; fs_faults : list (option (nat * error)) }.

Definition ErrNotExist : error := ErrSentinel "file does not exist".

Definition fs_fault : M fs (option (nat * error)) := λ f,
  match fs_faults f with
  | [] => (Ok None, f)
  | o :: w => (Ok o, Fs (fs_files f) w)
  end.
Definition fs_update (g : gmap bytes bytes → gmap bytes bytes) : M fs unit :=
  modify (λ f, Fs (g (fs_files f)) (fs_faults f)).

Definition os_ReadFile (path : bytes) : M fs bytes :=
  o <- fs_fault ;;
  match o with
  | Some (_, e) => fail e
  | None => files <- gets fs_files ;;
            match files !! path with Some d => ret d | None => fail ErrNotExist end
  end.
Definition os_MkdirAll : M fs unit :=
  o <- fs_fault ;;
  match o with Some (_, e) => fail e | None => ret tt end.
Definition os_WriteFile (path data : bytes) : M fs unit :=
  o <- fs_fault ;;
  match o with
  | Some (n, e) => fs_update (<[path := take n data]>) ;;; fail e
  | None => fs_update (<[path := data]>)
  end.
Definition os_Rename (src dst : bytes) : M fs unit :=
  o <- fs_fault ;;
  match o with
  | Some (_, e) => fail e
  | None =>
      files <- gets fs_files ;;
      match files !! src with
      | Some d => fs_update (λ m, <[dst := d]> (delete src m))
      | None => fail ErrNotExist
      end
  end.

(** What the calls can do to the files, whatever the faults are. *)
Lemma os_MkdirAll_cases f : ∃ r f', os_MkdirAll f = (r, f') ∧ fs_files f' = fs_files f ∧ is_panic r = false.
Proof.
  unfold os_MkdirAll, fs_fault, bind. destruct f as [files [|[[n e]|] w]]; cbn; eauto.
Qed.

Lemma os_WriteFile_cases p d f :
  ∃ r f', os_WriteFile p d f = (r, f') ∧
    match r with
    | Ok _ => fs_files f' = <[p := d]> (fs_files f)
    | Err _ => ∃ n, fs_files f' = <[p := take n d]> (fs_files f)
    | Panic => False
    end.
Proof.
  unfold os_WriteFile, fs_fault, fs_update, bind. destruct f as [files [|[[n e]|] w]]; cbn;
    do 2 eexists; (split; [done|]); try done; by eexists.
Qed.

Lemma os_Rename_cases src dst f :
  ∃ r f', os_Rename src dst f = (r, f') ∧
    match r with
    | Ok _ => ∃ d, fs_files f !! src = Some d ∧ fs_files f' = <[dst := d]> (delete src (fs_files f))
    | Err _ => fs_files f' = fs_files f
    | Panic => False
    end.
Proof.
  unfold os_Rename, fs_fault, fs_update, gets, bind. destruct f as [files [|[[n e]|] w]]; cbn.
  - destruct (files !! src) as [d|] eqn:Hd; cbn; do 2 eexists; (split; [done|]); try done; by eexists.
  - by do 2 eexists.
  - destruct (files !! src) as [d|] eqn:Hd; cbn; do 2 eexists; (split; [done|]); try done; by eexists.
Qed.

Lemma os_ReadFile_ok p d f : fs_faults f = [] → fs_files f !! p = Some d → os_ReadFile p f = (Ok d, f).
Proof. unfold os_ReadFile, fs_fault, bind, gets. intros -> Hd. cbn. by rewrite Hd. Qed.

Lemma os_ReadFile_cases p f :
  ∃ r f', os_ReadFile p f = (r, f') ∧ fs_files f' = fs_files f ∧
    match r with Ok d => fs_files f !! p = Some d | Err _ => True | Panic => False end.
Proof.
  unfold os_ReadFile, fs_fault, gets, bind. destruct f as [files [|[[n e]|] w]]; cbn.
  - destruct (files !! p) eqn:Hp; cbn; by do 2 eexists.
  - by do 2 eexists.
  - destruct (files !! p) eqn:Hp; cbn; by do 2 eexists.
Qed.

(** Faults that do not pretend that a file is missing; a call uses up faults and
    adds none. *)
Definition honest (f : fs) : Prop := Forall (λ o, ∀ n e, o = Some (n, e) → e ≠ ErrNotExist) (fs_faults f).

(** [step_at path f f']: a call went from [f] to [f'] and changed no file but
    that at [path]. *)
Definition step_at (path : bytes) (f f' : fs) : Prop :=
  (honest f → honest f') ∧ ∀ q, q ≠ path → fs_files f' !! q = fs_files f !! q.

#[global] Instance step_at_preorder path : PreOrder (step_at path).
Proof.
  split; [by split|]. intros f1 f2 f3 [H1 E1] [H2 E2]. split; [auto|].
  intros q Hq. by rewrite E2, E1.
Qed.

Lemma fs_fault_step f : ∃ o f', fs_fault f = (Ok o, f') ∧ fs_files f' = fs_files f ∧
  (honest f → honest f' ∧ ∀ n e, o = Some (n, e) → e ≠ ErrNotExist) ∧ (fs_faults f = [] → o = None ∧ f' = f).
Proof.
  unfold fs_fault, honest. destruct f as [files [|o w]]; cbn [fs_faults fs_files].
  - do 2 eexists. split; [reflexivity|]. split; [done|]. by split.
  - do 2 eexists. split; [reflexivity|]. split; [done|]. split; [|done].
    intros [H1 H2]%Forall_cons. by split.
Qed.

Ltac fs_cases f :=
  unfold fs_fault, fs_update, gets, modify, honest, bind;
  destruct f as [files [|[[n e]|] w]]; cbn [fs_faults fs_files].

Lemma os_ReadFile_step path f : ∃ r f', os_ReadFile path f = (r, f') ∧ step_at path f f' ∧ fs_files f' = fs_files f ∧
  match r with
  | Ok d => fs_files f !! path = Some d
  | Err e => honest f → e = ErrNotExist → fs_files f !! path = None
  | Panic => False
  end.
Proof.
  unfold os_ReadFile, step_at. fs_cases f; try (destruct (files !! path) as [d|] eqn:E); cbn;
    do 2 eexists; (split; [reflexivity|]); cbn; split_and!; try done;
    try (by intros [_ ?]%Forall_cons).
  intros [Hn _]%Forall_cons ->. by destruct (Hn n ErrNotExist).
Qed.

Lemma os_MkdirAll_step path f : ∃ r f', os_MkdirAll f = (r, f') ∧ step_at path f f' ∧ fs_files f' = fs_files f ∧
  is_panic r = false.
Proof.
  unfold os_MkdirAll, step_at. fs_cases f; cbn; do 2 eexists; (split; [reflexivity|]); cbn; split_and!; try done;
    by intros [_ ?]%Forall_cons.
Qed.

Lemma os_WriteFile_step path d f : ∃ r f', os_WriteFile path d f = (r, f') ∧ step_at path f f' ∧ is_panic r = false ∧
  (r = Ok tt → fs_files f' !! path = Some d).
Proof.
  unfold os_WriteFile, step_at. fs_cases f; cbn; do 2 eexists; (split; [reflexivity|]); cbn; split_and!; try done;
    try (intros _; by rewrite lookup_insert_eq); try (by intros [_ ?]%Forall_cons);
    intros q Hq; by rewrite lookup_insert_ne.
Qed.

Lemma os_Rename_step src dst f : ∃ r f', os_Rename src dst f = (r, f') ∧ (honest f → honest f') ∧
  match r with
  | Ok _ => ∃ d, fs_files f !! src = Some d ∧ fs_files f' = <[dst := d]> (delete src (fs_files f))
  | Err _ => fs_files f' = fs_files f
  | Panic => False
  end.
Proof.
  unfold os_Rename. fs_cases f; try (destruct (files !! src) as [d|] eqn:E); cbn; do 2 eexists;
    (split; [reflexivity|]); cbn; split; try done; try (by intros [_ ?]%Forall_cons); by eexists.
Qed.

(** ** The environment of a server-side component. *)
Record sys := Sys { s_clock : clock; s_rand : reader; s_fs : fs }.

Definition on_clock {A} : M clock A → M sys A :=
  zoom s_clock (λ c s, Sys c (s_rand s) (s_fs s)).
Definition on_rand {A} : M reader A → M sys A :=
  zoom s_rand (λ r s, Sys (s_clock s) r (s_fs s)).
Definition on_fs {A} : M fs A → M sys A :=
  zoom s_fs (λ f s, Sys (s_clock s) (s_rand s) f).

(** ** encoding/json

    The JSON codec of a Go type [A], by what the code relies on: a value that
    JSON can represent ([json_valid]: strings are UTF-8, times have a four-digit
    year) marshals, and unmarshalling the text gives the value back. *)
Class JSON (A : Type) := {
  json_marshal : A → result bytes;
  json_unmarshal : bytes → result A;
  json_valid : A → Prop;
  json_marshal_total a : is_panic (json_marshal a) = false;
  json_unmarshal_total b : is_panic (json_unmarshal b) = false;
  json_roundtrip a : json_valid a → ∃ d, json_marshal a = Ok d ∧ json_unmarshal d = Ok a
}.

(** The interface is inhabited: any countable type has such a codec (one byte
    per bit of its code). *)
Fixpoint pos_bytes (p : positive) : bytes :=
  match p with xH => [] | xO p' => x30 :: pos_bytes p' | xI p' => x31 :: pos_bytes p' end.
Fixpoint bytes_pos (b : bytes) : positive :=
  match b with
  | [] => xH
  | x :: b' => if bool_decide (x = x30) then xO (bytes_pos b') else xI (bytes_pos b')
  end.
Lemma bytes_pos_bytes p : bytes_pos (pos_bytes p) = p.
Proof. by induction p as [p IH|p IH|]; cbn; rewrite ?IH. Qed.

Definition countable_JSON A `{Countable A} : JSON A.
Proof.
  refine (Build_JSON A (λ a, Ok (pos_bytes (encode a)))
    (λ b, match decode (bytes_pos b) with Some a => Ok a | None => Err (ErrNew "invalid character" []) end)
    (λ _, True) _ _ _).
  - done.
  - intros b. by destruct (decode _).
  - intros a _. eexists. split; [done|]. by rewrite bytes_pos_bytes, decode_encode.
Defined.

(** A codec of one document, for concrete runs. *)
Definition single_JSON {A} (a : A) : JSON A.
Proof.
  refine (Build_JSON A (λ _, Ok [x7b; x7d]) (λ _, Ok a) (λ b, b = a) _ _ _); [done|done|].
  intros b ->. by eexists.
Defined.

(** A codec of a few documents: one byte for every document before it. *)
Definition table_JSON {A} `{EqDecision A} (l : list A) : JSON A.
Proof.
  refine (Build_JSON A
    (λ a, match list_find (a =.) l with Some (i, _) => Ok (replicate i x7b) | None => Err (ErrNew "unsupported value" []) end)
    (λ b, match l !! length b with Some a => Ok a | None => Err (ErrNew "invalid character" []) end)
    (λ a, a ∈ l) _ _ _).
  - intros a. by destruct (list_find _ l) as [[]|].
  - intros b. by destruct (l !! length b).
  - intros a Ha. destruct (list_find_elem_of (a =.) l a Ha eq_refl) as [[i x] E]. rewrite E.
    apply list_find_Some in E as (Hi & <- & _). eexists. split; [done|]. by rewrite length_replicate, Hi.
Defined.

(** Results that only read the clock, the randomness or the files. *)
Definition no_faults (s : sys) : Prop := fs_faults (s_fs s) = [].

Lemma on_fs_eq {A} (m : M fs A) s r f :
  m (s_fs s) = (r, f) → on_fs m s = (r, Sys (s_clock s) (s_rand s) f).
Proof. unfold on_fs, zoom. by intros ->. Qed.

Lemma on_rand_eq {A} (m : M reader A) s r f :
  m (s_rand s) = (r, f) → on_rand m s = (r, Sys (s_clock s) f (s_fs s)).
Proof. unfold on_rand, zoom. by intros ->. Qed.

Lemma on_clock_eq {A} (m : M clock A) s r f :
  m (s_clock s) = (r, f) → on_clock m s = (r, Sys f (s_rand s) (s_fs s)).
Proof. unfold on_clock, zoom. by intros ->. Qed.

Lemma time_Now_ok c : ∃ t c', time_Now c = (Ok t, c').
Proof. unfold time_Now. destruct (cl_ticks c); eauto. Qed.

Lemma on_clock_now s : ∃ t c', on_clock time_Now s = (Ok t, Sys c' (s_rand s) (s_fs s)).
Proof. destruct (time_Now_ok (s_clock s)) as (t & c' & H). exists t, c'. by apply on_clock_eq. Qed.

(** The environment moves on: the clock and the random source are read, the
    files stay. *)
Definition sys_le (s s' : sys) : Prop :=
  clock_readings (s_clock s') ⊆ clock_readings (s_clock s) ∧ s_fs s' = s_fs s.

#[global] Instance sys_le_preorder : PreOrder sys_le.
Proof.
  split.
  - intros s. done.
  - intros s1 s2 s3 [H1 E1] [H2 E2]. split; [set_solver|congruence].
Qed.

Lemma on_clock_reading s :
  ∃ t s', on_clock time_Now s = (Ok t, s') ∧ t ∈ clock_readings (s_clock s) ∧ sys_le s s' ∧ s_rand s' = s_rand s.
Proof.
  destruct (time_Now_reading (s_clock s)) as (t & c' & Ht & Hin & Hle). exists t.
  eexists. split_and!; [by apply on_clock_eq|done|done|done].
Qed.

Lemma on_rand_ignoring_ok n s :
  ∃ bs s', on_rand (rand_Read_ignoring n) s = (Ok bs, s') ∧ length bs = n ∧ sys_le s s'.
Proof.
  destruct (rand_Read_ignoring_spec n (s_rand s)) as (bs & r' & Hr & Hl). exists bs.
  eexists. split_and!; [by apply on_rand_eq|done|done].
Qed.

Lemma on_rand_ok n s :
  (n <= length (flatten (s_rand s)))%nat →
  ∃ bs s', on_rand (rand_Read n) s = (Ok bs, s') ∧ length bs = n ∧ sys_le s s'.
Proof.
  intros Hn. destruct (ReadFull_ok n (s_rand s) Hn) as (r' & Hr & _).
  do 2 eexists. split_and!; [apply on_rand_eq, Hr|by apply length_take_le|done].
Qed.
