(* ===== verification/Hash.v ===== *)
(** [crypto/sha256] and [crypto/hmac] of the Go standard library (FIPS 180-4 and
    RFC 2104), executable, so that the handshakes can be run on concrete keys.
    The published test vectors at the end pin the definitions down. *)

From Stdlib Require Import Strings.Byte String ZArith Lia.
From stdpp Require Import base list.
From S2P Require Import Prelude Encoding.

(** ** 32-bit words *)

Definition w32 (z : Z) : Z := Z.land z 0xffffffff.
Definition rotr (n x : Z) : Z := Z.lor (Z.shiftr x n) (w32 (Z.shiftl x (32 - n))).

(** The constants are the first 32 bits of the fractional parts of the cube roots
    ([sha_K]) and of the square roots ([sha_H0]) of the first primes. *)
Definition primes_to (n : nat) : list Z :=
  filter (λ p, forallb (λ d, negb (p `mod` d =? 0)) (seqZ 2 (p - 2)) = true) (seqZ 2 (Z.of_nat n)).

(** The integer cube root of [z], found bit by bit from [2^k] down, above [acc]. *)
Fixpoint icbrt (k : nat) (acc z : Z) : Z :=
  let next := acc + 2 ^ Z.of_nat k in
  let acc' := if next ^ 3 <=? z then next else acc in
  match k with O => acc' | S k' => icbrt k' acc' z end.

Definition sha_K : list Z := Eval vm_compute in
  map (λ p, w32 (icbrt 40 0 (p * 2 ^ 96))) (take 64 (primes_to 320)).
Definition sha_H0 : list Z := Eval vm_compute in
  map (λ p, w32 (Z.sqrt (p * 2 ^ 64))) (take 8 (primes_to 320)).

Definition sha_ch (x y z : Z) : Z := Z.lxor (Z.land x y) (Z.land (Z.lxor x 0xffffffff) z).
Definition sha_maj (x y z : Z) : Z := Z.lxor (Z.land x y) (Z.lxor (Z.land x z) (Z.land y z)).
Definition big_sigma0 (x : Z) : Z := Z.lxor (rotr 2 x) (Z.lxor (rotr 13 x) (rotr 22 x)).
Definition big_sigma1 (x : Z) : Z := Z.lxor (rotr 6 x) (Z.lxor (rotr 11 x) (rotr 25 x)).
Definition small_sigma0 (x : Z) : Z := Z.lxor (rotr 7 x) (Z.lxor (rotr 18 x) (Z.shiftr x 3)).
Definition small_sigma1 (x : Z) : Z := Z.lxor (rotr 17 x) (Z.lxor (rotr 19 x) (Z.shiftr x 10)).

(** ** The compression function *)

(** The message schedule, latest word first. *)
Fixpoint sha_schedule (n : nat) (w : list Z) : list Z :=
  match n with
  | O => w
  | S n' =>
      sha_schedule n'
        (w32 (small_sigma1 (nth 1 w 0) + nth 6 w 0 + small_sigma0 (nth 14 w 0) + nth 15 w 0) :: w)
  end.

Definition sha_round (st : list Z) (kw : Z * Z) : list Z :=
  match st with
  | [a; b; c; d; e; f; g; h] =>
      let t1 := h + big_sigma1 e + sha_ch e f g + fst kw + snd kw in
      let t2 := big_sigma0 a + sha_maj a b c in
      [w32 (t1 + t2); a; b; c; w32 (d + t1); e; f; g]
  | _ => st
  end.

(** Consecutive groups of [k] elements. *)
Fixpoint groups {A} (fuel k : nat) (l : list A) : list (list A) :=
  match fuel with
  | O => []
  | S fuel' => match l with [] => [] | _ => take k l :: groups fuel' k (drop k l) end
  end.

Definition sha_block (st : list Z) (blk : bytes) : list Z :=
  let w := map be_get (groups 16 4 blk) in
  let ws := rev (sha_schedule 48 (rev w)) in
  let st' := fold_left sha_round (combine sha_K ws) st in
  map (λ p, w32 (fst p + snd p)) (combine st st').

Definition sha_pad (m : bytes) : bytes :=
  m ++ [x80] ++ replicate (Z.to_nat ((55 - len m) `mod` 64)) x00 ++ be_put 8 (8 * len m).

(** [sha256.Sum256]: always 32 bytes. *)
Definition sha256 (m : bytes) : bytes :=
  to_array 32 (concat (map (be_put 4)
    (fold_left sha_block (groups (S (length m)) 64 (sha_pad m)) sha_H0))).

Lemma length_sha256 m : length (sha256 m) = 32%nat.
Proof. apply length_to_array. Qed.
#[export] Hint Rewrite length_sha256 : golen.

(** ** HMAC-SHA256 *)

Definition xor_pad (c : Z) (key : bytes) : bytes :=
  map (λ b, byte_of_Z (Z.lxor (Z_of_byte b) c)) (to_array 64 key).

(** [hmac.New(sha256.New, key)], the writes, and [Sum(nil)]. *)
Definition hmac_sha256 (key msg : bytes) : bytes :=
  let key := if 64 <? len key then sha256 key else key in
  sha256 (xor_pad 0x5c key ++ sha256 (xor_pad 0x36 key ++ msg)).

Lemma length_hmac_sha256 k m : length (hmac_sha256 k m) = 32%nat.
Proof. apply length_sha256. Qed.
#[export] Hint Rewrite length_hmac_sha256 : golen.

Arguments sha256 : simpl never.
Arguments hmac_sha256 : simpl never.

(** ** Test vectors (FIPS 180-4, RFC 4231 test case 2) *)

Example sha256_abc : hex_encode (sha256 (str "abc")) =
  str "ba7816bf8f01cfea414140de5dae2223b00361a396177a9cb410ff61f20015ad".
Proof. vm_compute. reflexivity. Qed.

Example sha256_two_blocks :
  hex_encode (sha256 (str "abcdbcdecdefdefgefghfghighijhijkijkljklmklmnlmnomnopnopq")) =
  str "248d6a61d20638b8e5c026930c3e6039a33ce45964ff2167f6ecedd419db06c1".
Proof. vm_compute. reflexivity. Qed.

Example hmac_rfc4231 :
  hex_encode (hmac_sha256 (str "Jefe") (str "what do ya want for nothing?")) =
  str "5bdcc146bf60754e6a042426089575c75a003f089d2739839dec58b964ec3843".
Proof. vm_compute. reflexivity. Qed.
