(* ===== verification/Frame.v ===== *)
(** The wire protocol of [pkg/protocol/frame.go]: the frame writer with its
    reused buffer, the frame reader, and the STREAM_OPEN address payload. *)

From Stdlib Require Import Strings.Byte String ZArith Lia.
From stdpp Require Import base list.
From S2P Require Import Prelude Encoding Io.

(** ** Constants and data *)

Definition FrameHeaderSize : Z := 11.
Definition MaxPayloadSize : Z := 65535.
Definition MaxPaddingSize : Z := 1024.

Definition ProtocolVersion : byte := x01.
Definition AuthRequestSize : nat := 49.
Definition AuthResponseSize : nat := 17.
Definition AuthStatusOK : byte := x00.
Definition AuthStatusFail : byte := xff.

(** [FrameType] is a [uint8]: every byte is a value of the type. *)
Abbreviation FrameType := byte.
Definition TypeData : FrameType := x01.
Definition TypeStreamOpen : FrameType := x02.
Definition TypeStreamClose : FrameType := x03.
Definition TypeStreamReset : FrameType := x04.
Definition TypePing : FrameType := x05.
Definition TypePong : FrameType := x06.
Definition TypeSettings : FrameType := x07.
Definition TypePadding : FrameType := x08.

Definition FrameType_String (t : FrameType) : string :=
  if decide (t = TypeData) then "DATA"
  else if decide (t = TypeStreamOpen) then "STREAM_OPEN"
  else if decide (t = TypeStreamClose) then "STREAM_CLOSE"
  else if decide (t = TypeStreamReset) then "STREAM_RESET"
  else if decide (t = TypePing) then "PING"
  else if decide (t = TypePong) then "PONG"
  else if decide (t = TypeSettings) then "SETTINGS"
  else if decide (t = TypePadding) then "PADDING"
  else "UNKNOWN".

Abbreviation AddrType := byte.
Definition AddrIPv4 : AddrType := x01.
Definition AddrDomain : AddrType := x03.
Definition AddrIPv6 : AddrType := x04.

(** [StreamID] is a [uint32] and [PadLen] a [uint16]: [frame_wf]. *)
Record Frame := mkFrame {
  f_Type : FrameType;
  f_StreamID : Z;
  f_Payload : bytes;
  f_PadLen : Z
}.

Definition frame_wf (f : Frame) : Prop :=
  0 <= f_StreamID f < 256 ^ 4 ∧ 0 <= f_PadLen f < 256 ^ 2.

Definition ErrFrameTooLarge : error := ErrSentinel "protocol: frame payload exceeds maximum size".
Definition ErrPaddingTooLarge : error := ErrSentinel "protocol: frame padding exceeds maximum size".

(** ** Writer *)

(** The writer's target, its reused buffer (the list is the whole capacity),
    and the process's random source. *)
Record Writer := mkWriter { fw_w : conn; fw_buf : bytes; fw_rand : reader }.

Definition NewWriter (w : conn) (rnd : reader) : Writer :=
  mkWriter w (replicate 4096 x00) rnd.

Definition on_fw_w {A} : M conn A → M Writer A :=
  zoom fw_w (λ c fw, mkWriter c (fw_buf fw) (fw_rand fw)).
Definition on_fw_rand {A} : M reader A → M Writer A :=
  zoom fw_rand (λ r fw, mkWriter (fw_w fw) (fw_buf fw) r).
Definition fw_put (buf : bytes) : M Writer unit :=
  modify (λ fw, mkWriter (fw_w fw) buf (fw_rand fw)).
(** Writes into the buffer behind the slice [buf := fw.buf[:total]]. *)
Definition fw_blit (off : nat) (src : bytes) : M Writer unit :=
  modify (λ fw, mkWriter (fw_w fw) (blit off src (fw_buf fw)) (fw_rand fw)).

(** The first 11 bytes of a frame. *)
Definition frame_header (f : Frame) : bytes :=
  f_Type f :: be_put 4 (f_StreamID f) ++ be_put 4 (len (f_Payload f)) ++ be_put 2 (f_PadLen f).

Definition WriteFrame (f : Frame) : M Writer unit :=
  if len (f_Payload f) >? MaxPayloadSize then fail ErrFrameTooLarge else
  if f_PadLen f >? MaxPaddingSize then fail ErrPaddingTooLarge else
  let total := FrameHeaderSize + len (f_Payload f) + f_PadLen f in
  cap <- gets (λ fw, len (fw_buf fw)) ;;
  (when cap <? total do fw_put (replicate (Z.to_nat (total * 2)) x00) od) ;;;
  fw_blit 0 [f_Type f] ;;;
  fw_blit 1 (be_put 4 (f_StreamID f)) ;;;
  fw_blit 5 (be_put 4 (len (f_Payload f))) ;;;
  fw_blit 9 (be_put 2 (f_PadLen f)) ;;;
  fw_blit 11 (f_Payload f) ;;;
  (when 0 <? f_PadLen f do
     (pad <- on_fw_rand (rand_Read (Z.to_nat (f_PadLen f))) ;;
      fw_blit (11 + length (f_Payload f)) pad)
   od) ;;;
  buf <- gets fw_buf ;;
  out <- lift (slice buf 0 total) ;;
  on_fw_w (conn_Write out).

(** ** Reader *)

(** [fr.padbuf]: only its size matters, the padding is discarded. *)
Definition padbuf : bytes := replicate (Z.to_nat MaxPaddingSize) x00.

Definition ReadFrame : M reader Frame :=
  hdr <- ReadFull (Z.to_nat FrameHeaderSize) ;;
  let ft := nth 0 hdr x00 in
  let sid := be_get (take 4 (drop 1 hdr)) in
  let length := be_get (take 4 (drop 5 hdr)) in
  let padLen := be_get (take 2 (drop 9 hdr)) in
  if length >? MaxPayloadSize then fail ErrFrameTooLarge else
  if padLen >? MaxPaddingSize then fail ErrPaddingTooLarge else
  payload <- (if 0 <? length then ReadFull (Z.to_nat length) else ret []) ;;
  (when 0 <? padLen do
     (p <- lift (slice padbuf 0 padLen) ;;
      ReadFull (List.length p) ;;; ret tt)
   od) ;;;
  ret (mkFrame ft sid payload padLen).

(** ** STREAM_OPEN payload *)

Record StreamOpenPayload := mkSOP { so_AddrType : AddrType; so_Addr : bytes; so_Port : Z }.

Definition Marshal (p : StreamOpenPayload) : bytes :=
  let addr := so_Addr p in
  let out := replicate (4 + length addr) x00 in
  let out := blit 0 [so_AddrType p] out in
  let out := blit 1 [byte_of_Z (len addr)] out in
  let out := blit 2 addr out in
  blit (2 + length addr) (be_put 2 (so_Port p)) out.

Definition UnmarshalStreamOpenPayload (b : bytes) : result StreamOpenPayload :=
  if len b <? 4 then Err (ErrNew "protocol: stream open payload too short" []) else
  match index b 0, index b 1 with
  | Ok b0, Ok b1 =>
      let addrLen := Z_of_byte b1 in
      if len b <? 2 + addrLen + 2
      then Err (ErrNew "protocol: stream open payload truncated" []) else
      match slice b 2 (2 + addrLen), slice b (2 + addrLen) (len b) with
      | Ok addr, Ok rest =>
          match slice rest 0 2 with
          | Ok p => Ok (mkSOP b0 addr (be_get p))
          | Err e => Err e | Panic => Panic
          end
      | _, _ => Panic
      end
  | _, _ => Panic
  end.

(** ** The wire format as a function of the frame *)

(** What a frame looks like on the wire when its padding bytes are [pad]. *)
Definition frame_bytes (f : Frame) (pad : bytes) : bytes :=
  frame_header f ++ f_Payload f ++ pad.

Lemma length_frame_header f : length (frame_header f) = 11%nat.
Proof. unfold frame_header. cbn [length]. len_tac. Qed.
#[export] Hint Rewrite length_frame_header : golen.

Lemma length_frame_bytes f pad :
  length (frame_bytes f pad) = (11 + length (f_Payload f) + length pad)%nat.
Proof. unfold frame_bytes. len_tac. Qed.

(** The header fields at their offsets. *)
Lemma frame_header_fields f :
  let h := frame_header f in
  nth 0 h x00 = f_Type f ∧ take 4 (drop 1 h) = be_put 4 (f_StreamID f) ∧
  take 4 (drop 5 h) = be_put 4 (len (f_Payload f)) ∧
  take 2 (drop 9 h) = be_put 2 (f_PadLen f).
Proof. done. Qed.

(** The buffer writes of [WriteFrame], whatever the buffer held before. *)
Lemma fill_buffer buf f :
  (11 + length (f_Payload f) <= length buf)%nat →
  blit 11 (f_Payload f)
    (blit 9 (be_put 2 (f_PadLen f))
      (blit 5 (be_put 4 (len (f_Payload f)))
        (blit 1 (be_put 4 (f_StreamID f)) (blit 0 [f_Type f] buf))))
  = (frame_header f ++ f_Payload f) ++ drop (11 + length (f_Payload f)) buf.
Proof.
  intros Hlen.
  change buf with ([] ++ buf) at 1.
  repeat (rewrite blit_frontier by (rewrite ?length_app, ?length_drop, ?length_be_put; cbn [length]; lia)).
  rewrite !drop_drop, !length_be_put. unfold frame_header. cbn [length app].
  rewrite <- !app_assoc. cbn [app]. repeat f_equal; lia.
Qed.

(** The capacity test leaves a buffer that the frame fits in. *)
Lemma grow_buffer total fw :
  ∃ buf, (when len (fw_buf fw) <? total do
            fw_put (replicate (Z.to_nat (total * 2)) x00) od) fw
         = (Ok tt, mkWriter (fw_w fw) buf (fw_rand fw)) ∧ total <= len buf ∧ len (fw_buf fw) <= len buf.
Proof.
  destruct fw as [w buf rnd]. cbn. destruct (Z.ltb_spec (len buf) total).
  - eexists. split; [done|]. pose proof (len_nonneg buf). split; len_tac.
  - exists buf. split; [done|lia].
Qed.

(** The part of [WriteFrame] that fills the buffer before the padding. *)
Lemma WriteFrame_head f fw :
  0 <= f_PadLen f → len (f_Payload f) <= MaxPayloadSize → f_PadLen f <= MaxPaddingSize →
  ∃ tail, f_PadLen f <= len tail ∧
    WriteFrame f fw =
      ((when 0 <? f_PadLen f do
          (pad <- on_fw_rand (rand_Read (Z.to_nat (f_PadLen f))) ;;
           fw_blit (11 + length (f_Payload f)) pad) od) ;;;
       buf <- gets fw_buf ;;
       out <- lift (slice buf 0 (FrameHeaderSize + len (f_Payload f) + f_PadLen f)) ;;
       on_fw_w (conn_Write out))
      (mkWriter (fw_w fw) ((frame_header f ++ f_Payload f) ++ tail) (fw_rand fw)).
Proof.
  intros Hp0 Hp Hpad. unfold WriteFrame.
  rewrite !Z.gtb_ltb, !(proj2 (Z.ltb_ge _ _)) by lia.
  destruct (grow_buffer (FrameHeaderSize + len (f_Payload f) + f_PadLen f) fw) as (buf & Hg & Hbuf & _).
  unfold FrameHeaderSize in Hbuf.
  exists (drop (11 + length (f_Payload f)) buf). split.
  { unfold len in *. rewrite length_drop. lia. }
  erewrite bind_Ok by done. erewrite bind_Ok by exact Hg.
  do 5 (erewrite bind_Ok by done). cbn [fw_w fw_buf fw_rand].
  by rewrite fill_buffer by (unfold len in *; lia).
Qed.

(** The slice that is sent is the frame and nothing of the old buffer. *)
Lemma slice_frame f pad tail :
  len pad = f_PadLen f →
  slice (frame_bytes f pad ++ tail) 0 (FrameHeaderSize + len (f_Payload f) + f_PadLen f)
  = Ok (frame_bytes f pad).
Proof.
  intros Hpl. rewrite slice_Ok by
    (unfold FrameHeaderSize, len in *; rewrite ?length_app, ?length_frame_bytes; lia).
  rewrite drop_0, take_app_exact; [done|]. rewrite length_frame_bytes.
  unfold FrameHeaderSize, len in *. lia.
Qed.

(** The random padding [WriteFrame] asks for, and the source after it. *)
Definition draw_pad (f : Frame) (rnd : reader) : result bytes * reader :=
  if 0 <? f_PadLen f then rand_Read (Z.to_nat (f_PadLen f)) rnd else (Ok [], rnd).

Lemma draw_pad_spec f rnd :
  0 <= f_PadLen f →
  ∃ rnd', draw_pad f rnd =
    (if f_PadLen f <=? len (flatten rnd)
     then Ok (take (Z.to_nat (f_PadLen f)) (flatten rnd))
     else Err (short_error (flatten rnd) (rd_fin rnd)), rnd') ∧
    flatten rnd' = drop (Z.to_nat (f_PadLen f)) (flatten rnd).
Proof.
  intros Hp. unfold draw_pad. destruct (Z.ltb_spec 0 (f_PadLen f)).
  - destruct (ReadFull_spec (Z.to_nat (f_PadLen f)) rnd) as (r' & _ & _ & Hd & Hr).
    exists r'. unfold rand_Read. rewrite Hr. split; [|done]. f_equal. unfold len.
    destruct (Nat.leb_spec (Z.to_nat (f_PadLen f)) (length (flatten rnd))),
      (Z.leb_spec (f_PadLen f) (Z.of_nat (length (flatten rnd)))); done || lia.
  - assert (f_PadLen f = 0) as -> by lia. exists rnd. split; [|done].
    rewrite (proj2 (Z.leb_le _ _)) by apply len_nonneg. done.
Qed.

(** The whole writer on a frame within the limits, up to the final write. *)
Lemma WriteFrame_run f fw :
  0 <= f_PadLen f → len (f_Payload f) <= MaxPayloadSize → f_PadLen f <= MaxPaddingSize →
  ∃ buf, WriteFrame f fw =
    match draw_pad f (fw_rand fw) with
    | (Ok pad, rnd') => on_fw_w (conn_Write (frame_bytes f pad)) (mkWriter (fw_w fw) buf rnd')
    | (Err e, rnd') => (Err e, mkWriter (fw_w fw) buf rnd')
    | (Panic, rnd') => (Panic, mkWriter (fw_w fw) buf rnd')
    end.
Proof.
  intros Hp0 Hp Hpad. destruct (WriteFrame_head f fw Hp0 Hp Hpad) as (tail & Htl & ->).
  destruct (draw_pad_spec f (fw_rand fw) Hp0) as (rnd' & Hdr & _).
  rewrite Hdr. unfold draw_pad in Hdr. destruct (Z.ltb_spec 0 (f_PadLen f)) as [H|H].
  - destruct (Z.leb_spec (f_PadLen f) (len (flatten (fw_rand fw)))) as [Hl|Hl].
    + set (pad := take _ _) in *.
      assert (Hpl : len pad = f_PadLen f) by (unfold pad, len in *; rewrite length_take; lia).
      exists (frame_bytes f pad ++ drop (length pad) tail).
      erewrite bind_Ok; cycle 1.
      { erewrite bind_Ok by (unfold on_fw_rand, zoom; cbn [fw_rand]; rewrite Hdr; done).
        unfold fw_blit, modify. cbn [fw_w fw_buf fw_rand].
        rewrite blit_frontier by (unfold len in *; len_tac).
        replace ((frame_header f ++ f_Payload f) ++ pad) with (frame_bytes f pad)
          by (unfold frame_bytes; by rewrite app_assoc). done. }
      erewrite bind_Ok by done. cbn [fw_buf].
      erewrite bind_Ok; [done|]. unfold lift. by rewrite slice_frame.
    + eexists. erewrite bind_Err; [done|].
      erewrite bind_Err by (unfold on_fw_rand, zoom; cbn [fw_rand]; rewrite Hdr; done). done.
  - assert (Hz : f_PadLen f = 0) by lia.
    injection Hdr as Hpad0 <-. rewrite (proj2 (Z.leb_le _ _)) in Hpad0 |- *
      by (rewrite Hz; apply len_nonneg). injection Hpad0 as Hpad0. rewrite <- Hpad0.
    exists ((frame_header f ++ f_Payload f) ++ tail).
    erewrite bind_Ok by done. erewrite bind_Ok by done. cbn [fw_buf].
    erewrite bind_Ok; [done|]. unfold lift.
    replace (frame_header f ++ f_Payload f) with (frame_bytes f [])
      by (unfold frame_bytes; by rewrite app_nil_r).
    rewrite slice_frame; [done|]. rewrite Hz. done.
Qed.

(** ** The reader against an abstract decoder of the byte stream *)

(** What a frame reader promises, on the plain bytes [s] of a stream that ends
    with [fin]: the outcome and the bytes that are left. *)
Definition frame_decode (fin : error) (s : bytes) : result Frame * bytes :=
  if (length s <? 11)%nat then (Err (short_error s fin), []) else
  let n := be_get (take 4 (drop 5 s)) in
  let p := be_get (take 2 (drop 9 s)) in
  let body := drop 11 s in
  if MaxPayloadSize <? n then (Err ErrFrameTooLarge, body) else
  if MaxPaddingSize <? p then (Err ErrPaddingTooLarge, body) else
  if len body <? n then (Err (short_error body fin), []) else
  let tail := drop (Z.to_nat n) body in
  if len tail <? p then (Err (short_error tail fin), []) else
  (Ok (mkFrame (nth 0 s x00) (be_get (take 4 (drop 1 s))) (take (Z.to_nat n) body) p),
   drop (Z.to_nat p) tail).

Lemma take_drop_take {A} n m k (l : list A) :
  (m + k <= n)%nat → take k (drop m (take n l)) = take k (drop m l).
Proof.
  intros. rewrite skipn_firstn_comm, firstn_firstn. f_equal. lia.
Qed.

(** One optional fixed-size block of the body. *)
Lemma read_block n r :
  0 <= n →
  ∃ r', rd_fin r' = rd_fin r ∧ flatten r' = drop (Z.to_nat n) (flatten r) ∧
    (if 0 <? n then ReadFull (Z.to_nat n) else ret []) r =
      (if len (flatten r) <? n then Err (short_error (flatten r) (rd_fin r))
       else Ok (take (Z.to_nat n) (flatten r)), r').
Proof.
  intros Hn. destruct (Z.ltb_spec 0 n) as [H|H].
  - destruct (ReadFull_spec (Z.to_nat n) r) as (r' & ? & _ & ? & ->). exists r'.
    split_and!; try done. f_equal.
    destruct (Nat.leb_spec (Z.to_nat n) (length (flatten r))), (Z.ltb_spec (len (flatten r)) n);
      unfold len in *; try done; lia.
  - assert (n = 0) as -> by lia. exists r. split_and!; try done.
    rewrite (proj2 (Z.ltb_ge _ _)) by apply len_nonneg. done.
Qed.

Lemma be_get_bounds k bs : (length bs <= k)%nat → 0 <= be_get bs < 256 ^ Z.of_nat k.
Proof.
  intros Hk. pose proof (be_get_range bs). split; [lia|].
  apply Z.lt_le_trans with (256 ^ len bs); [lia|].
  apply Z.pow_le_mono_r; unfold len; lia.
Qed.

Lemma length_padbuf_slice p :
  0 <= p <= MaxPaddingSize → ∃ q, slice padbuf 0 p = Ok q ∧ length q = Z.to_nat p.
Proof.
  intros Hp. eexists. split.
  - apply slice_Ok; [lia|]. unfold padbuf. len_tac.
  - unfold padbuf. rewrite length_take, length_drop, length_replicate. lia.
Qed.

Lemma ReadFrame_decode r :
  ∃ r', ReadFrame r = (fst (frame_decode (rd_fin r) (flatten r)), r') ∧
    flatten r' = snd (frame_decode (rd_fin r) (flatten r)) ∧ rd_fin r' = rd_fin r.
Proof.
  unfold ReadFrame, frame_decode. change (Z.to_nat FrameHeaderSize) with 11%nat.
  destruct (ReadFull_spec 11 r) as (r1 & Hf1 & _ & Hd1 & Hrun).
  destruct (Nat.ltb_spec (length (flatten r)) 11) as [Hs|Hs].
  { rewrite (proj2 (Nat.leb_gt _ _)) in Hrun by lia.
    exists r1. erewrite bind_Err by done. split; [done|].
    rewrite Hd1. rewrite drop_ge by lia. done. }
  rewrite (proj2 (Nat.leb_le _ _)) in Hrun by lia.
  erewrite bind_Ok by done. cbv zeta.
  rewrite !take_drop_take by lia.
  replace (nth 0 (take 11 (flatten r)) x00) with (nth 0 (flatten r) x00)
    by (destruct (flatten r); done).
  set (n := be_get (take 4 (drop 5 (flatten r)))).
  set (p := be_get (take 2 (drop 9 (flatten r)))).
  assert (Hn : 0 <= n) by apply be_get_range.
  assert (Hp : 0 <= p) by apply be_get_range.
  rewrite !Z.gtb_ltb.
  destruct (Z.ltb_spec MaxPayloadSize n); [exists r1; by rewrite <- Hd1|].
  destruct (Z.ltb_spec MaxPaddingSize p); [exists r1; by rewrite <- Hd1|].
  rewrite <- Hd1.
  destruct (read_block n r1 Hn) as (r2 & Hf2 & Hd2 & Hrun2).
  destruct (Z.ltb_spec (len (flatten r1)) n) as [Hb|Hb].
  { exists r2. erewrite bind_Err by done. rewrite Hf1. split; [done|].
    rewrite Hd2. rewrite drop_ge by (unfold len in *; lia). split; [done|congruence]. }
  erewrite bind_Ok by done.
  destruct (read_block p r2 Hp) as (r3 & Hf3 & Hd3 & Hrun3).
  destruct (length_padbuf_slice p) as (q & Hq & Hlq); [lia|].
  rewrite <- Hd2. destruct (Z.ltb_spec (len (flatten r2)) p) as [Ht|Ht].
  - exists r3. destruct (Z.ltb_spec 0 p); [|unfold len in *; lia].
    erewrite bind_Err; cycle 1.
    { erewrite bind_Ok by (unfold lift; rewrite Hq; done).
      erewrite bind_Err by (rewrite Hlq; done). done. }
    split; [by rewrite Hf2, Hf1|].
    rewrite Hd3. rewrite drop_ge by (unfold len in *; lia). split; [done|congruence].
  - exists r3. erewrite bind_Ok; cycle 1.
    { destruct (Z.ltb_spec 0 p).
      - erewrite bind_Ok by (unfold lift; rewrite Hq; done).
        erewrite bind_Ok by (rewrite Hlq; done). done.
      - injection Hrun3 as _ <-. done. }
    split; [done|]. split; [done|congruence].
Qed.

(** [ReadFrame] respects the equivalence of readers. *)
Lemma M_proper_ReadFrame : M_proper ReadFrame.
Proof.
  intros s1 s2 [Hfl Hfin].
  destruct (ReadFrame_decode s1) as (s1' & -> & Hd1 & Hf1).
  destruct (ReadFrame_decode s2) as (s2' & -> & Hd2 & Hf2).
  rewrite Hfl, Hfin in *. split; [done|]. split; cbn; congruence.
Qed.
#[export] Hint Resolve M_proper_ReadFrame : gomonad.

(** The decoder undoes the encoder, at the front of any stream. *)
Lemma frame_decode_bytes fin f pad rest :
  frame_wf f → len (f_Payload f) <= MaxPayloadSize → f_PadLen f <= MaxPaddingSize →
  len pad = f_PadLen f →
  frame_decode fin (frame_bytes f pad ++ rest) = (Ok f, rest).
Proof.
  intros [Hsid Hpw] Hn Hp Hpad. unfold frame_decode, frame_bytes.
  destruct (frame_header_fields f) as (Ht & Hs & Hl & Hpp).
  rewrite (proj2 (Nat.ltb_ge _ _)) by len_tac.
  rewrite <- !app_assoc.
  assert (Hfld : ∀ m k l, (m + k <= 11)%nat →
            take k (drop m (frame_header f ++ l)) = take k (drop m (frame_header f))).
  { intros m k l Hmk. rewrite <- (take_drop_take 11 m k (frame_header f ++ l)) by done.
    rewrite take_app_exact by (symmetry; apply length_frame_header). done. }
  rewrite !Hfld by lia. rewrite Hl, Hpp, Hs.
  rewrite !be_get_put_small by
    (unfold MaxPayloadSize in *; pose proof (len_nonneg (f_Payload f)); simpl; lia).
  rewrite (proj2 (Z.ltb_ge MaxPayloadSize _)), (proj2 (Z.ltb_ge MaxPaddingSize _)) by lia.
  rewrite drop_app_exact by (symmetry; apply length_frame_header).
  replace (Z.to_nat (len (f_Payload f))) with (length (f_Payload f)) by (unfold len; lia).
  replace (Z.to_nat (f_PadLen f)) with (length pad) by (unfold len in *; lia).
  rewrite take_app_length, !drop_app_length.
  rewrite !(proj2 (Z.ltb_ge _ _)) by (rewrite ?len_app; pose proof (len_nonneg rest);
    pose proof (len_nonneg pad); pose proof (len_nonneg (f_Payload f)); lia).
  rewrite app_nth1 by (rewrite length_frame_header; lia). rewrite Ht.
  by destruct f.
Qed.

(** ** Properties *)

(** What [WriteFrame] may be asked to send. *)
Definition frame_sendable (f : Frame) : Prop :=
  frame_wf f ∧ len (f_Payload f) <= MaxPayloadSize ∧ f_PadLen f <= MaxPaddingSize.

Fixpoint pad_total (fs : list Frame) : Z :=
  match fs with [] => 0 | f :: fs' => f_PadLen f + pad_total fs' end.

Lemma pad_total_nonneg fs : Forall frame_sendable fs → 0 <= pad_total fs.
Proof. induction 1 as [|f fs [[? ?] ?] _ IH]; cbn; lia. Qed.

(** A send with enough randomness on a healthy connection. *)
Lemma WriteFrame_ok f fw :
  frame_sendable f → f_PadLen f <= len (flatten (fw_rand fw)) →
  c_closed (fw_w fw) = false → c_wr (fw_w fw) = [] →
  ∃ pad fw', WriteFrame f fw = (Ok tt, fw') ∧ len pad = f_PadLen f ∧
    c_out (fw_w fw') = c_out (fw_w fw) ++ frame_bytes f pad ∧
    c_rd (fw_w fw') = c_rd (fw_w fw) ∧
    c_closed (fw_w fw') = false ∧ c_wr (fw_w fw') = [] ∧
    len (flatten (fw_rand fw')) = len (flatten (fw_rand fw)) - f_PadLen f.
Proof.
  intros ([Hs Hp0] & Hn & Hp) Hrnd Hc Hw.
  destruct (WriteFrame_run f fw) as (buf & ->); [lia..|].
  destruct (draw_pad_spec f (fw_rand fw)) as (rnd' & -> & Hd); [lia|].
  rewrite (proj2 (Z.leb_le _ _)) by done.
  do 2 eexists. unfold on_fw_w, zoom. cbn [fw_w]. rewrite conn_Write_ok by done.
  split; [done|]. cbn. split_and!; try done; rewrite ?Hd; unfold len in *;
    rewrite ?length_take, ?length_drop; lia.
Qed.

(** Any call on any connection, by its result. *)
Lemma WriteFrame_any f fw :
  0 <= f_PadLen f →
  match WriteFrame f fw with
  | (Ok _, fw') => len (f_Payload f) <= MaxPayloadSize ∧ f_PadLen f <= MaxPaddingSize ∧
      ∃ pad, len pad = f_PadLen f ∧ c_out (fw_w fw') = c_out (fw_w fw) ++ frame_bytes f pad
  | (Err _, fw') => ∃ part, c_out (fw_w fw') = c_out (fw_w fw) ++ part
  | (Panic, _) => False
  end.
Proof.
  intros Hp0.
  destruct (Z.ltb_spec MaxPayloadSize (len (f_Payload f))) as [Hn|Hn].
  { unfold WriteFrame. rewrite Z.gtb_ltb, (proj2 (Z.ltb_lt _ _)) by lia. exists []. by rewrite app_nil_r. }
  destruct (Z.ltb_spec MaxPaddingSize (f_PadLen f)) as [Hp|Hp].
  { unfold WriteFrame. rewrite !Z.gtb_ltb, (proj2 (Z.ltb_ge _ _)), (proj2 (Z.ltb_lt _ _)) by lia.
    exists []. by rewrite app_nil_r. }
  destruct (WriteFrame_run f fw) as (buf & ->); [done..|].
  destruct (draw_pad_spec f (fw_rand fw)) as (rnd' & -> & Hd); [done|].
  destruct (Z.leb_spec (f_PadLen f) (len (flatten (fw_rand fw)))) as [Hr|Hr].
  2:{ exists []. by rewrite app_nil_r. }
  set (pad := take _ _).
  assert (Hpl : len pad = f_PadLen f) by (unfold pad, len in *; rewrite length_take; lia).
  unfold on_fw_w, zoom, conn_Write. cbn [fw_w]. destruct (c_closed (fw_w fw)).
  { exists []. by rewrite app_nil_r. }
  destruct (c_wr (fw_w fw)) as [|[[n e]|] w]; cbn; eauto.
Qed.

(** On an open connection without faults nothing partial is ever sent. *)
Definition conn_healthy (c : conn) : Prop := c_closed c = false ∧ c_wr c = [].

Lemma WriteFrame_healthy f fw :
  0 <= f_PadLen f → conn_healthy (fw_w fw) →
  match WriteFrame f fw with
  | (Ok _, fw') => conn_healthy (fw_w fw') ∧ len (f_Payload f) <= MaxPayloadSize ∧ f_PadLen f <= MaxPaddingSize ∧
      ∃ pad, len pad = f_PadLen f ∧ c_out (fw_w fw') = c_out (fw_w fw) ++ frame_bytes f pad
  | (Err _, fw') => conn_healthy (fw_w fw') ∧ c_out (fw_w fw') = c_out (fw_w fw)
  | (Panic, _) => False
  end.
Proof.
  intros Hp0 [Hc Hw].
  destruct (Z.ltb_spec MaxPayloadSize (len (f_Payload f))) as [Hn|Hn].
  { unfold WriteFrame. by rewrite Z.gtb_ltb, (proj2 (Z.ltb_lt _ _)) by lia. }
  destruct (Z.ltb_spec MaxPaddingSize (f_PadLen f)) as [Hp|Hp].
  { unfold WriteFrame. by rewrite !Z.gtb_ltb, (proj2 (Z.ltb_ge _ _)), (proj2 (Z.ltb_lt _ _)) by lia. }
  destruct (WriteFrame_run f fw) as (buf & ->); [done..|].
  destruct (draw_pad_spec f (fw_rand fw)) as (rnd' & -> & Hd); [done|].
  destruct (Z.leb_spec (f_PadLen f) (len (flatten (fw_rand fw)))) as [Hr|Hr]; [|done].
  set (pad := take _ _).
  assert (Hpl : len pad = f_PadLen f) by (unfold pad, len in *; rewrite length_take; lia).
  unfold on_fw_w, zoom. cbn [fw_w]. rewrite conn_Write_ok by done. cbn. split_and!; try done. by exists pad.
Qed.

Lemma frames_roundtrip_aux fs : ∀ fw,
  Forall frame_sendable fs → pad_total fs <= len (flatten (fw_rand fw)) →
  c_closed (fw_w fw) = false → c_wr (fw_w fw) = [] →
  ∃ fw' wire, each WriteFrame fs fw = (Ok tt, fw') ∧
    c_out (fw_w fw') = c_out (fw_w fw) ++ wire ∧
    ∀ r rest, flatten r = wire ++ rest →
      ∃ r', times (length fs) ReadFrame r = (Ok fs, r') ∧ flatten r' = rest.
Proof.
  induction fs as [|f fs IH]; intros fw Hfs Hrnd Hc Hw.
  - exists fw, []. rewrite app_nil_r. split_and!; try done. intros r rest Hr. by exists r.
  - inversion_clear Hfs as [|? ? Hf Hfs']. cbn in Hrnd.
    pose proof (pad_total_nonneg fs Hfs').
    destruct (WriteFrame_ok f fw) as (pad & fw1 & Hrun & Hpl & Hout & _ & Hc1 & Hw1 & Hrnd1);
      [done|lia|done|done|].
    destruct (IH fw1) as (fw' & wire & Hrun' & Hout' & Hread); [done|lia|done|done|].
    exists fw', (frame_bytes f pad ++ wire). split_and!.
    + cbn [each]. by erewrite bind_Ok.
    + by rewrite Hout', Hout, app_assoc.
    + intros r rest Hr. rewrite <- app_assoc in Hr.
      destruct (ReadFrame_decode r) as (r1 & Hd & Hfl & _).
      destruct Hf as (Hwf & Hn & Hp).
      rewrite Hr, frame_decode_bytes in Hd, Hfl by done. cbn in Hd, Hfl.
      destruct (Hread r1 rest Hfl) as (r' & Ht & Hr').
      exists r'. split; [|done]. cbn [length times].
      erewrite bind_Ok by done. by erewrite bind_Ok.
Qed.

(** C1. Frame round trip.  Any sequence of frames within the limits, written by
    one [Writer] to a healthy connection, is read back by [ReadFrame] as the
    same sequence, whatever the writer's buffer held before, whatever the
    padding bytes are, however the network cuts the byte stream into segments,
    and whatever follows it on the stream. *)
Theorem frames_roundtrip fs fw :
  Forall frame_sendable fs → pad_total fs <= len (flatten (fw_rand fw)) →
  c_closed (fw_w fw) = false → c_wr (fw_w fw) = [] →
  ∃ fw' wire, each WriteFrame fs fw = (Ok tt, fw') ∧
    c_out (fw_w fw') = c_out (fw_w fw) ++ wire ∧
    ∀ r rest, flatten r = wire ++ rest →
      ∃ r', times (length fs) ReadFrame r = (Ok fs, r') ∧ flatten r' = rest.
Proof. apply frames_roundtrip_aux. Qed.

Example sample_frames : list Frame :=
  [mkFrame TypeData 7 (str "hello") 3; mkFrame TypePing 0 [] 0; mkFrame TypeData 1 (str "x") 2].

Lemma frames_roundtrip_witness :
  ∃ fw' wire, each WriteFrame sample_frames (NewWriter (conn_of []) (stream (str "random") EOF)) = (Ok tt, fw') ∧
    c_out (fw_w fw') = [] ++ wire ∧
    ∀ r rest, flatten r = wire ++ rest →
      ∃ r', times 3 ReadFrame r = (Ok sample_frames, r') ∧ flatten r' = rest.
Proof.
  apply (frames_roundtrip sample_frames); [|vm_compute; discriminate|done|done].
  repeat constructor; vm_compute; done.
Defined.

(** Everything a frame reader may return. *)
Lemma frame_decode_sound fin s :
  match frame_decode fin s with
  | (Ok f, rest) =>
      frame_wf f ∧ len (f_Payload f) <= MaxPayloadSize ∧ f_PadLen f <= MaxPaddingSize ∧
      ∃ pad, len pad = f_PadLen f ∧ s = frame_bytes f pad ++ rest
  | (Err e, rest) =>
      (e = ErrFrameTooLarge ∨ e = ErrPaddingTooLarge ∨ e = ErrUnexpectedEOF ∨ e = fin) ∧
      rest `suffix_of` s
  | (Panic, _) => False
  end.
Proof.
  assert (Hshort : ∀ got, short_error got fin = ErrUnexpectedEOF ∨ short_error got fin = fin).
  { intros [|b got]; cbn; [auto|]. destruct (decide _); auto. }
  assert (Hdrop : ∀ k (l : bytes), drop k l `suffix_of` l).
  { intros k l. exists (take k l). by rewrite take_drop. }
  unfold frame_decode.
  destruct (Nat.ltb_spec (length s) 11) as [Hs|Hs].
  { split; [destruct (Hshort s); auto|apply suffix_nil]. }
  cbv zeta. set (n := be_get (take 4 (drop 5 s))). set (p := be_get (take 2 (drop 9 s))).
  assert (0 <= n) by apply be_get_range.
  assert (Hpb : 0 <= p < 256 ^ 2) by (apply (be_get_bounds 2); rewrite length_take; lia).
  destruct (Z.ltb_spec MaxPayloadSize n); [split; [auto|apply Hdrop]|].
  destruct (Z.ltb_spec MaxPaddingSize p); [split; [auto|apply Hdrop]|].
  destruct (Z.ltb_spec (len (drop 11 s)) n) as [Hb|Hb].
  { split; [destruct (Hshort (drop 11 s)); auto|apply suffix_nil]. }
  destruct (Z.ltb_spec (len (drop (Z.to_nat n) (drop 11 s))) p) as [Ht|Ht].
  { split; [destruct (Hshort (drop (Z.to_nat n) (drop 11 s))); auto|apply suffix_nil]. }
  assert (Hn : len (take (Z.to_nat n) (drop 11 s)) = n).
  { unfold len in *. rewrite length_take. lia. }
  cbn [f_StreamID f_Payload f_PadLen]. rewrite Hn. split_and!; try done.
  { split; [apply (be_get_bounds 4); rewrite length_take; lia|done]. }
  exists (take (Z.to_nat p) (drop (Z.to_nat n) (drop 11 s))). split.
  { unfold len in *. rewrite length_take. lia. }
  unfold frame_bytes. rewrite <- !app_assoc, !take_drop.
  unfold frame_header. cbn [f_Type f_StreamID f_Payload f_PadLen]. rewrite Hn.
  do 11 (destruct s as [|? s]; [cbn in Hs; lia|]).
  unfold n, p. cbn [take drop nth].
  change (take 0 s) with (@nil byte). rewrite take_drop.
  rewrite (be_put_get [_; _; _; _] : be_put 4 (be_get [_; _; _; _]) = _).
  rewrite (be_put_get [_; _; _; _] : be_put 4 (be_get [_; _; _; _]) = _).
  rewrite (be_put_get [_; _] : be_put 2 (be_get [_; _]) = _). done.
Qed.

(** C37. The reader is total and canonical.  On every stream, in every
    segmentation, [ReadFrame] either returns a well-formed frame within the
    limits (so it never allocates more than 65535 payload bytes), having
    consumed exactly the encoding of that frame, or one of the four documented
    errors with a suffix of the stream left; it never panics. *)
Theorem ReadFrame_total r :
  match ReadFrame r with
  | (Ok f, r') =>
      frame_sendable f ∧
      ∃ pad, len pad = f_PadLen f ∧ flatten r = frame_bytes f pad ++ flatten r'
  | (Err e, r') =>
      (e = ErrFrameTooLarge ∨ e = ErrPaddingTooLarge ∨ e = ErrUnexpectedEOF ∨ e = rd_fin r) ∧
      flatten r' `suffix_of` flatten r
  | (Panic, _) => False
  end.
Proof.
  destruct (ReadFrame_decode r) as (r' & -> & Hfl & _). rewrite Hfl.
  pose proof (frame_decode_sound (rd_fin r) (flatten r)) as H.
  destruct (frame_decode _ _) as [[f|e|] rest]; cbn in *; [|done|done].
  destruct H as (? & ? & ? & ?). done.
Qed.

(** Every branch of [WriteFrame] on an open connection: it transmits exactly
    one whole frame, or rejects an oversized one with the writer untouched, or
    fails for lack of randomness with nothing transmitted, or reports the
    connection's write fault after the prefix the connection accepted.  It
    never panics on its buffer. *)
Theorem WriteFrame_outcomes f fw :
  c_closed (fw_w fw) = false → 0 <= f_PadLen f →
  match WriteFrame f fw with
  | (Ok _, fw') =>
      len (f_Payload f) <= MaxPayloadSize ∧ f_PadLen f <= MaxPaddingSize ∧
      ∃ pad, len pad = f_PadLen f ∧
        c_out (fw_w fw') = c_out (fw_w fw) ++ frame_bytes f pad
  | (Err e, fw') =>
      (len (f_Payload f) > MaxPayloadSize ∧ e = ErrFrameTooLarge ∧ fw' = fw) ∨
      (f_PadLen f > MaxPaddingSize ∧ e = ErrPaddingTooLarge ∧ fw' = fw) ∨
      (len (flatten (fw_rand fw)) < f_PadLen f ∧ fw_w fw' = fw_w fw) ∨
      (∃ pad n, len pad = f_PadLen f ∧ head (c_wr (fw_w fw)) = Some (Some (n, e)) ∧
        c_out (fw_w fw') = c_out (fw_w fw) ++ take n (frame_bytes f pad))
  | (Panic, _) => False
  end.
Proof.
  intros Hc Hp0.
  destruct (Z.ltb_spec MaxPayloadSize (len (f_Payload f))) as [Hn|Hn].
  { unfold WriteFrame. rewrite Z.gtb_ltb, (proj2 (Z.ltb_lt _ _)) by lia. cbn. left. split; [lia|done]. }
  destruct (Z.ltb_spec MaxPaddingSize (f_PadLen f)) as [Hp|Hp].
  { unfold WriteFrame. rewrite !Z.gtb_ltb, (proj2 (Z.ltb_ge _ _)), (proj2 (Z.ltb_lt _ _)) by lia.
    cbn. right; left. split; [lia|done]. }
  destruct (WriteFrame_run f fw) as (buf & ->); [done..|].
  destruct (draw_pad_spec f (fw_rand fw)) as (rnd' & -> & Hd); [done|].
  destruct (Z.leb_spec (f_PadLen f) (len (flatten (fw_rand fw)))) as [Hr|Hr].
  - set (pad := take _ _).
    assert (Hpl : len pad = f_PadLen f) by (unfold pad, len in *; rewrite length_take; lia).
    unfold on_fw_w, zoom, conn_Write. cbn [fw_w]. rewrite Hc.
    destruct (c_wr (fw_w fw)) as [|[[n e]|] w]; cbn.
    + eauto.
    + do 3 right. exists pad, n. done.
    + eauto.
  - right; right; left. done.
Qed.

Lemma WriteFrame_outcomes_witness :
  c_closed (conn_of []) = false ∧
  match WriteFrame (mkFrame TypeData 0 (str "hi") 0) (NewWriter (conn_of []) (stream [] EOF)) with
  | (Ok _, fw') => ∃ pad, len pad = 0 ∧ c_out (fw_w fw') = frame_bytes (mkFrame TypeData 0 (str "hi") 0) pad
  | _ => False
  end.
Proof.
  split; [done|].
  pose proof (WriteFrame_outcomes (mkFrame TypeData 0 (str "hi") 0)
    (NewWriter (conn_of []) (stream [] EOF)) eq_refl ltac:(done)) as H.
  vm_compute in H |- *. destruct H as (_ & _ & H). exact H.
Defined.

(** Segmentation independence of the frame reader: two connections that
    deliver the same bytes and end the same way give the same frames and the
    same errors, however the bytes are cut into segments. *)
Theorem ReadFrame_segmentation n r1 r2 :
  r1 ≡ r2 → M_equiv (times n ReadFrame r1) (times n ReadFrame r2).
Proof. revert r1 r2. apply M_proper_times, M_proper_ReadFrame. Qed.

Lemma ReadFrame_segmentation_witness :
  stream (str "abcdef") EOF ≡ Reader [str "ab"; []; str "cdef"] EOF true ∧
  M_equiv (times 2 ReadFrame (stream (str "abcdef") EOF))
          (times 2 ReadFrame (Reader [str "ab"; []; str "cdef"] EOF true)).
Proof.
  assert (H : stream (str "abcdef") EOF ≡ Reader [str "ab"; []; str "cdef"] EOF true) by done.
  split; [exact H|]. exact (ReadFrame_segmentation 2 _ _ H).
Defined.

(** ** STREAM_OPEN payload *)

Lemma Marshal_bytes p :
  Marshal p = [so_AddrType p] ++ [byte_of_Z (len (so_Addr p))] ++ so_Addr p ++ be_put 2 (so_Port p).
Proof.
  unfold Marshal. set (a := so_Addr p).
  change (replicate (4 + length a) x00) with ([] ++ replicate (4 + length a) x00).
  repeat (rewrite blit_frontier by
    (rewrite ?length_app, ?length_drop, ?length_be_put, ?length_replicate; cbn [length]; lia)).
  rewrite !drop_drop, !length_be_put. cbn [length].
  rewrite drop_ge by (rewrite length_replicate; lia). rewrite app_nil_r.
  by rewrite <- !app_assoc.
Qed.

(** What [UnmarshalStreamOpenPayload] computes. *)
Lemma Unmarshal_cases b :
  UnmarshalStreamOpenPayload b =
    match b with
    | t :: l :: rest =>
        if len b <? 4 then Err (ErrNew "protocol: stream open payload too short" []) else
        if len rest <? Z_of_byte l + 2 then Err (ErrNew "protocol: stream open payload truncated" [])
        else Ok (mkSOP t (take (Z.to_nat (Z_of_byte l)) rest)
                   (be_get (take 2 (drop (Z.to_nat (Z_of_byte l)) rest))))
    | _ => Err (ErrNew "protocol: stream open payload too short" [])
    end.
Proof.
  destruct b as [|t [|l rest]]; [done..|].
  unfold UnmarshalStreamOpenPayload. destruct (Z.ltb_spec (len (t :: l :: rest)) 4) as [H|H]; [done|].
  rewrite !index_Ok by lia. cbv zeta.
  change (nth (Z.to_nat 1) (t :: l :: rest) x00) with l.
  change (nth (Z.to_nat 0) (t :: l :: rest) x00) with t.
  pose proof (Z_of_byte_range l).
  assert (Hl : len (t :: l :: rest) = 2 + len rest) by (unfold len; cbn [length]; lia).
  rewrite !Hl in *. replace (2 + Z_of_byte l + 2) with (2 + (Z_of_byte l + 2)) by lia.
  destruct (Z.ltb_spec (2 + len rest) (2 + (Z_of_byte l + 2))), (Z.ltb_spec (len rest) (Z_of_byte l + 2));
    try lia; [done|].
  rewrite !slice_Ok by lia.
  replace (Z.to_nat (2 + Z_of_byte l - 2)) with (Z.to_nat (Z_of_byte l)) by lia.
  replace (Z.to_nat (2 + Z_of_byte l)) with (S (S (Z.to_nat (Z_of_byte l)))) by lia.
  change (Z.to_nat 2) with 2%nat. cbn [drop].
  set (tl := take _ (drop (Z.to_nat (Z_of_byte l)) rest)).
  assert (Htl : tl = drop (Z.to_nat (Z_of_byte l)) rest).
  { unfold tl. apply take_ge. rewrite length_drop. unfold len in *. lia. }
  rewrite slice_Ok by (rewrite ?Htl; unfold len in *; rewrite ?length_drop; lia).
  rewrite Htl. done.
Qed.

(** The STREAM_OPEN payload round trips exactly for the addresses whose
    length fits the length byte; for a longer address [Marshal] truncates the
    length byte and the decoded target differs from the encoded one. *)
Lemma stream_open_roundtrip p :
  0 <= so_Port p < 65536 →
  UnmarshalStreamOpenPayload (Marshal p) = Ok p ↔ len (so_Addr p) <= 255.
Proof.
  intros Hport. rewrite Unmarshal_cases, Marshal_bytes.
  destruct p as [t a port]. cbn [app so_AddrType so_Addr so_Port] in *.
  rewrite Z_of_byte_of_Z. set (n := len a `mod` 256).
  assert (Hn : 0 <= n < 256) by (apply Z.mod_pos_bound; lia).
  assert (Hla : len (a ++ be_put 2 port) = len a + 2) by (rewrite len_app; done).
  split.
  - repeat case_bool; try discriminate. intros [= Ha _].
    apply (f_equal len) in Ha. unfold len in Ha at 1. rewrite length_take in Ha.
    unfold len in *. lia.
  - intros Ha. assert (Hna : n = len a) by (apply Z.mod_small; pose proof (len_nonneg a); lia).
    rewrite (proj2 (Z.ltb_ge _ _)) by
      (unfold len in *; cbn [length]; rewrite length_app, length_be_put; lia).
    rewrite (proj2 (Z.ltb_ge _ _)) by lia. rewrite Hna.
    replace (Z.to_nat (len a)) with (length a) by (unfold len; lia).
    rewrite take_app_length, drop_app_length. rewrite take_ge by (rewrite length_be_put; lia).
    by rewrite be_get_put_small by lia.
Qed.
