(* ===== verification/Sharing.v ===== *)
(** [WriteFrame] ([internal/protocol/frame.go]) in the two parts that a scheduler
    can separate when goroutines share a writer without a lock: building the
    frame in the writer's one buffer, and handing that buffer to the connection. *)

From Stdlib Require Import Strings.Byte ZArith Lia.
From stdpp Require Import base list.
From S2P Require Import Prelude Encoding Io Frame.

Definition frame_total (f : Frame) : Z := FrameHeaderSize + len (f_Payload f) + f_PadLen f.

(** Everything before [w.Write]: the limits, the growth of the buffer, the
    header, the payload and the padding. *)
Definition fill (f : Frame) : M Writer unit :=
  if len (f_Payload f) >? MaxPayloadSize then fail ErrFrameTooLarge else
  if f_PadLen f >? MaxPaddingSize then fail ErrPaddingTooLarge else
  cap <- gets (λ fw, len (fw_buf fw)) ;;
  (when cap <? frame_total f do fw_put (replicate (Z.to_nat (frame_total f * 2)) x00) od) ;;;
  fw_blit 0 [f_Type f] ;;;
  fw_blit 1 (be_put 4 (f_StreamID f)) ;;;
  fw_blit 5 (be_put 4 (len (f_Payload f))) ;;;
  fw_blit 9 (be_put 2 (f_PadLen f)) ;;;
  fw_blit 11 (f_Payload f) ;;;
  when 0 <? f_PadLen f do
    (pad <- on_fw_rand (rand_Read (Z.to_nat (f_PadLen f))) ;;
     fw_blit (11 + length (f_Payload f)) pad)
  od.

(** [fw.w.Write(buf[:total])]: what the buffer holds now goes out. *)
Definition emit (f : Frame) : M Writer unit :=
  buf <- gets fw_buf ;;
  out <- lift (slice buf 0 (frame_total f)) ;;
  on_fw_w (conn_Write out).

(** Nothing is left out. *)
Lemma WriteFrame_fill_emit f fw : WriteFrame f fw = (fill f ;;; emit f) fw.
Proof.
  unfold WriteFrame, fill, emit. destruct (_ >? MaxPayloadSize); [done|]. destruct (_ >? MaxPaddingSize); [done|].
  cbv zeta. unfold frame_total. do 7 (rewrite bind_bind; apply bind_ext; intros).
  apply bind_ext; intros. done.
Qed.

(** The buffer has room for the frame; it begins with the frame. *)
Definition fits (f : Frame) (fw : Writer) : Prop := 0 <= frame_total f <= len (fw_buf fw).
Definition holds (f : Frame) (fw : Writer) : Prop :=
  ∃ pad tail, len pad = f_PadLen f ∧ fw_buf fw = frame_bytes f pad ++ tail.

Lemma len_frame_bytes f pad : len pad = f_PadLen f → len (frame_bytes f pad) = frame_total f.
Proof. unfold frame_total, FrameHeaderSize, len. rewrite length_frame_bytes. lia. Qed.

Lemma holds_fits f fw : holds f fw → fits f fw.
Proof.
  intros (pad & tail & Hp & E). unfold fits. rewrite E, <- (len_frame_bytes f pad Hp), len_app.
  pose proof (len_nonneg tail). pose proof (len_nonneg (frame_bytes f pad)). lia.
Qed.

Lemma fits_mono f fw fw' : fits f fw → len (fw_buf fw) <= len (fw_buf fw') → fits f fw'.
Proof. unfold fits. lia. Qed.

(** The buffer before the padding. *)
Lemma fill_head f fw :
  0 <= f_PadLen f → len (f_Payload f) <= MaxPayloadSize → f_PadLen f <= MaxPaddingSize →
  ∃ tail, f_PadLen f <= len tail ∧
    let fw1 := mkWriter (fw_w fw) ((frame_header f ++ f_Payload f) ++ tail) (fw_rand fw) in
    len (fw_buf fw) <= len (fw_buf fw1) ∧
    fill f fw = (when 0 <? f_PadLen f do
      (pad <- on_fw_rand (rand_Read (Z.to_nat (f_PadLen f))) ;;
       fw_blit (11 + length (f_Payload f)) pad) od) fw1.
Proof.
  intros Hp0 Hp Hpad. unfold fill. rewrite !Z.gtb_ltb, !(proj2 (Z.ltb_ge _ _)) by lia.
  destruct (grow_buffer (frame_total f) fw) as (buf & Hg & Hbuf & Hle).
  unfold frame_total, FrameHeaderSize in Hbuf.
  exists (drop (11 + length (f_Payload f)) buf). split.
  { unfold len in *. rewrite length_drop. lia. }
  cbv zeta. cbn [fw_buf]. split.
  { unfold len in *. rewrite !length_app, length_frame_header, length_drop. lia. }
  erewrite bind_Ok by done. erewrite bind_Ok by exact Hg.
  do 5 (erewrite bind_Ok by done). cbn [fw_w fw_buf fw_rand].
  by rewrite fill_buffer by (unfold len in *; lia).
Qed.

(** Building a frame writes nothing, and the buffer never shrinks. *)
Lemma fill_run f fw :
  0 <= f_PadLen f →
  match fill f fw with
  | (Ok _, fw') => fw_w fw' = fw_w fw ∧ len (fw_buf fw) <= len (fw_buf fw') ∧
      len (f_Payload f) <= MaxPayloadSize ∧ f_PadLen f <= MaxPaddingSize ∧ holds f fw'
  | (Err _, fw') => fw_w fw' = fw_w fw ∧ len (fw_buf fw) <= len (fw_buf fw')
  | (Panic, _) => False
  end.
Proof.
  intros Hp0.
  destruct (Z.ltb_spec MaxPayloadSize (len (f_Payload f))) as [Hn|Hn].
  { unfold fill. rewrite Z.gtb_ltb, (proj2 (Z.ltb_lt _ _)) by lia. by cbn. }
  destruct (Z.ltb_spec MaxPaddingSize (f_PadLen f)) as [Hp|Hp].
  { unfold fill. rewrite !Z.gtb_ltb, (proj2 (Z.ltb_ge _ _)), (proj2 (Z.ltb_lt _ _)) by lia. by cbn. }
  destruct (fill_head f fw Hp0 Hn Hp) as (tail & Htl & Hle & ->). cbn [fw_buf] in Hle.
  destruct (draw_pad_spec f (fw_rand fw) Hp0) as (rnd' & Hdr & _). unfold draw_pad in Hdr.
  destruct (Z.ltb_spec 0 (f_PadLen f)) as [H|H].
  2: { cbn. split_and!; try done. exists [], tail. split; [unfold len; cbn; lia|]. unfold frame_bytes. by rewrite app_nil_r. }
  destruct (Z.leb_spec (f_PadLen f) (len (flatten (fw_rand fw)))) as [Hl|Hl].
  2: { erewrite bind_Err by (unfold on_fw_rand, zoom; cbn [fw_rand]; rewrite Hdr; done). by cbn. }
  set (pad := take _ _) in *.
  assert (Hpl : len pad = f_PadLen f) by (unfold pad, len in *; rewrite length_take; lia).
  erewrite bind_Ok by (unfold on_fw_rand, zoom; cbn [fw_rand]; rewrite Hdr; done).
  unfold fw_blit, modify. cbn [fw_w fw_buf fw_rand].
  rewrite blit_frontier by (unfold len in *; rewrite ?length_app, ?length_frame_header; lia).
  split_and!; try done.
  - unfold len in *. rewrite !length_app, length_drop in *. lia.
  - exists pad, (drop (length pad) tail). split; [done|]. unfold frame_bytes. by rewrite !app_assoc.
Qed.

(** Sending writes a piece of the buffer and changes nothing but the connection. *)
Lemma emit_run f fw : fits f fw →
  emit f fw = on_fw_w (conn_Write (take (Z.to_nat (frame_total f)) (fw_buf fw))) fw.
Proof.
  intros [H1 H2]. unfold emit. erewrite bind_Ok by done. erewrite bind_Ok; [done|].
  unfold lift. rewrite slice_Ok by lia. by rewrite drop_0, Z.sub_0_r.
Qed.

Lemma emit_holds f fw : holds f fw →
  ∃ pad, len pad = f_PadLen f ∧ take (Z.to_nat (frame_total f)) (fw_buf fw) = frame_bytes f pad ∧
    emit f fw = on_fw_w (conn_Write (frame_bytes f pad)) fw.
Proof.
  intros Hh. pose proof (holds_fits f fw Hh) as Hf. destruct Hh as (pad & tail & Hp & E). exists pad.
  assert (Ht : take (Z.to_nat (frame_total f)) (fw_buf fw) = frame_bytes f pad).
  { rewrite E, take_app_exact; [done|]. pose proof (len_frame_bytes f pad Hp). unfold len in *. lia. }
  split; [done|]. split; [done|]. by rewrite emit_run, Ht.
Qed.

(** A schedule of two goroutines on one writer. *)
Inductive act : Type := Fill (f : Frame) | Emit (f : Frame).
Definition run_act (a : act) : M Writer unit := match a with Fill f => fill f | Emit f => emit f end.
