(* ===== verification/Connect.v ===== *)
(** The per-stream CONNECT exchange: [internal/tunnel/protocol.go], and the
    copies of it in [internal/relay/relay.go] with their hand-written read
    loops. *)

From Stdlib Require Import Strings.Byte String ZArith Lia.
From stdpp Require Import base list.
From S2P Require Import Prelude Encoding Io Frame.

Definition connectOK : byte := x00.
Definition connectFail : byte := x01.

(** ** internal/tunnel/protocol.go *)

Definition writeConnectRequest (addrType : AddrType) (addr : bytes) (port : Z) : M conn unit :=
  if len addr >? 255 then fail (ErrNew "tunnel: address too long: %d bytes" [len addr]) else
  let buf := replicate (2 + length addr + 2) x00 in
  let buf := blit 0 [addrType] buf in
  let buf := blit 1 [byte_of_Z (len addr)] buf in
  let buf := blit 2 addr buf in
  let buf := blit (2 + length addr) (be_put 2 port) buf in
  conn_Write buf.

Definition readConnectRequest : M conn (AddrType * bytes * Z) :=
  hdr <- wrap "tunnel: read connect hdr" (conn_ReadFull 2) ;;
  let addrType := nth 0 hdr x00 in
  let addrLen := Z.to_nat (Z_of_byte (nth 1 hdr x00)) in
  if (addrLen =? 0)%nat then fail (ErrNew "tunnel: zero-length address" []) else
  addrBuf <- wrap "tunnel: read connect addr" (conn_ReadFull (addrLen + 2)) ;;
  ret (addrType, take addrLen addrBuf, be_get (drop addrLen addrBuf)).

Definition writeConnectResponse (ok : bool) : M conn unit :=
  let status := if ok then connectOK else connectFail in
  conn_Write [status].

Definition readConnectResponse : M conn unit :=
  status <- wrap "tunnel: read connect response" (conn_ReadFull 1) ;;
  let s0 := nth 0 status x00 in
  if decide (s0 = connectOK) then ret tt
  else fail (ErrNew "tunnel: server refused connection (status 0x%02x)" [Z_of_byte s0]).

(** [net.JoinHostPort(addr, fmt.Sprintf("%d", port))] *)
Definition targetAddr (addr : bytes) (port : Z) : bytes :=
  if bool_decide (x3a ∈ addr)
  then str "[" ++ addr ++ str "]:" ++ dec port
  else addr ++ str ":" ++ dec port.

(** ** The copies in internal/relay/relay.go *)

Module Relay.

Definition writeConnectRequest (addrType : AddrType) (addr : bytes) (port : Z) : M conn unit :=
  let buf := replicate (2 + length addr + 2) x00 in
  let buf := blit 0 [addrType] buf in
  let buf := blit 1 [byte_of_Z (len addr)] buf in
  let buf := blit 2 addr buf in
  let buf := blit (2 + length addr) [byte_of_Z (Z.shiftr port 8)] buf in
  let buf := blit (3 + length addr) [byte_of_Z port] buf in
  conn_Write buf.

(** [for n := 0; n < k; { nn, err := r.Read(buf[n:]); n += nn; if err != nil
    { return err } }]: unlike [io.ReadFull], an error that comes with the last
    bytes wins over the bytes. *)
Fixpoint read_loop (fuel k : nat) (acc : bytes) (r : reader) : option (bytes * option error * reader) :=
  match fuel with
  | O => None
  | S fuel' =>
      if (length acc <? k)%nat
      then let '(bs, e, r') := rd_read (k - length acc) r in
           match e with
           | Some e' => Some (acc ++ bs, Some e', r')
           | None => read_loop fuel' k (acc ++ bs) r'
           end
      else Some (acc, None, r)
  end.

Definition read_exact (k : nat) : M reader bytes := λ r,
  match read_loop (read_fuel r) k [] r with
  | Some (bs, None, r') => (Ok bs, r')
  | Some (_, Some e, r') => (Err e, r')
  | None => (Panic, r)
  end.

Definition conn_read_exact (k : nat) : M conn bytes := λ c,
  if c_closed c then (Err ErrClosed, c) else zoom c_rd put_rd (read_exact k) c.

Definition readConnectResponse : M conn unit :=
  status <- wrap "read response" (conn_read_exact 1) ;;
  let s0 := nth 0 status x00 in
  if decide (s0 = x00) then ret tt
  else fail (ErrNew "relay: upstream refused (status 0x%02x)" [Z_of_byte s0]).

Definition readConnectRequest : M conn (AddrType * bytes * Z) :=
  hdr <- conn_read_exact 2 ;;
  let addrType := nth 0 hdr x00 in
  let addrLen := Z.to_nat (Z_of_byte (nth 1 hdr x00)) in
  rest <- conn_read_exact (addrLen + 2) ;;
  let b i := Z_of_byte (nth i rest x00) in
  ret (addrType, take addrLen rest, Z.lor (Z.shiftl (b addrLen) 8) (b (S addrLen))).

Definition writeConnectResponse (ok : bool) : M conn unit :=
  let b := if ok then x00 else x01 in
  conn_Write [b].

End Relay.

(** ** The wire format *)

Definition connect_bytes (addrType : AddrType) (addr : bytes) (port : Z) : bytes :=
  [addrType] ++ [byte_of_Z (len addr)] ++ addr ++ be_put 2 port.

Lemma writeConnectRequest_bytes t a p :
  writeConnectRequest t a p =
    if len a >? 255 then fail (ErrNew "tunnel: address too long: %d bytes" [len a])
    else conn_Write (connect_bytes t a p).
Proof.
  unfold writeConnectRequest. destruct (len a >? 255); [done|]. f_equal.
  change (replicate (2 + length a + 2) x00) with ([] ++ replicate (2 + length a + 2) x00).
  repeat (rewrite blit_frontier by
    (rewrite ?length_app, ?length_drop, ?length_be_put, ?length_replicate; cbn [length]; lia)).
  rewrite !drop_drop, !length_be_put. cbn [length].
  rewrite drop_ge by (rewrite length_replicate; lia). rewrite app_nil_r.
  unfold connect_bytes. by rewrite <- !app_assoc.
Qed.

Lemma relay_writeConnectRequest_bytes t a p :
  Relay.writeConnectRequest t a p = conn_Write (connect_bytes t a p).
Proof.
  unfold Relay.writeConnectRequest. f_equal.
  change (replicate (2 + length a + 2) x00) with ([] ++ replicate (2 + length a + 2) x00).
  repeat (rewrite blit_frontier by
    (rewrite ?length_app, ?length_drop, ?length_replicate; cbn [length]; lia)).
  rewrite !drop_drop. cbn [length].
  rewrite drop_ge by (rewrite length_replicate; lia). rewrite app_nil_r.
  unfold connect_bytes. rewrite <- !app_assoc.
  change (be_put 2 p) with [byte_of_Z (Z.shiftr p 8); byte_of_Z (Z.shiftr p 0)].
  by rewrite Z.shiftr_0_r.
Qed.

(** The hand-written loop against the stream: on a reader that reports its end
    in a call of its own it is [io.ReadFull] up to the error it reports. *)
Lemma relay_read_loop_spec fuel k acc r :
  rd_eager r = false → (length acc <= k)%nat → (length (rd_chunks r) + 2 <= fuel)%nat →
  ∃ r', flatten r' = drop (k - length acc) (flatten r) ∧ rd_fin r' = rd_fin r ∧
    rd_eager r' = false ∧
    Relay.read_loop fuel k acc r =
      Some (acc ++ take (k - length acc) (flatten r),
            if (k - length acc <=? length (flatten r))%nat then None else Some (rd_fin r), r').
Proof.
  revert acc r. induction fuel as [|fuel IH]; intros acc r He Hacc Hfuel; [lia|].
  cbn [Relay.read_loop]. destruct (Nat.ltb_spec (length acc) k) as [Hlt|Hge].
  - destruct r as [[|c cs] fin eager]; cbn [rd_eager] in He; subst eager.
    + cbn. exists (Reader [] fin false). rewrite drop_nil, app_nil_r, take_nil.
      split_and!; try done. rewrite (proj2 (Nat.leb_gt _ _)) by (cbn; lia).
      by rewrite app_nil_r.
    + unfold rd_read. cbn [rd_chunks rd_eager].
      change (flatten (Reader (c :: cs) fin false)) with (c ++ concat cs).
      destruct (Nat.leb_spec (length c) (k - length acc)) as [Hc|Hc].
      * destruct (IH (acc ++ c) (set_chunks cs (Reader (c :: cs) fin false)))
          as (r' & Hd & Hf & Heg & Hrun); [done|rewrite length_app; lia|cbn in *; lia|].
        exists r'. rewrite Hrun, Hd.
        change (flatten (set_chunks cs (Reader (c :: cs) fin false))) with (concat cs).
        unfold set_chunks. cbn [rd_chunks rd_fin rd_eager].
        rewrite length_app. replace (k - (length acc + length c))%nat
          with (k - length acc - length c)%nat by lia.
        rewrite drop_app_ge, take_app_ge, length_app by done.
        split_and!; try done. rewrite <- app_assoc. f_equal. f_equal. f_equal.
        destruct (Nat.leb_spec (k - length acc - length c) (length (concat cs))),
          (Nat.leb_spec (k - length acc) (length c + length (concat cs))); done || lia.
      * destruct fuel as [|fuel]; [lia|]. cbn [Relay.read_loop].
        rewrite length_app, length_take. rewrite (proj2 (Nat.ltb_ge _ _)) by lia.
        exists (Reader (drop (k - length acc) c :: cs) fin false).
        rewrite take_app_le, drop_app_le by lia.
        rewrite length_app. rewrite (proj2 (Nat.leb_le (k - length acc) _)) by lia.
        unfold set_chunks. cbn [rd_chunks rd_fin rd_eager concat]. done.
  - exists r. replace (k - length acc)%nat with 0%nat by lia. rewrite take_0, drop_0, app_nil_r.
    by rewrite (proj2 (Nat.leb_le _ _)) by lia.
Qed.

(** Whatever the reader, a read that succeeds delivers the next [k] bytes. *)
Lemma relay_read_loop_ok fuel k acc r bs r' :
  (length acc <= k)%nat →
  Relay.read_loop fuel k acc r = Some (bs, None, r') →
  ∃ got, bs = acc ++ got ∧ length bs = k ∧ flatten r = got ++ flatten r' ∧ rd_fin r' = rd_fin r.
Proof.
  revert acc r. induction fuel as [|fuel IH]; intros acc r Hacc; [done|].
  cbn [Relay.read_loop]. destruct (Nat.ltb_spec (length acc) k) as [Hlt|Hge].
  - destruct (rd_read_spec (k - length acc) r) as (c & e & r1 & -> & Hfl & Hfin & _ & Hlen & _); [lia|].
    destruct e; [done|]. intros H. destruct (IH (acc ++ c) r1) as (got & -> & Hl & Hfl' & Hfin');
      [rewrite length_app; lia|done|].
    exists (c ++ got).
    split_and!; [by rewrite app_assoc|done|by rewrite Hfl, Hfl', app_assoc|congruence].
  - intros [= <- <-]. exists []. rewrite app_nil_r. split_and!; try done. lia.
Qed.

Lemma relay_read_exact_ok k c bs c' :
  Relay.conn_read_exact k c = (Ok bs, c') →
  length bs = k ∧ flatten (c_rd c) = bs ++ flatten (c_rd c') ∧ c_out c' = c_out c ∧
  c_closed c' = c_closed c ∧ c_wr c' = c_wr c.
Proof.
  unfold Relay.conn_read_exact, zoom, Relay.read_exact. destruct (c_closed c) eqn:Hc; [done|].
  destruct (Relay.read_loop _ _ _ _) as [[[b [e|]] r']|] eqn:Hr; [done| |done].
  apply relay_read_loop_ok in Hr; [|cbn; lia]. destruct Hr as (got & -> & Hl & Hfl & _).
  intros [= <- <-]. by cbn.
Qed.

Lemma relay_read_exact_spec k r :
  rd_eager r = false →
  ∃ r', flatten r' = drop k (flatten r) ∧ rd_fin r' = rd_fin r ∧ rd_eager r' = false ∧
    Relay.read_exact k r =
      (if (k <=? length (flatten r))%nat then Ok (take k (flatten r)) else Err (rd_fin r), r').
Proof.
  intros He. destruct (relay_read_loop_spec (read_fuel r) k [] r) as (r' & Hd & Hf & Hg & Hrun);
    [done|cbn; lia|unfold read_fuel; lia|].
  cbn [length] in *. rewrite Nat.sub_0_r in *.
  exists r'. split_and!; try done. unfold Relay.read_exact. rewrite Hrun.
  by destruct (k <=? _)%nat.
Qed.

(** What the readers compute on the plain bytes of a stream. *)
Definition connect_decode (s : bytes) : option (AddrType * bytes * Z * bytes) :=
  match s with
  | t :: l :: rest =>
      let n := Z.to_nat (Z_of_byte l) in
      if (n + 2 <=? length rest)%nat
      then Some (t, take n rest, be_get (take 2 (drop n rest)), drop (n + 2) rest)
      else None
  | _ => None
  end.

Lemma take_add_split {A} n m (l : list A) : take (n + m) l = take n l ++ take m (drop n l).
Proof. rewrite <- (take_drop n (take (n + m) l)). rewrite firstn_firstn, skipn_firstn_comm.
  f_equal; f_equal; lia. Qed.

(** The two blocks of a request, read by any block reader [rd] that agrees with
    [io.ReadFull] on what it delivers. *)
Section block_reader.
Context (rd : nat → M conn bytes) (good : conn → Prop).
Hypothesis rd_spec : ∀ k c, good c →
  ∃ c', good c' ∧ flatten (c_rd c') = drop k (flatten (c_rd c)) ∧
    snd (rd k c) = c' ∧
    (if (k <=? length (flatten (c_rd c)))%nat
     then fst (rd k c) = Ok (take k (flatten (c_rd c)))
     else ∃ e, fst (rd k c) = Err e).

Lemma block_reader_two {A} (k1 : nat) (f : bytes → nat) (g : bytes → bytes → A) c :
  good c →
  ∃ c', good c' ∧ snd (bind (rd k1) (λ h, bind (rd (f h)) (λ b, ret (g h b))) c) = c' ∧
  let s := flatten (c_rd c) in
  let h := take k1 s in
  if (k1 <=? length s)%nat && (f h <=? length (drop k1 s))%nat
  then fst (bind (rd k1) (λ h, bind (rd (f h)) (λ b, ret (g h b))) c)
         = Ok (g h (take (f h) (drop k1 s))) ∧ flatten (c_rd c') = drop (f h) (drop k1 s)
  else ∃ e, fst (bind (rd k1) (λ h, bind (rd (f h)) (λ b, ret (g h b))) c) = Err e.
Proof.
  intros Hg. destruct (rd_spec k1 c Hg) as (c1 & Hg1 & Hd1 & Hs1 & Hr1). cbv zeta.
  unfold bind at 1 3 5. destruct (rd k1 c) as [o1 c1'] eqn:E1. cbn in Hs1, Hr1. subst c1'.
  destruct (Nat.leb_spec k1 (length (flatten (c_rd c)))) as [H1|H1]; cbn [andb].
  - subst o1. set (h := take k1 (flatten (c_rd c))).
    destruct (rd_spec (f h) c1 Hg1) as (c2 & Hg2 & Hd2 & Hs2 & Hr2). rewrite Hd1 in Hd2, Hr2.
    unfold bind. destruct (rd (f h) c1) as [o2 c2'] eqn:E2. cbn in Hs2, Hr2. subst c2'.
    exists c2. destruct (f h <=? _)%nat.
    + subst o2. done.
    + destruct Hr2 as [e ->]. split_and!; [done|done|by exists e].
  - destruct Hr1 as [e ->]. exists c1. split_and!; [done|done|by exists e].
Qed.
End block_reader.

Definition conn_open (c : conn) : Prop := c_closed c = false.
Definition conn_open_plain (c : conn) : Prop := c_closed c = false ∧ rd_eager (c_rd c) = false.

Lemma conn_ReadFull_block k c :
  conn_open c →
  ∃ c', conn_open c' ∧ flatten (c_rd c') = drop k (flatten (c_rd c)) ∧
    snd (conn_ReadFull k c) = c' ∧
    (if (k <=? length (flatten (c_rd c)))%nat
     then fst (conn_ReadFull k c) = Ok (take k (flatten (c_rd c)))
     else ∃ e, fst (conn_ReadFull k c) = Err e).
Proof.
  unfold conn_open. intros Hc. destruct (ReadFull_spec k (c_rd c)) as (r' & _ & _ & Hd & Hr).
  exists (put_rd r' c). unfold conn_ReadFull, zoom. rewrite Hc, Hr. cbn.
  destruct (k <=? _)%nat; split_and!; try done. eauto.
Qed.

Lemma relay_conn_read_block k c :
  conn_open_plain c →
  ∃ c', conn_open_plain c' ∧ flatten (c_rd c') = drop k (flatten (c_rd c)) ∧
    snd (Relay.conn_read_exact k c) = c' ∧
    (if (k <=? length (flatten (c_rd c)))%nat
     then fst (Relay.conn_read_exact k c) = Ok (take k (flatten (c_rd c)))
     else ∃ e, fst (Relay.conn_read_exact k c) = Err e).
Proof.
  intros [Hc He]. destruct (relay_read_exact_spec k (c_rd c) He) as (r' & Hd & _ & He' & Hr).
  exists (put_rd r' c). unfold Relay.conn_read_exact, zoom. rewrite Hc, Hr. cbn.
  destruct (k <=? _)%nat; split_and!; try done. eauto.
Qed.

(** The addresses the two block reads cut out are the decoder's. *)
Lemma connect_decode_blocks s :
  let h := take 2 s in
  let n := Z.to_nat (Z_of_byte (nth 1 h x00)) in
  let b := take (n + 2) (drop 2 s) in
  connect_decode s =
    if (2 <=? length s)%nat && (n + 2 <=? length (drop 2 s))%nat
    then Some (nth 0 h x00, take n b, be_get (drop n b), drop (n + 2) (drop 2 s)) else None.
Proof.
  destruct s as [|t [|l rest]]; [done..|]. cbn [take nth drop length connect_decode Nat.leb andb].
  rewrite drop_0. destruct (_ <=? _)%nat eqn:H; [|done]. apply Nat.leb_le in H.
  rewrite take_add_split. rewrite take_app_exact, drop_app_exact; [done|..];
    rewrite length_take; lia.
Qed.

Lemma be_get_two bs : length bs = 2%nat →
  be_get bs = Z.lor (Z.shiftl (Z_of_byte (nth 0 bs x00)) 8) (Z_of_byte (nth 1 bs x00)).
Proof. by destruct bs as [|a [|b []]]. Qed.

Lemma nth_drop {A} n i (l : list A) d : nth i (drop n l) d = nth (n + i) l d.
Proof. revert l. induction n as [|n IH]; intros [|a l]; cbn; try done. by destruct i. Qed.

Lemma readConnectRequest_decode c :
  conn_open c →
  ∃ c', conn_open c' ∧ snd (readConnectRequest c) = c' ∧
  match connect_decode (flatten (c_rd c)) with
  | Some (t, a, p, rest) =>
      if decide (a = []) then ∃ e, fst (readConnectRequest c) = Err e
      else fst (readConnectRequest c) = Ok (t, a, p) ∧ flatten (c_rd c') = rest
  | None => ∃ e, fst (readConnectRequest c) = Err e
  end.
Proof.
  intros Hc. unfold readConnectRequest.
  destruct (conn_ReadFull_block 2 c Hc) as (c1 & Hc1 & Hd1 & Hs1 & Hr1).
  rewrite (connect_decode_blocks (flatten (c_rd c))). cbv zeta.
  unfold bind, wrap.
  destruct (conn_ReadFull 2 c) as [o1 c1'] eqn:E1. cbn [fst snd] in Hs1, Hr1. subst c1'.
  destruct (Nat.leb_spec 2 (length (flatten (c_rd c)))) as [H2|H2]; cbn [andb].
  2: { destruct Hr1 as [e ->]. exists c1. split_and!; [done|done|eauto]. }
  subst o1. set (h := take 2 _). set (n := Z.to_nat (Z_of_byte (nth 1 h x00))).
  rewrite <- Hd1.
  destruct (Nat.eqb_spec n 0) as [Hn|Hn].
  { exists c1. split_and!; [done|done|]. rewrite Hn. cbn [take].
    destruct (_ <=? _)%nat; [|eauto]. rewrite decide_True by done. eauto. }
  destruct (conn_ReadFull_block (n + 2) c1 Hc1) as (c2 & Hc2 & Hd2 & Hs2 & Hr2).
  destruct (conn_ReadFull (n + 2) c1) as [o2 c2'] eqn:E2.
  cbn [fst snd] in Hs2, Hr2. subst c2'. exists c2.
  destruct (Nat.leb_spec (n + 2) (length (flatten (c_rd c1)))) as [H3|H3].
  - subst o2. cbn. split_and!; [done|done|].
    rewrite decide_False; [done|]. intros Ha. apply (f_equal length) in Ha.
    rewrite !length_take in Ha. cbn in Ha. lia.
  - destruct Hr2 as [e ->]. cbn. split_and!; [done|done|eauto].
Qed.

Lemma relay_readConnectRequest_decode c :
  conn_open_plain c →
  ∃ c', conn_open_plain c' ∧ snd (Relay.readConnectRequest c) = c' ∧
  match connect_decode (flatten (c_rd c)) with
  | Some (t, a, p, rest) =>
      fst (Relay.readConnectRequest c) = Ok (t, a, p) ∧ flatten (c_rd c') = rest
  | None => ∃ e, fst (Relay.readConnectRequest c) = Err e
  end.
Proof.
  intros Hc. unfold Relay.readConnectRequest.
  destruct (block_reader_two Relay.conn_read_exact conn_open_plain relay_conn_read_block 2
    (λ hdr, Z.to_nat (Z_of_byte (nth 1 hdr x00)) + 2)%nat
    (λ hdr rest, let addrLen := Z.to_nat (Z_of_byte (nth 1 hdr x00)) in
       let b i := Z_of_byte (nth i rest x00) in
       (nth 0 hdr x00, take addrLen rest, Z.lor (Z.shiftl (b addrLen) 8) (b (S addrLen)))) c Hc)
    as (c' & Hg & Hs & Hr).
  exists c'. split_and!; [done|exact Hs|].
  rewrite (connect_decode_blocks (flatten (c_rd c))). cbv beta zeta in *.
  destruct ((2 <=? _)%nat && _) eqn:Hb; [|exact Hr].
  destruct Hr as [Hr1 Hr2]. split; [|exact Hr2]. etrans; [exact Hr1|]. f_equal. f_equal.
  apply andb_true_iff in Hb as [_ Hb%Nat.leb_le].
  rewrite be_get_two.
  - rewrite !nth_drop, Nat.add_0_r. by rewrite Nat.add_1_r.
  - rewrite length_drop, length_take. lia.
Qed.

Lemma connect_decode_bytes t a p rest :
  len a <= 255 → 0 <= p < 65536 →
  connect_decode (connect_bytes t a p ++ rest) = Some (t, a, p, rest).
Proof.
  intros Ha Hp. unfold connect_decode, connect_bytes. cbn [app].
  rewrite Z_of_byte_of_Z, Z.mod_small by (pose proof (len_nonneg a); lia).
  replace (Z.to_nat (len a)) with (length a) by (unfold len; lia).
  rewrite <- !app_assoc, length_app, length_app, length_be_put.
  rewrite (proj2 (Nat.leb_le _ _)) by lia.
  rewrite take_app_length, !drop_app_length, drop_app_ge by lia.
  rewrite take_app_exact by (by rewrite length_be_put).
  rewrite be_get_put_small by lia.
  replace (length a + 2 - length a)%nat with 2%nat by lia.
  by rewrite drop_app_exact by (by rewrite length_be_put).
Qed.

Lemma connect_decode_inv s t a p rest :
  connect_decode s = Some (t, a, p, rest) →
  len a <= 255 ∧ 0 <= p < 65536 ∧ s = connect_bytes t a p ++ rest.
Proof.
  destruct s as [|t' [|l tl]]; [done..|]. cbn [connect_decode].
  destruct (Nat.leb_spec (Z.to_nat (Z_of_byte l) + 2) (length tl)) as [H|H]; [|done].
  intros [= <- <- <- <-]. pose proof (Z_of_byte_range l).
  set (n := Z.to_nat (Z_of_byte l)) in *.
  assert (Hn : len (take n tl) = Z_of_byte l) by (unfold len, n in *; rewrite length_take; lia).
  assert (Hl2 : length (take 2 (drop n tl)) = 2%nat) by (rewrite length_take, length_drop; lia).
  split_and!.
  - lia.
  - apply be_get_range.
  - pose proof (be_get_range (take 2 (drop n tl))) as Hb. unfold len in Hb. rewrite Hl2 in Hb.
    change (256 ^ Z.of_nat 2) with 65536 in Hb. lia.
  - unfold connect_bytes. rewrite Hn, byte_of_Z_of_byte. cbn [app].
    rewrite <- Hl2 at 1. rewrite be_put_get.
    rewrite <- !app_assoc.
    replace (drop (n + 2) tl) with (drop 2 (drop n tl)) by (rewrite drop_drop; f_equal; lia).
    by rewrite !take_drop.
Qed.

(** ** Properties *)

(** CONNECT round trip.  A request for an address of 1 to 255 bytes, written
    to a healthy stream, is read back by the server's [readConnectRequest] and
    by the relay's copy, which leave the rest of the stream untouched; an
    address that does not fit the length byte is refused before anything is
    written. *)
Theorem connect_roundtrip t a p w c rest :
  0 <= p < 65536 → conn_open w → c_wr w = [] → conn_open_plain c →
  match writeConnectRequest t a p w with
  | (Ok _, w') =>
      len a <= 255 ∧ ∃ q, c_out w' = c_out w ++ q ∧
      (flatten (c_rd c) = q ++ rest →
       (a ≠ [] → ∃ c', readConnectRequest c = (Ok (t, a, p), c') ∧ flatten (c_rd c') = rest) ∧
       (∃ c', Relay.readConnectRequest c = (Ok (t, a, p), c') ∧ flatten (c_rd c') = rest))
  | (Err _, w') => len a > 255 ∧ w' = w
  | (Panic, _) => False
  end.
Proof.
  intros Hp Hw Hwr Hc. rewrite writeConnectRequest_bytes, Z.gtb_ltb.
  destruct (Z.ltb_spec 255 (len a)) as [Ha|Ha]; [split; [lia|done]|].
  rewrite conn_Write_ok by done. split; [done|]. exists (connect_bytes t a p). split; [done|].
  intros Hfl. split.
  - intros Hne. destruct (readConnectRequest_decode c) as (c' & _ & Hs & Hr); [apply Hc|].
    rewrite Hfl, connect_decode_bytes, decide_False in Hr by done.
    exists c'. destruct (readConnectRequest c). cbn in *. destruct Hr. by subst.
  - destruct (relay_readConnectRequest_decode c Hc) as (c' & _ & Hs & Hr).
    rewrite Hfl, connect_decode_bytes in Hr by done.
    exists c'. destruct (Relay.readConnectRequest c). cbn in *. destruct Hr. by subst.
Qed.

Lemma connect_roundtrip_witness :
  (0 <= 443 < 65536) ∧
  match writeConnectRequest AddrDomain (str "example.com") 443 (conn_of []) with
  | (Ok _, w') =>
      ∃ q, c_out w' = q ∧ ∃ c', readConnectRequest (conn_of (q ++ str "GET")) =
        (Ok (AddrDomain, str "example.com", 443), c') ∧ flatten (c_rd c') = str "GET"
  | _ => False
  end.
Proof.
  split; [lia|].
  pose proof (connect_roundtrip AddrDomain (str "example.com") 443 (conn_of [])
    (conn_of (connect_bytes AddrDomain (str "example.com") 443 ++ str "GET")) (str "GET")
    ltac:(lia) eq_refl eq_refl (conj eq_refl eq_refl)) as H.
  assert (E : writeConnectRequest AddrDomain (str "example.com") 443 (conn_of []) =
    (Ok tt, Conn (stream [] EOF) (connect_bytes AddrDomain (str "example.com") 443) [] None None false))
    by reflexivity.
  rewrite E in *. destruct H as (_ & q & Hq & H). cbn [c_out conn_of app] in Hq. subst q.
  eexists. split; [done|]. destruct (H eq_refl) as [H1 _]. by apply H1.
Defined.

(** The relay's copy of the request reader accepts exactly what the tunnel's
    reader accepts and, in addition, requests with an empty address, which the
    tunnel's reader refuses. *)
Lemma relay_reader_agrees c t a p :
  conn_open_plain c →
  fst (readConnectRequest c) = Ok (t, a, p) ↔
  a ≠ [] ∧ fst (Relay.readConnectRequest c) = Ok (t, a, p).
Proof.
  intros Hc. destruct (readConnectRequest_decode c) as (c1 & _ & _ & H1); [apply Hc|].
  destruct (relay_readConnectRequest_decode c Hc) as (c2 & _ & _ & H2).
  destruct (connect_decode _) as [[[[t' a'] p'] rest]|].
  - destruct H2 as [-> _]. destruct (decide (a' = [])) as [->|Hne].
    + destruct H1 as [e ->]. split; [done|]. by intros [? [= _ <- _]].
    + destruct H1 as [-> _]. split; [by intros [= <- <- <-]|by intros [_ ?]].
  - destruct H1 as [e ->], H2 as [e' ->]. split; [done|by intros []].
Qed.
