(* ===== verification/Wire.v ===== *)
(** The fixed-size messages of the device authentication protocol
    ([pkg/invite/invite.go], from "Wire protocol constants" on): requests and
    responses with their [Marshal] and [Unmarshal] functions. *)

From Stdlib Require Import Strings.Byte String ZArith Lia.
From stdpp Require Import base list.
From S2P Require Import Prelude Encoding Io.

(** ** Constants *)

Definition MsgTypeHMACAuth : byte := x01.
Definition MsgTypeDeviceAuth : byte := x02.
Definition MsgTypeBootstrap : byte := x03.

Definition AuthStatusOK : byte := x00.
Definition AuthStatusRejected : byte := x01.
Definition AuthStatusRevoked : byte := x02.
Definition AuthStatusUnknown : byte := x03.

Definition BootstrapStatusOK : byte := x00.
Definition BootstrapStatusInvalidToken : byte := x01.
Definition BootstrapStatusExpired : byte := x02.
Definition BootstrapStatusUsed : byte := x03.

Definition DeviceAuthRequestSize : nat := 121.
Definition DeviceAuthResponseSize : nat := 17.
Definition BootstrapRequestSize : nat := 145.
Definition BootstrapResponseSize : nat := 17.

(** ** Messages

    A fixed-size Go array is a byte list of that length: the [_wf] predicates. *)

Record DeviceAuthRequest := mkDAReq {
  da_Version : byte;
  da_PubKey : bytes;
  da_Nonce : bytes;
  da_TimeBucket : Z;
  da_Sig : bytes
}.

Definition DeviceAuthRequest_wf (r : DeviceAuthRequest) : Prop :=
  length (da_PubKey r) = 32%nat ∧ length (da_Nonce r) = 16%nat ∧
  0 <= da_TimeBucket r < 2 ^ 64 ∧ length (da_Sig r) = 64%nat.

Definition DeviceAuthRequest_Marshal (r : DeviceAuthRequest) : bytes :=
  let buf := replicate DeviceAuthRequestSize x00 in
  let buf := blit 0 [da_Version r] buf in
  let buf := blit 1 (da_PubKey r) buf in
  let buf := blit 33 (da_Nonce r) buf in
  let buf := blit 49 (be_put 8 (da_TimeBucket r)) buf in
  blit 57 (da_Sig r) buf.

(** [b[i:j]] where the length test before it makes it safe. *)
Definition sub (b : bytes) (i j : nat) : bytes := take (j - i) (drop i b).

Definition UnmarshalDeviceAuthRequest (b : bytes) : result DeviceAuthRequest :=
  if (length b <? DeviceAuthRequestSize)%nat
  then Err (ErrNew "device auth request: need %d bytes, got %d" [121; len b]) else
  match slice b 1 33, slice b 33 49, slice b 49 57, slice b 57 121 with
  | Ok pk, Ok nonce, Ok tb, Ok sg =>
      Ok (mkDAReq (nth 0 b x00) (to_array 32 pk) (to_array 16 nonce) (be_get tb) (to_array 64 sg))
  | _, _, _, _ => Panic
  end.

Record DeviceAuthResponse := mkDAResp { dr_Status : byte; dr_SessionID : bytes }.

Definition DeviceAuthResponse_wf (r : DeviceAuthResponse) : Prop := length (dr_SessionID r) = 16%nat.

Definition DeviceAuthResponse_Marshal (r : DeviceAuthResponse) : bytes :=
  let buf := replicate DeviceAuthResponseSize x00 in
  let buf := blit 0 [dr_Status r] buf in
  blit 1 (dr_SessionID r) buf.

Definition UnmarshalDeviceAuthResponse (b : bytes) : result DeviceAuthResponse :=
  if (length b <? DeviceAuthResponseSize)%nat
  then Err (ErrNew "device auth response: need %d bytes, got %d" [17; len b]) else
  match slice b 1 17 with
  | Ok sid => Ok (mkDAResp (nth 0 b x00) (to_array 16 sid))
  | _ => Panic
  end.

Record BootstrapRequest := mkBReq {
  br_Version : byte;
  br_Token : bytes;
  br_DevicePub : bytes;
  br_Label : bytes;
  br_Nonce : bytes
}.

Definition BootstrapRequest_wf (r : BootstrapRequest) : Prop :=
  length (br_Token r) = 32%nat ∧ length (br_DevicePub r) = 32%nat ∧
  length (br_Label r) = 64%nat ∧ length (br_Nonce r) = 16%nat.

Definition BootstrapRequest_Marshal (r : BootstrapRequest) : bytes :=
  let buf := replicate BootstrapRequestSize x00 in
  let buf := blit 0 [br_Version r] buf in
  let buf := blit 1 (br_Token r) buf in
  let buf := blit 33 (br_DevicePub r) buf in
  let buf := blit 65 (br_Label r) buf in
  blit 129 (br_Nonce r) buf.

Definition UnmarshalBootstrapRequest (b : bytes) : result BootstrapRequest :=
  if (length b <? BootstrapRequestSize)%nat
  then Err (ErrNew "bootstrap request: need %d bytes, got %d" [145; len b]) else
  match slice b 1 33, slice b 33 65, slice b 65 129, slice b 129 145 with
  | Ok tok, Ok pub, Ok lbl, Ok nonce =>
      Ok (mkBReq (nth 0 b x00) (to_array 32 tok) (to_array 32 pub) (to_array 64 lbl) (to_array 16 nonce))
  | _, _, _, _ => Panic
  end.

Record BootstrapResponse := mkBResp { bs_Status : byte; bs_SessionID : bytes }.

Definition BootstrapResponse_wf (r : BootstrapResponse) : Prop := length (bs_SessionID r) = 16%nat.

Definition BootstrapResponse_Marshal (r : BootstrapResponse) : bytes :=
  let buf := replicate BootstrapResponseSize x00 in
  let buf := blit 0 [bs_Status r] buf in
  blit 1 (bs_SessionID r) buf.

Definition UnmarshalBootstrapResponse (b : bytes) : result BootstrapResponse :=
  if (length b <? BootstrapResponseSize)%nat
  then Err (ErrNew "bootstrap response: need %d bytes, got %d" [17; len b]) else
  match slice b 1 17 with
  | Ok sid => Ok (mkBResp (nth 0 b x00) (to_array 16 sid))
  | _ => Panic
  end.

(** ** The interface of a fixed-size message

    What a message type promises to the handshakes: every well-formed value has
    a wire form of one fixed size; exactly the wire forms decode; shorter input
    is an error. *)
Class Message (A : Type) := {
  msg_size : nat;
  msg_wf : A → Prop;
  msg_marshal : A → bytes;
  msg_unmarshal : bytes → result A;
  msg_length a : msg_wf a → length (msg_marshal a) = msg_size;
  msg_decode b a : length b = msg_size → msg_unmarshal b = Ok a ↔ msg_wf a ∧ msg_marshal a = b;
  msg_total b : length b = msg_size → ∃ a, msg_unmarshal b = Ok a;
  msg_short b : (length b < msg_size)%nat → ∃ e, msg_unmarshal b = Err e
}.

Lemma msg_roundtrip `{Message A} a : msg_wf a → msg_unmarshal (msg_marshal a) = Ok a.
Proof. intros Ha. apply msg_decode; [by apply msg_length|done]. Qed.

(** Filling a zero buffer from the left leaves the fields in a row. *)
Lemma blit_all_done {A} (done rest : list A) n :
  (length rest <= n)%nat → done ++ drop n rest = done.
Proof. intros. by rewrite drop_ge, app_nil_r. Qed.

Ltac blit_fields :=
  repeat (rewrite blit_frontier by
    (rewrite ?length_app, ?length_drop, ?length_be_put, ?length_replicate; cbn [length]; lia));
  rewrite ?drop_drop, ?length_be_put; cbn [length];
  rewrite drop_ge by (rewrite length_replicate; lia);
  rewrite app_nil_r, <- ?app_assoc; cbn [app].

Lemma DeviceAuthRequest_Marshal_bytes r :
  DeviceAuthRequest_wf r →
  DeviceAuthRequest_Marshal r =
    da_Version r :: da_PubKey r ++ da_Nonce r ++ be_put 8 (da_TimeBucket r) ++ da_Sig r.
Proof.
  intros (H1 & H2 & H3 & H4). unfold DeviceAuthRequest_Marshal, DeviceAuthRequestSize.
  change (replicate 121 x00) with ([] ++ replicate 121 x00). by blit_fields.
Qed.

Lemma BootstrapRequest_Marshal_bytes r :
  BootstrapRequest_wf r →
  BootstrapRequest_Marshal r =
    br_Version r :: br_Token r ++ br_DevicePub r ++ br_Label r ++ br_Nonce r.
Proof.
  intros (H1 & H2 & H3 & H4). unfold BootstrapRequest_Marshal, BootstrapRequestSize.
  change (replicate 145 x00) with ([] ++ replicate 145 x00). by blit_fields.
Qed.

Lemma response_Marshal_bytes (s : byte) (sid : bytes) :
  length sid = 16%nat → blit 1 sid (blit 0 [s] (replicate 17 x00)) = s :: sid.
Proof. intros H. change (replicate 17 x00) with ([] ++ replicate 17 x00). by blit_fields. Qed.

(** Cutting a string of known length into consecutive fields. *)
Lemma slice_nat (b : bytes) i j :
  (i <= j <= length b)%nat →
  slice b (Z.of_nat i) (Z.of_nat j) = Ok (take (j - i) (drop i b)).
Proof.
  intros. rewrite slice_Ok by (unfold len; lia). f_equal. f_equal; [lia|f_equal; lia].
Qed.

Ltac slices b :=
  repeat match goal with
  | |- context [slice b ?i ?j] =>
      let i' := eval cbv in (Z.to_nat i) in let j' := eval cbv in (Z.to_nat j) in
      rewrite (slice_nat b i' j' ltac:(lia) : slice b i j = _)
  end.

Lemma cut_length i j (b : bytes) :
  (i <= j <= length b)%nat → length (take (j - i) (drop i b)) = (j - i)%nat.
Proof. intros. rewrite length_take, length_drop. lia. Qed.

Lemma cut_join i j (b : bytes) :
  (i <= j)%nat → take (j - i) (drop i b) ++ drop j b = drop i b.
Proof.
  intros Hij. rewrite <- (take_drop (j - i) (drop i b)) at 2. f_equal.
  rewrite drop_drop. f_equal. lia.
Qed.

Lemma nth0_drop1 (b : bytes) : (0 < length b)%nat → nth 0 b x00 :: drop 1 b = b.
Proof. destruct b; cbn; [lia|done]. Qed.

(** The value of each decoder on input of the right size. *)
Lemma UnmarshalDeviceAuthRequest_value b :
  length b = 121%nat →
  UnmarshalDeviceAuthRequest b =
    Ok (mkDAReq (nth 0 b x00) (sub b 1 33) (sub b 33 49) (be_get (sub b 49 57)) (sub b 57 121)).
Proof.
  intros Hb. unfold UnmarshalDeviceAuthRequest, DeviceAuthRequestSize.
  rewrite (proj2 (Nat.ltb_ge _ _)) by lia.
  slices b.
  unfold sub. rewrite !to_array_exact by (rewrite cut_length; lia). done.
Qed.

Lemma UnmarshalBootstrapRequest_value b :
  length b = 145%nat →
  UnmarshalBootstrapRequest b =
    Ok (mkBReq (nth 0 b x00) (sub b 1 33) (sub b 33 65) (sub b 65 129) (sub b 129 145)).
Proof.
  intros Hb. unfold UnmarshalBootstrapRequest, BootstrapRequestSize.
  rewrite (proj2 (Nat.ltb_ge _ _)) by lia.
  slices b.
  unfold sub. rewrite !to_array_exact by (rewrite cut_length; lia). done.
Qed.

(** A decoder that is total on the right size and whose value re-encodes to the
    input accepts exactly the wire forms. *)
Lemma decode_iff {A} (wf : A → Prop) (enc : A → bytes) (dec : bytes → result A) (v : bytes → A) n :
  (∀ b, length b = n → dec b = Ok (v b)) →
  (∀ b, length b = n → wf (v b) ∧ enc (v b) = b) →
  (∀ a, wf a → length (enc a) = n) →
  (∀ a1 a2, wf a1 → wf a2 → enc a1 = enc a2 → a1 = a2) →
  ∀ b a, length b = n → dec b = Ok a ↔ wf a ∧ enc a = b.
Proof.
  intros Hdec Hv Hlen Hinj b a Hb. rewrite (Hdec b Hb). split.
  - intros [= <-]. by apply Hv.
  - intros [Ha <-]. f_equal. destruct (Hv (enc a) (Hlen a Ha)) as [Hwf He]. by apply Hinj.
Qed.

Lemma cons_inj_pair {A} (x y : A) l k : x :: l = y :: k → x = y ∧ l = k.
Proof. by intros [= -> ->]. Qed.

(** Take an equation between records laid out in a row apart, field by field. *)
Ltac inj_fields H :=
  repeat match type of H with
  | _ ++ _ = _ ++ _ => apply app_inj_1 in H; [destruct H as [? H]|rewrite ?length_be_put; congruence]
  | _ :: _ = _ :: _ => apply cons_inj_pair in H; destruct H as [? H]
  end.

#[global] Instance DeviceAuthRequest_Message : Message DeviceAuthRequest.
Proof.
  assert (Hlen : ∀ a, DeviceAuthRequest_wf a →
            length (DeviceAuthRequest_Marshal a) = DeviceAuthRequestSize).
  { intros a Ha. rewrite DeviceAuthRequest_Marshal_bytes by done.
    destruct Ha as (H1 & H2 & H3 & H4). cbn [length].
    rewrite !length_app, length_be_put, H1, H2, H4. done. }
  refine (Build_Message _ DeviceAuthRequestSize DeviceAuthRequest_wf DeviceAuthRequest_Marshal
    UnmarshalDeviceAuthRequest Hlen _ _ _).
  - apply (decode_iff _ _ _ _ _ UnmarshalDeviceAuthRequest_value); [|done|].
    + intros b Hb. assert (Hwf : DeviceAuthRequest_wf (mkDAReq (nth 0 b x00) (sub b 1 33)
        (sub b 33 49) (be_get (sub b 49 57)) (sub b 57 121))).
      { unfold DeviceAuthRequest_wf, sub. cbn [da_PubKey da_Nonce da_TimeBucket da_Sig].
        rewrite !cut_length by (unfold DeviceAuthRequestSize in *; lia).
        pose proof (be_get_range (take (57 - 49) (drop 49 b))) as Hr. unfold len in Hr.
        rewrite cut_length in Hr by (unfold DeviceAuthRequestSize in *; lia). done. }
      split; [done|]. rewrite DeviceAuthRequest_Marshal_bytes by done.
      cbn [da_Version da_PubKey da_Nonce da_TimeBucket da_Sig]. unfold sub.
      unfold DeviceAuthRequestSize in *. rewrite be_put_get_len by (rewrite cut_length; lia).
      assert (H57 : take (121 - 57) (drop 57 b) = drop 57 b)
        by (apply take_ge; rewrite length_drop; lia).
      rewrite H57, (cut_join 49 57), (cut_join 33 49), (cut_join 1 33) by lia.
      apply nth0_drop1. lia.
    + intros a1 a2 H1 H2. rewrite !DeviceAuthRequest_Marshal_bytes by done.
      destruct H1 as (?&?&?&?), H2 as (?&?&?&?). destruct a1, a2. cbn in *. intros Heq. inj_fields Heq.
      match goal with Hb : be_put 8 _ = be_put 8 _ |- _ => apply (f_equal be_get) in Hb;
        rewrite !be_get_put_small in Hb by (change (256 ^ Z.of_nat 8) with (2 ^ 64); lia) end.
      congruence.
  - intros b Hb. rewrite UnmarshalDeviceAuthRequest_value by done. eauto.
  - intros b Hb. unfold UnmarshalDeviceAuthRequest. rewrite (proj2 (Nat.ltb_lt _ _)) by done. eauto.
Defined.

#[global] Instance BootstrapRequest_Message : Message BootstrapRequest.
Proof.
  assert (Hlen : ∀ a, BootstrapRequest_wf a →
            length (BootstrapRequest_Marshal a) = BootstrapRequestSize).
  { intros a Ha. rewrite BootstrapRequest_Marshal_bytes by done.
    destruct Ha as (H1 & H2 & H3 & H4). cbn [length].
    rewrite !length_app, H1, H2, H3, H4. done. }
  refine (Build_Message _ BootstrapRequestSize BootstrapRequest_wf BootstrapRequest_Marshal
    UnmarshalBootstrapRequest Hlen _ _ _).
  - apply (decode_iff _ _ _ _ _ UnmarshalBootstrapRequest_value); [|done|].
    + intros b Hb. unfold BootstrapRequestSize in *.
      assert (Hwf : BootstrapRequest_wf (mkBReq (nth 0 b x00) (sub b 1 33) (sub b 33 65)
        (sub b 65 129) (sub b 129 145))).
      { unfold BootstrapRequest_wf, sub. cbn [br_Token br_DevicePub br_Label br_Nonce].
        rewrite !cut_length by lia. done. }
      split; [done|]. rewrite BootstrapRequest_Marshal_bytes by done.
      cbn [br_Version br_Token br_DevicePub br_Label br_Nonce]. unfold sub.
      assert (H129 : take (145 - 129) (drop 129 b) = drop 129 b)
        by (apply take_ge; rewrite length_drop; lia).
      rewrite H129, (cut_join 65 129), (cut_join 33 65), (cut_join 1 33) by lia.
      apply nth0_drop1. lia.
    + intros a1 a2 H1 H2. rewrite !BootstrapRequest_Marshal_bytes by done.
      destruct H1 as (?&?&?&?), H2 as (?&?&?&?). destruct a1, a2. cbn in *. intros Heq. inj_fields Heq.
      congruence.
  - intros b Hb. rewrite UnmarshalBootstrapRequest_value by done. eauto.
  - intros b Hb. unfold UnmarshalBootstrapRequest. rewrite (proj2 (Nat.ltb_lt _ _)) by done. eauto.
Defined.

(** The two 17-byte responses have the same shape. *)
Lemma response_cut (b : bytes) :
  length b = 17%nat →
  slice b 1 17 = Ok (drop 1 b) ∧ to_array 16 (drop 1 b) = drop 1 b ∧
  length (drop 1 b) = 16%nat ∧ nth 0 b x00 :: drop 1 b = b.
Proof.
  intros Hb. split_and!.
  - slices b. f_equal. apply take_ge. rewrite length_drop. lia.
  - apply to_array_exact. rewrite length_drop. lia.
  - rewrite length_drop. lia.
  - apply nth0_drop1. lia.
Qed.

#[global] Instance DeviceAuthResponse_Message : Message DeviceAuthResponse.
Proof.
  assert (Hlen : ∀ a, DeviceAuthResponse_wf a → length (DeviceAuthResponse_Marshal a) = 17%nat).
  { intros [s sid] Ha. unfold DeviceAuthResponse_Marshal. rewrite response_Marshal_bytes by done.
    cbn [length]. by rewrite Ha. }
  refine (Build_Message _ DeviceAuthResponseSize DeviceAuthResponse_wf DeviceAuthResponse_Marshal
    UnmarshalDeviceAuthResponse Hlen _ _ _).
  - intros b [s sid] Hb. destruct (response_cut b Hb) as (Hs & Ha & Hl & Hc).
    unfold UnmarshalDeviceAuthResponse, DeviceAuthResponseSize.
    rewrite (proj2 (Nat.ltb_ge _ _)) by (unfold DeviceAuthResponseSize in *; lia).
    rewrite Hs, Ha. unfold DeviceAuthResponse_Marshal, DeviceAuthResponse_wf. cbn [dr_SessionID dr_Status]. split.
    + intros [= <- <-]. by rewrite response_Marshal_bytes.
    + intros [Hw <-]. by rewrite response_Marshal_bytes.
  - intros b Hb. destruct (response_cut b Hb) as (Hs & _). unfold UnmarshalDeviceAuthResponse.
    rewrite (proj2 (Nat.ltb_ge _ _)) by (rewrite Hb; lia). rewrite Hs. eauto.
  - intros b Hb. unfold UnmarshalDeviceAuthResponse. rewrite (proj2 (Nat.ltb_lt _ _)) by done. eauto.
Defined.

#[global] Instance BootstrapResponse_Message : Message BootstrapResponse.
Proof.
  assert (Hlen : ∀ a, BootstrapResponse_wf a → length (BootstrapResponse_Marshal a) = 17%nat).
  { intros [s sid] Ha. unfold BootstrapResponse_Marshal. rewrite response_Marshal_bytes by done.
    cbn [length]. by rewrite Ha. }
  refine (Build_Message _ BootstrapResponseSize BootstrapResponse_wf BootstrapResponse_Marshal
    UnmarshalBootstrapResponse Hlen _ _ _).
  - intros b [s sid] Hb. destruct (response_cut b Hb) as (Hs & Ha & Hl & Hc).
    unfold UnmarshalBootstrapResponse, BootstrapResponseSize.
    rewrite (proj2 (Nat.ltb_ge _ _)) by (unfold BootstrapResponseSize in *; lia).
    rewrite Hs, Ha. unfold BootstrapResponse_Marshal, BootstrapResponse_wf. cbn [bs_SessionID bs_Status]. split.
    + intros [= <- <-]. by rewrite response_Marshal_bytes.
    + intros [Hw <-]. by rewrite response_Marshal_bytes.
  - intros b Hb. destruct (response_cut b Hb) as (Hs & _). unfold UnmarshalBootstrapResponse.
    rewrite (proj2 (Nat.ltb_ge _ _)) by (rewrite Hb; lia). rewrite Hs. eauto.
  - intros b Hb. unfold UnmarshalBootstrapResponse. rewrite (proj2 (Nat.ltb_lt _ _)) by done. eauto.
Defined.

(** The responses as they arrive. *)
Lemma DeviceAuthResponse_decode s sid :
  length sid = 16%nat → UnmarshalDeviceAuthResponse (s :: sid) = Ok (mkDAResp s sid).
Proof.
  intros Hs. rewrite <- (response_Marshal_bytes s sid Hs). exact (msg_roundtrip (mkDAResp s sid) Hs).
Qed.
Lemma BootstrapResponse_decode s sid :
  length sid = 16%nat → UnmarshalBootstrapResponse (s :: sid) = Ok (mkBResp s sid).
Proof.
  intros Hs. rewrite <- (response_Marshal_bytes s sid Hs). exact (msg_roundtrip (mkBResp s sid) Hs).
Qed.

(** ** Property *)

(** Wire messages.  For each of the four message types: a well-formed value
    marshals to exactly the documented number of bytes (121, 17, 145, 17); a
    byte string of that size always decodes, and decodes to [a] exactly when it
    is the wire form of the well-formed [a]; a shorter one is an error; no
    input panics. *)
Theorem wire_messages_canonical :
  (∀ a b, length b = 121%nat →
     UnmarshalDeviceAuthRequest b = Ok a ↔ DeviceAuthRequest_wf a ∧ DeviceAuthRequest_Marshal a = b) ∧
  (∀ a b, length b = 17%nat →
     UnmarshalDeviceAuthResponse b = Ok a ↔ DeviceAuthResponse_wf a ∧ DeviceAuthResponse_Marshal a = b) ∧
  (∀ a b, length b = 145%nat →
     UnmarshalBootstrapRequest b = Ok a ↔ BootstrapRequest_wf a ∧ BootstrapRequest_Marshal a = b) ∧
  (∀ a b, length b = 17%nat →
     UnmarshalBootstrapResponse b = Ok a ↔ BootstrapResponse_wf a ∧ BootstrapResponse_Marshal a = b) ∧
  (∀ a, DeviceAuthRequest_wf a → length (DeviceAuthRequest_Marshal a) = 121%nat) ∧
  (∀ a, BootstrapRequest_wf a → length (BootstrapRequest_Marshal a) = 145%nat) ∧
  (∀ b, is_ok (UnmarshalDeviceAuthRequest b) = (121 <=? length b)%nat ∧
        is_ok (UnmarshalBootstrapRequest b) = (145 <=? length b)%nat ∧
        is_panic (UnmarshalDeviceAuthRequest b) = false ∧
        is_panic (UnmarshalBootstrapRequest b) = false).
Proof.
  split; [intros a b; exact (msg_decode (A := DeviceAuthRequest) b a)|].
  split; [intros a b; exact (msg_decode (A := DeviceAuthResponse) b a)|].
  split; [intros a b; exact (msg_decode (A := BootstrapRequest) b a)|].
  split; [intros a b; exact (msg_decode (A := BootstrapResponse) b a)|].
  split; [exact (msg_length (A := DeviceAuthRequest))|].
  split; [exact (msg_length (A := BootstrapRequest))|].
  intros b. unfold UnmarshalDeviceAuthRequest, UnmarshalBootstrapRequest,
    DeviceAuthRequestSize, BootstrapRequestSize.
  rewrite (Nat.leb_antisym _ 121), (Nat.leb_antisym _ 145).
  split_and!; destruct (Nat.ltb_spec (length b) 121), (Nat.ltb_spec (length b) 145);
    try done; slices b; done.
Qed.
