(* ===== verification/Identity.v ===== *)
(** Device identities: the Ed25519 interface, [pkg/identity/identity.go] and the
    key file of [pkg/identity/keystore.go]. *)

From Stdlib Require Import Strings.Byte String ZArith Lia.
From stdpp Require Import base list gmap.
From S2P Require Import Prelude Encoding Io Hash.

(** ** crypto/ed25519

    What the code relies on: [GenerateKey] derives a 32-byte public and a 64-byte
    private key from a 32-byte seed, signatures have 64 bytes, and a signature
    made with the private key verifies under the public key. *)
Class Ed25519 := {
  ed_keygen : bytes → bytes * bytes;
  ed_sign : bytes → bytes → bytes;
  ed_verify : bytes → bytes → bytes → bool;
  ed_keygen_length seed : length seed = 32%nat →
    length (fst (ed_keygen seed)) = 32%nat ∧ length (snd (ed_keygen seed)) = 64%nat;
  ed_sign_length k m : length k = 64%nat → length (ed_sign k m) = 64%nat;
  ed_correct seed m : length seed = 32%nat →
    ed_verify (fst (ed_keygen seed)) m (ed_sign (snd (ed_keygen seed)) m) = true
}.

(** The interface is inhabited (by a scheme without any security). *)
Definition toy_Ed25519 : Ed25519.
Proof.
  refine (Build_Ed25519 (λ s, (s, s ++ s)) (λ k m, hmac_sha256 (take 32 k) m ++ replicate 32 x00)
    (λ p m s, bool_decide (s = hmac_sha256 p m ++ replicate 32 x00)) _ _ _).
  - intros s Hs. cbn. rewrite length_app. lia.
  - intros k m _. len_tac.
  - intros s m Hs. cbn. rewrite take_app_exact by done. by apply bool_decide_eq_true.
Defined.

(** ** pkg/identity: key pairs and their stored form *)

Record KeyPair := mkKeyPair {
  kp_PublicKey : bytes;
  kp_PrivateKey : bytes;
  kp_DeviceID : bytes;
  kp_CreatedAt : Z
}.

Record storedKey := mkStoredKey {
  sk_PublicKey : bytes;
  sk_PrivateKey : bytes;
  sk_DeviceID : bytes;
  sk_CreatedAt : Z
}.

#[global] Instance storedKey_eq_dec : EqDecision storedKey.
Proof. solve_decision. Defined.
#[global] Instance storedKey_countable : Countable storedKey.
Proof.
  refine (inj_countable' (λ k, (sk_PublicKey k, sk_PrivateKey k, sk_DeviceID k, sk_CreatedAt k))
    (λ p, let '(a, b, c, d) := p in mkStoredKey a b c d) _). by intros [].
Defined.

Section identity.
Context `{Ed25519}.

(** [ed25519.Sign] and [ed25519.Verify] panic on keys of the wrong length. *)
Definition ed25519_Sign (priv msg : bytes) : result bytes :=
  if (length priv =? 64)%nat then Ok (ed_sign priv msg) else Panic.
Definition ed25519_Verify (pub msg sig : bytes) : result bool :=
  if (length pub =? 32)%nat then Ok ((length sig =? 64)%nat && ed_verify pub msg sig) else Panic.
Definition ed25519_GenerateKey : M reader (bytes * bytes) :=
  seed <- ReadFull 32 ;; ret (ed_keygen seed).

(** ** Operations *)

Definition shortID (pub : bytes) : bytes := hex_encode (take 3 (sha256 pub)).
Definition ShortID (pub : bytes) : bytes := shortID pub.
Definition Fingerprint (kp : KeyPair) : bytes := kp_DeviceID kp.

Definition Generate : M sys KeyPair :=
  kp <- wrap "identity: generate" (on_rand ed25519_GenerateKey) ;;
  t <- on_clock time_Now ;;
  ret (mkKeyPair (fst kp) (snd kp) (shortID (fst kp)) t).

Definition Sign (kp : KeyPair) (message : bytes) : result bytes :=
  ed25519_Sign (kp_PrivateKey kp) message.

Definition KeyPair_Verify (kp : KeyPair) (message sig : bytes) : result bool :=
  ed25519_Verify (kp_PublicKey kp) message sig.

Definition Verify (pubKey message sig : bytes) : result bool :=
  if negb (length pubKey =? 32)%nat || negb (length sig =? 64)%nat then Ok false
  else ed25519_Verify pubKey message sig.

(** ** The key file *)

Context `{JSON storedKey}.

Definition stored (kp : KeyPair) : storedKey :=
  mkStoredKey (kp_PublicKey kp) (kp_PrivateKey kp) (kp_DeviceID kp) (kp_CreatedAt kp).

Definition Save (kp : KeyPair) (path : bytes) : M sys unit :=
  wrap "identity: mkdir" (on_fs os_MkdirAll) ;;;
  data <- wrap "identity: marshal" (lift (json_marshal (stored kp))) ;;
  wrap "identity: write" (on_fs (os_WriteFile path data)).

Definition generateAndSave (path : bytes) : M sys KeyPair :=
  kp <- Generate ;; Save kp path ;;; ret kp.

Definition Load (path : bytes) : M sys KeyPair :=
  r <- try (on_fs (os_ReadFile path)) ;;
  match r with
  | inr e => if bool_decide (e = ErrNotExist) then generateAndSave path
             else fail (ErrWrap "identity: read" e)
  | inl data =>
      sk <- wrap "identity: parse" (lift (json_unmarshal data)) ;;
      if negb (length (sk_PublicKey sk) =? 32)%nat || negb (length (sk_PrivateKey sk) =? 64)%nat
      then fail (ErrNew "identity: corrupt key file" [])
      else ret (mkKeyPair (sk_PublicKey sk) (sk_PrivateKey sk) (sk_DeviceID sk) (sk_CreatedAt sk))
  end.

(** ** Lemmas *)

(** A key pair as [Generate] makes it. *)
Definition kp_wf (kp : KeyPair) : Prop :=
  ∃ seed, length seed = 32%nat ∧ kp_PublicKey kp = fst (ed_keygen seed) ∧
    kp_PrivateKey kp = snd (ed_keygen seed) ∧ kp_DeviceID kp = shortID (kp_PublicKey kp).

Lemma kp_wf_length kp : kp_wf kp → length (kp_PublicKey kp) = 32%nat ∧ length (kp_PrivateKey kp) = 64%nat.
Proof. intros (seed & Hs & -> & -> & _). by apply ed_keygen_length. Qed.

(** Signing with a well-formed pair succeeds, and the signature verifies. *)
Lemma Sign_Verify kp m :
  kp_wf kp → ∃ sg, Sign kp m = Ok sg ∧ length sg = 64%nat ∧ Verify (kp_PublicKey kp) m sg = Ok true.
Proof.
  intros Hkp. destruct (kp_wf_length kp Hkp) as [H1 H2]. unfold Sign, ed25519_Sign, Verify, ed25519_Verify.
  rewrite H2, H1. eexists. split; [done|]. pose proof (ed_sign_length _ m H2) as H3. split; [done|].
  rewrite H3. cbn. destruct Hkp as (seed & Hs & -> & -> & _). by rewrite ed_correct.
Qed.

Lemma Verify_not_panic pub m sg : ∃ b, Verify pub m sg = Ok b.
Proof.
  unfold Verify, ed25519_Verify. destruct (length pub =? 32)%nat, (length sg =? 64)%nat; cbn; eauto.
Qed.

Lemma Generate_run s :
  match Generate s with
  | (Ok kp, s') => kp_wf kp ∧ s_fs s' = s_fs s
  | (Err _, s') => s_fs s' = s_fs s
  | (Panic, _) => False
  end.
Proof.
  unfold Generate. destruct (ReadFull_spec 32 (s_rand s)) as (r' & _ & _ & _ & Hrd).
  destruct (Nat.leb_spec 32 (length (flatten (s_rand s)))) as [Hl|Hl].
  - assert (Hg : ed25519_GenerateKey (s_rand s) = (Ok (ed_keygen (take 32 (flatten (s_rand s)))), r')).
    { unfold ed25519_GenerateKey. by erewrite bind_Ok by exact Hrd. }
    erewrite bind_Ok by (by apply wrap_Ok, on_rand_eq).
    match goal with |- context [bind (on_clock _) _ ?s1] => destruct (on_clock_now s1) as (t & c' & Ht) end.
    erewrite bind_Ok by exact Ht. cbn. split; [|done]. eexists. split; [by apply length_take_le|]. done.
  - assert (Hg : ∃ e, ed25519_GenerateKey (s_rand s) = (Err e, r')).
    { eexists. unfold ed25519_GenerateKey. by erewrite bind_Err by exact Hrd. }
    destruct Hg as [e Hg]. erewrite bind_Err by (by apply wrap_Err, on_rand_eq). done.
Qed.

Lemma generateAndSave_run path s :
  match generateAndSave path s with
  | (Ok kp, s') => kp_wf kp ∧ ∃ text, json_marshal (stored kp) = Ok text ∧
      fs_files (s_fs s') !! path = Some text
  | (Err _, _) => True
  | (Panic, _) => False
  end.
Proof.
  unfold generateAndSave, bind at 1. pose proof (Generate_run s) as Hg.
  destruct (Generate s) as [[kp|e|] s1]; [|done|done]. destruct Hg as [Hkp _].
  unfold Save. destruct (os_MkdirAll_cases (s_fs s1)) as (r0 & f0 & Hmk & _ & Hp0).
  unfold bind, wrap, lift. rewrite (on_fs_eq _ _ _ _ Hmk). destruct r0 as [u|e|]; [|done|done].
  pose proof (json_marshal_total (stored kp)) as Hj.
  destruct (json_marshal (stored kp)) as [text|e|] eqn:Ht; [|done|done].
  destruct (os_WriteFile_cases path text f0) as (r1 & f1 & Hwr & Hf1).
  rewrite (on_fs_eq _ (Sys _ _ f0) _ _ Hwr). destruct r1 as [u1|e|]; [|done|done].
  cbn. split; [done|]. exists text. split; [done|]. by rewrite Hf1, lookup_insert_eq.
Qed.

(** What the operations on the key file do to the files: no other file changes,
    and one that is there is left alone. *)
Definition sys_step (path : bytes) (s s' : sys) : Prop := step_at path (s_fs s) (s_fs s').

Lemma generateAndSave_step path s : sys_step path s (snd (generateAndSave path s)).
Proof.
  unfold generateAndSave, sys_step, bind at 1. pose proof (Generate_run s) as Hg.
  destruct (Generate s) as [[kp|e|] s1]; [|cbn; by rewrite Hg|done]. destruct Hg as [_ <-].
  unfold Save. destruct (os_MkdirAll_step path (s_fs s1)) as (r0 & f0 & Hmk & St & _ & Hp0).
  unfold bind, wrap, lift. rewrite (on_fs_eq _ _ _ _ Hmk). destruct r0 as [u|e|]; [|exact St|done].
  destruct (json_marshal (stored kp)) as [text|e|] eqn:Ht; [|exact St|exact St].
  destruct (os_WriteFile_step path text f0) as (r1 & f1 & Hwr & St1 & Hp1 & _).
  rewrite (on_fs_eq _ (Sys _ _ f0) _ _ Hwr). assert (Hs : step_at path (s_fs s1) f1) by (by etransitivity).
  destruct r1 as [u1|e|]; exact Hs.
Qed.

(** The outcome of [Load] in these terms. *)
Definition loaded (path : bytes) (s : sys) (r : result KeyPair) (s' : sys) : Prop :=
  sys_step path s s' ∧ is_panic r = false ∧
  (honest (s_fs s) → is_Some (fs_files (s_fs s) !! path) → fs_files (s_fs s') = fs_files (s_fs s)) ∧
  (∀ kp, r = Ok kp → fs_files (s_fs s) !! path = None →
     kp_wf kp ∧ ∃ text, json_marshal (stored kp) = Ok text ∧ fs_files (s_fs s') !! path = Some text).

Lemma Load_step path s : loaded path s (fst (Load path s)) (snd (Load path s)).
Proof.
  unfold Load, try. unfold bind at 1 3. destruct (os_ReadFile_step path (s_fs s)) as (r & f & Hr & St & Hf & Hcase).
  rewrite (on_fs_eq _ _ _ _ Hr). unfold loaded, sys_step. destruct r as [d|e|]; [| |done].
  - unfold wrap, lift, bind, ret, fail. pose proof (json_unmarshal_total (A := storedKey) d) as Hj.
    assert (Hn : fs_files (s_fs s) !! path ≠ None) by (by rewrite Hcase).
    destruct (json_unmarshal d) as [sk|e|]; [|done|done]. by destruct (negb _ || negb _).
  - case_bool_decide as He; [|done].
    pose proof (generateAndSave_run path (Sys (s_clock s) (s_rand s) f)) as Hg.
    pose proof (generateAndSave_step path (Sys (s_clock s) (s_rand s) f)) as Hst. unfold sys_step in Hst. cbn [s_fs] in Hst.
    destruct (generateAndSave path _) as [o s'] eqn:E. cbn [fst snd] in *.
    split; [by etransitivity|]. split; [by destruct o|]. split.
    + intros Hh [x Hx]. rewrite (Hcase Hh He) in Hx. done.
    + intros kp -> _. exact Hg.
Qed.

(** Reading a key file changes nothing. *)
Lemma Load_present path d s :
  no_faults s → fs_files (s_fs s) !! path = Some d → ∃ r, Load path s = (r, s) ∧ is_panic r = false.
Proof.
  intros Hn Hd. unfold Load, try. unfold bind at 1.
  rewrite (on_fs_eq _ _ (Ok d) (s_fs s)) by (by apply os_ReadFile_ok).
  unfold wrap, lift, bind, ret, fail. pose proof (json_unmarshal_total (A := storedKey) d) as Hj. destruct s as [ck rd f].
  destruct (json_unmarshal d) as [sk|e|]; [|by eexists|done]. destruct (negb _ || negb _); by eexists.
Qed.

(** ** Property *)

(** C38. One identity per key file.  [Load] never panics.  When it creates the
    key file, the pair has the lengths and the ID of its public key and can sign
    so that [Verify] accepts; and every later [Load] of that file that the file
    system serves returns the same pair. *)
Theorem identity_stable path s :
  match Load path s with
  | (Ok kp, s') =>
      fs_files (s_fs s) !! path = None →
      kp_wf kp ∧
      (∀ m, ∃ sg, Sign kp m = Ok sg ∧ Verify (kp_PublicKey kp) m sg = Ok true) ∧
      (json_valid (stored kp) → ∀ s2, no_faults s2 →
         fs_files (s_fs s2) !! path = fs_files (s_fs s') !! path → Load path s2 = (Ok kp, s2))
  | (Err _, _) => True
  | (Panic, _) => False
  end.
Proof.
  unfold Load at 1, try. unfold bind at 1.
  destruct (os_ReadFile_cases path (s_fs s)) as (r & f & Hr & Hf & Hcase).
  rewrite (on_fs_eq _ _ _ _ Hr). destruct r as [d|e|]; [|..|done].
  - unfold wrap, lift, bind, ret, fail. pose proof (json_unmarshal_total (A := storedKey) d) as Hj.
    destruct (json_unmarshal d) as [sk|e|]; [|done|done].
    destruct (negb _ || negb _); [done|]. intros Hn. by rewrite Hn in Hcase.
  - case_bool_decide as He; [|done].
    pose proof (generateAndSave_run path (Sys (s_clock s) (s_rand s) f)) as Hg.
    destruct (generateAndSave path _) as [[kp|e'|] s']; [|done|done].
    destruct Hg as (Hkp & text & Ht & Hs'). intros _. split; [done|]. split.
    + intros m. destruct (Sign_Verify kp m Hkp) as (sg & H1 & _ & H2). eauto.
    + intros Hv s2 Hnf Hfile. rewrite Hs' in Hfile.
      destruct (json_roundtrip (stored kp) Hv) as (text' & Ht' & Hu).
      assert (text' = text) as -> by congruence. unfold Load, try. unfold bind at 1.
      rewrite (on_fs_eq _ _ (Ok text) (s_fs s2)) by (by apply os_ReadFile_ok).
      unfold wrap, lift. erewrite bind_Ok by (by rewrite Hu).
      destruct (kp_wf_length kp Hkp) as [E1 E2]. cbn [stored sk_PublicKey sk_PrivateKey].
      rewrite E1, E2. cbn. by destruct kp, s2.
Qed.
End identity.

Lemma identity_stable_witness :
  let ed := toy_Ed25519 in let js := countable_JSON storedKey in
  let s0 := Sys (Clock 0 [5]) (stream (be_put 32 3) EOF) (Fs ∅ []) in
  match Load (H := ed) (H0 := js) (str "key.json") s0 with
  | (Ok kp, s') => kp_wf kp ∧ Load (str "key.json") s' = (Ok kp, s')
  | _ => False
  end.
Proof.
  intros ed js s0. pose proof (identity_stable (H := ed) (H0 := js) (str "key.json") s0) as Hp.
  assert (Hok : is_ok (fst (Load (H := ed) (H0 := js) (str "key.json") s0)) = true ∧
    no_faults (snd (Load (H := ed) (H0 := js) (str "key.json") s0))) by (vm_compute; split; reflexivity).
  destruct (Load (H := ed) (H0 := js) (str "key.json") s0) as [[kp|e|] s']; cbn [fst snd] in Hok;
    destruct Hok as [Hok Hnf]; [|discriminate|discriminate].
  destruct (Hp eq_refl) as (H1 & _ & H3). split; [exact H1|]. apply (H3 I s' Hnf eq_refl).
Defined.
