(* ===== verification/Registry.v ===== *)
(** The server-side device and invite store, [internal/registry/registry.go].

    Every exported operation holds the registry's mutex from start to end, so a
    concurrent execution is a sequence of these operations; [rop] and [run_ops]
    are such sequences.  The record pointers the Go code keeps in its slices are
    positions here: records are appended and never removed, so a position names
    the same record for ever, and [ListDevices] hands positions out. *)

From Stdlib Require Import Strings.Byte String ZArith Lia.
From stdpp Require Import base list gmap.
From S2P Require Import Prelude Encoding Io Hash Wire.

(** ** Data *)

(** [dev_LastSeenAt]: [None] is the zero [time.Time]. *)
Record Device := mkDevice {
  dev_PubKey : bytes;
  dev_DeviceID : bytes;
  dev_Label : bytes;
  dev_RegisteredAt : Z;
  dev_LastSeenAt : option Z;
  dev_Revoked : bool
}.

Record InviteRecord := mkInvite {
  inv_Token : bytes;
  inv_TokenID : bytes;
  inv_Label : bytes;
  inv_MaxUses : Z;
  inv_Uses : Z;
  inv_ExpiresAt : Z;
  inv_CreatedAt : Z;
  inv_Revoked : bool
}.

Record storeData := mkStore { st_Devices : list Device; st_Invites : list InviteRecord }.

Record Registry := mkRegistry { r_path : bytes; r_data : storeData }.

(** The registry and the process environment its operations use. *)
Record rstate := RState { rs_reg : Registry; rs_sys : sys }.

Definition on_sys {A} : M sys A → M rstate A :=
  zoom rs_sys (λ s st, RState (rs_reg st) s).
Definition put_data (d : storeData) : M rstate unit :=
  modify (λ st, RState (mkRegistry (r_path (rs_reg st)) d) (rs_sys st)).
Definition get_data : M rstate storeData := gets (λ st, r_data (rs_reg st)).

Definition set_LastSeenAt (t : Z) (d : Device) : Device :=
  mkDevice (dev_PubKey d) (dev_DeviceID d) (dev_Label d) (dev_RegisteredAt d) (Some t) (dev_Revoked d).
Definition dev_revoke (d : Device) : Device :=
  mkDevice (dev_PubKey d) (dev_DeviceID d) (dev_Label d) (dev_RegisteredAt d) (dev_LastSeenAt d) true.
Definition inv_revoke (i : InviteRecord) : InviteRecord :=
  mkInvite (inv_Token i) (inv_TokenID i) (inv_Label i) (inv_MaxUses i) (inv_Uses i)
    (inv_ExpiresAt i) (inv_CreatedAt i) true.
Definition inv_use (i : InviteRecord) : InviteRecord :=
  mkInvite (inv_Token i) (inv_TokenID i) (inv_Label i) (inv_MaxUses i) (inv_Uses i + 1)
    (inv_ExpiresAt i) (inv_CreatedAt i) (inv_Revoked i).

(** ** Helpers *)

Fixpoint bytesEqual_from (a b : bytes) : bool :=
  match a, b with
  | x :: a', y :: b' => if bool_decide (x ≠ y) then false else bytesEqual_from a' b'
  | _, _ => true
  end.
Definition bytesEqual (a b : bytes) : bool :=
  if negb (length a =? length b)%nat then false else bytesEqual_from a b.

Definition shortDeviceID (pub : bytes) : bytes := hex_encode (take 3 (sha256 pub)).
Definition shortHex (b : bytes) : bytes := hex_encode (take 4 (sha256 b)).

(** [strings.HasPrefix(s, p)] *)
Definition HasPrefix (s p : bytes) : bool :=
  (length p <=? length s)%nat && bool_decide (take (length p) s = p).

Definition IsExpired (r : InviteRecord) : M sys bool :=
  if inv_ExpiresAt r =? 0 then ret false
  else t <- on_clock time_Now ;; ret (inv_ExpiresAt r <? unix t).

(** [invite.GenerateToken] *)
Definition GenerateToken : M sys bytes :=
  wrap "invite: generate token" (on_rand (rand_Read 32)).

Section registry.
Context `{JSON storeData}.

(** ** Load and save *)

Definition Load (path : bytes) : M sys Registry :=
  r <- try (on_fs (os_ReadFile path)) ;;
  match r with
  | inr e =>
      if bool_decide (e = ErrNotExist) then ret (mkRegistry path (mkStore [] []))
      else fail (ErrWrap "registry: read" e)
  | inl data =>
      d <- wrap "registry: parse" (lift (json_unmarshal data)) ;;
      ret (mkRegistry path d)
  end.

Definition tmp_path (path : bytes) : bytes := path ++ str ".tmp".

Definition save : M rstate unit :=
  wrap "registry: mkdir" (on_sys (on_fs os_MkdirAll)) ;;;
  d <- get_data ;;
  data <- lift (json_marshal d) ;;
  path <- gets (λ st, r_path (rs_reg st)) ;;
  wrap "registry: write tmp" (on_sys (on_fs (os_WriteFile (tmp_path path) data))) ;;;
  on_sys (on_fs (os_Rename (tmp_path path) path)).

(** ** Operations *)

Definition AuthorizeDevice (pub : bytes) : M rstate byte :=
  d <- get_data ;;
  match list_find (λ v, bytesEqual (dev_PubKey v) pub) (st_Devices d) with
  | None => ret AuthStatusUnknown
  | Some (i, v) =>
      if dev_Revoked v then ret AuthStatusRevoked else
      t <- on_sys (on_clock time_Now) ;;
      put_data (mkStore (alter (set_LastSeenAt t) i (st_Devices d)) (st_Invites d)) ;;;
      ignore save ;;;
      ret AuthStatusOK
  end.

(** The Go function returns [(status, err)]; with a non-nil error the status is
    the zero byte, so the pair is the result here. *)
Definition Bootstrap (token pub label : bytes) : M rstate (byte * option error) :=
  d <- get_data ;;
  match list_find (λ v, negb (inv_Revoked v) && bytesEqual (inv_Token v) token) (st_Invites d) with
  | None => ret (BootstrapStatusInvalidToken, None)
  | Some (i, found) =>
      expired <- on_sys (IsExpired found) ;;
      if expired : bool then ret (BootstrapStatusExpired, None) else
      let maxUses := if inv_MaxUses found <=? 0 then 1 else inv_MaxUses found in
      if maxUses <=? inv_Uses found then ret (BootstrapStatusUsed, None) else
      t <- on_sys (on_clock time_Now) ;;
      let id := shortDeviceID pub in
      let lbl := if bool_decide (label = []) then str "device-" ++ id else label in
      let dev := mkDevice pub id lbl t None false in
      put_data (mkStore (st_Devices d ++ [dev]) (alter inv_use i (st_Invites d))) ;;;
      r <- try save ;;
      match r with
      | inr e => ret (x00, Some (ErrWrap "registry: save after bootstrap" e))
      | inl _ => ret (BootstrapStatusOK, None)
      end
  end.

(** [ttl] is a [time.Duration]: nanoseconds. *)
Definition CreateInvite (label : bytes) (maxUses ttl : Z) : M rstate InviteRecord :=
  tok <- on_sys GenerateToken ;;
  expiresAt <- (if 0 <? ttl then t <- on_sys (on_clock time_Now) ;; ret (unix (t + ttl)) else ret 0) ;;
  created <- on_sys (on_clock time_Now) ;;
  let rec := mkInvite tok (shortHex tok) label maxUses 0 expiresAt created false in
  d <- get_data ;;
  put_data (mkStore (st_Devices d) (st_Invites d ++ [rec])) ;;;
  save ;;;
  ret rec.

Definition RevokeInvite (tokenID : bytes) : M rstate unit :=
  d <- get_data ;;
  match list_find (λ v, bool_decide (inv_TokenID v = tokenID) || HasPrefix (inv_TokenID v) tokenID)
          (st_Invites d) with
  | None => fail (ErrNew "registry: invite not found" [])
  | Some (i, _) =>
      put_data (mkStore (st_Devices d) (alter inv_revoke i (st_Invites d))) ;;;
      save
  end.

Definition RevokeDevice (deviceID : bytes) : M rstate unit :=
  d <- get_data ;;
  match list_find (λ v, bool_decide (dev_DeviceID v = deviceID)) (st_Devices d) with
  | None => fail (ErrNew "registry: device not found" [])
  | Some (i, _) =>
      put_data (mkStore (alter dev_revoke i (st_Devices d)) (st_Invites d)) ;;;
      save
  end.

(** The returned slices hold the registry's own pointers. *)
Definition ListDevices : M rstate (list nat) :=
  d <- get_data ;; ret (seq 0 (length (st_Devices d))).
Definition ListInvites : M rstate (list nat) :=
  d <- get_data ;; ret (seq 0 (length (st_Invites d))).
(** What a holder of a device pointer sees when it looks. *)
Definition deref_device (p : nat) (st : rstate) : option Device :=
  st_Devices (r_data (rs_reg st)) !! p.

Definition DeviceCount : M rstate Z :=
  d <- get_data ;;
  ret (fold_left (λ n v, if negb (dev_Revoked v) then n + 1 else n) (st_Devices d) 0).

(** ** Sequences of operations *)

Inductive rop : Type :=
  | OpAuthorize (pub : bytes)
  | OpBootstrap (token pub label : bytes)
  | OpCreateInvite (label : bytes) (maxUses ttl : Z)
  | OpRevokeInvite (tokenID : bytes)
  | OpRevokeDevice (deviceID : bytes).

Definition run_op (o : rop) : M rstate unit :=
  match o with
  | OpAuthorize pub => ignore (AuthorizeDevice pub)
  | OpBootstrap tok pub label => ignore (Bootstrap tok pub label)
  | OpCreateInvite label n ttl => ignore (CreateInvite label n ttl)
  | OpRevokeInvite id => ignore (RevokeInvite id)
  | OpRevokeDevice id => ignore (RevokeDevice id)
  end.

(** The state after a sequence of calls, whatever each of them returned. *)
Definition run_ops (os : list rop) (st : rstate) : rstate := snd (each run_op os st).

(** ** Frame lemmas: what an operation may change *)

Definition data (st : rstate) : storeData := r_data (rs_reg st).

Lemma bytesEqual_spec a b : bytesEqual a b = bool_decide (a = b).
Proof.
  unfold bytesEqual. destruct (Nat.eqb_spec (length a) (length b)) as [Hl|Hl]; cbn [negb].
  - revert b Hl. induction a as [|x a IH]; intros [|y b] Hl; try done.
    cbn [bytesEqual_from]. case_bool_decide as Hxy.
    + rewrite bool_decide_false; [done|]. intros [= ? ?]. done.
    + subst y. rewrite IH by (cbn in Hl; lia).
      apply bool_decide_ext. split; [by intros ->|by intros [= ->]].
  - rewrite bool_decide_false; [done|]. by intros ->.
Qed.

Lemma IsExpired_ok v s :
  ∃ b s', IsExpired v s = (Ok b, s') ∧ (inv_ExpiresAt v = 0 → b = false).
Proof.
  unfold IsExpired. destruct (Z.eqb_spec (inv_ExpiresAt v) 0) as [H0|H0]; [by do 2 eexists|].
  destruct (on_clock_now s) as (t & c' & Ht). do 2 eexists.
  erewrite bind_Ok by done. done.
Qed.

Lemma on_sys_eq {A} (m : M sys A) st r s :
  m (rs_sys st) = (r, s) → on_sys m st = (r, RState (rs_reg st) s).
Proof. unfold on_sys, zoom. by intros ->. Qed.

Lemma on_files_eq {A} (m : M fs A) st r f :
  m (s_fs (rs_sys st)) = (r, f) →
  on_sys (on_fs m) st = (r, RState (rs_reg st) (Sys (s_clock (rs_sys st)) (s_rand (rs_sys st)) f)).
Proof. intros Hm. by apply on_sys_eq, on_fs_eq. Qed.

(** [save] leaves the in-memory registry alone and does not panic. *)
Lemma save_frame st :
  ∃ r s', save st = (r, RState (rs_reg st) s') ∧ is_panic r = false.
Proof.
  pose proof (json_marshal_total (data st)) as Hj. unfold data in Hj.
  unfold save, bind, wrap, on_sys, on_fs, zoom, os_MkdirAll, os_WriteFile, os_Rename, get_data, gets,
    lift, fs_fault, fs_update, modify, ret, fail, bind. destruct st as [reg [c rd [files faults]]].
  cbn in *. destruct faults as [|[[n e]|] faults]; cbn; [|eauto|].
  - destruct (json_marshal _); cbn in *; [|eauto|done].
    rewrite lookup_insert_eq. cbn. eauto.
  - destruct (json_marshal _); cbn in *; [|eauto|done].
    destruct faults as [|[[n e]|] faults]; cbn; [rewrite lookup_insert_eq; cbn; eauto|eauto|].
    destruct faults as [|[[n e]|] faults]; cbn; [|eauto|]; rewrite lookup_insert_eq; cbn; eauto.
Qed.

Lemma ignore_save_frame st : ∃ s', ignore save st = (Ok tt, RState (rs_reg st) s').
Proof.
  destruct (save_frame st) as (r & s' & Hs & Hp). exists s'.
  unfold ignore, try, bind. rewrite Hs. by destruct r.
Qed.

Lemma try_save_frame st :
  ∃ r s', try save st = (Ok r, RState (rs_reg st) s') ∧
    (∀ e, r = inr e ↔ save st = (Err e, RState (rs_reg st) s')).
Proof.
  destruct (save_frame st) as (r & s' & Hs & Hp). unfold try. rewrite Hs.
  destruct r as [[]|e|]; [|..|done]; do 2 eexists; (split; [done|]); intros e'; split; congruence.
Qed.

(** ** What one operation does to the store

    [data_step o d d']: the operation [o] takes the store from [d] to [d'].  A
    call that is refused or fails before its update leaves the store alone; the
    outcome of writing the file does not matter to the store in memory. *)

Definition find_device (pub : bytes) (d : storeData) : option (nat * Device) :=
  list_find (λ v, bytesEqual (dev_PubKey v) pub) (st_Devices d).
Definition find_invite (token : bytes) (d : storeData) : option (nat * InviteRecord) :=
  list_find (λ v, negb (inv_Revoked v) && bytesEqual (inv_Token v) token) (st_Invites d).
Definition find_token_id (id : bytes) (d : storeData) : option (nat * InviteRecord) :=
  list_find (λ v, bool_decide (inv_TokenID v = id) || HasPrefix (inv_TokenID v) id) (st_Invites d).
Definition find_device_id (id : bytes) (d : storeData) : option (nat * Device) :=
  list_find (λ v, bool_decide (dev_DeviceID v = id)) (st_Devices d).
Definition max_uses (v : InviteRecord) : Z := if inv_MaxUses v <=? 0 then 1 else inv_MaxUses v.
Definition new_device (pub label : bytes) (t : Z) : Device :=
  mkDevice pub (shortDeviceID pub)
    (if bool_decide (label = []) then str "device-" ++ shortDeviceID pub else label) t None false.

Inductive data_step (d : storeData) : rop → storeData → Prop :=
  | step_none o : data_step d o d
  | step_seen pub i v t :
      find_device pub d = Some (i, v) → dev_Revoked v = false →
      data_step d (OpAuthorize pub)
        (mkStore (alter (set_LastSeenAt t) i (st_Devices d)) (st_Invites d))
  | step_register token pub label i v t :
      find_invite token d = Some (i, v) → inv_Uses v < max_uses v →
      data_step d (OpBootstrap token pub label)
        (mkStore (st_Devices d ++ [new_device pub label t]) (alter inv_use i (st_Invites d)))
  | step_invite label n ttl tok e t :
      data_step d (OpCreateInvite label n ttl)
        (mkStore (st_Devices d) (st_Invites d ++ [mkInvite tok (shortHex tok) label n 0 e t false]))
  | step_revoke_invite id i v :
      find_token_id id d = Some (i, v) →
      data_step d (OpRevokeInvite id) (mkStore (st_Devices d) (alter inv_revoke i (st_Invites d)))
  | step_revoke_device id i v :
      find_device_id id d = Some (i, v) →
      data_step d (OpRevokeDevice id) (mkStore (alter dev_revoke i (st_Devices d)) (st_Invites d)).

Lemma AuthorizeDevice_run pub st :
  match find_device pub (data st) with
  | None => AuthorizeDevice pub st = (Ok AuthStatusUnknown, st)
  | Some (i, v) =>
      if dev_Revoked v then AuthorizeDevice pub st = (Ok AuthStatusRevoked, st) else
      ∃ t s', AuthorizeDevice pub st =
        (Ok AuthStatusOK, RState (mkRegistry (r_path (rs_reg st))
           (mkStore (alter (set_LastSeenAt t) i (st_Devices (data st))) (st_Invites (data st)))) s')
  end.
Proof.
  unfold AuthorizeDevice, find_device, data. erewrite bind_Ok by done.
  destruct (list_find _ _) as [[i v]|]; [|done]. destruct (dev_Revoked v); [done|].
  destruct (on_clock_now (rs_sys st)) as (t & c' & Ht).
  erewrite bind_Ok by (by apply on_sys_eq). erewrite bind_Ok by done.
  match goal with |- context [bind (ignore save) _ ?s1] =>
    destruct (ignore_save_frame s1) as (s' & Hs) end.
  erewrite bind_Ok by exact Hs. by exists t, s'.
Qed.

(** The stages of [Bootstrap]: the expiry test, then the update, then the file. *)
Lemma Bootstrap_run token pub label st :
  match find_invite token (data st) with
  | None => Bootstrap token pub label st = (Ok (BootstrapStatusInvalidToken, None), st)
  | Some (i, v) =>
      ∃ expired s1, IsExpired v (rs_sys st) = (Ok expired, s1) ∧
      if expired : bool then
        Bootstrap token pub label st = (Ok (BootstrapStatusExpired, None), RState (rs_reg st) s1)
      else if max_uses v <=? inv_Uses v then
        Bootstrap token pub label st = (Ok (BootstrapStatusUsed, None), RState (rs_reg st) s1)
      else ∃ t s2 r s3, on_clock time_Now s1 = (Ok t, s2) ∧
        let st2 := RState (mkRegistry (r_path (rs_reg st))
          (mkStore (st_Devices (data st) ++ [new_device pub label t])
                   (alter inv_use i (st_Invites (data st))))) s2 in
        save st2 = (r, RState (rs_reg st2) s3) ∧ is_panic r = false ∧
        Bootstrap token pub label st =
          (match r with
           | Err e => Ok (x00, Some (ErrWrap "registry: save after bootstrap" e))
           | _ => Ok (BootstrapStatusOK, None)
           end, RState (rs_reg st2) s3)
  end.
Proof.
  unfold Bootstrap, find_invite, data. erewrite bind_Ok by done.
  destruct (list_find _ _) as [[i v]|]; [|done].
  destruct (IsExpired_ok v (rs_sys st)) as (b & s1 & He & _). exists b, s1. split; [done|].
  erewrite bind_Ok by (by apply on_sys_eq). destruct b; [done|].
  change (if inv_MaxUses v <=? 0 then 1 else inv_MaxUses v) with (max_uses v).
  destruct (max_uses v <=? inv_Uses v); [done|].
  destruct (on_clock_now s1) as (t & c' & Ht).
  destruct (save_frame (RState (mkRegistry (r_path (rs_reg st))
      (mkStore (st_Devices (r_data (rs_reg st)) ++ [new_device pub label t])
         (alter inv_use i (st_Invites (r_data (rs_reg st))))))
      (Sys c' (s_rand s1) (s_fs s1)))) as (r & s3 & Hs & Hp).
  exists t, (Sys c' (s_rand s1) (s_fs s1)), r, s3. split; [exact Ht|]. split_and!; [exact Hs|done|].
  erewrite bind_Ok by (apply on_sys_eq; exact Ht). erewrite bind_Ok by done.
  unfold try, bind. cbv zeta. fold (new_device pub label t). cbn [rs_reg rs_sys].
  change (mkDevice pub (shortDeviceID pub) _ t None false) with (new_device pub label t).
  rewrite Hs. by destruct r.
Qed.

Lemma CreateInvite_run label n ttl st :
  (∃ e s', CreateInvite label n ttl st = (Err e, RState (rs_reg st) s')) ∨
  ∃ tok e t s2 r s3,
    let rec := mkInvite tok (shortHex tok) label n 0 e t false in
    let st2 := RState (mkRegistry (r_path (rs_reg st))
      (mkStore (st_Devices (data st)) (st_Invites (data st) ++ [rec]))) s2 in
    (length tok = 32%nat ∧ tok = take 32 (flatten (s_rand (rs_sys st))) ∧ s_fs s2 = s_fs (rs_sys st)) ∧
    (ttl <= 0 → e = 0) ∧ save st2 = (r, RState (rs_reg st2) s3) ∧ is_panic r = false ∧
    CreateInvite label n ttl st =
      (match r with Ok _ => Ok rec | Err e => Err e | Panic => Panic end, RState (rs_reg st2) s3).
Proof.
  unfold CreateInvite.
  destruct (ReadFull_spec 32 (s_rand (rs_sys st))) as (r0 & _ & _ & _ & Hrd).
  destruct (Nat.leb_spec 32 (length (flatten (s_rand (rs_sys st))))) as [Hl|Hl].
  2:{ left. do 2 eexists. eapply bind_Err, on_sys_eq, wrap_Err, on_rand_eq. exact Hrd. }
  right. assert (Htok : GenerateToken (rs_sys st) = (Ok (take 32 (flatten (s_rand (rs_sys st)))),
    Sys (s_clock (rs_sys st)) r0 (s_fs (rs_sys st)))) by (apply wrap_Ok, on_rand_eq, Hrd).
  set (tok := take 32 _) in *. assert (Hlen : length tok = 32%nat) by (apply length_take_le; lia).
  erewrite bind_Ok by (apply on_sys_eq; exact Htok).
  assert (He : ∃ e s1, (if 0 <? ttl then t <- on_sys (on_clock time_Now) ;; ret (unix (t + ttl)) else ret 0)
     (RState (rs_reg st) (Sys (s_clock (rs_sys st)) r0 (s_fs (rs_sys st)))) = (Ok e, RState (rs_reg st) s1)
     ∧ (ttl <= 0 → e = 0) ∧ s_fs s1 = s_fs (rs_sys st)).
  { destruct (Z.ltb_spec 0 ttl); [|by do 2 eexists].
    match goal with |- context [RState _ ?s] => destruct (on_clock_now s) as (t & c' & Ht) end.
    do 2 eexists. erewrite bind_Ok by (apply on_sys_eq; exact Ht). split; [done|]. split; [lia|done]. }
  destruct He as (e & s1 & He & He0 & Hf1). erewrite bind_Ok by exact He.
  destruct (on_clock_now s1) as (t & c' & Ht). erewrite bind_Ok by (apply on_sys_eq; exact Ht).
  destruct (save_frame (RState (mkRegistry (r_path (rs_reg st))
      (mkStore (st_Devices (data st)) (st_Invites (data st) ++
        [mkInvite tok (shortHex tok) label n 0 e t false])))
      (Sys c' (s_rand s1) (s_fs s1)))) as (r & s3 & Hs & Hp).
  exists tok, e, t, (Sys c' (s_rand s1) (s_fs s1)), r, s3. cbv zeta. split_and!; try done.
  erewrite bind_Ok by done. erewrite bind_Ok by done. unfold bind. cbn [rs_reg rs_sys] in *.
  unfold data in Hs. rewrite Hs. by destruct r.
Qed.

Lemma RevokeInvite_run id st :
  match find_token_id id (data st) with
  | None => RevokeInvite id st = (Err (ErrNew "registry: invite not found" []), st)
  | Some (i, v) => ∃ r s', is_panic r = false ∧
      let st2 := RState (mkRegistry (r_path (rs_reg st))
        (mkStore (st_Devices (data st)) (alter inv_revoke i (st_Invites (data st))))) (rs_sys st) in
      save st2 = (r, RState (rs_reg st2) s') ∧ RevokeInvite id st = (r, RState (rs_reg st2) s')
  end.
Proof.
  unfold RevokeInvite, find_token_id, data. erewrite bind_Ok by done.
  destruct (list_find _ _) as [[i v]|]; [|done]. erewrite bind_Ok by done.
  match goal with |- context [save ?s1] => destruct (save_frame s1) as (r & s' & Hs & Hp) end.
  exists r, s'. rewrite Hs. done.
Qed.

Lemma RevokeDevice_run id st :
  match find_device_id id (data st) with
  | None => RevokeDevice id st = (Err (ErrNew "registry: device not found" []), st)
  | Some (i, v) => ∃ r s', is_panic r = false ∧
      let st2 := RState (mkRegistry (r_path (rs_reg st))
        (mkStore (alter dev_revoke i (st_Devices (data st))) (st_Invites (data st)))) (rs_sys st) in
      save st2 = (r, RState (rs_reg st2) s') ∧ RevokeDevice id st = (r, RState (rs_reg st2) s')
  end.
Proof.
  unfold RevokeDevice, find_device_id, data. erewrite bind_Ok by done.
  destruct (list_find _ _) as [[i v]|]; [|done]. erewrite bind_Ok by done.
  match goal with |- context [save ?s1] => destruct (save_frame s1) as (r & s' & Hs & Hp) end.
  exists r, s'. rewrite Hs. done.
Qed.

Lemma snd_ignore {A} (m : M rstate A) st : snd (ignore m st) = snd (m st).
Proof. unfold ignore, try, bind. by destruct (m st) as [[] ?]. Qed.

(** Every operation is one step of the store, keeps the path and returns to its
    caller without a panic. *)
Lemma run_op_step o st :
  data_step (data st) o (data (snd (run_op o st))) ∧
  r_path (rs_reg (snd (run_op o st))) = r_path (rs_reg st) ∧ fst (run_op o st) = Ok tt.
Proof.
  destruct o as [pub|token pub label|label n ttl|id|id]; cbn [run_op]; rewrite snd_ignore.
  - pose proof (AuthorizeDevice_run pub st) as Hr.
    destruct (find_device pub (data st)) as [[i v]|] eqn:Hf;
      [destruct (dev_Revoked v) eqn:Hrev; [|destruct Hr as (t & s' & Hr)]|];
      unfold ignore, try, bind; rewrite Hr; cbn [fst snd]; (split; [|done]); try constructor.
    by eapply step_seen.
  - pose proof (Bootstrap_run token pub label st) as Hr.
    destruct (find_invite token (data st)) as [[i v]|] eqn:Hf.
    2:{ unfold ignore, try, bind. rewrite Hr. split; [constructor|done]. }
    destruct Hr as (b & s1 & _ & Hr). destruct b;
      [|destruct (Z.leb_spec (max_uses v) (inv_Uses v));
        [|destruct Hr as (t & s2 & r & s3 & _ & _ & _ & Hr)]];
      unfold ignore, try, bind; rewrite Hr; cbn [fst snd]; (split; [|by try destruct r]); try constructor.
    by eapply step_register.
  - destruct (CreateInvite_run label n ttl st)
      as [(e & s' & Hr)|(tok & e & t & s2 & r & s3 & _ & _ & _ & Hp & Hr)];
      unfold ignore, try, bind; rewrite Hr; cbn [fst snd].
    + split; [constructor|done].
    + split; [apply step_invite|]. by destruct r.
  - pose proof (RevokeInvite_run id st) as Hr. unfold ignore, try, bind.
    destruct (find_token_id id (data st)) as [[i v]|] eqn:Hf; [|rewrite Hr; split; [constructor|done]].
    destruct Hr as (r & s' & Hp & _ & Hr). rewrite Hr.
    destruct r; [..|done]; (split; [by eapply step_revoke_invite|done]).
  - pose proof (RevokeDevice_run id st) as Hr. unfold ignore, try, bind.
    destruct (find_device_id id (data st)) as [[i v]|] eqn:Hf; [|rewrite Hr; split; [constructor|done]].
    destruct Hr as (r & s' & Hp & _ & Hr). rewrite Hr.
    destruct r; [..|done]; (split; [by eapply step_revoke_device|done]).
Qed.

(** ** Invariants of operation sequences *)

Lemma run_ops_step o os st : run_ops (o :: os) st = run_ops os (snd (run_op o st)).
Proof.
  unfold run_ops. cbn [each]. unfold bind at 1.
  destruct (run_op_step o st) as (_ & _ & Ho). destruct (run_op o st) as [r s]. cbn in *. by subst.
Qed.

(** Rule induction over a sequence of calls. *)
Lemma run_ops_ind (P : storeData → Prop) os st :
  (∀ o d d', o ∈ os → data_step d o d' → P d → P d') → P (data st) → P (data (run_ops os st)).
Proof.
  revert st. induction os as [|o os IH]; intros st Hstep HP; [done|].
  rewrite run_ops_step. apply IH.
  - intros o' d d' Ho. apply Hstep. by right.
  - destruct (run_op_step o st) as (Ho & _). eapply Hstep; [by left|exact Ho|done].
Qed.

(** Records stay at their position, with their key, ID and revocation; only
    [RevokeDevice] revokes, and only the first record with the ID. *)
Definition device_le (d : storeData) (o : rop) (d' : storeData) : Prop :=
  ∀ i v, st_Devices d !! i = Some v → ∃ v', st_Devices d' !! i = Some v' ∧
    dev_PubKey v' = dev_PubKey v ∧ dev_DeviceID v' = dev_DeviceID v ∧
    (dev_Revoked v' = dev_Revoked v ∨
     dev_Revoked v' = true ∧ ∃ id w, o = OpRevokeDevice id ∧ find_device_id id d = Some (i, w)).

Lemma alter_lookup {A} (f : A → A) (l : list A) i j v :
  l !! j = Some v → alter f i l !! j = Some (if decide (i = j) then f v else v).
Proof.
  intros Hv. destruct (decide (i = j)) as [->|Hne].
  - by rewrite list_lookup_alter_eq, Hv.
  - by rewrite list_lookup_alter_ne.
Qed.

Lemma data_step_device d o d' : data_step d o d' → device_le d o d'.
Proof.
  intros Hs i v Hv. destruct Hs as [o|pub j w t|token pub label j w t| |id j w|id j w];
    cbn [st_Devices]; eauto 10.
  - erewrite alter_lookup by done. case_decide; eauto 10.
  - erewrite lookup_app_l_Some by done. eauto 10.
  - erewrite alter_lookup by done. case_decide as Hij; [|eauto 10].
    subst j. eexists. split; [done|]. split_and!; eauto 10.
Qed.

Lemma find_device_step d o d' pub i v :
  device_le d o d' → find_device pub d = Some (i, v) →
  ∃ v', find_device pub d' = Some (i, v') ∧ st_Devices d' !! i = Some v' ∧
    dev_DeviceID v' = dev_DeviceID v ∧
    (dev_Revoked v' = dev_Revoked v ∨
     dev_Revoked v' = true ∧ ∃ id w, o = OpRevokeDevice id ∧ find_device_id id d = Some (i, w)).
Proof.
  unfold find_device. intros Hle (Hi & Hp & Hfirst)%list_find_Some.
  destruct (Hle i v Hi) as (v' & Hi' & Hpk & Hid & Hr). exists v'. split_and!; try done.
  apply list_find_Some. rewrite Hpk. split_and!; [done|done|].
  intros j y Hy Hj. assert (Hlt : (j < length (st_Devices d))%nat)
    by (apply lookup_lt_Some in Hi; lia).
  apply lookup_lt_is_Some in Hlt as [y0 Hy0]. destruct (Hle j y0 Hy0) as (y' & Hy' & Hpk' & _).
  simplify_eq. rewrite Hpk'. by eapply Hfirst.
Qed.

Lemma find_device_key pub d i v : find_device pub d = Some (i, v) → dev_PubKey v = pub.
Proof.
  intros (_ & Hp & _)%list_find_Some. rewrite bytesEqual_spec in Hp. by apply bool_decide_spec in Hp.
Qed.

Lemma find_device_revoked_ops pub os st i v :
  find_device pub (data st) = Some (i, v) → dev_Revoked v = true →
  ∃ v', find_device pub (data (run_ops os st)) = Some (i, v') ∧ dev_Revoked v' = true.
Proof.
  intros Hf Hr. apply (run_ops_ind (λ d, ∃ v', find_device pub d = Some (i, v') ∧ dev_Revoked v' = true)).
  - intros o d d' _ Hs (w & Hw & Hwr).
    destruct (find_device_step d o d' pub i w (data_step_device _ _ _ Hs) Hw) as (v' & Hv' & _ & _ & [E|[E _]]).
    + exists v'. split; [done|]. congruence.
    + by exists v'.
  - by exists v.
Qed.

(** ** The store invariant *)

Definition uses_sum (l : list InviteRecord) : Z := foldr (λ v n, inv_Uses v + n) 0 l.
Definition invite_ok (v : InviteRecord) : Prop :=
  0 <= inv_Uses v <= max_uses v ∧ inv_TokenID v = shortHex (inv_Token v).
Definition device_ok (v : Device) : Prop := dev_DeviceID v = shortDeviceID (dev_PubKey v).
Definition store_inv (d : storeData) : Prop :=
  Forall device_ok (st_Devices d) ∧ Forall invite_ok (st_Invites d) ∧
  len (st_Devices d) = uses_sum (st_Invites d).

Lemma uses_sum_alter (f : InviteRecord → InviteRecord) k l i v :
  l !! i = Some v → inv_Uses (f v) = inv_Uses v + k → uses_sum (alter f i l) = uses_sum l + k.
Proof.
  intros Hi Hf. revert i Hi. induction l as [|w l IH]; intros [|i] Hi; try done.
  - injection Hi as ->. unfold uses_sum. cbn in *. lia.
  - specialize (IH i Hi). unfold uses_sum in *. cbn in *. lia.
Qed.

Lemma uses_sum_app l1 l2 : uses_sum (l1 ++ l2) = uses_sum l1 + uses_sum l2.
Proof. unfold uses_sum. induction l1 as [|v l1 IH]; cbn in *; lia. Qed.

Lemma max_uses_pos v : 1 <= max_uses v.
Proof. unfold max_uses. case_bool; lia. Qed.

Lemma Forall_alter_at {A} (P : A → Prop) f i (l : list A) :
  Forall P l → (∀ v, l !! i = Some v → P v → P (f v)) → Forall P (alter f i l).
Proof.
  intros Hl Hf. apply Forall_lookup. intros j w Hw. destruct (decide (i = j)) as [->|Hne].
  - rewrite list_lookup_alter_eq in Hw. destruct (l !! j) as [v|] eqn:Hv; [|done].
    injection Hw as <-. apply Hf; [done|]. by eapply Forall_lookup_1.
  - rewrite list_lookup_alter_ne in Hw by done. by eapply Forall_lookup_1.
Qed.

Lemma data_step_inv d o d' : data_step d o d' → store_inv d → store_inv d'.
Proof.
  intros Hs (Hd & Hi & Hn). destruct Hs as [o|pub i v t Hf Hr|token pub label i v t Hf Hu|
    label n ttl tok e t|id i v Hf|id i v Hf]; unfold store_inv, len in *; cbn [st_Devices st_Invites].
  - done.
  - rewrite length_alter. split_and!; try done. by apply Forall_alter_at.
  - apply list_find_Some in Hf as (Hf & _). rewrite (uses_sum_alter _ 1 _ _ _ Hf), length_app by done.
    cbn [length]. split_and!; [|apply Forall_alter_at|lia].
    + apply Forall_app. split; [done|]. by constructor.
    + done.
    + intros w Hw [Hb Hid]. simplify_eq. split; [|done]. unfold max_uses in *. cbn in *. lia.
  - rewrite uses_sum_app. unfold uses_sum at 2. cbn. split_and!; [done| |lia].
    apply Forall_app. split; [done|]. constructor; [|done]. split; [|done].
    pose proof (max_uses_pos (mkInvite tok (shortHex tok) label n 0 e t false)). cbn in *. lia.
  - apply list_find_Some in Hf as (Hf & _). rewrite (uses_sum_alter _ 0 _ _ _ Hf) by (cbn; lia).
    split_and!; [done| |lia]. by apply Forall_alter_at.
  - rewrite length_alter. split_and!; try done. by apply Forall_alter_at.
Qed.

(** ** Properties *)

(** C10. Registry invariant.  In a registry that starts from no file and runs
    any sequence of calls, whatever each returns and whatever the file system
    does: every invite's use count stays between 0 and its limit (one for a
    limit of 0 or less), the number of devices is the sum of the uses, and all
    IDs are the ones derived from the key or token.  The same holds from every
    store that satisfies it. *)
Theorem registry_invariant os :
  (∀ path s, no_faults s → fs_files (s_fs s) !! path = None →
     ∃ reg s', Load path s = (Ok reg, s') ∧
       store_inv (data (run_ops os (RState reg s')))) ∧
  (∀ st, store_inv (data st) → store_inv (data (run_ops os st))).
Proof.
  assert (Hall : ∀ st, store_inv (data st) → store_inv (data (run_ops os st))).
  { intros st. apply run_ops_ind. intros o d d' _. apply data_step_inv. }
  split; [|done]. intros path s Hf Hp.
  assert (Hr : os_ReadFile path (s_fs s) = (Err ErrNotExist, s_fs s)).
  { unfold os_ReadFile, no_faults, fs_fault, bind, gets in *. rewrite Hf. cbn. by rewrite Hp. }
  do 2 eexists. split.
  - unfold Load. erewrite bind_Ok; [|unfold try; rewrite (on_fs_eq _ _ _ _ Hr); done]. done.
  - apply Hall. repeat split; by constructor.
Qed.

(** Bootstrap decisions.  Bootstrap returns to its caller on every input
    and its answer is the table: no unrevoked invite with this token: invalid;
    else past its expiry by the first clock reading: expired; else uses at the
    limit (at least one): used; in these cases the store and the files are
    untouched.  Otherwise the device is appended (unrevoked, ID from its key,
    a label made up when empty) and this invite's count alone is incremented; the
    status is OK exactly when the file could be written, and else the call
    returns the zero status with the error while the device stays registered in
    memory. *)
Theorem Bootstrap_outcomes token pub label st :
  ∃ now r st', fst (time_Now (s_clock (rs_sys st))) = Ok now ∧
    Bootstrap token pub label st = (Ok r, st') ∧
    match find_invite token (data st) with
    | None => r = (BootstrapStatusInvalidToken, None) ∧ st' = st
    | Some (i, v) =>
        let refused s := r = (s, None) ∧ rs_reg st' = rs_reg st ∧ s_fs (rs_sys st') = s_fs (rs_sys st) in
        if negb (inv_ExpiresAt v =? 0) && (inv_ExpiresAt v <? unix now) then refused BootstrapStatusExpired
        else if max_uses v <=? inv_Uses v then refused BootstrapStatusUsed
        else ∃ t st2 res, rs_reg st2 = rs_reg st' ∧ save st2 = (res, st') ∧
          data st' = mkStore (st_Devices (data st) ++ [new_device pub label t])
                             (alter inv_use i (st_Invites (data st))) ∧
          r = match res with
              | Err e => (x00, Some (ErrWrap "registry: save after bootstrap" e))
              | _ => (BootstrapStatusOK, None)
              end
    end.
Proof.
  destruct (time_Now_ok (s_clock (rs_sys st))) as (now & c' & Hnow). exists now.
  pose proof (Bootstrap_run token pub label st) as Hr.
  destruct (find_invite token (data st)) as [[i v]|].
  2:{ do 2 eexists. split_and!; [by rewrite Hnow|exact Hr|done|done]. }
  destruct Hr as (b & s1 & He & Hr).
  assert (Hb : b = negb (inv_ExpiresAt v =? 0) && (inv_ExpiresAt v <? unix now) ∧ s_fs s1 = s_fs (rs_sys st)).
  { unfold IsExpired in He. destruct (inv_ExpiresAt v =? 0); [by injection He as <- <-|].
    erewrite bind_Ok in He by (apply on_clock_eq; exact Hnow). by injection He as <- <-. }
  destruct Hb as [<- Hfs]. destruct b; [|destruct (max_uses v <=? inv_Uses v)].
  - do 2 eexists. split; [by rewrite Hnow|]. split; [exact Hr|]. done.
  - do 2 eexists. split; [by rewrite Hnow|]. split; [exact Hr|]. done.
  - destruct Hr as (t & s2 & r & s3 & _ & Hs & Hp & Hr).
    destruct r as [u|e|]; [| |done]; (do 2 eexists; split; [by rewrite Hnow|]; split; [exact Hr|];
      do 3 eexists; split; [|split; [exact Hs|]]; done).
Qed.

(** C32. Revocation.  Once [RevokeDevice] has been called with the ID of a
    registered key that shares its ID with no other registered key, that key is
    refused as revoked by [AuthorizeDevice] for ever: after every sequence of
    further calls (registering the key again included), and even when the call
    reported that it could not write the file. *)
Theorem RevokeDevice_permanent pub i v st os :
  store_inv (data st) →
  find_device pub (data st) = Some (i, v) →
  (∀ j w, st_Devices (data st) !! j = Some w → dev_DeviceID w = shortDeviceID pub → dev_PubKey w = pub) →
  let st' := run_ops os (snd (RevokeDevice (shortDeviceID pub) st)) in
  AuthorizeDevice pub st' = (Ok AuthStatusRevoked, st').
Proof.
  intros (Hids & _) Hf Huniq st'.
  assert (Hk : dev_PubKey v = pub) by (by eapply find_device_key).
  assert (Hid : find_device_id (shortDeviceID pub) (data st) = Some (i, v)).
  { pose proof Hf as (Hi & Hp & Hfirst)%list_find_Some. apply list_find_Some. split_and!; [done| |].
    - eapply Forall_lookup_1 in Hids; [|done]. unfold device_ok in Hids.
      apply bool_decide_spec. congruence.
    - intros j w Hw Hj Hwid. apply (Hfirst j w Hw Hj). rewrite bytesEqual_spec.
      apply bool_decide_spec. apply bool_decide_spec in Hwid. by eapply Huniq. }
  pose proof (RevokeDevice_run (shortDeviceID pub) st) as Hr. rewrite Hid in Hr.
  destruct Hr as (r & s' & Hp & _ & Hr).
  assert (Hrev : ∃ w, find_device pub (data (snd (RevokeDevice (shortDeviceID pub) st))) = Some (i, w)
                 ∧ dev_Revoked w = true).
  { rewrite Hr. cbn [snd]. unfold data at 1. cbn [r_data rs_reg].
    pose proof Hf as (Hi & _)%list_find_Some.
    destruct (find_device_step _ _ _ pub i v (data_step_device _ _ _ (step_revoke_device _ _ _ _ Hid)) Hf)
      as (w & Hw & Hw2 & _ & _).
    exists w. split; [exact Hw|]. cbn in Hw2. rewrite list_lookup_alter_eq, Hi in Hw2. by injection Hw2 as <-. }
  destruct Hrev as (w & Hw & Hwr).
  destruct (find_device_revoked_ops pub os _ i w Hw Hwr) as (w' & Hw' & Hwr').
  pose proof (AuthorizeDevice_run pub st') as Ha. unfold st' in *. rewrite Hw', Hwr' in Ha. done.
Qed.

(** The limit of revocation by ID.  Device IDs are 24 bits of a hash and
    [RevokeDevice] marks the first record with the ID.  A registered key whose
    ID an earlier record shares cannot be revoked by any sequence of calls: it
    is authorized for ever. *)
Theorem RevokeDevice_collision pub i j v w st os :
  find_device pub (data st) = Some (j, w) → dev_Revoked w = false →
  st_Devices (data st) !! i = Some v → (i < j)%nat → dev_DeviceID v = dev_DeviceID w →
  fst (AuthorizeDevice pub (run_ops os st)) = Ok AuthStatusOK.
Proof.
  intros Hf Hrev Hi Hij Hid.
  assert (Hinv : ∃ w' v', find_device pub (data (run_ops os st)) = Some (j, w') ∧ dev_Revoked w' = false ∧
    st_Devices (data (run_ops os st)) !! i = Some v' ∧ dev_DeviceID v' = dev_DeviceID w').
  { apply (run_ops_ind (λ d, ∃ w' v', find_device pub d = Some (j, w') ∧ dev_Revoked w' = false ∧
      st_Devices d !! i = Some v' ∧ dev_DeviceID v' = dev_DeviceID w')); [|by exists w, v].
    intros o d d' _ Hs%data_step_device (w1 & v1 & Hw1 & Hr1 & Hv1 & Hid1).
    destruct (find_device_step d o d' pub j w1 Hs Hw1) as (w2 & Hw2 & _ & Hidw & Hr2).
    destruct (Hs i v1 Hv1) as (v2 & Hv2 & _ & Hidv & _). exists w2, v2.
    split_and!; [done| |done|congruence].
    destruct Hr2 as [E|(_ & id & x & -> & Hx)]; [congruence|]. exfalso.
    apply list_find_Some in Hx as (Hx & Hxid & Hfirst). apply list_find_Some in Hw1 as (Hj & _).
    simplify_eq. apply (Hfirst i v1 Hv1 Hij). cbn in *.
    apply bool_decide_spec in Hxid. apply bool_decide_spec. congruence. }
  destruct Hinv as (w' & v' & Hw' & Hr' & _). pose proof (AuthorizeDevice_run pub (run_ops os st)) as Ha.
  rewrite Hw', Hr' in Ha. destruct Ha as (t & s' & ->). done.
Qed.

(** Enrolment lasts.  After [Bootstrap] answered OK for a key that was not
    registered before, [AuthorizeDevice] accepts the key after every sequence of
    calls that does not revoke the key's own ID. *)
Theorem Bootstrap_then_authorized token pub label st st' os :
  find_device pub (data st) = None →
  Bootstrap token pub label st = (Ok (BootstrapStatusOK, None), st') →
  OpRevokeDevice (shortDeviceID pub) ∉ os →
  fst (AuthorizeDevice pub (run_ops os st')) = Ok AuthStatusOK.
Proof.
  intros Hnone Hb Hos. pose proof (Bootstrap_run token pub label st) as Hr.
  destruct (find_invite token (data st)) as [[i v]|]; [|rewrite Hr in Hb; discriminate].
  destruct Hr as (b & s1 & _ & Hr). destruct b; [rewrite Hr in Hb; discriminate|].
  destruct (max_uses v <=? inv_Uses v); [rewrite Hr in Hb; discriminate|].
  destruct Hr as (t & s2 & r & s3 & _ & _ & Hp & Hr). rewrite Hr in Hb. injection Hb as _ <-.
  assert (Hinv : ∃ k w, find_device pub (data (run_ops os (RState (mkRegistry (r_path (rs_reg st))
      (mkStore (st_Devices (data st) ++ [new_device pub label t]) (alter inv_use i (st_Invites (data st))))) s3)))
      = Some (k, w) ∧ dev_Revoked w = false ∧ dev_DeviceID w = shortDeviceID pub).
  { apply (run_ops_ind (λ d, ∃ k w, find_device pub d = Some (k, w) ∧ dev_Revoked w = false ∧
      dev_DeviceID w = shortDeviceID pub)).
    - intros o d d' Ho Hs%data_step_device (k & w & Hw & Hwr & Hwid).
      destruct (find_device_step d o d' pub k w Hs Hw) as (w2 & Hw2 & _ & Hidw & Hr2).
      exists k, w2. split_and!; [done| |congruence].
      destruct Hr2 as [E|(_ & id & x & -> & Hx)]; [congruence|]. exfalso.
      apply list_find_Some in Hx as (Hx & Hxid & _). apply list_find_Some in Hw as (Hk & _). simplify_eq.
      apply bool_decide_spec in Hxid. apply Hos.
      by replace (shortDeviceID pub) with id by congruence.
    - exists (length (st_Devices (data st)) + 0)%nat, (new_device pub label t). split; [|done].
      unfold find_device, data at 1. cbn [r_data rs_reg st_Devices].
      rewrite list_find_app_r by done. cbn [list_find].
      rewrite decide_True by (cbn; rewrite bytesEqual_spec; by apply bool_decide_spec).
      cbn. by rewrite Nat.add_0_r. }
  destruct Hinv as (k & w & Hw & Hwr & _).
  match goal with |- fst (AuthorizeDevice _ ?s) = _ => pose proof (AuthorizeDevice_run pub s) as Ha end.
  rewrite Hw, Hwr in Ha. destruct Ha as (t' & s' & ->). done.
Qed.

(** The registry's file holds its store. *)
Definition on_disk (reg : Registry) (f : fs) : Prop :=
  ∃ text, fs_files f !! r_path reg = Some text ∧ json_unmarshal text = Ok (r_data reg).

Lemma on_disk_Load reg s : on_disk reg (s_fs s) → no_faults s → Load (r_path reg) s = (Ok reg, s).
Proof.
  intros (text & Hf & Hu) Hn. unfold Load, try. unfold bind at 1.
  rewrite (on_fs_eq _ _ (Ok text) (s_fs s)) by (by apply os_ReadFile_ok).
  unfold wrap, lift. erewrite bind_Ok by (by rewrite Hu). destruct reg, s. done.
Qed.

(** On a file system without faults, a store that JSON can represent is saved and
    can be loaded again. *)
Lemma save_on_disk st :
  no_faults (rs_sys st) → json_valid (data st) →
  ∃ f, save st = (Ok tt, RState (rs_reg st) (Sys (s_clock (rs_sys st)) (s_rand (rs_sys st)) f)) ∧
    fs_faults f = [] ∧ on_disk (rs_reg st) f ∧
    ∀ q, q ≠ r_path (rs_reg st) → q ≠ tmp_path (r_path (rs_reg st)) → fs_files f !! q = fs_files (s_fs (rs_sys st)) !! q.
Proof.
  unfold no_faults. destruct st as [reg [c rd [files faults]]]. cbn [rs_sys s_fs fs_faults]. intros -> Hv.
  destruct (json_roundtrip _ Hv) as (text & Ht & Hu). unfold data in *. cbn [rs_reg] in *.
  eexists. split; [|split; [|split]].
  - unfold save, bind, wrap, on_sys, on_fs, zoom, os_MkdirAll, os_WriteFile, os_Rename, get_data, gets,
      lift, fs_fault, fs_update, modify, ret, bind. cbn. rewrite Ht. cbn. rewrite lookup_insert_eq. reflexivity.
  - done.
  - exists text. split; [cbn; apply lookup_insert_eq|exact Hu].
  - intros q H1 H2. cbn. by rewrite lookup_insert_ne, lookup_delete_ne, lookup_insert_ne by done.
Qed.

Lemma save_healthy st :
  no_faults (rs_sys st) → json_valid (data st) →
  ∃ st', save st = (Ok tt, st') ∧ rs_reg st' = rs_reg st ∧ no_faults (rs_sys st') ∧
    Load (r_path (rs_reg st)) (rs_sys st') = (Ok (rs_reg st), rs_sys st').
Proof.
  intros Hn Hv. destruct (save_on_disk st Hn Hv) as (f & Hs & Hf & Hd & _).
  eexists. split; [exact Hs|]. split; [done|]. split; [done|]. by apply on_disk_Load.
Qed.

Lemma tmp_path_ne path : tmp_path path ≠ path.
Proof.
  intros E. apply (f_equal length) in E. unfold tmp_path in E. rewrite length_app in E.
  change (length (str ".tmp")) with 4%nat in E. lia.
Qed.

(** C33. Atomic save.  Whatever the file system does, [save] changes no file
    but its own and the temporary one, and never leaves the registry file in
    between: when it reports success the file holds the whole current store, and
    a later [Load] gives exactly that store back; when it reports an error the
    file is what it was before (also when the temporary file was cut short). *)
Theorem save_atomic st :
  let path := r_path (rs_reg st) in
  let files s := fs_files (s_fs (rs_sys s)) in
  ∃ r st', save st = (r, st') ∧ rs_reg st' = rs_reg st ∧
    (∀ p, p ≠ path → p ≠ tmp_path path → files st' !! p = files st !! p) ∧
    match r with
    | Ok _ => ∃ text, json_marshal (data st) = Ok text ∧ files st' !! path = Some text ∧
        (json_valid (data st) → no_faults (rs_sys st') →
           Load path (rs_sys st') = (Ok (rs_reg st), rs_sys st'))
    | Err _ => files st' !! path = files st !! path
    | Panic => False
    end.
Proof.
  cbv zeta. pose proof (tmp_path_ne (r_path (rs_reg st))) as Hne.
  unfold save. destruct (os_MkdirAll_cases (s_fs (rs_sys st))) as (r0 & f0 & H0 & Hf0 & Hp0).
  destruct r0 as [u0|e0|]; [|..|done].
  2:{ do 2 eexists. split; [eapply bind_Err, wrap_Err, on_files_eq; exact H0|].
      cbn. rewrite Hf0. done. }
  erewrite bind_Ok by (eapply wrap_Ok, on_files_eq; exact H0). erewrite bind_Ok by done.
  cbn [rs_reg]. fold (data st). destruct (json_marshal (data st)) as [text|e|] eqn:Ht.
  2:{ do 2 eexists. split; [by apply bind_Err|]. cbn. rewrite Hf0. done. }
  2:{ pose proof (json_marshal_total (data st)) as Hj. by rewrite Ht in Hj. }
  erewrite bind_Ok by done. erewrite bind_Ok by done. cbn [rs_reg].
  destruct (os_WriteFile_cases (tmp_path (r_path (rs_reg st))) text f0) as (r1 & f1 & H1 & Hf1).
  destruct r1 as [u1|e1|]; [|..|done].
  2:{ destruct Hf1 as [n Hf1]. do 2 eexists.
      split; [eapply bind_Err, wrap_Err, on_files_eq; exact H1|]. cbn. rewrite Hf1, Hf0.
      split_and!; [done|intros; by rewrite lookup_insert_ne|by rewrite lookup_insert_ne]. }
  erewrite bind_Ok by (eapply wrap_Ok, on_files_eq; exact H1).
  destruct (os_Rename_cases (tmp_path (r_path (rs_reg st))) (r_path (rs_reg st)) f1) as (r2 & f2 & H2 & Hf2).
  do 2 eexists. split; [eapply on_files_eq; exact H2|]. cbn.
  destruct r2 as [u2|e2|]; [| |done].
  - destruct Hf2 as (d & Hd & Hf2). rewrite Hf1, lookup_insert_eq in Hd. injection Hd as <-.
    rewrite Hf2, Hf1, Hf0. split_and!; [done| |].
    + intros p Hp1 Hp2. by rewrite lookup_insert_ne, lookup_delete_ne, lookup_insert_ne.
    + exists text. rewrite lookup_insert_eq. split_and!; [done..|]. intros Hv Hnf.
      destruct (json_roundtrip (data st) Hv) as (text' & Ht' & Hu). assert (text' = text) as -> by congruence.
      unfold Load, try, bind. rewrite (on_fs_eq _ _ (Ok text) f2).
      * unfold wrap, lift. rewrite Hu. cbn. unfold data. by destruct (rs_reg st).
      * apply os_ReadFile_ok; [done|]. cbn. by rewrite Hf2, lookup_insert_eq.
  - rewrite Hf2, Hf1, Hf0. split_and!; [done|intros; by rewrite lookup_insert_ne|by rewrite lookup_insert_ne].
Qed.
End registry.

(** ** Witnesses: a concrete codec, clock, random source and file system *)

#[global] Instance Device_eq_dec : EqDecision Device.
Proof. solve_decision. Defined.
#[global] Instance InviteRecord_eq_dec : EqDecision InviteRecord.
Proof. solve_decision. Defined.
#[global] Instance storeData_eq_dec : EqDecision storeData.
Proof. solve_decision. Defined.
#[global] Instance Device_countable : Countable Device.
Proof.
  refine (inj_countable'
    (λ v, (dev_PubKey v, dev_DeviceID v, dev_Label v, dev_RegisteredAt v, dev_LastSeenAt v, dev_Revoked v))
    (λ p, let '(a, b, c, d, e, f) := p in mkDevice a b c d e f) _). by intros [].
Defined.
#[global] Instance InviteRecord_countable : Countable InviteRecord.
Proof.
  refine (inj_countable'
    (λ v, (inv_Token v, inv_TokenID v, inv_Label v, inv_MaxUses v, inv_Uses v, inv_ExpiresAt v, inv_CreatedAt v, inv_Revoked v))
    (λ p, let '(a, b, c, d, e, f, g, h) := p in mkInvite a b c d e f g h) _). by intros [].
Defined.
#[global] Instance storeData_countable : Countable storeData.
Proof.
  refine (inj_countable' (λ v, (st_Devices v, st_Invites v)) (λ p, mkStore (fst p) (snd p)) _).
  by intros [].
Defined.
Definition storeData_JSON : JSON storeData := countable_JSON storeData.

Definition sys0 : sys :=
  Sys (Clock (1000 * second) [second; second]) (Reader [be_put 20 7; be_put 20 9] EOF false) (Fs ∅ []).
(** Two keys whose 24-bit IDs are both 693bcd. *)
Definition key1 : bytes := be_put 32 2634.
Definition key2 : bytes := be_put 32 5915.
Definition token0 : bytes := be_put 32 77.
Definition store0 : storeData :=
  mkStore [new_device key1 (str "a") 5; new_device key2 (str "b") 6]
    [mkInvite token0 (shortHex token0) (str "i") 3 2 0 1 false].
Definition reg0 : Registry := mkRegistry (str "r.json") store0.

Lemma key_ids_collide : shortDeviceID key1 = str "693bcd" ∧ shortDeviceID key2 = str "693bcd".
Proof. by vm_compute. Qed.

Lemma registry_invariant_witness :
  ∃ reg s', Load (H := storeData_JSON) (str "r.json") sys0 = (Ok reg, s') ∧
    store_inv (data (run_ops (H := storeData_JSON) [OpCreateInvite (str "x") 0 0] (RState reg s'))).
Proof.
  apply (registry_invariant (H := storeData_JSON) [OpCreateInvite (str "x") 0 0]); reflexivity.
Defined.

Lemma Bootstrap_outcomes_witness :
  ∃ now r st', fst (time_Now (s_clock sys0)) = Ok now ∧
    Bootstrap (H := storeData_JSON) token0 key1 [] (RState reg0 sys0) = (Ok r, st') ∧ now = 1001 * second.
Proof.
  destruct (Bootstrap_outcomes (H := storeData_JSON) token0 key1 [] (RState reg0 sys0))
    as (now & r & st' & Hn & Hr & _).
  exists now, r, st'. split; [exact Hn|]. split; [exact Hr|].
  vm_compute in Hn. injection Hn as <-. reflexivity.
Defined.

Lemma RevokeDevice_permanent_witness :
  let st0 := RState (mkRegistry (str "r.json") (mkStore [new_device key1 (str "a") 5]
               [mkInvite token0 (shortHex token0) (str "i") 3 1 0 1 false])) sys0 in
  let st' := run_ops (H := storeData_JSON) [OpBootstrap token0 key1 (str "again")]
               (snd (RevokeDevice (H := storeData_JSON) (shortDeviceID key1) st0)) in
  AuthorizeDevice (H := storeData_JSON) key1 st' = (Ok AuthStatusRevoked, st').
Proof.
  intros st0. apply (RevokeDevice_permanent (H := storeData_JSON) key1 0 (new_device key1 (str "a") 5) st0).
  - split; [constructor; [reflexivity|constructor]|]. split; [|reflexivity].
    constructor; [|constructor]. split; [vm_compute; split; discriminate|reflexivity].
  - vm_compute. reflexivity.
  - intros [|j] w Hw _; [injection Hw as <-; reflexivity|discriminate].
Defined.

Lemma RevokeDevice_collision_witness :
  fst (AuthorizeDevice (H := storeData_JSON) key2
    (run_ops (H := storeData_JSON) [OpRevokeDevice (str "693bcd"); OpRevokeDevice (str "693bcd")]
       (RState reg0 sys0))) = Ok AuthStatusOK.
Proof.
  apply (RevokeDevice_collision (H := storeData_JSON) key2 0 1 (new_device key1 (str "a") 5)
    (new_device key2 (str "b") 6)).
  - vm_compute. reflexivity.
  - reflexivity.
  - reflexivity.
  - lia.
  - vm_compute. reflexivity.
Defined.

Lemma Bootstrap_then_authorized_witness :
  ∃ st', Bootstrap (H := storeData_JSON) token0 (be_put 32 1) [] (RState reg0 sys0)
           = (Ok (BootstrapStatusOK, None), st') ∧
  fst (AuthorizeDevice (H := storeData_JSON) (be_put 32 1)
    (run_ops (H := storeData_JSON) [OpRevokeDevice (str "693bcd")] st')) = Ok AuthStatusOK.
Proof.
  destruct (Bootstrap (H := storeData_JSON) token0 (be_put 32 1) [] (RState reg0 sys0))
    as [r st'] eqn:Hb.
  assert (r = Ok (BootstrapStatusOK, None)) as ->
    by (apply (f_equal fst) in Hb; vm_compute in Hb; symmetry; exact Hb).
  exists st'. split; [reflexivity|].
  apply (Bootstrap_then_authorized (H := storeData_JSON) token0 (be_put 32 1) [] (RState reg0 sys0)).
  - vm_compute. reflexivity.
  - exact Hb.
  - intros [E|E]%elem_of_cons; [vm_compute in E; discriminate|by apply elem_of_nil in E].
Defined.

Lemma save_atomic_witness :
  ∃ r st', save (H := storeData_JSON) (RState reg0 sys0) = (r, st') ∧ rs_reg st' = reg0.
Proof.
  destruct (save_atomic (H := storeData_JSON) (RState reg0 sys0)) as (r & st' & Hs & Hreg & _).
  exists r, st'. split; assumption.
Defined.
