(* ===== verification/Auth.v ===== *)
(** The authentication handshakes, [internal/auth/hmac.go] and
    [internal/auth/device.go]: the pre-shared-key handshake, the Ed25519 device
    handshake and the bootstrap registration, client and server sides, and the
    server's dispatch on the version byte.

    A handshake runs on a [host]: one connection, the process environment and
    the registry (absent on a relay, as the Go code's nil pointer). *)

From Stdlib Require Import Strings.Byte String ZArith Lia.
From stdpp Require Import base list gmap.
From S2P Require Import Prelude Encoding Io Hash Frame Wire Identity Registry.

(** ** Hosts *)

Record host := Host { h_conn : conn; h_sys : sys; h_reg : option Registry }.

Definition h_put_conn (c : conn) (h : host) : host := Host c (h_sys h) (h_reg h).
Definition on_conn {A} : M conn A → M host A := zoom h_conn h_put_conn.
Definition on_hsys {A} : M sys A → M host A :=
  zoom h_sys (λ s h, Host (h_conn h) s (h_reg h)).

(** A method call on the registry pointer: a nil pointer panics. *)
Definition on_registry {A} (m : M rstate A) : M host A := λ h,
  match h_reg h with
  | None => (Panic, h)
  | Some reg =>
      match m (RState reg (h_sys h)) with
      | (r, st) => (r, Host (h_conn h) (rs_sys st) (Some (rs_reg st)))
      end
  end.

Definition h_now : M host Z := on_hsys (on_clock time_Now).
Definition h_rand (n : nat) : M host bytes := on_hsys (on_rand (rand_Read n)).
Definition h_rand_ignoring (n : nat) : M host bytes := on_hsys (on_rand (rand_Read_ignoring n)).

(** [conn.SetXDeadline(time.Now().Add(n * time.Second))] and the zero time. *)
Definition deadline_in (set : option Z → conn → conn) (n : Z) : M host unit :=
  t <- h_now ;; modify (λ h, h_put_conn (set (Some (t + n * second)) (h_conn h)) h).
Definition deadline_clear (set : option Z → conn → conn) : M host unit :=
  modify (λ h, h_put_conn (set None (h_conn h)) h).

Definition errAuthFailed : error := ErrSentinel "auth: authentication failed".
Definition IsAuthFailed (err : error) : bool := errors_Is err errAuthFailed.

(** ** hmac.go *)

Record Handshaker := mkHandshaker { hs_psk : bytes }.
Definition New (psk : bytes) : Handshaker := mkHandshaker (sha256 psk).

Definition timeBucket (t : Z) : bytes := dec (Z.quot (unix t) 30).

Definition computeToken (psk nonce bucket : bytes) : bytes :=
  hmac_sha256 psk (str "daxson-v1:" ++ hex_encode nonce ++ str ":" ++ bucket).

Definition writeFailResponse : M host unit :=
  rnd <- h_rand_ignoring (AuthResponseSize - 1) ;;
  let resp := blit 0 [AuthStatusFail] (replicate AuthResponseSize x00) in
  ignore (on_conn (conn_Write (blit 1 rnd resp))).

Definition ClientHandshake (h : Handshaker) : M host bytes :=
  nonce <- wrap "auth: generate nonce" (h_rand 16) ;;
  t <- h_now ;;
  let req := blit 0 [ProtocolVersion] (replicate AuthRequestSize x00) in
  let req := blit 1 nonce req in
  let req := blit 17 (computeToken (hs_psk h) nonce (timeBucket t)) req in
  wrap "auth: write request" (on_conn (conn_Write req)) ;;;
  resp <- wrap "auth: read response" (on_conn (conn_ReadFull AuthResponseSize)) ;;
  status <- lift (index resp 0) ;;
  if bool_decide (status ≠ Frame.AuthStatusOK) then fail errAuthFailed else
  sid <- lift (slice resp 1 17) ;;
  ret (to_array 16 sid).

Definition ServerHandshake (h : Handshaker) : M host bytes :=
  req <- wrap "auth: read request" (on_conn (conn_ReadFull AuthRequestSize)) ;;
  version <- lift (index req 0) ;;
  if bool_decide (version ≠ ProtocolVersion)
  then writeFailResponse ;;; fail errAuthFailed else
  nonce <- lift (slice req 1 17) ;;
  token <- lift (slice req 17 49) ;;
  now <- h_now ;;
  let valid := bool_decide (token = computeToken (hs_psk h) nonce (timeBucket now)) ||
               bool_decide (token = computeToken (hs_psk h) nonce (timeBucket (now + -30 * second))) in
  if negb valid then writeFailResponse ;;; fail errAuthFailed else
  r <- try (h_rand 16) ;;
  match r with
  | inr e => writeFailResponse ;;; fail (ErrWrap "auth: generate session id" e)
  | inl sid =>
      let resp := blit 1 sid (blit 0 [Frame.AuthStatusOK] (replicate AuthResponseSize x00)) in
      wrap "auth: write response" (on_conn (conn_Write resp)) ;;;
      ret sid
  end.

(** ** device.go *)

Definition u64 (z : Z) : Z := z `mod` 2 ^ 64.
Definition bucket64 (t : Z) : Z := u64 (Z.quot (unix t) 30).

(** Signed message: PubKey(32) || Nonce(16) || TimeBucket(8). *)
Definition auth_msg (pub nonce : bytes) (bucket : Z) : bytes :=
  blit 48 (be_put 8 bucket) (blit 32 nonce (blit 0 pub (replicate 56 x00))).

Record ServerAuthResult := mkAuthResult {
  ar_SessionID : bytes;
  ar_DevicePub : option bytes;
  ar_Mode : string
}.

Fixpoint nullTrimBytes (b : bytes) : bytes :=
  match b with
  | [] => []
  | c :: b' => if bool_decide (c = x00) then [] else c :: nullTrimBytes b'
  end.

Definition writeDeviceAuthFail (status : byte) : M host unit :=
  sid <- h_rand_ignoring 16 ;;
  deadline_in put_wdl 5 ;;;
  ignore (on_conn (conn_Write (DeviceAuthResponse_Marshal (mkDAResp status sid)))).

Definition writeBootstrapFail (status : byte) : M host unit :=
  sid <- h_rand_ignoring 16 ;;
  deadline_in put_wdl 5 ;;;
  ignore (on_conn (conn_Write (BootstrapResponse_Marshal (mkBResp status sid)))).

Section device.
Context `{Ed25519} `{JSON storeData}.

(** [DeviceAuth.Handshake] *)
Definition DeviceAuth_Handshake (kp : KeyPair) : M host bytes :=
  t <- h_now ;;
  nonce <- h_rand_ignoring 16 ;;
  let bucket := bucket64 t in
  let pub := to_array 32 (kp_PublicKey kp) in
  sg <- lift (Sign kp (auth_msg pub nonce bucket)) ;;
  let req := mkDAReq MsgTypeDeviceAuth pub nonce bucket (to_array 64 sg) in
  deadline_in put_wdl 10 ;;;
  wrap "device auth: send" (on_conn (conn_Write (DeviceAuthRequest_Marshal req))) ;;;
  deadline_in put_rdl 10 ;;;
  buf <- wrap "device auth: recv" (on_conn (conn_ReadFull DeviceAuthResponseSize)) ;;
  deadline_clear put_dl ;;;
  resp <- lift (UnmarshalDeviceAuthResponse buf) ;;
  if bool_decide (dr_Status resp = Wire.AuthStatusOK) then ret (dr_SessionID resp)
  else if bool_decide (dr_Status resp = AuthStatusRevoked)
  then fail (ErrNew "device auth: device has been revoked" [])
  else if bool_decide (dr_Status resp = AuthStatusUnknown)
  then fail (ErrNew "device auth: device not registered" [])
  else fail (ErrNew "device auth: rejected (0x%02x)" [Z_of_byte (dr_Status resp)]).

Definition deviceServerHandshake (firstByte : bytes) : M host ServerAuthResult :=
  deadline_in put_rdl 10 ;;;
  remaining <- wrap "device auth server: read" (on_conn (conn_ReadFull (DeviceAuthRequestSize - 1))) ;;
  deadline_clear put_rdl ;;;
  req <- lift (UnmarshalDeviceAuthRequest (firstByte ++ remaining)) ;;
  t <- h_now ;;
  let now := bucket64 t in
  if (da_TimeBucket req <? u64 (now - 1)) || (da_TimeBucket req >? u64 (now + 1)) then
    writeDeviceAuthFail AuthStatusRejected ;;;
    fail (ErrNew "device auth server: stale time bucket" [])
  else
  let pub := da_PubKey req in
  ok <- lift (Verify pub (auth_msg pub (da_Nonce req) (da_TimeBucket req)) (da_Sig req)) ;;
  if negb ok then
    writeDeviceAuthFail AuthStatusRejected ;;;
    fail (ErrNew "device auth server: invalid signature" [])
  else
  status <- on_registry (AuthorizeDevice pub) ;;
  sid <- h_rand_ignoring 16 ;;
  deadline_in put_wdl 5 ;;;
  ignore (on_conn (conn_Write (DeviceAuthResponse_Marshal (mkDAResp status sid)))) ;;;
  deadline_clear put_wdl ;;;
  if bool_decide (status ≠ Wire.AuthStatusOK) then fail errAuthFailed else
  ret (mkAuthResult sid (Some pub) "device").

Definition bootstrapServerHandshake (firstByte : bytes) : M host ServerAuthResult :=
  deadline_in put_rdl 15 ;;;
  remaining <- wrap "bootstrap server: read" (on_conn (conn_ReadFull (BootstrapRequestSize - 1))) ;;
  deadline_clear put_rdl ;;;
  req <- lift (UnmarshalBootstrapRequest (firstByte ++ remaining)) ;;
  let label := nullTrimBytes (br_Label req) in
  let pub := br_DevicePub req in
  outcome <- on_registry (Bootstrap (br_Token req) pub label) ;;
  let status := fst outcome in let regErr := snd outcome in
  sid <- h_rand_ignoring 16 ;;
  deadline_in put_wdl 5 ;;;
  ignore (on_conn (conn_Write (BootstrapResponse_Marshal (mkBResp status sid)))) ;;;
  deadline_clear put_wdl ;;;
  match regErr with
  | Some e => fail (ErrWrap "bootstrap server" e)
  | None =>
      if bool_decide (status ≠ BootstrapStatusOK) then fail errAuthFailed else
      ret (mkAuthResult sid (Some pub) "bootstrap")
  end.

(** [io.MultiReader(bytes.NewReader(vb), conn)] with the connection as writer:
    the consumed byte is a segment in front of what the connection delivers. *)
Definition unread (vb : bytes) (c : conn) : conn :=
  put_rd (set_chunks (vb :: rd_chunks (c_rd c)) (c_rd c)) c.

Definition ServerDispatch (hmacHS : Handshaker) : M host ServerAuthResult :=
  deadline_in put_rdl 15 ;;;
  vb <- wrap "auth dispatch: read version" (on_conn (conn_ReadFull 1)) ;;
  deadline_clear put_rdl ;;;
  v <- lift (index vb 0) ;;
  reg <- gets h_reg ;;
  if bool_decide (v = ProtocolVersion) then
    modify (λ h, h_put_conn (unread vb (h_conn h)) h) ;;;
    sid <- ServerHandshake hmacHS ;;
    ret (mkAuthResult sid None "hmac")
  else if bool_decide (v = MsgTypeDeviceAuth) then
    match reg with
    | None => writeDeviceAuthFail AuthStatusRejected ;;; fail errAuthFailed
    | Some _ => deviceServerHandshake vb
    end
  else if bool_decide (v = MsgTypeBootstrap) then
    match reg with
    | None => writeBootstrapFail BootstrapStatusInvalidToken ;;; fail errAuthFailed
    | Some _ => bootstrapServerHandshake vb
    end
  else fail errAuthFailed.

Definition BootstrapClient (token : bytes) (kp : KeyPair) (label : bytes) : M host bytes :=
  let lb := if (64 <? length label)%nat then take 64 label else label in
  nonce <- h_rand_ignoring 16 ;;
  let req := mkBReq MsgTypeBootstrap (to_array 32 token) (to_array 32 (kp_PublicKey kp))
               (to_array 64 lb) nonce in
  deadline_in put_wdl 15 ;;;
  wrap "bootstrap: send" (on_conn (conn_Write (BootstrapRequest_Marshal req))) ;;;
  deadline_in put_rdl 15 ;;;
  buf <- wrap "bootstrap: recv" (on_conn (conn_ReadFull BootstrapResponseSize)) ;;
  deadline_clear put_dl ;;;
  resp <- lift (UnmarshalBootstrapResponse buf) ;;
  if bool_decide (bs_Status resp = BootstrapStatusOK) then ret (bs_SessionID resp)
  else if bool_decide (bs_Status resp = BootstrapStatusInvalidToken)
  then fail (ErrNew "bootstrap: invalid token" [])
  else if bool_decide (bs_Status resp = BootstrapStatusExpired)
  then fail (ErrNew "bootstrap: invite has expired" [])
  else if bool_decide (bs_Status resp = BootstrapStatusUsed)
  then fail (ErrNew "bootstrap: invite has already been used" [])
  else fail (ErrNew "bootstrap: rejected (0x%02x)" [Z_of_byte (bs_Status resp)]).

End device.

(** ** Running the handshakes symbolically

    Steps that leave the registry alone; quiet ones draw no randomness. *)
Definition hstep (h h' : host) : Prop := sys_le (h_sys h) (h_sys h') ∧ h_reg h' = h_reg h.
Definition hquiet (h h' : host) : Prop := hstep h h' ∧ s_rand (h_sys h') = s_rand (h_sys h).

#[global] Instance hstep_preorder : PreOrder hstep.
Proof.
  split; [done|]. intros h1 h2 h3 [L1 R1] [L2 R2]. split; [by etrans|congruence].
Qed.
#[global] Instance hquiet_preorder : PreOrder hquiet.
Proof.
  split; [done|]. intros h1 h2 h3 [L1 R1] [L2 R2]. split; [by etrans|congruence].
Qed.

Lemma hstep_readings h h' t : hstep h h' → t ∈ clock_readings (s_clock (h_sys h')) → t ∈ clock_readings (s_clock (h_sys h)).
Proof. intros [[Hle _] _] Ht. by apply Hle. Qed.

Section runs.
Implicit Types (h : host) (out inp : bytes).

Lemma on_hsys_eq {A} (m : M sys A) c s reg r s' :
  m s = (r, s') → on_hsys m (Host c s reg) = (r, Host c s' reg).
Proof. unfold on_hsys, zoom. cbn. by intros ->. Qed.

Lemma h_now_run h out inp :
  view (h_conn h) out inp →
  ∃ t h', h_now h = (Ok t, h') ∧ t ∈ clock_readings (s_clock (h_sys h)) ∧
    view (h_conn h') out inp ∧ hquiet h h'.
Proof.
  intros Hv. destruct (on_clock_reading (h_sys h)) as (t & s' & Ht & Hin & Hle & Hr).
  exists t. eexists. split_and!; [unfold h_now, on_hsys, zoom; by rewrite Ht|done|done|done].
Qed.

Lemma deadline_in_run set n h out inp :
  (∀ d c, view c out inp → view (set d c) out inp) → view (h_conn h) out inp →
  ∃ h', deadline_in set n h = (Ok tt, h') ∧ view (h_conn h') out inp ∧ hquiet h h'.
Proof.
  intros Hset Hv. destruct (h_now_run h out inp Hv) as (t & h1 & H1 & _ & Hv1 & Hq).
  unfold deadline_in. erewrite bind_Ok by exact H1. eexists. split; [done|]. split; [by apply Hset|done].
Qed.

Lemma deadline_clear_run set h out inp :
  (∀ d c, view c out inp → view (set d c) out inp) → view (h_conn h) out inp →
  ∃ h', deadline_clear set h = (Ok tt, h') ∧ view (h_conn h') out inp ∧ hquiet h h'.
Proof. intros Hset Hv. eexists. split; [done|]. split; [by apply Hset|done]. Qed.

Lemma h_rand_ignoring_run n h out inp :
  view (h_conn h) out inp →
  ∃ bs h', h_rand_ignoring n h = (Ok bs, h') ∧ length bs = n ∧ view (h_conn h') out inp ∧ hstep h h'.
Proof.
  intros Hv. destruct (on_rand_ignoring_ok n (h_sys h)) as (bs & s' & Hr & Hl & Hle).
  exists bs. eexists. split_and!; [unfold h_rand_ignoring, on_hsys, zoom; by rewrite Hr|done..].
Qed.

Lemma h_rand_run n h out inp :
  view (h_conn h) out inp → (n <= length (flatten (s_rand (h_sys h))))%nat →
  ∃ bs h', h_rand n h = (Ok bs, h') ∧ length bs = n ∧ view (h_conn h') out inp ∧ hstep h h'.
Proof.
  intros Hv Hn. destruct (ReadFull_ok n _ Hn) as (r' & Hr & _).
  eexists. eexists. split_and!;
    [unfold h_rand, on_hsys, zoom, rand_Read; by rewrite (on_rand_eq _ _ _ _ Hr)|by apply length_take_le|done..].
Qed.

Lemma write_run b h out inp :
  view (h_conn h) out inp →
  ∃ h', on_conn (conn_Write b) h = (Ok tt, h') ∧ view (h_conn h') (out ++ b) inp ∧ hquiet h h'.
Proof.
  intros (Hc & Hw & Ho & Hi). unfold on_conn, zoom. rewrite conn_Write_ok by done.
  eexists. split; [done|]. split; [|done]. unfold view. cbn. by rewrite Ho.
Qed.

Lemma ignore_write_run b h out inp :
  view (h_conn h) out inp →
  ∃ h', ignore (on_conn (conn_Write b)) h = (Ok tt, h') ∧ view (h_conn h') (out ++ b) inp ∧ hquiet h h'.
Proof.
  intros Hv. destruct (write_run b h out inp Hv) as (h' & H1 & H2). exists h'.
  split; [|done]. unfold ignore, try, bind. by rewrite H1.
Qed.

Lemma read_run k h out bs rest :
  view (h_conn h) out (bs ++ rest) → k = length bs →
  ∃ h', on_conn (conn_ReadFull k) h = (Ok bs, h') ∧ view (h_conn h') out rest ∧ hquiet h h'.
Proof.
  intros (Hc & Hw & Ho & Hi) Hk.
  destruct (conn_ReadFull_app k _ _ _ Hc Hi Hk) as (r' & Hr & Hfl & _).
  unfold on_conn, zoom. rewrite Hr. eexists. split; [done|]. done.
Qed.

Lemma unread_run b h out inp :
  view (h_conn h) out inp → view (unread b (h_conn h)) out (b ++ inp).
Proof. intros (Hc & Hw & Ho & Hi). unfold view. cbn. by rewrite <- Hi. Qed.
End runs.

(** Turn quiet steps into steps and chain them. *)
Ltac hgo := first
  [ eassumption | reflexivity
  | match goal with H : hstep ?a ?b |- hstep ?a ?c => transitivity b; [exact H|]; hgo end ].
Ltac hchain := repeat match goal with H : hquiet _ _ |- _ => destruct H as [H _] end; hgo.

Lemma auth_request_bytes psk nonce bucket :
  length nonce = 16%nat →
  blit 17 (computeToken psk nonce bucket) (blit 1 nonce (blit 0 [ProtocolVersion] (replicate AuthRequestSize x00)))
    = ProtocolVersion :: nonce ++ computeToken psk nonce bucket.
Proof.
  intros Hn. pose proof (length_hmac_sha256 psk (str "daxson-v1:" ++ hex_encode nonce ++ str ":" ++ bucket)) as Ht.
  fold (computeToken psk nonce bucket) in Ht. unfold AuthRequestSize.
  change (replicate 49 x00) with ([] ++ replicate 49 x00). by blit_fields.
Qed.

Lemma auth_response_bytes s sid :
  length sid = 16%nat → blit 1 sid (blit 0 [s] (replicate AuthResponseSize x00)) = s :: sid.
Proof. apply response_Marshal_bytes. Qed.

Lemma length_computeToken psk nonce bucket : length (computeToken psk nonce bucket) = 32%nat.
Proof. apply length_hmac_sha256. Qed.

Lemma writeFailResponse_run h out inp :
  view (h_conn h) out inp →
  ∃ rnd h', writeFailResponse h = (Ok tt, h') ∧ length rnd = 16%nat ∧
    view (h_conn h') (out ++ AuthStatusFail :: rnd) inp ∧ hstep h h'.
Proof.
  intros Hv. destruct (h_rand_ignoring_run 16 h out inp Hv) as (rnd & h1 & E1 & Hl & V1 & S1).
  unfold writeFailResponse. erewrite bind_Ok by exact E1. rewrite auth_response_bytes by done.
  destruct (ignore_write_run (AuthStatusFail :: rnd) h1 out inp V1) as (h2 & E2 & V2 & [S2 _]).
  exists rnd, h2. split_and!; [done|done|done|by etrans].
Qed.

(** The verdict of the pre-shared-key handshake on a request at a time. *)
Definition hmac_valid (hs : Handshaker) (nonce token : bytes) (now : Z) : bool :=
  bool_decide (token = computeToken (hs_psk hs) nonce (timeBucket now)) ||
  bool_decide (token = computeToken (hs_psk hs) nonce (timeBucket (now + -30 * second))).

Lemma ServerHandshake_run hs h out nonce token rest :
  view (h_conn h) out (ProtocolVersion :: nonce ++ token ++ rest) →
  length nonce = 16%nat → length token = 32%nat → (16 <= length (flatten (s_rand (h_sys h))))%nat →
  ∃ now r sid h', now ∈ clock_readings (s_clock (h_sys h)) ∧
    ServerHandshake hs h = (r, h') ∧ length sid = 16%nat ∧ hstep h h' ∧
    if hmac_valid hs nonce token now
    then r = Ok sid ∧ view (h_conn h') (out ++ Frame.AuthStatusOK :: sid) rest
    else r = Err errAuthFailed ∧ view (h_conn h') (out ++ AuthStatusFail :: sid) rest.
Proof.
  intros Hv Hn Ht Hr.
  destruct (read_run 49 h out (ProtocolVersion :: nonce ++ token) rest) as (h1 & E1 & V1 & Q1).
  { by rewrite <- app_comm_cons, <- app_assoc. }
  { cbn [length]. rewrite length_app. lia. }
  unfold ServerHandshake. erewrite bind_Ok by (apply wrap_Ok; exact E1).
  set (req := ProtocolVersion :: nonce ++ token).
  assert (Hl : length req = 49%nat) by (cbn [length req]; rewrite length_app; lia).
  rewrite (index_Ok req 0) by (unfold len; lia). erewrite bind_Ok by done. cbn [Z.to_nat nth req].
  rewrite bool_decide_false by (by intros []).
  rewrite (slice_nat req 1 17 ltac:(lia) : slice req 1 17 = _), (slice_nat req 17 49 ltac:(lia) : slice req 17 49 = _).
  assert (Hs1 : take (17 - 1) (drop 1 req) = nonce) by (apply take_app_exact; lia).
  assert (Hs2 : take (49 - 17) (drop 17 req) = token).
  { unfold req. change (drop 17 (?a :: ?l)) with (drop 16 l).
    rewrite drop_app_exact by done. apply take_ge. lia. }
  rewrite Hs1, Hs2. erewrite bind_Ok by done. erewrite bind_Ok by done.
  destruct (h_now_run h1 _ _ V1) as (now & h2 & E2 & Hin & V2 & Q2). exists now.
  erewrite bind_Ok by exact E2. fold (hmac_valid hs nonce token now).
  assert (Hin' : now ∈ clock_readings (s_clock (h_sys h))) by (eapply hstep_readings; [apply Q1|done]).
  destruct (hmac_valid hs nonce token now); cbn [negb].
  - destruct (h_rand_run 16 h2 _ _ V2) as (sid & h3 & E3 & Hl3 & V3 & S3).
    { destruct Q1 as [_ Q1], Q2 as [_ Q2]. by rewrite Q2, Q1. }
    erewrite bind_Ok by (unfold try; rewrite E3; done). cbn iota. rewrite auth_response_bytes by done.
    destruct (write_run (Frame.AuthStatusOK :: sid) h3 _ _ V3) as (h4 & E4 & V4 & Q4).
    erewrite bind_Ok by (apply wrap_Ok; exact E4).
    exists (Ok sid), sid, h4. split_and!; try done. hchain.
  - destruct (writeFailResponse_run h2 _ _ V2) as (rnd & h3 & E3 & Hl3 & V3 & S3).
    erewrite bind_Ok by exact E3. exists (Err errAuthFailed), rnd, h3. split_and!; try done. hchain.
Qed.

Lemma ClientHandshake_run hs s reg :
  (16 <= length (flatten (s_rand s)))%nat →
  ∃ nonce t, length nonce = 16%nat ∧ t ∈ clock_readings (s_clock s) ∧
  ∀ c out status sid rest, view c out (status :: sid ++ rest) → length sid = 16%nat →
  ∃ h', ClientHandshake hs (Host c s reg) =
      (if bool_decide (status ≠ Frame.AuthStatusOK) then Err errAuthFailed else Ok sid, h') ∧
    view (h_conn h') (out ++ ProtocolVersion :: nonce ++ computeToken (hs_psk hs) nonce (timeBucket t)) rest ∧
    hstep (Host c s reg) h'.
Proof.
  intros Hr. destruct (on_rand_ok 16 s Hr) as (nonce & s1 & E1 & Hn & S1).
  destruct (on_clock_reading s1) as (t & s2 & E2 & Hin & S2 & _).
  exists nonce, t. split; [done|]. split; [by apply S1|]. intros c out status sid rest Hv Hsid.
  unfold ClientHandshake.
  assert (E1' : h_rand 16 (Host c s reg) = (Ok nonce, Host c s1 reg)) by (by apply on_hsys_eq).
  erewrite bind_Ok by (apply wrap_Ok; exact E1').
  assert (E2' : h_now (Host c s1 reg) = (Ok t, Host c s2 reg)) by (by apply on_hsys_eq).
  erewrite bind_Ok by exact E2'. rewrite auth_request_bytes by done.
  destruct (write_run (ProtocolVersion :: nonce ++ computeToken (hs_psk hs) nonce (timeBucket t))
    (Host c s2 reg) _ _ Hv) as (h3 & E3 & V3 & Q3).
  erewrite bind_Ok by (apply wrap_Ok; exact E3).
  destruct (read_run 17 h3 _ (status :: sid) rest V3) as (h4 & E4 & V4 & Q4); [cbn; lia|].
  erewrite bind_Ok by (apply wrap_Ok; exact E4).
  assert (Hl : length (status :: sid) = 17%nat) by (cbn; lia).
  rewrite (index_Ok _ 0) by (unfold len; lia). erewrite bind_Ok by done.
  change (nth (Z.to_nat 0) (status :: sid) x00) with status. exists h4.
  assert (Hs : hstep (Host c s reg) h4).
  { transitivity (Host c s2 reg); [|hchain]. split; [|done]. by transitivity s1. }
  split; [|done]. case_bool_decide; [done|].
  rewrite (slice_nat (status :: sid) 1 17 ltac:(lia) : slice (status :: sid) 1 17 = _). erewrite bind_Ok by done.
  change (drop 1 (status :: sid)) with sid. rewrite take_ge by (rewrite Hsid; done).
  by rewrite to_array_exact.
Qed.

Section dispatch.
Context `{Ed25519} `{JSON storeData}.

(** What [ServerDispatch] does once it has the version byte. *)
Definition dispatch_on (hs : Handshaker) (v : byte) (reg : option Registry) : M host ServerAuthResult :=
  if bool_decide (v = ProtocolVersion) then
    modify (λ h, h_put_conn (unread [v] (h_conn h)) h) ;;;
    sid <- ServerHandshake hs ;; ret (mkAuthResult sid None "hmac")
  else if bool_decide (v = MsgTypeDeviceAuth) then
    match reg with
    | None => writeDeviceAuthFail AuthStatusRejected ;;; fail errAuthFailed
    | Some _ => deviceServerHandshake [v]
    end
  else if bool_decide (v = MsgTypeBootstrap) then
    match reg with
    | None => writeBootstrapFail BootstrapStatusInvalidToken ;;; fail errAuthFailed
    | Some _ => bootstrapServerHandshake [v]
    end
  else fail errAuthFailed.

Lemma ServerDispatch_run hs h out v inp :
  view (h_conn h) out (v :: inp) →
  ∃ h1, ServerDispatch hs h = dispatch_on hs v (h_reg h) h1 ∧ view (h_conn h1) out inp ∧ hquiet h h1.
Proof.
  intros Hv. unfold ServerDispatch.
  destruct (deadline_in_run put_rdl 15 h _ _ (view_put_rdl _ _) Hv) as (h1 & E1 & V1 & Q1).
  erewrite bind_Ok by exact E1.
  destruct (read_run 1 h1 _ [v] inp V1 eq_refl) as (h2 & E2 & V2 & Q2).
  erewrite bind_Ok by (apply wrap_Ok; exact E2).
  destruct (deadline_clear_run put_rdl h2 _ _ (view_put_rdl _ _) V2) as (h3 & E3 & V3 & Q3).
  erewrite bind_Ok by exact E3.
  rewrite (index_Ok [v] 0) by (unfold len; cbn; lia). erewrite bind_Ok by done.
  change (nth (Z.to_nat 0) [v] x00) with v. erewrite bind_Ok by done. exists h3. assert (Hq : hquiet h h3) by (do 2 (etrans; [eassumption|]); done).
  destruct Hq as [[Hle Hreg] Hrand]. split; [|done]. by rewrite Hreg.
Qed.

(** C24. Pre-shared-key authentication.  On a request with version byte 1 the
    server's verdict is that the token is the HMAC of the nonce under its key
    for the bucket of the clock or of 30 seconds earlier.  If so it answers OK with
    a fresh 16-byte session ID and returns that ID; if not it answers 0xFF with 16
    random bytes and reports an authentication failure.  Either way it has
    consumed the 49 bytes of the request and left the registry alone. *)
Theorem hmac_decision hs h out nonce token rest :
  view (h_conn h) out (ProtocolVersion :: nonce ++ token ++ rest) →
  length nonce = 16%nat → length token = 32%nat → (16 <= length (flatten (s_rand (h_sys h))))%nat →
  ∃ now sid r h', now ∈ clock_readings (s_clock (h_sys h)) ∧ length sid = 16%nat ∧
    ServerDispatch hs h = (r, h') ∧ h_reg h' = h_reg h ∧
    if hmac_valid hs nonce token now
    then r = Ok (mkAuthResult sid None "hmac") ∧ view (h_conn h') (out ++ Frame.AuthStatusOK :: sid) rest
    else r = Err errAuthFailed ∧ view (h_conn h') (out ++ AuthStatusFail :: sid) rest.
Proof.
  intros Hv Hn Ht Hr. destruct (ServerDispatch_run hs h _ _ _ Hv) as (h1 & -> & V1 & [S1 R1]).
  unfold dispatch_on. rewrite bool_decide_true by done. erewrite bind_Ok by done.
  destruct (ServerHandshake_run hs (h_put_conn (unread [ProtocolVersion] (h_conn h1)) h1) out nonce token rest)
    as (now & r & sid & h2 & Hin & E2 & Hl & S2 & Hcase); try done.
  { exact (unread_run [ProtocolVersion] h1 _ _ V1). } { cbn. by rewrite R1. }
  assert (Hin' : now ∈ clock_readings (s_clock (h_sys h))) by (by apply S1).
  assert (Hreg : h_reg h2 = h_reg h) by (destruct S2 as [_ ->]; apply S1).
  exists now, sid. destruct (hmac_valid hs nonce token now); destruct Hcase as [-> V2].
  - exists (Ok (mkAuthResult sid None "hmac")), h2. split_and!; try done. by erewrite bind_Ok by exact E2.
  - exists (Err errAuthFailed), h2. split_and!; try done. by erewrite bind_Err by exact E2.
Qed.
End dispatch.

(** ** Exchanges

    A client and a server talk over one connection when each has read what the
    other has written. *)
Definition exchange {A B} (client : M host A) (server : M host B) (hc hs : host)
    (a : result A) (b : result B) (hc' hs' : host) : Prop :=
  ∃ req resp,
    client (h_put_conn (conn_of resp) hc) = (a, hc') ∧ c_out (h_conn hc') = req ∧
    server (h_put_conn (conn_of req) hs) = (b, hs') ∧ c_out (h_conn hs') = resp.

Definition bucket (t : Z) : Z := Z.quot (unix t) 30.

Lemma bucket_earlier t : 30 * second <= t → bucket (t + -30 * second) = bucket t - 1.
Proof.
  intros Ht. unfold bucket, unix, second in *.
  replace (t + -30 * 1000000000) with (t + (-30) * 1000000000) by lia. rewrite Z.div_add by lia.
  assert (30 <= t / 1000000000) by (apply Z.div_le_lower_bound; lia).
  rewrite !Z.quot_div_nonneg by lia. Z.to_euclidean_division_equations; lia.
Qed.

(** Pre-shared-key login, end to end.  A client and a server that were given
    the same key, with randomness to draw from and the server's bucket equal to
    the client's or the next one: there is an exchange over one connection in
    which both succeed, and both hold the same 16-byte session ID. *)
Lemma hmac_exchange `{Ed25519} `{JSON storeData} psk hc hs :
  (16 <= length (flatten (s_rand (h_sys hc))))%nat →
  (16 <= length (flatten (s_rand (h_sys hs))))%nat →
  (∀ tc ts, tc ∈ clock_readings (s_clock (h_sys hc)) → ts ∈ clock_readings (s_clock (h_sys hs)) →
     30 * second <= ts ∧ bucket tc <= bucket ts <= bucket tc + 1) →
  ∃ sid hc' hs', length sid = 16%nat ∧
    exchange (ClientHandshake (New psk)) (ServerDispatch (New psk)) hc hs
      (Ok sid) (Ok (mkAuthResult sid None "hmac")) hc' hs'.
Proof.
  intros Hrc Hrs Hclk.
  destruct (ClientHandshake_run (New psk) (h_sys hc) (h_reg hc) Hrc) as (nonce & tc & Hn & Htc & Hclient).
  set (token := computeToken (hs_psk (New psk)) nonce (timeBucket tc)) in *.
  set (req := ProtocolVersion :: nonce ++ token ++ []).
  destruct (ServerDispatch_run (New psk) (h_put_conn (conn_of req) hs) [] ProtocolVersion (nonce ++ token ++ []))
    as (h1 & E1 & V1 & [S1 R1]); [apply view_conn_of|].
  unfold dispatch_on in E1. rewrite bool_decide_true in E1 by done. erewrite bind_Ok in E1 by done.
  destruct (ServerHandshake_run (New psk) (h_put_conn (unread [ProtocolVersion] (h_conn h1)) h1) [] nonce token [])
    as (ts & r & sid & h2 & Hin & E2 & Hl & S2 & Hcase);
    [exact (unread_run [ProtocolVersion] h1 _ _ V1)|exact Hn|apply length_computeToken|cbn; by rewrite R1|].
  assert (Hts : ts ∈ clock_readings (s_clock (h_sys hs))) by (by apply S1).
  destruct (Hclk tc ts Htc Hts) as [Hpos Hb].
  assert (Hvalid : hmac_valid (New psk) nonce token ts = true).
  { unfold hmac_valid, token, timeBucket. fold (bucket tc) (bucket ts) (bucket (ts + -30 * second)).
    rewrite bucket_earlier by done. apply orb_true_iff.
    destruct (Z.eq_dec (bucket ts) (bucket tc)) as [->|Hne]; [left|right]; apply bool_decide_eq_true; [done|].
    by replace (bucket ts - 1) with (bucket tc) by lia. }
  rewrite Hvalid in Hcase. destruct Hcase as [-> V2].
  destruct (Hclient (conn_of (Frame.AuthStatusOK :: sid)) [] Frame.AuthStatusOK sid []) as (hc' & Ec & Vc & _).
  { rewrite app_nil_r. apply view_conn_of. } { done. }
  exists sid, hc', h2. split; [done|]. exists req, (Frame.AuthStatusOK :: sid). split_and!.
  - rewrite bool_decide_false in Ec by (by intros []). exact Ec.
  - destruct Vc as (_ & _ & -> & _). cbn. unfold req, token. by rewrite app_nil_r.
  - rewrite E1. by erewrite bind_Ok by exact E2.
  - by destruct V2 as (_ & _ & -> & _).
Qed.

(** ** Device authentication *)

Definition device_status (pub : bytes) (d : storeData) : byte :=
  match find_device pub d with
  | None => AuthStatusUnknown
  | Some (_, v) => if dev_Revoked v then AuthStatusRevoked else Wire.AuthStatusOK
  end.

Section device_runs.
Context `{Ed25519} `{JSON storeData}.

Definition bucket_ok (req : DeviceAuthRequest) (t : Z) : bool :=
  negb ((da_TimeBucket req <? u64 (bucket64 t - 1)) || (da_TimeBucket req >? u64 (bucket64 t + 1))).
Definition sig_ok (req : DeviceAuthRequest) : bool :=
  match Verify (da_PubKey req) (auth_msg (da_PubKey req) (da_Nonce req) (da_TimeBucket req)) (da_Sig req) with
  | Ok b => b | _ => false
  end.

Lemma authorize_run pub h reg out inp :
  view (h_conn h) out inp → h_reg h = Some reg →
  ∃ reg' h', on_registry (AuthorizeDevice pub) h = (Ok (device_status pub (r_data reg)), h') ∧
    view (h_conn h') out inp ∧ h_reg h' = Some reg' ∧ data_step (r_data reg) (OpAuthorize pub) (r_data reg').
Proof.
  intros Hv Hreg. unfold on_registry, device_status. rewrite Hreg.
  pose proof (AuthorizeDevice_run pub (RState reg (h_sys h))) as Hr. unfold data in Hr. cbn [rs_reg r_data] in Hr.
  destruct (find_device pub (r_data reg)) as [[i v]|] eqn:Hf;
    [destruct (dev_Revoked v) eqn:Hrev; [|destruct Hr as (t & s' & Hr)]|]; rewrite Hr;
    do 2 eexists; (split; [reflexivity|]); (split; [exact Hv|]); (split; [reflexivity|]); try constructor.
  cbn. by eapply step_seen.
Qed.

Lemma writeDeviceAuthFail_run status h out inp :
  view (h_conn h) out inp →
  ∃ sid h', writeDeviceAuthFail status h = (Ok tt, h') ∧ length sid = 16%nat ∧
    view (h_conn h') (out ++ status :: sid) inp ∧ hstep h h'.
Proof.
  intros Hv. destruct (h_rand_ignoring_run 16 h _ _ Hv) as (sid & h1 & E1 & Hl & V1 & S1).
  unfold writeDeviceAuthFail. erewrite bind_Ok by exact E1.
  destruct (deadline_in_run put_wdl 5 h1 _ _ (view_put_wdl _ _) V1) as (h2 & E2 & V2 & Q2).
  erewrite bind_Ok by exact E2. unfold DeviceAuthResponse_Marshal, DeviceAuthResponseSize.
  cbn [dr_SessionID dr_Status]. rewrite response_Marshal_bytes by done.
  destruct (ignore_write_run (status :: sid) h2 _ _ V2) as (h3 & E3 & V3 & Q3).
  exists sid, h3. split_and!; [done|done|done|hchain].
Qed.

(** The server's last step: the response, then the verdict. *)
Lemma deviceServerHandshake_run h reg out b rest :
  view (h_conn h) out (b ++ rest) → h_reg h = Some reg → length b = 120%nat →
  ∃ req now sid reg' h', UnmarshalDeviceAuthRequest (MsgTypeDeviceAuth :: b) = Ok req ∧
    now ∈ clock_readings (s_clock (h_sys h)) ∧ length sid = 16%nat ∧ h_reg h' = Some reg' ∧
    if bucket_ok req now && sig_ok req then
      let status := device_status (da_PubKey req) (r_data reg) in
      data_step (r_data reg) (OpAuthorize (da_PubKey req)) (r_data reg') ∧
      view (h_conn h') (out ++ status :: sid) rest ∧
      deviceServerHandshake [MsgTypeDeviceAuth] h =
        (if bool_decide (status ≠ Wire.AuthStatusOK) then Err errAuthFailed
         else Ok (mkAuthResult sid (Some (da_PubKey req)) "device"), h')
    else
      reg' = reg ∧ view (h_conn h') (out ++ AuthStatusRejected :: sid) rest ∧
      ∃ msg, deviceServerHandshake [MsgTypeDeviceAuth] h = (Err (ErrNew msg []), h').
Proof.
  intros Hv Hreg Hb.
  destruct (msg_total (A := DeviceAuthRequest) (MsgTypeDeviceAuth :: b)) as [req Hreq]; [cbn; by rewrite Hb|].
  change (UnmarshalDeviceAuthRequest (MsgTypeDeviceAuth :: b) = Ok req) in Hreq.
  unfold deviceServerHandshake.
  destruct (deadline_in_run put_rdl 10 h _ _ (view_put_rdl _ _) Hv) as (h1 & E1 & V1 & Q1).
  erewrite bind_Ok by exact E1.
  destruct (read_run 120 h1 _ b rest V1 (eq_sym Hb)) as (h2 & E2 & V2 & Q2).
  erewrite bind_Ok by (apply wrap_Ok; exact E2).
  destruct (deadline_clear_run put_rdl h2 _ _ (view_put_rdl _ _) V2) as (h3 & E3 & V3 & Q3).
  erewrite bind_Ok by exact E3. cbn [app]. rewrite Hreq. erewrite bind_Ok by done.
  destruct (h_now_run h3 _ _ V3) as (now & h4 & E4 & Hin & V4 & Q4). erewrite bind_Ok by exact E4.
  assert (S4 : hstep h h4) by hchain.
  assert (Hin' : now ∈ clock_readings (s_clock (h_sys h))).
  { eapply (hstep_readings h h3); [|done]. hchain. }
  exists req, now. unfold bucket_ok. cbv zeta.
  destruct (_ || _); cbn [negb andb].
  { destruct (writeDeviceAuthFail_run AuthStatusRejected h4 _ _ V4) as (sid & h5 & E5 & Hl & V5 & S5).
    erewrite bind_Ok by exact E5. exists sid, reg, h5. split_and!; try done.
    - destruct S5 as [_ ->]. by destruct S4 as [_ ->].
    - by eexists. }
  unfold sig_ok. destruct (Verify_not_panic (da_PubKey req) (auth_msg (da_PubKey req) (da_Nonce req)
    (da_TimeBucket req)) (da_Sig req)) as [ok Hok]. rewrite Hok. erewrite bind_Ok by done.
  destruct ok; cbn [negb].
  2:{ destruct (writeDeviceAuthFail_run AuthStatusRejected h4 _ _ V4) as (sid & h5 & E5 & Hl & V5 & S5).
    erewrite bind_Ok by exact E5. exists sid, reg, h5. split_and!; try done.
    - destruct S5 as [_ ->]. by destruct S4 as [_ ->].
    - by eexists. }
  destruct (authorize_run (da_PubKey req) h4 reg _ _ V4) as (reg' & h5 & E5 & V5 & R5 & D5).
  { by destruct S4 as [_ ->]. }
  erewrite bind_Ok by exact E5.
  destruct (h_rand_ignoring_run 16 h5 _ _ V5) as (sid & h6 & E6 & Hl & V6 & S6). erewrite bind_Ok by exact E6.
  destruct (deadline_in_run put_wdl 5 h6 _ _ (view_put_wdl _ _) V6) as (h7 & E7 & V7 & Q7).
  erewrite bind_Ok by exact E7. unfold DeviceAuthResponse_Marshal, DeviceAuthResponseSize.
  cbn [dr_SessionID dr_Status]. rewrite response_Marshal_bytes by done.
  destruct (ignore_write_run (device_status (da_PubKey req) (r_data reg) :: sid) h7 _ _ V7) as (h8 & E8 & V8 & Q8).
  erewrite bind_Ok by exact E8.
  destruct (deadline_clear_run put_wdl h8 _ _ (view_put_wdl _ _) V8) as (h9 & E9 & V9 & Q9).
  erewrite bind_Ok by exact E9. exists sid, reg', h9.
  assert (S9 : hstep h5 h9) by (etrans; [exact S6|hchain]).
  split_and!; try done.
  - destruct S9 as [_ ->]. done.
  - by case_bool_decide.
Qed.

(** For clocks past 1970 the test is a window of one bucket on either side. *)
Definition sane (t : Z) : Prop := 0 < bucket t < 2 ^ 63.

Lemma bucket_ok_window req now :
  sane now → 0 <= da_TimeBucket req < 2 ^ 64 →
  bucket_ok req now = bool_decide (bucket now - 1 <= da_TimeBucket req <= bucket now + 1).
Proof.
  intros Hs Hr. unfold bucket_ok, bucket64, u64. fold (bucket now). unfold sane in Hs.
  rewrite (Z.mod_small (bucket now)), !Z.mod_small by (rewrite ?Z.mod_small; lia).
  rewrite Z.gtb_ltb. case_bool_decide.
  - destruct (Z.ltb_spec (da_TimeBucket req) (bucket now - 1)), (Z.ltb_spec (bucket now + 1) (da_TimeBucket req)); lia || done.
  - destruct (Z.ltb_spec (da_TimeBucket req) (bucket now - 1)), (Z.ltb_spec (bucket now + 1) (da_TimeBucket req)); lia || done.
Qed.

(** C5. Device authentication.  On a complete request with version byte 2 the
    server's verdict is exactly: the request's time bucket is within one of the
    clock's (for clocks past 1970), the signature verifies over key, nonce and bucket, and the
    registry knows the key and has not revoked it.  Only then does the call
    return a result, with that key, and the session ID it sent after the OK
    status; every other verdict sends its own status with 16 random bytes and is
    an error, an authentication failure when the registry refused.  The registry is
    only consulted after the first two tests and keeps all it had but a time of
    last contact. *)
Theorem device_auth_decision hs h reg out b rest :
  view (h_conn h) out (MsgTypeDeviceAuth :: b ++ rest) → h_reg h = Some reg → length b = 120%nat →
  ∃ req now sid reg' r h', UnmarshalDeviceAuthRequest (MsgTypeDeviceAuth :: b) = Ok req ∧
    now ∈ clock_readings (s_clock (h_sys h)) ∧ length sid = 16%nat ∧
    ServerDispatch hs h = (r, h') ∧ h_reg h' = Some reg' ∧
    (sane now → bucket_ok req now = bool_decide (bucket now - 1 <= da_TimeBucket req <= bucket now + 1)) ∧
    if bucket_ok req now && sig_ok req then
      let status := device_status (da_PubKey req) (r_data reg) in
      data_step (r_data reg) (OpAuthorize (da_PubKey req)) (r_data reg') ∧
      view (h_conn h') (out ++ status :: sid) rest ∧
      r = if bool_decide (status = Wire.AuthStatusOK)
          then Ok (mkAuthResult sid (Some (da_PubKey req)) "device") else Err errAuthFailed
    else reg' = reg ∧ view (h_conn h') (out ++ AuthStatusRejected :: sid) rest ∧ ∃ msg, r = Err (ErrNew msg []).
Proof.
  intros Hv Hreg Hb. destruct (ServerDispatch_run hs h _ _ _ Hv) as (h1 & -> & V1 & [S1 R1]).
  assert (Hreg1 : h_reg h1 = Some reg) by (destruct S1 as [_ ->]; done).
  destruct (deviceServerHandshake_run h1 reg _ b rest V1 Hreg1 Hb)
    as (req & now & sid & reg' & h' & Hreq & Hin & Hl & Hr' & Hcase).
  assert (Hin' : now ∈ clock_readings (s_clock (h_sys h))) by (by eapply hstep_readings).
  assert (Hwf : DeviceAuthRequest_wf req).
  { assert (Hlen : length (MsgTypeDeviceAuth :: b) = 121%nat) by (cbn; lia).
    exact (proj1 (proj1 (msg_decode (A := DeviceAuthRequest) _ req Hlen) Hreq)). }
  assert (Hwin := λ Hs, bucket_ok_window req now Hs (proj1 (proj2 (proj2 Hwf)))).
  unfold dispatch_on. rewrite bool_decide_false by done. rewrite bool_decide_true by done. rewrite Hreg.
  exists req, now, sid, reg'.
  destruct (bucket_ok req now && sig_ok req).
  - destruct Hcase as (Hd & V & Hrun). do 2 eexists. do 3 (split; [done|]). split; [exact Hrun|].
    do 3 (split; [done|]). split; [done|]. by repeat case_bool_decide.
  - destruct Hcase as (-> & V & msg & Hrun). do 2 eexists. do 3 (split; [done|]). split; [exact Hrun|].
    do 2 (split; [done|]). split_and!; [done|done|by eexists].
Qed.

(** The client's side when the server accepts. *)
Lemma DeviceAuth_Handshake_run kp s reg :
  kp_wf kp →
  ∃ req t, DeviceAuthRequest_wf req ∧ da_Version req = MsgTypeDeviceAuth ∧ da_PubKey req = kp_PublicKey kp ∧
    sig_ok req = true ∧ t ∈ clock_readings (s_clock s) ∧ da_TimeBucket req = bucket64 t ∧
  ∀ c out sid rest, view c out (Wire.AuthStatusOK :: sid ++ rest) → length sid = 16%nat →
  ∃ h', DeviceAuth_Handshake kp (Host c s reg) = (Ok sid, h') ∧
    view (h_conn h') (out ++ DeviceAuthRequest_Marshal req) rest.
Proof.
  intros Hkp. destruct (kp_wf_length kp Hkp) as [Hpub _].
  destruct (on_clock_reading s) as (t & s1 & E1 & Hin & _ & _).
  destruct (on_rand_ignoring_ok 16 s1) as (nonce & s2 & E2 & Hn & _).
  destruct (Sign_Verify kp (auth_msg (to_array 32 (kp_PublicKey kp)) nonce (bucket64 t)) Hkp) as (sg & Esg & Hsg & Hver).
  exists (mkDAReq MsgTypeDeviceAuth (to_array 32 (kp_PublicKey kp)) nonce (bucket64 t) (to_array 64 sg)), t.
  rewrite (to_array_exact 32 (kp_PublicKey kp)) in * by done.
  split_and!; try done.
  - unfold DeviceAuthRequest_wf. cbn [da_PubKey da_Nonce da_TimeBucket da_Sig].
    split_and!; [done|done| | |by rewrite length_to_array]; apply Z.mod_pos_bound; done.
  - unfold sig_ok. cbn [da_PubKey da_Nonce da_TimeBucket da_Sig]. by rewrite to_array_exact, Hver.
  - intros c out sid rest Hv Hsid. unfold DeviceAuth_Handshake.
    assert (E1' : h_now (Host c s reg) = (Ok t, Host c s1 reg)) by (by apply on_hsys_eq).
    erewrite bind_Ok by exact E1'.
    assert (E2' : h_rand_ignoring 16 (Host c s1 reg) = (Ok nonce, Host c s2 reg)) by (by apply on_hsys_eq).
    erewrite bind_Ok by exact E2'. cbv zeta. rewrite (to_array_exact 32 (kp_PublicKey kp)) by done.
    rewrite Esg. erewrite bind_Ok by done.
    destruct (deadline_in_run put_wdl 10 (Host c s2 reg) _ _ (view_put_wdl _ _) Hv) as (h3 & E3 & V3 & _).
    erewrite bind_Ok by exact E3.
    match goal with |- context [conn_Write ?b] => destruct (write_run b h3 _ _ V3) as (h4 & E4 & V4 & _) end.
    erewrite bind_Ok by (apply wrap_Ok; exact E4).
    destruct (deadline_in_run put_rdl 10 h4 _ _ (view_put_rdl _ _) V4) as (h5 & E5 & V5 & _).
    erewrite bind_Ok by exact E5.
    destruct (read_run 17 h5 _ (Wire.AuthStatusOK :: sid) rest V5) as (h6 & E6 & V6 & _); [cbn; lia|].
    erewrite bind_Ok by (apply wrap_Ok; exact E6).
    destruct (deadline_clear_run put_dl h6 _ _ (view_put_dl _ _) V6) as (h7 & E7 & V7 & _).
    erewrite bind_Ok by exact E7.
    rewrite (DeviceAuthResponse_decode _ _ Hsid). erewrite bind_Ok by done. by exists h7.
Qed.

(** The two runs fit together. *)
Lemma device_exchange hs0 kp hc hs reg :
  kp_wf kp → h_reg hs = Some reg → device_status (kp_PublicKey kp) (r_data reg) = Wire.AuthStatusOK →
  (∀ tc ts, tc ∈ clock_readings (s_clock (h_sys hc)) → ts ∈ clock_readings (s_clock (h_sys hs)) →
     sane tc ∧ sane ts ∧ bucket ts - 1 <= bucket tc <= bucket ts + 1) →
  ∃ sid hc' hs', length sid = 16%nat ∧
    exchange (DeviceAuth_Handshake kp) (ServerDispatch hs0) hc hs
      (Ok sid) (Ok (mkAuthResult sid (Some (kp_PublicKey kp)) "device")) hc' hs'.
Proof.
  intros Hkp Hreg Hst Hclk.
  destruct (DeviceAuth_Handshake_run kp (h_sys hc) (h_reg hc) Hkp)
    as (req & tc & Hwf & Hver & Hpub & Hsig & Htc & Htb & Hclient).
  pose proof (DeviceAuthRequest_Marshal_bytes req Hwf) as Hm. rewrite Hver in Hm.
  set (b := da_PubKey req ++ da_Nonce req ++ be_put 8 (da_TimeBucket req) ++ da_Sig req) in *.
  assert (Hb : length b = 120%nat).
  { pose proof (msg_length (A := DeviceAuthRequest) req Hwf) as Hlen. change (length (DeviceAuthRequest_Marshal req) = 121%nat) in Hlen.
    rewrite Hm in Hlen. cbn in Hlen. lia. }
  destruct (ServerDispatch_run hs0 (h_put_conn (conn_of (DeviceAuthRequest_Marshal req)) hs) [] MsgTypeDeviceAuth b)
    as (h1 & E1 & V1 & [S1 R1]); [rewrite Hm; apply view_conn_of|].
  assert (Hreg1 : h_reg h1 = Some reg) by (destruct S1 as [_ ->]; done).
  unfold dispatch_on in E1. rewrite bool_decide_false in E1 by done. rewrite bool_decide_true in E1 by done.
  rewrite <- (app_nil_r b) in V1. cbn [h_reg h_put_conn] in E1. rewrite Hreg in E1.
  destruct (deviceServerHandshake_run h1 reg _ b [] V1 Hreg1 Hb)
    as (req' & ts & sid & reg' & h2 & Hreq & Hts & Hl & Hr' & Hcase).
  assert (req' = req) as ->.
  { pose proof (msg_roundtrip req Hwf) as Hrt. change (UnmarshalDeviceAuthRequest (DeviceAuthRequest_Marshal req) = Ok req) in Hrt.
    rewrite Hm in Hrt. congruence. }
  assert (Hts' : ts ∈ clock_readings (s_clock (h_sys hs))) by (by apply S1).
  destruct (Hclk tc ts Htc Hts') as (Hs1 & Hs2 & Hb12).
  assert (Htb' : da_TimeBucket req = bucket tc).
  { rewrite Htb. unfold bucket64, u64. fold (bucket tc). apply Z.mod_small. unfold sane in *. lia. }
  rewrite bucket_ok_window, bool_decide_true, Hsig in Hcase; [|lia|done|unfold sane in *; lia].
  cbn [andb] in Hcase. cbv zeta in Hcase. rewrite Hpub, Hst in Hcase. destruct Hcase as (_ & V2 & E2).
  rewrite bool_decide_false in E2 by (by intros []).
  destruct (Hclient (conn_of (Wire.AuthStatusOK :: sid)) [] sid []) as (hc' & Ec & Vc).
  { rewrite app_nil_r. apply view_conn_of. } { done. }
  exists sid, hc', h2. split; [done|]. exists (DeviceAuthRequest_Marshal req), (Wire.AuthStatusOK :: sid). split_and!.
  - exact Ec.
  - by destruct Vc as (_ & _ & -> & _).
  - by rewrite E1.
  - by destruct V2 as (_ & _ & -> & _).
Qed.
(** C19. Device login, end to end.  A device with a generated key pair that the
    server's registry holds unrevoked, and clocks at most one 30-second bucket
    apart in either direction: there is an exchange in which both sides succeed
    with the same session ID, the server with this device's key. *)
Theorem device_end_to_end hs0 kp hc hs reg :
  kp_wf kp → h_reg hs = Some reg → device_status (kp_PublicKey kp) (r_data reg) = Wire.AuthStatusOK →
  (∀ tc ts, tc ∈ clock_readings (s_clock (h_sys hc)) → ts ∈ clock_readings (s_clock (h_sys hs)) →
     sane tc ∧ sane ts ∧ bucket ts - 1 <= bucket tc <= bucket ts + 1) →
  ∃ sid hc' hs', length sid = 16%nat ∧
    exchange (DeviceAuth_Handshake kp) (ServerDispatch hs0) hc hs
      (Ok sid) (Ok (mkAuthResult sid (Some (kp_PublicKey kp)) "device")) hc' hs'.
Proof. apply device_exchange. Qed.
End device_runs.

(** ** Bootstrap *)

Lemma nullTrim_app lb n : nullTrimBytes (lb ++ replicate n x00) = nullTrimBytes lb.
Proof.
  induction lb as [|c lb IH]; cbn; [|by rewrite IH].
  by destruct n.
Qed.

Lemma nullTrim_to_array lb :
  (length lb <= 64)%nat → nullTrimBytes (to_array 64 lb) = nullTrimBytes lb.
Proof.
  intros Hl. unfold to_array.
  change (replicate 64 x00) with ([] ++ replicate 64 x00).
  rewrite blit_frontier by (rewrite ?length_replicate; cbn [length]; lia). cbn [app].
  rewrite drop_replicate. apply nullTrim_app.
Qed.

Section bootstrap_runs.
Context `{Ed25519} `{JSON storeData}.

(** The status the invites demand at a time. *)
Definition bootstrap_status (now : Z) (token : bytes) (d : storeData) : byte :=
  match find_invite token d with
  | None => BootstrapStatusInvalidToken
  | Some (_, v) =>
      if negb (inv_ExpiresAt v =? 0) && (inv_ExpiresAt v <? unix now) then BootstrapStatusExpired
      else if max_uses v <=? inv_Uses v then BootstrapStatusUsed else BootstrapStatusOK
  end.

(** What a bootstrap does to the registry: nothing unless the status is OK, and
    then the new device is there whether or not the file could be written, which
    it is if the file system works and JSON can represent the store. *)
Definition bootstrap_effect (now : Z) (token pub label : bytes) (reg reg' : Registry) (saved : option error)
    (s s' : sys) : Prop :=
  if bool_decide (bootstrap_status now token (r_data reg) = BootstrapStatusOK) then
    (∃ i v t, find_invite token (r_data reg) = Some (i, v) ∧ t ∈ clock_readings (s_clock s) ∧
      r_data reg' = mkStore (st_Devices (r_data reg) ++ [new_device pub label t])
                            (alter inv_use i (st_Invites (r_data reg)))) ∧
    r_path reg' = r_path reg ∧
    (no_faults s → json_valid (r_data reg') → saved = None ∧ no_faults s' ∧ on_disk reg' (s_fs s'))
  else reg' = reg ∧ saved = None.

Lemma bootstrap_effect_le now token pub label reg reg' saved s0 s s' s2 :
  sys_le s0 s → s_fs s2 = s_fs s' →
  bootstrap_effect now token pub label reg reg' saved s s' → bootstrap_effect now token pub label reg reg' saved s0 s2.
Proof.
  intros [Hc Hf] Hf2. unfold bootstrap_effect, no_faults. rewrite Hf2, Hf. case_bool_decide; [|done].
  intros ((i & v & t & E1 & E2 & E3) & E4). split; [|exact E4]. exists i, v, t. split_and!; try done. by apply Hc.
Qed.

Lemma Bootstrap_status_run token pub label st :
  ∃ now saved st', now ∈ clock_readings (s_clock (rs_sys st)) ∧
    Bootstrap token pub label st = (Ok (bootstrap_status now token (data st), saved), st') ∧
    bootstrap_effect now token pub label (rs_reg st) (rs_reg st') saved (rs_sys st) (rs_sys st').
Proof.
  pose proof (Bootstrap_run token pub label st) as Hr. unfold bootstrap_effect, bootstrap_status.
  fold (data st). destruct (find_invite token (data st)) as [[i v]|].
  2:{ destruct (time_Now_reading (s_clock (rs_sys st))) as (t & c' & _ & Hin & _).
      exists t, None, st. rewrite bool_decide_false by done. done. }
  destruct Hr as (b & s1 & He & Hr).
  assert (Hb : ∃ now, now ∈ clock_readings (s_clock (rs_sys st)) ∧
    b = negb (inv_ExpiresAt v =? 0) && (inv_ExpiresAt v <? unix now) ∧ sys_le (rs_sys st) s1).
  { unfold IsExpired in He. destruct (time_Now_reading (s_clock (rs_sys st))) as (t & c' & Ht & Hin & Hle).
    exists t. split; [done|]. destruct (inv_ExpiresAt v =? 0); [by injection He as <- <-|].
    erewrite bind_Ok in He by (apply on_clock_eq; exact Ht). by injection He as <- <-. }
  destruct Hb as (now & Hin & Hb & [Hck Hfs]). exists now. rewrite <- Hb. destruct b.
  { exists None. eexists. split; [done|]. split; [exact Hr|]. rewrite bool_decide_false by done. done. }
  destruct (max_uses v <=? inv_Uses v).
  { exists None. eexists. split; [done|]. split; [exact Hr|]. rewrite bool_decide_false by done. done. }
  destruct Hr as (t & s2 & r & s3 & Ht & Hsv & Hp & Hr). rewrite bool_decide_true by done.
  exists (match r with Err e => Some (ErrWrap "registry: save after bootstrap" e) | _ => None end).
  eexists. split; [done|]. split; [rewrite Hr; by destruct r|].
  destruct (on_clock_reading s1) as (t' & s2' & Ec & Ht' & [_ E2] & _). rewrite Ec in Ht. injection Ht as -> ->.
  split; [exists i, v, t; split_and!; [done|by apply Hck|done]|]. split; [done|].
  cbv zeta in Hsv. cbn [rs_reg rs_sys r_path] in Hsv |- *. intros Hn Hv.
  match type of Hsv with save ?x = _ => destruct (save_on_disk x) as (f & Es & Hf & Hd & _) end; [|exact Hv|].
  { unfold no_faults. cbn [rs_sys]. by rewrite E2, Hfs. }
  rewrite Es in Hsv. injection Hsv as <- <-. by split_and!.
Qed.

Lemma bootstrap_registry_run token pub label h reg out inp :
  view (h_conn h) out inp → h_reg h = Some reg →
  ∃ now saved reg' h', now ∈ clock_readings (s_clock (h_sys h)) ∧
    on_registry (Bootstrap token pub label) h = (Ok (bootstrap_status now token (r_data reg), saved), h') ∧
    view (h_conn h') out inp ∧ h_reg h' = Some reg' ∧
    bootstrap_effect now token pub label reg reg' saved (h_sys h) (h_sys h').
Proof.
  intros Hv Hreg. unfold on_registry. rewrite Hreg.
  destruct (Bootstrap_status_run token pub label (RState reg (h_sys h))) as (now & saved & st' & Hin & Hr & He).
  rewrite Hr. exists now, saved. do 2 eexists. by split_and!.
Qed.

Lemma bootstrapServerHandshake_run h reg out b rest :
  view (h_conn h) out (b ++ rest) → h_reg h = Some reg → length b = 144%nat →
  ∃ req now saved sid reg' h', UnmarshalBootstrapRequest (MsgTypeBootstrap :: b) = Ok req ∧
    now ∈ clock_readings (s_clock (h_sys h)) ∧ length sid = 16%nat ∧ h_reg h' = Some reg' ∧
    let status := bootstrap_status now (br_Token req) (r_data reg) in
    bootstrap_effect now (br_Token req) (br_DevicePub req) (nullTrimBytes (br_Label req)) reg reg' saved
      (h_sys h) (h_sys h') ∧
    view (h_conn h') (out ++ status :: sid) rest ∧
    bootstrapServerHandshake [MsgTypeBootstrap] h =
      (match saved with
       | Some e => Err (ErrWrap "bootstrap server" e)
       | None => if bool_decide (status = BootstrapStatusOK)
                 then Ok (mkAuthResult sid (Some (br_DevicePub req)) "bootstrap") else Err errAuthFailed
       end, h').
Proof.
  intros Hv Hreg Hb.
  destruct (msg_total (A := BootstrapRequest) (MsgTypeBootstrap :: b)) as [req Hreq]; [cbn; by rewrite Hb|].
  change (UnmarshalBootstrapRequest (MsgTypeBootstrap :: b) = Ok req) in Hreq.
  unfold bootstrapServerHandshake.
  destruct (deadline_in_run put_rdl 15 h _ _ (view_put_rdl _ _) Hv) as (h1 & E1 & V1 & Q1).
  erewrite bind_Ok by exact E1.
  destruct (read_run 144 h1 _ b rest V1 (eq_sym Hb)) as (h2 & E2 & V2 & Q2).
  erewrite bind_Ok by (apply wrap_Ok; exact E2).
  destruct (deadline_clear_run put_rdl h2 _ _ (view_put_rdl _ _) V2) as (h3 & E3 & V3 & Q3).
  erewrite bind_Ok by exact E3. cbn [app]. rewrite Hreq. erewrite bind_Ok by done. cbv zeta.
  assert (S3 : hstep h h3) by hchain.
  destruct (bootstrap_registry_run (br_Token req) (br_DevicePub req) (nullTrimBytes (br_Label req)) h3 reg _ _ V3)
    as (now & saved & reg' & h4 & Hin & E4 & V4 & R4 & Heff); [by destruct S3 as [_ ->]|].
  erewrite bind_Ok by exact E4. cbn [fst snd].
  destruct (h_rand_ignoring_run 16 h4 _ _ V4) as (sid & h5 & E5 & Hl & V5 & S5). erewrite bind_Ok by exact E5.
  destruct (deadline_in_run put_wdl 5 h5 _ _ (view_put_wdl _ _) V5) as (h6 & E6 & V6 & Q6).
  erewrite bind_Ok by exact E6. unfold BootstrapResponse_Marshal, BootstrapResponseSize.
  cbn [bs_SessionID bs_Status]. rewrite response_Marshal_bytes by done.
  destruct (ignore_write_run (bootstrap_status now (br_Token req) (r_data reg) :: sid) h6 _ _ V6) as (h7 & E7 & V7 & Q7).
  erewrite bind_Ok by exact E7.
  destruct (deadline_clear_run put_wdl h7 _ _ (view_put_wdl _ _) V7) as (h8 & E8 & V8 & Q8).
  erewrite bind_Ok by exact E8. exists req, now, saved, sid, reg', h8.
  assert (S8 : hstep h4 h8) by (etrans; [exact S5|hchain]).
  assert (Hin' : now ∈ clock_readings (s_clock (h_sys h))) by (by eapply hstep_readings).
  eapply (bootstrap_effect_le _ _ _ _ _ _ _ (h_sys h) _ _ (h_sys h8)) in Heff; [|apply S3|apply S8].
  split_and!; try done.
  - destruct S8 as [_ ->]. done.
  - destruct saved; [done|]. by repeat case_bool_decide.
Qed.

(** C7. Bootstrap on the wire.  On a complete request with version byte 3 the
    client is sent the status the invite store demands (unknown token, expired,
    used up, or OK) and 16 bytes; when it is not OK the registry is untouched and
    the call is an authentication failure.  When it is OK the device is
    registered in memory with its NUL-trimmed label, and the call returns the
    device's key, or the save error when the file could not be written: in that
    case too the client has been told OK. *)
Theorem bootstrap_decision hs h reg out b rest :
  view (h_conn h) out (MsgTypeBootstrap :: b ++ rest) → h_reg h = Some reg → length b = 144%nat →
  ∃ req now saved sid reg' r h', UnmarshalBootstrapRequest (MsgTypeBootstrap :: b) = Ok req ∧
    now ∈ clock_readings (s_clock (h_sys h)) ∧ length sid = 16%nat ∧
    ServerDispatch hs h = (r, h') ∧ h_reg h' = Some reg' ∧
    let status := bootstrap_status now (br_Token req) (r_data reg) in
    view (h_conn h') (out ++ status :: sid) rest ∧
    if bool_decide (status = BootstrapStatusOK) then
      (∃ i v t, find_invite (br_Token req) (r_data reg) = Some (i, v) ∧
         r_data reg' = mkStore
           (st_Devices (r_data reg) ++ [new_device (br_DevicePub req) (nullTrimBytes (br_Label req)) t])
           (alter inv_use i (st_Invites (r_data reg)))) ∧
      r = match saved with
          | None => Ok (mkAuthResult sid (Some (br_DevicePub req)) "bootstrap")
          | Some e => Err (ErrWrap "bootstrap server" e)
          end
    else reg' = reg ∧ r = Err errAuthFailed.
Proof.
  intros Hv Hreg Hb. destruct (ServerDispatch_run hs h _ _ _ Hv) as (h1 & -> & V1 & [S1 R1]).
  assert (Hreg1 : h_reg h1 = Some reg) by (destruct S1 as [_ ->]; done).
  destruct (bootstrapServerHandshake_run h1 reg _ b rest V1 Hreg1 Hb)
    as (req & now & saved & sid & reg' & h' & Hreq & Hin & Hl & Hr' & Heff & V & Hrun).
  assert (Hin' : now ∈ clock_readings (s_clock (h_sys h))) by (by eapply hstep_readings).
  unfold dispatch_on. do 2 rewrite bool_decide_false by done. rewrite bool_decide_true by done. rewrite Hreg.
  exists req, now, saved, sid, reg'. do 2 eexists. do 3 (split; [done|]). split; [exact Hrun|].
  split; [done|]. split; [done|]. unfold bootstrap_effect in Heff.
  case_bool_decide as Hst; [|by destruct Heff as [-> ->]].
  destruct Heff as ((i & v & t & Hfi & _ & Hd) & _). split; [by exists i, v, t|done].
Qed.

(** The client's side when the server answers OK. *)
Lemma BootstrapClient_run token kp label s reg :
  length token = 32%nat → length (kp_PublicKey kp) = 32%nat →
  ∃ req, BootstrapRequest_wf req ∧ br_Version req = MsgTypeBootstrap ∧ br_Token req = token ∧
    br_DevicePub req = kp_PublicKey kp ∧ nullTrimBytes (br_Label req) = nullTrimBytes (take 64 label) ∧
  ∀ c out sid rest, view c out (BootstrapStatusOK :: sid ++ rest) → length sid = 16%nat →
  ∃ h', BootstrapClient token kp label (Host c s reg) = (Ok sid, h') ∧
    view (h_conn h') (out ++ BootstrapRequest_Marshal req) rest ∧ hstep (Host c s reg) h'.
Proof.
  intros Htok Hpub. destruct (on_rand_ignoring_ok 16 s) as (nonce & s1 & E1 & Hn & Hle).
  assert (Hlb : (if (64 <? length label)%nat then take 64 label else label) = take 64 label).
  { destruct (Nat.ltb_spec 64 (length label)); [done|]. by rewrite take_ge. }
  exists (mkBReq MsgTypeBootstrap token (kp_PublicKey kp) (to_array 64 (take 64 label)) nonce).
  split_and!; try done.
  - unfold BootstrapRequest_wf. cbn [br_Token br_DevicePub br_Label br_Nonce]. by rewrite length_to_array.
  - cbn [br_Label]. apply nullTrim_to_array. rewrite length_take. lia.
  - intros c out sid rest Hv Hsid. unfold BootstrapClient. cbv zeta. rewrite Hlb.
    assert (E1' : h_rand_ignoring 16 (Host c s reg) = (Ok nonce, Host c s1 reg)) by (by apply on_hsys_eq).
    erewrite bind_Ok by exact E1'. rewrite (to_array_exact 32 token), (to_array_exact 32 (kp_PublicKey kp)) by done.
    destruct (deadline_in_run put_wdl 15 (Host c s1 reg) _ _ (view_put_wdl _ _) Hv) as (h3 & E3 & V3 & Q3).
    erewrite bind_Ok by exact E3.
    match goal with |- context [conn_Write ?b] => destruct (write_run b h3 _ _ V3) as (h4 & E4 & V4 & Q4) end.
    erewrite bind_Ok by (apply wrap_Ok; exact E4).
    destruct (deadline_in_run put_rdl 15 h4 _ _ (view_put_rdl _ _) V4) as (h5 & E5 & V5 & Q5).
    erewrite bind_Ok by exact E5.
    destruct (read_run 17 h5 _ (BootstrapStatusOK :: sid) rest V5) as (h6 & E6 & V6 & Q6); [cbn; lia|].
    erewrite bind_Ok by (apply wrap_Ok; exact E6).
    destruct (deadline_clear_run put_dl h6 _ _ (view_put_dl _ _) V6) as (h7 & E7 & V7 & Q7).
    erewrite bind_Ok by exact E7. rewrite (BootstrapResponse_decode _ _ Hsid). erewrite bind_Ok by done.
    exists h7. split; [done|]. split; [done|].
    assert (Q2 : hstep (Host c s reg) (Host c s1 reg)) by (by split). hchain.
Qed.

(** A device registered under a new key is in force. *)
Lemma registered_status pub label t d invites :
  find_device pub d = None →
  device_status pub (mkStore (st_Devices d ++ [new_device pub label t]) invites) = Wire.AuthStatusOK.
Proof.
  intros Hn. unfold device_status, find_device in *. cbn [st_Devices]. rewrite list_find_app_r by done.
  cbn [list_find]. by rewrite decide_True by (cbn; rewrite bytesEqual_spec; by apply bool_decide_spec).
Qed.

(** Enrolment, end to end.  A device that holds a token whose invite is
    usable (by every time the server's clock may show) and whose key the
    registry does not know yet: there is an exchange after which the client
    holds a session ID and the registry, in memory, has the device last, with
    the client's label cut to 64 bytes and at its first NUL, and would authorize
    it.  The server's call returns the same session ID unless its file could
    not be written. *)
Theorem bootstrap_end_to_end hs0 token kp label hc hs reg :
  length token = 32%nat → length (kp_PublicKey kp) = 32%nat → h_reg hs = Some reg →
  (∀ now, now ∈ clock_readings (s_clock (h_sys hs)) → bootstrap_status now token (r_data reg) = BootstrapStatusOK) →
  find_device (kp_PublicKey kp) (r_data reg) = None →
  ∃ sid r hc' hs' reg' t, length sid = 16%nat ∧
    exchange (BootstrapClient token kp label) (ServerDispatch hs0) hc hs (Ok sid) r hc' hs' ∧
    h_reg hs' = Some reg' ∧
    st_Devices (r_data reg') = st_Devices (r_data reg) ++
      [new_device (kp_PublicKey kp) (nullTrimBytes (take 64 label)) t] ∧
    device_status (kp_PublicKey kp) (r_data reg') = Wire.AuthStatusOK ∧
    (r = Ok (mkAuthResult sid (Some (kp_PublicKey kp)) "bootstrap") ∨ ∃ e, r = Err (ErrWrap "bootstrap server" e)).
Proof.
  intros Htok Hpub Hreg Hst Hnone.
  destruct (BootstrapClient_run token kp label (h_sys hc) (h_reg hc) Htok Hpub)
    as (req & Hwf & Hver & Ht & Hp & Hlb & Hclient).
  pose proof (BootstrapRequest_Marshal_bytes req Hwf) as Hm. rewrite Hver in Hm.
  set (b := br_Token req ++ br_DevicePub req ++ br_Label req ++ br_Nonce req) in *.
  assert (Hb : length b = 144%nat).
  { pose proof (msg_length (A := BootstrapRequest) req Hwf) as Hlen.
    change (length (BootstrapRequest_Marshal req) = 145%nat) in Hlen. rewrite Hm in Hlen. cbn in Hlen. lia. }
  destruct (ServerDispatch_run hs0 (h_put_conn (conn_of (BootstrapRequest_Marshal req)) hs) [] MsgTypeBootstrap b)
    as (h1 & E1 & V1 & [S1 R1]); [rewrite Hm; apply view_conn_of|].
  assert (Hreg1 : h_reg h1 = Some reg) by (destruct S1 as [_ ->]; done).
  unfold dispatch_on in E1. do 2 rewrite bool_decide_false in E1 by done. rewrite bool_decide_true in E1 by done.
  rewrite <- (app_nil_r b) in V1. cbn [h_reg h_put_conn] in E1. rewrite Hreg in E1.
  destruct (bootstrapServerHandshake_run h1 reg _ b [] V1 Hreg1 Hb)
    as (req' & now & saved & sid & reg' & h2 & Hreq & Hin & Hl & Hr' & Heff & V2 & E2).
  assert (req' = req) as ->.
  { pose proof (msg_roundtrip req Hwf) as Hrt.
    change (UnmarshalBootstrapRequest (BootstrapRequest_Marshal req) = Ok req) in Hrt.
    rewrite Hm in Hrt. congruence. }
  rewrite Ht, Hp, Hlb in *. assert (Hin' : now ∈ clock_readings (s_clock (h_sys hs))) by (by apply S1).
  rewrite (Hst now Hin') in *. unfold bootstrap_effect in Heff. rewrite (Hst now Hin'), bool_decide_true in Heff by done.
  destruct Heff as ((i & v & t & _ & _ & Hd) & _).
  destruct (Hclient (conn_of (BootstrapStatusOK :: sid)) [] sid []) as (hc' & Ec & Vc & _).
  { rewrite app_nil_r. apply view_conn_of. } { done. }
  do 2 eexists. exists hc', h2, reg', t. split; [done|]. split; [|split; [done|split; [by rewrite Hd|split]]].
  - exists (BootstrapRequest_Marshal req), (BootstrapStatusOK :: sid). split_and!.
    + exact Ec.
    + by destruct Vc as (_ & _ & -> & _).
    + by rewrite E1.
    + by destruct V2 as (_ & _ & -> & _).
  - rewrite Hd. by apply registered_status.
  - rewrite bool_decide_true by done. destruct saved; eauto.
Qed.
End bootstrap_runs.

(** ** No input makes the dispatch panic *)

Section safety.
Context `{Ed25519} `{JSON storeData}.

Definition has_reg (b : bool) (h : host) : Prop := bool_decide (is_Some (h_reg h)) = b.

(** The call neither panics nor changes whether there is a registry. *)
Definition safe {A} (b : bool) (m : M host A) (Q : A → Prop) : Prop :=
  hoare (has_reg b) m (λ a h, has_reg b h ∧ Q a) (λ _, has_reg b).

Lemma safe_bind {A B} b (m : M host A) (k : A → M host B) R Q :
  safe b m R → (∀ a, R a → safe b (k a) Q) → safe b (bind m k) Q.
Proof.
  intros Hm Hk. eapply hoare_bind; [exact Hm|]. intros a h [Hh Ha]. by apply (Hk a Ha).
Qed.
Lemma safe_ret {A} b (a : A) (Q : A → Prop) : Q a → safe b (ret a) Q.
Proof. intros Ha. by apply hoare_ret. Qed.
Lemma safe_fail {A} b e (Q : A → Prop) : safe b (fail e) Q.
Proof. by apply hoare_fail. Qed.
Lemma safe_wrap {A} b c (m : M host A) (Q : A → Prop) : safe b m Q → safe b (wrap c m) Q.
Proof. intros Hm. by apply hoare_wrap. Qed.
Lemma safe_weaken {A} b (m : M host A) (Q Q' : A → Prop) : safe b m Q → (∀ a, Q a → Q' a) → safe b m Q'.
Proof. intros Hm HQ. eapply hoare_weaken; [exact Hm|done| |done]. intros a h [??]. auto. Qed.
Lemma safe_try {A} b (m : M host A) (Q : A → Prop) :
  safe b m Q → safe b (try m) (λ r, match r with inl a => Q a | inr _ => True end).
Proof.
  intros Hm h Hh. unfold try. specialize (Hm h Hh). destruct (m h) as [[a|e|] h']; [done| |done].
  by split.
Qed.
Lemma safe_ignore {A} b (m : M host A) (Q : A → Prop) : safe b m Q → safe b (ignore m) (λ _, True).
Proof.
  intros Hm. unfold ignore. eapply safe_bind; [by apply safe_try|]. intros a _. by apply safe_ret.
Qed.
Lemma safe_lift {A} b (r : result A) (Q : A → Prop) :
  match r with Ok a => Q a | Err _ => True | Panic => False end → safe b (lift r) Q.
Proof. intros Hr. apply hoare_lift. intros h Hh. by destruct r. Qed.
Lemma safe_modify b (f : host → host) :
  (∀ h, h_reg (f h) = h_reg h) → safe b (modify f) (λ _, True).
Proof. intros Hf. apply hoare_modify. intros h Hh. unfold has_reg. by rewrite Hf. Qed.
Lemma safe_if {A} b (c : bool) (m1 m2 : M host A) Q :
  safe b m1 Q → safe b m2 Q → safe b (if c then m1 else m2) Q.
Proof. by destruct c. Qed.

Lemma safe_read b k : safe b (on_conn (conn_ReadFull k)) (λ bs, length bs = k).
Proof.
  intros h Hh. unfold on_conn, zoom, conn_ReadFull. destruct (c_closed (h_conn h)); [done|].
  unfold zoom. destruct (ReadFull_spec k (c_rd (h_conn h))) as (r' & _ & _ & _ & ->).
  destruct (Nat.leb_spec k (length (flatten (c_rd (h_conn h))))); [|done].
  split; [done|]. by apply length_take_le.
Qed.
Lemma safe_write b bs : safe b (on_conn (conn_Write bs)) (λ _, True).
Proof.
  intros h Hh. unfold on_conn, zoom, conn_Write.
  destruct (c_closed (h_conn h)); [done|]. by destruct (c_wr (h_conn h)) as [|[[n e]|] w].
Qed.
Lemma safe_now b : safe b h_now (λ _, True).
Proof.
  intros h Hh. unfold h_now, on_hsys, zoom.
  destruct (on_clock_now (h_sys h)) as (t & c' & ->). done.
Qed.
Lemma safe_rand b n : safe b (h_rand n) (λ bs, length bs = n).
Proof.
  intros h Hh. unfold h_rand, on_hsys, zoom, rand_Read.
  destruct (ReadFull_spec n (s_rand (h_sys h))) as (r' & _ & _ & _ & Hr). rewrite (on_rand_eq _ _ _ _ Hr).
  destruct (Nat.leb_spec n (length (flatten (s_rand (h_sys h))))); [|done].
  split; [done|]. by apply length_take_le.
Qed.
Lemma safe_rand_ignoring b n : safe b (h_rand_ignoring n) (λ bs, length bs = n).
Proof.
  intros h Hh. unfold h_rand_ignoring, on_hsys, zoom.
  destruct (on_rand_ignoring_ok n (h_sys h)) as (bs & s' & -> & Hl & _). done.
Qed.
Lemma safe_deadline_in b set n : safe b (deadline_in set n) (λ _, True).
Proof. eapply safe_bind; [apply safe_now|]. intros t _. by apply safe_modify. Qed.
Lemma safe_deadline_clear b set : safe b (deadline_clear set) (λ _, True).
Proof. by apply safe_modify. Qed.
Lemma safe_registry {A} (m : M rstate A) :
  (∀ st, is_panic (fst (m st)) = false) → safe true (on_registry m) (λ _, True).
Proof.
  intros Hm h Hh. unfold on_registry. unfold has_reg in *. apply bool_decide_eq_true in Hh.
  destruct (h_reg h) as [reg|]; [|by destruct Hh]. specialize (Hm (RState reg (h_sys h))).
  destruct (m (RState reg (h_sys h))) as [[a|e|] st]; [|done|done].
  split; [|done]. by apply bool_decide_eq_true.
Qed.

Lemma safe_writeFailResponse b : safe b writeFailResponse (λ _, True).
Proof.
  eapply safe_bind; [apply safe_rand_ignoring|]. intros rnd _. eapply safe_ignore, safe_write.
Qed.
Lemma safe_writeDeviceAuthFail b s : safe b (writeDeviceAuthFail s) (λ _, True).
Proof.
  eapply safe_bind; [apply safe_rand_ignoring|]. intros sid _.
  eapply safe_bind; [apply safe_deadline_in|]. intros _ _. eapply safe_ignore, safe_write.
Qed.
Lemma safe_writeBootstrapFail b s : safe b (writeBootstrapFail s) (λ _, True).
Proof.
  eapply safe_bind; [apply safe_rand_ignoring|]. intros sid _.
  eapply safe_bind; [apply safe_deadline_in|]. intros _ _. eapply safe_ignore, safe_write.
Qed.
End safety.

Create HintDb gosafe.
#[export] Hint Resolve safe_ret safe_fail safe_wrap safe_read safe_write safe_now safe_rand safe_rand_ignoring
  safe_deadline_in safe_deadline_clear safe_writeFailResponse safe_writeDeviceAuthFail
  safe_writeBootstrapFail safe_ignore safe_try safe_modify : gosafe.

(** Walk through a body: bind by bind, both sides of every test. *)
Ltac safe_step :=
  lazymatch goal with
  | |- safe _ (bind _ _) _ => eapply safe_bind; [eauto with gosafe|intros ? ?]
  | |- safe _ (if _ then _ else _) _ => apply safe_if
  | |- safe _ (fail _) _ => apply safe_fail
  | |- safe _ (ret _) _ => by apply safe_ret
  end.

Lemma safe_ClientHandshake b hs : safe b (ClientHandshake hs) (λ _, True).
Proof.
  unfold ClientHandshake. eapply safe_bind; [apply safe_wrap, safe_rand|]. intros nonce _.
  eapply safe_bind; [apply safe_now|]. intros t _.
  eapply safe_bind; [apply safe_wrap, safe_write|]. intros _ _.
  eapply safe_bind; [apply safe_wrap, safe_read|]. intros resp Hresp. unfold AuthResponseSize in Hresp.
  rewrite (index_Ok resp 0) by (unfold len; lia).
  rewrite (slice_nat resp 1 17 ltac:(lia) : slice resp 1 17 = _).
  eapply (safe_bind _ _ _ (λ _, True)); [by apply safe_lift|]. intros v _.
  apply safe_if; [by apply safe_fail|].
  eapply (safe_bind _ _ _ (λ _, True)); [by apply safe_lift|]. intros sid _. by apply safe_ret.
Qed.

Lemma safe_ServerHandshake b hs : safe b (ServerHandshake hs) (λ _, True).
Proof.
  unfold ServerHandshake. eapply safe_bind; [apply safe_wrap, safe_read|]. intros req Hreq.
  unfold AuthRequestSize in Hreq.
  rewrite (index_Ok req 0) by (unfold len; lia).
  rewrite (slice_nat req 1 17 ltac:(lia) : slice req 1 17 = _), (slice_nat req 17 49 ltac:(lia) : slice req 17 49 = _).
  eapply (safe_bind _ _ _ (λ _, True)); [by apply safe_lift|]. intros v _.
  apply safe_if; [by repeat safe_step|].
  eapply (safe_bind _ _ _ (λ _, True)); [by apply safe_lift|]. intros nonce _.
  eapply (safe_bind _ _ _ (λ _, True)); [by apply safe_lift|]. intros token _.
  safe_step. apply safe_if; [by repeat safe_step|].
  safe_step. destruct a0; by repeat safe_step.
Qed.

Section dispatch_safety.
Context `{Ed25519} `{JSON storeData}.

Lemma AuthorizeDevice_no_panic pub st : is_panic (fst (AuthorizeDevice pub st)) = false.
Proof.
  pose proof (AuthorizeDevice_run pub st) as Hr. destruct (find_device pub (data st)) as [[i v]|];
    [destruct (dev_Revoked v); [|destruct Hr as (t & s' & Hr)]|]; by rewrite Hr.
Qed.

Lemma Bootstrap_no_panic token pub label st : is_panic (fst (Bootstrap token pub label st)) = false.
Proof.
  destruct (Bootstrap_status_run token pub label st) as (now & saved & st' & _ & Hr & _). by rewrite Hr.
Qed.

(** The identity of a session is a whole key or none. *)
Definition pub_ok (a : ServerAuthResult) : Prop :=
  match ar_DevicePub a with Some pub => length pub = 32%nat | None => True end.

Lemma safe_unmarshal `{Message A} b v rem :
  length v = 1%nat → S (length rem) = msg_size (A := A) →
  safe b (lift (msg_unmarshal (v ++ rem))) (msg_wf (A := A)).
Proof.
  intros Hv Hrem. apply safe_lift.
  assert (Hl : length (v ++ rem) = msg_size (A := A)) by (rewrite length_app; lia).
  destruct (msg_total (v ++ rem) Hl) as [req Hreq]. rewrite Hreq. by apply (msg_decode _ _ Hl) in Hreq as [? _].
Qed.

Lemma safe_deviceServer v : length v = 1%nat → safe true (deviceServerHandshake v) pub_ok.
Proof.
  intros Hv. unfold deviceServerHandshake. safe_step.
  eapply safe_bind; [apply safe_wrap, safe_read|]. intros rem Hrem. safe_step.
  eapply (safe_bind _ _ _ DeviceAuthRequest_wf); [exact (safe_unmarshal (A := DeviceAuthRequest) true v rem Hv (eq_S _ _ Hrem))|].
  intros req (Hpk & _). safe_step. apply safe_if; [by repeat safe_step|].
  eapply (safe_bind _ _ _ (λ _, True)).
  { apply safe_lift. edestruct Verify_not_panic as [ok ->]. done. }
  intros ok _. apply safe_if; [by repeat safe_step|].
  eapply safe_bind; [apply safe_registry, AuthorizeDevice_no_panic|]. intros status _.
  by repeat safe_step.
Qed.

Lemma safe_bootstrapServer v : length v = 1%nat → safe true (bootstrapServerHandshake v) pub_ok.
Proof.
  intros Hv. unfold bootstrapServerHandshake. safe_step.
  eapply safe_bind; [apply safe_wrap, safe_read|]. intros rem Hrem. safe_step.
  eapply (safe_bind _ _ _ BootstrapRequest_wf); [exact (safe_unmarshal (A := BootstrapRequest) true v rem Hv (eq_S _ _ Hrem))|].
  intros req (_ & Hpk & _). cbv zeta.
  eapply safe_bind; [apply safe_registry, Bootstrap_no_panic|]. intros outcome _.
  do 4 safe_step. destruct (snd outcome); by repeat safe_step.
Qed.

Lemma safe_ServerDispatch b hs : safe b (ServerDispatch hs) pub_ok.
Proof.
  unfold ServerDispatch. safe_step.
  eapply safe_bind; [apply safe_wrap, safe_read|]. intros vb Hvb. safe_step.
  cbv beta in Hvb. rewrite (index_Ok vb 0) by (unfold len; lia).
  eapply (safe_bind _ _ _ (λ _, True)); [by apply safe_lift|]. intros v _.
  eapply (safe_bind _ _ _ (λ r, bool_decide (is_Some r) = b)).
  { by apply hoare_gets. }
  intros reg <-. apply safe_if.
  { safe_step. eapply safe_bind; [apply safe_ServerHandshake|]. intros sid _. by apply safe_ret. }
  destruct reg as [reg|].
  - rewrite bool_decide_true by done. apply safe_if; [by apply safe_deviceServer|].
    apply safe_if; [by apply safe_bootstrapServer|apply safe_fail].
  - apply safe_if; [by repeat safe_step|]. apply safe_if; by repeat safe_step.
Qed.

(** The dispatch on any input.  Whatever the peer sends, however the
    stream, the writes, the files, the clock and the random source behave, and
    with or without a registry, [ServerDispatch] does not panic.  On an open
    connection whose first byte is none of the three versions it reports an
    authentication failure having consumed that byte, written nothing and left
    the registry alone; without a registry the device and bootstrap versions
    get a refusal and the same failure. *)
Theorem ServerDispatch_total hs h :
  is_panic (fst (ServerDispatch hs h)) = false ∧
  ∀ v inp out, view (h_conn h) out (v :: inp) →
    (v ∉ [ProtocolVersion; MsgTypeDeviceAuth; MsgTypeBootstrap] →
       ∃ h', ServerDispatch hs h = (Err errAuthFailed, h') ∧ view (h_conn h') out inp ∧ h_reg h' = h_reg h) ∧
    (v = MsgTypeDeviceAuth → h_reg h = None →
       ∃ h' sid, ServerDispatch hs h = (Err errAuthFailed, h') ∧ view (h_conn h') (out ++ AuthStatusRejected :: sid) inp) ∧
    (v = MsgTypeBootstrap → h_reg h = None →
       ∃ h' sid, ServerDispatch hs h = (Err errAuthFailed, h') ∧
         view (h_conn h') (out ++ BootstrapStatusInvalidToken :: sid) inp).
Proof.
  split.
  - pose proof (safe_ServerDispatch (bool_decide (is_Some (h_reg h))) hs) as Hs.
    specialize (Hs h eq_refl). by destruct (ServerDispatch hs h) as [[a|e|] h'].
  - intros v inp out Hv. destruct (ServerDispatch_run hs h _ _ _ Hv) as (h1 & -> & V1 & [[S1 R1] _]).
    unfold dispatch_on. split_and!.
    + intros Hne. rewrite !bool_decide_false by set_solver. by exists h1.
    + intros -> ->. rewrite bool_decide_false by done. rewrite bool_decide_true by done.
      destruct (writeDeviceAuthFail_run AuthStatusRejected h1 _ _ V1) as (sid & h2 & E2 & _ & V2 & _).
      exists h2, sid. by erewrite bind_Ok by exact E2.
    + intros -> ->. do 2 rewrite bool_decide_false by done. rewrite bool_decide_true by done.
      destruct (h_rand_ignoring_run 16 h1 _ _ V1) as (sid & h2 & E2 & Hl & V2 & _).
      destruct (deadline_in_run put_wdl 5 h2 _ _ (view_put_wdl _ _) V2) as (h3 & E3 & V3 & _).
      destruct (ignore_write_run (BootstrapStatusInvalidToken :: sid) h3 _ _ V3) as (h4 & E4 & V4 & _).
      exists h4, sid. unfold writeBootstrapFail. rewrite bind_bind. erewrite bind_Ok by exact E2.
      rewrite bind_bind. erewrite bind_Ok by exact E3.
      unfold BootstrapResponse_Marshal, BootstrapResponseSize. cbn [bs_SessionID bs_Status].
      rewrite response_Marshal_bytes by done. by erewrite bind_Ok by exact E4.
Qed.
End dispatch_safety.

(** ** Witnesses *)

Definition seed0 : bytes := be_put 32 2634.
Definition kp0 : KeyPair := mkKeyPair seed0 (seed0 ++ seed0) (shortID seed0) 0.
Definition clock_at (t : Z) : clock := Clock (t * second) [].
Definition sys_at (t : Z) : sys := Sys (clock_at t) (stream (be_put 40 99) EOF) (Fs ∅ []).
Definition host_at (t : Z) (reg : option Registry) : host := Host (conn_of []) (sys_at t) reg.
(** [key2] (of [reg0]) is not known here. *)
Definition reg1 : Registry :=
  mkRegistry (str "r.json") (mkStore [new_device seed0 (str "a") 5]
    [mkInvite token0 (shortHex token0) (str "i") 3 1 0 1 false]).

Lemma kp0_wf : @kp_wf toy_Ed25519 kp0.
Proof. exists seed0. by vm_compute. Qed.

Lemma reading_at t u : u ∈ clock_readings (clock_at t) → u = t * second.
Proof. apply list_elem_of_singleton. Qed.

Lemma hmac_decision_witness :
  let h := Host (conn_of (ProtocolVersion :: replicate 16 x07 ++ replicate 32 x08 ++ [])) (sys_at 3000) None in
  ∃ r h',
    ServerDispatch (H := toy_Ed25519) (H0 := storeData_JSON) (New (str "psk")) h = (r, h') ∧ r = Err errAuthFailed.
Proof.
  intros h.
  destruct (hmac_decision (H := toy_Ed25519) (H0 := storeData_JSON) (New (str "psk")) h [] (replicate 16 x07) (replicate 32 x08) [])
    as (now & sid & r & h' & Hin & Hl & Hr & _ & Hcase); [apply view_conn_of|reflexivity|reflexivity|apply Nat.leb_le; reflexivity|].
  exists r, h'. split; [exact Hr|].
  apply reading_at in Hin as ->.
  assert (Hv : hmac_valid (New (str "psk")) (replicate 16 x07) (replicate 32 x08) (3000 * second) = false)
    by (vm_compute; reflexivity).
  rewrite Hv in Hcase. exact (proj1 Hcase).
Defined.

Lemma device_auth_decision_witness :
  ∃ r h', ServerDispatch (H := toy_Ed25519) (H0 := storeData_JSON) (New [])
    (Host (conn_of (MsgTypeDeviceAuth :: replicate 120 x00 ++ [])) (sys_at 3000) (Some reg1)) = (r, h') ∧
    h_reg h' = Some reg1.
Proof.
  destruct (device_auth_decision (H := toy_Ed25519) (H0 := storeData_JSON) (New [])
    (Host (conn_of (MsgTypeDeviceAuth :: replicate 120 x00 ++ [])) (sys_at 3000) (Some reg1)) reg1
    [] (replicate 120 x00) []) as (req & now & sid & reg' & r & h' & Hreq & Hin & _ & Hr & Hreg & _ & Hcase);
    [apply view_conn_of|reflexivity|reflexivity|].
  exists r, h'. split; [exact Hr|]. apply reading_at in Hin as ->.
  assert (Hb : bucket_ok req (3000 * second) = false).
  { assert (req = mkDAReq x02 (replicate 32 x00) (replicate 16 x00) 0 (replicate 64 x00)) as ->; [|reflexivity].
    vm_compute in Hreq. injection Hreq as <-. reflexivity. }
  rewrite Hb in Hcase. destruct Hcase as (-> & _). exact Hreg.
Defined.

Lemma device_end_to_end_witness :
  ∃ sid hc' hs', length sid = 16%nat ∧
    exchange (DeviceAuth_Handshake (H := toy_Ed25519) kp0)
      (ServerDispatch (H := toy_Ed25519) (H0 := storeData_JSON) (New []))
      (host_at 3030 None) (host_at 3000 (Some reg1))
      (Ok sid) (Ok (mkAuthResult sid (Some (kp_PublicKey kp0)) "device")) hc' hs'.
Proof.
  apply (device_end_to_end (H := toy_Ed25519) (H0 := storeData_JSON) (New []) kp0 _ _ reg1).
  - exact kp0_wf.
  - reflexivity.
  - vm_compute. reflexivity.
  - intros tc ts Htc%reading_at Hts%reading_at. subst. unfold sane. vm_compute. repeat split; discriminate.
Defined.

(** A registry whose file system refuses every write: the client is sent the OK
    status, the server's call is an error. *)
Definition sys_full : sys := Sys (clock_at 3000) (stream (be_put 40 99) EOF) (Fs ∅ [None; Some (3%nat, ErrEnv 28)]).
Definition bootstrap_bytes0 : bytes := token0 ++ key2 ++ replicate 64 x00 ++ replicate 16 x00.

Lemma bootstrap_decision_witness :
  ∃ h' sid e, ServerDispatch (H := toy_Ed25519) (H0 := storeData_JSON) (New [])
    (Host (conn_of (MsgTypeBootstrap :: bootstrap_bytes0 ++ [])) sys_full (Some reg1)) = (Err e, h') ∧
    view (h_conn h') (BootstrapStatusOK :: sid) [].
Proof.
  destruct (bootstrap_decision (H := toy_Ed25519) (H0 := storeData_JSON) (New [])
    (Host (conn_of (MsgTypeBootstrap :: bootstrap_bytes0 ++ [])) sys_full (Some reg1)) reg1
    [] bootstrap_bytes0 []) as (req & now & saved & sid & reg' & r & h' & Hreq & Hin & _ & Hr & Hreg & Hv & _);
    [apply view_conn_of|reflexivity|reflexivity|].
  assert (Hok : is_ok (fst (ServerDispatch (H := toy_Ed25519) (H0 := storeData_JSON) (New [])
    (Host (conn_of (MsgTypeBootstrap :: bootstrap_bytes0 ++ [])) sys_full (Some reg1)))) = false ∧
    is_panic (fst (ServerDispatch (H := toy_Ed25519) (H0 := storeData_JSON) (New [])
    (Host (conn_of (MsgTypeBootstrap :: bootstrap_bytes0 ++ [])) sys_full (Some reg1)))) = false)
    by (vm_compute; split; reflexivity).
  rewrite Hr in Hok. destruct r as [x|e|]; destruct Hok as [H1 H2]; [discriminate| |discriminate].
  exists h', sid, e. split; [exact Hr|].
  assert (Hs : bootstrap_status now (br_Token req) (r_data reg1) = BootstrapStatusOK).
  { apply reading_at in Hin as ->. vm_compute in Hreq. injection Hreq as <-. vm_compute. reflexivity. }
  rewrite Hs in Hv. exact Hv.
Defined.

Lemma bootstrap_end_to_end_witness :
  ∃ sid r hc' hs' reg' t, length sid = 16%nat ∧
    exchange (BootstrapClient token0 (mkKeyPair key2 (key2 ++ key2) [] 0) (str "laptop"))
      (ServerDispatch (H := toy_Ed25519) (H0 := storeData_JSON) (New []))
      (host_at 10 None) (host_at 3000 (Some reg1)) (Ok sid) r hc' hs' ∧ h_reg hs' = Some reg' ∧
    st_Devices (r_data reg') = st_Devices (r_data reg1) ++ [new_device key2 (str "laptop") t].
Proof.
  destruct (bootstrap_end_to_end (H := toy_Ed25519) (H0 := storeData_JSON) (New []) token0
    (mkKeyPair key2 (key2 ++ key2) [] 0) (str "laptop") (host_at 10 None) (host_at 3000 (Some reg1)) reg1)
    as (sid & r & hc' & hs' & reg' & t & Hl & He & Hr & Hd & _ & _).
  - reflexivity.
  - reflexivity.
  - reflexivity.
  - intros now Hin%reading_at. subst. vm_compute. reflexivity.
  - vm_compute. reflexivity.
  - exists sid, r, hc', hs', reg', t. split_and!; [exact Hl|exact He|exact Hr|exact Hd].
Defined.

Lemma ServerDispatch_total_witness :
  ∃ h', ServerDispatch (H := toy_Ed25519) (H0 := storeData_JSON) (New [])
    (Host (conn_of (str "GET / HTTP/1.1")) (sys_at 3000) None) = (Err errAuthFailed, h') ∧
    view (h_conn h') [] (str "ET / HTTP/1.1").
Proof.
  destruct (ServerDispatch_total (H := toy_Ed25519) (H0 := storeData_JSON) (New [])
    (Host (conn_of (str "GET / HTTP/1.1")) (sys_at 3000) None)) as [_ Hrest].
  destruct (Hrest x47 (str "ET / HTTP/1.1") []) as (Hun & _ & _); [apply view_conn_of|].
  destruct Hun as (h' & Hr & Hv & _).
  - by rewrite <- (bool_decide_eq_false (_ ∈ _)).
  - exists h'. split; [exact Hr|exact Hv].
Defined.

(** A client whose clock is one bucket ahead is refused: the server tries its
    own bucket and the previous one, never the next. *)
Example hmac_future_bucket_rejected :
  let client := ClientHandshake (New (str "psk")) in
  let server := ServerDispatch (H := toy_Ed25519) (H0 := storeData_JSON) (New (str "psk")) in
  let req := c_out (h_conn (snd (client (host_at 3030 None)))) in
  fst (server (h_put_conn (conn_of req) (host_at 3000 None))) = Err errAuthFailed ∧
  is_ok (fst (server (h_put_conn (conn_of req) (host_at 3060 None)))) = true.
Proof. vm_compute. split; reflexivity. Qed.
