(* ===== verification/Float.v ===== *)
(** Go's [float64] as IEEE 754 binary64 with round to nearest even, by the
    executable specification of the Standard Library (no axioms): literals,
    arithmetic, comparison and the conversions the shaping code uses. *)

From Stdlib Require Import ZArith Lia Floats.SpecFloat.
From stdpp Require Import base list.
From S2P Require Import Prelude.

Definition float64 : Type := spec_float.

Definition fadd : float64 → float64 → float64 := SFadd 53 1024.
Definition fsub : float64 → float64 → float64 := SFsub 53 1024.
Definition fmul : float64 → float64 → float64 := SFmul 53 1024.
Definition fdiv : float64 → float64 → float64 := SFdiv 53 1024.
Definition fltb : float64 → float64 → bool := SFltb.
Definition fleb : float64 → float64 → bool := SFleb.
Definition fneg : float64 → float64 := SFopp.
Definition fgtb (x y : float64) : bool := fltb y x.
Definition fgeb (x y : float64) : bool := fleb y x.

(** [float64(z)] *)
Definition float_of_Z (z : Z) : float64 :=
  match z with
  | Z0 => S754_zero false
  | Zpos p => binary_round 53 1024 false p 0
  | Zneg p => binary_round 53 1024 true p 0
  end.

(** The literal [n/d] ([0.06] is [6/100]): a correctly rounded quotient of two
    integers that are exact in binary64. *)
Definition flit (n d : Z) : float64 := fdiv (float_of_Z n) (float_of_Z d).

(** [int64(x)] for a value in range: truncation toward zero. *)
Definition Z_of_float (x : float64) : Z :=
  match x with
  | S754_finite s m e =>
      let a := if 0 <=? e then Zpos m * 2 ^ e else Z.quot (Zpos m) (2 ^ (- e)) in
      if s then - a else a
  | _ => 0
  end.

(** [math.Max] and [math.Min] of numbers. *)
Definition fmax (x y : float64) : float64 := if fltb x y then y else x.
Definition fmin (x y : float64) : float64 := if fltb y x then y else x.

(** ** Order

    On the numbers that are neither negative nor NaN, [fltb] is the strict part
    of a total order. *)
Definition fnonneg (x : float64) : bool :=
  match x with S754_zero _ | S754_finite false _ _ | S754_infinity false => true | _ => false end.

(** [x ≤ y] and not [x < u] give not [y < u]; [u] may be any float. *)
Lemma fltb_le_trans x y u :
  fnonneg x = true → fnonneg y = true →
  fltb y x = false → fltb x u = false → fltb y u = false.
Proof.
  unfold fltb, SFltb, SFcompare.
  destruct x as [[]|[]| |[] mx ex], y as [[]|[]| |[] my ey], u as [[]|[]| |[] mu eu]; try done.
  all: cbn [fnonneg]; intros _ _.
  destruct (Z.compare_spec ey ex), (Z.compare_spec ex eu), (Z.compare_spec ey eu); try done; try lia.
  all: change (Pos.compare_cont Eq ?a ?b) with (Pos.compare a b).
  all: destruct (Pos.compare_spec my mx), (Pos.compare_spec mx mu), (Pos.compare_spec my mu); try done; lia.
Qed.
