(* ===== verification/Shaping.v ===== *)
(** The statistical side of the camouflage layer: the samplers of
    [internal/bcl/math.go], the padding selector of [internal/bcl/padding.go],
    the personalities of [internal/bcl/personality.go] and the selection in
    [internal/obfs/conn.go].

    A loop that draws until it is satisfied takes a bound on its draws; [None]
    is a loop that has not returned within it. *)

From Stdlib Require Import Strings.Byte String ZArith Lia.
From stdpp Require Import base list.
From S2P Require Import Prelude Frame Float.

(** ** math/rand

    The values the global source produces, one after the other, and the
    functions of package [math] whose results the code does not depend on. *)
Record mrand := Mrand { mr_int63 : nat → Z; mr_norm : nat → float64; mr_pos : nat }.

Class GoMath := {
  math_Pow : float64 → float64 → float64;
  math_Log : float64 → float64;
  math_Exp : float64 → float64
}.

Definition mr_next {A} (f : mrand → A) : M mrand A := λ r,
  (Ok (f r), Mrand (mr_int63 r) (mr_norm r) (S (mr_pos r))).

(** [rand.Float64()]: the low 53 bits of a draw over 2^53. *)
Definition unit_float (k : Z) : float64 := fdiv (float_of_Z (k `mod` 2 ^ 53)) (float_of_Z (2 ^ 53)).
Definition rand_Float64 : M mrand float64 := mr_next (λ r, unit_float (mr_int63 r (mr_pos r))).
Definition rand_NormFloat64 : M mrand float64 := mr_next (λ r, mr_norm r (mr_pos r)).
(** [rand.Int63n(n)] panics for [n <= 0]. *)
Definition rand_Int63n (n : Z) : M mrand Z :=
  if n <=? 0 then panic else mr_next (λ r, mr_int63 r (mr_pos r) `mod` n).

(** ** math.go *)

Definition ms : Z := 1000000.
Definition us : Z := 1000.

Record ParetoParams := mkPareto { par_Alpha : float64; par_Xm : Z; par_Cap : Z }.
Record WeibullParams := mkWeibull { wei_K : float64; wei_Lambda : Z; wei_Cap : Z }.
Record LogNormalParams := mkLogNormal { lgn_Mu : float64; lgn_Sigma : float64; lgn_Min : Z; lgn_Max : Z }.

Definition f1 : float64 := float_of_Z 1.
Definition below_one (u : float64) : float64 := if fgeb u f1 then fsub f1 (flit 1 1000000000) else u.

Section samplers.
Context `{GoMath}.

Definition Pareto_Sample (p : ParetoParams) : M mrand Z :=
  u <- rand_Float64 ;;
  let u := below_one u in
  let x := fdiv (float_of_Z (par_Xm p)) (math_Pow (fsub f1 u) (fdiv f1 (par_Alpha p))) in
  if (0 <? par_Cap p) && (Z_of_float x >? par_Cap p) then ret (par_Cap p) else ret (Z_of_float x).

Definition Weibull_Sample (w : WeibullParams) : M mrand Z :=
  u <- rand_Float64 ;;
  let u := below_one u in
  let x := fmul (float_of_Z (wei_Lambda w))
             (math_Pow (fneg (math_Log (fsub f1 u))) (fdiv f1 (wei_K w))) in
  if (0 <? wei_Cap w) && (Z_of_float x >? wei_Cap w) then ret (wei_Cap w) else ret (Z_of_float x).

Definition LogNormal_Sample (l : LogNormalParams) : M mrand Z :=
  z <- rand_NormFloat64 ;;
  let logSeconds := fadd (lgn_Mu l) (fmul (lgn_Sigma l) z) in
  let seconds := math_Exp logSeconds in
  let d := Z_of_float (fmul seconds (float_of_Z 1000000000)) in
  let d := if d <? lgn_Min l then lgn_Min l else d in
  let d := if (0 <? lgn_Max l) && (d >? lgn_Max l) then lgn_Max l else d in
  ret d.

End samplers.

Definition uniformJitter (spread : Z) : M mrand Z :=
  if spread <=? 0 then ret 0 else
  v <- rand_Int63n (2 * spread) ;; ret (v - spread).

Definition clampDuration (d lo hi : Z) : Z :=
  if d <? lo then lo else if d >? hi then hi else d.

Record SizeBucket := mkBucket { sb_Size : Z; sb_Weight : float64 }.
Record SizeModel := mkSizeModel { sm_buckets : list SizeBucket; sm_cumWeights : list float64 }.

Fixpoint cum_from (running total : float64) (bs : list SizeBucket) : list float64 :=
  match bs with
  | [] => []
  | b :: bs' => let running := fadd running (fdiv (sb_Weight b) total) in
                running :: cum_from running total bs'
  end.
Definition NewSizeModel (buckets : list SizeBucket) : SizeModel :=
  let total := fold_left (λ t b, fadd t (sb_Weight b)) buckets (float_of_Z 0) in
  mkSizeModel buckets (cum_from (float_of_Z 0) total buckets).

Definition fnth (l : list float64) (i : Z) : float64 := nth (Z.to_nat i) l (float_of_Z 0).

(** The bisection loop; the fuel is the number of buckets. *)
Fixpoint bisect (fuel : nat) (cum : list float64) (u : float64) (lo hi : Z) : Z :=
  match fuel with
  | O => lo
  | S fuel' =>
      if lo <? hi then
        let mid := (lo + hi) / 2 in
        if fltb (fnth cum mid) u then bisect fuel' cum u (mid + 1) hi
        else bisect fuel' cum u lo mid
      else lo
  end.

Definition size_at (m : SizeModel) (i : Z) : result Z :=
  match sm_buckets m !! Z.to_nat i with Some b => Ok (sb_Size b) | None => Panic end.

Definition SizeModel_Sample (m : SizeModel) : M mrand Z :=
  u <- rand_Float64 ;;
  lift (size_at m (bisect (length (sm_cumWeights m)) (sm_cumWeights m) u 0 (len (sm_cumWeights m) - 1))).

(** ** padding.go *)

Record PaddingSelector := mkSelector {
  ps_sizeModel : SizeModel;
  ps_inLargeMode : bool;
  ps_modeTransitionP : float64;
  ps_zeroPadProb : float64
}.

(** The selector with the random source it draws from. *)
Record shaper := Shaper { sh_sel : PaddingSelector; sh_rand : mrand }.
Definition on_rand {A} : M mrand A → M shaper A := zoom sh_rand (λ r s, Shaper (sh_sel s) r).

Fixpoint quantile_from (i : nat) (bs : list SizeBucket) (m : SizeModel) (size : Z) : float64 :=
  match bs with
  | [] => f1
  | b :: bs' =>
      if sb_Size b >=? size
      then (if (i =? 0)%nat then float_of_Z 0 else fnth (sm_cumWeights m) (Z.of_nat i - 1))
      else quantile_from (S i) bs' m size
  end.
Definition quantile (m : SizeModel) (size : Z) : float64 := quantile_from 0 (sm_buckets m) m size.

(** [for { s := Sample(); if quantile(s) >= floor { return s } }] *)
Fixpoint draw_until (fuel : nat) (m : SizeModel) (floor : float64) : M mrand (option Z) :=
  match fuel with
  | O => ret None
  | S fuel' =>
      s <- SizeModel_Sample m ;;
      if fgeb (quantile m s) floor then ret (Some s) else draw_until fuel' m floor
  end.

Definition sampleBiased (fuel : nat) (floor : float64) : M shaper (option Z) :=
  m <- gets (λ s, ps_sizeModel (sh_sel s)) ;;
  if fleb floor (float_of_Z 0) then s <- on_rand (SizeModel_Sample m) ;; ret (Some s)
  else on_rand (draw_until fuel m floor).

Definition toggle (ps : PaddingSelector) : PaddingSelector :=
  mkSelector (ps_sizeModel ps) (negb (ps_inLargeMode ps)) (ps_modeTransitionP ps) (ps_zeroPadProb ps).

Definition large_floor : float64 := flit 6 10.

Definition sampleCorrelatedSize (fuel : nat) : M shaper (option Z) :=
  r <- on_rand rand_Float64 ;;
  p <- gets (λ s, ps_modeTransitionP (sh_sel s)) ;;
  when fltb r p do modify (λ s, Shaper (toggle (sh_sel s)) (sh_rand s)) od ;;;
  large <- gets (λ s, ps_inLargeMode (sh_sel s)) ;;
  if large : bool then sampleBiased fuel large_floor else sampleBiased fuel (float_of_Z 0).

Definition SampleApparentSize (fuel : nat) : M shaper (option Z) := sampleCorrelatedSize fuel.

Definition SelectPadding (fuel : nat) (payloadLen : Z) : M shaper (option Z) :=
  r <- on_rand rand_Float64 ;;
  p <- gets (λ s, ps_zeroPadProb (sh_sel s)) ;;
  if fltb r p then ret (Some 0) else
  target <- sampleCorrelatedSize fuel ;;
  match target with
  | None => ret None
  | Some target =>
      let gap := target - FrameHeaderSize - payloadLen in
      if gap <=? 0 then ret (Some 0) else
      let gap := if gap >? MaxPaddingSize then MaxPaddingSize else gap in
      ret (Some (gap `mod` 2 ^ 16))
  end.

(** ** personality.go *)

Record Personality := mkPersonality {
  p_Name : bytes;
  p_BurstWindow : ParetoParams;
  p_MaxBurstBytes : Z;
  p_DrainDuration : WeibullParams;
  p_ThinkTime : LogNormalParams;
  p_FrameSizeModel : SizeModel;
  p_KeepaliveIdle : Z;
  p_KeepaliveJitter : Z;
  p_CongestionThreshold : Z;
  p_UploadFraction : float64;
  p_MaxInboxBytes : Z
}.

Definition sec : Z := 1000000000.
(** A weight [0.nn]. *)
Definition w100 (size n : Z) : SizeBucket := mkBucket size (flit n 100).

Definition Browser : Personality := mkPersonality (str "browser")
  (mkPareto (flit 15 10) (1 * ms) (18 * ms)) (512 * 1024)
  (mkWeibull (flit 85 100) (80 * ms) (500 * ms))
  (mkLogNormal (flit 5 10) (flit 18 10) (200 * ms) (120 * sec))
  (NewSizeModel [w100 128 6; w100 256 8; w100 512 9; w100 1024 12; w100 2048 11; w100 4096 15;
                 w100 8192 14; w100 16384 25])
  (45 * sec) (14 * sec) (50 * ms) (flit 5 100) (4 * 1024 * 1024).

Definition GRPC : Personality := mkPersonality (str "grpc")
  (mkPareto (flit 18 10) (500 * us) (8 * ms)) (128 * 1024)
  (mkWeibull (flit 9 10) (30 * ms) (200 * ms))
  (mkLogNormal (flit (-12) 10) (flit 9 10) (50 * ms) (10 * sec))
  (NewSizeModel [w100 64 10; w100 128 15; w100 256 18; w100 512 20; w100 1024 17; w100 2048 12; w100 4096 8])
  (30 * sec) (8 * sec) (30 * ms) (flit 45 100) (2 * 1024 * 1024).

Definition VideoStream : Personality := mkPersonality (str "video")
  (mkPareto (flit 13 10) (2 * ms) (30 * ms)) (4 * 1024 * 1024)
  (mkWeibull (flit 7 10) (1 * sec) (5 * sec))
  (mkLogNormal (flit 8 10) (flit 6 10) (1 * sec) (8 * sec))
  (NewSizeModel [w100 4096 5; w100 8192 10; w100 16384 85])
  (90 * sec) (20 * sec) (100 * ms) (flit 1 100) (8 * 1024 * 1024).

Definition Mobile : Personality := mkPersonality (str "mobile")
  (mkPareto (flit 16 10) (2 * ms) (15 * ms)) (64 * 1024)
  (mkWeibull (flit 8 10) (100 * ms) (600 * ms))
  (mkLogNormal (flit 15 10) (float_of_Z 2) (500 * ms) (300 * sec))
  (NewSizeModel [w100 128 15; w100 256 20; w100 512 25; w100 1024 20; w100 2048 12; w100 4096 8])
  (60 * sec) (20 * sec) (80 * ms) (flit 15 100) (1 * 1024 * 1024).

Definition Relay : Personality := mkPersonality (str "relay")
  (mkPareto (float_of_Z 2) (500 * us) (5 * ms)) (1 * 1024 * 1024)
  (mkWeibull (float_of_Z 1) (20 * ms) (100 * ms))
  (mkLogNormal (float_of_Z (-2)) (flit 5 10) (10 * ms) (2 * sec))
  (NewSizeModel [w100 512 10; w100 1024 10; w100 2048 15; w100 4096 20; w100 8192 20; w100 16384 25])
  (60 * sec) (15 * sec) (40 * ms) (flit 40 100) (8 * 1024 * 1024).

Definition ParsePersonality (name : bytes) : result Personality :=
  if bool_decide (name = str "browser") || bool_decide (name = []) then Ok Browser
  else if bool_decide (name = str "grpc") then Ok GRPC
  else if bool_decide (name = str "video") then Ok VideoStream
  else if bool_decide (name = str "mobile") then Ok Mobile
  else if bool_decide (name = str "relay") then Ok Relay
  else Err (ErrNew "bcl: unknown personality" []).

Definition NewPaddingSelector (p : Personality) : PaddingSelector :=
  mkSelector (p_FrameSizeModel p) false (flit 15 100) (flit 20 100).

(** ** obfs/conn.go

    [Wrap] with the layer enabled runs the personality it selects; [None] is the
    connection passed through. *)
Record obfsConfig := mkObfs { ob_Enabled : bool; ob_Personality : bytes }.
Definition obfs_DefaultConfig : obfsConfig := mkObfs true (str "browser").
Definition obfs_Wrap (cfg : obfsConfig) : option Personality :=
  if negb (ob_Enabled cfg) then None else
  let name := if bool_decide (ob_Personality cfg = []) then str "browser" else ob_Personality cfg in
  match ParsePersonality name with
  | Ok p => Some p
  | _ => Some Browser
  end.

(** ** Sampling by bisection *)

(** The reference: the first bucket whose cumulative weight reaches [u], the
    last one if none does. *)
Fixpoint first_reaching (cum : list float64) (u : float64) : nat :=
  match cum with
  | [] => O
  | c :: cum' =>
      match cum' with
      | [] => O
      | _ => if fltb c u then S (first_reaching cum' u) else O
      end
  end.

(** Cumulative weights do not decrease (and are numbers). *)
Definition sorted_cum (cum : list float64) : bool :=
  forallb fnonneg cum &&
  forallb (λ i, forallb (λ j, negb (fltb (fnth cum (Z.of_nat (i + j))) (fnth cum (Z.of_nat i))))
                  (seq 0 (length cum - i))) (seq 0 (length cum)).

Definition model_ok (m : SizeModel) : bool :=
  sorted_cum (sm_cumWeights m) && (length (sm_cumWeights m) =? length (sm_buckets m))%nat &&
  (0 <? length (sm_buckets m))%nat.

Lemma sorted_cum_le cum i j u :
  sorted_cum cum = true → 0 <= i <= j → j < len cum →
  fltb (fnth cum i) u = false → fltb (fnth cum j) u = false.
Proof.
  unfold sorted_cum. intros [Hn Hs]%andb_true_iff Hij Hj Hi. rewrite !forallb_forall in *.
  assert (Hnn : ∀ k, 0 <= k < len cum → fnonneg (fnth cum k) = true).
  { intros k Hk. apply Hn. apply nth_In. unfold len in *. lia. }
  eapply fltb_le_trans; [apply (Hnn i); lia|apply Hnn; lia| |exact Hi].
  specialize (Hs (Z.to_nat i)). rewrite forallb_forall in Hs. unfold len in *.
  specialize (Hs ltac:(apply in_seq; lia) (Z.to_nat (j - i)) ltac:(apply in_seq; lia)).
  apply negb_true_iff in Hs.
  replace (Z.of_nat (Z.to_nat i + Z.to_nat (j - i))) with j in Hs by lia.
  by replace (Z.of_nat (Z.to_nat i)) with i in Hs by lia.
Qed.

(** The loop ends within its fuel at an index that splits the weights. *)
Lemma bisect_spec fuel cum u lo hi :
  sorted_cum cum = true → 0 <= lo <= hi → hi < len cum → hi - lo <= Z.of_nat fuel →
  (∀ i, 0 <= i < lo → fltb (fnth cum i) u = true) →
  (hi = len cum - 1 ∨ fltb (fnth cum hi) u = false) →
  let r := bisect fuel cum u lo hi in
  lo <= r <= hi ∧ (∀ i, 0 <= i < r → fltb (fnth cum i) u = true) ∧
  (r = len cum - 1 ∨ fltb (fnth cum r) u = false).
Proof.
  intros Hs. revert lo hi. induction fuel as [|fuel IH]; intros lo hi Hlo Hhi Hf Hbelow Htop; cbn [bisect].
  - assert (lo = hi) as -> by lia. split_and!; [lia|lia|done|done].
  - destruct (Z.ltb_spec lo hi) as [Hlt|Hge].
    2:{ assert (lo = hi) as -> by lia. split_and!; [lia|lia|done|done]. }
    assert (Hmid : lo <= (lo + hi) / 2 < hi) by (Z.to_euclidean_division_equations; lia).
    destruct (fltb (fnth cum ((lo + hi) / 2)) u) eqn:Hm.
    + destruct (IH ((lo + hi) / 2 + 1) hi) as (H1 & H2 & H3); [lia|lia|Z.to_euclidean_division_equations; lia| |done|].
      * intros i Hi. destruct (fltb (fnth cum i) u) eqn:Hiu; [done|].
        rewrite (sorted_cum_le cum i ((lo + hi) / 2) u Hs) in Hm; [done|lia|lia|done].
      * split_and!; [lia|lia|done|done].
    + destruct (IH lo ((lo + hi) / 2)) as (H1 & H2 & H3); [lia|lia|Z.to_euclidean_division_equations; lia|done|by right|].
      split_and!; [lia|lia|done|done].
Qed.

Lemma first_reaching_unique cum u r :
  (r < length cum)%nat → (∀ i, (i < r)%nat → fltb (nth i cum (float_of_Z 0)) u = true) →
  (S r = length cum ∨ fltb (nth r cum (float_of_Z 0)) u = false) → first_reaching cum u = r.
Proof.
  revert r. induction cum as [|c cum IH]; intros r Hr Hbelow Htop; [cbn in Hr; lia|].
  destruct cum as [|c' cum]; [cbn in *; lia|].
  change (first_reaching (c :: c' :: cum) u)
    with (if fltb c u then S (first_reaching (c' :: cum) u) else O).
  destruct r as [|r].
  - destruct Htop as [Htop|Htop]; [cbn in Htop; lia|]. cbn [nth] in Htop. by rewrite Htop.
  - pose proof (Hbelow O ltac:(lia)) as H0. cbn [nth] in H0. rewrite H0. f_equal. apply IH.
    + cbn [length] in *. lia.
    + intros i Hi. apply (Hbelow (S i)). lia.
    + destruct Htop as [Htop|Htop]; [left; cbn [length] in *; lia|by right].
Qed.

Lemma bisect_reference cum u :
  sorted_cum cum = true → (0 < length cum)%nat →
  bisect (length cum) cum u 0 (len cum - 1) = Z.of_nat (first_reaching cum u).
Proof.
  intros Hs Hl. destruct (bisect_spec (length cum) cum u 0 (len cum - 1)) as (H1 & H2 & H3);
    [done|unfold len; lia|lia|unfold len; lia|lia|by left|].
  set (r := bisect (length cum) cum u 0 (len cum - 1)) in *. unfold len in *.
  rewrite (first_reaching_unique cum u (Z.to_nat r)); [lia|lia| |].
  - intros i Hi. specialize (H2 (Z.of_nat i) ltac:(lia)). unfold fnth in H2. by rewrite Nat2Z.id in H2.
  - destruct H3 as [H3|H3]; [left; lia|right; exact H3].
Qed.

(** One draw and the reference bucket; no model that is [model_ok] panics. *)
Definition ref_size (m : SizeModel) (u : float64) : Z :=
  sb_Size (nth (first_reaching (sm_cumWeights m) u) (sm_buckets m) (mkBucket 0 f1)).

Lemma first_reaching_lt cum u : (0 < length cum)%nat → (first_reaching cum u < length cum)%nat.
Proof.
  induction cum as [|c [|c' cum] IH]; intros Hl; [cbn in Hl; lia|cbn; lia|].
  change (first_reaching (c :: c' :: cum) u) with (if fltb c u then S (first_reaching (c' :: cum) u) else O).
  destruct (fltb c u); cbn [length] in *; [|lia]. specialize (IH ltac:(lia)). lia.
Qed.

Lemma SizeModel_Sample_run m r :
  model_ok m = true →
  SizeModel_Sample m r =
    (Ok (ref_size m (unit_float (mr_int63 r (mr_pos r)))), Mrand (mr_int63 r) (mr_norm r) (S (mr_pos r))).
Proof.
  unfold model_ok. intros [[Hs Hl%Nat.eqb_eq]%andb_true_iff Hp%Nat.ltb_lt]%andb_true_iff.
  unfold SizeModel_Sample, rand_Float64. erewrite bind_Ok by done. unfold lift, size_at, ref_size.
  set (u := unit_float _). rewrite bisect_reference by (try done; lia). rewrite Nat2Z.id.
  assert (Hlt : (first_reaching (sm_cumWeights m) u < length (sm_buckets m))%nat)
    by (rewrite <- Hl; apply first_reaching_lt; lia).
  apply lookup_lt_is_Some in Hlt as [b Hb]. rewrite Hb. by rewrite (nth_lookup_Some _ _ _ _ Hb).
Qed.

Lemma draw_until_none fuel m floor r :
  model_ok m = true → forallb (λ b, negb (fgeb (quantile m (sb_Size b)) floor)) (sm_buckets m) = true →
  fst (draw_until fuel m floor r) = Ok None.
Proof.
  intros Hm Hq. revert r. induction fuel as [|fuel IH]; intros r; [done|]. cbn [draw_until].
  erewrite bind_Ok by (by apply SizeModel_Sample_run).
  assert (Hno : fgeb (quantile m (ref_size m (unit_float (mr_int63 r (mr_pos r))))) floor = false).
  { rewrite forallb_forall in Hq. apply negb_true_iff. unfold ref_size.
    unfold model_ok in Hm. apply andb_true_iff in Hm as [[Hs Hl%Nat.eqb_eq]%andb_true_iff Hp%Nat.ltb_lt].
    apply (Hq (nth _ _ _)). apply nth_In. rewrite <- Hl. apply first_reaching_lt. lia. }
  rewrite Hno. apply IH.
Qed.

(** ** The interface to the sender

    What the fragmenter relies on: a call leaves the source usable and returns,
    if it returns, a padding length that a frame can carry. *)
Class SizeSource (S : Type) := {
  src_apparent : M S (option Z);
  src_padding : Z → M S (option Z);
  src_wf : S → Prop;
  src_apparent_ok : hoare src_wf src_apparent (λ _, src_wf) (λ _ _, False);
  src_padding_ok n : hoare src_wf (src_padding n)
    (λ o s, src_wf s ∧ match o with Some p => 0 <= p <= MaxPaddingSize | None => True end) (λ _ _, False)
}.

Definition shaper_wf (s : shaper) : Prop := model_ok (ps_sizeModel (sh_sel s)) = true.

Lemma hoare_float : hoare shaper_wf (on_rand rand_Float64) (λ _, shaper_wf) (λ _ _, False).
Proof. intros s Hs. done. Qed.

Lemma hoare_draw_until fuel m floor :
  model_ok m = true → hoare (λ _, True) (draw_until fuel m floor) (λ _ _, True) (λ _ _, False).
Proof.
  intros Hm. induction fuel as [|fuel IH]; [by intros r _|]. cbn [draw_until]. intros r _.
  erewrite bind_Ok by (by apply SizeModel_Sample_run). destruct (fgeb _ _); [done|]. by apply IH.
Qed.

Lemma hoare_sampleCorrelated fuel :
  hoare shaper_wf (sampleCorrelatedSize fuel) (λ _, shaper_wf) (λ _ _, False).
Proof.
  unfold sampleCorrelatedSize. eapply hoare_bind; [apply hoare_float|]. intros u.
  eapply (hoare_bind _ _ _ _ (λ _, shaper_wf)); [by apply hoare_gets|]. intros p.
  eapply (hoare_bind _ _ _ _ (λ _, shaper_wf)).
  { destruct (fltb u p); [by apply hoare_modify|by apply hoare_ret]. }
  intros _. eapply (hoare_bind _ _ _ _ (λ _, shaper_wf)); [by apply hoare_gets|]. intros large.
  assert (Hb : ∀ f, hoare shaper_wf (sampleBiased fuel f) (λ _, shaper_wf) (λ _ _, False)).
  { intros f s Hs. unfold sampleBiased, bind at 1, gets. destruct (fleb f (float_of_Z 0)).
    - erewrite bind_Ok; [|unfold on_rand, zoom; by rewrite SizeModel_Sample_run]. done.
    - unfold on_rand, zoom. pose proof (hoare_draw_until fuel (ps_sizeModel (sh_sel s)) f Hs (sh_rand s) I) as Hd.
      by destruct (draw_until fuel _ f (sh_rand s)) as [[o|e|] r']. }
  destruct large; apply Hb.
Qed.

Lemma hoare_SelectPadding fuel n :
  hoare shaper_wf (SelectPadding fuel n)
    (λ o s, shaper_wf s ∧ match o with Some p => 0 <= p <= MaxPaddingSize | None => True end) (λ _ _, False).
Proof.
  unfold SelectPadding. eapply hoare_bind; [apply hoare_float|]. intros u.
  eapply (hoare_bind _ _ _ _ (λ _, shaper_wf)); [by apply hoare_gets|]. intros p.
  destruct (fltb u p); [apply hoare_ret; intros s Hs; split; [done|unfold MaxPaddingSize; lia]|].
  eapply hoare_bind; [apply hoare_sampleCorrelated|]. intros [target|]; [|by apply hoare_ret].
  unfold MaxPaddingSize. cbv zeta. destruct (Z.leb_spec (target - FrameHeaderSize - n) 0).
  - apply hoare_ret. intros s Hs. split; [done|lia].
  - rewrite Z.gtb_ltb. destruct (Z.ltb_spec 1024 (target - FrameHeaderSize - n)); apply hoare_ret;
      intros s Hs; (split; [done|]); rewrite Z.mod_small; lia.
Qed.

(** The padding selector implements the interface, for every bound on draws. *)
Definition shaper_source (fuel : nat) : SizeSource shaper := {|
  src_apparent := SampleApparentSize fuel;
  src_padding := SelectPadding fuel;
  src_wf := shaper_wf;
  src_apparent_ok := hoare_sampleCorrelated fuel;
  src_padding_ok := hoare_SelectPadding fuel
|}.

(** ** Properties *)

Definition personalities : list Personality := [Browser; GRPC; VideoStream; Mobile; Relay].

Lemma personalities_ok : Forall (λ p, model_ok (p_FrameSizeModel p) = true) personalities.
Proof. repeat constructor; vm_compute; reflexivity. Qed.

(** C40. Frame sizes.  For every personality and every state of the random
    source, one draw by bisection does not panic and gives the size of the first
    bucket whose cumulative weight (in binary64, as the program computes it)
    reaches the draw, or of the last bucket. *)
Theorem sample_is_reference :
  Forall (λ p, ∀ r, SizeModel_Sample (p_FrameSizeModel p) r =
    (Ok (ref_size (p_FrameSizeModel p) (unit_float (mr_int63 r (mr_pos r)))),
     Mrand (mr_int63 r) (mr_norm r) (S (mr_pos r)))) personalities.
Proof.
  eapply Forall_impl; [apply personalities_ok|]. intros p Hp r. by apply SizeModel_Sample_run.
Qed.

(** The rejection loop for large frames under the video model. *)
Lemma video_large_hangs fuel sel r : ps_sizeModel sel = p_FrameSizeModel VideoStream →
  fst (sampleBiased fuel large_floor (Shaper sel r)) = Ok None.
Proof.
  intros Hsel. unfold sampleBiased. erewrite bind_Ok by done. cbn [sh_sel]. rewrite Hsel.
  replace (fleb large_floor (float_of_Z 0)) with false by (by vm_compute).
  unfold on_rand, zoom. cbn [sh_rand].
  pose proof (draw_until_none fuel (p_FrameSizeModel VideoStream) large_floor r
    ltac:(by vm_compute) ltac:(by vm_compute)) as Hd.
  by destruct (draw_until fuel (p_FrameSizeModel VideoStream) large_floor r).
Qed.

(** A new selector switches to large frames at a draw below 0.15. *)
Lemma video_first_switch fuel r :
  fltb (unit_float (mr_int63 r (mr_pos r))) (flit 15 100) = true →
  fst (SampleApparentSize fuel (Shaper (NewPaddingSelector VideoStream) r)) = Ok None.
Proof.
  unfold SampleApparentSize, sampleCorrelatedSize. intros Hd. do 2 (erewrite bind_Ok by done). cbn [sh_sel sh_rand].
  change (ps_modeTransitionP _) with (flit 15 100). rewrite Hd. do 2 (erewrite bind_Ok by done). by apply video_large_hangs.
Qed.

(** C39. The video personality hangs.  No frame size of the video model has a
    quantile of 0.6 or more, so the rejection loop for large frames never
    returns, whatever the random source produces and however many draws it is
    given: from a new selector the first mode switch (a draw below 0.15) is such
    a call, and so is every later call that stays in large mode. *)
Theorem video_sampling_hangs fuel r :
  (fltb (unit_float (mr_int63 r (mr_pos r))) (flit 15 100) = true →
     fst (SampleApparentSize fuel (Shaper (NewPaddingSelector VideoStream) r)) = Ok None) ∧
  (fltb (unit_float (mr_int63 r (mr_pos r))) (flit 15 100) = false →
     fst (SampleApparentSize fuel (Shaper (toggle (NewPaddingSelector VideoStream)) r)) = Ok None).
Proof.
  split; [by apply video_first_switch|].
  unfold SampleApparentSize, sampleCorrelatedSize. intros Hd. do 2 (erewrite bind_Ok by done). cbn [sh_sel sh_rand].
  change (ps_modeTransitionP _) with (flit 15 100). rewrite Hd. do 2 (erewrite bind_Ok by done). by apply video_large_hangs.
Qed.

Lemma video_sampling_hangs_witness :
  let r := Mrand (λ _, 0) (λ _, f1) 0 in
  fst (SampleApparentSize 1000 (Shaper (NewPaddingSelector VideoStream) r)) = Ok None.
Proof.
  intros r. apply (proj1 (video_sampling_hangs 1000 r)). vm_compute. reflexivity.
Defined.

Lemma high_draw_last m u :
  model_ok m = true → 2 <= len (sm_cumWeights m) →
  fltb (fnth (sm_cumWeights m) (len (sm_cumWeights m) - 2)) u = true →
  first_reaching (sm_cumWeights m) u = (length (sm_cumWeights m) - 1)%nat.
Proof.
  unfold model_ok. intros [[Hs _]%andb_true_iff _]%andb_true_iff Hl Hu. unfold len in *.
  apply first_reaching_unique; [lia| |left; lia]. intros i Hi.
  destruct (fltb (nth i (sm_cumWeights m) (float_of_Z 0)) u) eqn:Hiu; [done|].
  rewrite (sorted_cum_le _ (Z.of_nat i) _ u Hs) in Hu; [done|unfold len; lia|unfold len; lia|].
  unfold fnth. by rewrite Nat2Z.id.
Qed.

(** The other personalities' rejection loop returns.  For the browser,
    gRPC, mobile and relay models, as soon as one of the next draws lies above
    the last but one cumulative weight, the loop for large frames has returned,
    with a size whose quantile is at least 0.6. *)
Theorem biased_sampling_returns :
  Forall (λ p, let m := p_FrameSizeModel p in ∀ r n,
    fltb (fnth (sm_cumWeights m) (len (sm_cumWeights m) - 2)) (unit_float (mr_int63 r (mr_pos r + n))) = true →
    ∃ s r', draw_until (S n) m large_floor r = (Ok (Some s), r') ∧ fgeb (quantile m s) large_floor = true)
  [Browser; GRPC; Mobile; Relay].
Proof.
  assert (Hgen : ∀ m, model_ok m = true → 2 <= len (sm_cumWeights m) →
    fgeb (quantile m (sb_Size (nth (length (sm_cumWeights m) - 1) (sm_buckets m) (mkBucket 0 f1)))) large_floor = true →
    ∀ n r, fltb (fnth (sm_cumWeights m) (len (sm_cumWeights m) - 2)) (unit_float (mr_int63 r (mr_pos r + n))) = true →
    ∃ s r', draw_until (S n) m large_floor r = (Ok (Some s), r') ∧ fgeb (quantile m s) large_floor = true).
  { intros m Hm Hl Hq n. induction n as [|n IH]; intros r Hr; cbn [draw_until];
      (erewrite bind_Ok by (by apply SizeModel_Sample_run));
      destruct (fgeb (quantile m (ref_size m _)) large_floor) eqn:Hg; try (do 2 eexists; split; [done|exact Hg]).
    - rewrite Nat.add_0_r in Hr. unfold ref_size in Hg. rewrite high_draw_last in Hg by done. congruence.
    - apply IH. cbn [mr_int63 mr_pos]. by replace (S (mr_pos r) + n)%nat with (mr_pos r + S n)%nat by lia. }
  repeat constructor; intros m r n; (apply Hgen; [by vm_compute|by vm_compute|by vm_compute]).
Qed.

(** Sanity: the quantile of the largest size of each model. *)
Example video_quantiles : map (λ s, fgeb (quantile (p_FrameSizeModel VideoStream) s) large_floor) [4096; 8192; 16384] = [false; false; false].
Proof. vm_compute. reflexivity. Qed.
Example browser_quantiles : map (λ b, fgeb (quantile (p_FrameSizeModel Browser) (sb_Size b)) large_floor) (sm_buckets (p_FrameSizeModel Browser)) = [false; false; false; false;false;false;true;true].
Proof. vm_compute. reflexivity. Qed.
Example mobile_quantiles : map (λ b, fgeb (quantile (p_FrameSizeModel Mobile) (sb_Size b)) large_floor) (sm_buckets (p_FrameSizeModel Mobile)) = [false; false; false;true;true;true].
Proof. vm_compute. reflexivity. Qed.
