(* ===== verification/Bcl.v ===== *)
(** The camouflage layer's connection, [internal/bcl/conn.go], and its pacer,
    [internal/bcl/pacing.go]: how data handed to [Write] becomes frames on the
    wire, how [Read] gives the peer's data back, and the sender goroutine's state
    machine.

    [math/rand] is one source in the program; the size sampler and the pacer
    have one each here, which covers every interleaving of their draws. *)

From Stdlib Require Import Strings.Byte String ZArith Lia.
From stdpp Require Import base list.
From S2P Require Import Prelude Encoding Io Frame Float Shaping.

(** ** pacing.go *)

Record Pacer := mkPacer {
  pc_ewmaLatencyNs : float64;
  pc_alpha : float64;
  pc_thresholdNs : float64;
  pc_rate : float64;
  pc_interFrameBase : ParetoParams
}.

Definition NewPacer (p : Personality) : Pacer := mkPacer
  (float_of_Z 1000000) (flit 25 100) (float_of_Z (p_CongestionThreshold p)) f1
  (mkPareto (flit 18 10) (300 * us) (2 * ms)).

(** [byteCount] is not used by the Go function either. *)
Definition ObserveWrite (wallTime byteCount : Z) (p : Pacer) : Pacer :=
  let ns := float_of_Z wallTime in
  let ewma := fadd (fmul (pc_alpha p) ns) (fmul (fsub f1 (pc_alpha p)) (pc_ewmaLatencyNs p)) in
  let rate :=
    if fgtb ewma (pc_thresholdNs p) then fmax (flit 1 10) (fmul (pc_rate p) (flit 5 10))
    else if fltb (pc_rate p) f1 then fmin f1 (fadd (pc_rate p) (flit 5 100))
    else pc_rate p in
  mkPacer ewma (pc_alpha p) (pc_thresholdNs p) rate (pc_interFrameBase p).

Definition IsCongested (p : Pacer) : bool := fgtb (pc_ewmaLatencyNs p) (pc_thresholdNs p).

Definition InterFrameDelay `{GoMath} (p : Pacer) : M mrand Z :=
  base <- Pareto_Sample (pc_interFrameBase p) ;;
  if fgeb (pc_rate p) f1 then ret base else
  let scale := fdiv f1 (pc_rate p) in
  ret (Z_of_float (fmul (float_of_Z base) scale)).

Definition BurstDelay (p : Pacer) : Z :=
  let congested := fgtb (pc_ewmaLatencyNs p) (pc_thresholdNs p) in
  if negb congested || fgeb (pc_rate p) f1 then 0 else
  let base := 10 * ms in
  Z_of_float (fmul (float_of_Z base) (fdiv f1 (pc_rate p))).

Inductive connState : Type := stateIdle | stateBurst | stateDrain | stateThink | stateCongested.

#[global] Instance connState_eq_dec : EqDecision connState.
Proof. solve_decision. Defined.

Definition connState_String (s : connState) : string :=
  match s with
  | stateIdle => "IDLE" | stateBurst => "BURST" | stateDrain => "DRAIN"
  | stateThink => "THINK" | stateCongested => "CONGESTED"
  end.

(** ** Helpers of conn.go *)

Definition coalesceBurst (chunks : list bytes) (totalLen : Z) : bytes :=
  match chunks with
  | [c] => c
  | _ => fold_left (λ out c, out ++ c) chunks []
  end.

(** [b[i] = byte(n*i + 17)] *)
Definition randomBytes (n : Z) : bytes :=
  map (λ i, byte_of_Z (n * Z.of_nat i + 17)) (seq 0 (Z.to_nat n)).

(** ** The write side *)

Section sender.
Context `{GoMath} {Src : Type} `{SizeSource Src}.

(** What the sender goroutine works on. *)
Record sender := Sender {
  sd_fw : Writer;
  sd_src : Src;
  sd_pacer : Pacer;
  sd_rand : mrand;
  sd_clock : clock;
  sd_lastActivityNs : Z;
  sd_pendingPingSent : Z
}.

Definition on_fw {A} : M Writer A → M sender A :=
  zoom sd_fw (λ x s, Sender x (sd_src s) (sd_pacer s) (sd_rand s) (sd_clock s) (sd_lastActivityNs s) (sd_pendingPingSent s)).
Definition on_src {A} : M Src A → M sender A :=
  zoom sd_src (λ x s, Sender (sd_fw s) x (sd_pacer s) (sd_rand s) (sd_clock s) (sd_lastActivityNs s) (sd_pendingPingSent s)).
Definition on_mrand {A} : M mrand A → M sender A :=
  zoom sd_rand (λ x s, Sender (sd_fw s) (sd_src s) (sd_pacer s) x (sd_clock s) (sd_lastActivityNs s) (sd_pendingPingSent s)).
Definition on_sclock {A} : M clock A → M sender A :=
  zoom sd_clock (λ x s, Sender (sd_fw s) (sd_src s) (sd_pacer s) (sd_rand s) x (sd_lastActivityNs s) (sd_pendingPingSent s)).
Definition pacer_update (f : Pacer → Pacer) : M sender unit :=
  modify (λ s, Sender (sd_fw s) (sd_src s) (f (sd_pacer s)) (sd_rand s) (sd_clock s) (sd_lastActivityNs s) (sd_pendingPingSent s)).
Definition set_lastActivity (t : Z) : M sender unit :=
  modify (λ s, Sender (sd_fw s) (sd_src s) (sd_pacer s) (sd_rand s) (sd_clock s) t (sd_pendingPingSent s)).
Definition set_pendingPing (t : Z) : M sender unit :=
  modify (λ s, Sender (sd_fw s) (sd_src s) (sd_pacer s) (sd_rand s) (sd_clock s) (sd_lastActivityNs s) t).

(** The payload length a sampled apparent size leaves room for. *)
Definition max_payload (apparentSize : Z) : Z :=
  let maxPayload := apparentSize - FrameHeaderSize in
  let maxPayload := if maxPayload <=? 0 then 1 else maxPayload in
  if maxPayload >? MaxPayloadSize then MaxPayloadSize else maxPayload.

(** A round of the loop in the parts between which another goroutine may run.
    First what is sampled and cut: the payload, its padding, and what remains;
    [None] when a sampling loop did not return. *)
Definition sample_fragment (remaining : bytes) : M sender (option (bytes * Z * bytes)) :=
  apparent <- on_src src_apparent ;;
  match apparent with
  | None => ret None
  | Some apparentSize =>
      let maxPayload := max_payload apparentSize in
      let payloadLen := if len remaining >? maxPayload then maxPayload else len remaining in
      let payload := take (Z.to_nat payloadLen) remaining in
      let remaining := drop (Z.to_nat payloadLen) remaining in
      pad <- on_src (src_padding payloadLen) ;;
      ret (match pad with None => None | Some padLen => Some (payload, padLen, remaining) end)
  end.

Definition data_frame (payload : bytes) (padLen : Z) : Frame := mkFrame TypeData 0 payload padLen.

(** Last, once [WriteFrame] has returned [err]: the pacer's observation of the
    write and the pause before the next frame. *)
Definition after_write (before : Z) (payload : bytes) (padLen : Z) (remaining : bytes) (err : unit + error) : M sender unit :=
  after <- on_sclock time_Now ;;
  pacer_update (ObserveWrite (after - before) (len payload + padLen + FrameHeaderSize)) ;;;
  match err with
  | inr e => fail (ErrWrap "bcl: write frame" e)
  | inl _ =>
      t <- on_sclock time_Now ;;
      set_lastActivity t ;;;
      when 0 <? len remaining do
        (pacer <- gets sd_pacer ;;
         delay <- on_mrand (InterFrameDelay pacer) ;;
         when 0 <? delay do on_sclock (time_Sleep delay) od)
      od
  end.

Definition send_fragment (payload : bytes) (padLen : Z) (remaining : bytes) : M sender unit :=
  before <- on_sclock time_Now ;;
  err <- try (on_fw (WriteFrame (data_frame payload padLen))) ;;
  after_write before payload padLen remaining err.

(** One round of the loop: what remains after it. *)
Definition fragment_round (remaining : bytes) : M sender (option bytes) :=
  s <- sample_fragment remaining ;;
  match s with
  | None => ret None
  | Some (payload, padLen, remaining) => send_fragment payload padLen remaining ;;; ret (Some remaining)
  end.

(** [for len(remaining) > 0 { ... }] *)
Fixpoint fragment_loop (fuel : nat) (remaining : bytes) : M sender (option unit) :=
  if (length remaining =? 0)%nat then ret (Some tt) else
  match fuel with
  | O => ret None
  | S fuel' =>
      r <- fragment_round remaining ;;
      match r with None => ret None | Some rest => fragment_loop fuel' rest end
  end.

(** Every frame takes at least one byte, so [len(data)] rounds are enough. *)
Definition fragmentAndSend (data : bytes) : M sender (option unit) :=
  fragment_loop (length data) data.

(** The frame of a keepalive, which always has the same payload, and of the
    answer to the peer's. *)
Definition ping_frame : Frame := mkFrame TypePing 0 (randomBytes 8) 0.
Definition pong_frame (payload : bytes) : Frame := mkFrame TypePong 0 payload 0.

Definition sendPing : M sender unit :=
  t <- on_sclock time_Now ;;
  set_pendingPing t ;;;
  on_fw (WriteFrame ping_frame).

Definition writePong (payload : bytes) : M sender unit :=
  ignore (on_fw (WriteFrame (pong_frame payload))).

Definition processPong : M sender unit :=
  sentNs <- gets sd_pendingPingSent ;;
  set_pendingPing 0 ;;;
  if sentNs =? 0 then ret tt else
  t <- on_sclock time_Now ;;
  pacer_update (ObserveWrite (t - sentNs) 0).

(** ** What is on the wire *)

(** [w] is the wire form of the frames, with some padding bytes. *)
Inductive frames_wire : list Frame → bytes → Prop :=
  | wire_nil : frames_wire [] []
  | wire_cons f pad fs w :
      frame_sendable f → len pad = f_PadLen f → frames_wire fs w →
      frames_wire (f :: fs) (frame_bytes f pad ++ w).

Lemma frames_wire_app fs1 w1 fs2 w2 :
  frames_wire fs1 w1 → frames_wire fs2 w2 → frames_wire (fs1 ++ fs2) (w1 ++ w2).
Proof.
  intros H1 H2. induction H1 as [|f pad fs w Hf Hp H1 IH]; [done|].
  cbn. rewrite <- app_assoc. by constructor.
Qed.

Lemma frames_wire_one f pad : frame_sendable f → len pad = f_PadLen f → frames_wire [f] (frame_bytes f pad).
Proof. intros Hf Hp. pose proof (wire_cons f pad [] [] Hf Hp wire_nil) as Hw. by rewrite app_nil_r in Hw. Qed.

(** The application data that frames carry. *)
Definition is_data (f : Frame) : bool := bool_decide (f_Type f = TypeData).
Definition data_of (f : Frame) : bytes := if is_data f then f_Payload f else [].
Definition data_payload (fs : list Frame) : bytes := concat (map data_of fs).

Lemma data_payload_app fs1 fs2 : data_payload (fs1 ++ fs2) = data_payload fs1 ++ data_payload fs2.
Proof. unfold data_payload. by rewrite map_app, concat_app. Qed.

(** What the sender has put on the connection since [s]. *)
Definition sent_since (s s' : sender) (fs : list Frame) : Prop :=
  ∃ w, c_out (fw_w (sd_fw s')) = c_out (fw_w (sd_fw s)) ++ w ∧ frames_wire fs w.

Lemma coalesceBurst_concat chunks n : coalesceBurst chunks n = concat chunks.
Proof.
  unfold coalesceBurst. destruct chunks as [|c [|c' chunks]]; [done|cbn; by rewrite app_nil_r|].
  assert (Hf : ∀ (l : list bytes) (acc : bytes), fold_left (λ out c : bytes, out ++ c) l acc = acc ++ concat l).
  { induction l as [|x l IH]; intros acc; cbn; [by rewrite app_nil_r|]. by rewrite IH, app_assoc. }
  apply Hf.
Qed.

Lemma max_payload_range a : 1 <= max_payload a <= MaxPayloadSize.
Proof.
  unfold max_payload, MaxPayloadSize. cbv zeta. rewrite Z.gtb_ltb.
  destruct (Z.leb_spec (a - FrameHeaderSize) 0); [cbn; lia|].
  destruct (Z.ltb_spec 65535 (a - FrameHeaderSize)); lia.
Qed.

Lemma InterFrameDelay_ok p r : ∃ d r', InterFrameDelay p r = (Ok d, r').
Proof.
  assert (Hs : ∃ d r', Pareto_Sample (pc_interFrameBase p) r = (Ok d, r')).
  { unfold Pareto_Sample. erewrite bind_Ok by done. cbv zeta. destruct (_ && _); by do 2 eexists. }
  destruct Hs as (d & r' & Hs). unfold InterFrameDelay. erewrite bind_Ok by exact Hs.
  destruct (fgeb _ _); by do 2 eexists.
Qed.

(** ** Fragmentation *)

(** A DATA frame as the fragmenter makes it. *)
Definition frag_frame (f : Frame) : Prop :=
  f_Type f = TypeData ∧ f_StreamID f = 0 ∧ f_Payload f ≠ [].

Definition sd_wf (s : sender) : Prop := src_wf (sd_src s).

Lemma on_src_eq {A} (m : M Src A) s r x :
  m (sd_src s) = (r, x) →
  on_src m s = (r, Sender (sd_fw s) x (sd_pacer s) (sd_rand s) (sd_clock s) (sd_lastActivityNs s) (sd_pendingPingSent s)).
Proof. unfold on_src, zoom. by intros ->. Qed.

Lemma on_src_hoare {A} (m : M Src A) (Q : A → Src → Prop) s :
  hoare src_wf m Q (λ _ _, False) → sd_wf s →
  ∃ a src', on_src m s = (Ok a, Sender (sd_fw s) src' (sd_pacer s) (sd_rand s) (sd_clock s)
      (sd_lastActivityNs s) (sd_pendingPingSent s)) ∧ Q a src'.
Proof.
  intros Hm Hs. unfold on_src, zoom. specialize (Hm _ Hs).
  destruct (m (sd_src s)) as [[a|e|] src']; [by exists a, src'|done|done].
Qed.

(** The clock, pacer and delay steps of a round touch neither the writer nor
    the size source. *)
Definition same_io (s s' : sender) : Prop := sd_fw s' = sd_fw s ∧ sd_src s' = sd_src s.

Lemma now_run s : ∃ t s', on_sclock time_Now s = (Ok t, s') ∧ same_io s s'.
Proof.
  unfold on_sclock, zoom. destruct (time_Now_ok (sd_clock s)) as (t & c' & ->). by do 2 eexists.
Qed.

Lemma delay_run (c : bool) s :
  ∃ s', (when c do (pacer <- gets sd_pacer ;; delay <- on_mrand (InterFrameDelay pacer) ;;
                    when 0 <? delay do on_sclock (time_Sleep delay) od) od) s = (Ok tt, s') ∧ same_io s s'.
Proof.
  destruct c; [|by exists s]. destruct (InterFrameDelay_ok (sd_pacer s) (sd_rand s)) as (d & r' & Hd).
  erewrite bind_Ok by done. erewrite bind_Ok by (unfold on_mrand, zoom; rewrite Hd; done).
  destruct (0 <? d); by eexists.
Qed.

Lemma sent_since_nil s : sent_since s s [].
Proof. exists []. rewrite app_nil_r. split; [done|constructor]. Qed.

Lemma sent_since_same s s' : sd_fw s' = sd_fw s → sent_since s s' [].
Proof. intros E. exists []. rewrite app_nil_r, E. split; [done|constructor]. Qed.

Lemma sent_since_app s1 s2 s3 fs gs : sent_since s1 s2 fs → sent_since s2 s3 gs → sent_since s1 s3 (fs ++ gs).
Proof.
  intros (w1 & H1 & F1) (w2 & H2 & F2). exists (w1 ++ w2). split; [|by apply frames_wire_app].
  by rewrite H2, H1, app_assoc.
Qed.

Lemma after_write_run before payload p rest err s :
  ∃ s', after_write before payload p rest err s =
    (match err with inl _ => Ok tt | inr e => Err (ErrWrap "bcl: write frame" e) end, s') ∧ same_io s s'.
Proof.
  unfold after_write. destruct (now_run s) as (t1 & s1 & E1 & Hfw1 & Hsrc1).
  erewrite bind_Ok by exact E1. erewrite bind_Ok by done. destruct err as [[]|e].
  2: { eexists. by split. }
  match goal with |- context [bind (on_sclock _) _ ?x] => destruct (now_run x) as (t2 & s2 & E2 & Hfw2 & Hsrc2) end.
  erewrite bind_Ok by exact E2. erewrite bind_Ok by done.
  match goal with |- context [(if ?c then _ else _) ?x] => destruct (delay_run c x) as (s3 & E3 & Hfw3 & Hsrc3) end.
  exists s3. split; [exact E3|]. cbn [sd_fw sd_src] in *. split; congruence.
Qed.

Lemma send_fragment_run payload p rest s :
  0 <= p <= MaxPaddingSize → 1 <= len payload <= MaxPayloadSize →
  match send_fragment payload p rest s with
  | (Ok _, s') => sd_src s' = sd_src s ∧ sent_since s s' [data_frame payload p] ∧
      (conn_healthy (fw_w (sd_fw s)) → conn_healthy (fw_w (sd_fw s')))
  | (Err _, s') => sd_src s' = sd_src s ∧ (∃ w, c_out (fw_w (sd_fw s')) = c_out (fw_w (sd_fw s)) ++ w) ∧
      (conn_healthy (fw_w (sd_fw s)) → conn_healthy (fw_w (sd_fw s')))
  | (Panic, _) => False
  end.
Proof.
  intros Hp Hl. unfold send_fragment. set (f := data_frame payload p).
  destruct (now_run s) as (t1 & s1 & E1 & Hfw1 & Hsrc1). erewrite bind_Ok by exact E1.
  pose proof (WriteFrame_any f (sd_fw s1) (proj1 Hp)) as Hw.
  pose proof (WriteFrame_healthy f (sd_fw s1) (proj1 Hp)) as Hh.
  unfold try at 1, on_fw at 1, zoom at 1. unfold bind at 1. rewrite Hfw1 in *.
  destruct (WriteFrame f (sd_fw s)) as [[[]|e|] fw']; [| |done];
    (match goal with |- context [after_write ?t ?b ?q ?r ?err ?x] =>
      destruct (after_write_run t b q r err x) as (s2 & -> & Hfw2 & Hsrc2) end);
    cbn [sd_fw sd_src] in *; rewrite Hfw2; (split; [congruence|]); (split; [|by intros Hc; destruct (Hh Hc)]).
  - destruct Hw as (H1 & H2 & padb & Hpb & Hout). exists (frame_bytes f padb). rewrite Hfw2. split; [done|].
    apply frames_wire_one; [|done]. unfold frame_sendable, frame_wf, MaxPayloadSize, MaxPaddingSize in *.
    cbn [f data_frame f_StreamID f_PadLen f_Payload] in *. lia.
  - exact Hw.
Qed.

(** One round on any connection: an error leaves an incomplete frame behind at
    most; otherwise one whole DATA frame with a non-empty prefix of the data. *)
Definition sd_ok (s : sender) : Prop := sd_wf s ∧ conn_healthy (fw_w (sd_fw s)).

(** Sampling neither fails nor writes; what it cuts off is a non-empty prefix of
    the data within the limits. *)
Lemma sample_fragment_run data s :
  sd_wf s → data ≠ [] →
  ∃ o s', sample_fragment data s = (Ok o, s') ∧ sd_fw s' = sd_fw s ∧ sd_wf s' ∧
    match o with
    | Some (payload, p, rest) => 0 <= p <= MaxPaddingSize ∧ 1 <= len payload <= MaxPayloadSize ∧ data = payload ++ rest
    | None => True
    end.
Proof.
  intros Hs Hne. unfold sample_fragment.
  destruct (on_src_hoare _ _ s src_apparent_ok Hs) as (apparent & src1 & E1 & Hs1).
  erewrite bind_Ok by exact E1. destruct apparent as [a|]; [|by do 2 eexists]. cbv zeta.
  pose proof (max_payload_range a) as Hmp.
  set (pl := if len data >? max_payload a then max_payload a else len data).
  assert (Hpl : 1 <= pl <= len data ∧ pl <= MaxPayloadSize).
  { unfold pl. rewrite Z.gtb_ltb. assert (0 < len data) by (destruct data; [done|unfold len; cbn; lia]).
    destruct (Z.ltb_spec (max_payload a) (len data)); lia. }
  match goal with |- context [bind _ _ ?s1] =>
    destruct (on_src_hoare _ _ s1 (src_padding_ok pl) Hs1) as (pad & src2 & E2 & Hs2 & Hpad) end.
  erewrite bind_Ok by exact E2. do 2 eexists. split; [reflexivity|]. split; [done|]. split; [done|].
  destruct pad as [p|]; [|done]. split; [done|]. split; [|by rewrite take_drop].
  unfold len in *. rewrite length_take. lia.
Qed.

Lemma fragment_round_run data s :
  sd_wf s → data ≠ [] →
  match fragment_round data s with
  | (Ok (Some rest), s') => sd_wf s' ∧ (sd_ok s → sd_ok s') ∧
      ∃ f, sent_since s s' [f] ∧ frag_frame f ∧ data = f_Payload f ++ rest
  | (Ok None, s') => sd_wf s' ∧ sd_fw s' = sd_fw s
  | (Err _, s') => sd_wf s' ∧ (sd_ok s → sd_ok s') ∧ ∃ w, c_out (fw_w (sd_fw s')) = c_out (fw_w (sd_fw s)) ++ w
  | (Panic, _) => False
  end.
Proof.
  intros Hs Hne. unfold fragment_round.
  destruct (sample_fragment_run data s Hs Hne) as (o & s1 & E & Hfw & Hs1 & Ho). erewrite bind_Ok by exact E.
  destruct o as [[[payload p] rest]|]; [|done]. destruct Ho as (Hp & Hl & Hd).
  pose proof (send_fragment_run payload p rest s1 Hp Hl) as Hf.
  unfold sent_since in Hf. rewrite Hfw in Hf. unfold sd_ok, sd_wf in *.
  unfold bind at 1. destruct (send_fragment payload p rest s1) as [[u|e|] s2]; [| |done];
    destruct Hf as (Hsrc & Hsent & Hhl); unfold ret; rewrite Hsrc; (split; [done|]); (split; [by intros [_ Hc]; auto|]).
  - exists (data_frame payload p). split; [exact Hsent|]. split; [|done]. split; [done|]. split; [done|].
    intros E0. cbn in E0. subst payload. unfold len in Hl. cbn in Hl. lia.
  - exact Hsent.
Qed.

(** The sampler as something that always returns. *)
Definition src_returns : Prop :=
  (∀ x, src_wf x → ∃ a x', src_apparent x = (Ok (Some a), x')) ∧
  (∀ m x, src_wf x → ∃ p x', src_padding m x = (Ok (Some p), x')).

Lemma sample_fragment_returns data s :
  src_returns → sd_wf s → ∃ x s', sample_fragment data s = (Ok (Some x), s').
Proof.
  intros [Ha Hp] Hs. unfold sample_fragment.
  destruct (Ha _ Hs) as (a & x1 & E1). pose proof (src_apparent_ok _ Hs) as Hs1. rewrite E1 in Hs1.
  erewrite bind_Ok by (apply on_src_eq; exact E1). cbv zeta.
  set (pl := if len data >? max_payload a then max_payload a else len data).
  destruct (Hp pl x1 Hs1) as (p & x2 & E2).
  erewrite bind_Ok by (apply on_src_eq; exact E2). by do 2 eexists.
Qed.

Lemma fragment_round_returns data s :
  src_returns → sd_wf s → fst (fragment_round data s) ≠ Ok None.
Proof.
  intros Hr Hs. destruct (sample_fragment_returns data s Hr Hs) as ([[payload p] rest] & s1 & E).
  unfold fragment_round. erewrite bind_Ok by exact E.
  unfold bind at 1. by destruct (send_fragment _ _ _ _) as [[u|e|] s2].
Qed.

(** Rounds until the data is used up, within the fuel. *)
Lemma fragment_loop_run fuel data s :
  sd_wf s → (length data <= fuel)%nat →
  match fragment_loop fuel data s with
  | (Ok o, s') => sd_wf s' ∧ (sd_ok s → sd_ok s') ∧ ∃ fs rest, sent_since s s' fs ∧ Forall frag_frame fs ∧
      data = data_payload fs ++ rest ∧ (o = Some tt → rest = []) ∧ (src_returns → o = Some tt)
  | (Err _, s') => sd_wf s' ∧ (sd_ok s → sd_ok s') ∧ ∃ w, c_out (fw_w (sd_fw s')) = c_out (fw_w (sd_fw s)) ++ w
  | (Panic, _) => False
  end.
Proof.
  revert data s. induction fuel as [|fuel IH]; intros data s Hs Hl.
  - destruct data; [|cbn in Hl; lia]. split; [done|]. split; [done|]. exists [], [].
    by split_and!; [apply sent_since_nil|..].
  - cbn [fragment_loop]. destruct (Nat.eqb_spec (length data) 0) as [Hz|Hz].
    { apply nil_length_inv in Hz as ->. split; [done|]. split; [done|]. exists [], [].
      by split_and!; [apply sent_since_nil|..]. }
    assert (Hne : data ≠ []) by (by intros ->). pose proof (fragment_round_run data s Hs Hne) as Hr.
    pose proof (λ H, fragment_round_returns data s H Hs) as Hret.
    unfold bind at 1. destruct (fragment_round data s) as [[[rest|]|e|] s1]; [| |done|done].
    2:{ destruct Hr as [Hs1 Hfw]. split; [done|]. split.
        { intros [? ?]. split; [done|]. by rewrite Hfw. }
        exists [], data. split_and!; [by apply sent_since_same|done..|]. intros Hsr. by destruct (Hret Hsr). }
    destruct Hr as (Hs1 & Hok1 & f & Hsent & Hf & Hd).
    assert (Hlr : (length rest <= fuel)%nat).
    { destruct Hf as (_ & _ & Hp). apply (f_equal length) in Hd. rewrite length_app in Hd.
      destruct (f_Payload f); [done|cbn in Hd; lia]. }
    specialize (IH rest s1 Hs1 Hlr). destruct (fragment_loop fuel rest s1) as [[o|e|] s2]; [| |done].
    + destruct IH as (Hs2 & Hok2 & fs & rest' & Hsent' & Hfs & Hd' & Ho & Hsr). split; [done|].
      split; [by auto|]. exists (f :: fs), rest'.
      split_and!; [by apply (sent_since_app _ s1 _ [f])|by constructor| |done|done].
      rewrite Hd, Hd'. unfold data_payload. cbn [map concat]. unfold data_of, is_data.
      rewrite bool_decide_true by apply Hf. by rewrite app_assoc.
    + destruct IH as (Hs2 & Hok2 & w2 & Hw2). destruct Hsent as (w1 & Hw1 & _). split; [done|].
      split; [by auto|]. exists (w1 ++ w2). by rewrite Hw2, Hw1, app_assoc.
Qed.

End sender.
Arguments sender Src : clear implicits.

(** ** The read side *)

(** What [Read] works on: the frame reader, the leftover of a partly consumed
    payload, the two control queues (capacity 4) and the activity clock. *)
Record rside := RSide {
  rs_fr : reader;
  rs_readBuf : bytes;
  rs_pingCh : list Frame;
  rs_pongCh : list Frame;
  rs_clock : clock;
  rs_lastActivityNs : Z
}.

Definition on_fr {A} : M reader A → M rside A :=
  zoom rs_fr (λ x s, RSide x (rs_readBuf s) (rs_pingCh s) (rs_pongCh s) (rs_clock s) (rs_lastActivityNs s)).
Definition on_rclock {A} : M clock A → M rside A :=
  zoom rs_clock (λ x s, RSide (rs_fr s) (rs_readBuf s) (rs_pingCh s) (rs_pongCh s) x (rs_lastActivityNs s)).
Definition put_readBuf (b : bytes) : M rside unit :=
  modify (λ s, RSide (rs_fr s) b (rs_pingCh s) (rs_pongCh s) (rs_clock s) (rs_lastActivityNs s)).

(** [select { case ch <- f: default: }] on a channel of capacity 4. *)
Definition chan_offer (f : Frame) (ch : list Frame) : list Frame :=
  if (length ch <? 4)%nat then ch ++ [f] else ch.

Fixpoint read_frames (fuel n : nat) : M rside bytes :=
  buf <- gets rs_readBuf ;;
  if (0 <? length buf)%nat then put_readBuf (drop n buf) ;;; ret (take n buf) else
  match fuel with
  | O => panic
  | S fuel' =>
      frame <- on_fr ReadFrame ;;
      t <- on_rclock time_Now ;;
      modify (λ s, RSide (rs_fr s) (rs_readBuf s) (rs_pingCh s) (rs_pongCh s) (rs_clock s) t) ;;;
      if bool_decide (f_Type frame = TypeData) then
        if (length (f_Payload frame) =? 0)%nat then read_frames fuel' n else
        (when (n <? length (f_Payload frame))%nat do put_readBuf (drop n (f_Payload frame)) od) ;;;
        ret (take n (f_Payload frame))
      else if bool_decide (f_Type frame = TypePing) then
        modify (λ s, RSide (rs_fr s) (rs_readBuf s) (chan_offer frame (rs_pingCh s)) (rs_pongCh s) (rs_clock s) (rs_lastActivityNs s)) ;;;
        read_frames fuel' n
      else if bool_decide (f_Type frame = TypePong) then
        modify (λ s, RSide (rs_fr s) (rs_readBuf s) (rs_pingCh s) (chan_offer frame (rs_pongCh s)) (rs_clock s) (rs_lastActivityNs s)) ;;;
        read_frames fuel' n
      else read_frames fuel' n
  end.

(** [c.Read(b)] with [len(b) = n].  A frame takes at least 11 bytes, so the
    number of bytes to come bounds the number of rounds. *)
Definition Conn_Read (n : nat) : M rside bytes := λ s,
  read_frames (S (length (flatten (rs_fr s)))) n s.

(** Successive reads into buffers of the given sizes, up to the first error. *)
Fixpoint reads (ns : list nat) : M rside (list bytes * option error) :=
  match ns with
  | [] => ret ([], None)
  | n :: ns' =>
      r <- try (Conn_Read n) ;;
      match r with
      | inl bs => p <- reads ns' ;; ret (bs :: fst p, snd p)
      | inr e => ret ([], Some e)
      end
  end.

Lemma frames_wire_length fs w : frames_wire fs w → (length fs <= length w)%nat.
Proof.
  induction 1 as [|f pad fs w Hf Hp Hw IH]; [done|]. rewrite length_app. unfold frame_bytes.
  rewrite length_app, length_frame_header. cbn [length]. lia.
Qed.

Lemma frames_wire_nil w : frames_wire [] w → w = [].
Proof. by inversion 1. Qed.

Lemma ReadFrame_wire f fs w r :
  frames_wire (f :: fs) w → flatten r = w →
  ∃ r' w', ReadFrame r = (Ok f, r') ∧ flatten r' = w' ∧ rd_fin r' = rd_fin r ∧ frames_wire fs w'.
Proof.
  intros Hw Hr. inversion Hw as [|f' pad fs' w' Hf Hp Hw' E1 E2]. subst f' fs'.
  destruct (ReadFrame_decode r) as (r' & Hd & Hfl & Hfin). destruct Hf as (Hwf & Hn & Hpd).
  rewrite Hr, <- E2, frame_decode_bytes in Hd, Hfl by done. by exists r', w'.
Qed.

Lemma ReadFrame_end r :
  flatten r = [] → ∃ r', ReadFrame r = (Err (rd_fin r), r') ∧ flatten r' = [] ∧ rd_fin r' = rd_fin r.
Proof.
  intros Hr. destruct (ReadFrame_decode r) as (r' & Hd & Hfl & Hfin). rewrite Hr in Hd, Hfl.
  exists r'. done.
Qed.

(** What [Read] promises about a stream of frames: the abstract stream is the
    leftover and the data still to come. *)
Definition pending (s : rside) (fs : list Frame) : bytes := rs_readBuf s ++ data_payload fs.

Lemma read_frames_spec fuel n s fs :
  (0 < n)%nat → frames_wire fs (flatten (rs_fr s)) → (length fs < fuel)%nat →
  ∃ r s' fs', read_frames fuel n s = (r, s') ∧ rd_fin (rs_fr s') = rd_fin (rs_fr s) ∧
    frames_wire fs' (flatten (rs_fr s')) ∧
    match r with
    | Ok bs => bs ≠ [] ∧ (length bs <= n)%nat ∧ pending s fs = bs ++ pending s' fs'
    | Err e => e = rd_fin (rs_fr s) ∧ pending s fs = [] ∧ pending s' fs' = []
    | Panic => False
    end.
Proof.
  intros Hn. revert s fs. induction fuel as [|fuel IH]; intros s fs Hw Hl; [lia|].
  cbn [read_frames]. erewrite bind_Ok by done.
  destruct (Nat.ltb_spec 0 (length (rs_readBuf s))) as [Hb|Hb].
  - erewrite bind_Ok by done. do 2 eexists. exists fs. split; [done|]. split_and!; try done.
    + intros E. apply (f_equal length) in E. rewrite length_take in E. cbn in E. lia.
    + rewrite length_take. lia.
    + unfold pending. cbn [rs_readBuf]. by rewrite app_assoc, take_drop.
  - assert (Hbuf : rs_readBuf s = []) by (apply nil_length_inv; lia).
    destruct fs as [|f fs].
    + pose proof (frames_wire_nil _ Hw) as E. destruct (ReadFrame_end (rs_fr s) E) as (r' & Hr & Hfl & Hfin).
      erewrite bind_Err by (unfold on_fr, zoom; rewrite Hr; done). do 2 eexists. exists [].
      split; [done|]. cbn [rs_fr]. unfold pending. cbn [rs_readBuf]. rewrite Hfl, Hbuf.
      split_and!; try done. constructor.
    + destruct (ReadFrame_wire f fs _ (rs_fr s) Hw eq_refl) as (r' & w' & Hr & Hfl & Hfin & Hw').
      erewrite bind_Ok by (unfold on_fr, zoom; rewrite Hr; done).
      destruct (time_Now_ok (rs_clock s)) as (t & c' & Ht).
      erewrite bind_Ok by (unfold on_rclock, zoom; cbn [rs_clock]; rewrite Ht; done).
      erewrite bind_Ok by done. cbn [rs_fr rs_readBuf rs_pingCh rs_pongCh rs_clock rs_lastActivityNs].
      assert (Hskip : ∀ s2, rs_fr s2 = r' → rs_readBuf s2 = [] → data_of f = [] →
        ∃ r s' fs', read_frames fuel n s2 = (r, s') ∧ rd_fin (rs_fr s') = rd_fin (rs_fr s) ∧
          frames_wire fs' (flatten (rs_fr s')) ∧
          match r with
          | Ok bs => bs ≠ [] ∧ (length bs <= n)%nat ∧ pending s (f :: fs) = bs ++ pending s' fs'
          | Err e => e = rd_fin (rs_fr s) ∧ pending s (f :: fs) = [] ∧ pending s' fs' = []
          | Panic => False
          end).
      { intros s2 E1 E2 Hf. destruct (IH s2 fs) as (r & s' & fs' & H1 & H2 & H3 & H4);
          [by rewrite E1, Hfl|cbn in Hl; lia|]. exists r, s', fs'.
        assert (Hpend : pending s (f :: fs) = pending s2 fs).
        { unfold pending. rewrite Hbuf, E2. unfold data_payload. cbn [map concat]. by rewrite Hf. }
        rewrite E1, Hfin in *. rewrite Hpend. done. }
      unfold data_of, is_data in Hskip.
      case_bool_decide as Hty.
      * destruct (Nat.eqb_spec (length (f_Payload f)) 0) as [Hp|Hp].
        { apply Hskip; [done|done|by apply nil_length_inv]. }
        assert (Hd : pending s (f :: fs) = f_Payload f ++ data_payload fs).
        { unfold pending, data_payload. rewrite Hbuf. cbn [map concat app]. unfold data_of, is_data.
          by rewrite bool_decide_true. }
        assert (Hne : take n (f_Payload f) ≠ []).
        { intros E. apply (f_equal length) in E. rewrite length_take in E. cbn in E. lia. }
        assert (Hlen : (length (take n (f_Payload f)) <= n)%nat) by (rewrite length_take; lia).
        destruct (Nat.ltb_spec n (length (f_Payload f))); (erewrite bind_Ok by done);
          do 2 eexists; exists fs; (split; [done|]); rewrite Hd; unfold pending; cbn [rs_fr rs_readBuf];
          (split; [done|]); (split; [by rewrite Hfl|]); (split; [done|]); (split; [done|]).
        -- by rewrite app_assoc, take_drop.
        -- rewrite Hbuf. rewrite take_ge by lia. done.
      * repeat case_bool_decide; try (erewrite bind_Ok by done); by apply Hskip.
Qed.

(** ** Properties of the data path *)

(** [Read] is a stream reader.  On a connection that delivers any sequence
    of frames, padded or not, data or control, in any segmentation, and then an
    error: [Read] into a non-empty buffer returns a non-empty part of the data
    that fits, takes it from the front of the pending data, and reports the
    error exactly when all data has been delivered; control, padding and
    unknown frames never reach the caller. *)
Theorem Conn_Read_stream n s fs :
  (0 < n)%nat → frames_wire fs (flatten (rs_fr s)) →
  ∃ r s' fs', Conn_Read n s = (r, s') ∧ rd_fin (rs_fr s') = rd_fin (rs_fr s) ∧
    frames_wire fs' (flatten (rs_fr s')) ∧
    match r with
    | Ok bs => bs ≠ [] ∧ (length bs <= n)%nat ∧ pending s fs = bs ++ pending s' fs'
    | Err e => e = rd_fin (rs_fr s) ∧ pending s fs = [] ∧ pending s' fs' = []
    | Panic => False
    end.
Proof.
  intros Hn Hw. apply read_frames_spec; [done|done|]. apply frames_wire_length in Hw. lia.
Qed.

(** Several reads in a row. *)
Lemma reads_run ns s fs :
  Forall (λ n, (0 < n)%nat) ns → frames_wire fs (flatten (rs_fr s)) →
  ∃ bss o s' rest, reads ns s = (Ok (bss, o), s') ∧ pending s fs = concat bss ++ rest ∧
    Forall (λ b, b ≠ []) bss ∧
    match o with
    | None => length bss = length ns
    | Some e => e = rd_fin (rs_fr s) ∧ rest = []
    end.
Proof.
  revert s fs. induction ns as [|n ns IH]; intros s fs Hns Hw.
  - exists [], None, s, (pending s fs). by split_and!.
  - inversion_clear Hns as [|? ? Hn Hns']. cbn [reads].
    assert (Hlt : (length fs < S (length (flatten (rs_fr s))))%nat) by (apply frames_wire_length in Hw; lia).
    destruct (read_frames_spec _ n s fs Hn Hw Hlt) as (r & s1 & fs1 & Hr & Hfin & Hw1 & Hcase).
    change (Conn_Read n s = (r, s1)) in Hr. destruct r as [bs|e|]; [| |done].
    + erewrite bind_Ok by (unfold try; rewrite Hr; done). cbn iota.
      destruct Hcase as (Hne & _ & Hp). destruct (IH s1 fs1 Hns' Hw1) as (bss & o & s' & rest & Hrun & Hp1 & Hbss & Ho).
      erewrite bind_Ok by exact Hrun. exists (bs :: bss), o, s', rest. cbn [fst snd concat length].
      split_and!; [done| |by constructor|]; [by rewrite Hp, Hp1, app_assoc|].
      destruct o; [by rewrite <- Hfin|by rewrite Ho].
    + erewrite bind_Ok by (unfold try; rewrite Hr; done). cbn iota.
      exists [], (Some e), s1, []. destruct Hcase as (-> & Hp & _). by split_and!.
Qed.

Lemma concat_nonempty_length (bss : list bytes) : Forall (λ b, b ≠ []) bss → (length bss <= length (concat bss))%nat.
Proof.
  induction 1 as [|b bss Hb _ IH]; [done|]. cbn. rewrite length_app. destruct b; [done|cbn; lia].
Qed.

Section roundtrip.
Context `{GoMath} {Src : Type} `{SizeSource Src}.

(** C36. Fragmentation.  Sending data over any connection, with any source of
    sizes: the call does not panic; when it returns without an error everything
    it transmitted is whole, non-empty DATA frames within the protocol limits
    whose payloads are the data in order, and when a sampling loop did not return
    they are a prefix of it.  If the sampling loops return, the call does: no
    other bound is needed than one round per byte. *)
Theorem fragmentAndSend_frames data (s : sender Src) :
  sd_wf s →
  match fragmentAndSend data s with
  | (Ok o, s') => ∃ fs rest, sent_since s s' fs ∧ Forall frag_frame fs ∧
      data = data_payload fs ++ rest ∧ (o = Some tt → rest = []) ∧
      (src_returns → o = Some tt)
  | (Err _, s') => ∃ w, c_out (fw_w (sd_fw s')) = c_out (fw_w (sd_fw s)) ++ w
  | (Panic, _) => False
  end.
Proof.
  intros Hs. unfold fragmentAndSend. pose proof (fragment_loop_run (length data) data s Hs (le_n _)) as Hr.
  destruct (fragment_loop (length data) data s) as [[o|e|] s']; [|by destruct Hr as (_ & _ & Hr)|done].
  destruct Hr as (_ & _ & fs & rest & Hr). by exists fs, rest.
Qed.

(** C2. The data path, end to end.  The sender transmits a burst, with control
    frames of any kind before and after it on the connection; the peer reads
    with any sequence of non-empty buffers, however the network segments the
    bytes.  If the sender's call succeeded, the bytes the reads return are a
    prefix of the data, all of it once a read reports the end of the stream, and
    more reads than bytes always reach the end. *)
Theorem burst_roundtrip data (s : sender Src) before after ctl1 ctl2 ns r :
  sd_wf s →
  frames_wire ctl1 before → frames_wire ctl2 after → Forall (λ f, is_data f = false) (ctl1 ++ ctl2) →
  Forall (λ n, (0 < n)%nat) ns → rs_readBuf r = [] →
  match fragmentAndSend data s with
  | (Ok (Some _), s') =>
      ∀ w, c_out (fw_w (sd_fw s')) = c_out (fw_w (sd_fw s)) ++ w →
      flatten (rs_fr r) = before ++ w ++ after →
      ∃ bss o r' rest, reads ns r = (Ok (bss, o), r') ∧ data = concat bss ++ rest ∧
        (is_Some o → rest = [] ∧ o = Some (rd_fin (rs_fr r))) ∧
        ((length data < length ns)%nat → is_Some o)
  | _ => True
  end.
Proof.
  intros Hs Hw1 Hw2 Hctl Hns Hbuf. unfold fragmentAndSend.
  pose proof (fragment_loop_run (length data) data s Hs (le_n _)) as Hr.
  destruct (fragment_loop (length data) data s) as [[[[]|]|e|] s']; try done.
  destruct Hr as (_ & _ & fs & rest0 & (w & Hout & Hw) & Hfs & Hdata & Hrest & _).
  rewrite Hrest, app_nil_r in Hdata by done. intros w' Hout' Hfl.
  assert (w' = w) as -> by (rewrite Hout in Hout'; by apply app_inv_head in Hout').
  assert (Hwire : frames_wire (ctl1 ++ fs ++ ctl2) (flatten (rs_fr r))).
  { rewrite Hfl. by repeat apply frames_wire_app. }
  assert (Hnil : ∀ l, Forall (λ f, is_data f = false) l → data_payload l = []).
  { induction 1 as [|f l Hf _ IH]; [done|]. unfold data_payload in *. cbn. unfold data_of. by rewrite Hf. }
  apply Forall_app in Hctl as [Hc1 Hc2].
  assert (Hpend : pending r (ctl1 ++ fs ++ ctl2) = data).
  { unfold pending. rewrite Hbuf, !data_payload_app, (Hnil _ Hc1), (Hnil _ Hc2), app_nil_r. done. }
  destruct (reads_run ns r _ Hns Hwire) as (bss & o & r' & rest & Hrun & Hp & Hne & Ho).
  rewrite Hpend in Hp. exists bss, o, r', rest. split_and!; [done|done| |].
  - intros [e He]. subst o. by destruct Ho as [-> ->].
  - intros Hlen. destruct o; [done|]. exfalso. apply concat_nonempty_length in Hne.
    apply (f_equal length) in Hp. rewrite length_app in Hp. lia.
Qed.
End roundtrip.

(** ** A concrete source and writer *)

(** Every frame 100 bytes, no padding. *)
Definition flat_source : SizeSource unit.
Proof.
  refine (Build_SizeSource unit (ret (Some 100)) (λ _, ret (Some 0)) (λ _, True) _ _).
  - by apply hoare_ret.
  - intros n. apply hoare_ret. intros s _. split; [done|]. unfold MaxPaddingSize. lia.
Defined.

Definition flat_math : GoMath := {| math_Pow := λ x _, x; math_Log := λ x, x; math_Exp := λ x, x |}.

Definition sd0 : sender unit :=
  Sender (NewWriter (conn_of []) (stream [] EOF)) tt (NewPacer Browser) (Mrand (λ _, 1) (λ _, f1) 0)
    (Clock 0 []) 0 0.

Lemma sd0_ok : sd_ok (H0 := flat_source) sd0.
Proof. done. Qed.

(** ** Witnesses *)

Definition ping8 : Frame := mkFrame TypePing 0 (randomBytes 8) 0.
Definition hello : Frame := mkFrame TypeData 0 (str "hello") 2.
Definition rside0 : rside :=
  RSide (Reader [take 7 (frame_bytes ping8 [] ++ frame_bytes hello [x00; x00]);
                 drop 7 (frame_bytes ping8 [] ++ frame_bytes hello [x00; x00])] EOF true) [] [] [] (Clock 0 []) 0.

Lemma rside0_wire : frames_wire [ping8; hello] (flatten (rs_fr rside0)).
Proof.
  assert (Hw : frames_wire [ping8; hello] (frame_bytes ping8 [] ++ frame_bytes hello [x00; x00] ++ [])).
  { constructor; [|done|constructor; [|done|constructor]]; vm_compute; repeat split; discriminate. }
  exact Hw.
Qed.

Lemma Conn_Read_stream_witness :
  ∃ r s', Conn_Read 3 rside0 = (r, s') ∧ r = Ok (str "hel") ∧ length (rs_pingCh s') = 1%nat.
Proof.
  destruct (Conn_Read_stream 3 rside0 [ping8; hello] ltac:(lia) rside0_wire)
    as (r & s' & fs' & Hr & _ & _ & _).
  exists r, s'. split; [exact Hr|]. vm_compute in Hr. injection Hr as <- <-. split; reflexivity.
Defined.

Lemma fragmentAndSend_frames_witness :
  match fragmentAndSend (H0 := flat_source) (H := flat_math) (replicate 200 x61) sd0 with
  | (Ok o, s') => o = Some tt ∧ ∃ fs, sent_since (Src := unit) sd0 s' fs ∧ data_payload fs = replicate 200 x61
  | _ => False
  end.
Proof.
  pose proof (fragmentAndSend_frames (H0 := flat_source) (H := flat_math) (replicate 200 x61) sd0 I) as Hf.
  assert (Hok : is_ok (fst (fragmentAndSend (H0 := flat_source) (H := flat_math) (replicate 200 x61) sd0)) = true)
    by (vm_compute; reflexivity).
  destruct (fragmentAndSend (H0 := flat_source) (H := flat_math) (replicate 200 x61) sd0) as [[o|e|] s'];
    [|discriminate|discriminate].
  destruct Hf as (fs & rest & H1 & _ & H3 & H4 & H5).
  assert (Ho : o = Some tt) by (apply H5; split; intros; do 2 eexists; reflexivity).
  split; [exact Ho|]. exists fs. split; [exact H1|]. rewrite (H4 Ho), app_nil_r in H3. symmetry. exact H3.
Defined.

Lemma burst_roundtrip_witness :
  let s' := snd (fragmentAndSend (H0 := flat_source) (H := flat_math) (replicate 200 x61) sd0) in
  let r := RSide (stream (frame_bytes ping8 [] ++ c_out (fw_w (sd_fw s'))) EOF) [] [] [] (Clock 0 []) 0 in
  ∃ bss o r' rest, reads [150%nat; 150%nat; 150%nat] r = (Ok (bss, o), r') ∧ replicate 200 x61 = concat bss ++ rest.
Proof.
  intros s' r.
  assert (Hp : frames_wire [ping8] (frame_bytes ping8 [])).
  { apply frames_wire_one; [|reflexivity]. vm_compute. repeat split; discriminate. }
  pose proof (burst_roundtrip (H0 := flat_source) (H := flat_math) (replicate 200 x61) sd0 (frame_bytes ping8 []) []
    [ping8] [] [150%nat; 150%nat; 150%nat] r I Hp wire_nil) as Hb.
  specialize (Hb ltac:(repeat constructor) ltac:(repeat constructor; lia) eq_refl).
  assert (Hok : match fst (fragmentAndSend (H0 := flat_source) (H := flat_math) (replicate 200 x61) sd0) with
                | Ok (Some _) => true | _ => false end = true) by (vm_compute; reflexivity).
  unfold s' in r. destruct (fragmentAndSend (H0 := flat_source) (H := flat_math) (replicate 200 x61) sd0)
    as [[[u|]|e|] s1]; try discriminate.
  destruct (Hb (c_out (fw_w (sd_fw s1))) eq_refl) as (bss & o & r' & rest & H1 & H2 & _).
  - unfold r. cbn [rs_fr]. rewrite flatten_stream, app_nil_r. reflexivity.
  - exists bss, o, r', rest. split; [exact H1|exact H2].
Defined.
