(* ===== verification/Burst.v ===== *)
(** The camouflage connection as a concurrent system: the sender goroutine
    ([sender], [runBurstCycle] and [fragmentAndSend] in [internal/bcl/conn.go]),
    the keepalive goroutine that shares the frame writer with it
    ([keepaliveLoop], [sendPing]), the callers of [Write], the reader, and
    [Close].

    [step] has one rule per select branch and per stretch of code between two
    accesses to what the goroutines share: a select picks any ready branch, a
    timer may fire at any moment, and a flush may be interrupted before each
    frame, between the building of a frame in the shared buffer and its
    [conn.Write], and during that write by [Close]. *)

From Stdlib Require Import Strings.Byte String ZArith Lia.
From stdpp Require Import base list relations.
From S2P Require Import Prelude Encoding Io Frame Sharing Float Shaping Bcl.

(** ** The keepalive loop's decisions *)

(** Its interval between two looks: [KeepaliveIdle] with jitter, at least 10 s. *)
Definition keepalive_interval (p : Personality) : M mrand Z :=
  j <- uniformJitter (p_KeepaliveJitter p) ;;
  let interval := p_KeepaliveIdle p + j in
  ret (if interval <? 10 * sec then 10 * sec else interval).

(** The states in which it does not send a PING. *)
Definition busy (s : connState) : bool :=
  bool_decide (s = stateBurst) || bool_decide (s = stateDrain) || bool_decide (s = stateCongested).

Section machine.
Context `{GoMath} {Src : Type} `{SizeSource Src}.
(** [c.p] *)
Variable p : Personality.

(** ** State *)

(** Where the sender goroutine is: in the outer select; collecting a burst; at
    the head of [fragmentAndSend]'s loop; about to build a frame and about to
    send the built one; the same two for a PONG, with the select it came from;
    in the select after a flush; in the think loop; in a sampling loop that does
    not return; or gone. *)
Inductive phase : Type :=
  | PIdle
  | PCollect (burst : list bytes) (totalBurst : Z)
  | PFlush (remaining : bytes)
  | PFrame (payload : bytes) (padLen : Z) (remaining : bytes)
  | PSend (before : Z) (payload : bytes) (padLen : Z) (remaining : bytes)
  | PPong (payload : bytes) (back : phase)
  | PPongSend (payload : bytes) (back : phase)
  | PDrain
  | PThink
  | PHung (remaining : bytes)
  | PExit.

(** Where the keepalive goroutine is: waiting for its timer; about to look at
    the state; about to look at the time of the last activity; in [sendPing]
    before and after the PING is built; or gone. *)
Inductive kphase : Type := KWait | KWoken | KLooked | KPing | KSend | KGone.

(** How far [Close] has come: not called; the context is cancelled; the
    connection is closed and [wg.Wait] waits; returned. *)
Inductive closing : Type := COpen | CCancelled | CShut | CReturned.

Record bconn := BConn {
  b_inbox : list bytes;
  b_pingCh : list Frame;
  b_pongCh : list Frame;
  b_phase : phase;
  b_state : connState;
  b_sd : sender Src;
  b_writeErr : bool;
  b_keep : kphase;
  b_close : closing;
  (** History: what the callers of [Write] were told has been accepted, in order;
      how many PINGs the keepalive loop has built; whether one goroutine has ever
      written to the frame buffer while the other's frame was in it, unsent. *)
  b_accepted : bytes;
  b_pings : nat;
  b_raced : bool
}.

Definition set_phase (ph : phase) (st : connState) (c : bconn) : bconn :=
  BConn (b_inbox c) (b_pingCh c) (b_pongCh c) ph st (b_sd c) (b_writeErr c) (b_keep c) (b_close c) (b_accepted c) (b_pings c) (b_raced c).
Definition set_sd (sd : sender Src) (c : bconn) : bconn :=
  BConn (b_inbox c) (b_pingCh c) (b_pongCh c) (b_phase c) (b_state c) sd (b_writeErr c) (b_keep c) (b_close c) (b_accepted c) (b_pings c) (b_raced c).
Definition set_err (c : bconn) : bconn :=
  BConn (b_inbox c) (b_pingCh c) (b_pongCh c) (b_phase c) (b_state c) (b_sd c) true (b_keep c) (b_close c) (b_accepted c) (b_pings c) (b_raced c).
Definition set_inbox (l : list bytes) (c : bconn) : bconn :=
  BConn l (b_pingCh c) (b_pongCh c) (b_phase c) (b_state c) (b_sd c) (b_writeErr c) (b_keep c) (b_close c) (b_accepted c) (b_pings c) (b_raced c).
Definition set_pings (l : list Frame) (c : bconn) : bconn :=
  BConn (b_inbox c) l (b_pongCh c) (b_phase c) (b_state c) (b_sd c) (b_writeErr c) (b_keep c) (b_close c) (b_accepted c) (b_pings c) (b_raced c).
Definition set_pongs (l : list Frame) (c : bconn) : bconn :=
  BConn (b_inbox c) (b_pingCh c) l (b_phase c) (b_state c) (b_sd c) (b_writeErr c) (b_keep c) (b_close c) (b_accepted c) (b_pings c) (b_raced c).
Definition set_keep (k : kphase) (c : bconn) : bconn :=
  BConn (b_inbox c) (b_pingCh c) (b_pongCh c) (b_phase c) (b_state c) (b_sd c) (b_writeErr c) k (b_close c) (b_accepted c) (b_pings c) (b_raced c).
Definition set_close (k : closing) (c : bconn) : bconn :=
  BConn (b_inbox c) (b_pingCh c) (b_pongCh c) (b_phase c) (b_state c) (b_sd c) (b_writeErr c) (b_keep c) k (b_accepted c) (b_pings c) (b_raced c).
(** History only. *)
Definition set_history (n : nat) (raced : bool) (c : bconn) : bconn :=
  BConn (b_inbox c) (b_pingCh c) (b_pongCh c) (b_phase c) (b_state c) (b_sd c) (b_writeErr c) (b_keep c) (b_close c) (b_accepted c) n raced.

(** The context is cancelled; the connection is closed. *)
Definition b_done (c : bconn) : bool := match b_close c with COpen => false | _ => true end.
Definition is_shut (k : closing) : bool := match k with CShut | CReturned => true | _ => false end.

(** The frame that a goroutine has built and not yet given to the connection. *)
Definition sender_frame (ph : phase) : option Frame :=
  match ph with
  | PSend _ payload padLen _ => Some (data_frame payload padLen)
  | PPongSend payload _ => Some (pong_frame payload)
  | _ => None
  end.
Definition keep_frame (k : kphase) : option Frame := match k with KSend => Some ping_frame | _ => None end.
Definition present {A} (o : option A) : bool := match o with Some _ => true | None => false end.

(** The selects of the sender goroutine. *)
Definition selecting (ph : phase) : bool :=
  match ph with PIdle | PCollect _ _ | PDrain | PThink => true | _ => false end.

(** ** Operations *)

(** [c.Write(b)] as far as it gets without blocking: the state it leaves, if it
    accepts [b]. *)
Definition Conn_Write (b : bytes) (c : bconn) : option bconn :=
  if (length b =? 0)%nat then Some c else
  if b_writeErr c then None else
  if (length (b_inbox c) <? 256)%nat
  then Some (BConn (b_inbox c ++ [b]) (b_pingCh c) (b_pongCh c) (b_phase c) (b_state c) (b_sd c)
               (b_writeErr c) (b_keep c) (b_close c) (b_accepted c ++ b) (b_pings c) (b_raced c))
  else None.

(** One frame of [fragmentAndSend] up to and after the moment at which the
    built frame goes to the connection. *)
Definition frame_begin (payload : bytes) (padLen : Z) : M (sender Src) (Z * (unit + error)) :=
  before <- on_sclock time_Now ;;
  err <- try (on_fw (fill (data_frame payload padLen))) ;;
  ret (before, err).
Definition frame_end (before : Z) (payload : bytes) (padLen : Z) (remaining : bytes) : M (sender Src) unit :=
  err <- try (on_fw (emit (data_frame payload padLen))) ;;
  after_write before payload padLen remaining err.

(** After a PONG the drain phase is over; the other selects go on. *)
Definition after_pong (back : phase) (c : bconn) : bconn :=
  match back with PDrain => set_phase PThink stateThink c | _ => set_phase back (b_state c) c end.
(** A failed flush: the error is stored, and the goroutine is back in [sender]. *)
Definition write_failed (c : bconn) : bconn := set_err (set_phase PIdle (b_state c) c).

(** The buffer was written to by the sender, or by the keepalive loop. *)
Definition sender_filled (c : bconn) : bconn :=
  set_history (b_pings c) (b_raced c || present (keep_frame (b_keep c))) c.
Definition keep_filled (c : bconn) : bconn :=
  set_history (S (b_pings c)) (b_raced c || present (sender_frame (b_phase c))) c.

(** The keepalive goroutine: its wait, its second look, and [sendPing] up to the
    moment at which the PING goes to the connection. *)
Definition keep_wait : M (sender Src) unit :=
  interval <- on_mrand (keepalive_interval p) ;;
  on_sclock (time_Sleep interval).
Definition keep_idle : M (sender Src) bool :=
  now <- on_sclock time_Now ;;
  last <- gets sd_lastActivityNs ;;
  ret (negb (now - last <? Z.quot (p_KeepaliveIdle p) 2)).
Definition ping_begin : M (sender Src) (unit + error) :=
  t <- on_sclock time_Now ;;
  set_pendingPing t ;;;
  try (on_fw (fill ping_frame)).

(** The reader notes the time of every frame it gets. *)
Definition received : M (sender Src) unit :=
  t <- on_sclock time_Now ;;
  set_lastActivity t.

(** [c.conn.Close()]: a frame that is being written when it comes is cut off,
    [part] of it having been sent. *)
Definition conn_cut (part : bytes) (c : conn) : conn :=
  conn_close (Conn (c_rd c) (c_out c ++ part) (c_wr c) (c_rdl c) (c_wdl c) (c_closed c)).
Definition conn_shut (part : bytes) (s : sender Src) : sender Src :=
  Sender (mkWriter (conn_cut part (fw_w (sd_fw s))) (fw_buf (sd_fw s)) (fw_rand (sd_fw s))) (sd_src s) (sd_pacer s) (sd_rand s)
    (sd_clock s) (sd_lastActivityNs s) (sd_pendingPingSent s).
Definition shut_down (part : bytes) (c : bconn) : bconn := set_sd (conn_shut part (b_sd c)) (set_close CShut c).

(** What may have been sent of a frame that is in [conn.Write]. *)
Inductive in_flight (c : bconn) : bytes → Prop :=
  | flight_none : in_flight c []
  | flight_part f k :
      sender_frame (b_phase c) = Some f ∨ keep_frame (b_keep c) = Some f →
      Z.of_nat k < frame_total f → in_flight c (take k (fw_buf (sd_fw (b_sd c)))).

(** ** Steps of the sender goroutine *)
Inductive sender_step : bconn → bconn → Prop :=
  (** [case item := <-c.inbox]: a burst begins, from any waiting phase. *)
  | s_take c d rest :
      b_inbox c = d :: rest → (b_phase c = PIdle ∨ b_phase c = PDrain ∨ b_phase c = PThink) →
      sender_step c (set_phase (PCollect [d] (len d)) stateBurst (set_inbox rest c))
  (** ... or grows; at [MaxBurstBytes], or when the window ends, it is flushed. *)
  | s_collect c d rest burst total :
      b_inbox c = d :: rest → b_phase c = PCollect burst total → total + len d < p_MaxBurstBytes p →
      sender_step c (set_phase (PCollect (burst ++ [d]) (total + len d)) (b_state c) (set_inbox rest c))
  | s_full c d rest burst total :
      b_inbox c = d :: rest → b_phase c = PCollect burst total → p_MaxBurstBytes p <= total + len d →
      sender_step c (set_phase (PFlush (coalesceBurst (burst ++ [d]) (total + len d))) (b_state c) (set_inbox rest c))
  | s_window c burst total :
      b_phase c = PCollect burst total →
      sender_step c (set_phase (PFlush (coalesceBurst burst total)) (b_state c) c)
  (** [fragmentAndSend]: a fragment is sampled and cut off, built, and sent. *)
  | s_sample c remaining payload padLen rest sd' :
      b_phase c = PFlush remaining → remaining ≠ [] →
      sample_fragment remaining (b_sd c) = (Ok (Some (payload, padLen, rest)), sd') →
      sender_step c (set_sd sd' (set_phase (PFrame payload padLen rest) (b_state c) c))
  | s_hang c remaining sd' :
      b_phase c = PFlush remaining → remaining ≠ [] → sample_fragment remaining (b_sd c) = (Ok None, sd') →
      sender_step c (set_sd sd' (set_phase (PHung remaining) (b_state c) c))
  | s_fill c payload padLen rest before u sd' :
      b_phase c = PFrame payload padLen rest → frame_begin payload padLen (b_sd c) = (Ok (before, inl u), sd') →
      sender_step c (set_sd sd' (set_phase (PSend before payload padLen rest) (b_state c) (sender_filled c)))
  | s_fill_fails c payload padLen rest before e sd1 e' sd' :
      b_phase c = PFrame payload padLen rest → frame_begin payload padLen (b_sd c) = (Ok (before, inr e), sd1) →
      after_write before payload padLen rest (inr e) sd1 = (Err e', sd') →
      sender_step c (write_failed (set_sd sd' (sender_filled c)))
  | s_send c before payload padLen rest u sd' :
      b_phase c = PSend before payload padLen rest →
      frame_end before payload padLen rest (b_sd c) = (Ok u, sd') →
      sender_step c (set_sd sd' (set_phase (PFlush rest) (b_state c) c))
  | s_send_fails c before payload padLen rest e sd' :
      b_phase c = PSend before payload padLen rest →
      frame_end before payload padLen rest (b_sd c) = (Err e, sd') →
      sender_step c (write_failed (set_sd sd' c))
  | s_flushed c : b_phase c = PFlush [] → sender_step c (set_phase PDrain stateDrain c)
  (** Control frames: the answer to a PING is built and sent, its error dropped. *)
  | s_ping c f rest :
      b_pingCh c = f :: rest → selecting (b_phase c) = true →
      sender_step c (set_phase (PPong (f_Payload f) (b_phase c)) (b_state c) (set_pings rest c))
  | s_pong_fill c payload back u sd' :
      b_phase c = PPong payload back → on_fw (fill (pong_frame payload)) (b_sd c) = (Ok u, sd') →
      sender_step c (set_sd sd' (set_phase (PPongSend payload back) (b_state c) (sender_filled c)))
  | s_pong_fill_fails c payload back e sd' :
      b_phase c = PPong payload back → on_fw (fill (pong_frame payload)) (b_sd c) = (Err e, sd') →
      sender_step c (set_sd sd' (after_pong back (sender_filled c)))
  | s_pong_send c payload back u sd' :
      b_phase c = PPongSend payload back → try (on_fw (emit (pong_frame payload))) (b_sd c) = (Ok u, sd') →
      sender_step c (set_sd sd' (after_pong back c))
  | s_pong c f rest u sd' :
      b_pongCh c = f :: rest → (b_phase c = PDrain ∨ b_phase c = PThink) → processPong (b_sd c) = (u, sd') →
      sender_step c (set_sd sd' (set_phase PThink stateThink (set_pongs rest c)))
  (** Timers of the drain and think phases. *)
  | s_drained c : b_phase c = PDrain → sender_step c (set_phase PThink stateThink c)
  | s_thought c : b_phase c = PThink → sender_step c (set_phase PIdle stateIdle c)
  (** [case <-c.ctx.Done()]: the outer select ends the goroutine, the others
      return to it (a burst being collected is dropped). *)
  | s_exit c : b_done c = true → b_phase c = PIdle → sender_step c (set_phase PExit (b_state c) c)
  | s_abandon c : b_done c = true → selecting (b_phase c) = true → sender_step c (set_phase PIdle (b_state c) c).

(** ** Steps of the keepalive goroutine *)
Inductive keep_step : bconn → bconn → Prop :=
  | k_timer c u sd' : b_keep c = KWait → keep_wait (b_sd c) = (Ok u, sd') → keep_step c (set_sd sd' (set_keep KWoken c))
  | k_exit c : b_keep c = KWait → b_done c = true → keep_step c (set_keep KGone c)
  | k_look c : b_keep c = KWoken → keep_step c (set_keep (if busy (b_state c) then KWait else KLooked) c)
  | k_idle c idle sd' :
      b_keep c = KLooked → keep_idle (b_sd c) = (Ok idle, sd') →
      keep_step c (set_sd sd' (set_keep (if idle : bool then KPing else KWait) c))
  | k_fill c u sd' :
      b_keep c = KPing → ping_begin (b_sd c) = (Ok (inl u), sd') → keep_step c (set_sd sd' (set_keep KSend (keep_filled c)))
  | k_fill_fails c e sd' :
      b_keep c = KPing → ping_begin (b_sd c) = (Ok (inr e), sd') → keep_step c (set_sd sd' (set_keep KGone (keep_filled c)))
  | k_send c u sd' :
      b_keep c = KSend → on_fw (emit ping_frame) (b_sd c) = (Ok u, sd') → keep_step c (set_sd sd' (set_keep KWait c))
  | k_send_fails c e sd' :
      b_keep c = KSend → on_fw (emit ping_frame) (b_sd c) = (Err e, sd') → keep_step c (set_sd sd' (set_keep KGone c)).

(** ** Steps of the others: callers of [Write], the reader ([Read], which notes
    the time of a frame and may queue it for the sender), and [Close], which
    cancels the context, closes the connection, and returns when both goroutines
    are gone. *)
Inductive env_step : bconn → bconn → Prop :=
  | e_write b c c' : Conn_Write b c = Some c' → env_step c c'
  | e_received c u sd' : received (b_sd c) = (Ok u, sd') → env_step c (set_sd sd' c)
  | e_offer_ping f c : env_step c (set_pings (chan_offer f (b_pingCh c)) c)
  | e_offer_pong f c : env_step c (set_pongs (chan_offer f (b_pongCh c)) c)
  | e_cancel c : b_close c = COpen → env_step c (set_close CCancelled c)
  | e_shut c part : b_close c = CCancelled → in_flight c part → env_step c (shut_down part c)
  | e_return c : b_close c = CShut → b_phase c = PExit → b_keep c = KGone → env_step c (set_close CReturned c).

Inductive step (c c' : bconn) : Prop :=
  | by_sender : sender_step c c' → step c c'
  | by_keepalive : keep_step c c' → step c c'
  | by_others : env_step c c' → step c c'.

(** [Wrap]: a new connection over a writer. *)
Definition bconn_init (sd : sender Src) : bconn := BConn [] [] [] PIdle stateIdle sd false KWait COpen [] 0 false.

(** ** What the operations do to the writer *)

(** An operation that leaves the writer alone and keeps the size source in order. *)
Definition off_wire (s s' : sender Src) : Prop := sd_fw s' = sd_fw s ∧ (sd_wf s → sd_wf s').

Lemma same_io_off s s' : same_io s s' → off_wire s s'.
Proof. intros [H1 H2]. split; [done|]. unfold sd_wf. by rewrite H2. Qed.

Lemma on_fw_eq {A} (m : M Writer A) (s : sender Src) :
  on_fw m s = (fst (m (sd_fw s)), Sender (snd (m (sd_fw s))) (sd_src s) (sd_pacer s) (sd_rand s) (sd_clock s)
    (sd_lastActivityNs s) (sd_pendingPingSent s)).
Proof. unfold on_fw, zoom. by destruct (m (sd_fw s)). Qed.

Lemma same_src_wf (s s' : sender Src) : sd_src s' = sd_src s → sd_wf s → sd_wf s'.
Proof. unfold sd_wf. by intros ->. Qed.

(** A frame has been built, or building it has failed: nothing is on the wire. *)
Definition filled {A} (f : Frame) (r : result A) (s s' : sender Src) : Prop :=
  fw_w (sd_fw s') = fw_w (sd_fw s) ∧ len (fw_buf (sd_fw s)) <= len (fw_buf (sd_fw s')) ∧ sd_src s' = sd_src s ∧
  match r with
  | Ok _ => len (f_Payload f) <= MaxPayloadSize ∧ f_PadLen f <= MaxPaddingSize ∧ holds f (sd_fw s')
  | Err _ => True
  | Panic => False
  end.

Lemma on_fw_fill f s : 0 <= f_PadLen f → filled f (fst (on_fw (fill f) s)) s (snd (on_fw (fill f) s)).
Proof.
  intros Hp. rewrite on_fw_eq. pose proof (fill_run f (sd_fw s) Hp) as Hf. unfold filled. cbn [fst snd sd_fw sd_src].
  destruct (fill f (sd_fw s)) as [[u|e|] fw]; cbn [fst snd]; [| |done]; destruct_and?; split_and!; auto.
Qed.

(** What [conn.Write] does with [part], by whether the connection is closed. *)
Definition emitted {A} (part : bytes) (r : result A) (s s' : sender Src) : Prop :=
  fw_buf (sd_fw s') = fw_buf (sd_fw s) ∧ sd_src s' = sd_src s ∧ c_wr (fw_w (sd_fw s')) = [] ∧
  c_closed (fw_w (sd_fw s')) = c_closed (fw_w (sd_fw s)) ∧
  if c_closed (fw_w (sd_fw s)) then (∃ e, r = Err e) ∧ c_out (fw_w (sd_fw s')) = c_out (fw_w (sd_fw s))
  else (∃ u, r = Ok u) ∧ c_out (fw_w (sd_fw s')) = c_out (fw_w (sd_fw s)) ++ part.

Lemma on_fw_emit f s : fits f (sd_fw s) → c_wr (fw_w (sd_fw s)) = [] →
  emitted (take (Z.to_nat (frame_total f)) (fw_buf (sd_fw s))) (fst (on_fw (emit f) s)) s (snd (on_fw (emit f) s)).
Proof.
  intros Hf Hw. rewrite on_fw_eq, (emit_run f (sd_fw s) Hf). unfold emitted, on_fw_w, zoom, conn_Write.
  cbn [fst snd sd_fw sd_src]. destruct (c_closed (fw_w (sd_fw s))) eqn:Hc; cbn [fst snd fw_w fw_buf]; [rewrite Hc; by eauto 10|]. rewrite Hw. cbn. split_and!; eauto.
Qed.

Lemma frame_begin_run payload padLen s : 0 <= padLen →
  ∃ t r s', frame_begin payload padLen s = (Ok (t, r), s') ∧
    filled (data_frame payload padLen) (match r with inl _ => Ok tt | inr e => Err e end) s s'.
Proof.
  intros Hp. unfold frame_begin. destruct (now_run s) as (t & s1 & E & Hfw & Hsrc). erewrite bind_Ok by exact E.
  pose proof (on_fw_fill (data_frame payload padLen) s1 Hp) as Hf. unfold try at 1. unfold bind at 1.
  unfold filled in *. rewrite Hfw, Hsrc in Hf.
  destruct (on_fw (fill _) s1) as [[[]|e|] s2]; cbn [fst snd] in Hf; [exists t, (inl tt), s2|exists t, (inr e), s2|by destruct_and?];
    (split; [reflexivity|exact Hf]).
Qed.

Lemma frame_end_run t payload padLen rest s :
  let f := data_frame payload padLen in
  fits f (sd_fw s) → c_wr (fw_w (sd_fw s)) = [] →
  emitted (take (Z.to_nat (frame_total f)) (fw_buf (sd_fw s))) (fst (frame_end t payload padLen rest s)) s
    (snd (frame_end t payload padLen rest s)).
Proof.
  intros f Hf Hw. pose proof (on_fw_emit f s Hf Hw) as He. unfold frame_end, try, bind. fold f.
  destruct (on_fw (emit f) s) as [r s1]. cbn [fst snd] in He.
  assert (Hr : ∀ err, emitted (take (Z.to_nat (frame_total f)) (fw_buf (sd_fw s)))
      (match err with inl _ => Ok tt | inr e => Err (ErrWrap "bcl: write frame" e) end) s s1 →
    emitted (take (Z.to_nat (frame_total f)) (fw_buf (sd_fw s)))
      (fst (after_write t payload padLen rest err s1)) s (snd (after_write t payload padLen rest err s1))).
  { intros err Hs. destruct (after_write_run t payload padLen rest err s1) as (s2 & -> & Hfw & Hsrc).
    unfold emitted in *. cbn [fst snd]. by rewrite Hfw, Hsrc. }
  destruct He as (H1 & H2 & H3 & H4 & He).
  assert (He' : ∃ err : unit + error, match err with inl _ => ∃ u, r = Ok u | inr e => r = Err e end).
  { destruct (c_closed (fw_w (sd_fw s))); destruct He as [[x ->] _]; [by exists (inr x)|exists (inl x); by exists x]. }
  destruct He' as [[u|e] Hx]; [destruct Hx as [u' ->]; refine (Hr (inl u') _)|subst r; refine (Hr (inr e) _)];
    unfold emitted; destruct (c_closed (fw_w (sd_fw s))); destruct He as [[x Hx] ?]; try done; split_and!; eauto.
Qed.

Lemma ping_begin_run s :
  ∃ r s', ping_begin s = (Ok r, s') ∧ filled ping_frame (match r with inl _ => Ok tt | inr e => Err e end) s s'.
Proof.
  unfold ping_begin. destruct (now_run s) as (t & s1 & E & Hfw & Hsrc). erewrite bind_Ok by exact E.
  erewrite bind_Ok by reflexivity.
  match goal with |- context [try _ ?x] => pose proof (on_fw_fill ping_frame x (Z.le_refl 0)) as Hf; set (s2 := x) in * end.
  unfold filled in *. change (sd_fw s2) with (sd_fw s1) in Hf. change (sd_src s2) with (sd_src s1) in Hf.
  rewrite Hfw, Hsrc in Hf. unfold try.
  destruct (on_fw (fill _) s2) as [[[]|e|] s3]; cbn [fst snd] in Hf; [exists (inl tt), s3|exists (inr e), s3|by destruct_and?];
    (split; [reflexivity|exact Hf]).
Qed.

Lemma uniformJitter_ok spread r : ∃ j r', uniformJitter spread r = (Ok j, r').
Proof.
  unfold uniformJitter. destruct (Z.leb_spec spread 0); [by do 2 eexists|].
  unfold bind, rand_Int63n, mr_next. rewrite (proj2 (Z.leb_gt _ _)) by lia. by do 2 eexists.
Qed.

Lemma keep_wait_run s : ∃ s', keep_wait s = (Ok tt, s') ∧ same_io s s'.
Proof.
  unfold keep_wait, keepalive_interval, on_mrand, on_sclock, zoom, bind.
  destruct (uniformJitter_ok (p_KeepaliveJitter p) (sd_rand s)) as (j & r' & ->). by eexists.
Qed.

Lemma keep_idle_run s : ∃ b s', keep_idle s = (Ok b, s') ∧ same_io s s'.
Proof.
  unfold keep_idle. destruct (now_run s) as (t & s1 & E & Hs). erewrite bind_Ok by exact E. by do 2 eexists.
Qed.

Lemma received_run s : ∃ s', received s = (Ok tt, s') ∧ same_io s s'.
Proof.
  unfold received. destruct (now_run s) as (t & s1 & E & Hs). erewrite bind_Ok by exact E. by eexists.
Qed.

Lemma processPong_run (s : sender Src) u s' : processPong s = (u, s') → same_io s s'.
Proof.
  unfold processPong. erewrite bind_Ok by done. erewrite bind_Ok by done.
  destruct (sd_pendingPingSent s =? 0); [by intros [= <- <-]|].
  match goal with |- context [bind (on_sclock _) _ ?x] => destruct (now_run x) as (t & s1 & E & Hfw & Hsrc) end.
  erewrite bind_Ok by exact E. by intros [= <- <-].
Qed.

(** ** The books: what is on the wire and what was accepted *)

Definition sent_type (f : Frame) : Prop := f_Type f = TypeData ∨ f_Type f = TypePong ∨ f_Type f = TypePing.

(** What a closed connection may have after the last whole frame: a proper
    prefix of one. *)
Definition torn_part (closed : bool) (torn : bytes) : Prop :=
  torn = [] ∨ closed = true ∧ ∃ f pad k, frame_sendable f ∧ sent_type f ∧ len pad = f_PadLen f ∧
    Z.of_nat k < frame_total f ∧ torn = take k (frame_bytes f pad).

(** [out] is [out0] and whole frames, then the torn one; [quiet]: no PING among
    them; the data in them and then [rest] are what was accepted, in order, with
    parts of it missing unless [exact]. *)
Definition ledger (out0 out : bytes) (closed quiet exact : bool) (rest acc : bytes) : Prop :=
  ∃ w fs torn, out = out0 ++ w ++ torn ∧ frames_wire fs w ∧ Forall sent_type fs ∧
    (quiet = true → Forall (λ f, f_Type f ≠ TypePing) fs) ∧ torn_part closed torn ∧
    sublist (data_payload fs ++ rest) acc ∧ (exact = true → data_payload fs ++ rest = acc).

Lemma ledger_init out0 : ledger out0 out0 false true true [] [].
Proof. exists [], [], []. rewrite app_nil_r. split_and!; try constructor; done. Qed.

(** Less is promised. *)
Lemma ledger_weaken out0 out cl q e q' e' rest acc :
  ledger out0 out cl q e rest acc → (q' = true → q = true) → (e' = true → e = true) →
  ledger out0 out cl q' e' rest acc.
Proof. intros (w & fs & torn & H1 & H2 & H3 & H4 & H5 & H6 & H7) Hq He. exists w, fs, torn. split_and!; auto. Qed.

(** A write is accepted; something not yet sent is dropped. *)
Lemma ledger_accept out0 out cl q e rest acc b :
  ledger out0 out cl q e rest acc → ledger out0 out cl q e (rest ++ b) (acc ++ b).
Proof.
  intros (w & fs & torn & H1 & H2 & H3 & H4 & H5 & H6 & H7). exists w, fs, torn. split_and!; auto.
  - rewrite app_assoc. by apply sublist_app.
  - intros He. by rewrite app_assoc, H7.
Qed.

Lemma ledger_drop out0 out cl q e d rest acc :
  ledger out0 out cl q e (d ++ rest) acc → ledger out0 out cl q false rest acc.
Proof.
  intros (w & fs & torn & H1 & H2 & H3 & H4 & H5 & H6 & H7). exists w, fs, torn. split_and!; auto; [|done].
  etrans; [|exact H6]. apply sublist_app; [done|]. by apply sublist_inserts_l.
Qed.

(** A frame goes out whole on an open connection. *)
Lemma ledger_send out0 out q e f pad rest acc :
  ledger out0 out false q e (data_of f ++ rest) acc →
  frame_sendable f → sent_type f → (q = true → f_Type f ≠ TypePing) → len pad = f_PadLen f →
  ledger out0 (out ++ frame_bytes f pad) false q e rest acc.
Proof.
  intros (w & fs & torn & H1 & H2 & H3 & H4 & H5 & H6 & H7) Hf Ht Hq Hp.
  destruct H5 as [->|[? _]]; [|done]. rewrite app_nil_r in H1.
  assert (Hd : data_payload (fs ++ [f]) ++ rest = data_payload fs ++ data_of f ++ rest).
  { rewrite data_payload_app, <- app_assoc. f_equal. unfold data_payload. cbn. by rewrite app_nil_r. }
  exists (w ++ frame_bytes f pad), (fs ++ [f]), []. rewrite Hd, app_nil_r. split_and!; auto.
  - by rewrite H1, app_assoc.
  - apply frames_wire_app; [done|]. by apply frames_wire_one.
  - apply Forall_app. split; [done|by apply Forall_singleton].
  - intros Hqt. apply Forall_app. split; [by apply H4|apply Forall_singleton; by apply Hq].
  - by left.
Qed.

(** The connection is closed, with part of a frame sent. *)
Lemma ledger_close out0 out q e rest acc torn :
  ledger out0 out false q e rest acc → torn_part true torn → ledger out0 (out ++ torn) true q false rest acc.
Proof.
  intros (w & fs & torn0 & H1 & H2 & H3 & H4 & H5 & H6 & H7) Ht.
  destruct H5 as [->|[? _]]; [|done]. rewrite app_nil_r in H1.
  exists w, fs, torn. split_and!; auto; [by rewrite H1, app_assoc|done].
Qed.

(** ** Invariant *)

(** The bytes of accepted writes that the sender holds. *)
Fixpoint held (ph : phase) : bytes :=
  match ph with
  | PCollect burst _ => concat burst
  | PFlush rest | PHung rest => rest
  | PFrame payload _ rest | PSend _ payload _ rest => payload ++ rest
  | PPong _ back | PPongSend _ back => held back
  | _ => []
  end.
Definition collected (c : bconn) : bytes := held (b_phase c).

(** The state the goroutine shows to the keepalive loop. *)
Fixpoint shows (ph : phase) (st : connState) : Prop :=
  match ph with
  | PCollect _ _ | PFlush _ | PHung _ | PFrame _ _ _ | PSend _ _ _ _ => st = stateBurst
  | PPong _ back | PPongSend _ back => shows back st
  | PDrain => st = stateDrain
  | PThink => st = stateThink
  | PIdle | PExit => True
  end.
Definition state_ok (c : bconn) : Prop := shows (b_phase c) (b_state c).

Definition phase_ok (ph : phase) : Prop :=
  match ph with
  | PFrame payload padLen _ | PSend _ payload padLen _ => 0 <= padLen <= MaxPaddingSize ∧ 1 <= len payload <= MaxPayloadSize
  | PPong _ back => selecting back = true
  | PPongSend payload back => selecting back = true ∧ len payload <= MaxPayloadSize
  | _ => True
  end.

Lemma sender_frame_ok ph f : phase_ok ph → sender_frame ph = Some f →
  frame_sendable f ∧ sent_type f ∧ f_Type f ≠ TypePing ∧ 0 <= f_PadLen f.
Proof.
  unfold sent_type, frame_sendable, frame_wf, MaxPaddingSize.
  destruct ph; cbn; try done; intros Hph [= <-]; cbn; pose proof (len_nonneg payload); unfold MaxPaddingSize, MaxPayloadSize in *;
    (split_and!; [lia..|auto|done|lia]).
Qed.

Lemma ping_frame_ok : frame_sendable ping_frame ∧ sent_type ping_frame.
Proof. split; [vm_compute; repeat split; discriminate|by right; right]. Qed.

(** The frames waiting in the buffer: at most one, and the buffer holds it. *)
Definition waiting_ok (sf kf : option Frame) (fw : Writer) : Prop :=
  match sf, kf with
  | Some f, None | None, Some f => holds f fw
  | None, None => True
  | Some _, Some _ => False
  end.

Definition wire (c : bconn) : conn := fw_w (sd_fw (b_sd c)).
Definition quiet (c : bconn) : bool := (b_pings c =? 0)%nat.
Definition exact (c : bconn) : bool := negb (b_done c) && negb (b_writeErr c).
Definition unsent (c : bconn) : bytes := collected c ++ concat (b_inbox c).

Definition books (out0 : bytes) (c : bconn) : Prop :=
  waiting_ok (sender_frame (b_phase c)) (keep_frame (b_keep c)) (sd_fw (b_sd c)) ∧
  ledger out0 (c_out (wire c)) (is_shut (b_close c)) (quiet c) (exact c) (unsent c) (b_accepted c).

Record inv (out0 : bytes) (c : bconn) : Prop := {
  inv_wf : sd_wf (b_sd c);
  inv_wr : c_wr (wire c) = [];
  inv_closed : c_closed (wire c) = is_shut (b_close c);
  inv_returned : b_close c = CReturned → b_phase c = PExit ∧ b_keep c = KGone;
  inv_state : state_ok c;
  inv_inbox : (length (b_inbox c) <= 256)%nat;
  inv_phase : phase_ok (b_phase c);
  inv_sfits : ∀ f, sender_frame (b_phase c) = Some f → fits f (sd_fw (b_sd c));
  inv_kfits : ∀ f, keep_frame (b_keep c) = Some f → fits f (sd_fw (b_sd c));
  inv_quiet : b_pings c = 0%nat → b_raced c = false ∧ b_keep c ≠ KSend;
  inv_books : b_raced c = false → books out0 c
}.

Lemma inv_init sd : sd_ok sd → inv (c_out (fw_w (sd_fw sd))) (bconn_init sd).
Proof.
  intros [Hs [Hc Hw]]. constructor; cbn; try done; [lia|]. intros _. split; [done|]. apply ledger_init.
Qed.

(** The writer is as it was, or has a buffer at least as long. *)
Lemma fits_kept (ph : option Frame) fw fw' :
  (∀ f, ph = Some f → fits f fw) → len (fw_buf fw) <= len (fw_buf fw') → ∀ f, ph = Some f → fits f fw'.
Proof. intros Hf Hl f E. eapply fits_mono; [by apply Hf|done]. Qed.

(** ** Every step keeps the invariant *)

(** What a step of the sender goroutine leaves alone, and what it must show. *)
Record sender_move (c c' : bconn) : Prop := {
  sm_alive : b_phase c ≠ PExit;
  sm_keep : b_keep c' = b_keep c;
  sm_close : b_close c' = b_close c;
  sm_accepted : b_accepted c' = b_accepted c;
  sm_pings : b_pings c' = b_pings c;
  sm_err : b_writeErr c' = false → b_writeErr c = false;
  sm_inbox : (length (b_inbox c') <= 256)%nat;
  sm_state : state_ok c';
  sm_phase : phase_ok (b_phase c')
}.

Lemma exact_move c c' : sender_move c c' → exact c' = true → exact c = true.
Proof.
  intros Hm. unfold exact, b_done. rewrite (sm_close _ _ Hm).
  intros [H1 H2%negb_true_iff]%andb_true_iff. by rewrite H1, (sm_err _ _ Hm H2).
Qed.

Lemma shut_not_exact c : is_shut (b_close c) = true → exact c = false.
Proof. unfold exact, b_done. by destruct (b_close c). Qed.

(** The sender neither touches the buffer nor writes; it may drop what it holds
    if it then no longer promises everything. *)
Lemma inv_sender_off out0 c c' d :
  inv out0 c → sender_move c c' → off_wire (b_sd c) (b_sd c') → b_raced c' = b_raced c →
  sender_frame (b_phase c') = None → unsent c = d ++ unsent c' → (d = [] ∨ exact c' = false) → inv out0 c'.
Proof.
  intros Hi Hm [Hfw Hwf] Hr Hsf Hu Hd. destruct Hi as [I1 I2 I3 I4 I5 I6 I7 I8 I9 I10 I11].
  pose proof (exact_move c c' Hm) as Hex. destruct Hm as [M1 M2 M3 M4 M5 M6 M7 M8 M9]. unfold wire in *.
  constructor; unfold wire; rewrite ?Hfw, ?M2, ?M3, ?M5; auto.
  - intros E. by destruct (I4 E).
  - rewrite Hsf. done.
  - rewrite Hr. done.
  - rewrite Hr. intros Hnr. destruct (I11 Hnr) as [Hw Hl]. unfold books, wire, quiet. rewrite Hsf, Hfw, M2, M3, M4, M5. split.
    { destruct (sender_frame (b_phase c)), (keep_frame (b_keep c)); done. }
    rewrite Hu in Hl. destruct Hd as [->|Hd]; [by eapply ledger_weaken; [exact Hl|done|]|].
    rewrite Hd. by eapply ledger_drop.
Qed.

(** The sender builds [f]. *)
Lemma inv_sender_fill {A} out0 c c' d f (r : result A) :
  inv out0 c → sender_move c c' → filled f r (b_sd c) (b_sd c') →
  b_raced c' = b_raced c || present (keep_frame (b_keep c)) →
  (sender_frame (b_phase c') = None ∨ sender_frame (b_phase c') = Some f ∧ is_ok r = true) →
  unsent c = d ++ unsent c' → (d = [] ∨ exact c' = false) → inv out0 c'.
Proof.
  intros Hi Hm (Hfw & Hbuf & Hsr & Hf) Hr Hsf Hu Hd. destruct Hi as [I1 I2 I3 I4 I5 I6 I7 I8 I9 I10 I11].
  pose proof (exact_move c c' Hm) as Hex. destruct Hm as [M1 M2 M3 M4 M5 M6 M7 M8 M9]. pose proof (same_src_wf _ _ Hsr) as Hwf. unfold wire in *.
  assert (Hholds : ∀ g, sender_frame (b_phase c') = Some g → holds g (sd_fw (b_sd c'))).
  { intros g Hg. destruct Hsf as [Hsf|[Hsf Hok]]; [congruence|]. rewrite Hsf in Hg. injection Hg as <-. destruct r; [by apply Hf|done|done]. }
  constructor; unfold wire; rewrite ?Hfw, ?M2, ?M3, ?M5; auto.
  - intros E. by destruct (I4 E).
  - intros g Hg. apply holds_fits. by apply Hholds.
  - by eapply fits_kept.
  - intros Hp. destruct (I10 Hp) as [H1 H2]. split; [|done]. rewrite Hr, H1. by destruct (b_keep c).
  - rewrite Hr. intros [Hnr Hk]%orb_false_iff. destruct (I11 Hnr) as [_ Hl]. unfold books, wire, quiet. rewrite Hfw, M2, M3, M4, M5. split.
    { destruct (keep_frame (b_keep c)); [done|]. destruct (sender_frame (b_phase c')); [by apply Hholds|done]. }
    rewrite Hu in Hl. destruct Hd as [->|Hd]; [by eapply ledger_weaken; [exact Hl|done|]|].
    rewrite Hd. by eapply ledger_drop.
Qed.

(** The sender gives the buffer, in which it built [f], to the connection. *)
Lemma inv_sender_send {A} out0 c c' d f (r : result A) :
  inv out0 c → sender_move c c' → sender_frame (b_phase c) = Some f → sender_frame (b_phase c') = None →
  emitted (take (Z.to_nat (frame_total f)) (fw_buf (sd_fw (b_sd c)))) r (b_sd c) (b_sd c') →
  b_raced c' = b_raced c → unsent c = d ++ unsent c' →
  (c_closed (wire c) = false → d = data_of f) → inv out0 c'.
Proof.
  intros Hi Hm Hsf Hsf' (Hbuf & Hsr & Hwr & Hcl & Hem) Hr Hu Hd. destruct Hi as [I1 I2 I3 I4 I5 I6 I7 I8 I9 I10 I11].
  pose proof (exact_move c c' Hm) as Hex. destruct Hm as [M1 M2 M3 M4 M5 M6 M7 M8 M9]. pose proof (same_src_wf _ _ Hsr) as Hwf. unfold wire in *.
  constructor; unfold wire; rewrite ?M2, ?M3, ?M5; auto; [congruence| | | | |].
  - intros E. by destruct (I4 E).
  - rewrite Hsf'. done.
  - eapply fits_kept; [exact I9|]. rewrite Hbuf. lia.
  - rewrite Hr. done.
  - rewrite Hr. intros Hnr. destruct (I11 Hnr) as [Hw Hl]. unfold books, wire, quiet. rewrite Hsf', M2, M3, M4, M5.
    rewrite Hsf in Hw. destruct (keep_frame (b_keep c)) eqn:Hk; [done|]. split; [done|]. rewrite Hu in Hl.
    destruct (sender_frame_ok _ _ I7 Hsf) as (Hs & Ht & Hnp & _). rewrite I3 in Hem, Hd. unfold wire in Hl.
    destruct (is_shut (b_close c)) eqn:Hsh.
    + destruct Hem as [_ ->]. eapply ledger_weaken; [by eapply ledger_drop|done|].
      intros He%Hex. by rewrite (shut_not_exact c Hsh) in He.
    + destruct Hem as [_ ->]. rewrite (Hd eq_refl) in Hl. destruct (emit_holds f _ Hw) as (pad & Hp & -> & _).
      eapply ledger_weaken; [by apply ledger_send|done|done].
Qed.

Lemma off_refl (s : sender Src) : off_wire s s.
Proof. done. Qed.

(** The selects and the timers. *)
Lemma sender_alive c c' : sender_step c c' → b_phase c ≠ PExit.
Proof. intros Hs E. destruct Hs; rewrite E in *; destruct_or?; done. Qed.


(** The flush, frame by frame. *)

Lemma step_fill out0 c payload padLen rest before r sd' :
  inv out0 c → b_phase c = PFrame payload padLen rest → frame_begin payload padLen (b_sd c) = (Ok (before, r), sd') →
  match r with
  | inl _ => inv out0 (set_sd sd' (set_phase (PSend before payload padLen rest) (b_state c) (sender_filled c)))
  | inr e => ∀ e' sd2, after_write before payload padLen rest (inr e) sd' = (Err e', sd2) →
      inv out0 (write_failed (set_sd sd2 (sender_filled c)))
  end.
Proof.
  intros Hi Hph Hr. pose proof (inv_state _ _ Hi) as Hst. pose proof (inv_phase _ _ Hi) as Hok. pose proof (inv_inbox _ _ Hi) as Hin.
  unfold state_ok in Hst. rewrite Hph in Hst, Hok. cbn in Hst, Hok.
  destruct (frame_begin_run payload padLen (b_sd c) ltac:(lia)) as (t & r' & s' & E & Hf). rewrite Hr in E. injection E as <- <- <-.
  destruct r as [u|e].
  - eapply (inv_sender_fill out0 c _ [] (data_frame payload padLen) _ Hi); [|exact Hf|done|by right|by unfold unsent, collected; cbn; rewrite Hph|by left].
    constructor; cbn; try done; congruence.
  - intros e' sd2 Ha. destruct (after_write_run before payload padLen rest (inr e) sd') as (s3 & E & Hfw & Hsrc).
    rewrite Ha in E. injection E as _ <-.
    eapply (inv_sender_fill out0 c _ (payload ++ rest) (data_frame payload padLen) (@Err unit e) Hi); [|unfold filled in *; cbn [write_failed set_err set_sd set_phase b_sd]; rewrite Hfw, Hsrc; exact Hf|done|by left| |].
    + constructor; cbn; try done; congruence.
    + unfold unsent, collected. cbn. by rewrite Hph.
    + right. unfold exact. cbn. by rewrite andb_false_r.
Qed.

Lemma step_send out0 c before payload padLen rest r sd' :
  inv out0 c → b_phase c = PSend before payload padLen rest → frame_end before payload padLen rest (b_sd c) = (r, sd') →
  match r with
  | Ok _ => inv out0 (set_sd sd' (set_phase (PFlush rest) (b_state c) c))
  | Err _ => inv out0 (write_failed (set_sd sd' c))
  | Panic => False
  end.
Proof.
  intros Hi Hph Hr. pose proof (inv_state _ _ Hi) as Hst. pose proof (inv_inbox _ _ Hi) as Hin.
  unfold state_ok in Hst. rewrite Hph in Hst. cbn in Hst.
  assert (Hsf : sender_frame (b_phase c) = Some (data_frame payload padLen)) by (by rewrite Hph).
  pose proof (frame_end_run before payload padLen rest (b_sd c) (inv_sfits _ _ Hi _ Hsf) (inv_wr _ _ Hi)) as He.
  rewrite Hr in He. cbn [fst snd] in He. pose proof He as (_ & _ & _ & _ & Hout). unfold wire in *.
  destruct r as [u|e|]; [| |by destruct (c_closed _), Hout as [[]]].
  - eapply (inv_sender_send out0 c _ payload _ _ Hi); [|exact Hsf|done|exact He|done| |done].
    + constructor; cbn; try done; congruence.
    + unfold unsent, collected. cbn. rewrite Hph. cbn. by rewrite <- app_assoc.
  - eapply (inv_sender_send out0 c _ (payload ++ rest) _ _ Hi); [|exact Hsf|done|exact He|done| |].
    + constructor; cbn; try done; congruence.
    + unfold unsent, collected. cbn. by rewrite Hph.
    + unfold wire. intros Hc. rewrite Hc in Hout. by destruct Hout as [[] _].
Qed.

(** The answer to a PING. *)
Lemma after_pong_phase back c : selecting back = true →
  sender_frame (b_phase (after_pong back c)) = None ∧ phase_ok (b_phase (after_pong back c)) ∧
  held (b_phase (after_pong back c)) = held back ∧ b_phase (after_pong back c) ≠ PExit ∧
  (shows back (b_state c) → state_ok (after_pong back c)).
Proof. by destruct back. Qed.

Lemma after_pong_fields back c :
  b_keep (after_pong back c) = b_keep c ∧ b_close (after_pong back c) = b_close c ∧ b_accepted (after_pong back c) = b_accepted c ∧
  b_pings (after_pong back c) = b_pings c ∧ b_raced (after_pong back c) = b_raced c ∧ b_writeErr (after_pong back c) = b_writeErr c ∧
  b_inbox (after_pong back c) = b_inbox c.
Proof. by destruct back. Qed.

Lemma after_pong_move back sd' c c' :
  b_phase c ≠ PExit → (length (b_inbox c) <= 256)%nat → selecting back = true → shows back (b_state c) →
  c' = c ∨ c' = sender_filled c → sender_move c (set_sd sd' (after_pong back c')).
Proof.
  intros Ha Hin Hb Hs Hc'. destruct (after_pong_phase back c' Hb) as (_ & H1 & _ & _ & H2).
  destruct (after_pong_fields back c') as (F1 & F2 & F3 & F4 & F5 & F6 & F7).
  destruct Hc' as [-> | ->]; constructor; cbn; rewrite ?F1, ?F2, ?F3, ?F4, ?F6, ?F7; try done; by apply H2.
Qed.

Lemma step_pong_fill out0 c payload back r sd' :
  inv out0 c → b_phase c = PPong payload back → on_fw (fill (pong_frame payload)) (b_sd c) = (r, sd') →
  match r with
  | Ok _ => inv out0 (set_sd sd' (set_phase (PPongSend payload back) (b_state c) (sender_filled c)))
  | Err _ => inv out0 (set_sd sd' (after_pong back (sender_filled c)))
  | Panic => False
  end.
Proof.
  intros Hi Hph Hr. pose proof (inv_state _ _ Hi) as Hst. pose proof (inv_phase _ _ Hi) as Hok. pose proof (inv_inbox _ _ Hi) as Hin.
  unfold state_ok in Hst. rewrite Hph in Hst, Hok. cbn in Hst, Hok.
  pose proof (on_fw_fill (pong_frame payload) (b_sd c) (Z.le_refl 0)) as Hf. rewrite Hr in Hf. cbn [fst snd] in Hf.
  destruct r as [u|e|]; [| |by destruct Hf as (_ & _ & _ & [])].
  - eapply (inv_sender_fill out0 c _ [] (pong_frame payload) _ Hi); [|exact Hf|done|by right|by unfold unsent, collected; cbn; rewrite Hph|by left].
    constructor; cbn; try done; [congruence|]. split; [done|]. by destruct Hf as (_ & _ & _ & ? & _).
  - destruct (after_pong_phase back (sender_filled c) Hok) as (H1 & H2 & H3 & H4 & H5).
    destruct (after_pong_fields back (sender_filled c)) as (F1 & F2 & F3 & F4 & F5 & F6 & F7).
    eapply (inv_sender_fill out0 c _ [] (pong_frame payload) _ Hi); [|exact Hf| | | |by left]; cbn.
    + apply after_pong_move; [congruence|done|done|done|by right].
    + by rewrite F5.
    + by left.
    + unfold unsent, collected. cbn. by rewrite H3, F7, Hph.
Qed.

Lemma step_pong_send out0 c payload back u sd' :
  inv out0 c → b_phase c = PPongSend payload back → try (on_fw (emit (pong_frame payload))) (b_sd c) = (Ok u, sd') →
  inv out0 (set_sd sd' (after_pong back c)).
Proof.
  intros Hi Hph Hr. pose proof (inv_state _ _ Hi) as Hst. pose proof (inv_phase _ _ Hi) as Hok. pose proof (inv_inbox _ _ Hi) as Hin.
  unfold state_ok in Hst. rewrite Hph in Hst, Hok. cbn in Hst, Hok. destruct Hok as [Hok Hl].
  assert (Hsf : sender_frame (b_phase c) = Some (pong_frame payload)) by (by rewrite Hph).
  pose proof (on_fw_emit _ (b_sd c) (inv_sfits _ _ Hi _ Hsf) (inv_wr _ _ Hi)) as He. unfold try in Hr.
  destruct (on_fw (emit (pong_frame payload)) (b_sd c)) as [r sd2]. cbn [fst snd] in He.
  assert (sd2 = sd') as -> by (destruct r; [by injection Hr as _ ->|by injection Hr as _ ->|done]).
  destruct (after_pong_phase back c Hok) as (H1 & H2 & H3 & H4 & H5).
  destruct (after_pong_fields back c) as (F1 & F2 & F3 & F4 & F5 & F6 & F7).
  eapply (inv_sender_send out0 c _ [] _ _ Hi); [|exact Hsf|done|exact He|done| |done].
  - apply after_pong_move; [congruence|done|done|done|by left].
  - unfold unsent, collected. cbn. by rewrite H3, F7, Hph.
Qed.

(** The selects, the timers and the sampling: off the wire, nothing dropped but
    by [ctx.Done()]. *)
Lemma collect_step_inv out0 c c' :
  inv out0 c → sender_move c c' → off_wire (b_sd c) (b_sd c') → b_raced c' = b_raced c →
  sender_frame (b_phase c') = None → unsent c' = unsent c → inv out0 c'.
Proof. intros Hi Hm Ho Hr Hs Hu. apply (inv_sender_off out0 c c' [] Hi Hm Ho Hr Hs); [by rewrite Hu|by left]. Qed.

Lemma sample_fragment_off remaining s r s' :
  sd_wf s → remaining ≠ [] → sample_fragment remaining s = (r, s') → off_wire s s' ∧
  match r with
  | Ok (Some (payload, padLen, rest)) =>
      0 <= padLen <= MaxPaddingSize ∧ 1 <= len payload <= MaxPayloadSize ∧ remaining = payload ++ rest
  | Ok None => True
  | _ => False
  end.
Proof.
  intros Hs Hne Hr. destruct (sample_fragment_run remaining s Hs Hne) as (o & s1 & E & Hfw & Hwf & Ho).
  rewrite Hr in E. injection E as -> ->. split; [by split|]. destruct o as [[[? ?] ?]|]; [|done]. destruct Ho. by split.
Qed.

(** [ctx.Done()] in a select: what has been collected is dropped. *)
Lemma step_abandon out0 c : inv out0 c → b_done c = true → selecting (b_phase c) = true →
  inv out0 (set_phase PIdle (b_state c) c).
Proof.
  intros Hi Hd Hph. eapply (inv_sender_off out0 c _ (collected c) Hi); [|done|done|done|done|right].
  - constructor; cbn; try done; [by destruct (b_phase c)|apply Hi].
  - unfold exact, b_done in *. cbn. by rewrite Hd.
Qed.

Ltac unsent_tac :=
  rewrite ?coalesceBurst_concat, ?concat_app, ?app_nil_r; cbn; rewrite ?app_nil_r, <- ?app_assoc.

Lemma sender_step_inv out0 c c' : inv out0 c → sender_step c c' → inv out0 c'.
Proof.
  intros Hi Hs. pose proof (sender_alive _ _ Hs) as Ha. pose proof (inv_state _ _ Hi) as Hst.
  pose proof (inv_inbox _ _ Hi) as Hin. pose proof (inv_wf _ _ Hi) as Hwf. unfold state_ok in Hst.
  destruct Hs as [c d rest Hib Hph|c d rest burst total Hib Hph Hlt|c d rest burst total Hib Hph Hge|c burst total Hph
    |c remaining payload padLen rest sd' Hph Hne Hr|c remaining sd' Hph Hne Hr|c payload padLen rest before u sd' Hph Hr
    |c payload padLen rest before e sd1 e' sd' Hph Hr Hr'|c before payload padLen rest u sd' Hph Hr
    |c before payload padLen rest e sd' Hph Hr|c Hph|c f rest Hpc Hph|c payload back u sd' Hph Hr|c payload back e sd' Hph Hr
    |c payload back u sd' Hph Hr|c f rest u sd' Hpc Hph Hr|c Hph|c Hph|c Hd Hph|c Hd Hph].
  all: try first
    [exact (step_fill out0 c _ _ _ _ _ _ Hi Hph Hr)|exact (step_fill out0 c _ _ _ _ _ _ Hi Hph Hr _ _ Hr')
    |exact (step_send out0 c _ _ _ _ _ _ Hi Hph Hr)|exact (step_pong_fill out0 c _ _ _ _ Hi Hph Hr)
    |exact (step_pong_send out0 c _ _ _ _ Hi Hph Hr)|exact (step_abandon out0 c Hi Hd Hph)].
  all: try (apply sample_fragment_off in Hr as [Ho Hx]; [|exact Hwf|exact Hne]).
  all: try (apply processPong_run, same_io_off in Hr).
  all: apply (collect_step_inv out0 c _ Hi); try done; try assumption.
  all: try (unfold unsent, collected; cbn; rewrite ?Hib; cbn; destruct_or?; rewrite Hph; cbn; unsent_tac; destruct_and?; subst; by rewrite <- ?app_assoc).
  all: try rewrite Hib in Hin; try rewrite Hph in Hst; cbn in Hin, Hst; constructor; cbn; try done; try lia; tauto.
Qed.

(** *** The keepalive goroutine *)

(** What its steps leave alone. *)
Record keep_move (c c' : bconn) : Prop := {
  km_alive : b_keep c ≠ KGone;
  km_phase : b_phase c' = b_phase c;
  km_state : b_state c' = b_state c;
  km_inbox : b_inbox c' = b_inbox c;
  km_close : b_close c' = b_close c;
  km_err : b_writeErr c' = b_writeErr c;
  km_accepted : b_accepted c' = b_accepted c
}.

Lemma inv_keep_off out0 c c' :
  inv out0 c → keep_move c c' → off_wire (b_sd c) (b_sd c') → keep_frame (b_keep c') = None →
  b_pings c' = b_pings c → b_raced c' = b_raced c → inv out0 c'.
Proof.
  intros [I1 I2 I3 I4 I5 I6 I7 I8 I9 I10 I11] [M1 M2 M3 M4 M5 M6 M7] [Hfw Hwf] Hk Hp Hr. unfold wire, state_ok in *.
  assert (Hks : b_keep c' ≠ KSend) by (intros E; by rewrite E in Hk).
  constructor; unfold wire, state_ok; rewrite ?Hfw, ?M2, ?M3, ?M4, ?M5; auto.
  - intros E. by destruct (I4 E).
  - rewrite Hk. done.
  - rewrite Hp, Hr. intros E. by destruct (I10 E).
  - rewrite Hr. intros Hnr. destruct (I11 Hnr) as [Hw Hl].
    unfold books, wire, quiet, exact, b_done, unsent, collected in *. rewrite Hk, Hfw, M2, M4, M5, M6, M7, Hp. split; [|exact Hl].
    destruct (sender_frame (b_phase c)), (keep_frame (b_keep c)); done.
Qed.

Lemma inv_keep_fill {A} out0 c c' (r : result A) :
  inv out0 c → keep_move c c' → filled ping_frame r (b_sd c) (b_sd c') → keep_frame (b_keep c) = None →
  (keep_frame (b_keep c') = None ∨ keep_frame (b_keep c') = Some ping_frame ∧ is_ok r = true) →
  b_pings c' = S (b_pings c) → b_raced c' = b_raced c || present (sender_frame (b_phase c)) → inv out0 c'.
Proof.
  intros [I1 I2 I3 I4 I5 I6 I7 I8 I9 I10 I11] [M1 M2 M3 M4 M5 M6 M7] (Hfw & Hbuf & Hsr & Hf) Hk Hk' Hp Hr. pose proof (same_src_wf _ _ Hsr) as Hwf. unfold wire, state_ok in *.
  assert (Hholds : ∀ g, keep_frame (b_keep c') = Some g → holds g (sd_fw (b_sd c'))).
  { intros g Hg. destruct Hk' as [Hk'|[Hk' Hok]]; [congruence|]. rewrite Hk' in Hg. injection Hg as <-. destruct r; [by apply Hf|done|done]. }
  constructor; unfold wire, state_ok; rewrite ?Hfw, ?M2, ?M3, ?M4, ?M5; auto.
  - intros E. by destruct (I4 E).
  - by eapply fits_kept.
  - intros g Hg. apply holds_fits. by apply Hholds.
  - by rewrite Hp.
  - rewrite Hr. intros [Hnr Hs]%orb_false_iff. destruct (I11 Hnr) as [_ Hl].
    unfold books, wire, quiet, exact, b_done, unsent, collected in *. rewrite Hfw, M2, M4, M5, M6, M7, Hp. split.
    { destruct (sender_frame (b_phase c)); [done|]. destruct (keep_frame (b_keep c')); [by apply Hholds|done]. }
    eapply ledger_weaken; [exact Hl|done|done].
Qed.

Lemma inv_keep_send {A} out0 c c' (r : result A) :
  inv out0 c → keep_move c c' → b_keep c = KSend → keep_frame (b_keep c') = None →
  emitted (take (Z.to_nat (frame_total ping_frame)) (fw_buf (sd_fw (b_sd c)))) r (b_sd c) (b_sd c') →
  b_pings c' = b_pings c → b_raced c' = b_raced c → inv out0 c'.
Proof.
  intros [I1 I2 I3 I4 I5 I6 I7 I8 I9 I10 I11] [M1 M2 M3 M4 M5 M6 M7] Hks Hk' (Hbuf & Hsr & Hwr & Hcl & Hem) Hp Hr. pose proof (same_src_wf _ _ Hsr) as Hwf. unfold wire, state_ok in *.
  constructor; unfold wire, state_ok; rewrite ?M2, ?M3, ?M4, ?M5; auto; [congruence| | | | |].
  - intros E. by destruct (I4 E).
  - eapply fits_kept; [exact I8|]. rewrite Hbuf. lia.
  - rewrite Hk'. done.
  - rewrite Hp. intros E. by destruct (I10 E).
  - rewrite Hr. intros Hnr. destruct (I11 Hnr) as [Hw Hl]. rewrite Hks in Hw. cbn in Hw.
    unfold books, wire, quiet, exact, b_done, unsent, collected in *. rewrite Hk', M2, M4, M5, M6, M7, Hp.
    destruct (sender_frame (b_phase c)); [done|]. split; [done|]. rewrite I3 in Hem.
    destruct (is_shut (b_close c)); destruct Hem as [_ ->]; [exact Hl|].
    destruct (emit_holds ping_frame _ Hw) as (pad & Hpad & -> & _).
    apply ledger_send; [exact Hl|apply ping_frame_ok..| |exact Hpad].
    intros E%Nat.eqb_eq. by destruct (I10 E).
Qed.

Lemma keep_step_inv out0 c c' : inv out0 c → keep_step c c' → inv out0 c'.
Proof.
  intros Hi Hs. destruct Hs as [c u sd' Hk Hr|c Hk Hd|c Hk|c idle sd' Hk Hr|c u sd' Hk Hr|c e sd' Hk Hr|c u sd' Hk Hr|c e sd' Hk Hr].
  - destruct (keep_wait_run (b_sd c)) as (s1 & E & Ho%same_io_off). rewrite Hr in E. injection E as _ ->.
    apply (inv_keep_off out0 c _ Hi); try done. by constructor; rewrite ?Hk.
  - apply (inv_keep_off out0 c _ Hi); try done. by constructor; rewrite ?Hk.
  - apply (inv_keep_off out0 c _ Hi); try done; [by constructor; rewrite ?Hk|]. cbn. by destruct (busy _).
  - destruct (keep_idle_run (b_sd c)) as (b & s1 & E & Ho%same_io_off). rewrite Hr in E. injection E as -> ->.
    apply (inv_keep_off out0 c _ Hi); try done; [by constructor; rewrite ?Hk|]. cbn. by destruct b.
  - destruct (ping_begin_run (b_sd c)) as (r & s1 & E & Hf). rewrite Hr in E. injection E as <- <-.
    eapply (inv_keep_fill out0 c _ _ Hi); [by constructor; rewrite ?Hk|exact Hf|by rewrite Hk|by right|done|done].
  - destruct (ping_begin_run (b_sd c)) as (r & s1 & E & Hf). rewrite Hr in E. injection E as <- <-.
    eapply (inv_keep_fill out0 c _ (@Err unit e) Hi); [by constructor; rewrite ?Hk|exact Hf|by rewrite Hk|by left|done|done].
  - pose proof (on_fw_emit ping_frame (b_sd c) (inv_kfits _ _ Hi _ ltac:(by rewrite Hk)) (inv_wr _ _ Hi)) as He.
    rewrite Hr in He. eapply (inv_keep_send out0 c _ _ Hi); [by constructor; rewrite ?Hk|done|done|exact He|done|done].
  - pose proof (on_fw_emit ping_frame (b_sd c) (inv_kfits _ _ Hi _ ltac:(by rewrite Hk)) (inv_wr _ _ Hi)) as He.
    rewrite Hr in He. eapply (inv_keep_send out0 c _ _ Hi); [by constructor; rewrite ?Hk|done|done|exact He|done|done].
Qed.

(** *** The others *)

(** What [Close] cuts off is a proper prefix of the one frame in the buffer. *)
Lemma in_flight_torn out0 c part : inv out0 c → b_raced c = false → in_flight c part → torn_part true part.
Proof.
  intros Hi Hnr Hf. destruct (inv_books _ _ Hi Hnr) as [Hw _].
  destruct Hf as [|f k Hwho Hk]; [by left|]. right. split; [done|].
  assert (Hg : holds f (sd_fw (b_sd c)) ∧ frame_sendable f ∧ sent_type f).
  { destruct Hwho as [E|E]; rewrite E in Hw; cbn in Hw.
    - destruct (keep_frame (b_keep c)); [done|]. by destruct (sender_frame_ok _ _ (inv_phase _ _ Hi) E) as (? & ? & _).
    - assert (f = ping_frame) as -> by (destruct (b_keep c); cbn in E; congruence).
      destruct (sender_frame (b_phase c)); [done|]. split; [done|apply ping_frame_ok]. }
  destruct Hg as (Hh & Hs & Ht). destruct (emit_holds f _ Hh) as (pad & Hp & Htk & _).
  exists f, pad, k. split_and!; try done. rewrite <- Htk, take_take. f_equal. lia.
Qed.

Lemma shut_down_inv out0 c part : inv out0 c → is_shut (b_close c) = false → in_flight c part → inv out0 (shut_down part c).
Proof.
  intros Hi Hc Hf. pose proof (in_flight_torn out0 c part Hi) as Ht.
  destruct Hi as [I1 I2 I3 I4 I5 I6 I7 I8 I9 I10 I11]. constructor; try done.
  intros Hnr. destruct (I11 Hnr) as [Hw Hl]. split; [exact Hw|]. rewrite Hc in Hl.
  pose proof (ledger_close _ _ _ _ _ _ _ Hl (Ht Hnr Hf)) as Hl'.
  eapply ledger_weaken; [exact Hl'|done|done].
Qed.

Lemma Conn_Write_inv out0 b c c' : inv out0 c → Conn_Write b c = Some c' → inv out0 c'.
Proof.
  intros Hi Hw. unfold Conn_Write in Hw. destruct (length b =? 0)%nat; [by injection Hw as <-|].
  destruct (b_writeErr c) eqn:He; [done|]. destruct (Nat.ltb_spec (length (b_inbox c)) 256); [|done]. injection Hw as <-.
  destruct Hi as [I1 I2 I3 I4 I5 I6 I7 I8 I9 I10 I11]. constructor; try done; cbn; [rewrite length_app; cbn; lia|].
  intros Hnr. destruct (I11 Hnr) as [Hw Hl]. split; [exact Hw|]. unfold unsent, collected in *. cbn.
  rewrite concat_app. cbn. rewrite app_nil_r, app_assoc.
  apply ledger_accept. unfold exact in *. by rewrite He in Hl.
Qed.

Lemma inv_same_io out0 c sd' : inv out0 c → same_io (b_sd c) sd' → inv out0 (set_sd sd' c).
Proof.
  intros [I1 I2 I3 I4 I5 I6 I7 I8 I9 I10 I11] [Hfw Hsrc]. unfold wire, sd_wf in *.
  constructor; unfold wire, sd_wf; cbn; rewrite ?Hfw, ?Hsrc; auto.
  intros Hnr. destruct (I11 Hnr) as [Hw Hl]. split; cbn; unfold wire in *; cbn; by rewrite Hfw.
Qed.

Lemma env_step_inv out0 c c' : inv out0 c → env_step c c' → inv out0 c'.
Proof.
  intros Hi Hs. destruct Hs as [b c c' Hw|c u sd' Hr|f c|f c|c Hc|c part Hc Hf|c Hc Hph Hk].
  - by eapply Conn_Write_inv.
  - destruct (received_run (b_sd c)) as (s' & E & Hs). rewrite Hr in E. injection E as _ ->. by apply inv_same_io.
  - destruct Hi as [I1 I2 I3 I4 I5 I6 I7 I8 I9 I10 I11]. by constructor.
  - destruct Hi as [I1 I2 I3 I4 I5 I6 I7 I8 I9 I10 I11]. by constructor.
  - destruct Hi as [I1 I2 I3 I4 I5 I6 I7 I8 I9 I10 I11]. unfold wire in *. rewrite Hc in I3.
    constructor; try done. intros Hnr. destruct (I11 Hnr) as [Hw Hl]. split; [exact Hw|]. rewrite Hc in Hl.
    eapply ledger_weaken; [exact Hl|done|done].
  - apply shut_down_inv; [done|by rewrite Hc|done].
  - destruct Hi as [I1 I2 I3 I4 I5 I6 I7 I8 I9 I10 I11]. unfold wire in *. rewrite Hc in I3.
    constructor; try done. intros Hnr. destruct (I11 Hnr) as [Hw Hl]. split; [exact Hw|]. rewrite Hc in Hl.
    eapply ledger_weaken; [exact Hl|done|done].
Qed.

Lemma step_inv out0 c c' : inv out0 c → step c c' → inv out0 c'.
Proof. intros Hi [Hs|Hs|Hs]; [by eapply sender_step_inv|by eapply keep_step_inv|by eapply env_step_inv]. Qed.

Lemma steps_inv out0 c c' : inv out0 c → rtc step c c' → inv out0 c'.
Proof. intros Hi Hr. induction Hr as [|c0 c1 c2 Hs _ IH]; [done|]. apply IH. by eapply step_inv. Qed.

Lemma reachable_inv sd c : sd_ok sd → rtc step (bconn_init sd) c → inv (c_out (fw_w (sd_fw sd))) c.
Proof. intros Hsd. apply steps_inv. by apply inv_init. Qed.

(** The goroutines have not met in the frame buffer; they have not if the
    keepalive loop has sent nothing. *)
Definition unraced (c : bconn) : Prop := b_pings c = 0%nat ∨ b_raced c = false.

Lemma unraced_books out0 c : inv out0 c → unraced c → books out0 c.
Proof. intros Hi Hu. apply (inv_books _ _ Hi). destruct Hu as [Hp|Hr]; [|done]. by destruct (inv_quiet _ _ Hi Hp). Qed.

(** C9. Order and integrity of writes.  However the callers, the reader, the
    timers, the sender goroutine with its flushes and the keepalive goroutine
    interleave, on a healthy connection that has neither been closed nor failed,
    and as long as no goroutine has written to the shared frame buffer while the
    other's frame was waiting there: the data on the wire, followed by what the
    sender holds (the burst being collected, or the rest of the one being
    flushed), followed by the queue, is exactly what the [Write] calls accepted,
    in order; the frames on the wire are whole DATA, PONG and PING frames, and
    there is no PING among them, and nothing to assume about the buffer, while
    the keepalive loop has built none; the queue holds at most 256 writes; and
    the state shown to the keepalive loop is the phase's. *)
Theorem writes_in_order sd c :
  sd_ok sd → rtc step (bconn_init sd) c → b_done c = false → b_writeErr c = false → unraced c →
  ∃ w fs, c_out (fw_w (sd_fw (b_sd c))) = c_out (fw_w (sd_fw sd)) ++ w ∧ frames_wire fs w ∧
    Forall sent_type fs ∧ (b_pings c = 0%nat → Forall (λ f, f_Type f = TypeData ∨ f_Type f = TypePong) fs) ∧
    b_accepted c = data_payload fs ++ collected c ++ concat (b_inbox c) ∧
    (length (b_inbox c) <= 256)%nat ∧ state_ok c.
Proof.
  intros Hsd Hr Hd He Hu. pose proof (reachable_inv sd c Hsd Hr) as Hi.
  destruct (unraced_books _ _ Hi Hu) as [_ (w & fs & torn & H1 & H2 & H3 & H4 & H5 & _ & H7)].
  assert (torn = []) as -> by (destruct H5 as [|[Hs _]]; [done|]; unfold b_done in Hd; by destruct (b_close c)).
  rewrite app_nil_r in H1. exists w, fs. split_and!; try done.
  - intros Hp. unfold quiet in H4. rewrite Hp in H4. specialize (H4 eq_refl). rewrite Forall_forall in *.
    intros f Hf. specialize (H3 f Hf). specialize (H4 f Hf). unfold sent_type in H3. tauto.
  - symmetry. apply H7. unfold exact. by rewrite Hd, He.
  - apply Hi.
  - apply Hi.
Qed.

(** ** The sender undisturbed *)

Lemma send_fragment_split payload padLen rest s :
  send_fragment payload padLen rest s =
  match frame_begin payload padLen s with
  | (Ok (before, inl _), s1) => frame_end before payload padLen rest s1
  | (Ok (before, inr e), s1) => after_write before payload padLen rest (inr e) s1
  | (Err e, s1) => (Err e, s1)
  | (Panic, s1) => (Panic, s1)
  end.
Proof.
  destruct (now_run s) as (t & s1 & E & _).
  unfold send_fragment, frame_begin, frame_end, try, bind, ret. rewrite E, !on_fw_eq, WriteFrame_fill_emit. unfold bind.
  destruct (fill _ (sd_fw s1)) as [[u|e|] fw]; cbn [fst snd]; [|done|done]. rewrite on_fw_eq.
  cbn [sd_fw sd_src sd_pacer sd_rand sd_clock sd_lastActivityNs sd_pendingPingSent].
  by destruct (emit _ fw) as [[u'|e|] fw'].
Qed.

Lemma frame_end_total t payload padLen rest s :
  fits (data_frame payload padLen) (sd_fw s) → fst (frame_end t payload padLen rest s) ≠ Panic.
Proof.
  intros Hf. unfold frame_end, try, bind. rewrite on_fw_eq, (emit_run _ _ Hf). unfold on_fw_w, zoom.
  destruct (conn_Write _ (fw_w (sd_fw s))) as [[u|e|] c'] eqn:Ew; cbn [fst snd];
    [..|unfold conn_Write in Ew; by destruct (c_closed (fw_w (sd_fw s))), (c_wr (fw_w (sd_fw s))) as [|[[? ?]|] ?]];
    match goal with |- context [after_write ?t0 ?b ?q ?r ?err ?x] => destruct (after_write_run t0 b q r err x) as (s2 & -> & _) end; done.
Qed.

(** One round, from the head of the loop to its head. *)
Lemma round_alone data c :
  keep_frame (b_keep c) = None → b_phase c = PFlush data → data ≠ [] → sd_wf (b_sd c) →
  match fragment_round data (b_sd c) with
  | (Ok (Some rest), sd') => rtc sender_step c (set_sd sd' (set_phase (PFlush rest) (b_state c) c))
  | (Ok None, sd') => rtc sender_step c (set_sd sd' (set_phase (PHung data) (b_state c) c))
  | (Err _, sd') => rtc sender_step c (write_failed (set_sd sd' c))
  | (Panic, _) => False
  end.
Proof.
  intros Hk Hph Hne Hwf. unfold fragment_round, bind at 1.
  destruct (sample_fragment data (b_sd c)) as [o s1] eqn:Es.
  destruct (sample_fragment_off data _ _ _ Hwf Hne Es) as [Ho Hx]. destruct o as [[[[payload padLen] rest]|]|e|]; [|apply rtc_once; by eapply s_hang|done|done].
  destruct Hx as (Hp & Hl & _). set (c1 := set_sd s1 (set_phase (PFrame payload padLen rest) (b_state c) c)).
  assert (S1 : sender_step c c1) by (by eapply s_sample).
  assert (Hfill : ∀ c2, b_keep c2 = b_keep c → sender_filled c2 = set_history (b_pings c2) (b_raced c2) c2).
  { intros c2 E. unfold sender_filled. rewrite E, Hk. cbn. by rewrite orb_false_r. }
  unfold bind at 1. rewrite send_fragment_split.
  destruct (frame_begin_run payload padLen s1 ltac:(lia)) as (t & [u|e] & s2 & Ef & Hf); rewrite Ef.
  - set (c2 := set_sd s2 (set_phase (PSend t payload padLen rest) (b_state c) c)). assert (S2 : sender_step c1 c2).
    { pose proof (s_fill c1 payload padLen rest t u s2 eq_refl Ef) as S. rewrite Hfill in S by done. by destruct c. }
    destruct (frame_end t payload padLen rest s2) as [[u'|e|] s3] eqn:Ee.
    + eapply rtc_l; [exact S1|]. eapply rtc_l; [exact S2|]. apply rtc_once. exact (s_send c2 t payload padLen rest u' s3 eq_refl Ee).
    + eapply rtc_l; [exact S1|]. eapply rtc_l; [exact S2|]. apply rtc_once. exact (s_send_fails c2 t payload padLen rest e s3 eq_refl Ee).
    + destruct Hf as (_ & _ & _ & _ & _ & Hh). apply (frame_end_total t payload padLen rest s2 (holds_fits _ _ Hh)). by rewrite Ee.
  - destruct (after_write_run t payload padLen rest (inr e) s2) as (s3 & Ea & _). rewrite Ea.
    eapply rtc_l; [exact S1|]. apply rtc_once.
    pose proof (s_fill_fails c1 payload padLen rest t e s2 _ s3 eq_refl Ef Ea) as S. rewrite Hfill in S by done. by destruct c.
Qed.

(** Uninterrupted, the machine's flush is [fragmentAndSend]: the same frames go
    out, the same error ends it, and it hangs where that does not return. *)
Lemma flush_alone fuel data c :
  (length data <= fuel)%nat → keep_frame (b_keep c) = None → b_phase c = PFlush data → sd_wf (b_sd c) →
  match fragment_loop fuel data (b_sd c) with
  | (Ok (Some _), sd') => rtc sender_step c (set_sd sd' (set_phase (PFlush []) (b_state c) c))
  | (Ok None, sd') => ∃ rest, rtc sender_step c (set_sd sd' (set_phase (PHung rest) (b_state c) c))
  | (Err _, sd') => rtc sender_step c (write_failed (set_sd sd' c))
  | (Panic, _) => False
  end.
Proof.
  revert data c. induction fuel as [|fuel IH]; intros data c Hl Hk Hph Hwf.
  { destruct data; [|cbn in Hl; lia]. cbn. rewrite <- Hph. by destruct c. }
  cbn [fragment_loop]. destruct (Nat.eqb_spec (length data) 0) as [Hz|Hz].
  { apply nil_length_inv in Hz as ->. unfold ret. rewrite <- Hph. by destruct c. }
  assert (Hne : data ≠ []) by (by intros ->). pose proof (round_alone data c Hk Hph Hne Hwf) as Hr.
  pose proof (fragment_round_run data (b_sd c) Hwf Hne) as Hf. unfold bind at 1.
  destruct (fragment_round data (b_sd c)) as [[[rest|]|e|] s1]; [|by exists data|done|done].
  destruct Hf as (Hwf1 & _ & f & _ & (_ & _ & Hp) & Hd).
  set (c1 := set_sd s1 (set_phase (PFlush rest) (b_state c) c)) in *.
  assert (Hlr : (length rest <= fuel)%nat).
  { apply (f_equal length) in Hd. rewrite length_app in Hd. destruct (f_Payload f); [done|cbn in Hd; lia]. }
  specialize (IH rest c1 Hlr Hk eq_refl Hwf1). change (b_sd c1) with s1 in IH.
  destruct (fragment_loop fuel rest s1) as [[[u|]|e|] s2]; [|destruct IH as [rest' IH]; exists rest'| |done];
    (etrans; [exact Hr|exact IH]).
Qed.
End machine.

(** ** What is not guarded *)

(** The writer is shared without a lock.  In the idle and think states the
    keepalive loop sends a PING from its own goroutine, where the sender may be
    answering the peer's PING, or begin a burst after the loop has looked at the
    state.  When both goroutines build their frame in the writer's one buffer
    before either is sent, both calls succeed, the peer receives the PING twice,
    and the PONG, or the application data, is gone. *)
Theorem keepalive_races_sender :
  busy stateIdle = false ∧ busy stateThink = false ∧ busy stateBurst = true ∧
  Forall (λ other, ∃ fw,
      each run_act [Fill other; Fill ping_frame; Emit other; Emit ping_frame] (NewWriter (conn_of []) (stream [] EOF)) = (Ok tt, fw) ∧
      c_out (fw_w fw) = frame_bytes ping_frame [] ++ frame_bytes ping_frame [] ∧
      ∃ r', times 2 ReadFrame (stream (c_out (fw_w fw)) EOF) = (Ok [ping_frame; ping_frame], r'))
    [pong_frame (str "pingdata"); data_frame (str "secret!!") 0].
Proof.
  split_and!; [by vm_compute|by vm_compute|by vm_compute|].
  repeat constructor; (eexists; split; [vm_compute; reflexivity|]; split; [vm_compute; reflexivity|];
    eexists; vm_compute; reflexivity).
Qed.

(** A keepalive machine that starts now. *)
Definition browser_step := step (H := flat_math) (H0 := flat_source) Browser.

Ltac run_step rule := eapply rtc_l; [rule; first [vm_compute; reflexivity|done]|].

(** The same as a run of the machine: the loop looks, [Write] accepts data whose
    burst begins, both frames are built, and both are sent.  Nothing has failed
    or been closed, the connection holds nothing back, and the data is not on
    the wire. *)
Lemma race_loses_data :
  ∃ c, rtc browser_step (bconn_init sd0) c ∧ b_done c = false ∧ b_writeErr c = false ∧ b_raced c = true ∧
    b_accepted c = str "secret!!" ∧ unsent c = [] ∧
    c_out (wire c) = frame_bytes ping_frame [] ++ frame_bytes ping_frame [].
Proof.
  eexists. split.
  { run_step ltac:(apply by_keepalive; eapply k_timer).
    run_step ltac:(apply by_keepalive; eapply k_look).
    run_step ltac:(apply by_keepalive; eapply k_idle).
    run_step ltac:(apply by_others; eapply (e_write (str "secret!!"))).
    run_step ltac:(apply by_sender; eapply s_take; [|by left]).
    run_step ltac:(apply by_sender; eapply s_window).
    run_step ltac:(apply by_sender; eapply s_sample).
    run_step ltac:(apply by_sender; eapply s_fill).
    run_step ltac:(apply by_keepalive; eapply k_fill).
    run_step ltac:(apply by_sender; eapply s_send).
    run_step ltac:(apply by_keepalive; eapply k_send).
    apply rtc_refl. }
  vm_compute. repeat split.
Qed.

(** ** Witness: a write, its burst, and its flush *)

Lemma first_flushed :
  ∃ c, rtc browser_step (bconn_init sd0) c ∧ b_done c = false ∧ b_writeErr c = false ∧ b_pings c = 0%nat ∧
    b_inbox c = [] ∧ b_accepted c = str "first" ∧ collected c = [].
Proof.
  eexists. split.
  { run_step ltac:(apply by_others; eapply (e_write (str "first"))).
    run_step ltac:(apply by_sender; eapply s_take; [|by left]).
    run_step ltac:(apply by_sender; eapply s_window).
    run_step ltac:(apply by_sender; eapply s_sample).
    run_step ltac:(apply by_sender; eapply s_fill).
    run_step ltac:(apply by_sender; eapply s_send).
    run_step ltac:(apply by_sender; eapply s_flushed).
    apply rtc_refl. }
  vm_compute. repeat split.
Qed.

Lemma writes_in_order_witness :
  ∃ c : bconn (Src := unit), b_inbox c = [] ∧ b_accepted c = str "first" ∧
  ∃ w fs, c_out (fw_w (sd_fw (b_sd c))) = w ∧ frames_wire fs w ∧ data_payload fs = str "first".
Proof.
  destruct first_flushed as (c & Hr & Hd & He & Hp & Hib & Hacc & Hcol).
  destruct (writes_in_order (H := flat_math) (H0 := flat_source) Browser sd0 c sd0_ok Hr Hd He (or_introl Hp))
    as (w & fs & H1 & H2 & _ & _ & H4 & _).
  exists c. split; [exact Hib|]. split; [exact Hacc|]. exists w, fs. split; [exact H1|]. split; [exact H2|].
  rewrite Hacc, Hcol, Hib in H4. cbn [concat] in H4. rewrite !app_nil_r in H4. symmetry. exact H4.
Defined.
