(* ===== verification/Close.v ===== *)
(** Shutting a camouflage connection down ([Close] of [internal/bcl/conn.go]),
    over the machine of Burst: what a [Close] at any moment leaves on the wire,
    and when it returns.  And [keepaliveLoop] as a loop of its own. *)

From Stdlib Require Import Strings.Byte String ZArith Lia.
From stdpp Require Import base list relations.
From S2P Require Import Prelude Encoding Io Frame Sharing Float Shaping Bcl Burst.

Section closing.
Context `{GoMath} {Src : Type} `{SizeSource Src}.
Variable p : Personality.
Implicit Types (c : bconn (Src := Src)).

(** [Close] up to [wg.Wait], when nothing comes between its two calls: the
    context is cancelled and the connection closed, [part] of a frame that was in
    [conn.Write] having been sent. *)
Definition Close (part : bytes) c : bconn := shut_down part (set_close CCancelled c).

(** The deadline setters forward to the connection. *)
Definition SetDeadline (t : option Z) : M (sender Src) unit := on_fw (on_fw_w (modify (put_dl t))).
Definition SetReadDeadline (t : option Z) : M (sender Src) unit := on_fw (on_fw_w (modify (put_rdl t))).
Definition SetWriteDeadline (t : option Z) : M (sender Src) unit := on_fw (on_fw_w (modify (put_wdl t))).

(** The sender goroutine is in a sampling loop that does not return, or about to
    enter one. *)
Definition hung c : Prop :=
  ∃ rest, b_phase c = PHung rest ∨
    b_phase c = PFlush rest ∧ rest ≠ [] ∧ fst (sample_fragment rest (b_sd c)) = Ok None.

Lemma Close_steps part c : b_close c = COpen → in_flight c part → rtc (step p) c (Close part c).
Proof.
  intros Hc Hf. eapply rtc_l; [by apply by_others, e_cancel|]. apply rtc_once, by_others.
  refine (e_shut (set_close CCancelled c) part eq_refl _).
  destruct Hf as [|f k Hw Hk]; [constructor|exact (flight_part (set_close CCancelled c) f k Hw Hk)].
Qed.

(** ** A closed connection sends nothing *)

Definition frozen c c' : Prop := c_out (wire c') = c_out (wire c) ∧ is_shut (b_close c') = true.

Lemma after_pong_wire back sd c : wire (set_sd sd (after_pong back c)) = fw_w (sd_fw sd) ∧ b_close (after_pong back c) = b_close c.
Proof. by destruct back. Qed.

Lemma sender_step_frozen out0 c c' :
  inv out0 c → is_shut (b_close c) = true → sender_step p c c' → frozen c c'.
Proof.
  intros Hi Hc Hs. pose proof (inv_closed _ _ Hi) as Hcl. rewrite Hc in Hcl. pose proof (inv_wr _ _ Hi) as Hwr.
  pose proof (inv_wf _ _ Hi) as Hwf. pose proof (inv_phase _ _ Hi) as Hok. pose proof (inv_sfits _ _ Hi) as Hfit.
  unfold frozen, wire in *.
  assert (Hem : ∀ A part (r : result A) sd', emitted part r (b_sd c) sd' → c_out (fw_w (sd_fw sd')) = c_out (fw_w (sd_fw (b_sd c)))).
  { intros A part r sd' (_ & _ & _ & _ & He). rewrite Hcl in He. by destruct He. }
  destruct Hs as [c d rest Hib Hph|c d rest burst total Hib Hph Hlt|c d rest burst total Hib Hph Hge|c burst total Hph
    |c remaining payload padLen rest sd' Hph Hne Hr|c remaining sd' Hph Hne Hr|c payload padLen rest before u sd' Hph Hr
    |c payload padLen rest before e sd1 e' sd' Hph Hr Hr'|c before payload padLen rest u sd' Hph Hr
    |c before payload padLen rest e sd' Hph Hr|c Hph|c f rest Hpc Hph|c payload back u sd' Hph Hr|c payload back e sd' Hph Hr
    |c payload back u sd' Hph Hr|c f rest u sd' Hpc Hph Hr|c Hph|c Hph|c Hd Hph|c Hd Hph]; try done.
  all: try (destruct (after_pong_fields back c) as (_ & Hbc & _)).
  - apply sample_fragment_off in Hr as [[Ho _] _]; [|done..]. cbn. by rewrite Ho.
  - apply sample_fragment_off in Hr as [[Ho _] _]; [|done..]. cbn. by rewrite Ho.
  - rewrite Hph in Hok. destruct (frame_begin_run payload padLen (b_sd c) ltac:(apply Hok)) as (t & r & s1 & E & (Ho & _)).
    rewrite Hr in E. injection E as _ _ <-. cbn. by rewrite Ho.
  - rewrite Hph in Hok. destruct (frame_begin_run payload padLen (b_sd c) ltac:(apply Hok)) as (t & r & s1 & E & (Ho & _)).
    rewrite Hr in E. injection E as _ _ <-. destruct (after_write_run before payload padLen rest (inr e) sd1) as (s2 & E2 & Hfw & _).
    rewrite Hr' in E2. injection E2 as _ ->. cbn. by rewrite Hfw, Ho.
  - pose proof (frame_end_run before payload padLen rest (b_sd c) (Hfit _ ltac:(by rewrite Hph)) Hwr) as He.
    rewrite Hr in He. apply Hem in He. cbn in *. by rewrite He.
  - pose proof (frame_end_run before payload padLen rest (b_sd c) (Hfit _ ltac:(by rewrite Hph)) Hwr) as He.
    rewrite Hr in He. apply Hem in He. cbn in *. by rewrite He.
  - pose proof (on_fw_fill (pong_frame payload) (b_sd c) (Z.le_refl 0)) as (Ho & _). rewrite Hr in Ho. cbn in *. by rewrite Ho.
  - pose proof (on_fw_fill (pong_frame payload) (b_sd c) (Z.le_refl 0)) as (Ho & _). rewrite Hr in Ho. cbn in *.
    rewrite Ho. by destruct back.
  - pose proof (on_fw_emit _ (b_sd c) (Hfit _ ltac:(by rewrite Hph)) Hwr) as He. unfold try in Hr.
    destruct (on_fw (emit _) (b_sd c)) as [r sd2]. cbn [fst snd] in He. apply Hem in He.
    assert (sd2 = sd') as -> by (destruct r; [by injection Hr as _ ->|by injection Hr as _ ->|done]).
    cbn. rewrite He. by destruct back.
  - apply processPong_run in Hr as [Ho _]. cbn. by rewrite Ho.
Qed.

Lemma keep_step_frozen out0 c c' :
  inv out0 c → is_shut (b_close c) = true → keep_step p c c' → frozen c c'.
Proof.
  intros Hi Hc Hs. pose proof (inv_closed _ _ Hi) as Hcl. rewrite Hc in Hcl. pose proof (inv_wr _ _ Hi) as Hwr.
  pose proof (inv_kfits _ _ Hi) as Hfit. unfold frozen, wire in *.
  destruct Hs as [c u sd' Hk Hr|c Hk Hd|c Hk|c idle sd' Hk Hr|c u sd' Hk Hr|c e sd' Hk Hr|c u sd' Hk Hr|c e sd' Hk Hr]; cbn; (split; [|done]).
  - destruct (keep_wait_run p (b_sd c)) as (s1 & E & Ho & _). rewrite Hr in E. injection E as _ ->. by rewrite Ho.
  - done.
  - done.
  - destruct (keep_idle_run p (b_sd c)) as (b & s1 & E & Ho & _). rewrite Hr in E. injection E as _ ->. by rewrite Ho.
  - destruct (ping_begin_run (b_sd c)) as (r & s1 & E & (Ho & _)). rewrite Hr in E. injection E as _ ->. by rewrite Ho.
  - destruct (ping_begin_run (b_sd c)) as (r & s1 & E & (Ho & _)). rewrite Hr in E. injection E as _ ->. by rewrite Ho.
  - pose proof (on_fw_emit ping_frame (b_sd c) (Hfit _ ltac:(by rewrite Hk)) Hwr) as (_ & _ & _ & _ & He).
    rewrite Hcl, Hr in He. by destruct He.
  - pose proof (on_fw_emit ping_frame (b_sd c) (Hfit _ ltac:(by rewrite Hk)) Hwr) as (_ & _ & _ & _ & He).
    rewrite Hcl, Hr in He. by destruct He.
Qed.

Lemma step_frozen out0 c c' : inv out0 c → is_shut (b_close c) = true → step p c c' → frozen c c'.
Proof.
  intros Hi Hc [Hs|Hs|Hs]; [by eapply sender_step_frozen|by eapply keep_step_frozen|].
  destruct Hs as [b c c' Hw|c u sd' Hr|f c|f c|c Hc'|c part Hc' Hf|c Hc' Hph Hk]; try done; try (by rewrite Hc' in Hc).
  2: { destruct (received_run (b_sd c)) as (s' & E & Ho & _). rewrite Hr in E. injection E as _ ->.
       unfold frozen, wire. cbn. by rewrite Ho. }
  unfold Conn_Write in Hw. destruct (length b =? 0)%nat; [by injection Hw as <-|].
  destruct (b_writeErr c); [done|]. destruct (_ <? 256)%nat; [|done]. by injection Hw as <-.
Qed.

Lemma steps_frozen out0 c c' : inv out0 c → is_shut (b_close c) = true → rtc (step p) c c' → frozen c c'.
Proof.
  intros Hi Hc Hr. induction Hr as [c|c0 c1 c2 Hs _ IH]; [done|].
  destruct (step_frozen out0 c0 c1 Hi Hc Hs) as [H1 H2].
  destruct (IH (step_inv p out0 _ _ Hi Hs) H2) as [H3 H4]. split; [by rewrite H3|done].
Qed.

(** ** A hung sender stays where it is *)

Lemma sample_fragment_src rest (s1 s2 : sender Src) :
  sd_src s1 = sd_src s2 → fst (sample_fragment rest s1) = fst (sample_fragment rest s2).
Proof.
  intros E. unfold sample_fragment, bind, on_src, zoom, ret. rewrite E.
  destruct (src_apparent (sd_src s2)) as [[[a|]|e|] x]; [|done..]. cbn [sd_src].
  by destruct (src_padding _ x) as [[[pd|]|e|] y].
Qed.

(** The others do not touch what sampling depends on. *)
Lemma keep_step_src c c' : keep_step p c c' → b_phase c' = b_phase c ∧ sd_src (b_sd c') = sd_src (b_sd c).
Proof.
  intros Hs. destruct Hs as [c u sd' Hk Hr|c Hk Hd|c Hk|c idle sd' Hk Hr|c u sd' Hk Hr|c e sd' Hk Hr|c u sd' Hk Hr|c e sd' Hk Hr];
    cbn; (split; [done|]); try done.
  - destruct (keep_wait_run p (b_sd c)) as (s1 & E & _ & Ho). rewrite Hr in E. by injection E as _ ->.
  - destruct (keep_idle_run p (b_sd c)) as (b & s1 & E & _ & Ho). rewrite Hr in E. by injection E as _ ->.
  - destruct (ping_begin_run (b_sd c)) as (r & s1 & E & (_ & _ & Ho & _)). rewrite Hr in E. by injection E as _ ->.
  - destruct (ping_begin_run (b_sd c)) as (r & s1 & E & (_ & _ & Ho & _)). rewrite Hr in E. by injection E as _ ->.
  - rewrite on_fw_eq in Hr. by injection Hr as _ <-.
  - rewrite on_fw_eq in Hr. by injection Hr as _ <-.
Qed.

Lemma env_step_src c c' : env_step c c' → b_phase c' = b_phase c ∧ sd_src (b_sd c') = sd_src (b_sd c).
Proof.
  intros Hs. destruct Hs as [b c c' Hw|c u sd' Hr|f c|f c|c Hc'|c part Hc' Hf|c Hc' Hph Hk]; try done.
  2: { destruct (received_run (b_sd c)) as (s' & E & _ & Ho). rewrite Hr in E. by injection E as _ ->. }
  unfold Conn_Write in Hw. destruct (length b =? 0)%nat; [by injection Hw as <-|].
  destruct (b_writeErr c); [done|]. destruct (_ <? 256)%nat; [|done]. by injection Hw as <-.
Qed.

Lemma hung_same c c' : b_phase c' = b_phase c → sd_src (b_sd c') = sd_src (b_sd c) → hung c → hung c'.
Proof.
  intros Hp Hs (rest & H1). exists rest. rewrite Hp. by rewrite (sample_fragment_src rest _ _ Hs).
Qed.

Lemma hung_step c c' : hung c → step p c c' → hung c'.
Proof.
  intros Hh [Hs|Hs|Hs].
  - destruct Hh as (rest & [Hph|(Hph & Hne & Hr)]).
    + destruct Hs; rewrite Hph in *; destruct_or?; done.
    + destruct Hs; rewrite Hph in *; destruct_or?; try done; simplify_eq;
        [match goal with E : sample_fragment _ _ = _ |- _ => by rewrite E in Hr end|eexists; by left].
  - destruct (keep_step_src _ _ Hs). by eapply hung_same.
  - destruct (env_step_src _ _ Hs). by eapply hung_same.
Qed.

Lemma hung_forever c c' : hung c → rtc (step p) c c' → hung c'.
Proof. intros Hh Hr. induction Hr as [|c0 c1 c2 Hs _ IH]; [done|]. apply IH. by eapply hung_step. Qed.

Lemma hung_not_returned out0 c : inv out0 c → hung c → b_close c ≠ CReturned.
Proof.
  intros Hi (rest & Hph) Hc. destruct (inv_returned _ _ Hi Hc) as [E _]. rewrite E in Hph. by destruct Hph as [|[? _]].
Qed.

(** A sampler that returns never hangs the sender. *)
Lemma returns_not_hung sd c : src_returns → sd_ok sd → rtc (step p) (bconn_init sd) c → ¬ hung c.
Proof.
  intros Hret Hsd Hr.
  assert (Hgen : ∀ c0, inv (c_out (fw_w (sd_fw sd))) c0 → (∀ rest, b_phase c0 ≠ PHung rest) →
    rtc (step p) c0 c → ∀ rest, b_phase c ≠ PHung rest).
  { clear Hr. intros c0 Hi Hn Hr0. induction Hr0 as [|c0 c1 c2 Hs _ IH]; [done|]. apply IH; [by eapply step_inv|].
    intros rest Hph. destruct Hs as [Hs|Hs|Hs].
    - destruct Hs; cbn in Hph; try done.
      + destruct (sample_fragment_returns remaining (b_sd c) Hret (inv_wf _ _ Hi)) as (x & s' & E). congruence.
      + destruct back; cbn in Hph; try done. pose proof (inv_phase _ _ Hi) as Hok. rewrite H1 in Hok. done.
      + destruct back; cbn in Hph; try done. pose proof (inv_phase _ _ Hi) as Hok. rewrite H1 in Hok. by destruct Hok.
    - destruct (keep_step_src _ _ Hs) as [E _]. rewrite E in Hph. by apply Hn in Hph.
    - destruct (env_step_src _ _ Hs) as [E _]. rewrite E in Hph. by apply Hn in Hph. }
  pose proof (Hgen _ (inv_init sd Hsd) ltac:(done) Hr) as Hn. pose proof (reachable_inv p sd c Hsd Hr) as Hi.
  intros (rest & [Hph|(Hph & Hne & Hs)]); [by apply Hn in Hph|].
  destruct (sample_fragment_returns rest (b_sd c) Hret (inv_wf _ _ Hi)) as (x & s' & E). by rewrite E in Hs.
Qed.

(** ** Both goroutines reach their end *)

(** How many steps the sender, the keepalive loop, are from their end at most,
    once the connection is closed. *)
Definition rank (ph : phase) : nat :=
  match ph with
  | PExit => 0 | PIdle => 1 | PCollect _ _ | PDrain | PThink => 2 | PSend _ _ _ _ | PPongSend _ _ => 3
  | PPong _ _ | PFrame _ _ _ => 4 | PFlush _ => 5 | PHung _ => 6
  end.
Definition krank (k : kphase) : nat :=
  match k with KGone => 0 | KWait => 1 | KSend => 2 | KPing => 3 | KLooked => 4 | KWoken => 5 end.

Lemma low_not_hung c : (rank (b_phase c) < 5)%nat → ¬ hung c.
Proof. intros Hr (rest & [E|(E & _)]); rewrite E in Hr; cbn in Hr; lia. Qed.

Lemma after_pong_rank back c : selecting back = true → (rank (b_phase (after_pong back c)) <= 2)%nat.
Proof. destruct back; cbn; (done || lia). Qed.

(** One more step of the sender. *)
Definition advances c c' : Prop :=
  sender_step p c c' ∧ (rank (b_phase c') < rank (b_phase c))%nat ∧ (rank (b_phase c') < 5)%nat ∧
  b_close c' = b_close c ∧ b_keep c' = b_keep c.

Lemma pong_advances out0 c payload back :
  inv out0 c → b_phase c = PPong payload back ∨ b_phase c = PPongSend payload back → ∃ c', advances c c'.
Proof.
  intros Hi Hph. pose proof (inv_phase _ _ Hi) as Hok.
  destruct Hph as [Hph|Hph]; unfold advances; rewrite Hph in *; cbn in Hok.
  - pose proof (on_fw_fill (pong_frame payload) (b_sd c) (Z.le_refl 0)) as (_ & _ & _ & Hf).
    destruct (on_fw (fill (pong_frame payload)) (b_sd c)) as [[u|e|] sd'] eqn:E; [| |done].
    + eexists. split; [by eapply s_pong_fill|]. cbn. split_and!; (done || lia).
    + eexists. split; [by eapply s_pong_fill_fails|]. pose proof (after_pong_rank back (sender_filled c) Hok).
      destruct (after_pong_fields back (sender_filled c)) as (F1 & F2 & _). cbn. split_and!; (done || lia).
  - destruct Hok as [Hok _]. pose proof (after_pong_rank back c Hok).
    destruct (after_pong_fields back c) as (F1 & F2 & _).
    pose proof (on_fw_emit (pong_frame payload) (b_sd c) (inv_sfits _ _ Hi _ ltac:(by rewrite Hph)) (inv_wr _ _ Hi)) as (_ & _ & _ & _ & He).
    assert (Ht : ∃ u sd', try (on_fw (emit (pong_frame payload))) (b_sd c) = (Ok u, sd')).
    { unfold try. destruct (on_fw _ _) as [r sd']. destruct (c_closed _), He as [[x E] _]; cbn in E; subst r; by do 2 eexists. }
    destruct Ht as (u & sd' & E). eexists. split; [by eapply s_pong_send|]. cbn. split_and!; (done || lia).
Qed.

Lemma flush_advances out0 c :
  inv out0 c → is_shut (b_close c) = true → ¬ hung c →
  match b_phase c with PFlush _ | PFrame _ _ _ | PSend _ _ _ _ => True | _ => False end → ∃ c', advances c c'.
Proof.
  intros Hi Hc Hh Hph. pose proof (inv_phase _ _ Hi) as Hok. pose proof (inv_closed _ _ Hi) as Hcl. rewrite Hc in Hcl.
  unfold advances. destruct (b_phase c) as [|?|rest|payload padLen rest|t payload padLen rest|?|?| | |?|] eqn:E; try done; cbn in Hok.
  - destruct (decide (rest = [])) as [->|Hne].
    { eexists. split; [by apply s_flushed|]. cbn. split_and!; (done || lia). }
    destruct (sample_fragment_run rest (b_sd c) (inv_wf _ _ Hi) Hne) as (o & s' & Es & _).
    destruct o as [[[payload padLen] rest']|]; [|by destruct Hh; exists rest; right; rewrite Es].
    eexists. split; [by eapply s_sample|]. cbn. split_and!; (done || lia).
  - destruct (frame_begin_run payload padLen (b_sd c) ltac:(lia)) as (t & [u|e] & s' & Es & _).
    + eexists. split; [by eapply s_fill|]. cbn. split_and!; (done || lia).
    + destruct (after_write_run t payload padLen rest (inr e) s') as (s2 & E2 & _).
      eexists. split; [by eapply s_fill_fails|]. cbn. split_and!; (done || lia).
  - pose proof (frame_end_run t payload padLen rest (b_sd c) (inv_sfits _ _ Hi _ ltac:(by rewrite E)) (inv_wr _ _ Hi)) as (_ & _ & _ & _ & He).
    unfold wire in Hcl. rewrite Hcl in He. destruct He as [[e He] _].
    destruct (frame_end t payload padLen rest (b_sd c)) as [r s'] eqn:Es. cbn in He. subst r.
    eexists. split; [by eapply s_send_fails|]. cbn. split_and!; (done || lia).
Qed.

Lemma sender_advances out0 c :
  inv out0 c → is_shut (b_close c) = true → ¬ hung c → b_phase c ≠ PExit → ∃ c', advances c c'.
Proof.
  intros Hi Hc Hh Hne. assert (Hd : b_done c = true) by (unfold b_done; by destruct (b_close c)).
  destruct (b_phase c) eqn:E; try done;
    try (eapply flush_advances; [done..|by rewrite E]); try (eapply pong_advances; eauto; fail).
  - eexists. unfold advances. split; [by apply s_exit|]. rewrite E. cbn. split_and!; (done || lia).
  - eexists. unfold advances. split; [apply s_abandon; by rewrite ?E|]. rewrite E. cbn. split_and!; (done || lia).
  - eexists. unfold advances. split; [apply s_abandon; by rewrite ?E|]. rewrite E. cbn. split_and!; (done || lia).
  - eexists. unfold advances. split; [apply s_abandon; by rewrite ?E|]. rewrite E. cbn. split_and!; (done || lia).
  - destruct Hh. eexists. by left.
Qed.

Lemma sender_ends out0 c :
  inv out0 c → is_shut (b_close c) = true → ¬ hung c →
  ∃ c', rtc (step p) c c' ∧ b_phase c' = PExit ∧ b_close c' = b_close c ∧ b_keep c' = b_keep c.
Proof.
  remember (rank (b_phase c)) as n eqn:En. revert c En. induction n as [n IH] using lt_wf_ind. intros c -> Hi Hc Hh.
  destruct (decide (rank (b_phase c) = 0%nat)) as [Hz|Hz].
  { exists c. split; [done|]. by destruct (b_phase c). }
  destruct (sender_advances out0 c Hi Hc Hh ltac:(intros E; by rewrite E in Hz)) as (c1 & Hs & Hlt & Hlow & Hcl & Hk).
  destruct (IH _ Hlt c1 eq_refl) as (c2 & Hr & Hph & Hcl2 & Hk2);
    [by eapply step_inv; [|by apply by_sender]|by rewrite Hcl|by apply low_not_hung|].
  exists c2. split; [|split; [done|split; congruence]]. eapply rtc_l; [by apply by_sender|done].
Qed.

(** The keepalive loop. *)
Lemma keep_advances out0 c :
  inv out0 c → is_shut (b_close c) = true → b_keep c ≠ KGone →
  ∃ c', keep_step p c c' ∧ (krank (b_keep c') < krank (b_keep c))%nat ∧ b_close c' = b_close c ∧ b_phase c' = b_phase c.
Proof.
  intros Hi Hc Hne. assert (Hd : b_done c = true) by (unfold b_done; by destruct (b_close c)).
  pose proof (inv_closed _ _ Hi) as Hcl. rewrite Hc in Hcl. unfold wire in Hcl. destruct (b_keep c) eqn:E; try done.
  - eexists. split; [by apply k_exit|]. cbn. split_and!; (done || lia).
  - eexists. split; [by apply k_look|]. cbn. destruct (busy _); cbn; split_and!; (done || lia).
  - destruct (keep_idle_run p (b_sd c)) as (b & s' & Es & _). eexists. split; [by eapply k_idle|].
    cbn. destruct b; cbn; split_and!; (done || lia).
  - destruct (ping_begin_run (b_sd c)) as ([u|e] & s' & Es & _); eexists;
      (split; [first [by eapply k_fill|by eapply k_fill_fails]|]); cbn; split_and!; (done || lia).
  - pose proof (on_fw_emit ping_frame (b_sd c) (inv_kfits _ _ Hi _ ltac:(by rewrite E)) (inv_wr _ _ Hi)) as (_ & _ & _ & _ & He).
    rewrite Hcl in He. destruct He as [[e He] _]. destruct (on_fw (emit ping_frame) (b_sd c)) as [r s'] eqn:Es. cbn in He. subst r.
    eexists. split; [by eapply k_send_fails|]. cbn. split_and!; (done || lia).
Qed.

Lemma keepalive_ends out0 c :
  inv out0 c → is_shut (b_close c) = true →
  ∃ c', rtc (step p) c c' ∧ b_keep c' = KGone ∧ b_close c' = b_close c ∧ b_phase c' = b_phase c.
Proof.
  remember (krank (b_keep c)) as n eqn:En. revert c En. induction n as [n IH] using lt_wf_ind. intros c -> Hi Hc.
  destruct (decide (krank (b_keep c) = 0%nat)) as [Hz|Hz].
  { exists c. split; [done|]. by destruct (b_keep c). }
  destruct (keep_advances out0 c Hi Hc ltac:(intros E; by rewrite E in Hz)) as (c1 & Hs & Hlt & Hcl & Hph).
  destruct (IH _ Hlt c1 eq_refl) as (c2 & Hr & Hk & Hcl2 & Hph2);
    [by eapply step_inv; [|by apply by_keepalive]|by rewrite Hcl|].
  exists c2. split; [|split; [done|split; congruence]]. eapply rtc_l; [by apply by_keepalive|done].
Qed.

(** [Close] can come to its end. *)
Lemma close_ends out0 c : inv out0 c → ¬ hung c → ∃ c', rtc (step p) c c' ∧ b_close c' = CReturned.
Proof.
  intros Hi Hh.
  assert (Hshut : ∃ c1, rtc (step p) c c1 ∧ ¬ hung c1 ∧ is_shut (b_close c1) = true).
  { destruct (b_close c) eqn:E; [| |exists c; by rewrite E..].
    - exists (Close [] c). split; [apply Close_steps; [done|constructor]|]. split; [|done].
      intros Hx. by apply Hh, (hung_same (Close [] c) c).
    - exists (shut_down [] c). split; [by apply rtc_once, by_others, e_shut; [|constructor]|]. split; [|done].
      intros Hx. by apply Hh, (hung_same (shut_down [] c) c). }
  destruct Hshut as (c1 & R1 & Hh1 & Hc1). pose proof (steps_inv p out0 _ _ Hi R1) as Hi1.
  destruct (sender_ends out0 c1 Hi1 Hc1 Hh1) as (c2 & R2 & Hph2 & Hc2 & _). pose proof (steps_inv p out0 _ _ Hi1 R2) as Hi2.
  rewrite <- Hc2 in Hc1. destruct (keepalive_ends out0 c2 Hi2 Hc1) as (c3 & R3 & Hk3 & Hc3 & Hph3). rewrite <- Hc3 in Hc1.
  assert (R : rtc (step p) c c3) by (etrans; [exact R1|]; by etrans).
  destruct (b_close c3) eqn:E; try done; [|by exists c3].
  exists (set_close CReturned c3). split; [|done]. eapply rtc_r; [exact R|].
  apply by_others, e_return; [done|by rewrite Hph3|done].
Qed.

(** ** The theorem *)

(** C27. What a [Close] leaves behind, called at any moment: while a burst is
    being collected, in the middle of a flush or of a [conn.Write], beside a
    keepalive PING.  (1) As long as the goroutines have not met in the frame
    buffer, the wire holds whole DATA, PONG and PING frames, after the closing
    possibly a proper prefix of one more; and the data in the frames, then what
    the sender holds, then the queue, are what the [Write] calls accepted, in
    order, though parts of it may be missing.  (2) Nothing is missing up to a
    [Close] of a healthy connection: the wire then stays as the close found it,
    but for the frame it cut, and exactly what the sender held and the queue
    contained is dropped, whatever callers, timers and goroutines do afterwards.
    (3) Once the connection is closed nothing more is ever sent.  (4) From any
    moment on [Close] can come to its return, both goroutines having ended,
    exactly if the sender is not in a sampling loop that does not return, nor
    about to enter one; which it never is when the size sampling returns. *)
Theorem Close_drops sd c :
  sd_ok sd → rtc (step p) (bconn_init sd) c →
  (unraced c → ∃ w fs torn, c_out (wire c) = c_out (fw_w (sd_fw sd)) ++ w ++ torn ∧ frames_wire fs w ∧
     Forall sent_type fs ∧ torn_part (is_shut (b_close c)) torn ∧
     sublist (data_payload fs ++ collected c ++ concat (b_inbox c)) (b_accepted c)) ∧
  (unraced c → b_done c = false → b_writeErr c = false →
     ∀ part c', in_flight c part → rtc (step p) (Close part c) c' →
     ∃ w fs, c_out (wire c') = c_out (fw_w (sd_fw sd)) ++ w ++ part ∧ frames_wire fs w ∧ torn_part true part ∧
       b_accepted c = data_payload fs ++ collected c ++ concat (b_inbox c)) ∧
  (is_shut (b_close c) = true → ∀ c', rtc (step p) c c' → c_out (wire c') = c_out (wire c)) ∧
  ((∃ c', rtc (step p) c c' ∧ b_close c' = CReturned) ↔ ¬ hung c) ∧
  (src_returns → ¬ hung c).
Proof.
  intros Hsd Hr. pose proof (reachable_inv p sd c Hsd Hr) as Hi. split_and!.
  - intros Hu. destruct (unraced_books _ _ Hi Hu) as [_ (w & fs & torn & H1' & H2' & H3' & _ & H5' & H6' & _)].
    by exists w, fs, torn.
  - intros Hu Hd He part c' Hf Hr'. destruct (unraced_books _ _ Hi Hu) as [_ (w & fs & torn & H1' & H2' & H3' & _ & H5' & _ & H7')].
    assert (Hc : b_close c = COpen) by (unfold b_done in Hd; by destruct (b_close c)).
    rewrite Hc in H5'. destruct H5' as [->|[? _]]; [|done]. rewrite app_nil_r in H1'.
    pose proof (steps_inv p _ _ _ Hi (Close_steps part c Hc Hf)) as Hi1.
    destruct (steps_frozen _ _ _ Hi1 eq_refl Hr') as [Ho _]. exists w, fs. rewrite Ho. split_and!.
    + change (c_out (wire c) ++ part = c_out (fw_w (sd_fw sd)) ++ w ++ part). by rewrite H1', app_assoc.
    + done.
    + apply (in_flight_torn _ c part Hi); [|done]. destruct Hu as [Hp|]; [by destruct (inv_quiet _ _ Hi Hp)|done].
    + symmetry. apply H7'. unfold exact. by rewrite Hd, He.
  - intros Hc c' Hr'. by destruct (steps_frozen _ _ _ Hi Hc Hr').
  - split; [|by apply (close_ends _ c Hi)]. intros (c' & Hr' & Hc') Hh.
    by eapply (hung_not_returned _ c' (steps_inv p _ _ _ Hi Hr')); [eapply hung_forever|].
  - intros Hret. by eapply returns_not_hung.
Qed.

(** ** [keepaliveLoop]

    [script]: what the select gives in each turn, [None] for [ctx.Done()], and
    for a timer the state that the loop then reads. *)
Definition keepalive_turn (st : connState) : M (sender Src) bool :=
  keep_wait p ;;;
  if busy st then ret true else
  idle <- keep_idle p ;;
  if negb idle then ret true else
  r <- try sendPing ;;
  ret (match r with inl _ => true | inr _ => false end).

Fixpoint keepaliveLoop (script : list (option connState)) : M (sender Src) unit :=
  match script with
  | [] | None :: _ => ret tt
  | Some st :: rest =>
      go <- keepalive_turn st ;;
      if go : bool then keepaliveLoop rest else ret tt
  end.

Lemma sendPing_split (s : sender Src) :
  sendPing s = match ping_begin s with
               | (Ok (inl _), s1) => on_fw (emit ping_frame) s1
               | (Ok (inr e), s1) => (Err e, s1)
               | (Err e, s1) => (Err e, s1)
               | (Panic, s1) => (Panic, s1)
               end.
Proof.
  unfold sendPing, ping_begin. destruct (now_run s) as (t & s1 & E & _). unfold bind at 1 3. rewrite E.
  unfold bind, try. cbn [set_pendingPing modify]. rewrite !on_fw_eq, WriteFrame_fill_emit. unfold bind. cbn [sd_fw].
  destruct (fill ping_frame (sd_fw s1)) as [[u|e|] fw]; cbn [fst snd]; [|done|done]. by rewrite on_fw_eq.
Qed.

(** Uninterrupted, a turn of the machine is a turn of the loop. *)
Lemma turn_alone c go sd' :
  b_keep c = KWait → keepalive_turn (b_state c) (b_sd c) = (Ok go, sd') →
  ∃ c', rtc (keep_step p) c c' ∧ b_sd c' = sd' ∧ b_keep c' = (if go : bool then KWait else KGone) ∧
    b_phase c' = b_phase c ∧ b_inbox c' = b_inbox c.
Proof.
  intros Hk. unfold keepalive_turn. destruct (keep_wait_run p (b_sd c)) as (s1 & E1 & _). erewrite bind_Ok by exact E1.
  set (c1 := set_sd s1 (set_keep KWoken c)). assert (S1 : keep_step p c c1) by (by eapply k_timer).
  pose proof (k_look p c1 eq_refl) as S2. change (b_state c1) with (b_state c) in S2.
  destruct (busy (b_state c)).
  { intros [= <- <-]. eexists. split; [eapply rtc_l; [exact S1|]; by apply rtc_once|done]. }
  destruct (keep_idle_run p s1) as (b & s2 & E2 & _). erewrite bind_Ok by exact E2.
  set (c2 := set_keep KLooked c1) in *. pose proof (k_idle p c2 b s2 eq_refl E2) as S3.
  destruct b; cbn [negb].
  2: { intros [= <- <-]. eexists. split; [eapply rtc_l; [exact S1|]; eapply rtc_l; [exact S2|]; by apply rtc_once|done]. }
  set (c3 := set_sd s2 (set_keep KPing c2)) in *. unfold bind, try. rewrite sendPing_split.
  destruct (ping_begin_run s2) as ([u|e] & s3 & E3 & _); rewrite E3.
  2: { intros [= <- <-]. pose proof (k_fill_fails p c3 e s3 eq_refl E3) as S4. eexists.
       split; [eapply rtc_l; [exact S1|]; eapply rtc_l; [exact S2|]; eapply rtc_l; [exact S3|]; by apply rtc_once|done]. }
  pose proof (k_fill p c3 u s3 eq_refl E3) as S4. set (c4 := set_sd s3 _) in S4.
  destruct (on_fw (emit ping_frame) s3) as [[u'|e|] s4] eqn:E4; [| |done]; intros [= <- <-];
    [pose proof (k_send p c4 u' s4 eq_refl E4) as S5|pose proof (k_send_fails p c4 e s4 eq_refl E4) as S5]; eexists;
    (split; [eapply rtc_l; [exact S1|]; eapply rtc_l; [exact S2|]; eapply rtc_l; [exact S3|]; eapply rtc_l; [exact S4|]; by apply rtc_once|done]).
Qed.
End closing.

(** ** A connection closed in the middle of a flush *)

(** The second of three frames of 100 bytes is in the buffer when the connection
    is closed with seven bytes of it sent. *)
Definition long_write : bytes := replicate 250 x61.

Lemma flush_interrupted :
  ∃ c, rtc browser_step (bconn_init sd0) c ∧ b_done c = false ∧ b_writeErr c = false ∧ b_pings c = 0%nat ∧
    b_accepted c = long_write ++ str "next" ∧ collected c = replicate 161 x61 ∧ b_inbox c = [str "next"] ∧
    sender_frame (b_phase c) = Some (data_frame (replicate 89 x61) 0) ∧
    take 12 (fw_buf (sd_fw (b_sd c))) = frame_header (data_frame (replicate 89 x61) 0) ++ [x61].
Proof.
  eexists. split.
  { run_step ltac:(apply by_others; eapply (e_write long_write)).
    run_step ltac:(apply by_sender; eapply s_take; [|by left]).
    run_step ltac:(apply by_others; eapply (e_write (str "next"))).
    run_step ltac:(apply by_sender; eapply s_window).
    run_step ltac:(apply by_sender; eapply s_sample).
    run_step ltac:(apply by_sender; eapply s_fill).
    run_step ltac:(apply by_sender; eapply s_send).
    run_step ltac:(apply by_sender; eapply s_sample).
    run_step ltac:(apply by_sender; eapply s_fill).
    apply rtc_refl. }
  vm_compute. repeat split.
Qed.

(** The rest of the burst and the queue are lost, and [Close] can return. *)
Lemma Close_drops_witness :
  ∃ c c1 : bconn (Src := unit), b_accepted c = long_write ++ str "next" ∧ collected c = replicate 161 x61 ∧
    (∃ w fs, c_out (wire c1) = w ++ frame_header (data_frame (replicate 89 x61) 0) ++ [x61] ∧ frames_wire fs w ∧
       long_write ++ str "next" = data_payload fs ++ replicate 161 x61 ++ str "next") ∧
    ∃ c2, rtc browser_step c1 c2 ∧ b_close c2 = CReturned.
Proof.
  destruct flush_interrupted as (c & Hr & Hd & He & Hp & Hacc & Hcol & Hib & Hsf & Hbuf).
  assert (Hfl : in_flight c (take 12 (fw_buf (sd_fw (b_sd c))))).
  { apply (flight_part c (data_frame (replicate 89 x61) 0) 12); [left; exact Hsf|vm_compute; reflexivity]. }
  pose (c1 := Close (take 12 (fw_buf (sd_fw (b_sd c)))) c).
  assert (Hclose : b_close c = COpen) by (unfold b_done in Hd; destruct (b_close c); [reflexivity|discriminate..]).
  assert (Hr1 : rtc browser_step (bconn_init sd0) c1).
  { etrans; [exact Hr|]. exact (Close_steps Browser _ c Hclose Hfl). }
  destruct (Close_drops (H := flat_math) (H0 := flat_source) Browser sd0 c sd0_ok Hr) as (_ & H2 & _).
  destruct (Close_drops (H := flat_math) (H0 := flat_source) Browser sd0 c1 sd0_ok Hr1) as (_ & _ & _ & [_ H4] & H5).
  exists c, c1. split; [exact Hacc|]. split; [exact Hcol|]. split.
  - destruct (H2 (or_introl Hp) Hd He _ c1 Hfl (rtc_refl _ _)) as (w & fs & Ho & Hw & _ & Ha).
    exists w, fs. rewrite Hacc, Hcol, Hib, Hbuf in *. cbn [concat] in Ha. rewrite app_nil_r in Ha.
    split; [exact Ho|]. split; [exact Hw|exact Ha].
  - apply H4. apply H5. split; [intros x _; do 2 eexists; reflexivity|intros m x _; do 2 eexists; reflexivity].
Defined.

(** Between the cancelling of the context and the closing of the connection a
    burst can be dropped and a later write still be sent: the peer then receives
    the later data without the earlier, both of which were accepted. *)
Lemma close_leaves_gap :
  ∃ c, rtc browser_step (bconn_init sd0) c ∧ b_writeErr c = false ∧ b_pings c = 0%nat ∧
    b_accepted c = str "first" ++ str "second" ∧ unsent c = [] ∧
    c_out (wire c) = frame_bytes (data_frame (str "second") 0) [].
Proof.
  eexists. split.
  { run_step ltac:(apply by_others; eapply (e_write (str "first"))).
    run_step ltac:(apply by_sender; eapply s_take; [|by left]).
    run_step ltac:(apply by_others; eapply e_cancel).
    run_step ltac:(apply by_sender; eapply s_abandon).
    run_step ltac:(apply by_others; eapply (e_write (str "second"))).
    run_step ltac:(apply by_sender; eapply s_take; [|by left]).
    run_step ltac:(apply by_sender; eapply s_window).
    run_step ltac:(apply by_sender; eapply s_sample).
    run_step ltac:(apply by_sender; eapply s_fill).
    run_step ltac:(apply by_sender; eapply s_send).
    apply rtc_refl. }
  vm_compute. repeat split.
Qed.

(** ** The video personality *)

(** A new connection of the video personality, whose first draws are low. *)
Definition video_sd : sender shaper :=
  Sender (NewWriter (conn_of []) (stream [] EOF)) (Shaper (NewPaddingSelector VideoStream) (Mrand (λ _, 0) (λ _, f1) 0))
    (NewPacer VideoStream) (Mrand (λ _, 1) (λ _, f1) 0) (Clock 0 []) 0 0.

(** Its first burst hangs the sender, however many draws the sampling is given;
    from then on [Close] never returns, in any run. *)
Lemma video_close_never_returns fuel :
  let step := step (H := flat_math) (H0 := shaper_source fuel) VideoStream in
  ∃ c, rtc step (bconn_init video_sd) c ∧ b_accepted c = str "x" ∧
    ∀ c', rtc step c c' → b_close c' ≠ CReturned.
Proof.
  intros St.
  set (c0 := set_phase (PCollect [str "x"] 1) stateBurst
    (BConn [] [] [] PIdle stateIdle video_sd false KWait COpen (str "x") 0 false)).
  set (c := set_phase (PFlush (str "x")) stateBurst c0).
  assert (Hr : rtc St (bconn_init video_sd) c).
  { eapply rtc_l; [apply by_others; by eapply (e_write (str "x"))|].
    eapply rtc_l; [apply by_sender; eapply s_take; [done|by left]|].
    apply rtc_once, by_sender. exact (s_window (H0 := shaper_source fuel) VideoStream c0 [str "x"] 1 eq_refl). }
  assert (Hh : hung (H0 := shaper_source fuel) c).
  { exists (str "x"). right. split; [done|]. split; [done|]. unfold sample_fragment, bind, on_src, zoom.
    pose proof (video_first_switch fuel (sh_rand (sd_src video_sd)) ltac:(by vm_compute)) as Hv.
    change (src_apparent (sd_src (b_sd c))) with (SampleApparentSize fuel (Shaper (NewPaddingSelector VideoStream) (sh_rand (sd_src video_sd)))).
    destruct (SampleApparentSize _ _) as [r s']. cbn [fst] in Hv. by subst r. }
  assert (Hok : sd_ok (H0 := shaper_source fuel) video_sd) by (split; [by vm_compute|done]).
  exists c. split; [exact Hr|]. split; [done|]. intros c' Hr'.
  pose proof (reachable_inv (H0 := shaper_source fuel) VideoStream video_sd c Hok Hr) as Hi.
  eapply hung_not_returned; [eapply steps_inv; [exact Hi|exact Hr']|]. by eapply hung_forever.
Qed.
