(* ===== verification/Pipe.v ===== *)
(** [internal/mux/session.go]: the bidirectional byte relay [Relay] as two
    concurrent copiers over two connections, and the session parameters.  The
    sessions themselves are the third-party smux library. *)

From Stdlib Require Import Strings.Byte String ZArith Lia.
From stdpp Require Import base list relations.
From S2P Require Import Prelude Encoding Io.

(** ** Session parameters *)

Record smuxConfig := mkSmux {
  sx_Version : Z;
  sx_KeepAliveInterval : Z;
  sx_KeepAliveTimeout : Z;
  sx_MaxFrameSize : Z;
  sx_MaxReceiveBuffer : Z;
  sx_MaxStreamBuffer : Z
}.

Definition defaultSmuxConfig : smuxConfig :=
  mkSmux 2 (15 * second) (45 * second) 32768 (4 * 1024 * 1024) (256 * 1024).

Definition SmuxConfig (maxStreams maxFrameSize receiveBuffer : Z) : smuxConfig :=
  let d := defaultSmuxConfig in
  mkSmux (sx_Version d) (sx_KeepAliveInterval d) (sx_KeepAliveTimeout d)
    (if maxFrameSize >? 0 then maxFrameSize else sx_MaxFrameSize d)
    (if receiveBuffer >? 0 then receiveBuffer else sx_MaxReceiveBuffer d)
    (sx_MaxStreamBuffer d).

Definition ShortKeepaliveConfig : smuxConfig :=
  let d := defaultSmuxConfig in
  mkSmux (sx_Version d) (1 * second) (3 * second)
    (sx_MaxFrameSize d) (sx_MaxReceiveBuffer d) (sx_MaxStreamBuffer d).

(** ** One direction: [io.Copy(dst, src); dst.Close(); done <- struct{}{}]

    [CRead]: at [src.Read]; [CWrite bs e]: at [dst.Write(bs)], the read having
    also reported [e]; [CClose]: the copy has returned; [CDone]: the goroutine
    has ended. *)
Inductive cphase : Type := CRead | CWrite (bs : bytes) (e : option error) | CClose | CDone.

#[global] Instance cphase_eq_dec : EqDecision cphase.
Proof. solve_decision. Defined.

(** The buffer of [io.Copy]. *)
Definition copy_buffer : nat := Z.to_nat 32768.

(** [n, err := conn.Read(buf)]: on a connection this side has closed it fails. *)
Definition conn_Read (n : nat) (c : conn) : bytes * option error * conn :=
  if c_closed c then ([], Some ErrClosed, c)
  else let '(bs, e, r) := rd_read n (c_rd c) in (bs, e, put_rd r c).

(** The loop goes on unless the read reported an error ([io.EOF] included). *)
Definition after_read (e : option error) : cphase :=
  match e with Some _ => CClose | None => CRead end.

Definition copy_step (ph : cphase) (dst src : conn) : cphase * conn * conn :=
  match ph with
  | CRead =>
      let '(bs, e, src') := conn_Read copy_buffer src in
      (match bs with [] => after_read e | _ => CWrite bs e end, dst, src')
  | CWrite bs e =>
      match conn_Write bs dst with
      | (Ok _, dst') => (after_read e, dst', src)
      | (_, dst') => (CClose, dst', src)
      end
  | CClose => (CDone, conn_close dst, src)
  | CDone => (CDone, dst, src)
  end.

(** ** [Relay(a, b)]: the two goroutines *)
Record pipe := Pipe { p_a : conn; p_b : conn; p_ba : cphase; p_ab : cphase }.

Definition Relay (a b : conn) : pipe := Pipe a b CRead CRead.

(** One step of [io.Copy(a, b)] and of [io.Copy(b, a)]. *)
Definition step_ba (p : pipe) : pipe :=
  let '(ph, a, b) := copy_step (p_ba p) (p_a p) (p_b p) in Pipe a b ph (p_ab p).
Definition step_ab (p : pipe) : pipe :=
  let '(ph, b, a) := copy_step (p_ab p) (p_b p) (p_a p) in Pipe a b (p_ba p) ph.

(** The scheduler lets one goroutine that has not ended make a step. *)
Inductive pstep : pipe → pipe → Prop :=
  | pstep_ba p : p_ba p ≠ CDone → pstep p (step_ba p)
  | pstep_ab p : p_ab p ≠ CDone → pstep p (step_ab p).

(** Both receives from [done] have taken place. *)
Definition returned (p : pipe) : bool :=
  match p_ba p, p_ab p with CDone, CDone => true | _, _ => false end.

(** A schedule, for evaluation: [true] is [step_ba]. *)
Fixpoint run_schedule (sched : list bool) (p : pipe) : pipe :=
  match sched with
  | [] => p
  | s :: rest => run_schedule rest (if s then step_ba p else step_ab p)
  end.

(** ** Termination *)

Definition src_size (c : conn) : nat := length (flatten (c_rd c)) + length (rd_chunks (c_rd c)).

Definition copy_weight (ph : cphase) (src : conn) : nat :=
  match ph with
  | CRead => 3 * src_size src + 3
  | CWrite _ None => 3 * src_size src + 4
  | CWrite _ (Some _) => 2
  | CClose => 1
  | CDone => 0
  end.

Lemma rd_read_chunks n r : (length (rd_chunks (snd (rd_read n r))) <= length (rd_chunks r))%nat.
Proof. unfold rd_read. destruct (rd_chunks r) eqn:E; [cbn; rewrite E; cbn; lia|]. case_match; cbn; lia. Qed.

(** What a step leaves alone, and that it makes progress. *)
Lemma copy_step_weight ph dst src :
  ph ≠ CDone →
  match copy_step ph dst src with
  | (ph', dst', src') => (copy_weight ph' src' < copy_weight ph src)%nat ∧ c_rd dst' = c_rd dst
  end.
Proof.
  destruct ph as [|bs e| |]; intros Hne; [| |cbn; split; [lia|done]|done].
  - cbn [copy_step]. unfold conn_Read.
    destruct (c_closed src); [cbn; split; [lia|done]|].
    destruct (rd_read_spec copy_buffer (c_rd src)) as (bs & e & r & Hrd & Hfl & _ & _ & _ & He);
      [unfold copy_buffer; lia|]. rewrite Hrd.
    assert (Hsize : e = None → (src_size (put_rd r src) < src_size src)%nat).
    { intros ->. unfold src_size. cbn [c_rd put_rd]. rewrite Hfl, length_app.
      destruct He as [->|]; [|lia]. unfold copy_buffer.
      pose proof (rd_read_chunks (Z.to_nat 32768) (c_rd src)) as Hle.
      fold copy_buffer in Hle. rewrite Hrd in Hle. cbn in Hle. lia. }
    split; [|done].
    destruct bs, e; cbn [copy_weight after_read]; try lia; specialize (Hsize eq_refl); lia.
  - cbn [copy_step]. assert (∃ r c, conn_Write bs dst = (r, c) ∧ c_rd c = c_rd dst ∧ is_panic r = false)
      as (r & c & -> & Hrd & _).
    { unfold conn_Write. destruct (c_closed dst), (c_wr dst) as [|[[]|] ?]; eauto. }
    destruct r; (split; [|done]); destruct e; cbn [copy_weight after_read]; lia.
Qed.

Definition pipe_weight (p : pipe) : nat :=
  (copy_weight (p_ba p) (p_b p) + copy_weight (p_ab p) (p_a p))%nat.

Lemma copy_weight_src ph src src' : c_rd src' = c_rd src → copy_weight ph src' = copy_weight ph src.
Proof. intros E. unfold copy_weight, src_size. by rewrite E. Qed.

Lemma pstep_weight p p' : pstep p p' → (pipe_weight p' < pipe_weight p)%nat.
Proof.
  destruct 1 as [p Hne|p Hne]; unfold pipe_weight, step_ba, step_ab.
  - pose proof (copy_step_weight (p_ba p) (p_a p) (p_b p) Hne) as Hw.
    destruct (copy_step _ _ _) as [[ph a] b]. destruct Hw as [Hw Hrd]. cbn [p_ba p_ab p_a p_b].
    rewrite (copy_weight_src (p_ab p) (p_a p) a Hrd). lia.
  - pose proof (copy_step_weight (p_ab p) (p_b p) (p_a p) Hne) as Hw.
    destruct (copy_step _ _ _) as [[ph b] a]. destruct Hw as [Hw Hrd]. cbn [p_ba p_ab p_a p_b].
    rewrite (copy_weight_src (p_ba p) (p_b p) b Hrd). lia.
Qed.

Lemma pstep_bound n p p' : nsteps pstep n p p' → (n + pipe_weight p' <= pipe_weight p)%nat.
Proof.
  induction 1 as [|n p p1 p2 Hs _ IH]; [lia|]. apply pstep_weight in Hs. lia.
Qed.

(** ** What is delivered *)

Definition held (ph : cphase) : bytes := match ph with CWrite bs _ => bs | _ => [] end.

(** The copy will not read again. *)
Definition ended (ph : cphase) : bool :=
  match ph with CRead | CWrite _ None => false | _ => true end.

(** One direction, from a source that had [inp] to send and a destination that
    had been sent [out0]; [clean]: no write to the destination fails. *)
Record dir_inv (out0 inp : bytes) (clean : bool) (ph : cphase) (dst src : conn) : Prop := {
  d_moved : ∃ w lost, c_out dst = out0 ++ w ∧ inp = w ++ held ph ++ lost ++ flatten (c_rd src) ∧
    (clean = true → lost = []) ∧ (lost = [] ∨ ph = CClose ∨ ph = CDone);
  d_closed : c_closed dst = true ↔ ph = CDone;
  d_clean : clean = true → c_wr dst = [];
  d_ended : clean = true → ended ph = true → flatten (c_rd src) = [] ∨ c_closed src = true
}.

Lemma dir_inv_frame out0 inp clean ph dst src dst' src' :
  c_rd src' = c_rd src → (c_closed src = true → c_closed src' = true) →
  c_out dst' = c_out dst → c_closed dst' = c_closed dst → c_wr dst' = c_wr dst →
  dir_inv out0 inp clean ph dst src → dir_inv out0 inp clean ph dst' src'.
Proof.
  intros Hr Hc Ho Hd Hw [Hm Hcl Hclean He].
  split; rewrite ?Hr, ?Ho, ?Hd, ?Hw; [done|done|done|].
  intros E1 E2. destruct (He E1 E2); [by left|right; auto].
Qed.

(** What one step leaves alone: the incoming side of its destination, and all
    of its source but what it read. *)
Lemma copy_step_frame ph dst src ph' dst' src' :
  copy_step ph dst src = (ph', dst', src') →
  c_rd dst' = c_rd dst ∧ (c_closed dst = true → c_closed dst' = true) ∧
  c_out src' = c_out src ∧ c_closed src' = c_closed src ∧ c_wr src' = c_wr src.
Proof.
  unfold copy_step. destruct ph as [|bs e| |].
  - unfold conn_Read. destruct (c_closed src) eqn:Ec; [intros [= _ <- <-]; done|].
    destruct (rd_read _ _) as [[bs e] r]. by intros [= _ <- <-].
  - unfold conn_Write. destruct (c_closed dst) eqn:Ec; [intros [= _ <- <-]; done|].
    destruct (c_wr dst) as [|[[]|] ?]; by intros [= _ <- <-].
  - by intros [= _ <- <-].
  - by intros [= _ <- <-].
Qed.

Lemma copy_step_inv out0 inp clean ph dst src ph' dst' src' :
  copy_step ph dst src = (ph', dst', src') → ph ≠ CDone →
  dir_inv out0 inp clean ph dst src → dir_inv out0 inp clean ph' dst' src'.
Proof.
  intros Hs Hne [(w & lost & Ho & Hi & Hl & Hlp) Hcl Hclean He].
  assert (Hopen : c_closed dst = false) by (destruct (c_closed dst); tauto).
  destruct ph as [|bs e| |]; [| | |done]; cbn [copy_step] in Hs.
  - destruct Hlp as [->|[|]]; [|done|done]. unfold conn_Read in Hs.
    destruct (c_closed src) eqn:Ec.
    + injection Hs as <- <- <-. split; cbn [after_read]; [exists w, []; auto|by rewrite Hopen|done|by right].
    + destruct (rd_read_spec copy_buffer (c_rd src)) as (bs & e & r & Hrd & Hfl & _ & _ & _ & Hend);
        [unfold copy_buffer; lia|].
      rewrite Hrd in Hs. injection Hs as <- <- <-.
      cbn [held] in Hi. rewrite Hfl in Hi. split; cbn [c_rd put_rd].
      * exists w, []. split_and!; auto. rewrite Hi. by destruct bs, e.
      * rewrite Hopen. by destruct bs, e.
      * done.
      * intros _ Hend'. destruct bs, e; try done; destruct Hend as (_ & Hend & _); by left.
  - destruct Hlp as [->|[|]]; [|done|done]. unfold conn_Write in Hs. rewrite Hopen in Hs.
    assert (Hok : ∀ wr, dst' = Conn (c_rd dst) (c_out dst ++ bs) wr (c_rdl dst) (c_wdl dst) false →
        (clean = true → wr = []) → ph' = after_read e → src' = src → dir_inv out0 inp clean ph' dst' src').
    { intros wr -> Hwr -> ->. split; cbn [c_out c_closed c_wr].
      - exists (w ++ bs), []. rewrite Ho, Hi, <- !app_assoc. split_and!; auto. by destruct e.
      - by destruct e.
      - done.
      - intros Ecl. specialize (He Ecl). by destruct e. }
    destruct (c_wr dst) as [|[[n er]|] wr] eqn:Ew; injection Hs as <- <- <-; [by eapply Hok| |].
    + split; cbn [c_out c_closed c_wr].
      * exists (w ++ take n bs), (drop n bs). rewrite Ho, Hi, <- !app_assoc. cbn [held app].
        rewrite (app_assoc (take n bs)), take_drop. split_and!; auto.
        intros Ecl. by specialize (Hclean Ecl).
      * done.
      * intros Ecl. by specialize (Hclean Ecl).
      * intros Ecl. by specialize (Hclean Ecl).
    + eapply Hok; [done| |done|done]. intros Ecl. by specialize (Hclean Ecl).
  - injection Hs as <- <- <-. split; cbn [conn_close c_out c_closed c_wr]; auto.
    + exists w, lost. split_and!; auto.
    + by split.
Qed.

(** The step in which a clean copy ends. *)
Lemma copy_step_ended ph dst src ph' dst' src' :
  copy_step ph dst src = (ph', dst', src') → c_closed dst = false → c_wr dst = [] →
  ended ph' = true →
  (ended ph = true ∧ c_rd src' = c_rd src) ∨ c_closed src = true ∨ flatten (c_rd src') = [].
Proof.
  intros Hs Hopen Hw Hend. destruct ph as [|bs e| |]; cbn [copy_step] in Hs.
  - unfold conn_Read in Hs. destruct (c_closed src); [auto|].
    destruct (rd_read_spec copy_buffer (c_rd src)) as (bs & e & r & Hrd & _ & _ & _ & _ & He);
      [unfold copy_buffer; lia|].
    rewrite Hrd in Hs. injection Hs as <- <- <-. right; right.
    destruct bs, e; try done; by destruct He as (_ & ? & _).
  - rewrite conn_Write_ok in Hs by done. injection Hs as <- <- <-. destruct e; auto.
  - injection Hs as <- <- <-. auto.
  - injection Hs as <- <- <-. auto.
Qed.

Record pipe_inv (a b : conn) (clean : bool) (p : pipe) : Prop := {
  i_ba : dir_inv (c_out a) (flatten (c_rd b)) clean (p_ba p) (p_a p) (p_b p);
  i_ab : dir_inv (c_out b) (flatten (c_rd a)) clean (p_ab p) (p_b p) (p_a p);
  i_first : clean = true → ended (p_ba p) = true → ended (p_ab p) = true →
    flatten (c_rd (p_a p)) = [] ∨ flatten (c_rd (p_b p)) = []
}.

(** The two directions are the same but for the names of the connections. *)
Definition swap (p : pipe) : pipe := Pipe (p_b p) (p_a p) (p_ab p) (p_ba p).

Lemma pipe_inv_swap a b clean p : pipe_inv a b clean p → pipe_inv b a clean (swap p).
Proof. intros [Hba Hab Hf]. split; [done|done|]. cbn. intros ? E1 E2. destruct (Hf ltac:(done) E2 E1); auto. Qed.

Lemma step_ba_inv a b clean p : pipe_inv a b clean p → p_ba p ≠ CDone → pipe_inv a b clean (step_ba p).
Proof.
  intros [Hba Hab Hf] Hne. unfold step_ba.
  destruct (copy_step (p_ba p) (p_a p) (p_b p)) as [[ph a'] b'] eqn:Hs.
  pose proof (copy_step_frame _ _ _ _ _ _ Hs) as (Hr & Hmono & Ho & Hc & Hw).
  split; cbn [p_a p_b p_ba p_ab].
  - by eapply copy_step_inv.
  - by apply (dir_inv_frame _ _ _ _ (p_b p) (p_a p)).
  - intros Ecl E1 E2. rewrite Hr.
    assert (Hopen : c_closed (p_a p) = false).
    { destruct Hba as [_ Hcl _ _]. destruct (c_closed (p_a p)); tauto. }
    destruct (copy_step_ended _ _ _ _ _ _ Hs Hopen (d_clean _ _ _ _ _ _ Hba Ecl) E1)
      as [[E Hr']|[E|E]]; [rewrite Hr'; auto| |by right].
    left. destruct (d_ended _ _ _ _ _ _ Hab Ecl E2) as [?|?]; congruence.
Qed.

Lemma pstep_inv a b clean p p' : pstep p p' → pipe_inv a b clean p → pipe_inv a b clean p'.
Proof.
  destruct 1 as [p Hne|p Hne]; intros Hi; [by apply step_ba_inv|].
  apply pipe_inv_swap, (step_ba_inv b a clean (swap p)), pipe_inv_swap in Hi; [|done].
  revert Hi. unfold step_ba, step_ab, swap. cbn.
  by destruct (copy_step (p_ab p) (p_b p) (p_a p)) as [[??]?].
Qed.

Lemma Relay_inv a b clean :
  c_closed a = false → c_closed b = false → (clean = true → c_wr a = [] ∧ c_wr b = []) →
  pipe_inv a b clean (Relay a b).
Proof.
  intros Ha Hb Hcl.
  assert (Hdir : ∀ d s, c_closed d = false → (clean = true → c_wr d = []) →
      dir_inv (c_out d) (flatten (c_rd s)) clean CRead d s).
  { intros d s Hd Hw. split; [|by rewrite Hd|done|done].
    exists [], []. cbn. rewrite app_nil_r. auto. }
  split; [apply Hdir|apply Hdir|done]; auto; intros E; by apply Hcl in E as [].
Qed.

Lemma nsteps_pipe_inv a b clean n p p' :
  nsteps pstep n p p' → pipe_inv a b clean p → pipe_inv a b clean p'.
Proof. induction 1; eauto using pstep_inv. Qed.

Lemma dir_inv_prefix out0 inp clean ph dst src :
  dir_inv out0 inp clean ph dst src → ∃ w, c_out dst = out0 ++ w ∧ w `prefix_of` inp ∧
    (clean = true → ph = CDone → flatten (c_rd src) = [] → w = inp).
Proof.
  intros [(w & lost & Ho & -> & Hl & _) _ _ _]. exists w. split_and!; [done|by eexists|].
  intros Ecl -> ->. by rewrite (Hl Ecl), !app_nil_r.
Qed.

(** In every run, what the first connection has been given is a prefix of what
    the second delivers. *)
Lemma relay_inv_prefix a b n p :
  c_closed a = false → c_closed b = false → nsteps pstep n (Relay a b) p →
  ∃ w, c_out (p_a p) = c_out a ++ w ∧ w `prefix_of` flatten (c_rd b).
Proof.
  intros Ha Hb Hn. assert (Hi : pipe_inv a b false p) by (eapply nsteps_pipe_inv; [done|by apply Relay_inv]).
  apply i_ba, dir_inv_prefix in Hi as (w & -> & Hw & _). by exists w.
Qed.

(** C16. The byte relay.  However the two copiers interleave, whatever the two
    sides send and whatever writes fail: each side is sent a prefix of what the
    other side sent, in order and unchanged; the relay always can go on or has
    returned, and returns after a bounded number of steps, with both connections
    closed.  When no write failed, at least one direction has then been delivered
    whole. *)
Theorem relay_correct a b n p :
  c_closed a = false → c_closed b = false → nsteps pstep n (Relay a b) p →
  (n <= 3 * (src_size a + src_size b) + 6)%nat ∧
  (returned p = true ∨ ∃ p', pstep p p') ∧
  ∃ wa wb, c_out (p_a p) = c_out a ++ wa ∧ wa `prefix_of` flatten (c_rd b) ∧
    c_out (p_b p) = c_out b ++ wb ∧ wb `prefix_of` flatten (c_rd a) ∧
    (returned p = true →
       c_closed (p_a p) = true ∧ c_closed (p_b p) = true ∧
       (c_wr a = [] → c_wr b = [] → wa = flatten (c_rd b) ∨ wb = flatten (c_rd a))).
Proof.
  intros Ha Hb Hn. split; [|split].
  - pose proof (pstep_bound _ _ _ Hn) as Hbd. unfold pipe_weight in Hbd. cbn in Hbd. lia.
  - unfold returned. destruct (p_ba p) eqn:E1; [right; eexists; apply pstep_ba; congruence..|].
    destruct (p_ab p) eqn:E2; [right; eexists; apply pstep_ab; congruence..|by left].
  - set (clean := bool_decide (c_wr a = [] ∧ c_wr b = [])).
    assert (Hi : pipe_inv a b clean p).
    { eapply nsteps_pipe_inv; [done|]. apply Relay_inv; [done|done|]. unfold clean.
      by intros ?%bool_decide_eq_true. }
    destruct Hi as [Hba Hab Hf].
    pose proof (d_closed _ _ _ _ _ _ Hba) as Hca. pose proof (d_closed _ _ _ _ _ _ Hab) as Hcb.
    apply dir_inv_prefix in Hba as (wa & -> & Hpa & Hwa), Hab as (wb & -> & Hpb & Hwb).
    exists wa, wb. split_and!; try done. unfold returned.
    destruct (p_ba p); try done. destruct (p_ab p); try done. intros _.
    split; [tauto|]. split; [tauto|]. intros Ea Eb.
    assert (Ecl : clean = true) by (by apply bool_decide_eq_true).
    destruct (Hf Ecl eq_refl eq_refl); auto.
Qed.

(** ** Evaluation *)

(** Every step of the schedule is one of a goroutine that has not ended. *)
Fixpoint schedule_live (sched : list bool) (p : pipe) : bool :=
  match sched with
  | [] => true
  | s :: rest =>
      negb (bool_decide ((if s then p_ba p else p_ab p) = CDone)) &&
      schedule_live rest (if s then step_ba p else step_ab p)
  end.

Lemma run_schedule_nsteps sched p :
  schedule_live sched p = true → nsteps pstep (length sched) p (run_schedule sched p).
Proof.
  revert p. induction sched as [|s sched IH]; intros p; [constructor|].
  cbn. intros [E%negb_true_iff%bool_decide_eq_false IHs%IH]%andb_prop.
  econstructor; [|done]. by destruct s; constructor.
Qed.

(** A client that sends its request and then closes its sending side, and a
    server that answers: with the request direction first, the answer is not
    delivered, though no write failed. *)
Definition half_close_a : conn := conn_of (str "GET /").
Definition half_close_b : conn := conn_of (str "200 OK").
Definition request_first : list bool := [false; false; false; false; true; true].

Example half_close_loses_response :
  let p := run_schedule request_first (Relay half_close_a half_close_b) in
  schedule_live request_first (Relay half_close_a half_close_b) = true ∧
  returned p = true ∧ c_out (p_b p) = str "GET /" ∧ c_out (p_a p) = [].
Proof. vm_compute. done. Qed.

Lemma relay_correct_witness :
  let p := run_schedule request_first (Relay half_close_a half_close_b) in
  nsteps pstep 6 (Relay half_close_a half_close_b) p ∧ returned p = true ∧
  ∃ wa wb, c_out (p_a p) = [] ++ wa ∧ c_out (p_b p) = [] ++ wb ∧
    (wa = str "200 OK" ∨ wb = str "GET /").
Proof.
  intros p.
  assert (Hn : nsteps pstep 6 (Relay half_close_a half_close_b) p)
    by (apply (run_schedule_nsteps request_first); vm_compute; done).
  assert (Hr : returned p = true) by (vm_compute; done).
  destruct (relay_correct half_close_a half_close_b 6 p eq_refl eq_refl Hn)
    as (_ & _ & wa & wb & Ha & _ & Hb & _ & Hret).
  split; [exact Hn|]. split; [exact Hr|]. exists wa, wb.
  split; [exact Ha|]. split; [exact Hb|].
  destruct (Hret Hr) as (_ & _ & Hwhole). exact (Hwhole eq_refl eq_refl).
Defined.
