(* ===== verification/Mux.v ===== *)
(** The multiplexed sessions of [internal/mux/session.go]: methods over the smux
    library, which is an interface. *)

From Stdlib Require Import Strings.Byte String ZArith Lia.
From stdpp Require Import base list.
From S2P Require Import Prelude Encoding Io Pipe.

(** smux.  A session is created over a connection and works on a state of its
    own; a configuration is refused whose frames exceed 65535 bytes or whose
    stream buffer exceeds the receive buffer. *)
Class Smux (S : Type) := {
  smux_Client : conn → smuxConfig → result S;
  smux_Server : conn → smuxConfig → result S;
  smux_OpenStream : M S conn;
  smux_AcceptStream : M S conn;
  smux_IsClosed : S → bool;
  smux_NumStreams : S → Z;
  smux_Close : M S unit;
  smux_close_total s : is_panic (fst (smux_Close s)) = false;
  smux_frame_limit c cfg : 65535 < sx_MaxFrameSize cfg → is_ok (smux_Client c cfg) = false ∧ is_ok (smux_Server c cfg) = false;
  smux_buffer_limit c cfg : sx_MaxReceiveBuffer cfg < sx_MaxStreamBuffer cfg →
    is_ok (smux_Client c cfg) = false ∧ is_ok (smux_Server c cfg) = false
}.

Section session.
Context {S : Type} `{Smux S}.

Record Session := mkSession { ss_s : S; ss_conn : conn }.

Definition on_smux {A} : M S A → M Session A := zoom ss_s (λ s x, mkSession s (ss_conn x)).

Definition of_smux (ctx : string) (c : conn) (r : result S) : result Session :=
  match r with Ok s => Ok (mkSession s c) | Err e => Err (ErrWrap ctx e) | Panic => Panic end.

(** A nil configuration is the default. *)
Definition NewClientSession (c : conn) (cfg : option smuxConfig) : result Session :=
  of_smux "mux: client session" c (smux_Client c (default defaultSmuxConfig cfg)).
Definition NewServerSession (c : conn) (cfg : option smuxConfig) : result Session :=
  of_smux "mux: server session" c (smux_Server c (default defaultSmuxConfig cfg)).

Definition OpenStream : M Session conn := wrap "mux: open stream" (on_smux smux_OpenStream).
Definition AcceptStream : M Session conn := wrap "mux: accept stream" (on_smux smux_AcceptStream).
Definition IsClosed (x : Session) : bool := smux_IsClosed (ss_s x).
Definition NumStreams (x : Session) : Z := smux_NumStreams (ss_s x).

(** Both are closed; the session's error is reported first.  [cerr]: the outcome
    of closing the connection. *)
Definition Close (cerr : option error) : M Session unit :=
  serr <- try (on_smux smux_Close) ;;
  modify (λ x, mkSession (ss_s x) (conn_close (ss_conn x))) ;;;
  match serr, cerr with
  | inr e, _ => fail e
  | inl _, Some e => fail e
  | inl _, None => ret tt
  end.

(** The connection of a session is closed whatever smux says. *)
Lemma Close_closes cerr x :
  is_panic (fst (Close cerr x)) = false ∧ c_closed (ss_conn (snd (Close cerr x))) = true.
Proof.
  unfold Close. pose proof (smux_close_total (ss_s x)) as Ht.
  destruct (smux_Close (ss_s x)) as [[u|e|] s'] eqn:E; [| |done];
    (erewrite bind_Ok by (unfold try, on_smux, zoom; rewrite E; reflexivity));
    (erewrite bind_Ok by reflexivity); [by destruct cerr|done].
Qed.

(** [transport.mux.max_frame_size] above 65535 and a [receive_buffer] below the
    256 KiB of a stream's buffer leave both ends without a session;
    [max_streams] changes nothing. *)
Lemma unusable_config maxStreams maxFrameSize receiveBuffer c :
  65535 < maxFrameSize ∨ 0 < receiveBuffer < 256 * 1024 →
  is_ok (NewClientSession c (Some (SmuxConfig maxStreams maxFrameSize receiveBuffer))) = false ∧
  is_ok (NewServerSession c (Some (SmuxConfig maxStreams maxFrameSize receiveBuffer))) = false.
Proof.
  intros Hc. unfold NewClientSession, NewServerSession, of_smux, default, id.
  set (cfg := SmuxConfig maxStreams maxFrameSize receiveBuffer).
  assert (Hno : is_ok (smux_Client c cfg) = false ∧ is_ok (smux_Server c cfg) = false).
  { unfold cfg, SmuxConfig. destruct Hc as [Hc|Hc].
    - apply smux_frame_limit. cbn [sx_MaxFrameSize]. by rewrite Z.gtb_ltb, (proj2 (Z.ltb_lt _ _)) by lia.
    - apply smux_buffer_limit. cbn [sx_MaxReceiveBuffer sx_MaxStreamBuffer defaultSmuxConfig].
      rewrite (Z.gtb_ltb receiveBuffer), (proj2 (Z.ltb_lt _ _)) by lia. lia. }
  destruct Hno as [Hn1 Hn2]. split; [by destruct (smux_Client c cfg)|by destruct (smux_Server c cfg)].
Qed.

Lemma max_streams_ignored n n' maxFrameSize receiveBuffer :
  SmuxConfig n maxFrameSize receiveBuffer = SmuxConfig n' maxFrameSize receiveBuffer.
Proof. done. Qed.
End session.
