(* ===== verification/Socks.v ===== *)
(** [internal/proxy/socks5/server.go]: the SOCKS5 inbound proxy, from the
    greeting to the relay, against the [Dialer] interface that the tunnel client
    implements. *)

From Stdlib Require Import Strings.Byte String ZArith Lia.
From stdpp Require Import base list.
From S2P Require Import Prelude Encoding Io Frame Pipe.

(** ** [net.IP.String] *)

Definition dotted (b : bytes) : bytes :=
  let o i := dec (Z_of_byte (nth i b x00)) in
  o 0%nat ++ str "." ++ o 1%nat ++ str "." ++ o 2%nat ++ str "." ++ o 3%nat.

(** A 16-bit group in lower-case hexadecimal without leading zeros. *)
Definition hex_group (z : Z) : bytes :=
  let d k := Z.land (Z.shiftr z k) 15 in
  (if z <? 4096 then [] else [hex_digit (d 12)]) ++
  (if z <? 256 then [] else [hex_digit (d 8)]) ++
  (if z <? 16 then [] else [hex_digit (d 4)]) ++ [hex_digit (d 0)].

Definition ip6_groups (b : bytes) : list Z :=
  map (λ i, be_get (take 2 (drop (2 * i) b))) (seq 0 8).

Fixpoint zero_run (gs : list Z) : nat :=
  match gs with g :: gs' => if g =? 0 then S (zero_run gs') else O | [] => O end.

(** The first longest run of at least two zero groups, as its start and end. *)
Definition longest_zero_run (gs : list Z) : nat * nat :=
  fold_left (λ best i,
    let l := zero_run (drop i gs) in
    if (2 <=? l)%nat && (snd best - fst best <? l)%nat then (i, (i + l)%nat) else best)
    (seq 0 8) (255, 255)%nat.

Fixpoint ip6_text (fuel i : nat) (run : nat * nat) (gs : list Z) : bytes :=
  match fuel with
  | O => []
  | S fuel' =>
      if (8 <=? i)%nat then [] else
      let group j := hex_group (nth j gs 0) in
      if (i =? fst run)%nat
      then str "::" ++ (if (8 <=? snd run)%nat then [] else group (snd run) ++ ip6_text fuel' (S (snd run)) run gs)
      else (if (0 <? i)%nat then str ":" else []) ++ group i ++ ip6_text fuel' (S i) run gs
  end.

Definition ip4in6_prefix : bytes := replicate 10 x00 ++ [xff; xff].

Definition IP_String (ip : bytes) : bytes :=
  if (length ip =? 4)%nat then dotted ip
  else if bool_decide (take 12 ip = ip4in6_prefix) then dotted (drop 12 ip)
  else let gs := ip6_groups ip in ip6_text 8 0 (longest_zero_run gs) gs.

Example IP_String_tests :
  map IP_String
    [[x7f; x00; x00; x01];
     replicate 15 x00 ++ [x01];
     [x20; x01; x0d; xb8] ++ replicate 11 x00 ++ [x01];
     replicate 10 x00 ++ [xff; xff; x01; x02; x03; x04];
     replicate 16 x00;
     [x00; x01; x00; x00; x00; x00; x00; x02; x00; x00; x00; x00; x00; x00; xab; xcd]] =
  [str "127.0.0.1"; str "::1"; str "2001:db8::1"; str "1.2.3.4"; str "::"; str "1:0:0:2::abcd"].
Proof. vm_compute. reflexivity. Qed.

Lemma length_dec_byte b : (1 <= length (dec (Z_of_byte b)) <= 3)%nat.
Proof. by destruct b; vm_compute; split; lia. Qed.

Lemma length_dotted b : (7 <= length (dotted b) <= 15)%nat.
Proof.
  unfold dotted. rewrite !length_app.
  pose proof (length_dec_byte (nth 0 b x00)). pose proof (length_dec_byte (nth 1 b x00)).
  pose proof (length_dec_byte (nth 2 b x00)). pose proof (length_dec_byte (nth 3 b x00)).
  cbn [str list_byte_of_string length]. cbn. lia.
Qed.

Lemma length_hex_group z : (1 <= length (hex_group z) <= 4)%nat.
Proof. unfold hex_group. rewrite !length_app. repeat case_bool; cbn; lia. Qed.

Lemma length_ip6_text fuel i run gs : (length (ip6_text fuel i run gs) <= 6 * fuel)%nat.
Proof.
  revert i. induction fuel as [|fuel IH]; intros i; cbn [ip6_text]; [cbn; lia|].
  destruct (8 <=? i)%nat; [cbn; lia|].
  pose proof (length_hex_group (nth (snd run) gs 0)). pose proof (length_hex_group (nth i gs 0)).
  pose proof (IH (S (snd run))). pose proof (IH (S i)).
  destruct (i =? fst run)%nat.
  - rewrite length_app. change (length (str "::")) with 2%nat.
    destruct (8 <=? snd run)%nat; rewrite ?length_app; cbn [length]; lia.
  - rewrite !length_app. destruct (0 <? i)%nat; cbn [length]; [change (length (str ":")) with 1%nat|]; lia.
Qed.

(** The text of an address fits the length byte of a CONNECT request and is not
    empty. *)
Lemma length_IP_String ip : (1 <= length (IP_String ip) <= 48)%nat.
Proof.
  unfold IP_String. destruct (length ip =? 4)%nat; [pose proof (length_dotted ip); lia|].
  destruct (bool_decide _); [pose proof (length_dotted (drop 12 ip)); lia|].
  set (gs := ip6_groups ip). pose proof (length_ip6_text 8 0 (longest_zero_run gs) gs).
  split; [|lia]. cbn [ip6_text]. rewrite (proj2 (Nat.leb_gt 8 0)) by lia.
  destruct (_ =? _)%nat; rewrite !length_app; [change (length (str "::")) with 2%nat; lia|].
  pose proof (length_hex_group (nth 0 gs 0)). lia.
Qed.

(** ** The server *)

Definition socks5Version : byte := x05.
Definition methodNoAuth : byte := x00.
Definition methodNoAccept : byte := xff.
Definition cmdConnect : byte := x01.
Definition atypIPv4 : byte := x01.
Definition atypDomain : byte := x03.
Definition atypIPv6 : byte := x04.
Definition repSuccess : byte := x00.
Definition repGeneralFailure : byte := x01.

(** The [Dialer] interface: a stream through the tunnel, or an error. *)
Class Dialer (D : Type) := OpenStream : AddrType → bytes → Z → M D conn.

Definition negotiate : M conn unit :=
  hdr <- wrap "read greeting" (conn_ReadFull 2) ;;
  let v := nth 0 hdr x00 in
  if bool_decide (v ≠ socks5Version)
  then fail (ErrNew "unsupported SOCKS version: %d" [Z_of_byte v]) else
  let nMethods := Z.to_nat (Z_of_byte (nth 1 hdr x00)) in
  methods <- wrap "read methods" (conn_ReadFull nMethods) ;;
  if bool_decide (methodNoAuth ∈ methods)
  then conn_Write [socks5Version; methodNoAuth] else
  ignore (conn_Write [socks5Version; methodNoAccept]) ;;;
  fail (ErrNew "no acceptable auth method" []).

(** The [switch] on the address type. *)
Definition readAddr (atyp : byte) : M conn (AddrType * bytes) :=
  if bool_decide (atyp = atypIPv4) then
    ipbuf <- wrap "read IPv4" (conn_ReadFull 4) ;; ret (AddrIPv4, IP_String ipbuf)
  else if bool_decide (atyp = atypDomain) then
    lenBuf <- wrap "read domain length" (conn_ReadFull 1) ;;
    domBuf <- wrap "read domain" (conn_ReadFull (Z.to_nat (Z_of_byte (nth 0 lenBuf x00)))) ;;
    ret (AddrDomain, domBuf)
  else if bool_decide (atyp = atypIPv6) then
    ipbuf <- wrap "read IPv6" (conn_ReadFull 16) ;; ret (AddrIPv6, IP_String ipbuf)
  else fail (ErrNew "unsupported address type: %d" [Z_of_byte atyp]).

Definition readRequest : M conn (AddrType * bytes * Z) :=
  hdr <- wrap "read request header" (conn_ReadFull 4) ;;
  let h i := nth i hdr x00 in
  if bool_decide (h 0%nat ≠ socks5Version)
  then fail (ErrNew "unexpected version byte: %d" [Z_of_byte (h 0%nat)]) else
  if bool_decide (h 1%nat ≠ cmdConnect)
  then fail (ErrNew "unsupported command: %d" [Z_of_byte (h 1%nat)]) else
  ta <- readAddr (h 3%nat) ;;
  portBuf <- wrap "read port" (conn_ReadFull 2) ;;
  ret (fst ta, snd ta, be_get portBuf).

Definition sendReply (code : byte) : M conn unit :=
  conn_Write [socks5Version; code; x00; atypIPv4; x00; x00; x00; x00; x00; x00].

Section server.
Context {D : Type} `{Dialer D}.

(** One proxied connection, the clock, and the dialer. *)
Record sconn := SConn { sc_conn : conn; sc_clock : clock; sc_dialer : D }.

Definition on_client {A} : M conn A → M sconn A :=
  zoom sc_conn (λ c s, SConn c (sc_clock s) (sc_dialer s)).
Definition on_clk {A} : M clock A → M sconn A :=
  zoom sc_clock (λ k s, SConn (sc_conn s) k (sc_dialer s)).
Definition on_dialer {A} : M D A → M sconn A :=
  zoom sc_dialer (λ d s, SConn (sc_conn s) (sc_clock s) d).
Definition close_client : M sconn unit := on_client (modify conn_close).

(** Steps 1 and 2 of [handleConn]: the method negotiation and the request, under
    a deadline of 30 seconds. *)
Definition handshake : M sconn (AddrType * bytes * Z) :=
  now <- on_clk time_Now ;;
  on_client (modify (put_dl (Some (now + 30 * second)))) ;;;
  on_client negotiate ;;;
  on_client readRequest.

(** Step 3: open the stream and tell the client. *)
Definition dial_and_reply (addrType : AddrType) (addr : bytes) (port : Z) : M sconn (option pipe) :=
  on_client (modify (put_dl None)) ;;;
  o <- try (on_dialer (OpenStream addrType addr port)) ;;
  match o with
  | inr _ => ignore (on_client (sendReply repGeneralFailure)) ;;; close_client ;;; ret None
  | inl stream =>
      o <- try (on_client (sendReply repSuccess)) ;;
      match o with
      | inr _ => close_client ;;; ret None
      | inl _ => c <- gets sc_conn ;; ret (Some (Relay stream c))
      end
  end.

(** [handleConn] up to the relay: [None] when it has returned, with the client
    connection closed; else the start of the two copiers, [stream] first. *)
Definition handleConn : M sconn (option pipe) :=
  o <- try handshake ;;
  match o with
  | inr _ => close_client ;;; ret None
  | inl (addrType, addr, port) => dial_and_reply addrType addr port
  end.

End server.
Arguments sconn : clear implicits.

(** ** RFC 1928 on plain bytes: the specification

    The answer to a greeting, and what follows it when it was accepted; the
    target of a request, and what follows it. *)
Definition greeting_spec (inp : bytes) : bytes * option bytes :=
  match inp with
  | v :: n :: rest =>
      let k := Z.to_nat (Z_of_byte n) in
      if bool_decide (v = socks5Version) && (k <=? length rest)%nat
      then if bool_decide (methodNoAuth ∈ take k rest)
           then ([socks5Version; methodNoAuth], Some (drop k rest))
           else ([socks5Version; methodNoAccept], None)
      else ([], None)
  | _ => ([], None)
  end.

Definition dest_spec (atyp : byte) (rest : bytes) : option (AddrType * bytes * bytes) :=
  let block k t (f : bytes → bytes) l :=
    if (k <=? length l)%nat then Some (t, f (take k l), drop k l) else None in
  if bool_decide (atyp = atypIPv4) then block 4%nat AddrIPv4 IP_String rest
  else if bool_decide (atyp = atypDomain) then
    match rest with [] => None | n :: l => block (Z.to_nat (Z_of_byte n)) AddrDomain id l end
  else if bool_decide (atyp = atypIPv6) then block 16%nat AddrIPv6 IP_String rest
  else None.

Definition request_spec (inp : bytes) : option (AddrType * bytes * Z * bytes) :=
  match inp with
  | v :: c :: _ :: atyp :: rest =>
      if bool_decide (v = socks5Version) && bool_decide (c = cmdConnect) then
        match dest_spec atyp rest with
        | Some (t, a, rest') =>
            if (2 <=? length rest')%nat then Some (t, a, be_get (take 2 rest'), drop 2 rest') else None
        | None => None
        end
      else None
  | _ => None
  end.

(** ** The readers meet the specification *)

(** A block read, by what the stream still has. *)
Lemma block_run ctx k c out inp :
  view c out inp →
  (∃ c', (k <= length inp)%nat ∧ wrap ctx (conn_ReadFull k) c = (Ok (take k inp), c') ∧ view c' out (drop k inp)) ∨
  (∃ e c', (length inp < k)%nat ∧ wrap ctx (conn_ReadFull k) c = (Err e, c') ∧ view c' out []).
Proof.
  intros Hv. destruct (decide (k <= length inp)%nat) as [Hk|Hk].
  - left. rewrite <- (take_drop k inp) in Hv.
    destruct (view_read_app k c out _ _ Hv) as (c' & Hr & Hv'); [rewrite length_take; lia|].
    exists c'. by rewrite (wrap_Ok _ _ _ _ _ Hr).
  - right. destruct (view_read_short k c out inp Hv) as (e & c' & Hr & Hv'); [lia|].
    exists (ErrWrap ctx e), c'. rewrite (wrap_Err _ _ _ _ _ Hr). split_and!; [lia|done|done].
Qed.

(** The run of a reader that on success leaves [rest] with a value, and else
    fails; [o] has been written. *)
Definition reads_as {A} (m : M conn A) (c : conn) (out : bytes) (o : option (A * bytes)) : Prop :=
  match o with
  | Some (a, rest) => ∃ c', m c = (Ok a, c') ∧ view c' out rest
  | None => ∃ e c' inp, m c = (Err e, c') ∧ view c' out inp
  end.

Lemma negotiate_run c out inp :
  view c out inp →
  reads_as negotiate c (out ++ fst (greeting_spec inp)) (option_map (λ rest, (tt, rest)) (snd (greeting_spec inp))).
Proof.
  intros Hv. unfold negotiate, reads_as.
  destruct (block_run "read greeting" 2 c out inp Hv) as [(c1 & Hk & Hr & Hv1)|(e & c1 & Hk & Hr & Hv1)];
    [erewrite bind_Ok by exact Hr|erewrite bind_Err by exact Hr].
  2: { destruct inp as [|? [|? ?]]; cbn in Hk; try lia; cbn [greeting_spec fst snd option_map];
       rewrite app_nil_r; eauto. }
  destruct inp as [|v [|n rest]]; cbn in Hk; try lia. cbn [take drop nth] in *. cbn [greeting_spec].
  destruct (decide (v = socks5Version)) as [->|Hne].
  2: { rewrite (bool_decide_true (v ≠ _)), (bool_decide_false (v = _)) by done.
       cbn [andb fst snd option_map]. rewrite app_nil_r. unfold fail. eauto 6. }
  rewrite (bool_decide_false (_ ≠ _)), (bool_decide_true (socks5Version = _)) by (done || tauto). cbn [andb].
  set (k := Z.to_nat (Z_of_byte n)).
  destruct (block_run "read methods" k c1 out rest Hv1) as [(c2 & Hk2 & Hr2 & Hv2)|(e & c2 & Hk2 & Hr2 & Hv2)];
    [erewrite bind_Ok by exact Hr2|erewrite bind_Err by exact Hr2].
  2: { rewrite (proj2 (Nat.leb_gt _ _)) by lia. cbn [fst snd option_map]. rewrite app_nil_r. eauto. }
  rewrite (proj2 (Nat.leb_le _ _)) by lia.
  destruct (bool_decide (methodNoAuth ∈ take k rest)); cbn [fst snd option_map].
  - destruct (view_write [socks5Version; methodNoAuth] c2 _ _ Hv2) as (c3 & -> & Hv3). eauto.
  - destruct (view_write [socks5Version; methodNoAccept] c2 _ _ Hv2) as (c3 & Hw & Hv3).
    unfold ignore, try, bind, fail. rewrite Hw. cbn. eauto.
Qed.

(** A block reader for a value computed from one block. *)
Lemma block_value_run {A} ctx k (f : bytes → A) c out inp :
  view c out inp →
  reads_as (b <- wrap ctx (conn_ReadFull k) ;; ret (f b)) c out
    (if (k <=? length inp)%nat then Some (f (take k inp), drop k inp) else None).
Proof.
  intros Hv. destruct (block_run ctx k c out inp Hv) as [(c' & Hk & Hr & Hv')|(e & c' & Hk & Hr & Hv')];
    [rewrite (proj2 (Nat.leb_le _ _)) by lia|rewrite (proj2 (Nat.leb_gt _ _)) by lia]; unfold reads_as.
  - erewrite bind_Ok by exact Hr. by eexists.
  - erewrite bind_Err by exact Hr. by do 3 eexists.
Qed.

Lemma reads_as_bind {A B} (m : M conn A) (k : A → M conn B) c out o (g : A → bytes → option (B * bytes)) :
  reads_as m c out o →
  (∀ a rest c', view c' out rest → reads_as (k a) c' out (g a rest)) →
  reads_as (bind m k) c out (match o with Some (a, rest) => g a rest | None => None end).
Proof.
  intros Hm Hk. destruct o as [[a rest]|]; cbn in Hm.
  - destruct Hm as (c1 & Hr & Hv1). specialize (Hk a rest c1 Hv1).
    unfold reads_as in *. by erewrite bind_Ok by exact Hr.
  - destruct Hm as (e & c1 & inp & Hr & Hv1). unfold reads_as. erewrite bind_Err by exact Hr. eauto.
Qed.

Lemma readAddr_run atyp c out inp :
  view c out inp →
  reads_as (readAddr atyp) c out (option_map (λ x, (x.1.1, x.1.2, x.2)) (dest_spec atyp inp)).
Proof.
  intros Hv. unfold readAddr, dest_spec.
  case_bool_decide; [|case_bool_decide; [|case_bool_decide; [|by do 3 eexists]]].
  - pose proof (block_value_run "read IPv4" 4 (λ b, (AddrIPv4, IP_String b)) c out inp Hv) as Hb.
    by destruct (4 <=? length inp)%nat.
  - destruct (block_run "read domain length" 1 c out inp Hv) as [(c2 & Hk2 & Hr2 & Hv2)|(e & c2 & Hk2 & Hr2 & Hv2)];
      (destruct inp as [|n l]; cbn in Hk2; try lia); unfold reads_as at 1;
      [erewrite bind_Ok by exact Hr2|erewrite bind_Err by exact Hr2; cbn; eauto].
    cbn [take drop nth] in *. set (k := Z.to_nat (Z_of_byte n)).
    pose proof (block_value_run "read domain" k (λ b, (AddrDomain, b)) c2 out l Hv2) as Hb.
    unfold reads_as in Hb. by destruct (k <=? length l)%nat.
  - pose proof (block_value_run "read IPv6" 16 (λ b, (AddrIPv6, IP_String b)) c out inp Hv) as Hb.
    by destruct (16 <=? length inp)%nat.
Qed.

Lemma readRequest_run c out inp :
  view c out inp → reads_as readRequest c out (request_spec inp).
Proof.
  intros Hv. unfold readRequest.
  destruct (block_run "read request header" 4 c out inp Hv) as [(c1 & Hk & Hr & Hv1)|(e & c1 & Hk & Hr & Hv1)];
    unfold reads_as at 1; [erewrite bind_Ok by exact Hr|erewrite bind_Err by exact Hr].
  2: { destruct inp as [|? [|? [|? [|? ?]]]]; cbn in Hk; try lia; cbn; eauto. }
  destruct inp as [|v [|cm [|z [|atyp rest]]]]; cbn in Hk; try lia.
  cbn [take drop nth] in *. cbv beta zeta. cbn [request_spec].
  destruct (decide (v = socks5Version)) as [->|Hne].
  2: { rewrite (bool_decide_true (v ≠ _)), (bool_decide_false (v = _)) by done. cbn. unfold fail. eauto. }
  rewrite (bool_decide_false (_ ≠ _)), (bool_decide_true (socks5Version = _)) by (done || tauto).
  destruct (decide (cm = cmdConnect)) as [->|Hne].
  2: { rewrite (bool_decide_true (cm ≠ _)), (bool_decide_false (cm = _)) by done. cbn. unfold fail. eauto. }
  rewrite (bool_decide_false (_ ≠ _)), (bool_decide_true (cmdConnect = _)) by (done || tauto). cbn [andb].
  pose proof (reads_as_bind (readAddr atyp)
    (λ ta, portBuf <- wrap "read port" (conn_ReadFull 2) ;; ret (fst ta, snd ta, be_get portBuf)) c1 out _
    (λ ta r, if (2 <=? length r)%nat then Some (ta.1, ta.2, be_get (take 2 r), drop 2 r) else None)
    (readAddr_run atyp c1 out rest Hv1)) as Hb.
  specialize (Hb (λ ta r c' Hv', block_value_run "read port" 2 (λ b, (ta.1, ta.2, be_get b)) c' out r Hv')).
  by destruct (dest_spec atyp rest) as [[[t a] rest']|].
Qed.

(** Greeting and request together: what the client is sent, and the request. *)
Definition handshake_spec (inp : bytes) : bytes * option (AddrType * bytes * Z * bytes) :=
  match greeting_spec inp with
  | (reply, Some rest) => (reply, request_spec rest)
  | (reply, None) => (reply, None)
  end.

Definition reply_bytes (code : byte) : bytes :=
  [socks5Version; code; x00; atypIPv4; x00; x00; x00; x00; x00; x00].

Section runs.
Context {D : Type} `{Dialer D}.
Implicit Types (s : sconn D) (out inp : bytes).

Lemma handshake_run s out inp :
  view (sc_conn s) out inp →
  ∃ s', snd (handshake s) = s' ∧ sc_dialer s' = sc_dialer s ∧
    c_out (sc_conn s') = out ++ fst (handshake_spec inp) ∧
    match snd (handshake_spec inp) with
    | Some (t, a, p, rest) => fst (handshake s) = Ok (t, a, p) ∧
        view (sc_conn s') (out ++ fst (handshake_spec inp)) rest
    | None => ∃ e, fst (handshake s) = Err e
    end.
Proof.
  intros Hv. unfold handshake. destruct (time_Now_ok (sc_clock s)) as (now & k & Hnow).
  erewrite bind_Ok by (unfold on_clk, zoom; rewrite Hnow; reflexivity).
  erewrite bind_Ok by reflexivity.
  set (c := put_dl (Some (now + 30 * second)) (sc_conn s)).
  pose proof (negotiate_run c out inp Hv) as Hn. unfold handshake_spec.
  destruct (greeting_spec inp) as [reply [rest|]]; cbn [fst snd option_map] in *.
  - destruct Hn as (c1 & Hr1 & Hv1).
    erewrite bind_Ok by (unfold on_client at 1, zoom; cbn [sc_conn]; fold c; rewrite Hr1; reflexivity).
    pose proof (readRequest_run c1 _ _ Hv1) as Hq. unfold on_client, zoom. cbn [sc_conn].
    destruct (request_spec rest) as [[[[t a] p] rest']|]; cbn [reads_as] in Hq.
    + destruct Hq as (c2 & -> & Hv2). eexists. split; [done|]. cbn. split_and!; try done. apply Hv2.
    + destruct Hq as (e & c2 & inp2 & -> & Hv2). eexists. split; [done|]. cbn. split_and!; eauto. apply Hv2.
  - destruct Hn as (e & c1 & inp1 & Hr1 & Hv1).
    erewrite bind_Err by (unfold on_client at 1, zoom; cbn [sc_conn]; fold c; rewrite Hr1; reflexivity).
    eexists. split; [done|]. cbn. split_and!; eauto. apply Hv1.
Qed.

Lemma dial_run s t a p out inp :
  view (sc_conn s) out inp →
  match OpenStream t a p (sc_dialer s) with
  | (Ok stream, d) => ∃ s' c, dial_and_reply t a p s = (Ok (Some (Relay stream c)), s') ∧
      sc_dialer s' = d ∧ view c (out ++ reply_bytes repSuccess) inp
  | (Err _, d) => ∃ s', dial_and_reply t a p s = (Ok None, s') ∧ sc_dialer s' = d ∧
      c_closed (sc_conn s') = true ∧ c_out (sc_conn s') = out ++ reply_bytes repGeneralFailure
  | (Panic, _) => fst (dial_and_reply t a p s) = Panic
  end.
Proof.
  intros Hv. destruct s as [c k d]. set (c0 := put_dl None c).
  destruct (view_write (reply_bytes repSuccess) c0 out inp Hv) as (c1 & Hw1 & Hv1).
  destruct (view_write (reply_bytes repGeneralFailure) c0 out inp Hv) as (c2 & Hw2 & Hv2).
  assert (E : dial_and_reply t a p (SConn c k d) = match OpenStream t a p d with
    | (Ok stream, d') => (Ok (Some (Relay stream c1)), SConn c1 k d')
    | (Err _, d') => (Ok None, SConn (conn_close c2) k d')
    | (Panic, d') => (Panic, SConn c0 k d')
    end).
  { unfold dial_and_reply, ignore, try, bind, on_dialer, on_client, zoom, sendReply.
    cbn [sc_conn sc_clock sc_dialer fst snd modify]. fold c0.
    destruct (OpenStream t a p d) as [[stream|e|] d']; [| |done]; cbn [sc_conn sc_clock sc_dialer].
    - change [socks5Version; repSuccess; x00; atypIPv4; x00; x00; x00; x00; x00; x00] with (reply_bytes repSuccess).
      by rewrite Hw1.
    - change [socks5Version; repGeneralFailure; x00; atypIPv4; x00; x00; x00; x00; x00; x00]
        with (reply_bytes repGeneralFailure). by rewrite Hw2. }
  rewrite E. cbn [sc_dialer]. destruct (OpenStream t a p d) as [[stream|e|] d']; [| |done]; eauto.
  eexists. split_and!; try done. apply Hv2.
Qed.

(** C17. The SOCKS5 server.  For every input of a client, every clock and every
    dialer, [handleConn] decides as RFC 1928 on plain bytes demands: without a
    greeting that offers "no authentication" or without a complete CONNECT
    request nothing is dialled, and the client gets the greeting's answer (if
    any) and then the end of the connection, never an error reply; a target that
    cannot be reached gets a general failure; else the relay starts with the
    success reply sent and all later client bytes still to be read. *)
Theorem socks_decision s out inp :
  view (sc_conn s) out inp →
  let reply := fst (handshake_spec inp) in
  let closed_with s' w := c_closed (sc_conn s') = true ∧ c_out (sc_conn s') = out ++ w in
  match snd (handshake_spec inp) with
  | None => ∃ s', handleConn s = (Ok None, s') ∧ sc_dialer s' = sc_dialer s ∧ closed_with s' reply
  | Some (t, a, p, rest) =>
      match OpenStream t a p (sc_dialer s) with
      | (Ok stream, d) => ∃ s' c, handleConn s = (Ok (Some (Relay stream c)), s') ∧ sc_dialer s' = d ∧
          view c (out ++ reply ++ reply_bytes repSuccess) rest
      | (Err _, d) => ∃ s', handleConn s = (Ok None, s') ∧ sc_dialer s' = d ∧
          closed_with s' (reply ++ reply_bytes repGeneralFailure)
      | (Panic, _) => fst (handleConn s) = Panic
      end
  end.
Proof.
  intros Hv reply closed_with. destruct (handshake_run s out inp Hv) as (s1 & Hs1 & Hd & Ho & Hm).
  destruct (handshake s) as [r s1'] eqn:Hr. cbn [fst snd] in Hs1, Hm. subst s1'.
  destruct (snd (handshake_spec inp)) as [[[[t a] p] rest]|].
  - destruct Hm as [-> Hv1].
    assert (E : handleConn s = dial_and_reply t a p s1)
      by (unfold handleConn, try, bind; by rewrite Hr).
    rewrite E, <- Hd. pose proof (dial_run s1 t a p _ _ Hv1) as Hdial.
    unfold closed_with, reply. rewrite !app_assoc. exact Hdial.
  - destruct Hm as [e ->]. exists (SConn (conn_close (sc_conn s1)) (sc_clock s1) (sc_dialer s1)).
    unfold handleConn, try, bind. rewrite Hr. done.
Qed.
End runs.

(** ** A concrete run: a request for example.com:80 with early data *)

#[local] Instance one_stream : Dialer (list conn) := λ _ _ _ d,
  match d with [] => (Err (ErrNew "no stream" []), []) | c :: d' => (Ok c, d') end.

Definition socks_input : bytes :=
  [x05; x02; x02; x00] ++ [x05; x01; x00; x03; x0b] ++ str "example.com" ++ [x00; x50] ++ str "GET /".

Definition socks_state : sconn (list conn) := SConn (conn_of socks_input) (Clock 0 []) [conn_of []].

Lemma socks_decision_witness :
  snd (handshake_spec socks_input) = Some (AddrDomain, str "example.com", 80, str "GET /") ∧
  ∃ s' c, handleConn socks_state = (Ok (Some (Relay (conn_of []) c)), s') ∧ sc_dialer s' = [] ∧
    view c ([x05; x00] ++ reply_bytes repSuccess) (str "GET /").
Proof.
  split; [vm_compute; reflexivity|].
  exact (socks_decision socks_state [] socks_input (view_conn_of socks_input)).
Defined.
