(* ===== verification/Telemetry.v ===== *)
(** [internal/telemetry/collector.go]: live sessions, suspected probes and
    per-transport counters.  The session table holds pointers, so the records
    live in a heap: a name resolved late is written to the record it was looked
    up for, whatever the table says by then. *)

From Stdlib Require Import Strings.Byte String ZArith Lia.
From stdpp Require Import base list gmap countable.
From S2P Require Import Prelude Encoding.

Record SessionRecord := mkSession {
  se_SessionID : bytes;
  se_DeviceID : bytes;
  se_DeviceLabel : bytes;
  se_RemoteAddr : bytes;
  se_ISP : bytes;
  se_Transport : bytes;
  se_AuthMode : bytes;
  se_ConnectedAt : Z;
  se_LastSeenAt : Z;
  se_BytesSent : Z;
  se_BytesRecv : Z;
  se_Streams : Z;
  se_closed : bool
}.

Record SessionSnapshot := mkSnapshot {
  ss_SessionID : bytes;
  ss_DeviceID : bytes;
  ss_DeviceLabel : bytes;
  ss_RemoteAddr : bytes;
  ss_ISP : bytes;
  ss_Transport : bytes;
  ss_AuthMode : bytes;
  ss_ConnectedAt : Z;
  ss_LastSeenAt : Z;
  ss_BytesSent : Z;
  ss_BytesRecv : Z;
  ss_Streams : Z
}.

Definition Snapshot (s : SessionRecord) : SessionSnapshot := mkSnapshot
  (se_SessionID s) (se_DeviceID s) (se_DeviceLabel s) (se_RemoteAddr s) (se_ISP s)
  (se_Transport s) (se_AuthMode s) (se_ConnectedAt s) (se_LastSeenAt s)
  (se_BytesSent s) (se_BytesRecv s) (se_Streams s).

Record ProbeEvent := mkProbe { pr_Time : Z; pr_RemoteAddr : bytes; pr_Reason : bytes }.

Record TransportStat := mkStat { tr_Transport : bytes; tr_Successes : Z; tr_Failures : Z }.

Record transportCounter := mkCounter { tc_successes : Z; tc_failures : Z }.

Record Collector := mkCollector {
  co_heap : list SessionRecord;
  co_sessions : gmap bytes nat;
  co_probes : list ProbeEvent;
  co_transport : gmap bytes transportCounter
}.

Definition New : Collector := mkCollector [] ∅ [] ∅.

(** [getOrCreateTransport] and the counter's [Add(1)] ([f]) on what it returns. *)
Definition getOrCreateTransport (t : bytes) (f : transportCounter → transportCounter)
    (m : gmap bytes transportCounter) : gmap bytes transportCounter :=
  let t := if bool_decide (t = []) then str "unknown" else t in
  match m !! t with
  | Some tc => <[t := f tc]> m
  | None => <[t := f (mkCounter 0 0)]> m
  end.

Definition recordTransportSuccess (t : bytes) : gmap bytes transportCounter → gmap bytes transportCounter :=
  getOrCreateTransport t (λ tc, mkCounter (int64 (tc_successes tc + 1)) (tc_failures tc)).

(** [now] is the reading of the clock.  The new record's address is the length
    of the heap. *)
Definition OpenSession (now : Z) (sid deviceID deviceLabel remoteAddr transport authMode : bytes)
    (c : Collector) : nat * Collector :=
  let rec := mkSession (hex_encode sid) deviceID deviceLabel remoteAddr [] transport authMode
               now now 0 0 0 false in
  let p := length (co_heap c) in
  (p, mkCollector (co_heap c ++ [rec]) (<[se_SessionID rec := p]> (co_sessions c))
        (co_probes c) (recordTransportSuccess transport (co_transport c))).

(** The goroutine [OpenSession] starts, when the name of the peer is resolved. *)
Definition set_ISP (name : bytes) (s : SessionRecord) : SessionRecord :=
  mkSession (se_SessionID s) (se_DeviceID s) (se_DeviceLabel s) (se_RemoteAddr s) name
    (se_Transport s) (se_AuthMode s) (se_ConnectedAt s) (se_LastSeenAt s)
    (se_BytesSent s) (se_BytesRecv s) (se_Streams s) (se_closed s).
Definition resolve_ISP (p : nat) (name : bytes) (c : Collector) : Collector :=
  mkCollector (alter (set_ISP name) p (co_heap c)) (co_sessions c) (co_probes c) (co_transport c).

Definition set_closed (s : SessionRecord) : SessionRecord :=
  mkSession (se_SessionID s) (se_DeviceID s) (se_DeviceLabel s) (se_RemoteAddr s) (se_ISP s)
    (se_Transport s) (se_AuthMode s) (se_ConnectedAt s) (se_LastSeenAt s)
    (se_BytesSent s) (se_BytesRecv s) (se_Streams s) true.
Definition CloseSession (sid : bytes) (c : Collector) : Collector :=
  let heap := match co_sessions c !! sid with
              | Some p => alter set_closed p (co_heap c)
              | None => co_heap c
              end in
  mkCollector heap (delete sid (co_sessions c)) (co_probes c) (co_transport c).

Definition RecordProbe (now : Z) (remoteAddr reason : bytes) (c : Collector) : Collector :=
  let probes := co_probes c ++ [mkProbe now remoteAddr reason] in
  let probes := if len probes >? 1000 then drop (Z.to_nat (len probes - 1000)) probes else probes in
  mkCollector (co_heap c) (co_sessions c) probes (co_transport c).

Definition RecordTransportFailure (t : bytes) (c : Collector) : Collector :=
  mkCollector (co_heap c) (co_sessions c) (co_probes c)
    (getOrCreateTransport t (λ tc, mkCounter (tc_successes tc) (int64 (tc_failures tc + 1))) (co_transport c)).

(** The order of a Go map's iteration is unspecified: here it is stdpp's, and
    the theorems hold for every order. *)
Definition records (c : Collector) : list SessionRecord :=
  omap (λ kp, co_heap c !! snd kp) (map_to_list (co_sessions c)).
Definition Sessions (c : Collector) : list SessionSnapshot := map Snapshot (records c).

Definition SessionCount (c : Collector) : Z := Z.of_nat (size (co_sessions c)).

(** A nil slice and an empty one are both [[]]; a negative [n] asks [make] for
    more than there is and then slices from beyond the end. *)
Definition RecentProbes (n : Z) (c : Collector) : result (list ProbeEvent) :=
  match co_probes c with
  | [] => Ok []
  | _ =>
      let start := if len (co_probes c) >? n then len (co_probes c) - n else 0 in
      slice (co_probes c) start (len (co_probes c))
  end.

Definition TransportStats (c : Collector) : list TransportStat :=
  map (λ kv, mkStat (fst kv) (tc_successes (snd kv)) (tc_failures (snd kv))) (map_to_list (co_transport c)).

Definition TotalBytes (c : Collector) : Z * Z :=
  fold_left (λ t s, (int64 (fst t + se_BytesSent s), int64 (snd t + se_BytesRecv s))) (records c) (0, 0).

(** ** The log of calls, and what the collector must show for it

    A log is a list of calls, the most recent first. *)
Record open_args := mkOpen {
  oa_now : Z; oa_sid : bytes; oa_deviceID : bytes; oa_label : bytes;
  oa_remote : bytes; oa_transport : bytes; oa_mode : bytes
}.

Inductive tel_op : Type :=
  | TOpen (o : open_args)
  | TResolve (p : nat) (name : bytes)
  | TClose (sid : bytes)
  | TProbe (now : Z) (remoteAddr reason : bytes)
  | TFail (t : bytes).

Definition tel_step (op : tel_op) (c : Collector) : Collector :=
  match op with
  | TOpen o => snd (OpenSession (oa_now o) (oa_sid o) (oa_deviceID o) (oa_label o)
                      (oa_remote o) (oa_transport o) (oa_mode o) c)
  | TResolve p name => resolve_ISP p name c
  | TClose sid => CloseSession sid c
  | TProbe now a r => RecordProbe now a r c
  | TFail t => RecordTransportFailure t c
  end.

Definition run_log (log : list tel_op) : Collector := foldr tel_step New log.

(** The sessions in the order they were opened. *)
Fixpoint opened (log : list tel_op) : list open_args :=
  match log with
  | TOpen o :: r => opened r ++ [o]
  | _ :: r => opened r
  | [] => []
  end.

(** The session an ID stands for: the latest one opened with it and not closed
    since, with its number. *)
Fixpoint live (key : bytes) (log : list tel_op) : option (nat * open_args) :=
  match log with
  | TOpen o :: r => if decide (hex_encode (oa_sid o) = key) then Some (length (opened r), o) else live key r
  | TClose sid :: r => if decide (sid = key) then None else live key r
  | _ :: r => live key r
  | [] => None
  end.

(** The latest name resolved for the session with number [p]. *)
Fixpoint isp_of (p : nat) (log : list tel_op) : bytes :=
  match log with
  | TResolve q name :: r => if decide (q = p ∧ (p < length (opened r))%nat) then name else isp_of p r
  | _ :: r => isp_of p r
  | [] => []
  end.

Definition snapshot_of (o : open_args) (isp : bytes) : SessionSnapshot :=
  mkSnapshot (hex_encode (oa_sid o)) (oa_deviceID o) (oa_label o) (oa_remote o) isp
    (oa_transport o) (oa_mode o) (oa_now o) (oa_now o) 0 0 0.

Definition probes_of (log : list tel_op) : list ProbeEvent :=
  omap (λ op, match op with TProbe now a r => Some (mkProbe now a r) | _ => None end) log.

Definition transport_name (t : bytes) : bytes := if decide (t = []) then str "unknown" else t.
Definition is_open (t : bytes) (op : tel_op) : bool :=
  match op with TOpen o => bool_decide (transport_name (oa_transport o) = t) | _ => false end.
Definition is_fail (t : bytes) (op : tel_op) : bool :=
  match op with TFail u => bool_decide (transport_name u = t) | _ => false end.
Definition count (f : tel_op → bool) (log : list tel_op) : Z := len (filter (λ op, f op = true) log).

(** ** The collector follows the log *)

Lemma count_cons f op log : count f (op :: log) = count f log + (if f op then 1 else 0).
Proof.
  unfold count. rewrite filter_cons. destruct (f op); destruct (decide _); try done; len_tac.
Qed.

Lemma count_nonneg f log : 0 <= count f log.
Proof. unfold count, len. lia. Qed.

Lemma live_opened key log p o :
  live key log = Some (p, o) → opened log !! p = Some o ∧ hex_encode (oa_sid o) = key.
Proof.
  induction log as [|[o'| | | |] log IH]; cbn; try done.
  - case_decide as E.
    + intros [= <- <-]. by rewrite list_lookup_middle.
    + intros Hl. destruct (IH Hl) as [H1 H2]. split; [by apply lookup_app_l_Some|done].
  - case_decide; [done|]. exact IH.
Qed.

Record follows (c : Collector) (log : list tel_op) : Prop := {
  f_size : length (co_heap c) = length (opened log);
  f_table : ∀ key, co_sessions c !! key = fst <$> live key log;
  f_heap : ∀ p o, opened log !! p = Some o →
    ∃ s, co_heap c !! p = Some s ∧ Snapshot s = snapshot_of o (isp_of p log);
  f_probes : co_probes c = rev (take 1000 (probes_of log));
  f_transport : ∀ t, let n := count (is_open t) log in let m := count (is_fail t) log in
    co_transport c !! t = if n + m =? 0 then None else Some (mkCounter (int64 n) (int64 m))
}.

Lemma isp_unopened p log : (length (opened log) <= p)%nat → isp_of p log = [].
Proof.
  induction log as [|[o|q name| | |] log IH]; cbn; intros Hp; auto.
  - rewrite length_app in Hp. apply IH. cbn in Hp. lia.
  - rewrite decide_False by lia. auto.
Qed.

Lemma drop_last_1000 (l : list ProbeEvent) x :
  let l' := rev (take 1000 l) ++ [x] in
  (if len l' >? 1000 then drop (Z.to_nat (len l' - 1000)) l' else l') = rev (take 1000 (x :: l)).
Proof.
  intros l'. assert (Hl : length l' = S (length (take 1000 l))) by (unfold l'; rewrite length_app, length_rev; cbn; lia).
  rewrite length_take in Hl. unfold l' in *.
  change (rev (take 1000 l) ++ [x]) with (rev (x :: take 1000 l)) in *.
  change (take 1000 (x :: l)) with (x :: take 999 l).
  case_bool; unfold len in *.
  - rewrite skipn_rev, Hl. cbn [length]. rewrite length_take.
    replace (S (Init.Nat.min 1000 (length l)) - Z.to_nat (Z.of_nat (S (Init.Nat.min 1000 (length l))) - 1000))%nat
      with 1000%nat by lia.
    change (take 1000 (x :: take 1000 l)) with (x :: take 999 (take 1000 l)).
    by rewrite take_take.
  - f_equal. f_equal. rewrite !take_ge; lia || done.
Qed.

Lemma getOrCreateTransport_lookup (t u : bytes) (f : transportCounter → transportCounter) (m : gmap bytes transportCounter) :
  getOrCreateTransport t f m !! u =
    if decide (u = transport_name t) then Some (f (default (mkCounter 0 0) (m !! u))) else m !! u.
Proof.
  unfold getOrCreateTransport, transport_name. set (t' := if decide (t = []) then _ else _).
  replace (if bool_decide (t = []) then str "unknown" else t) with t'
    by (unfold t'; by case_bool_decide; case_decide).
  destruct (decide (u = t')) as [->|Hne].
  - destruct (m !! t'); by rewrite lookup_insert_eq.
  - destruct (m !! t'); by rewrite lookup_insert_ne by done.
Qed.

Lemma follows_New : follows New [].
Proof. split; try done; intros; by rewrite ?lookup_empty. Qed.

Lemma follows_TOpen o c log : follows c log → follows (tel_step (TOpen o) c) (TOpen o :: log).
Proof.
  intros [Hs Ht Hh Hp Htr]. split; cbn [tel_step OpenSession snd co_heap co_sessions co_probes co_transport se_SessionID].
  - cbn [opened]. rewrite !length_app, Hs. done.
  - intros key. cbn [live]. case_decide as E.
    + subst key. by rewrite lookup_insert_eq, Hs.
    + rewrite lookup_insert_ne by done. apply Ht.
  - intros p o'. cbn [opened isp_of]. intros Hl.
    apply lookup_snoc_Some in Hl as [[Hlt Hl]|[-> <-]].
    + destruct (Hh p o' Hl) as (s & Hs1 & Hs2). exists s. split; [|done]. by apply lookup_app_l_Some.
    + eexists. rewrite <- Hs, list_lookup_middle by done. split; [done|]. by rewrite isp_unopened by lia.
  - done.
  - intros t. unfold recordTransportSuccess. rewrite getOrCreateTransport_lookup.
    cbv zeta. rewrite !count_cons. cbn [is_open is_fail]. rewrite Htr. cbv zeta.
    pose proof (count_nonneg (is_open t) log). pose proof (count_nonneg (is_fail t) log).
    case_decide as E; [rewrite bool_decide_true by done|rewrite bool_decide_false by done]; rewrite ?Z.add_0_r; [|done].
    rewrite (proj2 (Z.eqb_neq (_ + 1 + _) 0)) by lia.
    destruct (Z.eqb_spec (count (is_open t) log + count (is_fail t) log) 0); cbn.
    + by replace (count (is_open t) log) with 0 by lia; replace (count (is_fail t) log) with 0 by lia.
    + by rewrite int64_add.
Qed.

Lemma follows_TFail t0 c log : follows c log → follows (tel_step (TFail t0) c) (TFail t0 :: log).
Proof.
  intros [Hs Ht Hh Hp Htr]. split; try done. cbn [tel_step RecordTransportFailure co_transport].
  intros t. rewrite getOrCreateTransport_lookup.
  cbv zeta. rewrite !count_cons. cbn [is_open is_fail]. rewrite Htr. cbv zeta.
  pose proof (count_nonneg (is_open t) log). pose proof (count_nonneg (is_fail t) log).
  case_decide as E; [rewrite bool_decide_true by done|rewrite bool_decide_false by done]; rewrite ?Z.add_0_r; [|done].
  rewrite (proj2 (Z.eqb_neq (_ + (_ + 1)) 0)) by lia.
  destruct (Z.eqb_spec (count (is_open t) log + count (is_fail t) log) 0); cbn.
  - by replace (count (is_open t) log) with 0 by lia; replace (count (is_fail t) log) with 0 by lia.
  - by rewrite int64_add.
Qed.

(** A change of one record that its snapshot shows as [g]. *)
Lemma alter_heap (heap : list SessionRecord) (q p : nat) f s :
  heap !! p = Some s → alter f q heap !! p = Some (if decide (q = p) then f s else s).
Proof.
  intros Hp. case_decide as E; [subst; by rewrite list_lookup_alter_eq, Hp|].
  by rewrite list_lookup_alter_ne.
Qed.

Lemma follows_TResolve q name c log : follows c log → follows (tel_step (TResolve q name) c) (TResolve q name :: log).
Proof.
  intros [Hs Ht Hh Hp Htr]. split; cbn [tel_step resolve_ISP co_heap co_sessions co_probes co_transport]; try done.
  - rewrite length_alter. exact Hs.
  - intros p o Hl. cbn [opened isp_of] in *. destruct (Hh p o Hl) as (s & Hs1 & Hs2).
    apply (alter_heap _ q _ (set_ISP name)) in Hs1. eexists. split; [exact Hs1|].
    apply lookup_lt_Some in Hl.
    destruct (decide (q = p)); [rewrite decide_True by done|rewrite decide_False by tauto; done].
    unfold Snapshot, snapshot_of in *. cbn. by injection Hs2 as -> -> -> -> ? -> -> -> -> -> -> ->.
Qed.

Lemma follows_TClose sid c log : follows c log → follows (tel_step (TClose sid) c) (TClose sid :: log).
Proof.
  intros [Hs Ht Hh Hp Htr]. split; cbn [tel_step CloseSession co_heap co_sessions co_probes co_transport]; try done.
  - destruct (co_sessions c !! sid); [rewrite length_alter|]; exact Hs.
  - intros key. cbn [live]. case_decide as E.
    + subst. by rewrite lookup_delete_eq.
    + rewrite lookup_delete_ne by done. apply Ht.
  - intros p o Hl. destruct (Hh p o Hl) as (s & Hs1 & Hs2).
    destruct (co_sessions c !! sid) as [q|]; [|by eauto].
    apply (alter_heap _ q _ set_closed) in Hs1. eexists. split; [exact Hs1|].
    by destruct (decide (q = p)).
Qed.

Lemma follows_TProbe now a r c log : follows c log → follows (tel_step (TProbe now a r) c) (TProbe now a r :: log).
Proof.
  intros [Hs Ht Hh Hp Htr]. split; cbn [tel_step RecordProbe co_heap co_sessions co_probes co_transport]; try done.
  rewrite Hp. apply (drop_last_1000 (probes_of log) (mkProbe now a r)).
Qed.

Lemma run_log_follows log : follows (run_log log) log.
Proof.
  induction log as [|[] log IH]; [apply follows_New|..]; cbn [run_log foldr];
    eauto using follows_TOpen, follows_TResolve, follows_TClose, follows_TProbe, follows_TFail.
Qed.

(** ** What the dashboard is shown *)

Definition expected (key : bytes) (log : list tel_op) : option SessionSnapshot :=
  po ← live key log; Some (snapshot_of po.2 (isp_of po.1 log)).

Lemma records_spec c log key :
  follows c log →
  (co_sessions c !! key ≫= λ p, Snapshot <$> co_heap c !! p) = expected key log.
Proof.
  intros [_ Ht Hh _ _]. rewrite Ht. unfold expected.
  destruct (live key log) as [[p o]|] eqn:El; [|done]. cbn.
  destruct (live_opened _ _ _ _ El) as [Ho _]. destruct (Hh p o Ho) as (s & -> & E). cbn. by rewrite E.
Qed.

Lemma Sessions_all c log :
  follows c log → ∃ l, Sessions c = l.*2 ∧ l.*1 = (map_to_list (co_sessions c)).*1 ∧
    Forall (λ ks, expected ks.1 log = Some ks.2) l.
Proof.
  intros Hf. unfold Sessions, records.
  assert (Hall : Forall (λ kp, ∃ s, co_heap c !! kp.2 = Some s ∧ expected kp.1 log = Some (Snapshot s))
            (map_to_list (co_sessions c))).
  { apply Forall_forall. intros [key p] Hin%list_elem_of_In%elem_of_map_to_list. cbn.
    pose proof (records_spec c log key Hf) as Hr. rewrite Hin in Hr. cbn in Hr.
    pose proof (f_table c log Hf key) as Ht. rewrite Hin in Ht.
    destruct (live key log) as [[p' o]|] eqn:El; [|done]. injection Ht as ->.
    destruct (f_heap c log Hf p' o (proj1 (live_opened _ _ _ _ El))) as (s & Hs & _).
    exists s. rewrite Hs in Hr. done. }
  induction Hall as [|[key p] l (s & Hs & He) _ (l' & E1 & E2 & E3)]; [by exists []|].
  exists ((key, Snapshot s) :: l'). cbn in *. rewrite Hs. cbn. rewrite E1, E2. auto.
Qed.

Lemma Sessions_elem c log s : follows c log → s ∈ Sessions c ↔ ∃ key, expected key log = Some s.
Proof.
  intros Hf. destruct (Sessions_all c log Hf) as (l & -> & Hk & Hall). rewrite Forall_forall in Hall. split.
  - intros ([key s'] & -> & Hin)%list_elem_of_fmap. exists key. by apply (Hall (key, s')), list_elem_of_In.
  - intros [key He]. assert (Hkey : key ∈ l.*1).
    { rewrite Hk. unfold expected in He. destruct (live key log) as [[p o]|] eqn:El; [|done].
      apply list_elem_of_fmap. exists (key, p). split; [done|]. apply elem_of_map_to_list.
      by rewrite (f_table c log Hf), El. }
    apply list_elem_of_fmap in Hkey as ([key' s'] & -> & Hin). pose proof (Hall _ (proj1 (list_elem_of_In _ _) Hin)) as He'. cbn in *.
    apply list_elem_of_fmap. exists (key', s'). split; [cbn; congruence|done].
Qed.

Lemma expected_key key log s : expected key log = Some s → ss_SessionID s = key.
Proof.
  unfold expected. destruct (live key log) as [[p o]|] eqn:El; [|done]. cbn. intros [= <-].
  exact (proj2 (live_opened _ _ _ _ El)).
Qed.

Lemma Sessions_NoDup c log : follows c log → NoDup (map ss_SessionID (Sessions c)).
Proof.
  intros Hf. destruct (Sessions_all c log Hf) as (l & -> & Hk & Hall).
  replace (map ss_SessionID l.*2) with l.*1; [rewrite Hk; apply NoDup_fst_map_to_list|].
  clear Hk. induction Hall as [|[key s] l He _ IH]; [done|]. cbn in *. by rewrite IH, (expected_key _ _ _ He).
Qed.

Lemma RecentProbes_last c log n :
  follows c log → 0 <= n → RecentProbes n c = Ok (rev (take (Z.to_nat (Z.min n 1000)) (probes_of log))).
Proof.
  intros Hf Hn. unfold RecentProbes. rewrite (f_probes c log Hf).
  replace (take (Z.to_nat (Z.min n 1000)) (probes_of log)) with (take (Z.to_nat n) (take 1000 (probes_of log)))
    by (rewrite take_take; f_equal; lia).
  set (ps := take 1000 (probes_of log)).
  assert (Hl : len (rev ps) = len ps) by (unfold len; by rewrite length_rev).
  destruct (rev ps) as [|x l] eqn:E.
  { assert (ps = []) as -> by (by rewrite <- (rev_involutive ps), E). by rewrite take_nil. }
  rewrite <- E in *. clear x l E.
  cbv zeta. rewrite Hl. case_bool.
  - rewrite slice_Ok by (unfold len in *; rewrite ?length_rev; lia). f_equal.
    rewrite take_ge by (rewrite length_drop, length_rev; unfold len; lia).
    rewrite skipn_rev. do 2 f_equal. unfold len in *. lia.
  - rewrite slice_Ok by (unfold len in *; rewrite ?length_rev; lia). f_equal.
    rewrite !take_ge by (rewrite ?length_drop, ?length_rev; unfold len in *; lia). done.
Qed.

Lemma TransportStats_elem c log t s f :
  follows c log →
  mkStat t s f ∈ TransportStats c ↔
  0 < count (is_open t) log + count (is_fail t) log ∧
  s = int64 (count (is_open t) log) ∧ f = int64 (count (is_fail t) log).
Proof.
  intros Hf. pose proof (f_transport c log Hf t) as Ht. cbv zeta in Ht.
  pose proof (count_nonneg (is_open t) log). pose proof (count_nonneg (is_fail t) log).
  unfold TransportStats. rewrite list_elem_of_fmap. split.
  - intros ([u tc] & E & Hin). injection E as -> -> ->. apply elem_of_map_to_list in Hin. rewrite Hin in Ht.
    destruct (Z.eqb_spec (count (is_open u) log + count (is_fail u) log) 0); [done|].
    injection Ht as ->. cbn. split; [lia|done].
  - intros (Hpos & -> & ->). rewrite (proj2 (Z.eqb_neq _ 0)) in Ht by lia.
    eexists (t, _). split; [|by apply elem_of_map_to_list]. done.
Qed.

(** C31. The collector is a faithful digest of its history.  For every sequence
    of calls (the most recent first), with any times: the sessions listed are, in
    some order and without repetition, exactly the latest ones opened under each
    ID and not closed since, with the name last resolved for that very session;
    their number is the count shown; the [n] most recent probes are the last [n]
    recorded, of which at most 1000 are kept; and each transport's counters are
    the numbers of sessions opened and failures recorded for it, wrapped to 64
    bits. *)
Theorem collector_refines_log log :
  let c := run_log log in
  (∀ s, s ∈ Sessions c ↔ ∃ key, expected key log = Some s) ∧
  NoDup (map ss_SessionID (Sessions c)) ∧ SessionCount c = len (Sessions c) ∧
  (∀ n, 0 <= n → RecentProbes n c = Ok (rev (take (Z.to_nat (Z.min n 1000)) (probes_of log)))) ∧
  (∀ t s f, mkStat t s f ∈ TransportStats c ↔
     0 < count (is_open t) log + count (is_fail t) log ∧
     s = int64 (count (is_open t) log) ∧ f = int64 (count (is_fail t) log)).
Proof.
  intros c. pose proof (run_log_follows log) as Hf. fold c in Hf.
  split; [|split; [|split; [|split]]].
  - intros s. by apply Sessions_elem.
  - by eapply Sessions_NoDup.
  - destruct (Sessions_all c log Hf) as (l & -> & Hk & _). unfold SessionCount, len.
    by rewrite length_fmap, <- (length_fmap fst), Hk, length_fmap, length_map_to_list.
  - intros n Hn. by apply RecentProbes_last.
  - intros t s f. by apply TransportStats_elem.
Qed.
