(* ===== verification/Metrics.v ===== *)
(** [internal/metrics/metrics.go]: the Prometheus metrics of the program, as the
    record of the calls it makes to the client library.  The components hold a
    [*Metrics] that may be nil; every method dereferences it. *)

From Stdlib Require Import Strings.Byte String ZArith Lia.
From stdpp Require Import base list.
From S2P Require Import Prelude Encoding Io.

(** ** [unicode/utf8.ValidString] *)

Definition in_range (lo hi : Z) (b : byte) : bool := (lo <=? Z_of_byte b) && (Z_of_byte b <=? hi).
Definition continuation (b : byte) : bool := in_range 128 191 b.

Fixpoint utf8_valid (s : bytes) : bool :=
  match s with
  | [] => true
  | b0 :: s0 =>
      if in_range 0 127 b0 then utf8_valid s0 else
      match s0 with
      | [] => false
      | b1 :: s1 =>
          if in_range 194 223 b0 then continuation b1 && utf8_valid s1 else
          match s1 with
          | [] => false
          | b2 :: s2 =>
              if in_range 224 239 b0 then
                in_range (if Z_of_byte b0 =? 224 then 160 else 128) (if Z_of_byte b0 =? 237 then 159 else 191) b1
                && continuation b2 && utf8_valid s2
              else
              match s2 with
              | [] => false
              | b3 :: s3 =>
                  in_range 240 244 b0
                  && in_range (if Z_of_byte b0 =? 240 then 144 else 128) (if Z_of_byte b0 =? 244 then 143 else 191) b1
                  && continuation b2 && continuation b3 && utf8_valid s3
              end
          end
      end
  end.

Example utf8_tests :
  map utf8_valid [str "caf"; str "é"; str "€"; str "😀"; [xff]; [xc3]; [xe2; x82]; [xc0; x80]; [xed; xa0; x80]] =
  [true; true; true; true; false; false; false; false; false].
Proof. vm_compute. reflexivity. Qed.

Definition is_ascii (b : byte) : bool := in_range 0 127 b.

Lemma utf8_valid_ascii s : forallb is_ascii s = true → utf8_valid s = true.
Proof.
  induction s as [|b s IH]; [done|]. cbn [forallb]. intros [Hb Hs]%andb_true_iff.
  cbn [utf8_valid]. unfold is_ascii in Hb. rewrite Hb. by apply IH.
Qed.

(** ** github.com/prometheus/client_golang

    [WithLabelValues] panics on a label value that is not valid UTF-8, and takes
    every other one. *)
Class Prometheus := {
  prom_accepts : bytes → bool;
  prom_valid l : prom_accepts l = utf8_valid l
}.

Definition utf8_Prometheus : Prometheus.
Proof. refine (Build_Prometheus utf8_valid _); done. Defined.

Lemma prom_ascii `{Prometheus} l : forallb is_ascii l = true → prom_accepts l = true.
Proof. rewrite prom_valid. apply utf8_valid_ascii. Qed.
Lemma prom_utf8 `{Prometheus} l : prom_accepts l = true → utf8_valid l = true.
Proof. by rewrite prom_valid. Qed.

(** ** The metrics: what has been called on each, oldest first. *)
Inductive mevent : Type :=
  | Inc (metric : string) (labels : list bytes)
  | Dec (metric : string)
  | Add (metric : string) (n : Z).

Record Metrics := mkMet { m_events : list mevent }.
Definition New : Metrics := mkMet [].

(** What [New] registers: each metric's kind and its labels. *)
Inductive mkind : Type := Counter | Gauge.
Record desc := mkDesc { ds_name : string; ds_kind : mkind; ds_labels : list string }.
Definition registered : list desc := [
  mkDesc "daxson_connections_total" Counter ["direction"%string];
  mkDesc "daxson_sessions_active" Gauge [];
  mkDesc "daxson_streams_active" Gauge [];
  mkDesc "daxson_reconnects_total" Counter [];
  mkDesc "daxson_auth_failures_total" Counter [];
  mkDesc "daxson_proxy_accepts_total" Counter ["proxy_type"%string];
  mkDesc "daxson_dials_total" Counter ["addr"%string];
  mkDesc "daxson_bytes_sent_total" Counter [];
  mkDesc "daxson_bytes_recv_total" Counter []
].

(** The library panics on a call with another number of labels than the metric
    has; only a gauge can be decremented, and a counter does not decrease. *)
Definition event_ok (e : mevent) : bool :=
  existsb (λ d, match e with
                | Inc m ls => String.eqb m (ds_name d) && (length ls =? length (ds_labels d))%nat
                | Dec m => String.eqb m (ds_name d) && match ds_kind d with Gauge => true | Counter => false end
                | Add m n => String.eqb m (ds_name d) && (0 <=? n)
                end) registered.

(** A call through the pointer. *)
Definition call (e : mevent) : M (option Metrics) unit := λ m,
  match m with
  | None => (Panic, None)
  | Some m => (Ok tt, Some (mkMet (m_events m ++ [e])))
  end.

Section metrics.
Context `{Prometheus}.

(** [m.<metric>.WithLabelValues(label).Inc()] *)
Definition inc_label (metric : string) (label : bytes) : M (option Metrics) unit := λ m,
  if prom_accepts label then call (Inc metric [label]) m else (Panic, m).

Definition RecordConnect : M (option Metrics) unit := inc_label "daxson_connections_total" (str "outbound").
Definition RecordAccept : M (option Metrics) unit := inc_label "daxson_connections_total" (str "inbound").
Definition RecordReconnect : M (option Metrics) unit := call (Inc "daxson_reconnects_total" []).
Definition RecordAuthFailure : M (option Metrics) unit := call (Inc "daxson_auth_failures_total" []).
Definition RecordSessionOpen : M (option Metrics) unit := call (Inc "daxson_sessions_active" []).
Definition RecordSessionClose : M (option Metrics) unit := call (Dec "daxson_sessions_active").
Definition RecordStreamOpen : M (option Metrics) unit := call (Inc "daxson_streams_active" []).
Definition RecordStreamClose : M (option Metrics) unit := call (Dec "daxson_streams_active").
Definition RecordProxyAccept (proxyType : bytes) : M (option Metrics) unit :=
  inc_label "daxson_proxy_accepts_total" proxyType.

Definition dial_label (addr : bytes) (port : Z) : bytes :=
  let label := addr ++ str ":" ++ dec port in
  if len label >? 64 then take 64 label else label.
Definition RecordDial (addr : bytes) (port : Z) : M (option Metrics) unit :=
  inc_label "daxson_dials_total" (dial_label addr port).

(** A counter panics when a negative number is added. *)
Definition add_counter (metric : string) (n : Z) : M (option Metrics) unit := λ m,
  if n <? 0 then (Panic, m) else call (Add metric n) m.
Definition AddBytesSent (n : Z) : M (option Metrics) unit := add_counter "daxson_bytes_sent_total" n.
Definition AddBytesRecv (n : Z) : M (option Metrics) unit := add_counter "daxson_bytes_recv_total" n.

(** Every method uses a registered metric as its kind and labels allow. *)
Definition well_typed (m : option Metrics) : Prop :=
  match m with Some m => Forall (λ e, event_ok e = true) (m_events m) | None => True end.

Lemma keeps_call e : event_ok e = true → keeps well_typed (call e).
Proof. intros He [m|] Hm; [|done]. apply Forall_app. by split; [|constructor]. Qed.

Lemma methods_well_typed :
  Forall (keeps well_typed)
    [RecordConnect; RecordAccept; RecordReconnect; RecordAuthFailure; RecordSessionOpen; RecordSessionClose;
     RecordStreamOpen; RecordStreamClose] ∧
  (∀ proxyType, keeps well_typed (RecordProxyAccept proxyType)) ∧
  (∀ addr port, keeps well_typed (RecordDial addr port)) ∧
  (∀ n, keeps well_typed (AddBytesSent n)) ∧ (∀ n, keeps well_typed (AddBytesRecv n)).
Proof.
  assert (Hl : ∀ metric label, event_ok (Inc metric [label]) = true → keeps well_typed (inc_label metric label)).
  { intros metric label He m Hm. unfold inc_label. destruct (prom_accepts label); [by apply keeps_call|done]. }
  assert (Ha : ∀ metric n, (0 <= n → event_ok (Add metric n) = true) → keeps well_typed (add_counter metric n)).
  { intros metric n He m Hm. unfold add_counter. destruct (Z.ltb_spec n 0); [done|]. by apply keeps_call; [apply He|]. }
  split_and!; [repeat constructor; first [by apply Hl|by apply keeps_call]|intros; by apply Hl|intros; by apply Hl|..];
    intros n; apply Ha; intros Hn; unfold event_ok; cbn; by rewrite (proj2 (Z.leb_le 0 n) Hn).
Qed.
End metrics.

(** The value of a gauge. *)
Definition gauge (metric : string) (m : Metrics) : Z :=
  foldr (λ e n, match e with
                | Inc g _ => if String.eqb g metric then n + 1 else n
                | Dec g => if String.eqb g metric then n - 1 else n
                | Add _ _ => n
                end) 0 (m_events m).
Definition streams_active : Metrics → Z := gauge "daxson_streams_active".
Definition sessions_active : Metrics → Z := gauge "daxson_sessions_active".

Lemma gauge_app metric l1 l2 : gauge metric (mkMet (l1 ++ l2)) = gauge metric (mkMet l1) + gauge metric (mkMet l2).
Proof.
  unfold gauge. cbn [m_events]. induction l1 as [|e l1 IH]; [done|].
  cbn [app foldr]. rewrite IH. destruct e; try destruct (String.eqb _ _); lia.
Qed.

(** An address and a port can be read off their text: the last colon separates
    them. *)
Lemma colon_split a a' d d' :
  Forall (λ b, is_digit b = true) d → Forall (λ b, is_digit b = true) d' →
  a ++ str ":" ++ d = a' ++ str ":" ++ d' → a = a' ∧ d = d'.
Proof.
  intros Hd Hd'. revert a'. induction a as [|x a IH]; intros [|x' a'].
  - by intros [= ->].
  - intros [= _ E]. exfalso. subst d. apply Forall_app in Hd as [_ [Hc _]%Forall_cons]. discriminate.
  - intros [= _ E]. exfalso. subst d'. apply Forall_app in Hd' as [_ [Hc _]%Forall_cons]. discriminate.
  - intros [= -> E]. by destruct (IH a' E) as [-> ->].
Qed.

(** C35. Labels of dialled targets.  The label never exceeds 64 bytes and is the
    start of the target's text.  It names the target exactly when the address
    has at most 58 bytes; two longer ones that agree in their first 64 bytes are
    counted as one, whatever their ports.  Recording a dial panics exactly when
    there are no metrics or the label is one that Prometheus refuses, which it
    never does for an address in ASCII, and does when the bytes it is left with
    are not UTF-8. *)
Theorem dial_label_bounds `{Prometheus} addr port :
  0 <= port < 65536 →
  len (dial_label addr port) <= 64 ∧
  dial_label addr port `prefix_of` addr ++ str ":" ++ dec port ∧
  (len addr <= 58 → ∀ addr' port', len addr' <= 58 → 0 <= port' < 65536 →
     dial_label addr' port' = dial_label addr port → addr' = addr ∧ port' = port) ∧
  (64 <= len addr → ∀ addr' port', take 64 addr' = take 64 addr → dial_label addr' port' = dial_label addr port) ∧
  (∀ m, fst (RecordDial addr port m) = Panic ↔ m = None ∨ prom_accepts (dial_label addr port) = false) ∧
  (forallb is_ascii addr = true → prom_accepts (dial_label addr port) = true) ∧
  (utf8_valid (dial_label addr port) = false → prom_accepts (dial_label addr port) = false).
Proof.
  intros Hp. split_and!.
  - unfold dial_label. case_bool; [|done]. unfold len in *. rewrite length_take. lia.
  - unfold dial_label. case_bool; [apply prefix_take|done].
  - intros Ha addr' port' Ha' Hp' E.
    assert (Hs : ∀ a p, len a <= 58 → 0 <= p < 65536 → dial_label a p = a ++ str ":" ++ dec p).
    { intros a p Hla Hpp. unfold dial_label. destruct (dec_port p Hpp) as [Hl _].
      case_bool; [|done]. exfalso. unfold len in *. rewrite !length_app in *.
      change (length (str ":")) with 1%nat in *. lia. }
    rewrite !Hs in E by done. destruct (dec_port port Hp) as [_ H1], (dec_port port' Hp') as [_ H2].
    destruct (colon_split _ _ _ _ H2 H1 E) as [-> Hd]. split; [done|]. by apply dec_inj.
  - intros Ha addr' port' E.
    assert (Hs : ∀ a p, 64 <= len a → dial_label a p = take 64 a).
    { intros a p Hla. unfold dial_label. case_bool.
      - apply take_app_le. unfold len in Hla. lia.
      - exfalso. unfold len in *. rewrite !length_app in *. change (length (str ":")) with 1%nat in *. lia. }
    rewrite !Hs; [done|done|]. apply (f_equal length) in E. rewrite !length_take in E. unfold len in *. lia.
  - intros m. unfold RecordDial, inc_label. destruct (prom_accepts _); destruct m; cbn; intuition congruence.
  - intros Ha. apply prom_ascii.
    assert (Hall : forallb is_ascii (addr ++ str ":" ++ dec port) = true).
    { rewrite !forallb_app, Ha. cbn. apply forallb_forall. destruct (dec_port port Hp) as [_ Hd].
      rewrite List.Forall_forall in Hd. intros x Hx. specialize (Hd x Hx). unfold is_ascii, in_range, is_digit in *.
      apply andb_true_iff in Hd as [H1%Z.leb_le H2%Z.leb_le]. apply andb_true_iff. rewrite !Z.leb_le. lia. }
    unfold dial_label. case_bool; [|done].
    rewrite <- (take_drop 64 (addr ++ _)), forallb_app in Hall. by apply andb_true_iff in Hall as [? _].
  - intros Hu. destruct (prom_accepts _) eqn:E; [|done]. apply prom_utf8 in E. congruence.
Qed.

(** A scoped address whose zone is not text: recording the dial panics. *)
Lemma dial_label_bounds_witness :
  let ed := utf8_Prometheus in
  (0 <= 443 < 65536) ∧
  dial_label (str "example.com") 443 = str "example.com:443" ∧
  prom_accepts (dial_label (str "::1%" ++ [xff]) 443) = false ∧
  fst (RecordDial (str "::1%" ++ [xff]) 443 (Some New)) = Panic.
Proof.
  intros pr. split; [lia|]. split; [reflexivity|].
  destruct (dial_label_bounds (H := utf8_Prometheus) (str "::1%" ++ [xff]) 443 ltac:(lia)) as (_ & _ & _ & _ & H1 & _ & H2).
  assert (Hf : prom_accepts (dial_label (str "::1%" ++ [xff]) 443) = false) by (by apply H2).
  split; [exact Hf|]. apply H1. by right.
Defined.
