(* ===== verification/Config.v ===== *)
(** [internal/config/config.go]: the configuration types, defaults and
    validation, and the client profile with its file.  The YAML library
    (gopkg.in/yaml.v3) is an interface; [time.ParseDuration] is modelled. *)

From Stdlib Require Import Strings.Byte String ZArith Lia.
From stdpp Require Import base list gmap.
From S2P Require Import Prelude Encoding Io Float.

(** ** Data *)

Record ProxyConfig := mkProxy { px_SOCKS5 : bytes; px_HTTP : bytes }.
Record TLSConfig := mkTLS {
  tl_CertFile : bytes; tl_KeyFile : bytes; tl_ServerName : bytes; tl_Fingerprint : bytes;
  tl_InsecureSkipVerify : bool; tl_NextProtos : list bytes
}.
Record AuthConfig := mkAuth { au_PSK : bytes }.
Record ObfsConfig := mkObfsConfig {
  oc_Enabled : bool; oc_Personality : bytes; oc_MaxPadding : Z; oc_WriteJitterMax : Z;
  oc_KeepaliveInterval : Z; oc_KeepaliveJitter : Z
}.
Record MuxConfig := mkMux { mx_MaxStreams : Z; mx_MaxFrameSize : Z; mx_ReceiveBuffer : Z }.
Record TransportCfg := mkTransport { tp_Obfs : ObfsConfig; tp_Mux : MuxConfig }.
Record ReconnectCfg := mkReconnect {
  rc_Enabled : bool; rc_MaxRetries : Z; rc_BaseDelay : Z; rc_MaxDelay : Z; rc_Multiplier : float64
}.
Record TunnelConfig := mkTunnel {
  tu_Addr : bytes; tu_TLS : TLSConfig; tu_Auth : AuthConfig; tu_Transport : TransportCfg; tu_Reconnect : ReconnectCfg
}.
Record DashboardConfig := mkDashboard { da_Listen : bytes; da_Enabled : bool }.
Record ServerConfig := mkServer {
  sv_Listen : bytes; sv_TLS : TLSConfig; sv_Auth : AuthConfig; sv_ProbeUpstream : bytes;
  sv_IdentityKey : bytes; sv_Registry : bytes; sv_Dashboard : DashboardConfig
}.
Record UpstreamConfig := mkUpstream { up_Addr : bytes; up_TLS : TLSConfig; up_Auth : AuthConfig }.
Record MetricsConfig := mkMetrics { me_Listen : bytes }.
Record LoggingConfig := mkLogging { lo_Level : bytes; lo_Format : bytes }.
Record PProfConfig := mkPProf { pp_Listen : bytes }.

Record Config := mkConfig {
  cf_Mode : bytes;
  cf_Proxy : ProxyConfig;
  cf_Tunnel : TunnelConfig;
  cf_Server : ServerConfig;
  cf_Upstream : UpstreamConfig;
  cf_Metrics : MetricsConfig;
  cf_Logging : LoggingConfig;
  cf_PProf : PProfConfig
}.

Record ClientProfile := mkProfile {
  cp_Version : Z;
  cp_Name : bytes;
  cp_Server : bytes;
  cp_ServerKey : bytes;
  cp_DeviceKey : bytes;
  cp_TLS : TLSConfig;
  cp_Transport : TransportCfg;
  cp_Proxy : ProxyConfig;
  cp_Reconnect : ReconnectCfg
}.

Definition ModeClient : bytes := str "client".
Definition ModeServer : bytes := str "server".
Definition ModeRelay : bytes := str "relay".

(** ** Defaults *)

Definition no_tls : TLSConfig := mkTLS [] [] [] [] false [].

Definition Defaults : Config := mkConfig []
  (mkProxy (str "127.0.0.1:1080") (str "127.0.0.1:8080"))
  (mkTunnel []
    (mkTLS [] [] [] (str "chrome") false [str "h2"; str "http/1.1"])
    (mkAuth [])
    (mkTransport
      (mkObfsConfig true [] 256 8 (60 * second) (15 * second))
      (mkMux 512 32768 (4 * 1024 * 1024)))
    (mkReconnect true (-1) second (60 * second) (float_of_Z 2)))
  (mkServer (str ":443") (mkTLS [] [] [] [] false [str "h2"; str "http/1.1"]) (mkAuth [])
    [] [] [] (mkDashboard [] false))
  (mkUpstream [] no_tls (mkAuth []))
  (mkMetrics (str ":9090"))
  (mkLogging (str "info") (str "json"))
  (mkPProf []).

Definition ClientProfileDefaults : ClientProfile := mkProfile 1 [] [] [] []
  (mkTLS [] [] [] (str "chrome") false [str "h2"; str "http/1.1"])
  (mkTransport (mkObfsConfig true (str "browser") 0 0 0 0) (mkMux 0 32768 (4 * 1024 * 1024)))
  (mkProxy (str "127.0.0.1:1080") (str "127.0.0.1:8080"))
  (mkReconnect true (-1) second (60 * second) (float_of_Z 2)).

(** ** Validation *)

Definition is_empty (s : bytes) : bool := bool_decide (s = []).

Definition err (msg : string) : result unit := Err (ErrNew msg []).

Definition Validate (c : Config) : result unit :=
  let sv := cf_Server c in
  if bool_decide (cf_Mode c = ModeClient) then
    if is_empty (tu_Addr (cf_Tunnel c)) then err "client mode requires tunnel.addr"
    else if is_empty (au_PSK (tu_Auth (cf_Tunnel c))) then err "client mode requires tunnel.auth.psk"
    else if len (au_PSK (tu_Auth (cf_Tunnel c))) <? 16 then err "tunnel.auth.psk must be at least 16 characters"
    else Ok tt
  else if bool_decide (cf_Mode c = ModeServer) then
    if is_empty (tl_CertFile (sv_TLS sv)) || is_empty (tl_KeyFile (sv_TLS sv))
    then err "server mode requires server.tls.cert and server.tls.key"
    else if is_empty (au_PSK (sv_Auth sv)) && is_empty (sv_IdentityKey sv)
    then err "server mode requires server.auth.psk or server.identity_key"
    else Ok tt
  else if bool_decide (cf_Mode c = ModeRelay) then
    if is_empty (tl_CertFile (sv_TLS sv)) || is_empty (tl_KeyFile (sv_TLS sv))
    then err "relay mode requires server.tls.cert and server.tls.key"
    else if is_empty (up_Addr (cf_Upstream c)) then err "relay mode requires upstream.addr"
    else if is_empty (au_PSK (sv_Auth sv)) || is_empty (au_PSK (up_Auth (cf_Upstream c)))
    then err "relay mode requires server.auth.psk and upstream.auth.psk"
    else Ok tt
  else err "unknown mode: %q (must be client, server, or relay)".

Definition ValidateClientProfile (p : ClientProfile) : result unit :=
  if is_empty (cp_Server p) then err "profile: server address is required" else Ok tt.

(** ** [time.ParseDuration]

    An optional sign and groups of a decimal number and a unit, in unsigned
    64-bit arithmetic with the overflow checks of the library. *)
Definition digit (c : byte) : Z := Z_of_byte c - 48.
Definition invalid_duration {A} : result A := Err (ErrNew "time: invalid duration" []).

(** [leadingInt]: [None] on overflow. *)
Fixpoint leadingInt (x : Z) (s : bytes) : option (Z * bytes) :=
  match s with
  | c :: s' =>
      if is_digit c then
        if x >? 2 ^ 63 / 10 then None
        else let x' := x * 10 + digit c in
             if x' >? 2 ^ 63 then None else leadingInt x' s'
      else Some (x, s)
  | [] => Some (x, [])
  end.

(** [leadingFraction]: digits beyond the precision are dropped. *)
Fixpoint leadingFraction (overflow : bool) (x : Z) (scale : float64) (s : bytes) : Z * float64 * bytes :=
  match s with
  | c :: s' =>
      if is_digit c then
        if overflow then leadingFraction true x scale s'
        else if x >? (2 ^ 63 - 1) / 10 then leadingFraction true x scale s'
        else let y := x * 10 + digit c in
             if y >? 2 ^ 63 then leadingFraction true x scale s'
             else leadingFraction false y (fmul scale (float_of_Z 10)) s'
      else (x, scale, s)
  | [] => (x, scale, [])
  end.

(** The unit: up to the next digit or point. *)
Fixpoint unit_name (s : bytes) : bytes * bytes :=
  match s with
  | c :: s' =>
      if bool_decide (c = x2e) || is_digit c then ([], s)
      else let '(u, r) := unit_name s' in (c :: u, r)
  | [] => ([], [])
  end.

Definition unitMap (u : bytes) : option Z :=
  if bool_decide (u = str "ns") then Some 1
  else if bool_decide (u = str "us") then Some 1000
  else if bool_decide (u = [xc2; xb5; x73]) then Some 1000
  else if bool_decide (u = [xce; xbc; x73]) then Some 1000
  else if bool_decide (u = str "ms") then Some 1000000
  else if bool_decide (u = str "s") then Some second
  else if bool_decide (u = str "m") then Some (60 * second)
  else if bool_decide (u = str "h") then Some (3600 * second)
  else None.

(** One [v.f unit] group: its value and the rest. *)
Definition duration_group (s : bytes) : result (Z * bytes) :=
  match s with
  | [] => invalid_duration
  | c :: _ =>
      if negb (bool_decide (c = x2e) || is_digit c) then invalid_duration else
      match leadingInt 0 s with
      | None => invalid_duration
      | Some (v, s1) =>
          let pre := negb (len s1 =? len s) in
          let '(f, scale, s2, post) :=
            match s1 with
            | c1 :: s1' =>
                if bool_decide (c1 = x2e)
                then let '(f, scale, s2) := leadingFraction false 0 (float_of_Z 1) s1' in
                     (f, scale, s2, negb (len s2 =? len s1'))
                else (0, float_of_Z 1, s1, false)
            | [] => (0, float_of_Z 1, s1, false)
            end in
          if negb pre && negb post then invalid_duration else
          let '(u, s3) := unit_name s2 in
          if is_empty u then Err (ErrNew "time: missing unit in duration" []) else
          match unitMap u with
          | None => Err (ErrNew "time: unknown unit in duration" [])
          | Some unit =>
              if v >? 2 ^ 63 / unit then invalid_duration else
              let v := v * unit in
              let v := if f >? 0 then v + Z_of_float (fmul (float_of_Z f) (fdiv (float_of_Z unit) scale)) else v in
              if v >? 2 ^ 63 then invalid_duration else Ok (v, s3)
          end
      end
  end.

Fixpoint duration_groups (fuel : nat) (d : Z) (s : bytes) : result Z :=
  match s, fuel with
  | [], _ => Ok d
  | _, O => invalid_duration
  | _, S fuel' =>
      match duration_group s with
      | Ok (v, s') => let d := d + v in if d >? 2 ^ 63 then invalid_duration else duration_groups fuel' d s'
      | Err e => Err e
      | Panic => Panic
      end
  end.

Definition ParseDuration (s : bytes) : result Z :=
  let '(neg, s) :=
    match s with
    | c :: s' => if bool_decide (c = x2d) then (true, s') else if bool_decide (c = x2b) then (false, s') else (false, s)
    | [] => (false, s)
    end in
  if bool_decide (s = str "0") then Ok 0
  else if is_empty s then invalid_duration
  else match duration_groups (length s) 0 s with
       | Ok d => if neg then Ok (- d) else if d >? 2 ^ 63 - 1 then invalid_duration else Ok d
       | o => o
       end.

Example ParseDuration_tests :
  map ParseDuration [str "60s"; str "1m30s"; str "1.5h"; str "-250ms"; str "0"; str ".5s"; str "+2h"] =
  map Ok [60 * second; 90 * second; 5400 * second; -250000000; 0; 500000000; 7200 * second] ∧
  map (λ s, is_ok (ParseDuration s)) [str ""; str "60"; str "s"; str "1 s"; str "1x"; str "9999999999h"] =
  [false; false; false; false; false; false].
Proof. vm_compute. done. Qed.

(** ** YAML

    The library's documents are trees of scalars, sequences and mappings.
    [yaml_Marshal] and the [yaml_Unmarshal_*] are its reflection over the structs
    ([Unmarshal] decodes into a value that already holds defaults, and hands the
    node of every [Duration] field to the hook, which is [UnmarshalYAML]);
    [yaml_tree] is the parser; [yaml_Decode_string] is [node.Decode(&s)]. *)
#[warnings="-register-all"]
Inductive node : Type :=
  | NScalar (text : bytes)
  | NSeq (l : list node)
  | NMap (l : list (bytes * node)).

(** The node under a path of keys. *)
Fixpoint node_at (path : list bytes) (n : node) : option node :=
  match path with
  | [] => Some n
  | k :: path' =>
      match n with
      | NMap l => match find (λ kv, bool_decide (kv.1 = k)) l with
                  | Some kv => node_at path' kv.2
                  | None => None
                  end
      | _ => None
      end
  end.

Definition base_delay_path : list bytes := [str "reconnect"; str "base_delay"].

(** The laws are the library's documented behaviour: a struct is written as a
    mapping of its exported fields, an embedded one without the [inline] tag
    under its lower-cased name; a field whose type has an [UnmarshalYAML] method
    and whose node is a mapping (for some scalars, such as null, the method is not
    called) is decoded by it, and its error is an error of [Unmarshal]; a mapping does not
    decode into a string. *)
Class YAML := {
  yaml_Marshal : ClientProfile → result bytes;
  yaml_Unmarshal_profile : (node → result Z) → bytes → ClientProfile → result ClientProfile;
  yaml_Unmarshal_config : (node → result Z) → bytes → Config → result Config;
  yaml_tree : bytes → option node;
  yaml_Decode_string : node → result bytes;
  yaml_embedded p t : yaml_Marshal p = Ok t →
    ∃ n v, yaml_tree t = Some n ∧ node_at base_delay_path n = Some (NMap [(str "duration", v)]);
  yaml_hook hook t p n l e : yaml_tree t = Some n → node_at base_delay_path n = Some (NMap l) →
    hook (NMap l) = Err e → ∃ e', yaml_Unmarshal_profile hook t p = Err e';
  yaml_mapping l : ∃ e, yaml_Decode_string (NMap l) = Err e
}.

Section yaml.
Context `{YAML}.

Definition Duration_UnmarshalYAML (value : node) : result Z :=
  match yaml_Decode_string value with
  | Ok s =>
      match ParseDuration s with
      | Err e => Err (ErrWrap "config: invalid duration %q" e)
      | o => o
      end
  | Err e => Err e
  | Panic => Panic
  end.

Definition Load (path : bytes) : M fs Config :=
  data <- wrap "config: read" (os_ReadFile path) ;;
  cfg <- wrap "config: parse" (lift (yaml_Unmarshal_config Duration_UnmarshalYAML data Defaults)) ;;
  wrap "config: validation" (lift (Validate cfg)) ;;;
  ret cfg.

Definition LoadClientProfile (path : bytes) : M fs ClientProfile :=
  data <- wrap "profile: read" (os_ReadFile path) ;;
  p <- wrap "profile: parse" (lift (yaml_Unmarshal_profile Duration_UnmarshalYAML data ClientProfileDefaults)) ;;
  lift (ValidateClientProfile p) ;;;
  ret p.

Definition SaveClientProfile (p : ClientProfile) (path : bytes) : M fs unit :=
  wrap "profile: mkdir" os_MkdirAll ;;;
  data <- wrap "profile: marshal" (lift (yaml_Marshal p)) ;;
  os_WriteFile path data.

Lemma os_MkdirAll_files f r f' : os_MkdirAll f = (r, f') → fs_files f' = fs_files f.
Proof. unfold os_MkdirAll, fs_fault, bind. destruct (fs_faults f) as [|[[]|] ?]; by intros [= _ <-]. Qed.

Lemma SaveClientProfile_ok p path f f' :
  SaveClientProfile p path f = (Ok tt, f') →
  ∃ t, yaml_Marshal p = Ok t ∧ fs_files f' !! path = Some t.
Proof.
  unfold SaveClientProfile. intros Hs.
  apply bind_inv_Ok in Hs as (u & f1 & Hm & Hs).
  apply bind_inv_Ok in Hs as (t & f2 & Ht & Hw).
  apply wrap_inv_Ok in Ht. unfold lift in Ht. injection Ht as Ht <-.
  exists t. split; [done|].
  unfold os_WriteFile, fs_fault, bind in Hw.
  destruct (fs_faults f1) as [|[[n e]|] w]; [| |]; unfold fs_update, modify in Hw; cbn in Hw; try done;
    injection Hw as <-; cbn; apply lookup_insert_eq.
Qed.

Lemma saved_unloadable p t path f :
  yaml_Marshal p = Ok t → fs_files f !! path = Some t → fs_faults f = [] →
  ∃ e, LoadClientProfile path f = (Err e, f).
Proof.
  intros Hm Hfile Hf.
  destruct (yaml_embedded p t Hm) as (n & v & Htree & Hat).
  destruct (yaml_mapping [(str "duration", v)]) as [e He].
  destruct (yaml_hook Duration_UnmarshalYAML t ClientProfileDefaults n _ e Htree Hat) as [e' He'].
  { unfold Duration_UnmarshalYAML. by rewrite He. }
  unfold LoadClientProfile. erewrite bind_Ok by (apply wrap_Ok; by apply os_ReadFile_ok).
  erewrite bind_Err by (apply wrap_Err; unfold lift; rewrite He'; reflexivity). eauto.
Qed.

(** A saved profile does not load.  The durations of a profile are structs
    around a [time.Duration] with a method that reads a string and none that
    writes one: whatever the profile, after [SaveClientProfile] has succeeded,
    [LoadClientProfile] of the same file is an error. *)
Theorem saved_profile_does_not_load p path f f' :
  SaveClientProfile p path f = (Ok tt, f') → fs_faults f' = [] →
  ∃ e f'', LoadClientProfile path f' = (Err e, f'').
Proof.
  intros Hs Hf. destruct (SaveClientProfile_ok p path f f' Hs) as (t & Hm & Hfile).
  destruct (saved_unloadable p t path f' Hm Hfile Hf) as [e E]. by exists e, f'.
Qed.
End yaml.

(** A library that satisfies the laws, and a profile saved with it. *)
Definition toy_tree (v : bytes) : node :=
  NMap [(str "reconnect", NMap [(str "base_delay", NMap [(str "duration", NScalar v)])])].
#[local] Instance toy_YAML : YAML.
Proof.
  refine {|
    yaml_Marshal p := Ok (dec (rc_BaseDelay (cp_Reconnect p)));
    yaml_Unmarshal_profile hook t p :=
      match hook (NMap [(str "duration", NScalar t)]) with Err e => Err e | _ => Ok p end;
    yaml_Unmarshal_config _ _ c := Ok c;
    yaml_tree t := Some (toy_tree t);
    yaml_Decode_string n :=
      match n with NScalar s => Ok s | _ => Err (ErrNew "cannot unmarshal !!map into string" []) end
  |}.
  - intros p t Ht. exists (toy_tree t), (NScalar t). done.
  - intros hook t p n l e [= <-] [= <-] Hk. rewrite Hk. by exists e.
  - intros l. by eexists.
Defined.

Lemma saved_profile_does_not_load_witness :
  let s := SaveClientProfile ClientProfileDefaults (str "p.yaml") (Fs ∅ []) in
  s = (Ok tt, snd s) ∧ ∃ e f, LoadClientProfile (str "p.yaml") (snd s) = (Err e, f).
Proof.
  intros s. split; [reflexivity|].
  exact (saved_profile_does_not_load ClientProfileDefaults (str "p.yaml") (Fs ∅ []) (snd s) eq_refl eq_refl).
Defined.
