(* ===== verification/Transport.v ===== *)
(** [internal/transport/tls/client.go]: the TLS transports.  The TCP dialler, the
    uTLS handshake and the loading of certificates are a network that the
    operations are given; a connection after the handshake is its plaintext
    stream. *)

From Stdlib Require Import Strings.Byte String ZArith Lia.
From stdpp Require Import base list.
From S2P Require Import Prelude Encoding Io Shaping.

(** ** The libraries *)

Record utlsConfig := mkUtls { ut_ServerName : bytes; ut_NextProtos : list bytes; ut_InsecureSkipVerify : bool }.

Inductive ClientHelloID : Type := HelloChrome_Auto | HelloFirefox_Auto | HelloEdge_Auto | HelloSafari_Auto.

(** What one attempt meets: [DialContext(ctx, "tcp", addr)], and
    [HandshakeContext] of the connection it gave. *)
Record network := Network {
  nt_dial : bytes → result conn;
  nt_handshake : utlsConfig → ClientHelloID → conn → result conn
}.

(** Documented behaviour of [crypto/tls], from which uTLS is forked: neither call
    panics, and a client configuration needs a server name unless it skips the
    verification. *)
Class network_ok (nt : network) : Prop := {
  nt_dial_total addr : is_panic (nt_dial nt addr) = false;
  nt_handshake_total cfg hello c : is_panic (nt_handshake nt cfg hello c) = false;
  nt_needs_name cfg hello c : ut_ServerName cfg = [] → ut_InsecureSkipVerify cfg = false →
    ∃ e, nt_handshake nt cfg hello c = Err e
}.

(** ** The client transport *)

Record ClientTransport := mkClientTransport {
  ct_serverName : bytes; ct_fingerprint : bytes; ct_nextProtos : list bytes; ct_insecure : bool
}.

Definition default_protos (nextProtos : list bytes) : list bytes :=
  if bool_decide (nextProtos = []) then [str "h2"; str "http/1.1"] else nextProtos.

Definition NewClient (serverName fingerprint : bytes) (nextProtos : list bytes) (insecure : bool) : ClientTransport :=
  mkClientTransport serverName (if bool_decide (fingerprint = []) then str "chrome" else fingerprint)
    (default_protos nextProtos) insecure.

Definition random_profiles : list ClientHelloID := [HelloChrome_Auto; HelloFirefox_Auto; HelloEdge_Auto].

(** [rand.Intn(n)] is [rand.Int63n] on a smaller range. *)
Definition selectHello (t : ClientTransport) : M mrand ClientHelloID :=
  if bool_decide (ct_fingerprint t = str "firefox") then ret HelloFirefox_Auto
  else if bool_decide (ct_fingerprint t = str "edge") then ret HelloEdge_Auto
  else if bool_decide (ct_fingerprint t = str "safari") then ret HelloSafari_Auto
  else if bool_decide (ct_fingerprint t = str "random") then
    i <- rand_Int63n (len random_profiles) ;;
    lift (match random_profiles !! Z.to_nat i with Some h => Ok h | None => Panic end)
  else ret HelloChrome_Auto.

Definition Dial (nt : network) (t : ClientTransport) (addr : bytes) : M mrand conn :=
  tcpConn <- wrap "tls-client: tcp dial %s" (lift (nt_dial nt addr)) ;;
  hello <- selectHello t ;;
  wrap "tls-client: handshake %s"
    (lift (nt_handshake nt (mkUtls (ct_serverName t) (ct_nextProtos t) (ct_insecure t)) hello tcpConn)).

(** ** The server transport *)

Record ServerTransport := mkServerTransport {
  stt_certFile : bytes; stt_keyFile : bytes; stt_nextProtos : list bytes; stt_MinVersion : Z
}.

Definition VersionTLS12 : Z := 0x0303.

(** [loaded] is the outcome of [tls.LoadX509KeyPair]. *)
Definition NewServer (loaded : result unit) (certFile keyFile : bytes) (nextProtos : list bytes) : result ServerTransport :=
  match loaded with
  | Ok _ => Ok (mkServerTransport certFile keyFile (default_protos nextProtos) VersionTLS12)
  | Err e => Err (ErrWrap "tls-server: load cert %s" e)
  | Panic => Panic
  end.

(** ** transport.go: the interface, and the table of its implementations

    [L] stands for the listeners of the library: what will be accepted. *)
Section interface.
Context {L : Type}.

Class Transport (T : Type) := {
  transport_Dial : network → T → bytes → M mrand conn;
  transport_Listen : (bytes → result L) → T → bytes → result L;
  transport_Name : T → bytes
}.

(** A client transport does not listen, a server transport does not dial;
    [tls_listen] is the outcome of [tls.Listen] for an address. *)
#[global] Instance client_transport : Transport ClientTransport := {|
  transport_Dial nt t addr := Dial nt t addr;
  transport_Listen _ _ _ := Err (ErrNew "tls-client: Listen not supported" []);
  transport_Name _ := str "tls-client"
|}.
#[global] Instance server_transport : Transport ServerTransport := {|
  transport_Dial _ _ _ := fail (ErrNew "tls-server: Dial not supported" []);
  transport_Listen tls_listen t addr :=
    match tls_listen addr with Err e => Err (ErrWrap "tls-server: listen %s" e) | o => o end;
  transport_Name _ := str "tls-server"
|}.

Inductive any_transport : Type :=
  | AnyTransport {T : Type} (H : Transport T) (t : T).
Definition any_Name (a : any_transport) : bytes := match a with AnyTransport H t => transport_Name t end.
Definition transports : Type := list (bytes * any_transport).

(** The map of names, newest first: an entry hides an older one of its name. *)
Definition Register (a : any_transport) (m : transports) : transports := (any_Name a, a) :: m.
Definition registered_transport (name : bytes) (m : transports) : option any_transport :=
  match list_find (λ na, fst na = name) m with Some (_, (_, a)) => Some a | None => None end.

Lemma Register_lookup a name m :
  registered_transport name (Register a m) = if bool_decide (any_Name a = name) then Some a else registered_transport name m.
Proof.
  unfold registered_transport, Register. cbn [list_find fst]. case_bool_decide as Hn.
  - by rewrite decide_True by done.
  - rewrite decide_False by done. by destruct (list_find _ m) as [[? []]|].
Qed.
End interface.

(** ** Lemmas *)

Lemma selectHello_run t r : ∃ h r', selectHello t r = (Ok h, r').
Proof.
  unfold selectHello. repeat (case_bool_decide; [by do 2 eexists|]). case_bool_decide; [|by do 2 eexists].
  unfold bind, rand_Int63n, mr_next, lift. change (len random_profiles) with 3. change (3 <=? 0) with false. cbv beta iota.
  pose proof (Z.mod_pos_bound (mr_int63 r (mr_pos r)) 3 ltac:(lia)) as Hm.
  destruct (lookup_lt_is_Some_2 random_profiles (Z.to_nat (mr_int63 r (mr_pos r) `mod` 3))) as [h Hh];
    [cbn; lia|]. rewrite Hh. by do 2 eexists.
Qed.

(** The outcome of a dial does not depend on the state of the random source
    beyond the choice of the hello, and is never a panic. *)
Lemma Dial_run nt t addr r : network_ok nt →
  ∃ o r', Dial nt t addr r = (o, r') ∧ is_panic o = false ∧
    (ct_serverName t = [] → ct_insecure t = false → ∃ e, o = Err e).
Proof.
  intros Hn. unfold Dial. pose proof (nt_dial_total addr) as Hd.
  destruct (nt_dial nt addr) as [c|e|]; [|do 2 eexists; split; [reflexivity|]; split; [done|by eexists]|done].
  erewrite bind_Ok by (by apply wrap_Ok). destruct (selectHello_run t r) as (h & r' & Hh).
  erewrite bind_Ok by exact Hh. unfold wrap, lift.
  set (cfg := mkUtls _ _ _). pose proof (nt_handshake_total cfg h c) as Ht.
  destruct (nt_handshake nt cfg h c) as [c'|e|] eqn:E; [| |done].
  - do 2 eexists. split; [reflexivity|]. split; [done|]. intros H1 H2.
    destruct (nt_needs_name cfg h c H1 H2) as [e E']. congruence.
  - do 2 eexists. split; [reflexivity|]. split; [done|by eexists].
Qed.
