(* ===== verification/HttpProxy.v ===== *)
(** [internal/proxy/http/server.go]: the HTTP CONNECT inbound proxy, against the
    [Dialer] interface of Socks, and the accept loops of both proxies.
    [http.ReadRequest] over a [bufio.Reader] is an interface. *)

From Stdlib Require Import Strings.Byte String ZArith Lia.
From stdpp Require Import base list relations.
From S2P Require Import Prelude Encoding Net Io Frame Connect Pipe Socks Metrics.

(** ** [http.ReadRequest] *)

Record http_request := mkHttp { hr_Method : bytes; hr_Host : bytes }.

(** What the parser makes of the bytes it has been given: a request whose head
    has [n] bytes, an error, or it needs more. *)
Inductive parse : Type := NeedMore | Malformed (e : error) | Parsed (req : http_request) (n : nat).

(** [http_room]: the free space of the [bufio.Reader]'s 4096-byte buffer when the
    parser has these bytes and asks for more.  The parser reads from the front
    and stops as soon as it can decide. *)
Class HTTP := {
  http_parse : bytes → parse;
  http_room : bytes → nat;
  http_room_bounds b : (1 <= http_room b <= Z.to_nat 4096)%nat;
  http_parse_head b req n : http_parse b = Parsed req n → (n <= length b)%nat;
  http_parse_more b more : http_parse b ≠ NeedMore → http_parse (b ++ more) = http_parse b
}.

Definition ErrNoProgress : error := ErrSentinel "multiple Read calls return no data or error".

(** [bufio.Reader.fill]: at most 100 reads that return nothing. *)
Fixpoint fill (tries n : nat) (c : conn) : bytes * option error * conn :=
  match tries with
  | O => ([], Some ErrNoProgress, c)
  | S tries' =>
      let '(bs, e, c') := conn_Read n c in
      match bs, e with [], None => fill tries' n c' | _, _ => (bs, e, c') end
  end.

Section http.
Context `{HTTP}.

(** The request and the bytes after it that are in the buffer.  An error that
    came with bytes is reported when they are used up. *)
Fixpoint ReadRequest_loop (fuel : nat) (acc : bytes) (err : option error) : M conn (http_request * bytes) := λ c,
  match http_parse acc with
  | Parsed req n => (Ok (req, drop n acc), c)
  | Malformed e => (Err e, c)
  | NeedMore =>
      match err, fuel with
      | Some e, _ => (Err e, c)
      | None, O => (Panic, c)
      | None, S fuel' =>
          let '(bs, e, c') := fill 100 (http_room acc) c in
          ReadRequest_loop fuel' (acc ++ bs) e c'
      end
  end.

(** Every turn gets a byte or an error. *)
Definition ReadRequest : M conn (http_request * bytes) := λ c,
  ReadRequest_loop (S (length (flatten (c_rd c)))) [] None c.

(** ** The decision *)

Definition addr_type (host : bytes) : AddrType :=
  match ParseIP host with
  | Some _ => if bool_decide (colon ∈ host) then AddrIPv6 else AddrIPv4
  | None => AddrDomain
  end.

Definition connect_target (reqHost : bytes) : option (AddrType * bytes * Z) :=
  let '(host, portStr) := match SplitHostPort reqHost with Ok hp => hp | _ => (reqHost, str "443") end in
  match ParseUint16 portStr with Ok port => Some (addr_type host, host, port) | _ => None end.

Definition MethodConnect : bytes := str "CONNECT".
Definition bad_request : bytes := str "HTTP/1.1 400 Bad Request" ++ [x0d; x0a; x0d; x0a].
Definition bad_gateway : bytes := str "HTTP/1.1 502 Bad Gateway" ++ [x0d; x0a; x0d; x0a].
Definition established : bytes := str "HTTP/1.1 200 Connection Established" ++ [x0d; x0a; x0d; x0a].

Context {D : Type} `{Dialer D}.

(** A reply whose error is dropped, and the deferred close. *)
Definition answer_and_close (reply : bytes) : M (sconn D) (option pipe) :=
  ignore (on_client (conn_Write reply)) ;;; close_client ;;; ret None.

(** What was buffered after the request goes to the stream first. *)
Definition forward_buffered (buffered : bytes) (stream : conn) : conn :=
  if 0 <? len buffered then snd (conn_Write buffered stream) else stream.

(** [handleConn] once it has a request, up to the two copiers, the client's
    bytes first. *)
Definition serve_request (req : http_request) (buffered : bytes) : M (sconn D) (option pipe) :=
  on_client (modify (put_dl None)) ;;;
  if negb (bool_decide (hr_Method req = MethodConnect)) then answer_and_close bad_request else
  match connect_target (hr_Host req) with
  | None => answer_and_close bad_request
  | Some (addrType, host, port) =>
      o <- try (on_dialer (OpenStream addrType host port)) ;;
      match o with
      | inr _ => answer_and_close bad_gateway
      | inl stream =>
          ignore (on_client (conn_Write established)) ;;;
          c <- gets sc_conn ;;
          ret (Some (Relay (forward_buffered buffered stream) c))
      end
  end.

Definition handleConn : M (sconn D) (option pipe) :=
  now <- on_clk time_Now ;;
  on_client (modify (put_dl (Some (now + 15 * second)))) ;;;
  r <- try (on_client ReadRequest) ;;
  match r with
  | inr _ => close_client ;;; ret None
  | inl (req, buffered) => serve_request req buffered
  end.
End http.

(** ** The accept loops

    [ListenAndServe] of the two proxies, over what [Accept] returns until the
    context is done: a connection, or a transient error.  The result is the
    connections that [handleConn] was started on. *)
Fixpoint accept_loop `{Prometheus} (proxyType : bytes) (events : list (option conn)) : M (option Metrics) (list conn) :=
  match events with
  | [] => ret []
  | None :: rest => accept_loop proxyType rest
  | Some c :: rest => RecordProxyAccept proxyType ;;; l <- accept_loop proxyType rest ;; ret (c :: l)
  end.

(** The two servers, each with its [ListenAndServe]; their dialer is the class of
    Socks.  [tcp_listen] is what binding an address gives: what will be accepted. *)
Record http_server := HttpServer { hp_addr : bytes; hp_met : option Metrics }.
Definition http_NewServer (addr : bytes) (met : option Metrics) : http_server := HttpServer addr met.
Definition http_ListenAndServe `{Prometheus} (tcp_listen : bytes → result (list (option conn))) : M http_server (list conn) :=
  addr <- gets hp_addr ;;
  events <- wrap "http proxy: listen %s" (lift (tcp_listen addr)) ;;
  zoom hp_met (λ m s, HttpServer (hp_addr s) m) (accept_loop (str "http") events).

Record socks_server := SocksServer { s5_addr : bytes; s5_met : option Metrics }.
Definition socks_NewServer (addr : bytes) (met : option Metrics) : socks_server := SocksServer addr met.
Definition socks_ListenAndServe `{Prometheus} (tcp_listen : bytes → result (list (option conn))) : M socks_server (list conn) :=
  addr <- gets s5_addr ;;
  events <- wrap "socks5: listen %s" (lift (tcp_listen addr)) ;;
  zoom s5_met (λ m s, SocksServer (s5_addr s) m) (accept_loop (str "socks5") events).

Lemma accept_loop_run `{Prometheus} proxyType events m :
  prom_accepts proxyType = true →
  ∃ m', accept_loop proxyType events (Some m) = (Ok (omap id events), Some m').
Proof.
  intros Hp. revert m. induction events as [|[c|] rest IH]; intros m; cbn [accept_loop omap list_omap id]; [by eexists| |apply IH].
  destruct (IH (mkMet (m_events m ++ [Inc "daxson_proxy_accepts_total" [proxyType]]))) as [m' E]. exists m'.
  unfold RecordProxyAccept, inc_label, bind. rewrite Hp. cbn. rewrite E. done.
Qed.

(** Without metrics the first connection takes the process down. *)
Lemma accept_loop_nil `{Prometheus} proxyType c rest :
  fst (accept_loop proxyType (Some c :: rest) None) = Panic.
Proof. cbn [accept_loop]. unfold RecordProxyAccept, inc_label, bind. by destruct (prom_accepts _). Qed.
Lemma socks_ListenAndServe_nil `{Prometheus} tcp_listen addr c rest :
  tcp_listen addr = Ok (Some c :: rest) → fst (socks_ListenAndServe tcp_listen (socks_NewServer addr None)) = Panic.
Proof.
  intros E. unfold socks_ListenAndServe. erewrite bind_Ok by reflexivity. cbn [s5_addr socks_NewServer].
  erewrite bind_Ok by (apply wrap_Ok; unfold lift; rewrite E; reflexivity). unfold zoom. cbn [s5_met socks_NewServer].
  pose proof (accept_loop_nil (str "socks5") c rest) as Hn. by destruct (accept_loop _ _ None) as [x m]; cbn in *; subst.
Qed.

(** ** Reading a request, for every segmentation *)

Section reading.
Context `{HTTP}.

(** No read of this connection returns nothing without an error. *)
Definition delivers (c : conn) : Prop := Forall (λ ch, ch ≠ []) (rd_chunks (c_rd c)).

Lemma conn_Read_delivers n c out inp :
  view c out inp → delivers c → (1 <= n)%nat →
  ∃ bs e c' rest, conn_Read n c = (bs, e, c') ∧ inp = bs ++ rest ∧ view c' out rest ∧ delivers c' ∧
    match e with Some _ => rest = [] | None => bs ≠ [] end.
Proof.
  intros (Hc & Hw & Ho & <-) Hd Hn. unfold conn_Read. rewrite Hc. unfold delivers in Hd.
  destruct (c_rd c) as [[|ch cs] fin eager] eqn:E; unfold rd_read; cbn [rd_chunks rd_fin rd_eager set_chunks].
  - do 4 eexists. split; [reflexivity|]. split; [done|]. split; [by split_and!|]. by split.
  - cbn [rd_chunks] in Hd. apply Forall_cons in Hd as [Hch Hcs].
    destruct (Nat.leb_spec (length ch) n); do 4 eexists; (split; [reflexivity|]).
    + split; [reflexivity|]. split; [by split_and!|]. split; [exact Hcs|].
      destruct eager; [destruct cs; [done|]|]; done.
    + unfold flatten. cbn [rd_chunks concat]. split; [by rewrite app_assoc, take_drop|].
      split; [by split_and!|]. split.
      * apply Forall_cons. split; [|done]. intros Hz%(f_equal length). rewrite length_drop in Hz. cbn in Hz. lia.
      * intros Hz%(f_equal length). rewrite length_take in Hz. cbn in Hz. lia.
Qed.

Lemma ReadRequest_loop_run fuel acc err c out rest :
  view c out rest → delivers c → (err ≠ None → rest = []) → (length rest < fuel ∨ err ≠ None)%nat →
  match http_parse (acc ++ rest) with
  | Parsed req n =>
      ∃ early c' rest', ReadRequest_loop fuel acc err c = (Ok (req, early), c') ∧
        early ++ rest' = drop n (acc ++ rest) ∧ view c' out rest'
  | _ => ∃ e c' rest', ReadRequest_loop fuel acc err c = (Err e, c') ∧ view c' out rest'
  end.
Proof.
  revert acc err c rest. induction fuel as [|fuel IH]; intros acc err c rest Hv Hd He Hf; cbn [ReadRequest_loop];
    (destruct (http_parse acc) as [|e|req n] eqn:Ep;
     [|rewrite http_parse_more, Ep by congruence; by do 3 eexists
      |rewrite http_parse_more, Ep by congruence; exists (drop n acc), c, rest; split; [done|];
       split; [|done]; rewrite drop_app_le; [done|]; by eapply http_parse_head]).
  - destruct err as [e|]; [|destruct Hf; [lia|done]].
    rewrite He, app_nil_r, Ep by done. rewrite He in Hv by done. by do 3 eexists.
  - destruct err as [e|].
    { rewrite He, app_nil_r, Ep by done. rewrite He in Hv by done. by do 3 eexists. }
    destruct (conn_Read_delivers (http_room acc) c out rest Hv Hd) as (bs & e & c' & rest' & Er & -> & Hv' & Hd' & Hb);
      [apply http_room_bounds|].
    assert (Ef : fill 100 (http_room acc) c = (bs, e, c')).
    { cbn [fill]. rewrite Er. by destruct bs, e. }
    rewrite Ef, app_assoc. apply IH; [done|done|by destruct e|].
    destruct e; [by right|]. left. destruct Hf as [Hf|]; [|done]. rewrite length_app in Hf.
    destruct bs; [done|cbn in Hf; lia].
Qed.

Lemma ReadRequest_run c out inp :
  view c out inp → delivers c →
  match http_parse inp with
  | Parsed req n =>
      ∃ early c' rest, ReadRequest c = (Ok (req, early), c') ∧ early ++ rest = drop n inp ∧ view c' out rest
  | _ => ∃ e c' rest, ReadRequest c = (Err e, c') ∧ view c' out rest
  end.
Proof.
  intros Hv Hd. pose proof (ReadRequest_loop_run (S (length (flatten (c_rd c)))) [] None c out inp Hv Hd) as Hr.
  apply Hr; [done|]. left. destruct Hv as (_ & _ & _ & ->). lia.
Qed.
End reading.

(** ** What is asked for is what is dialled *)

Lemma ParseUint16_dec p : 0 <= p < 65536 → ParseUint16 (dec p) = Ok p.
Proof.
  intros Hp. pose proof (forall_ports (λ p, match ParseUint16 (dec p) with Ok q => q =? p | _ => false end) p) as Hall.
  cbv beta in Hall. specialize (Hall ltac:(vm_compute; reflexivity) Hp).
  by destruct (ParseUint16 (dec p)) as [q| |]; [apply Z.eqb_eq in Hall as ->|..].
Qed.

Lemma not_in_middle (x c : byte) a d : x ∉ a → x ≠ c → x ∉ d → x ∉ a ++ c :: d.
Proof. rewrite elem_of_app, elem_of_cons. tauto. Qed.

Lemma drop_middle {A} (c : A) a d : drop (S (length a)) (a ++ c :: d) = d.
Proof. rewrite drop_app_ge by lia. by replace (S (length a) - length a)%nat with 1%nat by lia. Qed.

Lemma SplitHostPort_plain a d :
  colon ∉ a → lbracket ∉ a → rbracket ∉ a → colon ∉ d → lbracket ∉ d → rbracket ∉ d →
  SplitHostPort (a ++ str ":" ++ d) = Ok (a, d).
Proof.
  intros A1 A2 A3 D1 D2 D3. unfold SplitHostPort. change (str ":" ++ d) with (colon :: d).
  rewrite LastIndexByte_app by done.
  assert (Hh : head (a ++ colon :: d) ≠ Some lbracket).
  { destruct a as [|x a]; [done|]. cbn. intros [= ->]. apply A2. by left. }
  rewrite (bool_decide_false (head _ = _)) by done. rewrite take_app_length, drop_0.
  rewrite !bool_decide_false by (done || by apply not_in_middle).
  by rewrite drop_middle.
Qed.

Lemma SplitHostPort_brackets a d :
  lbracket ∉ a → rbracket ∉ a → colon ∉ d → lbracket ∉ d → rbracket ∉ d →
  SplitHostPort (str "[" ++ a ++ str "]:" ++ d) = Ok (a, d).
Proof.
  intros A2 A3 D1 D2 D3. unfold SplitHostPort.
  change (str "[" ++ a ++ str "]:" ++ d) with ((lbracket :: a) ++ [rbracket] ++ colon :: d).
  rewrite app_assoc, LastIndexByte_app by done. rewrite length_app. cbn [length].
  rewrite <- app_assoc. cbn [app head]. rewrite bool_decide_true by done.
  change (lbracket :: a ++ rbracket :: colon :: d) with ((lbracket :: a) ++ rbracket :: colon :: d).
  rewrite IndexByte_app by (rewrite elem_of_cons; intros [?|?]; done).
  set (h := (lbracket :: a) ++ rbracket :: colon :: d).
  assert (E1 : (S (length (lbracket :: a)) =? length (lbracket :: a ++ [rbracket]) + S (length d))%nat = false)
    by (apply Nat.eqb_neq; cbn [length]; rewrite length_app; cbn [length]; lia).
  assert (E2 : (S (length (lbracket :: a)) =? length (lbracket :: a ++ [rbracket]))%nat = true)
    by (apply Nat.eqb_eq; cbn [length]; rewrite length_app; cbn [length]; lia).
  assert (E3 : drop (S (length (lbracket :: a))) h = colon :: d) by (unfold h; by rewrite drop_middle).
  assert (E4 : drop (S (length (lbracket :: a ++ [rbracket]))) h = d).
  { change h with ((lbracket :: a) ++ [rbracket] ++ colon :: d). rewrite app_assoc. apply drop_middle. }
  rewrite E1, E2, E3, E4. unfold h. rewrite take_app_length. cbn [app drop].
  rewrite !bool_decide_false; [done| |].
  - rewrite elem_of_cons. intros [?|?]; done.
  - repeat apply not_in_middle || (rewrite elem_of_cons; intros [?|?]); done.
Qed.

(** A text in brackets is neither an address nor a host and a port. *)
Lemma ParseIP_bracket s : ParseIP (lbracket :: s) = None.
Proof.
  unfold ParseIP. destruct (list_find _ _) as [[i c]|]; [|done].
  case_bool_decide; [done|]. case_bool_decide; [|done]. case_bool_decide; [done|].
  unfold parseIPv6. by destruct s.
Qed.

Lemma SplitHostPort_literal a :
  rbracket ∉ a → ∃ e, SplitHostPort (str "[" ++ a ++ str "]") = Err e.
Proof.
  intros Ha. unfold SplitHostPort. destruct (LastIndexByte _ _) as [i|]; [|by eexists].
  cbn [app head str list_byte_of_string]. rewrite bool_decide_true by done.
  assert (E : IndexByte (lbracket :: a ++ [rbracket]) rbracket = Some (S (length a))).
  { apply (IndexByte_app (lbracket :: a)). rewrite elem_of_cons. by intros [?|?]. }
  change (IndexByte _ _) with (IndexByte (lbracket :: a ++ [rbracket]) rbracket). rewrite E.
  rewrite (proj2 (Nat.eqb_eq _ _)); [by eexists|]. change (str "]") with [rbracket].
  change (str "[") with [lbracket]. rewrite !length_app. cbn [length]. lia.
Qed.

(** The HTTP proxy dials what it was asked for.  A request for a host and a
    port in the syntax of [net.JoinHostPort] (an IPv6 literal in brackets) opens a
    stream for exactly that host and port, with the address type of the host's
    text; a host without colon and port stands for port 443.  Not so for an IPv6
    literal in brackets without a port: the brackets stay part of the name, which
    is sent as a domain, and dialled by the server in a second pair of brackets. *)
Theorem connect_target_join host port :
  lbracket ∉ host → rbracket ∉ host → 0 <= port < 65536 →
  connect_target (targetAddr host port) = Some (addr_type host, host, port) ∧
  (colon ∉ host → connect_target host = Some (addr_type host, host, 443)) ∧
  (colon ∈ host →
     connect_target (str "[" ++ host ++ str "]") = Some (AddrDomain, (str "[" ++ host ++ str "]"), 443) ∧
     targetAddr (str "[" ++ host ++ str "]") 443 = str "[[" ++ host ++ str "]]:443").
Proof.
  intros Hl Hr Hp.
  pose proof (dec_port_not_in port colon Hp eq_refl) as D1. pose proof (dec_port_not_in port lbracket Hp eq_refl) as D2.
  pose proof (dec_port_not_in port rbracket Hp eq_refl) as D3. split; [|split].
  - unfold connect_target, targetAddr. change x3a with colon. case_bool_decide as Hc.
    + by rewrite SplitHostPort_brackets, ParseUint16_dec.
    + by rewrite SplitHostPort_plain, ParseUint16_dec.
  - intros Hc. unfold connect_target, SplitHostPort.
    replace (LastIndexByte host colon) with (@None nat); [done|]. symmetry.
    unfold LastIndexByte. rewrite fmap_None, IndexByte_None. intros Hin%list_elem_of_In.
    by apply Hc, list_elem_of_In, in_rev.
  - intros Hc. set (literal := str "[" ++ host ++ str "]"). unfold connect_target.
    destruct (SplitHostPort_literal host Hr) as [e E]. fold literal in E. rewrite E. cbn match.
    change (ParseUint16 (str "443")) with (@Ok Z 443). cbn match.
    unfold addr_type. replace (ParseIP literal) with (@None bytes) by (symmetry; apply ParseIP_bracket).
    split; [done|]. unfold targetAddr. rewrite bool_decide_true.
    + unfold literal. by rewrite <- !app_assoc.
    + unfold literal. rewrite !elem_of_app. auto.
Qed.

(** ** One connection *)

Section connection.
Context `{HTTP} {D : Type} `{Dialer D}.
Implicit Types (s : sconn D) (out inp : bytes).

Lemma answer_and_close_run reply s out inp :
  view (sc_conn s) out inp →
  ∃ s', answer_and_close reply s = (Ok None, s') ∧ sc_dialer s' = sc_dialer s ∧
    c_closed (sc_conn s') = true ∧ c_out (sc_conn s') = out ++ reply.
Proof.
  intros Hv. destruct (view_write reply _ out inp Hv) as (c & Hw & Hv').
  eexists. unfold answer_and_close, ignore, try, bind, on_client at 1, zoom. rewrite Hw.
  split; [reflexivity|]. split; [done|]. split; [done|apply Hv'].
Qed.

Lemma forward_buffered_run buffered stream so down :
  view stream so down → view (forward_buffered buffered stream) (so ++ buffered) down.
Proof.
  intros Hv. unfold forward_buffered. case_bool.
  - destruct (view_write buffered stream so down Hv) as (c & -> & Hv'). exact Hv'.
  - destruct buffered; [by rewrite app_nil_r|]. unfold len in *. cbn in *. lia.
Qed.

(** The outcome of a connection that was answered and closed. *)
Definition refused s (reply out : bytes) : Prop :=
  ∃ s', handleConn s = (Ok None, s') ∧ c_closed (sc_conn s') = true ∧ c_out (sc_conn s') = out ++ reply.

Lemma handleConn_read s out inp :
  view (sc_conn s) out inp → delivers (sc_conn s) →
  match http_parse inp with
  | Parsed req n => ∃ s1 early rest, handleConn s = serve_request req early s1 ∧ early ++ rest = drop n inp ∧
      view (sc_conn s1) out rest ∧ sc_dialer s1 = sc_dialer s
  | _ => refused s [] out
  end.
Proof.
  intros Hv Hd. destruct (time_Now_ok (sc_clock s)) as (now & k & Hnow).
  set (c0 := put_dl (Some (now + 15 * second)) (sc_conn s)).
  pose proof (ReadRequest_run c0 out inp Hv Hd) as Hr.
  assert (E : ∀ r c', ReadRequest c0 = (r, c') → handleConn s = (r <- try (lift r) ;;
    match r with inr _ => close_client ;;; ret None | inl (req, buffered) => serve_request req buffered end)
      (SConn c' k (sc_dialer s))).
  { intros r c' Er. unfold handleConn. erewrite bind_Ok by (unfold on_clk, zoom; rewrite Hnow; reflexivity).
    erewrite bind_Ok by reflexivity. cbn [sc_conn sc_clock sc_dialer]. fold c0.
    unfold bind, try, on_client, lift, zoom. cbn [sc_conn]. rewrite Er. by destruct r. }
  assert (Hno : (∃ e c' rest, ReadRequest c0 = (Err e, c') ∧ view c' out rest) → refused s [] out).
  { intros (e & c' & rest & Er & Hv'). unfold refused. rewrite (E _ _ Er). eexists. split; [reflexivity|].
    rewrite app_nil_r. split; [done|apply Hv']. }
  destruct (http_parse inp) as [|e|req n]; [by apply Hno|by apply Hno|].
  destruct Hr as (early & c' & rest & Er & Hrest & Hv').
  exists (SConn c' k (sc_dialer s)), early, rest. rewrite (E _ _ Er). done.
Qed.

(** A stream was opened: the client is told, and the relay starts. *)
Lemma relay_started s1 t a p early rest out so down stream d :
  view (sc_conn s1) out rest → view stream so down → OpenStream t a p (sc_dialer s1) = (Ok stream, d) →
  ∃ s' c st, (o <- try (on_dialer (OpenStream t a p)) ;;
      match o with
      | inr _ => answer_and_close bad_gateway
      | inl stream => ignore (on_client (conn_Write established)) ;;; c <- gets sc_conn ;;
          ret (Some (Relay (forward_buffered early stream) c))
      end) s1 = (Ok (Some (Relay st c)), s') ∧
    view st (so ++ early) down ∧ view c (out ++ established) rest ∧
    ∀ k r, nsteps pstep k (Relay st c) r →
      ∃ sent, c_out (p_a r) = so ++ sent ∧ sent `prefix_of` early ++ rest.
Proof.
  intros Hv Hst Eo. destruct s1 as [c1 k1 d1]. cbn [sc_conn sc_dialer] in *.
  erewrite bind_Ok by (unfold try, on_dialer, zoom; cbn [sc_dialer]; rewrite Eo; reflexivity).
  cbn [sc_conn sc_clock sc_dialer]. destruct (view_write established _ out rest Hv) as (c2 & Hw & Hv2).
  erewrite bind_Ok by (unfold ignore, try, bind, on_client, zoom; cbn [sc_conn]; rewrite Hw; reflexivity).
  pose proof (forward_buffered_run early stream so down Hst) as Hst'.
  do 2 eexists. exists (forward_buffered early stream). split; [reflexivity|]. split; [done|].
  split; [exact Hv2|]. intros m r Hrun.
  destruct Hst' as (C1 & _ & O1 & _), Hv2 as (C2 & _ & _ & F2).
  destruct (relay_inv_prefix _ _ m r C1 C2 Hrun) as (w & Hout & Hpre). rewrite O1 in Hout. rewrite F2 in Hpre.
  exists (early ++ w). rewrite Hout, app_assoc. split; [done|]. by apply prefix_app.
Qed.

(** C14. The HTTP proxy.  However the client's bytes are cut into segments: if they
    start with a CONNECT request for a target with a port, a stream is opened for
    that target; on success the client is told so, and of the bytes that follow
    the request none is lost, repeated or reordered: the stream is given those
    that had been buffered, and in every run of the relay what it is given in all
    is a prefix of them.  If the stream cannot be opened the client is told 502;
    any other request gets 400; and without a request, as when the stream ends
    early, nothing is answered.  In each of these cases the connection is
    closed. *)
Theorem http_decision s out inp :
  view (sc_conn s) out inp → delivers (sc_conn s) →
  match http_parse inp with
  | Parsed req n =>
      if bool_decide (hr_Method req = MethodConnect) then
        match connect_target (hr_Host req) with
        | Some (t, a, p) =>
            match OpenStream t a p (sc_dialer s) with
            | (Ok stream, _) => ∀ so down, view stream so down →
                ∃ s' c st early rest, handleConn s = (Ok (Some (Relay st c)), s') ∧
                  early ++ rest = drop n inp ∧ view st (so ++ early) down ∧ view c (out ++ established) rest ∧
                  ∀ k r, nsteps pstep k (Relay st c) r →
                    ∃ sent, c_out (p_a r) = so ++ sent ∧ sent `prefix_of` drop n inp
            | (Err _, _) => refused s bad_gateway out
            | (Panic, _) => fst (handleConn s) = Panic
            end
        | None => refused s bad_request out
        end
      else refused s bad_request out
  | _ => refused s [] out
  end.
Proof.
  intros Hv Hd. pose proof (handleConn_read s out inp Hv Hd) as Hr.
  destruct (http_parse inp) as [|e|req n]; [done|done|].
  destruct Hr as (s1 & early & rest & E & Hrest & Hv1 & Hd1). rewrite <- Hrest.
  set (s2 := SConn (put_dl None (sc_conn s1)) (sc_clock s1) (sc_dialer s1)).
  assert (Hv2 : view (sc_conn s2) out rest) by exact Hv1.
  unfold refused. rewrite E. unfold serve_request. erewrite !bind_Ok by reflexivity. fold s2.
  assert (Hbad : ∀ reply s3, view (sc_conn s3) out rest → ∃ s', answer_and_close reply s3 = (Ok None, s') ∧
    c_closed (sc_conn s') = true ∧ c_out (sc_conn s') = out ++ reply).
  { intros reply s3 Hv3. destruct (answer_and_close_run reply s3 out rest Hv3) as (s' & ? & _ & ? & ?). by exists s'. }
  destruct (bool_decide (hr_Method req = MethodConnect)); [cbn [negb]|by apply Hbad].
  destruct (connect_target (hr_Host req)) as [[[t a] p]|]; [|by apply Hbad].
  rewrite <- Hd1. change (sc_dialer s1) with (sc_dialer s2).
  destruct (OpenStream t a p (sc_dialer s2)) as [[stream|e|] d] eqn:Eo.
  - intros so down Hst. destruct (relay_started s2 t a p early rest out so down stream d Hv2 Hst Eo)
      as (s' & c & st & Erun & H1 & H2 & H3). exists s', c, st, early, rest. split; [exact Erun|]. done.
  - erewrite bind_Ok by (unfold try, on_dialer, zoom; rewrite Eo; reflexivity). by apply Hbad.
  - unfold bind at 1, try, on_dialer, zoom. by rewrite Eo.
Qed.
End connection.

(** ** Concrete runs *)

(** A parser of requests of one line, a method and a host. *)
Definition line_parse (b : bytes) : parse :=
  match IndexByte b x0a with
  | None => NeedMore
  | Some i =>
      let line := take i b in
      match IndexByte line x20 with
      | None => Malformed (ErrNew "malformed HTTP request" [])
      | Some k => Parsed (mkHttp (take k line) (drop (S k) line)) (S i)
      end
  end.

Lemma IndexByte_more b more c i : IndexByte b c = Some i → IndexByte (b ++ more) c = Some i ∧ (i < length b)%nat.
Proof.
  unfold IndexByte. intros ([i' x] & Hf & ->)%fmap_Some_1. cbn [fst].
  apply list_find_Some in Hf as (Hi & -> & Hb). split; [|by eapply lookup_lt_Some].
  apply fmap_Some. exists (i', c). split; [|done]. apply list_find_Some.
  split; [by apply lookup_app_l_Some|]. split; [done|]. intros j y Hj Hlt. apply (Hb j); [|done].
  rewrite lookup_app_l in Hj; [done|]. apply lookup_lt_Some in Hi. lia.
Qed.

Definition line_HTTP : HTTP.
Proof.
  refine (Build_HTTP line_parse (λ _, Z.to_nat 4096) _ _ _).
  - intros _. change (Z.to_nat 4096) with (Z.to_nat 4096). split; [by apply Nat.leb_le|done].
  - intros b req n. unfold line_parse. destruct (IndexByte b x0a) as [i|] eqn:E; [|done].
    destruct (IndexByte_more b [] x0a i E) as [_ Hi]. destruct (IndexByte (take i b) _); [|done]. intros [= _ <-]. lia.
  - intros b more. unfold line_parse. destruct (IndexByte b x0a) as [i|] eqn:E; [|done]. intros _.
    destruct (IndexByte_more b more x0a i E) as [E' Hi]. rewrite E', take_app_le by lia. done.
Defined.

(** A dialler whose streams answer with a greeting. *)
Definition greeter : Dialer unit := λ _ _ _ d, (Ok (conn_of (str "220 hi")), d).

Definition http_client : sconn unit :=
  SConn (Conn (Reader [str "CONNECT exam"; str "ple.com:25" ++ [x0a] ++ str "EH"; str "LO x"] EOF true) [] [] None None false)
    (Clock 0 []) tt.

Lemma http_decision_witness :
  let hp := line_HTTP in let dl := greeter in
  ∃ s' c st early rest, handleConn http_client = (Ok (Some (Relay st c)), s') ∧
    early ++ rest = str "EHLO x" ∧ view st early (str "220 hi") ∧ view c established rest ∧
    ∀ k r, nsteps pstep k (Relay st c) r → ∃ sent, c_out (p_a r) = sent ∧ sent `prefix_of` str "EHLO x".
Proof.
  intros hp dl.
  assert (Hv : view (sc_conn http_client) [] (str "CONNECT example.com:25" ++ [x0a] ++ str "EHLO x")) by (split_and!; reflexivity).
  assert (Hd : delivers (sc_conn http_client)) by (repeat (apply Forall_cons; split; [done|]); apply Forall_nil; done).
  exact (http_decision (H := line_HTTP) (H0 := greeter) http_client [] _ Hv Hd [] (str "220 hi") (view_conn_of _)).
Defined.

Lemma connect_target_join_witness :
  connect_target (str "[2001:db8::1]:8443") = Some (AddrIPv6, str "2001:db8::1", 8443) ∧
  connect_target (str "[2001:db8::1]") = Some (AddrDomain, str "[2001:db8::1]", 443) ∧
  targetAddr (str "[2001:db8::1]") 443 = str "[[2001:db8::1]]:443".
Proof.
  destruct (connect_target_join (str "2001:db8::1") 8443) as (H1 & _ & H3);
    [by apply (bool_decide_eq_true_1 _); vm_compute|by apply (bool_decide_eq_true_1 _); vm_compute|lia|].
  split; [exact H1|]. apply H3. by apply (bool_decide_eq_true_1 _); vm_compute.
Defined.
