(* ===== verification/Tunnel.v ===== *)
(** [internal/tunnel/server.go] and [internal/tunnel/client.go]: what the server
    does with an accepted connection and with a stream of a session, the
    client's reconnection loop and its side of opening a stream. *)

From Stdlib Require Import Strings.Byte String ZArith Lia.
From stdpp Require Import base list gmap relations.
From S2P Require Import Prelude Encoding Io Hash Frame Connect Wire Identity Registry Auth.
From S2P Require Import Float Shaping Pipe Socks Telemetry Metrics Config.

(** ** server.go *)

Record Server := mkTunnelServer {
  ts_cfg : Config;
  ts_hmacAuth : Handshaker;
  ts_probeUpstream : bytes;
  ts_transport : bytes
}.

Definition NewServer (cfg : Config) : Server := mkTunnelServer cfg
  (Auth.New (au_PSK (sv_Auth (cf_Server cfg))))
  (sv_ProbeUpstream (cf_Server cfg))
  (tl_Fingerprint (tu_TLS (cf_Tunnel cfg))).

Definition WithTransportLabel (label : bytes) (s : Server) : Server :=
  mkTunnelServer (ts_cfg s) (ts_hmacAuth s) (ts_probeUpstream s) label.

(** The accepted connection with its environment and registry
    ([WithDeviceRegistry]), the collector ([WithTelemetry]) and the metrics. *)
Record world := World { w_host : host; w_collector : option Collector; w_met : option Metrics }.

Definition on_host {A} : M host A → M world A :=
  zoom w_host (λ h w, World h (w_collector w) (w_met w)).
Definition with_collector (f : Collector → Collector) : M world unit :=
  modify (λ w, World (w_host w) (option_map f (w_collector w)) (w_met w)).
Definition on_w_met {A} : M (option Metrics) A → M world A :=
  zoom w_met (λ m w, World (w_host w) (w_collector w) m).
Definition close_raw : M world unit :=
  on_host (modify (λ h, h_put_conn (conn_close (h_conn h)) h)).

(** [forwardToProbeUpstream]: the relay it starts; [dial] is the outcome of
    [net.DialTimeout]. *)
Definition forwardToProbeUpstream (s : Server) (dial : result conn) (clientConn : conn) : option pipe :=
  if bool_decide (ts_probeUpstream s = []) then None
  else match dial with Ok upstream => Some (Pipe.Relay clientConn upstream) | _ => None end.

(** What becomes of a connection: closed, relayed to the probe upstream, or a
    session with its record, shaping personality and parameters. *)
Inductive fate : Type :=
  | Dropped
  | Forwarded (p : pipe)
  | Served (res : ServerAuthResult) (record : option nat) (shaping : option Personality) (cfg : smuxConfig).

Section server.
Context `{Ed25519} `{JSON storeData}.

(** The part of [handleConn] after a successful handshake, up to the loop that
    accepts streams; [mux_err] is the outcome of [mux.NewServerSession]. *)
Definition serve_session (s : Server) (remote : bytes) (mux_err : option error) (result : ServerAuthResult)
    : M world fate :=
  let tc := tu_Transport (cf_Tunnel (ts_cfg s)) in
  let personality := if bool_decide (oc_Personality (tp_Obfs tc) = []) then str "relay" else oc_Personality (tp_Obfs tc) in
  let shaped := obfs_Wrap (mkObfs (oc_Enabled (tp_Obfs tc)) personality) in
  let smuxCfg := SmuxConfig (mx_MaxStreams (tp_Mux tc)) (mx_MaxFrameSize (tp_Mux tc)) (mx_ReceiveBuffer (tp_Mux tc)) in
  match mux_err with
  | Some _ => close_raw ;;; ret Dropped
  | None =>
      on_w_met RecordSessionOpen ;;;
      col <- gets w_collector ;;
      match col with
      | None => ret (Served result None shaped smuxCfg)
      | Some c =>
          deviceID <- lift (match ar_DevicePub result with Some pub => slice pub 0 3 | None => Ok [] end) ;;
          now <- on_host h_now ;;
          let '(rec, c') := OpenSession now (ar_SessionID result) deviceID [] remote (ts_transport s)
                              (str (ar_Mode result)) c in
          modify (λ w, World (w_host w) (Some c') (w_met w)) ;;;
          ret (Served result (Some rec) shaped smuxCfg)
      end
  end.

Definition handleConn (s : Server) (remote : bytes) (dial : result conn) (mux_err : option error) : M world fate :=
  on_host (deadline_in put_dl 15) ;;;
  r <- try (on_host (ServerDispatch (ts_hmacAuth s))) ;;
  on_host (deadline_clear put_dl) ;;;
  match r with
  | inl result => serve_session s remote mux_err result
  | inr e =>
      if IsAuthFailed e then
        on_w_met RecordAuthFailure ;;;
        now <- on_host h_now ;;
        with_collector (RecordProbe now remote (str "auth_failed")) ;;;
        clientConn <- gets (λ w, h_conn (w_host w)) ;;
        match forwardToProbeUpstream s dial clientConn with
        | Some p => ret (Forwarded p)
        | None => close_raw ;;; ret Dropped
        end
      else close_raw ;;; ret Dropped
  end.
End server.

(** ** Streams *)

Record stream_state := SStream { st_conn : conn; st_clock : clock; st_met : option Metrics }.
Definition on_stream {A} : M conn A → M stream_state A := zoom st_conn (λ c s, SStream c (st_clock s) (st_met s)).
Definition on_stream_clock {A} : M clock A → M stream_state A :=
  zoom st_clock (λ k s, SStream (st_conn s) k (st_met s)).
Definition on_stream_met {A} : M (option Metrics) A → M stream_state A :=
  zoom st_met (λ m s, SStream (st_conn s) (st_clock s) m).

(** The deferred calls of [handleStream], last first. *)
Definition stream_done : M stream_state unit :=
  on_stream_met RecordStreamClose ;;; on_stream (modify conn_close).

(** [handleStream], with the outcome of dialling each target, up to the relay
    (after which [stream_done] runs). *)
Definition handleStream `{Prometheus} (dial : bytes → result conn) : M stream_state (option pipe) :=
  on_stream_met RecordStreamOpen ;;;
  now <- on_stream_clock time_Now ;;
  on_stream (modify (put_dl (Some (now + 10 * second)))) ;;;
  r <- try (on_stream readConnectRequest) ;;
  on_stream (modify (put_dl None)) ;;;
  match r with
  | inr _ => stream_done ;;; ret None
  | inl (addrType, addr, port) =>
      t <- try (lift (dial (targetAddr addr port))) ;;
      match t with
      | inr _ => ignore (on_stream (writeConnectResponse false)) ;;; stream_done ;;; ret None
      | inl tconn =>
          r <- try (on_stream (writeConnectResponse true)) ;;
          match r with
          | inr _ => stream_done ;;; ret None
          | inl _ => on_stream_met (RecordDial addr port) ;;; c <- gets st_conn ;; ret (Some (Pipe.Relay c tconn))
          end
      end
  end.

(** ** client.go: opening a stream

    A session as the client sees it: closed or not, and what its next
    [OpenStream] calls return. *)
Record msess := MSess { ms_closed : bool; ms_streams : list (result conn) }.

(** What a waiting [OpenStream] call meets: its context is cancelled, or it is
    woken (by a new session or after 100 ms) and finds the session as it then
    is.  An exhausted script is a cancelled context. *)
Inductive wait_event : Type := WCancelled | WWoken (s : option msess).

Record tclient := TClient { tc_session : option msess; tc_events : list wait_event; tc_met : option Metrics }.
Definition on_tc_met {A} : M (option Metrics) A → M tclient A :=
  zoom tc_met (λ m c, TClient (tc_session c) (tc_events c) m).

Definition ErrCanceled : error := ErrSentinel "context canceled".

Definition usable (s : option msess) : bool :=
  match s with Some m => negb (ms_closed m) | None => false end.

Fixpoint wait_loop (evs : list wait_event) (s : option msess) : result unit * option msess * list wait_event :=
  if usable s then (Ok tt, s, evs) else
  match evs with
  | WWoken s' :: evs' => wait_loop evs' s'
  | WCancelled :: evs' => (Err ErrCanceled, s, evs')
  | [] => (Err ErrCanceled, s, [])
  end.

Definition waitSession : M tclient unit := λ c,
  match wait_loop (tc_events c) (tc_session c) with (r, s, evs) => (r, TClient s evs (tc_met c)) end.

(** [sess.OpenStream()] on the session that was found. *)
Definition session_OpenStream : M tclient conn := λ c,
  match tc_session c with
  | Some (MSess cl (r :: rs)) => (r, TClient (Some (MSess cl rs)) (tc_events c) (tc_met c))
  | _ => (Err (ErrSentinel "io: read/write on closed pipe"), c)
  end.

(** The two halves of the CONNECT exchange on the new stream, which is closed
    and dropped when either fails. *)
Definition connect_exchange (addrType : AddrType) (addr : bytes) (port : Z) : M conn unit :=
  wrap "tunnel: write connect request" (writeConnectRequest addrType addr port) ;;;
  readConnectResponse.

Definition client_OpenStream (addrType : AddrType) (addr : bytes) (port : Z) : M tclient conn :=
  waitSession ;;;
  stream <- wrap "tunnel: open stream" session_OpenStream ;;
  match connect_exchange addrType addr port stream with
  | (Ok _, stream') => on_tc_met RecordStreamOpen ;;; ret stream'
  | (Err e, _) => fail e
  | (Panic, _) => panic
  end.

#[global] Instance tunnel_dialer : Dialer tclient := client_OpenStream.

(** ** client.go: the reconnection loop *)

Definition jitter (d : Z) : M mrand Z :=
  if d <=? 0 then ret 0 else rand_Int63n (Z.quot d 4).

(** One turn of the loop, by what happens in it: [connect] fails, with the
    context cancelled ([CFailDone]) or cancelled during the wait
    ([CFailWaitDone]); or it succeeds and the session later ends. *)
Inductive turn : Type := CFail | CFailDone | CFailWaitDone | CUp.

(** What the loop does. *)
Inductive run_action : Type := Dialed | Waited (d : Z) | Connected | GaveUp | Stopped.

(** The loop's random source and metrics; [connect] counts its success. *)
Record looper := Looper { lp_rand : mrand; lp_met : option Metrics }.
Definition on_lp_rand {A} : M mrand A → M looper A := zoom lp_rand (λ r l, Looper r (lp_met l)).
Definition on_lp_met {A} : M (option Metrics) A → M looper A := zoom lp_met (λ m l, Looper (lp_rand l) m).

Section run.
Context `{Prometheus}.
Variable rc : ReconnectCfg.

Definition next_backoff (backoff : Z) : Z :=
  Z_of_float (fmin (float_of_Z (rc_MaxDelay rc)) (fmul (float_of_Z backoff) (rc_Multiplier rc))).

Definition gives_up (attempt : Z) : bool := (rc_MaxRetries rc >=? 0) && (attempt >=? rc_MaxRetries rc).

Fixpoint Run_loop (script : list turn) (backoff attempt : Z) : M looper (list run_action) :=
  match script with
  | [] => ret []
  | CFailDone :: _ => ret [Dialed; Stopped]
  | CUp :: rest =>
      on_lp_met RecordConnect ;;;
      l <- Run_loop rest (rc_BaseDelay rc) 0 ;; ret (Dialed :: Connected :: l)
  | CFailWaitDone :: _ =>
      on_lp_met RecordReconnect ;;;
      if gives_up attempt then ret [Dialed; GaveUp] else
      on_lp_rand (jitter backoff) ;;; ret [Dialed; Stopped]
  | CFail :: rest =>
      on_lp_met RecordReconnect ;;;
      if gives_up attempt then ret [Dialed; GaveUp] else
      j <- on_lp_rand (jitter backoff) ;;
      l <- Run_loop rest (next_backoff backoff) (attempt + 1) ;;
      ret (Dialed :: Waited (backoff + j) :: l)
  end.

Definition Run (script : list turn) : M looper (list run_action) := Run_loop script (rc_BaseDelay rc) 0.
End run.

(** ** The server's doors *)

Section doors.
Context `{Ed25519} `{JSON storeData}.

(** C6. The pre-shared key is all there is.  Whatever the configuration of the
    server, a client whose configured key is the server's [server.auth.psk] (with
    clocks in the same bucket, or the server in the next) logs in: there is an
    exchange in which the server's dispatch accepts it as an HMAC client.  A
    configuration that validates with an identity key alone has the empty key, so
    there a client that knows nothing logs in. *)
Theorem psk_login ccfg scfg hc hs :
  au_PSK (tu_Auth (cf_Tunnel ccfg)) = au_PSK (sv_Auth (cf_Server scfg)) →
  (16 <= length (flatten (s_rand (h_sys hc))))%nat →
  (16 <= length (flatten (s_rand (h_sys hs))))%nat →
  (∀ tc ts, tc ∈ clock_readings (s_clock (h_sys hc)) → ts ∈ clock_readings (s_clock (h_sys hs)) →
     30 * second <= ts ∧ bucket tc <= bucket ts <= bucket tc + 1) →
  ∃ sid hc' hs', length sid = 16%nat ∧
    exchange (ClientHandshake (Auth.New (au_PSK (tu_Auth (cf_Tunnel ccfg)))))
             (ServerDispatch (ts_hmacAuth (NewServer scfg))) hc hs
      (Ok sid) (Ok (mkAuthResult sid None "hmac")) hc' hs'.
Proof. intros ->. apply hmac_exchange. Qed.

Lemma on_host_eq {A} (m : M host A) h c k r h' : m h = (r, h') → on_host m (World h c k) = (r, World h' c k).
Proof. unfold on_host, zoom. cbn. by intros ->. Qed.

(** An unknown first byte: the probe is recorded and the rest of the connection
    relayed. *)
Lemma handleConn_unknown s remote up mux_err w out v inp :
  view (h_conn (w_host w)) out (v :: inp) →
  v ∉ [ProtocolVersion; MsgTypeDeviceAuth; MsgTypeBootstrap] → ts_probeUpstream s ≠ [] → is_Some (w_met w) →
  ∃ now c w', handleConn s remote (Ok up) mux_err w = (Ok (Forwarded (Pipe.Relay c up)), w') ∧
    view c out inp ∧ h_reg (w_host w') = h_reg (w_host w) ∧
    w_collector w' = option_map (RecordProbe now remote (str "auth_failed")) (w_collector w).
Proof.
  intros Hv Hn Hp [mt Hmt]. destruct w as [h col km]. cbn [w_host w_collector w_met] in *. subst km.
  unfold handleConn.
  destruct (deadline_in_run put_dl 15 h _ _ (view_put_dl _ _) Hv) as (h1 & E1 & V1 & Q1).
  erewrite bind_Ok by (apply on_host_eq; exact E1).
  destruct (ServerDispatch_run (ts_hmacAuth s) h1 _ v inp V1) as (h2 & E2 & V2 & Q2).
  assert (E2' : ServerDispatch (ts_hmacAuth s) h1 = (Err errAuthFailed, h2)).
  { rewrite E2. unfold dispatch_on. rewrite !not_elem_of_cons in Hn. destruct Hn as (N1 & N2 & N3 & _).
    by rewrite !bool_decide_false by done. }
  erewrite bind_Ok by (unfold try; rewrite (on_host_eq _ _ _ _ _ _ E2'); reflexivity).
  destruct (deadline_clear_run put_dl h2 _ _ (view_put_dl _ _) V2) as (h3 & E3 & V3 & Q3).
  erewrite bind_Ok by (apply on_host_eq; exact E3). cbn iota.
  change (IsAuthFailed errAuthFailed) with true. cbn iota. erewrite bind_Ok by reflexivity. cbn [w_host w_collector w_met].
  destruct (h_now_run h3 _ _ V3) as (now & h4 & E4 & _ & V4 & Q4).
  erewrite bind_Ok by (apply on_host_eq; exact E4).
  erewrite bind_Ok by reflexivity. erewrite bind_Ok by reflexivity. cbn [w_host w_collector w_met].
  unfold forwardToProbeUpstream. rewrite bool_decide_false by done.
  exists now, (h_conn h4). eexists. split; [reflexivity|]. split; [exact V4|]. split; [|done].
  cbn. assert (Hall : hstep h h4) by hchain. apply Hall.
Qed.

(** C18. What an active prober's server sees.  A connection whose first byte is
    none of the protocol's versions is relayed to the probe upstream, and
    recorded as a probe, but without that byte: in every run of the relay the
    upstream is sent a prefix of the rest of the connection, and is never sent
    the byte string the prober sent. *)
Theorem probe_loses_first_byte s remote up mux_err w out v inp :
  view (h_conn (w_host w)) out (v :: inp) → view up [] (flatten (c_rd up)) →
  v ∉ [ProtocolVersion; MsgTypeDeviceAuth; MsgTypeBootstrap] → ts_probeUpstream s ≠ [] → is_Some (w_met w) →
  ∃ c w' now, handleConn s remote (Ok up) mux_err w = (Ok (Forwarded (Pipe.Relay c up)), w') ∧
    w_collector w' = option_map (RecordProbe now remote (str "auth_failed")) (w_collector w) ∧
    (∀ n p, nsteps pstep n (Pipe.Relay c up) p →
       c_out (p_b p) `prefix_of` inp ∧ c_out (p_b p) ≠ v :: inp).
Proof.
  intros Hv (Huc & _ & Huo & _) Hn Hp Hm.
  destruct (handleConn_unknown s remote up mux_err w out v inp Hv Hn Hp Hm) as (now & c & w' & E & Vc & _ & Hcol).
  exists c, w', now. split; [done|]. split; [done|]. intros n p Hrun. destruct Vc as (Hcc & _ & _ & Hci).
  assert (Hi : pipe_inv c up false p)
    by (eapply nsteps_pipe_inv; [exact Hrun|by apply Relay_inv]).
  destruct (dir_inv_prefix _ _ _ _ _ _ (i_ab _ _ _ _ Hi)) as (wb & -> & Hpre & _).
  rewrite Huo, Hci in *. cbn [app]. split; [done|].
  intros ->. apply prefix_length in Hpre. cbn in Hpre. lia.
Qed.
End doors.

(** ** A proxied connection, end to end *)

Section proxied.
Context `{Prometheus}.

Lemma writeConnectRequest_run t a p c out inp :
  view c out inp → len a <= 255 →
  ∃ c', writeConnectRequest t a p c = (Ok tt, c') ∧ view c' (out ++ connect_bytes t a p) inp.
Proof.
  intros Hv Ha. rewrite writeConnectRequest_bytes.
  case_bool; [lia|]. by apply view_write.
Qed.

Lemma readConnectRequest_run t a p c out rest :
  view c out (connect_bytes t a p ++ rest) → 1 <= len a <= 255 → 0 <= p < 65536 →
  ∃ c', readConnectRequest c = (Ok (t, a, p), c') ∧ view c' out rest.
Proof.
  intros Hv Ha Hp. unfold connect_bytes in Hv. rewrite <- !app_assoc in Hv.
  destruct (view_read_app 2 c out [t; byte_of_Z (len a)] (a ++ be_put 2 p ++ rest) Hv eq_refl) as (c1 & E1 & V1).
  unfold readConnectRequest. erewrite bind_Ok by (apply wrap_Ok; exact E1). cbn [nth].
  rewrite Z_of_byte_of_Z, Z.mod_small by lia.
  replace (Z.to_nat (len a)) with (length a) by (unfold len; lia).
  rewrite (proj2 (Nat.eqb_neq _ _)) by (unfold len in *; lia).
  rewrite app_assoc in V1.
  destruct (view_read_app (length a + 2) c1 out (a ++ be_put 2 p) rest V1) as (c2 & E2 & V2);
    [by rewrite length_app, length_be_put|].
  erewrite bind_Ok by (apply wrap_Ok; exact E2). exists c2. split; [|done].
  rewrite take_app_length, drop_app_length, be_get_put_small by done. done.
Qed.

Lemma readConnectResponse_run (b : bool) c out inp :
  view c out ((if b then connectOK else connectFail) :: inp) →
  ∃ c', snd (readConnectResponse c) = c' ∧ view c' out inp ∧
    if b then fst (readConnectResponse c) = Ok tt else ∃ e, fst (readConnectResponse c) = Err e.
Proof.
  intros Hv. destruct (view_read_app 1 c out [if b then connectOK else connectFail] inp Hv eq_refl) as (c1 & E1 & V1).
  exists c1. unfold readConnectResponse. erewrite bind_Ok by (apply wrap_Ok; exact E1).
  by destruct b; cbn [nth]; [rewrite decide_True by done|rewrite decide_False by done; eauto].
Qed.

(** The target of a SOCKS5 request always fits a CONNECT request. *)
Lemma dest_spec_bounds atyp rest t a rest' : dest_spec atyp rest = Some (t, a, rest') → len a <= 255.
Proof.
  unfold dest_spec. intros Hs.
  destruct (bool_decide (atyp = atypIPv4)).
  { destruct (4 <=? length rest)%nat; [|done]. injection Hs as <- <- <-.
    pose proof (length_IP_String (take 4 rest)). unfold len. lia. }
  destruct (bool_decide (atyp = atypDomain)).
  { destruct rest as [|n l]; [done|]. destruct (Nat.leb_spec (Z.to_nat (Z_of_byte n)) (length l)); [|done].
    injection Hs as <- <- <-. pose proof (Z_of_byte_range n). unfold id, len. rewrite length_take. lia. }
  destruct (bool_decide (atyp = atypIPv6)); [|done].
  destruct (16 <=? length rest)%nat; [|done]. injection Hs as <- <- <-.
  pose proof (length_IP_String (take 16 rest)). unfold len. lia.
Qed.

Lemma handshake_spec_bounds inp t a p data :
  snd (handshake_spec inp) = Some (t, a, p, data) → len a <= 255 ∧ 0 <= p < 65536.
Proof.
  unfold handshake_spec. destruct (greeting_spec inp) as [reply [rest|]]; [|done]. cbn [snd].
  unfold request_spec. destruct rest as [|v [|c [|z [|atyp rest]]]]; try done.
  destruct (_ && _); [|done]. destruct (dest_spec atyp rest) as [[[t' a'] rest']|] eqn:Ed; [|done].
  destruct (Nat.leb_spec 2 (length rest')); [|done]. intros [= <- <- <- <-].
  split; [by eapply dest_spec_bounds|].
  pose proof (be_get_range (take 2 rest')) as Hr. unfold len in Hr. rewrite length_take in Hr.
  replace (Init.Nat.min 2 (length rest')) with 2%nat in Hr by lia. change (256 ^ Z.of_nat 2) with 65536 in Hr. lia.
Qed.

(** The client's side of opening a stream on a live session. *)
Lemma client_OpenStream_run t a p stream rs evs mt (b : bool) down :
  view stream [] ((if b then connectOK else connectFail) :: down) → len a <= 255 →
  ∃ r mt', client_OpenStream t a p (TClient (Some (MSess false (Ok stream :: rs))) evs (Some mt)) =
      (r, TClient (Some (MSess false rs)) evs (Some mt')) ∧
    if b then ∃ st, r = Ok st ∧ view st (connect_bytes t a p) down else ∃ e, r = Err e.
Proof.
  intros Hv Ha. unfold client_OpenStream.
  erewrite bind_Ok by (unfold waitSession; cbn; destruct evs; reflexivity).
  erewrite bind_Ok by (apply wrap_Ok; reflexivity).
  destruct (writeConnectRequest_run t a p stream [] _ Hv Ha) as (c1 & E1 & V1).
  destruct (readConnectResponse_run b c1 _ down V1) as (c2 & E2 & V2 & Hr).
  unfold connect_exchange. erewrite bind_Ok by (apply wrap_Ok; exact E1).
  destruct (readConnectResponse c1) as [r c2']. cbn [fst snd] in *. subst c2'.
  destruct b; [subst r|destruct Hr as [e ->]]; do 2 eexists; (split; [reflexivity|]); eauto.
Qed.

(** A stream opened and closed leaves the gauge as it was. *)
Lemma opened_closed mt :
  streams_active (mkMet (m_events (mkMet (m_events mt ++ [Inc "daxson_streams_active" []]))
    ++ [Dec "daxson_streams_active"])) = streams_active mt.
Proof. unfold streams_active. cbn [m_events]. rewrite !gauge_app. destruct mt. cbn. lia. Qed.

(** The server's side of a stream. *)
Lemma handleStream_run dial t a p k mt c out up :
  view c out (connect_bytes t a p ++ up) → 1 <= len a <= 255 → 0 <= p < 65536 →
  match dial (targetAddr a p) with
  | Ok tconn =>
      if prom_accepts (dial_label a p) then
        ∃ s' st, handleStream dial (SStream c k (Some mt)) = (Ok (Some (Pipe.Relay st tconn)), s') ∧
          view st (out ++ [connectOK]) up
      else fst (handleStream dial (SStream c k (Some mt))) = Panic
  | Err _ => ∃ s', handleStream dial (SStream c k (Some mt)) = (Ok None, s') ∧
      c_closed (st_conn s') = true ∧ c_out (st_conn s') = out ++ [connectFail] ∧
      streams_active <$> st_met s' = Some (streams_active mt)
  | Panic => fst (handleStream dial (SStream c k (Some mt))) = Panic
  end.
Proof.
  intros Hv Ha Hp. destruct (time_Now_ok k) as (now & k' & Hnow). unfold handleStream.
  erewrite bind_Ok by reflexivity. cbn [st_conn st_clock st_met].
  erewrite bind_Ok by (unfold on_stream_clock, zoom; cbn [st_clock]; rewrite Hnow; reflexivity).
  erewrite bind_Ok by reflexivity. cbn [st_conn st_clock st_met].
  destruct (readConnectRequest_run t a p (put_dl (Some (now + 10 * second)) c) out up Hv Ha Hp) as (c1 & E1 & V1).
  erewrite bind_Ok by (unfold try, on_stream, zoom; cbn [st_conn st_clock st_met]; rewrite E1; reflexivity).
  erewrite bind_Ok by reflexivity. cbn [st_conn st_clock st_met].
  set (c2 := put_dl None c1). assert (V2 : view c2 out up) by done.
  destruct (view_write [connectOK] c2 out up V2) as (c3 & E3 & V3).
  destruct (view_write [connectFail] c2 out up V2) as (c4 & E4 & V4).
  assert (W : ∀ ok, writeConnectResponse ok c2 = (Ok tt, if ok then c3 else c4)) by (by intros []).
  destruct (dial (targetAddr a p)) as [tconn|e|].
  - erewrite bind_Ok by reflexivity. cbn iota.
    erewrite bind_Ok by (unfold try, on_stream, zoom; cbn [st_conn st_met]; fold c2; rewrite W; reflexivity).
    unfold on_stream_met, RecordDial, inc_label, zoom. unfold bind at 1. cbn [st_met].
    destruct (prom_accepts (dial_label a p)); [|reflexivity].
    do 2 eexists. split; [reflexivity|exact V3].
  - erewrite bind_Ok by reflexivity. cbn iota.
    erewrite bind_Ok by (unfold ignore, try, bind, on_stream, zoom; cbn [st_conn st_met]; fold c2; rewrite W; reflexivity).
    eexists. split; [reflexivity|]. split; [done|]. split; [apply V4|].
    apply (f_equal Some). apply opened_closed.
  - reflexivity.
Qed.

(** C23. A stream that takes the server down.  A well-formed CONNECT request makes
    the stream's goroutine panic, and with it the server, exactly when the dial
    of the target succeeds and Prometheus refuses the target's label, which it does
    exactly when the label (the first 64 bytes of the address and port) is not
    valid UTF-8; the addresses of a request are arbitrary bytes. *)
Theorem dial_crash dial t a p k mt c up :
  view c [] (connect_bytes t a p ++ up) → 1 <= len a <= 255 → 0 <= p < 65536 →
  is_panic (dial (targetAddr a p)) = false →
  (fst (handleStream dial (SStream c k (Some mt))) = Panic ↔
     is_ok (dial (targetAddr a p)) = true ∧ prom_accepts (dial_label a p) = false) ∧
  (fst (handleStream dial (SStream c k (Some mt))) = Panic ↔
     is_ok (dial (targetAddr a p)) = true ∧ utf8_valid (dial_label a p) = false).
Proof.
  intros Hv Ha Hp Hnp. pose proof (handleStream_run dial t a p k mt c [] up Hv Ha Hp) as Hrun.
  rewrite <- (prom_valid (dial_label a p)).
  cut (fst (handleStream dial (SStream c k (Some mt))) = Panic ↔
    is_ok (dial (targetAddr a p)) = true ∧ prom_accepts (dial_label a p) = false); [done|].
  destruct (dial (targetAddr a p)) as [tconn|e|]; [| |done]; cbn [is_ok].
  - destruct (prom_accepts _); [|by rewrite Hrun].
    destruct Hrun as (s' & st & -> & _). cbn. split; [done|by intros []].
  - destruct Hrun as (s' & -> & _). cbn. split; [done|by intros []].
Qed.

(** What the server answers to a request, by the outcome of its dial. *)
Definition answer (dialled : result conn) : byte := if is_ok dialled then connectOK else connectFail.

(** C3. A proxied connection, end to end.  A SOCKS5 client asks for a target; the
    tunnel client has a live session whose next stream leads to a server, which
    answers as its dial of the target comes out.  The bytes [q] that the tunnel
    client writes on the stream make the server dial exactly the requested
    address and port.  If the target answers, both sides start relaying: the
    SOCKS5 client has been sent its success reply, the server's stream holds
    nothing but the answer, and no byte sent early by the client, the target or
    the stream is lost.  If not, the SOCKS5 client is sent a general failure and
    both connections are closed.  (The metrics must accept the target as a label:
    otherwise the server panics, see [dial_crash].) *)
Theorem proxied_connection s out inp t a p data stream rs evs mt down dial :
  view (sc_conn s) out inp → snd (handshake_spec inp) = Some (t, a, p, data) → a ≠ [] →
  sc_dialer s = TClient (Some (MSess false (Ok stream :: rs))) evs (Some mt) →
  is_panic (dial (targetAddr a p)) = false → prom_accepts (dial_label a p) = true →
  view stream [] (answer (dial (targetAddr a p)) :: down) →
  ∃ q, (∃ stream', writeConnectRequest t a p stream = (Ok tt, stream') ∧ c_out stream' = q) ∧
  let reply := fst (handshake_spec inp) in
  match dial (targetAddr a p) with
  | Ok tconn =>
      (∃ s' c st, Socks.handleConn s = (Ok (Some (Pipe.Relay st c)), s') ∧
         view c (out ++ reply ++ reply_bytes repSuccess) data ∧ view st q down) ∧
      (∀ ss k mt up, view ss [] (q ++ up) →
         ∃ s' st, handleStream dial (SStream ss k (Some mt)) = (Ok (Some (Pipe.Relay st tconn)), s') ∧
           view st [connectOK] up)
  | _ =>
      (∃ s', Socks.handleConn s = (Ok None, s') ∧ c_closed (sc_conn s') = true ∧
         c_out (sc_conn s') = out ++ reply ++ reply_bytes repGeneralFailure) ∧
      (∀ ss k mt up, view ss [] (q ++ up) →
         ∃ s', handleStream dial (SStream ss k (Some mt)) = (Ok None, s') ∧ c_closed (st_conn s') = true ∧
           c_out (st_conn s') = [connectFail] ∧ streams_active <$> st_met s' = Some (streams_active mt))
  end.
Proof.
  intros Hv Hspec Ha Hd Hnp Hlab Hst.
  destruct (handshake_spec_bounds _ _ _ _ _ Hspec) as [Hlen Hport].
  assert (Hlen1 : 1 <= len a <= 255) by (destruct a; [done|]; unfold len in *; cbn in *; lia).
  destruct (handshake_run s out inp Hv) as (s1 & Hs1 & Hd1 & _ & Hm).
  rewrite Hspec in Hm. destruct Hm as [Hok Hv1].
  assert (E : Socks.handleConn s = dial_and_reply t a p s1).
  { unfold Socks.handleConn, try, bind. rewrite (surjective_pairing (handshake s)), Hok, Hs1. done. }
  exists (connect_bytes t a p). split.
  { destruct (writeConnectRequest_run t a p stream [] _ Hst Hlen) as (c' & Hw & Hv').
    exists c'. split; [done|apply Hv']. }
  destruct (client_OpenStream_run t a p stream rs evs mt (is_ok (dial (targetAddr a p))) down Hst Hlen)
    as (r & mt' & Hopen & Hr).
  pose proof (dial_run s1 t a p _ _ Hv1) as Hdial.
  rewrite Hd1, Hd in Hdial. change OpenStream with client_OpenStream in Hdial. rewrite Hopen in Hdial.
  pose proof (λ ss k mt up Hvs, handleStream_run dial t a p k mt ss [] up Hvs Hlen1 Hport) as Hserver.
  rewrite Hlab in Hserver.
  cbv zeta. rewrite E. destruct (dial (targetAddr a p)) as [tconn|e|]; [| |done]; cbn [is_ok] in Hr.
  - destruct Hr as (st & -> & Hvst). destruct Hdial as (s' & c & Hrun & _ & Hvc).
    split; [|exact Hserver]. exists s', c, st. by rewrite app_assoc.
  - destruct Hr as (e' & ->). destruct Hdial as (s' & Hrun & _ & Hcl & Hout).
    split; [|exact Hserver]. exists s'. by rewrite app_assoc.
Qed.

End proxied.

(** ** Reconnection *)

Section reconnection.
Context `{Prometheus} (rc : ReconnectCfg).

(** The backoff before the [i]-th wait of a series of failures. *)
Definition backoff_at (i : nat) : Z := Nat.iter i (next_backoff rc) (rc_BaseDelay rc).

(** A wait is the backoff and less than a quarter of it more. *)
Definition wait_ok (b w : Z) : Prop := b <= w /\ (w = b \/ 4 * (w - b) < b).

(** The actions of a series of failed turns with these waits. *)
Definition failures (ws : list Z) : list run_action := concat (map (λ w, [Dialed; Waited w]) ws).

Lemma jitter_run d r :
  d <= 0 ∨ 4 <= d → ∃ j r', jitter d r = (Ok j, r') ∧ wait_ok d (d + j).
Proof.
  intros Hd. unfold jitter, wait_ok. case_bool; [exists 0, r; split; [done|lia]|].
  assert (Hq : 1 <= Z.quot d 4) by (apply Z.quot_le_lower_bound; lia).
  unfold rand_Int63n. rewrite (proj2 (Z.leb_gt _ _)) by lia.
  do 2 eexists. split; [reflexivity|].
  pose proof (Z.mod_pos_bound (mr_int63 r (mr_pos r)) (Z.quot d 4)) as Hm.
  pose proof (Z.mul_quot_le d 4). lia.
Qed.

(** What a failed turn adds to the metrics: it is counted as a reconnection. *)
Definition counted (k : nat) (mt : Metrics) : Metrics :=
  mkMet (m_events mt ++ replicate k (Inc "daxson_reconnects_total" [])).

Lemma counted_S k mt : counted k (mkMet (m_events mt ++ [Inc "daxson_reconnects_total" []])) = counted (S k) mt.
Proof. unfold counted. cbn [m_events]. by rewrite <- app_assoc. Qed.

(** A series of failures within the limit is waited out, backoff by backoff. *)
Lemma Run_failures rest k i r mt :
  (∀ j, backoff_at j <= 0 ∨ 4 <= backoff_at j) →
  (rc_MaxRetries rc < 0 ∨ Z.of_nat (i + k) <= rc_MaxRetries rc) →
  ∃ ws r', length ws = k ∧ (∀ j w, ws !! j = Some w → wait_ok (backoff_at (i + j)) w) ∧
    Run_loop rc (replicate k CFail ++ rest) (backoff_at i) (Z.of_nat i) (Looper r (Some mt)) =
      (l <- Run_loop rc rest (backoff_at (i + k)) (Z.of_nat (i + k)) ;; ret (failures ws ++ l))
        (Looper r' (Some (counted k mt))).
Proof.
  intros Hpos. revert i r mt. induction k as [|k IH]; intros i r mt Hm.
  - exists [], r. rewrite Nat.add_0_r. split; [done|]. split; [intros ??; by rewrite lookup_nil|].
    cbn [replicate app failures map concat]. unfold bind, counted. cbn [replicate]. rewrite app_nil_r.
    destruct mt. by destruct (Run_loop rc rest _ _ _) as [[]].
  - destruct (jitter_run (backoff_at i) r (Hpos i)) as (j & r1 & Hj & Hw).
    destruct (IH (S i) r1 (mkMet (m_events mt ++ [Inc "daxson_reconnects_total" []]))) as (ws & r2 & Hl & Hws & Hrun);
      [lia|].
    exists ((backoff_at i + j) :: ws), r2. split; [by cbn; rewrite Hl|]. split.
    + intros [|j'] w; cbn; [intros [= <-]; by rewrite Nat.add_0_r|].
      intros Hw'. rewrite <- Nat.add_succ_comm. by apply Hws.
    + cbn [replicate app Run_loop]. erewrite bind_Ok by reflexivity. cbn [lp_rand lp_met].
      replace (gives_up rc (Z.of_nat i)) with false
        by (unfold gives_up; symmetry; rewrite andb_false_iff, !Z.geb_leb, !Z.leb_gt; lia).
      erewrite bind_Ok by (unfold on_lp_rand, zoom; cbn [lp_rand]; rewrite Hj; reflexivity). cbn [lp_met].
      change (next_backoff rc (backoff_at i)) with (backoff_at (S i)).
      replace (Z.of_nat i + 1) with (Z.of_nat (S i)) by lia.
      replace (i + S k)%nat with (S i + k)%nat by lia.
      unfold bind at 1. rewrite Hrun, counted_S. unfold bind, ret.
      by destruct (Run_loop rc rest _ _ _) as [[]].
Qed.

Definition no_GaveUp (p : result (list run_action) * looper) : Prop :=
  match p with (Ok l, _) => GaveUp ∉ l | _ => True end.

Lemma no_GaveUp_bind {A} (m : M looper A) (f : A → M looper (list run_action)) r :
  (∀ a r', m r = (Ok a, r') → no_GaveUp (f a r')) → no_GaveUp (bind m f r).
Proof. unfold bind. destruct (m r) as [[a|e|] r']; [|done..]. intros Hf. by apply Hf. Qed.

Lemma never_gives_up script b i r :
  rc_MaxRetries rc < 0 → no_GaveUp (Run_loop rc script b i r).
Proof.
  intros Hm. assert (Hg : ∀ a, gives_up rc a = false)
    by (intros a; unfold gives_up; rewrite Z.geb_leb, (proj2 (Z.leb_gt _ _)); [done|lia]).
  assert (Hc : ∀ a l (m : M looper (list run_action)) r', a ≠ GaveUp → no_GaveUp (m r') →
    (∀ x, GaveUp ∉ x → GaveUp ∉ l x) → no_GaveUp ((x <- m ;; ret (a :: l x)) r')).
  { intros a l m r' Ha Hn Hl. apply no_GaveUp_bind. intros x r'' E. rewrite E in Hn. cbn.
    rewrite not_elem_of_cons. split; [congruence|]. by apply Hl. }
  revert b i r. induction script as [|[] rest IH]; intros b i r; cbn [Run_loop]; rewrite ?Hg.
  - apply not_elem_of_nil.
  - do 2 (apply no_GaveUp_bind; intros ? ? _). apply Hc; [done|apply IH|].
    intros x Hx. rewrite not_elem_of_cons. by split.
  - cbn. rewrite !not_elem_of_cons. split_and!; try done. apply not_elem_of_nil.
  - do 2 (apply no_GaveUp_bind; intros ? ? _). cbn. rewrite !not_elem_of_cons. split_and!; try done. apply not_elem_of_nil.
  - apply no_GaveUp_bind; intros ? ? _. apply Hc; [done|apply IH|].
    intros x Hx. rewrite not_elem_of_cons. by split.
Qed.

(** C28. Reconnection.  With [max_retries = m >= 0] the client gives up at exactly
    the [m+1]-st failure in a row, after [m] waits, having counted [m+1]
    reconnections; with a negative one it never gives up.  The [i]-th wait of a
    series is the base delay multiplied [i] times and capped each time, plus a
    jitter of less than a quarter; a success starts a new series at the base
    delay.  (No jitter can be drawn below a backoff of 4 ns, where the Go code
    panics; and it panics at the first outcome when it has no metrics.) *)
Theorem Run_retries r mt :
  (∀ i, backoff_at i <= 0 ∨ 4 <= backoff_at i) →
  (∀ m rest, rc_MaxRetries rc = Z.of_nat m → ∃ ws r', length ws = m ∧
     (∀ i w, ws !! i = Some w → wait_ok (backoff_at i) w) ∧
     Run rc (replicate (S m) CFail ++ rest) (Looper r (Some mt)) =
       (Ok (failures ws ++ [Dialed; GaveUp]), Looper r' (Some (counted (S m) mt)))) ∧
  (∀ k rest, rc_MaxRetries rc < 0 ∨ Z.of_nat k <= rc_MaxRetries rc → ∃ ws r' mt', length ws = k ∧
     (∀ i w, ws !! i = Some w → wait_ok (backoff_at i) w) ∧
     Run rc (replicate k CFail ++ CUp :: rest) (Looper r (Some mt)) =
       (l <- Run rc rest ;; ret (failures ws ++ Dialed :: Connected :: l)) (Looper r' (Some mt'))) ∧
  (∀ script, rc_MaxRetries rc < 0 → no_GaveUp (Run rc script (Looper r (Some mt)))) ∧
  (∀ t script, t ≠ CFailDone → fst (Run rc (t :: script) (Looper r None)) = Panic).
Proof.
  intros Hpos. split_and!.
  - intros m rest Hm. destruct (Run_failures (CFail :: rest) m 0 r mt Hpos) as (ws & r' & Hl & Hws & Hrun); [lia|].
    exists ws, r'. split; [done|]. split; [done|]. cbn [Nat.add Z.of_nat] in Hrun.
    rewrite replicate_S_end, <- app_assoc. cbn [app]. unfold Run.
    etransitivity; [exact Hrun|]. cbn [Run_loop].
    replace (gives_up rc (Z.of_nat m)) with true.
    { unfold bind at 1. erewrite bind_Ok by reflexivity. unfold counted. rewrite replicate_S_end, app_assoc. done. }
    unfold gives_up. rewrite Hm, !Z.geb_leb. symmetry. apply andb_true_iff. rewrite !Z.leb_le. lia.
  - intros k rest Hk. destruct (Run_failures (CUp :: rest) k 0 r mt Hpos) as (ws & r' & Hl & Hws & Hrun); [lia|].
    exists ws, r'. eexists. split; [done|]. split; [done|]. etransitivity; [exact Hrun|].
    cbn [Run_loop]. rewrite bind_bind. erewrite bind_Ok.
    2: { unfold on_lp_met, zoom, RecordConnect, inc_label. cbn [lp_met]. rewrite prom_ascii by done. reflexivity. }
    rewrite bind_bind. by apply bind_ext.
  - intros script Hm. by apply never_gives_up.
  - intros [] script Ht; try done. unfold Run. cbn [Run_loop]. unfold bind, on_lp_met, zoom, RecordConnect, inc_label.
    cbn [lp_met]. by destruct (prom_accepts _).
Qed.
End reconnection.

(** The default backoffs: 1, 2, 4, ..., 32, 60, 60, ... seconds. *)
Lemma default_backoff i :
  backoff_at (tu_Reconnect (cf_Tunnel Defaults)) i = Z.min (60 * second) (2 ^ Z.of_nat i * second).
Proof.
  destruct (decide (i < 6)%nat) as [Hi|Hi].
  - do 6 (destruct i as [|i]; [vm_compute; reflexivity|]). lia.
  - rewrite Z.min_l.
    2: { unfold second. pose proof (Z.pow_le_mono_r 2 6 (Z.of_nat i)) as Hp.
         change (2 ^ 6) with 64 in Hp. lia. }
    replace i with (i - 6 + 6)%nat by lia. generalize (i - 6)%nat. intros n.
    induction n as [|n IH]; [vm_compute; reflexivity|].
    change (backoff_at _ (S n + 6)) with (next_backoff (tu_Reconnect (cf_Tunnel Defaults))
      (backoff_at (tu_Reconnect (cf_Tunnel Defaults)) (n + 6))).
    rewrite IH. vm_compute. reflexivity.
Qed.

(** A base delay below 4 ns makes the loop panic at its first wait. *)
Example tiny_backoff_panics r mt :
  fst (Run (H := utf8_Prometheus) (mkReconnect true (-1) 3 (60 * second) (float_of_Z 2)) [CFail] (Looper r (Some mt))) = Panic.
Proof. reflexivity. Qed.

(** ** Concrete runs *)

(** A server configured with an identity key and no pre-shared key: it
    validates. *)
Definition identity_only : Config := mkConfig ModeServer (cf_Proxy Defaults) (cf_Tunnel Defaults)
  (Config.mkServer (str ":443") (mkTLS (str "cert.pem") (str "key.pem") [] [] false []) (mkAuth [])
     (str "127.0.0.1:80") (str "identity.json") [] (mkDashboard [] false))
  (cf_Upstream Defaults) (cf_Metrics Defaults) (cf_Logging Defaults) (cf_PProf Defaults).

Lemma psk_login_witness :
  Validate identity_only = Ok tt ∧ au_PSK (sv_Auth (cf_Server identity_only)) = [] ∧
  ∃ sid hc' hs', length sid = 16%nat ∧
    exchange (ClientHandshake (Auth.New []))
      (ServerDispatch (H := toy_Ed25519) (H0 := storeData_JSON) (ts_hmacAuth (NewServer identity_only)))
      (host_at 3000 None) (host_at 3030 None) (Ok sid) (Ok (mkAuthResult sid None "hmac")) hc' hs'.
Proof.
  split; [reflexivity|]. split; [reflexivity|].
  apply (psk_login (H := toy_Ed25519) (H0 := storeData_JSON) Defaults identity_only);
    [reflexivity|apply Nat.leb_le; reflexivity|apply Nat.leb_le; reflexivity|].
  intros tc ts Htc%reading_at Hts%reading_at. subst. vm_compute. split; [discriminate|split; discriminate].
Defined.

(** A prober asks for a page: the upstream is asked for something else. *)
Definition probed : world :=
  World (h_put_conn (conn_of (str "GET / HTTP/1.1")) (host_at 3000 None)) (Some Telemetry.New) (Some Metrics.New).

Lemma probe_loses_first_byte_witness :
  view (h_conn (w_host probed)) [] (str "GET / HTTP/1.1") ∧
  ∃ c w' now, handleConn (H := toy_Ed25519) (H0 := storeData_JSON) (NewServer identity_only) (str "1.2.3.4:5")
      (Ok (conn_of (str "HTTP/1.1 400"))) None probed = (Ok (Forwarded (Pipe.Relay c (conn_of (str "HTTP/1.1 400")))), w') ∧
    w_collector w' = Some (RecordProbe now (str "1.2.3.4:5") (str "auth_failed") Telemetry.New) ∧
    ∀ n p, nsteps pstep n (Pipe.Relay c (conn_of (str "HTTP/1.1 400"))) p →
      c_out (p_b p) `prefix_of` str "ET / HTTP/1.1" ∧ c_out (p_b p) ≠ str "GET / HTTP/1.1".
Proof.
  split; [apply view_conn_of|].
  apply (probe_loses_first_byte (H := toy_Ed25519) (H0 := storeData_JSON) (NewServer identity_only)
    (str "1.2.3.4:5") (conn_of (str "HTTP/1.1 400")) None probed [] x47 (str "ET / HTTP/1.1")).
  - apply view_conn_of.
  - repeat split.
  - rewrite !not_elem_of_cons. split_and!; try done. apply not_elem_of_nil.
  - done.
  - by eexists.
Defined.

Definition tunnel_state : sconn tclient :=
  SConn (conn_of socks_input) (Clock 0 [])
    (TClient (Some (MSess false [Ok (conn_of (connectOK :: str "HTTP/1.1 200"))])) [] (Some Metrics.New)).
Definition dial_ok : bytes → result conn := λ _, Ok (conn_of (str "HTTP/1.1 200")).

Lemma proxied_connection_witness :
  let ht := utf8_Prometheus in
  ∃ q, (∃ stream', writeConnectRequest AddrDomain (str "example.com") 80
          (conn_of (connectOK :: str "HTTP/1.1 200")) = (Ok tt, stream') ∧ c_out stream' = q) ∧
  (∃ s' c st, Socks.handleConn tunnel_state = (Ok (Some (Pipe.Relay st c)), s') ∧
     view c ([x05; x00] ++ reply_bytes repSuccess) (str "GET /") ∧ view st q (str "HTTP/1.1 200")) ∧
  (∀ ss k mt up, view ss [] (q ++ up) →
     ∃ s' st, handleStream dial_ok (SStream ss k (Some mt)) = (Ok (Some (Pipe.Relay st (conn_of (str "HTTP/1.1 200")))), s') ∧
       view st [connectOK] up).
Proof.
  intros ht.
  exact (proxied_connection tunnel_state [] socks_input AddrDomain (str "example.com") 80 (str "GET /")
    (conn_of (connectOK :: str "HTTP/1.1 200")) [] [] Metrics.New (str "HTTP/1.1 200") dial_ok
    (view_conn_of socks_input) eq_refl ltac:(done) eq_refl eq_refl eq_refl (view_conn_of _)).
Defined.

(** Two retries with the default delays, and a random source of ones. *)
Definition two_retries : ReconnectCfg := mkReconnect true 2 second (60 * second) (float_of_Z 2).

Lemma Run_retries_witness :
  let ht := utf8_Prometheus in
  let r := Mrand (λ _, 1) (λ _, float_of_Z 0) 0 in
  (∀ i, backoff_at two_retries i <= 0 ∨ 4 <= backoff_at two_retries i) ∧
  ∃ ws r', length ws = 2%nat ∧ (∀ i w, ws !! i = Some w → wait_ok (backoff_at two_retries i) w) ∧
    Run two_retries (replicate 3 CFail) (Looper r (Some Metrics.New)) =
      (Ok (failures ws ++ [Dialed; GaveUp]), Looper r' (Some (counted 3 Metrics.New))).
Proof.
  intros ht r.
  assert (Hb : ∀ i, backoff_at two_retries i <= 0 ∨ 4 <= backoff_at two_retries i).
  { intros i. right. change (backoff_at two_retries i) with (backoff_at (tu_Reconnect (cf_Tunnel Defaults)) i).
    rewrite default_backoff. unfold second. pose proof (Z.pow_pos_nonneg 2 (Z.of_nat i)). lia. }
  split; [exact Hb|].
  destruct (Run_retries two_retries r Metrics.New Hb) as (Hgive & _ & _).
  exact (Hgive 2%nat [] eq_refl).
Defined.

(** A scoped address whose zone is the byte 255. *)
Definition zoned : bytes := str "::1%" ++ [xff].

Lemma dial_crash_witness :
  let ht := utf8_Prometheus in
  targetAddr zoned 80 = str "[::1%" ++ [xff] ++ str "]:80" ∧
  fst (handleStream dial_ok (SStream (conn_of (connect_bytes AddrIPv6 zoned 80)) (Clock 0 []) (Some Metrics.New))) = Panic.
Proof.
  intros ht. split; [reflexivity|].
  assert (Hv : view (conn_of (connect_bytes AddrIPv6 zoned 80)) [] (connect_bytes AddrIPv6 zoned 80 ++ []))
    by (rewrite app_nil_r; apply view_conn_of).
  destruct (dial_crash (H := utf8_Prometheus) dial_ok AddrIPv6 zoned 80 (Clock 0 []) Metrics.New
    (conn_of (connect_bytes AddrIPv6 zoned 80)) [] Hv ltac:(split; discriminate) ltac:(split; [discriminate|reflexivity])
    eq_refl) as [_ [_ Hp]].
  apply Hp. split; reflexivity.
Defined.
