(* ===== verification/Listener.v ===== *)
(** The accept loop of the tunnel server and the end of its sessions
    ([internal/tunnel/server.go]: [ListenAndServe] and the deferred calls of
    [handleConn]), over the handler of Tunnel: any number of connections share
    the registry, the collector and the metrics. *)

From Stdlib Require Import Strings.Byte String ZArith Lia.
From stdpp Require Import base list gmap.
From S2P Require Import Prelude Encoding Io Hash Frame Wire Identity Registry Auth.
From S2P Require Import Float Shaping Pipe Telemetry Metrics Config Tunnel.

Section listener.
Context `{Ed25519} `{JSON storeData} `{Prometheus}.
Variable s : Server.

(** [li_open]: the sessions that are being served, each with the key of its
    telemetry record if there is one. *)
Record listener := Listener {
  li_sys : sys; li_reg : option Registry; li_collector : option Collector; li_met : option Metrics;
  li_open : list (option bytes)
}.

(** What [Accept] returns while the context is not done, with what the handler
    of the connection will meet; a session's accept loop ends. *)
Inductive levent : Type :=
  | AcceptError
  | Accepted (c : conn) (remote : bytes) (dial : result conn) (mux_err : option error)
  | SessionEnds (i : nat).

Definition on_li_met {A} : M (option Metrics) A → M listener A :=
  zoom li_met (λ m l, Listener (li_sys l) (li_reg l) (li_collector l) m (li_open l)).
Definition put_open (o : list (option bytes)) (l : listener) : listener :=
  Listener (li_sys l) (li_reg l) (li_collector l) (li_met l) o.

(** The handler on the shared state. *)
Definition in_world {A} (c : conn) (m : M world A) : M listener A := λ l,
  let '(r, w) := m (World (Host c (li_sys l) (li_reg l)) (li_collector l) (li_met l)) in
  (r, Listener (h_sys (w_host w)) (h_reg (w_host w)) (w_collector w) (w_met w) (li_open l)).

(** The deferred calls, last first; the session and its connection are gone. *)
Definition end_session (key : option bytes) : M listener unit :=
  match key with
  | Some k => modify (λ l, Listener (li_sys l) (li_reg l) (option_map (CloseSession k) (li_collector l)) (li_met l) (li_open l))
  | None => ret tt
  end ;;;
  on_li_met RecordSessionClose.

Definition session_key (res : ServerAuthResult) (record : option nat) : option bytes :=
  match record with Some _ => Some (hex_encode (ar_SessionID res)) | None => None end.

Definition listen_event (e : levent) : M listener unit :=
  match e with
  | AcceptError => ret tt
  | Accepted c remote dial mux_err =>
      on_li_met RecordAccept ;;;
      f <- in_world c (handleConn s remote dial mux_err) ;;
      match f with
      | Served res record _ _ => modify (λ l, put_open (li_open l ++ [session_key res record]) l)
      | _ => ret tt
      end
  | SessionEnds i =>
      open <- gets li_open ;;
      match open !! i with
      | None => ret tt
      | Some key => modify (put_open (delete i open)) ;;; end_session key
      end
  end.

Definition ListenAndServe : list levent → M listener unit := each listen_event.

(** ** One connection *)

Definition opened_total : Metrics → Z := gauge "daxson_connections_total".
(** What a handler adds to the metrics: [n] sessions, no connection, no stream. *)
Definition met_step (n : Z) (mt mt' : Metrics) : Prop :=
  sessions_active mt' = sessions_active mt + n ∧ opened_total mt' = opened_total mt ∧
  streams_active mt' = streams_active mt.

Definition shown (col : option Collector) : gset bytes :=
  match col with Some c => dom (co_sessions c) | None => ∅ end.

(** What a handler leaves. *)
Definition handled (mt : Metrics) (col : option Collector) (f : fate) (w : world) : Prop :=
  ∃ mt', w_met w = Some mt' ∧
    match f with
    | Served res record _ _ =>
        met_step 1 mt mt' ∧ shown (w_collector w) = shown col ∪ (match session_key res record with Some k => {[k]} | None => ∅ end)
    | _ => met_step 0 mt mt' ∧ shown (w_collector w) = shown col
    end.

Lemma h_now_sure h : ∃ t h', h_now h = (Ok t, h').
Proof.
  unfold h_now, on_hsys, zoom. destruct (on_clock_now (h_sys h)) as (t & c' & ->). by do 2 eexists.
Qed.

Lemma deadline_in_sure set n h : ∃ h', deadline_in set n h = (Ok tt, h').
Proof. unfold deadline_in. destruct (h_now_sure h) as (t & h' & E). erewrite bind_Ok by exact E. by eexists. Qed.

Lemma met_step_app n mt e :
  sessions_active (mkMet [e]) = n → opened_total (mkMet [e]) = 0 → streams_active (mkMet [e]) = 0 →
  met_step n mt (mkMet (m_events mt ++ [e])).
Proof.
  unfold met_step, sessions_active, opened_total, streams_active. rewrite !gauge_app. destruct mt as [l]. cbn. lia.
Qed.

Lemma met_step_refl mt : met_step 0 mt mt.
Proof. unfold met_step. lia. Qed.

Lemma handled_dropped mt mt' col w :
  w_met w = Some mt' → met_step 0 mt mt' → shown (w_collector w) = shown col → handled mt col Dropped w.
Proof. intros. by exists mt'. Qed.

Lemma serve_session_run remote mux_err res h col mt :
  pub_ok res →
  ∃ f w', serve_session s remote mux_err res (World h col (Some mt)) = (Ok f, w') ∧ handled mt col f w'.
Proof.
  intros Hp. unfold serve_session. destruct mux_err as [e|].
  { do 2 eexists. split; [by erewrite bind_Ok by reflexivity|]. by eapply handled_dropped; [..|apply met_step_refl|]. }
  erewrite bind_Ok by reflexivity. erewrite bind_Ok by reflexivity. cbn [w_collector w_host w_met].
  destruct col as [c|].
  2:{ do 2 eexists. split; [reflexivity|]. eexists. split; [reflexivity|].
      split; [by apply met_step_app|]. cbn. set_solver. }
  assert (Hd : ∃ d, match ar_DevicePub res with Some pub => slice pub 0 3 | None => Ok [] end = Ok d).
  { unfold pub_ok in Hp. destruct (ar_DevicePub res) as [pub|]; [|by eexists].
    rewrite (slice_nat pub 0 3 ltac:(lia) : slice pub 0 3 = _). by eexists. }
  destruct Hd as [d ->]. erewrite bind_Ok by reflexivity.
  destruct (h_now_sure h) as (t & h' & Et). erewrite bind_Ok by (apply on_host_eq; exact Et).
  unfold OpenSession. cbn zeta iota. erewrite bind_Ok by reflexivity. cbn [w_host w_met].
  do 2 eexists. split; [reflexivity|]. eexists. split; [reflexivity|].
  split; [by apply met_step_app|]. unfold shown. cbn [w_collector co_sessions session_key se_SessionID].
  rewrite dom_insert_L. set_solver.
Qed.

Lemma handleConn_run remote dial mux_err h col mt :
  ∃ f w', handleConn s remote dial mux_err (World h col (Some mt)) = (Ok f, w') ∧ handled mt col f w'.
Proof.
  unfold handleConn. destruct (deadline_in_sure put_dl 15 h) as (h1 & E1).
  erewrite bind_Ok by (apply on_host_eq; exact E1).
  pose proof (safe_ServerDispatch (bool_decide (is_Some (h_reg h1))) (ts_hmacAuth s) h1 eq_refl) as Hs.
  destruct (ServerDispatch (ts_hmacAuth s) h1) as [[res|e|] h2] eqn:E2; [| |done];
    (erewrite bind_Ok by (unfold try; erewrite on_host_eq by exact E2; reflexivity));
    (erewrite bind_Ok by reflexivity); cbn [w_host w_collector w_met]; cbn iota.
  { apply serve_session_run. apply Hs. }
  destruct (IsAuthFailed e).
  - erewrite bind_Ok by reflexivity. cbn [w_host w_collector w_met].
    match goal with |- context [World ?h' col _] => destruct (h_now_sure h') as (t & h3 & E3) end.
    erewrite bind_Ok by (apply on_host_eq; exact E3).
    erewrite bind_Ok by reflexivity. erewrite bind_Ok by reflexivity. cbn [w_host w_collector w_met].
    destruct (forwardToProbeUpstream s dial (h_conn h3)) as [pp|];
      (do 2 eexists; split; [try (by erewrite bind_Ok by reflexivity); reflexivity|]);
      (eexists; split; [reflexivity|]; split; [by apply met_step_app|by destruct col]).
  - do 2 eexists. split; [by erewrite bind_Ok by reflexivity|]. by eapply handled_dropped; [..|apply met_step_refl|].
Qed.

(** ** The loop *)

(** The gauges and the telemetry agree with what is open; [n] connections so far,
    [z] streams. *)
Definition accounted (n z : Z) (l : listener) : Prop :=
  ∃ mt, li_met l = Some mt ∧ sessions_active mt = len (li_open l) ∧ opened_total mt = n ∧ streams_active mt = z ∧
    ∀ k, k ∈ shown (li_collector l) → Some k ∈ li_open l.

Definition is_accepted (e : levent) : bool := match e with Accepted _ _ _ _ => true | _ => false end.

Lemma shown_close k col : shown (option_map (CloseSession k) col) = shown col ∖ {[k]}.
Proof.
  destruct col as [c|]; cbn; [|set_solver]. by rewrite dom_delete_L.
Qed.

(** What is left in a list after one of its elements has been taken out. *)
Lemma elem_of_delete_ne {A} (l : list A) i (x y : A) : l !! i = Some y → x ∈ l → x ≠ y → x ∈ delete i l.
Proof.
  intros Hi [j Hj]%list_elem_of_lookup Hne. rewrite delete_take_drop, elem_of_app, !list_elem_of_lookup.
  destruct (Nat.lt_trichotomy j i) as [Hji|[->|Hji]]; [left; exists j|congruence|right; exists (j - S i)%nat].
  - by rewrite lookup_take_lt.
  - rewrite lookup_drop. by replace (S i + (j - S i))%nat with j by lia.
Qed.

Lemma keys_le (l : list (option bytes)) : (size (list_to_set (omap id l) : gset bytes) <= length l)%nat.
Proof.
  induction l as [|[k|] l IH]; cbn [omap list_omap id length]; [vm_compute; lia| |lia].
  rewrite list_to_set_cons, size_union_alt, size_singleton.
  pose proof (subseteq_size (list_to_set (omap id l) ∖ {[k]}) (list_to_set (omap id l) : gset bytes) ltac:(set_solver)).
  lia.
Qed.

Lemma listen_event_run e n z l :
  accounted n z l → ∃ l', listen_event e l = (Ok tt, l') ∧ accounted (n + if is_accepted e then 1 else 0) z l'.
Proof.
  intros (mt & Hm & Ha & Ho & Hz & Hk). destruct l as [y rg col km op]. cbn in Hm, Ha, Ho, Hz, Hk. subst km.
  destruct e as [|c remote dial mux_err|i]; cbn [listen_event is_accepted].
  - eexists. split; [reflexivity|]. exists mt. cbn. by rewrite Z.add_0_r.
  - erewrite bind_Ok by (unfold on_li_met, zoom, RecordAccept, inc_label; cbn [li_met]; rewrite prom_ascii by reflexivity;
      reflexivity). cbn [li_sys li_reg li_collector li_open].
    set (mt1 := mkMet (m_events mt ++ [Inc "daxson_connections_total" [str "inbound"]])).
    assert (H1a : sessions_active mt1 = len op ∧ opened_total mt1 = n + 1 ∧ streams_active mt1 = z).
    { unfold mt1, sessions_active, opened_total, streams_active in *. rewrite !gauge_app. destruct mt as [es]. cbn in *. lia. }
    destruct (handleConn_run remote dial mux_err (Host c y rg) col mt1) as (f & w & Ef & mt2 & Hm2 & Hf).
    erewrite bind_Ok by (unfold in_world; cbn [li_sys li_reg li_collector li_met li_open]; rewrite Ef; reflexivity).
    destruct f as [|p|res record sh cfg]; destruct Hf as [(Hs2 & Ho2 & Hz2) Hsh];
      (eexists; split; [reflexivity|]; exists mt2; cbn; split; [exact Hm2|]);
      (split; [|split; [lia|split; [lia|intros k Hin; rewrite Hsh in Hin]]]).
    + rewrite Hs2. lia.
    + by apply Hk.
    + rewrite Hs2. lia.
    + by apply Hk.
    + rewrite Hs2. unfold len in *. rewrite length_app. cbn [length]. lia.
    + apply elem_of_app. apply elem_of_union in Hin as [Hin|Hin]; [left; by apply Hk|right].
      destruct (session_key res record) as [k'|]; set_solver.
  - erewrite bind_Ok by reflexivity. cbn [li_open]. destruct (op !! i) as [key|] eqn:Ei.
    2:{ eexists. split; [reflexivity|]. exists mt. cbn. by rewrite Z.add_0_r. }
    erewrite bind_Ok by reflexivity.
    assert (Hlen : len op = len (delete i op) + 1).
    { unfold len. rewrite length_delete by by eexists. apply lookup_lt_Some in Ei. lia. }
    set (mt1 := mkMet (m_events mt ++ [Dec "daxson_sessions_active"])).
    assert (H1a : sessions_active mt1 = len (delete i op) ∧ opened_total mt1 = n ∧ streams_active mt1 = z).
    { unfold mt1, sessions_active, opened_total, streams_active in *. rewrite !gauge_app. destruct mt as [es]. cbn in *. lia. }
    unfold end_session. destruct key as [k|].
    + erewrite bind_Ok by reflexivity. eexists. split; [reflexivity|]. exists mt1. cbn [li_met li_open li_collector put_open].
      split; [reflexivity|]. split; [apply H1a|]. rewrite Z.add_0_r. do 2 (split; [apply H1a|]). intros k' Hk'. rewrite shown_close in Hk'.
      apply elem_of_difference in Hk' as [Hk' Hne]. eapply elem_of_delete_ne; [exact Ei|by apply Hk|].
      intros [= ->]. set_solver.
    + erewrite bind_Ok by reflexivity. eexists. split; [reflexivity|]. exists mt1. cbn [li_met li_open li_collector put_open].
      split; [reflexivity|]. split; [apply H1a|]. rewrite Z.add_0_r. do 2 (split; [apply H1a|]). intros k' Hk'.
      by eapply elem_of_delete_ne; [exact Ei|apply Hk|].
Qed.

Lemma listen_run evs n z l :
  accounted n z l →
  ∃ l', ListenAndServe evs l = (Ok tt, l') ∧ accounted (n + len (filter (λ e, is_accepted e = true) evs)) z l'.
Proof.
  revert n l. induction evs as [|e evs IH]; intros n l Hl.
  - exists l. split; [done|]. cbn. by rewrite Z.add_0_r.
  - destruct (listen_event_run e n z l Hl) as (l1 & E1 & H1'). destruct (IH _ _ H1') as (l2 & E2 & H2').
    exists l2. split; [unfold ListenAndServe; cbn [each]; by erewrite bind_Ok by exact E1|].
    rewrite filter_cons. destruct (is_accepted e) eqn:Ee; [rewrite decide_True by done|rewrite decide_False by done].
    + by replace (n + len (e :: filter (λ e, is_accepted e = true) evs)) with
        (n + 1 + len (filter (λ e, is_accepted e = true) evs)) by (unfold len; cbn [length]; lia).
    + by rewrite Z.add_0_r in H2'.
Qed.

(** The server keeps its books.  However connections and ends of sessions
    interleave on a server with metrics, whatever the peers send and whatever
    fails, the loop never panics; the gauge of active sessions is the number of
    sessions that are open, every accepted connection has been counted once, and
    the telemetry shows no session that is not open.  So when the last session has
    ended the gauge is back at zero and the telemetry shows none. *)
Theorem sessions_accounted evs y reg (telemetry : bool) :
  ∃ l mt, ListenAndServe evs (Listener y reg (if telemetry then Some Telemetry.New else None) (Some Metrics.New) [])
            = (Ok tt, l) ∧ li_met l = Some mt ∧
    sessions_active mt = len (li_open l) ∧
    gauge "daxson_connections_total" mt = len (filter (λ e, is_accepted e = true) evs) ∧
    (∀ c, li_collector l = Some c → SessionCount c <= len (li_open l) ∧
       ∀ k, is_Some (co_sessions c !! k) → Some k ∈ li_open l).
Proof.
  destruct (listen_run evs 0 0 (Listener y reg (if telemetry then Some Telemetry.New else None) (Some Metrics.New) []))
    as (l & E & mt & Hm & Ha & Ho & _ & Hk).
  { exists Metrics.New. split_and!; [done..|]. destruct telemetry; cbn; [rewrite dom_empty_L|]; set_solver. }
  exists l, mt. split; [exact E|]. split; [exact Hm|]. split; [exact Ha|]. split; [exact Ho|]. intros c Hc.
  rewrite Hc in Hk. cbn [shown] in Hk. split.
  - unfold SessionCount, len. rewrite <- size_dom.
    assert (Hsub : dom (co_sessions c) ⊆ list_to_set (omap id (li_open l))).
    { intros k Hin%Hk. apply elem_of_list_to_set, list_elem_of_omap. by exists (Some k). }
    apply subseteq_size in Hsub. pose proof (keys_le (li_open l)). lia.
  - intros k Hin. apply Hk, elem_of_dom, Hin.
Qed.
End listener.
