(* ===== verification/Client.v ===== *)
(** [internal/tunnel/client.go] as a whole: how the client gets a session
    ([connect]) and the loop that keeps it ([Run]), over the networks that its
    attempts meet.  Opening streams on the session is in Tunnel, as are the
    backoff and the limit of the retries. *)

From Stdlib Require Import Strings.Byte String ZArith Lia.
From stdpp Require Import base list gmap.
From S2P Require Import Prelude Encoding Io Hash Wire Identity Registry Auth.
From S2P Require Import Float Shaping Pipe Metrics Config Transport Tunnel.

(** ** The [ClientAuth] interface and its two implementations *)

Class ClientAuth (A : Type) := Handshake : A → M host bytes.

Record hmacClientAuth := mkHMACClientAuth { ha_h : Handshaker }.
Definition NewHMACClientAuth (psk : bytes) : hmacClientAuth := mkHMACClientAuth (Auth.New psk).
#[global] Instance hmac_ClientAuth : ClientAuth hmacClientAuth := λ a, ClientHandshake (ha_h a).

Record DeviceAuth := mkDeviceAuth { da_kp : KeyPair }.
Definition NewDeviceAuth (kp : KeyPair) : DeviceAuth := mkDeviceAuth kp.
#[global] Instance device_ClientAuth `{Ed25519} : ClientAuth DeviceAuth := λ a, DeviceAuth_Handshake (da_kp a).

(** ** The client

    The process environment, the random source, the session and the sessions
    that were replaced or closed, and the metrics (nil for [daxson connect]). *)
Record Client A := mkClient { cl_cfg : Config; cl_clientAuth : A }.
Arguments mkClient {A}.
Arguments cl_cfg {A}.
Arguments cl_clientAuth {A}.

Definition NewClient (cfg : Config) : Client hmacClientAuth :=
  mkClient cfg (NewHMACClientAuth (au_PSK (tu_Auth (cf_Tunnel cfg)))).
Definition NewClientWithAuth {A} (cfg : Config) (a : A) : Client A := mkClient cfg a.

Record cstate := CState {
  cs_sys : sys; cs_rand : mrand; cs_session : option msess; cs_closed : list msess; cs_met : option Metrics
}.

Definition on_cs_rand {A} : M mrand A → M cstate A :=
  zoom cs_rand (λ r s, CState (cs_sys s) r (cs_session s) (cs_closed s) (cs_met s)).
Definition on_cs_met {A} : M (option Metrics) A → M cstate A :=
  zoom cs_met (λ m s, CState (cs_sys s) (cs_rand s) (cs_session s) (cs_closed s) m).

Definition close_session (s : msess) : msess := MSess true (ms_streams s).

(** The new session replaces the old one, which is closed. *)
Definition install (sess : msess) (s : cstate) : cstate :=
  CState (cs_sys s) (cs_rand s) (Some sess) (option_list (close_session <$> cs_session s) ++ cs_closed s) (cs_met s).

(** What an attempt meets: the network, and [mux.NewClientSession] on the shaped
    connection; how the turn goes on: the context is cancelled before it is
    over, or during the wait. *)
Inductive cancel : Type := NotCancelled | CancelledInAttempt | CancelledInWait.
Record attempt := Attempt {
  at_net : network;
  at_session : option Personality → smuxConfig → conn → result msess;
  at_cancel : cancel
}.

Section client.
Context {A : Type} `{ClientAuth A} `{Prometheus}.
Variable c : Client A.

Let tc := cf_Tunnel (cl_cfg c).

Definition client_transport : ClientTransport :=
  Transport.NewClient (tl_ServerName (tu_TLS tc)) (tl_Fingerprint (tu_TLS tc)) (tl_NextProtos (tu_TLS tc))
    (tl_InsecureSkipVerify (tu_TLS tc)).
Definition client_shaping : option Personality :=
  obfs_Wrap (mkObfs (oc_Enabled (tp_Obfs (tu_Transport tc))) (oc_Personality (tp_Obfs (tu_Transport tc)))).
Definition client_smux : smuxConfig :=
  SmuxConfig (mx_MaxStreams (tp_Mux (tu_Transport tc))) (mx_MaxFrameSize (tp_Mux (tu_Transport tc)))
    (mx_ReceiveBuffer (tp_Mux (tu_Transport tc))).

(** [c.clientAuth.Handshake(rawConn)]: the connection after it. *)
Definition client_auth (rawConn : conn) : M cstate conn := λ s,
  let put h := CState (h_sys h) (cs_rand s) (cs_session s) (cs_closed s) (cs_met s) in
  match Handshake (cl_clientAuth c) (Host rawConn (cs_sys s) None) with
  | (Ok _, h) => (Ok (h_conn h), put h)
  | (Err e, h) => (Err e, put h)
  | (Panic, h) => (Panic, put h)
  end.

Definition connect (k : attempt) : M cstate unit :=
  rawConn <- wrap "dial" (on_cs_rand (Dial (at_net k) client_transport (tu_Addr tc))) ;;
  authed <- wrap "auth" (client_auth rawConn) ;;
  sess <- wrap "mux" (lift (at_session k client_shaping client_smux authed)) ;;
  modify (install sess) ;;;
  on_cs_met RecordConnect.

(** [Run].  [runSession] polls until the session is closed; what happens to the
    streams meanwhile is in Tunnel. *)
Definition runSession : M cstate unit :=
  modify (λ s, CState (cs_sys s) (cs_rand s) (close_session <$> cs_session s) (cs_closed s) (cs_met s)).

Fixpoint client_loop (ks : list attempt) (backoff attempts : Z) : M cstate (list run_action) :=
  match ks with
  | [] => ret []
  | k :: rest =>
      let rc := tu_Reconnect tc in
      r <- try (connect k) ;;
      match r with
      | inl _ => runSession ;;; l <- client_loop rest (rc_BaseDelay rc) 0 ;; ret (Dialed :: Connected :: l)
      | inr _ =>
          match at_cancel k with
          | CancelledInAttempt => ret [Dialed; Stopped]
          | how =>
              on_cs_met RecordReconnect ;;;
              if gives_up rc attempts then ret [Dialed; GaveUp] else
              j <- on_cs_rand (jitter backoff) ;;
              match how with
              | CancelledInWait => ret [Dialed; Stopped]
              | _ => l <- client_loop rest (next_backoff rc backoff) (attempts + 1) ;;
                     ret (Dialed :: Waited (backoff + j) :: l)
              end
          end
      end
  end.

Definition client_Run (ks : list attempt) : M cstate (list run_action) :=
  client_loop ks (rc_BaseDelay (tu_Reconnect tc)) 0.
End client.

(** ** Getting a session *)

(** A client handshake that does not panic. *)
Class ClientAuthTotal A `{ClientAuth A} (a : A) : Prop := handshake_total h : is_panic (fst (Handshake a h)) = false.

#[global] Instance hmac_total (a : hmacClientAuth) : ClientAuthTotal hmacClientAuth a.
Proof.
  intros h. pose proof (safe_ClientHandshake (bool_decide (is_Some (h_reg h))) (ha_h a) h eq_refl) as Hs.
  unfold Handshake, hmac_ClientAuth. by destruct (ClientHandshake (ha_h a) h) as [[] ?].
Qed.

Section getting.
Context {A : Type} `{ClientAuth A} `{Prometheus}.
Variable c : Client A.
Let tc := cf_Tunnel (cl_cfg c).

(** Neither the network nor the session constructor panics. *)
Definition attempt_ok (k : attempt) : Prop :=
  network_ok (at_net k) ∧ ∀ p cfg raw, is_panic (at_session k p cfg raw) = false.

(** What a connection adds to the metrics. *)
Definition connected (mt : Metrics) : Metrics :=
  mkMet (m_events mt ++ [Inc "daxson_connections_total" [str "outbound"]]).

(** The client has neither the name that its handshakes need nor the permission
    to do without. *)
Definition nameless : bool :=
  bool_decide (tl_ServerName (tu_TLS tc) = []) && negb (tl_InsecureSkipVerify (tu_TLS tc)).

(** What an attempt leaves alone until it succeeds. *)
Definition same_session (s s' : cstate) : Prop :=
  cs_session s' = cs_session s ∧ cs_closed s' = cs_closed s ∧ cs_met s' = cs_met s.

Lemma connect_run k s `{!ClientAuthTotal A (cl_clientAuth c)} :
  attempt_ok k →
  ∃ o s1, same_session s s1 ∧ is_panic o = false ∧ (nameless = true → ∃ e, o = Err e) ∧
    connect c k s = match o with
      | Ok sess => on_cs_met RecordConnect (install sess s1)
      | Err e => (Err e, s1)
      | Panic => (Panic, s1)
      end.
Proof.
  intros [Hn Hm]. unfold connect.
  destruct (Dial_run (at_net k) (client_transport c) (tu_Addr tc) (cs_rand s) Hn) as (o & r & Ed & Hp & Hname).
  assert (Hname' : nameless = true → ∃ e, o = Err e).
  { intros [H1%bool_decide_eq_true H2%negb_true_iff]%andb_true_iff. by apply Hname. }
  assert (Eo : on_cs_rand (Dial (at_net k) (client_transport c) (tu_Addr tc)) s =
    (o, CState (cs_sys s) r (cs_session s) (cs_closed s) (cs_met s))) by (unfold on_cs_rand, zoom; by rewrite Ed).
  destruct o as [raw|e|]; [| |done].
  2: { exists (Err (ErrWrap "dial" e)). eexists. erewrite bind_Err by (by apply wrap_Err). split; [|split; [done|split; [by eexists|reflexivity]]]. done. }
  erewrite bind_Ok by (by apply wrap_Ok). set (s1 := CState _ r _ _ _).
  assert (Hnn : nameless = true → False) by (intros Hx; by destruct (Hname' Hx)).
  pose proof (handshake_total (a := cl_clientAuth c) (Host raw (cs_sys s1) None)) as Ht. unfold client_auth.
  destruct (Handshake (cl_clientAuth c) (Host raw (cs_sys s1) None)) as [a h] eqn:Eh. cbn [fst] in Ht.
  destruct a as [sid|e|]; [| |done].
  2: { exists (Err (ErrWrap "auth" e)). eexists. unfold wrap, bind. rewrite Eh.
       split; [|split; [done|split; [by intros ?%Hnn|reflexivity]]]. done. }
  unfold wrap at 1, bind at 1. rewrite Eh. set (s2 := CState (h_sys h) _ _ _ _).
  specialize (Hm (client_shaping c) (client_smux c) (h_conn h)).
  destruct (at_session k (client_shaping c) (client_smux c) (h_conn h)) as [sess|e|] eqn:Es; [| |done].
  - exists (Ok sess), s2. split; [done|]. split; [done|]. split; [by intros ?%Hnn|].
    erewrite bind_Ok by (apply wrap_Ok; reflexivity). by erewrite bind_Ok by reflexivity.
  - exists (Err (ErrWrap "mux" e)), s2. split; [done|]. split; [done|]. split; [by intros ?%Hnn|].
    by erewrite bind_Err by (apply wrap_Err; reflexivity).
Qed.

(** C22. How the client gets its session.  When an attempt fails, at whichever
    stage, the session, the replaced sessions and the metrics are as they were.
    When it gets as far as a session, that session is installed and the session it
    replaces is closed; then a client with metrics counts one connection and the
    attempt succeeds, and a client without metrics, such as the one of
    [daxson connect], panics: an attempt succeeds only with metrics and panics
    only without (the network, the session constructor and the handshake being
    given not to panic).  Without a server name, and unless verification is off, every
    attempt fails. *)
Theorem connect_replaces k s `{!ClientAuthTotal A (cl_clientAuth c)} :
  attempt_ok k →
  let installed s' := nameless = false ∧ ∃ sess, cs_session s' = Some sess ∧
    cs_closed s' = option_list (close_session <$> cs_session s) ++ cs_closed s in
  match connect c k s with
  | (Ok _, s') => installed s' ∧ ∃ mt, cs_met s = Some mt ∧ cs_met s' = Some (connected mt)
  | (Err _, s') => same_session s s'
  | (Panic, s') => installed s' ∧ cs_met s = None
  end.
Proof.
  intros Hk. cbv zeta. destruct (connect_run k s Hk) as (o & s1 & Hs & Hp & Hn & ->).
  destruct o as [sess|e|]; [|done|done]. destruct Hs as (H1 & H2 & H3).
  assert (Hnn : nameless = false) by (destruct nameless; [by destruct (Hn eq_refl)|done]).
  unfold on_cs_met, zoom, RecordConnect, inc_label. rewrite prom_ascii by done.
  cbn [install cs_met]. rewrite H3. destruct (cs_met s) as [mt|]; cbn; rewrite H1, H2.
  - split; [split; [done|by exists sess]|by exists mt].
  - by split; [split; [done|exists sess]|].
Qed.

(** ** Clients that cannot work *)

Lemma loop_nameless `{!ClientAuthTotal A (cl_clientAuth c)} ks b i s :
  nameless = true → Forall attempt_ok ks →
  match client_loop c ks b i s with
  | (Ok l, s') => (Connected ∉ l) ∧ cs_session s' = cs_session s
  | _ => True
  end.
Proof.
  intros Hn Hks. revert b i s. induction Hks as [|k ks Hk _ IH]; intros b i s; [split; [apply not_elem_of_nil|done]|].
  cbn [client_loop]. destruct (connect_run k s Hk) as (o & s1 & (H1 & _) & _ & Ho & E).
  destruct (Ho Hn) as [e ->]. unfold try, bind at 1. rewrite E.
  assert (Hend : ∀ x, x ≠ Connected → Connected ∉ [Dialed; x]).
  { intros x Hx. rewrite !not_elem_of_cons. split_and!; [done|congruence|apply not_elem_of_nil]. }
  assert (Hloop : match (on_cs_met RecordReconnect ;;;
      (if gives_up (tu_Reconnect tc) i then ret [Dialed; GaveUp] else
       j <- on_cs_rand (jitter b) ;;
       match at_cancel k with
       | CancelledInWait => ret [Dialed; Stopped]
       | _ => l <- client_loop c ks (next_backoff (tu_Reconnect tc) b) (i + 1) ;; ret (Dialed :: Waited (b + j) :: l)
       end)) s1 with (Ok l, s') => (Connected ∉ l) ∧ cs_session s' = cs_session s | _ => True end).
  { unfold bind at 1, on_cs_met, zoom, RecordReconnect, call. destruct (cs_met s1); [|done]. cbn.
    destruct (gives_up _ _); [split; [by apply Hend|done]|].
    unfold bind at 1, on_cs_rand, zoom. cbn [cs_rand]. destruct (jitter b (cs_rand s1)) as [[j|e'|] r']; [|done|done].
    destruct (at_cancel k); [|..]; cbn [cs_session];
      try (split; [by apply Hend|done]);
      match goal with |- context [client_loop c ks ?b' ?i'] =>
        match goal with |- context [CState ?a1 ?a2 ?a3 ?a4 ?a5] => specialize (IH b' i' (CState a1 a2 a3 a4 a5)) end end;
      unfold bind; destruct (client_loop c ks _ _ _) as [[l|?|] s']; try done;
      (destruct IH as [IH1 IH2]; cbn; split; [rewrite !not_elem_of_cons; split_and!; done|rewrite IH2; done]). }
  destruct (at_cancel k); [exact Hloop|split; [by apply Hend|done]|exact Hloop].
Qed.
End getting.

(** ** A client that connects *)

(** A network with a server behind every address. *)
Definition server_hello : conn := conn_of (Frame.AuthStatusOK :: replicate 16 x07).
Definition open_network : network :=
  Network (λ _, Ok server_hello)
    (λ cfg _ c, if bool_decide (ut_ServerName cfg = []) && negb (ut_InsecureSkipVerify cfg)
                then Err (ErrNew "tls: at least one of ServerName, InsecureSkipVerify must be specified" []) else Ok c).

#[global] Instance open_network_ok : network_ok open_network.
Proof.
  split; [done| |].
  - intros cfg hello c. cbn. by destruct (_ && _).
  - intros cfg hello c H1 H2. cbn. rewrite H1, H2. by eexists.
Qed.

Definition named : Config := mkConfig ModeClient (cf_Proxy Defaults)
  (mkTunnel (str "example.com:443") (mkTLS [] [] (str "example.com") (str "firefox") false []) (mkAuth (str "0123456789abcdef"))
     (tu_Transport (cf_Tunnel Defaults)) (tu_Reconnect (cf_Tunnel Defaults)))
  (cf_Server Defaults) (cf_Upstream Defaults) (cf_Metrics Defaults) (cf_Logging Defaults) (cf_PProf Defaults).

Definition good_attempt : attempt := Attempt open_network (λ _ _ _, Ok (MSess false [])) NotCancelled.
Lemma good_attempt_ok : attempt_ok good_attempt.
Proof. split; [apply open_network_ok|done]. Qed.

Definition fresh_client : cstate :=
  CState (sys_at 3000) (Mrand (λ _, 1) (λ _, float_of_Z 0) 0) (Some (MSess true [])) [] (Some Metrics.New).

(** The same client without metrics, as [daxson connect] builds it. *)
Definition bare_client : cstate :=
  CState (sys_at 3000) (Mrand (λ _, 1) (λ _, float_of_Z 0) 0) (Some (MSess true [])) [] None.

Lemma connect_replaces_witness :
  let ht := utf8_Prometheus in let cl := NewClient named in
  match connect cl good_attempt fresh_client with
  | (Ok _, s') => cs_closed s' = [MSess true []] ∧ cs_met s' = Some (connected Metrics.New)
  | _ => False
  end ∧
  match connect cl good_attempt bare_client with
  | (Panic, s') => cs_closed s' = [MSess true []]
  | _ => False
  end.
Proof.
  intros ht cl. split.
  - pose proof (connect_replaces (H0 := utf8_Prometheus) cl good_attempt fresh_client good_attempt_ok) as Hc.
    assert (Hok : is_ok (fst (connect cl good_attempt fresh_client)) = true) by (vm_compute; reflexivity).
    destruct (connect cl good_attempt fresh_client) as [[u|e|] s']; cbn [fst] in Hok; [|discriminate|discriminate].
    destruct Hc as ((_ & sess & _ & H1) & mt & H2 & H3). split; [exact H1|]. rewrite H3. injection H2 as <-. reflexivity.
  - pose proof (connect_replaces (H0 := utf8_Prometheus) cl good_attempt bare_client good_attempt_ok) as Hc.
    assert (Hok : is_panic (fst (connect cl good_attempt bare_client)) = true) by (vm_compute; reflexivity).
    destruct (connect cl good_attempt bare_client) as [[u|e|] s']; cbn [fst] in Hok; [discriminate|discriminate|].
    destruct Hc as ((_ & sess & _ & H1) & _). exact H1.
Defined.
