(* ===== verification/Bridge.v ===== *)
(** [internal/relay/relay.go]: the relay between a domestic and a foreign hop.
    Opening an upstream stream, bridging a downstream stream to it, the
    authentication of downstream connections, and the upstream session with the
    loop that keeps it alive.  The CONNECT codecs are those of Connect. *)

From Stdlib Require Import Strings.Byte String ZArith Lia.
From stdpp Require Import base list gmap.
From S2P Require Import Prelude Encoding Io Hash Frame Connect Wire Identity Registry Auth.
From S2P Require Import Float Shaping Pipe Socks Telemetry Metrics Config Tunnel.

(** ** State

    The upstream session as [msess] (open or closed, and what its next streams
    are), the sessions that were replaced, and the environment. *)
Record upstream := Up { ul_sys : sys; ul_session : option msess; ul_closed : list msess }.

Definition on_ul {A} : M sys A → M upstream A :=
  zoom ul_sys (λ s u, Up s (ul_session u) (ul_closed u)).
Definition ul_now : M upstream Z := on_ul (on_clock time_Now).

(** The program's configuration and the two handshakers of [New]. *)
Record Relay := mkRelay { ry_cfg : Config; ry_downstreamAuth : Handshaker; ry_upstreamAuth : Handshaker }.

Definition NewRelay (cfg : Config) : Relay := mkRelay cfg
  (Auth.New (au_PSK (sv_Auth (cf_Server cfg))))
  (Auth.New (au_PSK (up_Auth (cf_Upstream cfg)))).

(** ** Streams *)

(** [r.upstreamSession.OpenStream()] *)
Definition upstream_stream : M upstream conn := λ u,
  match ul_session u with
  | Some (MSess cl (r :: rs)) => (r, Up (ul_sys u) (Some (MSess cl rs)) (ul_closed u))
  | _ => (Err (ErrSentinel "io: read/write on closed pipe"), u)
  end.

(** The CONNECT exchange on the new stream, which is closed and dropped when it
    fails. *)
Definition upstream_exchange (addrType : AddrType) (addr : bytes) (port : Z) : M conn unit :=
  wrap "relay: write connect" (Connect.Relay.writeConnectRequest addrType addr port) ;;;
  wrap "relay: read connect response" Connect.Relay.readConnectResponse.

Definition relay_OpenStream (addrType : AddrType) (addr : bytes) (port : Z) : M upstream conn :=
  sess <- gets ul_session ;;
  if negb (usable sess) then fail (ErrNew "relay: upstream not connected" []) else
  stream <- wrap "relay: upstream open stream" upstream_stream ;;
  now <- ul_now ;;
  match upstream_exchange addrType addr port (put_dl (Some (now + 10 * second)) stream) with
  | (Ok _, stream') => ret (put_dl None stream')
  | (Err e, _) => fail e
  | (Panic, _) => panic
  end.

#[global] Instance relay_dialer : Dialer upstream := relay_OpenStream.

(** A downstream stream and the relay it arrived at. *)
Record bridge := MkBridge { bg_down : conn; bg_up : upstream }.
Definition on_down {A} : M conn A → M bridge A := zoom bg_down (λ c b, MkBridge c (bg_up b)).
Definition on_up {A} : M upstream A → M bridge A := zoom bg_up (λ u b, MkBridge (bg_down b) u).
Definition close_down : M bridge unit := on_down (modify conn_close).

(** How [bridgeStream] ends: without an upstream stream, with one that the
    deferred call has closed, or in the byte relay. *)
Inductive bridged : Type :=
  | NotBridged
  | Abandoned (upstream : conn)
  | Bridged (p : pipe).

Definition bridgeStream : M bridge bridged :=
  now <- on_up ul_now ;;
  on_down (modify (put_dl (Some (now + 10 * second)))) ;;;
  r <- try (on_down Connect.Relay.readConnectRequest) ;;
  on_down (modify (put_dl None)) ;;;
  match r with
  | inr _ => close_down ;;; ret NotBridged
  | inl (addrType, addr, port) =>
      u <- try (on_up (relay_OpenStream addrType addr port)) ;;
      match u with
      | inr _ => ignore (on_down (Connect.Relay.writeConnectResponse false)) ;;; close_down ;;; ret NotBridged
      | inl up =>
          r <- try (on_down (Connect.Relay.writeConnectResponse true)) ;;
          match r with
          | inr _ => close_down ;;; ret (Abandoned (conn_close up))
          | inl _ => down <- gets bg_down ;; ret (Bridged (Pipe.Relay down up))
          end
      end
  end.

(** ** Sessions *)

Section sessions.
Variable r : Relay.

Let tc := tu_Transport (cf_Tunnel (ry_cfg r)).
Definition relay_smux : smuxConfig :=
  SmuxConfig (mx_MaxStreams (tp_Mux tc)) (mx_MaxFrameSize (tp_Mux tc)) (mx_ReceiveBuffer (tp_Mux tc)).
Definition relay_shaping (personality : bytes) : option Personality :=
  obfs_Wrap (mkObfs (oc_Enabled (tp_Obfs tc)) personality).

(** [handleDownstreamConn] up to the loop that accepts streams: the shaping and
    the parameters of the session, or [None] and a closed connection.
    [mux_err] is the outcome of [mux.NewServerSession].  (The world of a relay
    has no collector.) *)
Definition handleDownstreamConn (mux_err : option error) : M world (option (option Personality * smuxConfig)) :=
  on_host (deadline_in put_dl 15) ;;;
  a <- try (on_host (ServerHandshake (ry_downstreamAuth r))) ;;
  match a with
  | inr _ => close_raw ;;; ret None
  | inl _ =>
      on_host (deadline_clear put_dl) ;;;
      match mux_err with
      | Some _ => close_raw ;;; ret None
      | None =>
          on_w_met RecordSessionOpen ;;;
          ret (Some (relay_shaping (oc_Personality (tp_Obfs tc)), relay_smux))
      end
  end.

(** A turn of the accept loop of [listenDownstream]. *)
Definition accept_downstream `{Prometheus} (mux_err : option error)
    : M world (option (option Personality * smuxConfig)) :=
  on_w_met RecordConnect ;;; handleDownstreamConn mux_err.

(** The deferred calls at the end of a downstream session. *)
Definition downstream_end : M world unit := on_w_met RecordSessionClose ;;; close_raw.

(** The personality towards the foreign server. *)
Definition upstreamPersonality : bytes :=
  let p := oc_Personality (tp_Obfs tc) in if bool_decide (p = []) then str "browser" else p.

(** [r.upstreamAuth.ClientHandshake(rawConn)] *)
Definition upstream_auth (rawConn : conn) : M upstream conn := λ u,
  match ClientHandshake (ry_upstreamAuth r) (Host rawConn (ul_sys u) None) with
  | (Ok _, h) => (Ok (h_conn h), Up (h_sys h) (ul_session u) (ul_closed u))
  | (Err e, h) => (Err e, Up (h_sys h) (ul_session u) (ul_closed u))
  | (Panic, h) => (Panic, Up (h_sys h) (ul_session u) (ul_closed u))
  end.

Definition close_session (s : msess) : msess := MSess true (ms_streams s).

(** [connectUpstream], by the outcome of the dial and of
    [mux.NewClientSession] on the shaped connection. *)
Definition connectUpstream (dial : result conn)
    (new_session : option Personality → smuxConfig → conn → result msess) : M upstream unit :=
  rawConn <- wrap "upstream dial" (lift dial) ;;
  authed <- wrap "upstream auth" (upstream_auth rawConn) ;;
  sess <- wrap "upstream mux" (lift (new_session (relay_shaping upstreamPersonality) relay_smux authed)) ;;
  modify (λ u, Up (ul_sys u) (Some sess)
                  (option_list (close_session <$> ul_session u) ++ ul_closed u)).

(** One turn of [upstreamMaintain]: whether the session broke in the last five
    seconds, and what a new one would meet. *)
Record tick := Tick {
  tk_broken : bool;
  tk_dial : result conn;
  tk_session : option Personality → smuxConfig → conn → result msess
}.

Definition maintain_turn (k : tick) : M upstream unit :=
  (when tk_broken k do modify (λ u, Up (ul_sys u) (close_session <$> ul_session u) (ul_closed u)) od) ;;;
  sess <- gets ul_session ;;
  if usable sess then ret tt else ignore (connectUpstream (tk_dial k) (tk_session k)).

Definition upstreamMaintain (ks : list tick) : M upstream unit := each maintain_turn ks.

(** [Run] up to the listener: the first connection must succeed. *)
Definition RunRelay (first : tick) (ks : list tick) : M upstream unit :=
  wrap "relay: initial upstream connect" (connectUpstream (tk_dial first) (tk_session first)) ;;;
  upstreamMaintain ks.
End sessions.

(** ** Streams: the lemmas

    [plain c]: the connection reports its end in a call of its own, as a smux
    stream does; the relay's read loop drops bytes that come with an error. *)
Definition plain (c : conn) : Prop := rd_eager (c_rd c) = false.

Lemma relay_read_app k c out bs rest :
  view c out (bs ++ rest) → plain c → k = length bs →
  ∃ c', Connect.Relay.conn_read_exact k c = (Ok bs, c') ∧ view c' out rest ∧ plain c'.
Proof.
  intros (Hc & Hw & Ho & Hi) Hp ->.
  destruct (relay_conn_read_block (length bs) c) as (c' & [_ Hp'] & _ & Hs & Hr); [done|].
  rewrite Hi, length_app in Hr. rewrite (proj2 (Nat.leb_le _ _)) in Hr by lia.
  rewrite take_app_length in Hr. exists c'.
  assert (E : Connect.Relay.conn_read_exact (length bs) c = (Ok bs, c'))
    by (by rewrite (surjective_pairing (Connect.Relay.conn_read_exact _ _)), Hr, Hs).
  split; [done|]. split; [|done].
  apply relay_read_exact_ok in E as (_ & Hfl & Ho' & Hc' & Hw').
  rewrite Hi in Hfl. apply app_inv_head in Hfl. unfold view. by rewrite Hc', Hw', Ho'.
Qed.

Lemma relay_readConnectRequest_run t a p c out rest :
  view c out (connect_bytes t a p ++ rest) → plain c → len a <= 255 → 0 <= p < 65536 →
  ∃ c', Connect.Relay.readConnectRequest c = (Ok (t, a, p), c') ∧ view c' out rest ∧ plain c'.
Proof.
  intros Hv Hp Ha Hport. unfold connect_bytes in Hv. rewrite <- !app_assoc in Hv.
  destruct (relay_read_app 2 c out [t; byte_of_Z (len a)] (a ++ be_put 2 p ++ rest) Hv Hp eq_refl)
    as (c1 & E1 & V1 & P1).
  unfold Connect.Relay.readConnectRequest. erewrite bind_Ok by exact E1. cbn [nth].
  rewrite Z_of_byte_of_Z, Z.mod_small by (pose proof (len_nonneg a); lia).
  replace (Z.to_nat (len a)) with (length a) by (unfold len; lia).
  rewrite app_assoc in V1.
  destruct (relay_read_app (length a + 2) c1 out (a ++ be_put 2 p) rest V1 P1) as (c2 & E2 & V2 & P2);
    [by rewrite length_app, length_be_put|].
  erewrite bind_Ok by exact E2. exists c2. split; [|done].
  pose proof (be_get_put_small 2 p Hport) as Hget. rewrite be_get_two in Hget by apply length_be_put.
  rewrite take_app_length. unfold ret. do 3 f_equal. rewrite <- Hget at 3. clear Hget.
  rewrite !app_nth2 by lia. rewrite Nat.sub_diag. by replace (S (length a) - length a)%nat with 1%nat by lia.
Qed.

Lemma relay_readConnectResponse_run (b : bool) c out inp :
  view c out ((if b then connectOK else connectFail) :: inp) → plain c →
  ∃ c', view c' out inp ∧
    if b then Connect.Relay.readConnectResponse c = (Ok tt, c')
    else ∃ e, Connect.Relay.readConnectResponse c = (Err e, c').
Proof.
  intros Hv Hp.
  destruct (relay_read_app 1 c out [if b then connectOK else connectFail] inp Hv Hp eq_refl)
    as (c1 & E1 & V1 & _).
  exists c1. split; [done|]. unfold Connect.Relay.readConnectResponse.
  destruct b; [|eexists]; erewrite bind_Ok by (apply wrap_Ok; exact E1); cbn [nth];
    [by rewrite decide_True by done|by rewrite decide_False by done].
Qed.

Lemma relay_OpenStream_run t a p u stream rs (b : bool) inp :
  ul_session u = Some (MSess false (Ok stream :: rs)) →
  view stream [] ((if b then connectOK else connectFail) :: inp) → plain stream →
  ∃ r s', relay_OpenStream t a p u = (r, Up s' (Some (MSess false rs)) (ul_closed u)) ∧
    if b then ∃ st, r = Ok st ∧ view st (connect_bytes t a p) inp else ∃ e, r = Err e.
Proof.
  intros Hs Hv Hp. unfold relay_OpenStream. erewrite bind_Ok by reflexivity.
  rewrite Hs. cbn [usable ms_closed negb].
  erewrite bind_Ok by (apply wrap_Ok; unfold upstream_stream; rewrite Hs; reflexivity).
  destruct (on_clock_now (ul_sys u)) as (now & k & Hnow).
  erewrite bind_Ok by (unfold ul_now, on_ul, zoom; cbn [ul_sys]; rewrite Hnow; reflexivity).
  set (c0 := put_dl (Some (now + 10 * second)) stream).
  destruct (view_write (connect_bytes t a p) c0 [] _ Hv) as (c1 & E1 & V1).
  assert (Hp1 : plain c1).
  { destruct Hv as (Hc & Hw & _). rewrite conn_Write_ok in E1 by done. by injection E1 as <-. }
  destruct (relay_readConnectResponse_run b c1 _ inp V1 Hp1) as (c2 & V2 & Hr).
  unfold upstream_exchange. rewrite relay_writeConnectRequest_bytes.
  erewrite bind_Ok by (apply wrap_Ok; exact E1).
  destruct b.
  - erewrite wrap_Ok by exact Hr. do 2 eexists. split; [reflexivity|]. eexists. split; [done|exact V2].
  - destruct Hr as [e Hr]. erewrite wrap_Err by exact Hr. do 2 eexists. split; [reflexivity|]. eauto.
Qed.

Lemma bridgeStream_run t a p down out data u stream rs (b : bool) inp :
  view down out (connect_bytes t a p ++ data) → plain down → len a <= 255 → 0 <= p < 65536 →
  ul_session u = Some (MSess false (Ok stream :: rs)) →
  view stream [] ((if b then connectOK else connectFail) :: inp) → plain stream →
  if b then ∃ s' d st, bridgeStream (MkBridge down u) = (Ok (Bridged (Pipe.Relay d st)), s') ∧
    view d (out ++ [connectOK]) data ∧ view st (connect_bytes t a p) inp
  else ∃ s', bridgeStream (MkBridge down u) = (Ok NotBridged, s') ∧
    c_closed (bg_down s') = true ∧ c_out (bg_down s') = out ++ [connectFail].
Proof.
  intros Hv Hp Ha Hport Hs Hst Hpst. unfold bridgeStream.
  destruct (on_clock_now (ul_sys u)) as (now & k & Hnow).
  erewrite bind_Ok by (unfold on_up, ul_now, on_ul, zoom; cbn [bg_up]; rewrite Hnow; reflexivity).
  erewrite bind_Ok by reflexivity. cbn [bg_down bg_up].
  destruct (relay_readConnectRequest_run t a p (put_dl (Some (now + 10 * second)) down) out data Hv Hp Ha Hport)
    as (c1 & E1 & V1 & _).
  erewrite bind_Ok by (unfold try, on_down, zoom; cbn [bg_down]; rewrite E1; reflexivity).
  erewrite bind_Ok by reflexivity. cbn [bg_down bg_up]. set (c2 := put_dl None c1).
  destruct (relay_OpenStream_run t a p (Up (Sys k (s_rand (ul_sys u)) (s_fs (ul_sys u))) (ul_session u) (ul_closed u))
    stream rs b inp Hs Hst Hpst) as (r & s' & Eo & Hr).
  destruct (view_write [connectOK] c2 out data V1) as (c3 & E3 & V3).
  destruct (view_write [connectFail] c2 out data V1) as (c4 & E4 & V4).
  destruct b; [destruct Hr as (st & -> & Vst)|destruct Hr as [e ->]].
  - erewrite bind_Ok by (unfold try, on_up, zoom; cbn [bg_up bg_down]; rewrite Eo; reflexivity).
    cbn iota. erewrite bind_Ok
      by (unfold try, on_down, zoom; cbn [bg_down]; change (Connect.Relay.writeConnectResponse true) with (conn_Write [connectOK]);
          rewrite E3; reflexivity).
    do 3 eexists. split; [reflexivity|done].
  - erewrite bind_Ok by (unfold try, on_up, zoom; cbn [bg_up bg_down]; rewrite Eo; reflexivity).
    cbn iota. erewrite bind_Ok
      by (unfold ignore, try, bind, on_down, zoom; cbn [bg_down];
          change (Connect.Relay.writeConnectResponse false) with (conn_Write [connectFail]); rewrite E4; reflexivity).
    eexists. split; [reflexivity|]. split; [done|apply V4].
Qed.

(** C4. A connection through the relay, end to end.  The tunnel client asks on a
    stream for a target; the stream leads to a relay with a live upstream
    session, whose next stream leads to a server, which answers as its dial of
    the target comes out.  The bytes [q] the client writes make the relay write
    the same bytes [q] upstream, and [q] makes the server dial exactly the
    requested address and port.  Its answer reaches the client: if the target
    answers, all three start relaying, with nothing lost that any of them had
    already been sent; if not, the client is told so and the relay and the
    server close their streams. *)
Theorem relayed_connection `{Prometheus} t a p dial cs crs evs mt down data u us urs back :
  1 <= len a <= 255 → 0 <= p < 65536 → is_panic (dial (targetAddr a p)) = false →
  prom_accepts (dial_label a p) = true →
  plain down → plain us → ul_session u = Some (MSess false (Ok us :: urs)) →
  let ok := is_ok (dial (targetAddr a p)) in
  view cs [] (answer (dial (targetAddr a p)) :: back) →
  view us [] (answer (dial (targetAddr a p)) :: back) →
  ∃ q,
  (∃ r c', client_OpenStream t a p (TClient (Some (MSess false (Ok cs :: crs))) evs (Some mt)) = (r, c') ∧
     if ok then ∃ st, r = Ok st ∧ view st q back else ∃ e, r = Err e) ∧
  (view down [] (q ++ data) →
     if ok then ∃ s' d st, bridgeStream (MkBridge down u) = (Ok (Bridged (Pipe.Relay d st)), s') ∧
       view d [connectOK] data ∧ view st q back
     else ∃ s', bridgeStream (MkBridge down u) = (Ok NotBridged, s') ∧
       c_closed (bg_down s') = true ∧ c_out (bg_down s') = [connectFail]) ∧
  (∀ ss k mt up, view ss [] (q ++ up) →
     match dial (targetAddr a p) with
     | Ok tconn => ∃ s' st, handleStream dial (SStream ss k (Some mt)) = (Ok (Some (Pipe.Relay st tconn)), s') ∧
         view st [connectOK] up
     | _ => ∃ s', handleStream dial (SStream ss k (Some mt)) = (Ok None, s') ∧
         c_closed (st_conn s') = true ∧ c_out (st_conn s') = [connectFail]
     end).
Proof.
  intros Ha Hport Hnp Hlab Hpd Hpu Hs ok Hcs Hus. exists (connect_bytes t a p). split_and!.
  - destruct (client_OpenStream_run t a p cs crs evs mt ok back Hcs) as (r & mt' & E & Hr); [lia|eauto].
  - intros Hv. apply (bridgeStream_run t a p down [] data u us urs ok back); try done; lia.
  - intros ss k mt1 up Hv. pose proof (handleStream_run dial t a p k mt1 ss [] up Hv Ha Hport) as Hrun.
    rewrite Hlab in Hrun. destruct (dial (targetAddr a p)); [done| |done].
    destruct Hrun as (s' & ? & ? & ? & _). by exists s'.
Qed.

(** ** Downstream connections *)

Lemma ServerHandshake_refuses hs h out v req rest :
  view (h_conn h) out (v :: req ++ rest) → v ≠ ProtocolVersion → length req = 48%nat →
  ∃ rnd h', ServerHandshake hs h = (Err errAuthFailed, h') ∧ length rnd = 16%nat ∧
    view (h_conn h') (out ++ AuthStatusFail :: rnd) rest.
Proof.
  intros Hv Hne Hl. destruct (read_run 49 h out (v :: req) rest Hv) as (h1 & E1 & V1 & _); [cbn; lia|].
  unfold ServerHandshake. erewrite bind_Ok by (apply wrap_Ok; exact E1).
  rewrite (index_Ok _ 0) by (unfold len; cbn [length]; lia). erewrite bind_Ok by done.
  rewrite bool_decide_true by done.
  destruct (writeFailResponse_run h1 out rest V1) as (rnd & h2 & E2 & Hr & V2 & _).
  erewrite bind_Ok by exact E2. by exists rnd, h2.
Qed.

(** Who gets through a relay.  The relay's door is the pre-shared key alone:
    a 49-byte request opens a session, with the configured shaping and
    parameters, exactly when its version byte is 1 and its token is valid under
    [server.auth.psk] for the current or the previous bucket.  Every other one
    (a device's or an enrolment's, on any key; a prober's) is answered with 0xFF
    and 16 random bytes, and the connection is closed; it leaves no trace in the
    metrics, where an authentication failure of a server would be counted. *)
Theorem downstream_decision r h mt out v nonce token rest :
  view (h_conn h) out (v :: nonce ++ token ++ rest) →
  length nonce = 16%nat → length token = 32%nat → (16 <= length (flatten (s_rand (h_sys h))))%nat →
  ∃ now sid o h' mt', now ∈ clock_readings (s_clock (h_sys h)) ∧ length sid = 16%nat ∧
    handleDownstreamConn r None (World h None (Some mt)) = (Ok o, World h' None (Some mt')) ∧
    if bool_decide (v = ProtocolVersion) && hmac_valid (ry_downstreamAuth r) nonce token now
    then o = Some (relay_shaping r (oc_Personality (tp_Obfs (tu_Transport (cf_Tunnel (ry_cfg r))))), relay_smux r) ∧
      view (h_conn h') (out ++ Frame.AuthStatusOK :: sid) rest ∧ sessions_active mt' = sessions_active mt + 1
    else o = None ∧ mt' = mt ∧ c_closed (h_conn h') = true ∧ c_out (h_conn h') = out ++ AuthStatusFail :: sid.
Proof.
  intros Hv Hn Ht Hr.
  destruct (deadline_in_run put_dl 15 h _ _ (view_put_dl _ _) Hv) as (h1 & E1 & V1 & Q1).
  unfold handleDownstreamConn. erewrite bind_Ok by (apply on_host_eq; exact E1).
  destruct (decide (v = ProtocolVersion)) as [->|Hne].
  - destruct (ServerHandshake_run (ry_downstreamAuth r) h1 out nonce token rest V1 Hn Ht)
      as (now & a & sid & h2 & Hin & E2 & Hl & S2 & Hcase); [by rewrite (proj2 Q1)|].
    exists now, sid. rewrite bool_decide_true by done. cbn [andb].
    assert (Hin' : now ∈ clock_readings (s_clock (h_sys h))) by (eapply hstep_readings; [apply Q1|done]).
    destruct (hmac_valid _ nonce token now); destruct Hcase as [-> V2].
    + eexists (Some _), (h_put_conn (put_dl None (h_conn h2)) h2), (mkMet (m_events mt ++ [_])).
      do 2 (split; [done|]). split; [|split; [done|split; [exact V2|]]].
      * erewrite bind_Ok by (unfold try; rewrite (on_host_eq _ _ _ _ _ _ E2); reflexivity). reflexivity.
      * unfold sessions_active. rewrite gauge_app. by destruct mt.
    + exists None, (h_put_conn (conn_close (h_conn h2)) h2), mt.
      do 2 (split; [done|]). split; [|split; [done|split; [done|split; [done|apply V2]]]].
      erewrite bind_Ok by (unfold try; rewrite (on_host_eq _ _ _ _ _ _ E2); reflexivity). reflexivity.
  - rewrite app_assoc in V1.
    destruct (ServerHandshake_refuses (ry_downstreamAuth r) h1 out v (nonce ++ token) rest V1 Hne)
      as (rnd & h2 & E2 & Hl & V2); [rewrite length_app; lia|].
    destruct (on_clock_reading (h_sys h)) as (now & _ & _ & Hin & _).
    exists now, rnd. rewrite bool_decide_false by done.
    exists None, (h_put_conn (conn_close (h_conn h2)) h2), mt.
    do 2 (split; [done|]). split; [|split; [done|split; [done|split; [done|apply V2]]]].
    erewrite bind_Ok by (unfold try; rewrite (on_host_eq _ _ _ _ _ _ E2); reflexivity). reflexivity.
Qed.

(** ** The upstream session *)

Section maintenance.
Variable r : Relay.

(** Sessions that were replaced are closed. *)
Definition no_leak (u : upstream) : Prop := Forall (λ s, ms_closed s = true) (ul_closed u).

(** Whether a turn would get a new session: the dial, the authentication in the
    environment it meets and the session all succeed. *)
Definition reaches (k : tick) (u : upstream) : bool :=
  match tk_dial k with
  | Ok c =>
      match ClientHandshake (ry_upstreamAuth r) (Host c (ul_sys u) None) with
      | (Ok _, h) =>
          match tk_session k (relay_shaping r (upstreamPersonality r)) (relay_smux r) (h_conn h) with
          | Ok s => negb (ms_closed s)
          | _ => false
          end
      | _ => false
      end
  | _ => false
  end.

(** Neither the dialler nor the session constructor panics, and a session that
    was just made is open. *)
Definition tick_ok (k : tick) : Prop :=
  is_panic (tk_dial k) = false ∧
  ∀ p c raw, match tk_session k p c raw with Ok s => ms_closed s = false | Err _ => True | Panic => False end.

Lemma connectUpstream_run k u :
  tick_ok k → no_leak u →
  ∃ o u', connectUpstream r (tk_dial k) (tk_session k) u = (o, u') ∧ no_leak u' ∧ is_ok o = reaches k u ∧
    is_panic o = false ∧
    if reaches k u then usable (ul_session u') = true else ul_session u' = ul_session u.
Proof.
  intros [Hd Hs] Hu. unfold connectUpstream, reaches.
  destruct (tk_dial k) as [raw|e|]; [|by do 2 eexists|done].
  erewrite bind_Ok by (by apply wrap_Ok).
  pose proof (safe_ClientHandshake false (ry_upstreamAuth r) (Host raw (ul_sys u) None) eq_refl) as Hnp.
  destruct (ClientHandshake (ry_upstreamAuth r) (Host raw (ul_sys u) None)) as [a h] eqn:E.
  assert (Ea : upstream_auth r raw u = (match a with Ok _ => Ok (h_conn h) | Err e => Err e | Panic => Panic end,
                                        Up (h_sys h) (ul_session u) (ul_closed u)))
    by (unfold upstream_auth; rewrite E; by destruct a).
  destruct a as [sid|e|]; [| |done].
  - erewrite bind_Ok by (apply wrap_Ok; exact Ea). specialize (Hs (relay_shaping r (upstreamPersonality r)) (relay_smux r) (h_conn h)).
    destruct (tk_session k _ _ _) as [s|e|]; [|by do 2 eexists|done]. rewrite Hs.
    do 2 eexists. split; [reflexivity|]. split_and!; [|done|done|cbn; by rewrite Hs].
    unfold no_leak. cbn [ul_closed ul_session]. apply Forall_app_2; [|done].
    destruct (ul_session u); cbn; by repeat constructor.
  - erewrite bind_Err by (apply wrap_Err; exact Ea). by do 2 eexists.
Qed.

Lemma maintain_turn_run k u :
  tick_ok k → no_leak u →
  ∃ u', maintain_turn r k u = (Ok tt, u') ∧ no_leak u' ∧
    if usable (ul_session u) && negb (tk_broken k) then u' = u
    else usable (ul_session u') = reaches k u ∧ (is_Some (ul_session u) → is_Some (ul_session u')).
Proof.
  intros Hk Hu. unfold maintain_turn.
  set (u1 := if tk_broken k then Up (ul_sys u) (close_session <$> ul_session u) (ul_closed u) else u).
  erewrite (bind_Ok _ _ u tt u1) by (unfold u1; by destruct (tk_broken k)).
  erewrite bind_Ok by reflexivity.
  assert (Hb : usable (ul_session u1) = usable (ul_session u) && negb (tk_broken k)).
  { unfold u1. destruct (tk_broken k); [|by rewrite andb_true_r]. rewrite andb_false_r.
    by destruct (ul_session u). }
  rewrite <- Hb. destruct (usable (ul_session u1)) eqn:Hus.
  - exists u1. unfold u1 in *. destruct (tk_broken k); [by rewrite andb_false_r in Hb|done].
  - assert (Hr : reaches k u1 = reaches k u) by (unfold reaches, u1; by destruct (tk_broken k)).
    assert (Hu1 : no_leak u1) by (unfold u1; by destruct (tk_broken k)).
    destruct (connectUpstream_run k u1 Hk Hu1) as (o & u' & E & Hu' & _ & Hnp & Hcase). rewrite Hr in Hcase.
    exists u'. split; [unfold ignore, try, bind; rewrite E; by destruct o|]. split; [done|].
    destruct (reaches k u).
    + split; [done|]. intros _. by destruct (ul_session u').
    + rewrite Hcase. split; [done|]. unfold u1. destruct (tk_broken k); [|done]. cbn. by rewrite fmap_is_Some.
Qed.

Lemma upstreamMaintain_run ks u :
  Forall tick_ok ks → no_leak u →
  ∃ u', upstreamMaintain r ks u = (Ok tt, u') ∧ no_leak u' ∧ (is_Some (ul_session u) → is_Some (ul_session u')).
Proof.
  intros Hks. revert u. induction Hks as [|k ks Hk Hks IH]; intros u Hu; [by exists u|].
  destruct (maintain_turn_run k u Hk Hu) as (u1 & E1 & Hu1 & H1).
  destruct (IH u1 Hu1) as (u' & E & Hu' & H'). exists u'.
  cbn [upstreamMaintain each]. erewrite bind_Ok by exact E1. split; [exact E|]. split; [done|].
  intros Hs. apply H'. destruct (_ && _); [by subst|by apply H1].
Qed.

Lemma each_app {S A} (f : A → M S unit) l1 l2 s s' :
  each f l1 s = (Ok tt, s') → each f (l1 ++ l2) s = each f l2 s'.
Proof.
  revert s. induction l1 as [|a l1 IH]; intros s; cbn [each app]; [by intros [= ->]|].
  unfold bind. destruct (f a s) as [[] s1]; [apply IH|done|done].
Qed.

(** C29. The upstream session.  Once [Run] has connected, [upstreamMaintain]
    survives every turn, whatever fails in it; the session pointer never becomes
    nil again, and every session that was replaced has been closed.  After each
    turn the session is usable exactly when it was and did not break, in which
    case the turn did nothing, or the turn's dial, authentication and session
    set-up succeeded.  While it is not usable every request for a stream is
    refused without touching anything. *)
Theorem upstream_maintained first ks k u u1 :
  Forall tick_ok (first :: ks ++ [k]) → no_leak u →
  connectUpstream r (tk_dial first) (tk_session first) u = (Ok tt, u1) →
  ∃ u2 u', RunRelay r first ks u = (Ok tt, u2) ∧ RunRelay r first (ks ++ [k]) u = (Ok tt, u') ∧
    is_Some (ul_session u') ∧ no_leak u' ∧
    usable (ul_session u') = (usable (ul_session u2) && negb (tk_broken k)) || reaches k u2 ∧
    (usable (ul_session u2) && negb (tk_broken k) = true → u' = u2) ∧
    (usable (ul_session u') = false → ∀ t a p, ∃ e, relay_OpenStream t a p u' = (Err e, u')).
Proof.
  intros Hks Hu E0. apply Forall_cons in Hks as [Hf [Hks [Hk _]%Forall_cons]%Forall_app].
  destruct (connectUpstream_run first u Hf Hu) as (o & u1' & E0' & Hu1 & Hok & _ & Hc).
  rewrite E0 in E0'. injection E0' as <- <-. cbn in Hok. rewrite <- Hok in Hc.
  assert (Hs1 : is_Some (ul_session u1)) by (by destruct (ul_session u1)).
  destruct (upstreamMaintain_run ks u1 Hks Hu1) as (u2 & E2 & Hu2 & Hs2). specialize (Hs2 Hs1).
  destruct (maintain_turn_run k u2 Hk Hu2) as (u' & E' & Hu' & H').
  exists u2, u'. split_and!.
  - unfold RunRelay. by erewrite bind_Ok by (apply wrap_Ok; exact E0).
  - unfold RunRelay. erewrite bind_Ok by (apply wrap_Ok; exact E0).
    unfold upstreamMaintain. rewrite (each_app _ _ _ _ _ E2). cbn [each]. by erewrite bind_Ok by exact E'.
  - destruct (_ && _); [by subst|by apply H'].
  - done.
  - destruct (usable (ul_session u2) && negb (tk_broken k)) eqn:Hb; [subst u'|by apply H'].
    apply andb_true_iff in Hb as [-> _]. done.
  - intros Hb. by rewrite Hb in H'.
  - intros Hb t a p. eexists. unfold relay_OpenStream. erewrite bind_Ok by reflexivity. by rewrite Hb.
Qed.
End maintenance.

(** ** The properties at work *)

Lemma relayed_connection_witness :
  let a := str "example.com" in
  let up1 := conn_of (connectOK :: str "HTTP/1.1 200") in
  let u := Up (sys_at 3000) (Some (MSess false [Ok up1])) [] in
  let down := conn_of (connect_bytes AddrDomain a 443 ++ str "hello") in
  let client := TClient (Some (MSess false [Ok up1])) [] (Some Metrics.New) in
  let ht := utf8_Prometheus in
  ∃ q,
  (∃ r c', client_OpenStream AddrDomain a 443 client = (r, c') ∧
     ∃ st, r = Ok st ∧ view st q (str "HTTP/1.1 200")) ∧
  (view down [] (q ++ str "hello") → ∃ s' d st, bridgeStream (MkBridge down u) = (Ok (Bridged (Pipe.Relay d st)), s') ∧
     view d [connectOK] (str "hello") ∧ view st q (str "HTTP/1.1 200")) ∧
  (∀ ss k mt up, view ss [] (q ++ up) →
     ∃ s' st, handleStream dial_ok (SStream ss k (Some mt)) =
       (Ok (Some (Pipe.Relay st (conn_of (str "HTTP/1.1 200")))), s') ∧ view st [connectOK] up).
Proof.
  exact (relayed_connection (H := utf8_Prometheus) AddrDomain (str "example.com") 443 dial_ok
    (conn_of (connectOK :: str "HTTP/1.1 200")) [] [] Metrics.New
    (conn_of (connect_bytes AddrDomain (str "example.com") 443 ++ str "hello")) (str "hello")
    (Up (sys_at 3000) (Some (MSess false [Ok (conn_of (connectOK :: str "HTTP/1.1 200"))])) [])
    (conn_of (connectOK :: str "HTTP/1.1 200")) [] (str "HTTP/1.1 200")
    ltac:(split; [by apply Z.leb_le|by apply Z.leb_le]) ltac:(lia) eq_refl eq_refl eq_refl eq_refl eq_refl (view_conn_of _) (view_conn_of _)).
Defined.

(** A relay with the two keys it needs. *)
Definition relay_cfg : Config := mkConfig ModeRelay (cf_Proxy Defaults) (cf_Tunnel Defaults)
  (mkServer (str ":443") no_tls (mkAuth (str "downstream secret")) [] [] [] (mkDashboard [] false))
  (mkUpstream (str "198.51.100.7:443") no_tls (mkAuth (str "upstream secret")))
  (cf_Metrics Defaults) (cf_Logging Defaults) (cf_PProf Defaults).

(** A registered device knocks: it is refused. *)
Lemma downstream_decision_witness :
  let h := h_put_conn (conn_of (MsgTypeDeviceAuth :: replicate 16 x01 ++ replicate 32 x02 ++ replicate 64 x03)) (host_at 3000 None) in
  ∃ now sid o h' mt', now ∈ clock_readings (s_clock (h_sys h)) ∧ length sid = 16%nat ∧
    handleDownstreamConn (NewRelay relay_cfg) None (World h None (Some Metrics.New)) = (Ok o, World h' None (Some mt')) ∧
    o = None ∧ mt' = Metrics.New ∧ c_closed (h_conn h') = true ∧ c_out (h_conn h') = AuthStatusFail :: sid.
Proof.
  exact (downstream_decision (NewRelay relay_cfg)
    (h_put_conn (conn_of (MsgTypeDeviceAuth :: replicate 16 x01 ++ replicate 32 x02 ++ replicate 64 x03)) (host_at 3000 None))
    Metrics.New [] MsgTypeDeviceAuth (replicate 16 x01) (replicate 32 x02) (replicate 64 x03)
    (view_conn_of _) eq_refl eq_refl ltac:(by apply Nat.leb_le)).
Defined.

(** The session breaks, the first reconnection fails, the second succeeds. *)
Definition server_ok : conn := conn_of (Frame.AuthStatusOK :: replicate 16 x07).
Definition good_tick (broken : bool) : tick := Tick broken (Ok server_ok) (λ _ _ _, Ok (MSess false [])).
Definition bad_tick : tick := Tick true (Err (ErrEnv 111)) (λ _ _ _, Ok (MSess false [])).
Definition up0 : upstream := Up (Sys (clock_at 3000) (stream (be_put 64 99) EOF) (Fs ∅ [])) None [].

Lemma upstream_maintained_witness :
  let r := NewRelay relay_cfg in
  let u1 := snd (connectUpstream r (tk_dial (good_tick false)) (tk_session (good_tick false)) up0) in
  let u2 := snd (RunRelay r (good_tick false) [bad_tick] up0) in
  ∃ u', RunRelay r (good_tick false) ([bad_tick] ++ [good_tick false]) up0 = (Ok tt, u') ∧
    usable (ul_session u2) = false ∧ usable (ul_session u') = true ∧ no_leak u'.
Proof.
  intros r u1 u2.
  assert (E : fst (connectUpstream r (tk_dial (good_tick false)) (tk_session (good_tick false)) up0) = Ok tt)
    by (vm_compute; reflexivity).
  destruct (upstream_maintained r (good_tick false) [bad_tick] (good_tick false) up0 u1)
    as (u2' & u' & E2 & E' & _ & Hl & Hus & _).
  - by repeat constructor.
  - constructor.
  - unfold u1. by rewrite <- E, <- surjective_pairing.
  - assert (u2' = u2) as -> by (unfold u2; by rewrite E2).
    assert (Hb : usable (ul_session u2) = false) by (vm_compute; reflexivity).
    assert (Hr : reaches r (good_tick false) u2 = true) by (vm_compute; reflexivity).
    exists u'. rewrite Hus, Hr, orb_true_r. done.
Defined.
