(* ===== verification/Upstream.v ===== *)
(** The upstream session of a relay as its goroutines share it
    ([internal/relay/relay.go]).  [r.upstreamSession] is a plain field: every
    bridged stream reads it in [OpenStream], three times in a row and without a
    lock, while [upstreamMaintain] tests it and [connectUpstream] closes and
    replaces what it points to.  Here every read and write of the field and of
    the closed flag behind it is one step, and the steps of the goroutines
    interleave.  (Bridge has the same code as functions, one call at a time;
    [opener_alone] relates the two.) *)

From Stdlib Require Import Strings.String ZArith Lia.
From stdpp Require Import base list gmap relations.
From S2P Require Import Prelude Io Auth Tunnel Bridge.

(** ** The shared store: sessions by address, [true] for closed, and the field *)

Record store := Store { sessions : gmap nat bool; upstreamSession : option nat }.

Definition IsClosed (g : store) (s : nat) : bool := default true (sessions g !! s).
Definition close_at (s : nat) (g : store) : store := Store (alter (λ _, true) s (sessions g)) (upstreamSession g).

(** ** A goroutine in [OpenStream], by its next read of the field, or its end

    [Got s]: with a stream of the session at [s]; [Crashed]: the field was nil
    when it was dereferenced. *)
Inductive opener : Type :=
  | TestNil | TestClosed | Open
  | NotConnected | OpenFailed | Got (s : nat) | Crashed.

(** [ok]: whether a session that is not closed gives a stream. *)
Definition opener_step (ok : bool) (g : store) (o : opener) : opener :=
  match o, upstreamSession g with
  | TestNil, None => NotConnected
  | TestNil, Some _ => TestClosed
  | TestClosed, Some s => if IsClosed g s then NotConnected else Open
  | Open, Some s => if IsClosed g s || negb ok then OpenFailed else Got s
  | (TestClosed | Open), None => Crashed
  | _, _ => o
  end.

(** ** The goroutine that connects

    [Connecting]: in the dial, the handshake or the set-up of the session;
    [Made s]: with the new session, before the old one is closed; [Closed s]:
    before the field is written; [Waiting]: in the [select]; [Testing] and
    [Testing2]: at the two reads of the loop's test; [Failed]: the first
    connection failed and [Run] returned. *)
Inductive connector : Type :=
  | Connecting | Made (s : nat) | Closed (s : nat)
  | Waiting | Testing | Testing2 | Failed | Stopped | Crashed2.

(** [run_serving]: [Run] has reached [listenDownstream]. *)
Record running := Running { run_store : store; run_serving : bool; run_connector : connector; run_openers : list opener }.

Definition start : running := Running (Store ∅ None) false Connecting [].

Definition held (c : connector) : option nat := match c with Made s | Closed s => Some s | _ => None end.

Inductive connect_step (g : store) (serving : bool) : connector → store → bool → connector → Prop :=
  | connect_fails : connect_step g serving Connecting g serving (if serving then Waiting else Failed)
  | connect_makes s : sessions g !! s = None →
      connect_step g serving Connecting (Store (<[s := false]> (sessions g)) (upstreamSession g)) serving (Made s)
  | connect_closes s : connect_step g serving (Made s)
      (match upstreamSession g with Some old => close_at old g | None => g end) serving (Closed s)
  | connect_installs s : connect_step g serving (Closed s) (Store (sessions g) (Some s)) true Waiting
  | maintain_stops : connect_step g serving Waiting g serving Stopped
  | maintain_wakes : connect_step g serving Waiting g serving Testing
  | maintain_tests : connect_step g serving Testing g serving
      (match upstreamSession g with Some _ => Testing2 | None => Connecting end)
  | maintain_tests2 : connect_step g serving Testing2 g serving
      (match upstreamSession g with
       | Some s => if IsClosed g s then Connecting else Waiting
       | None => Crashed2
       end).

Inductive step : running → running → Prop :=
  | step_connect g b c os g' b' c' :
      connect_step g b c g' b' c' → step (Running g b c os) (Running g' b' c' os)
  (** a session breaks *)
  | step_break s g b c os : step (Running g b c os) (Running (close_at s g) b c os)
  (** a downstream stream arrives *)
  | step_arrive g c os : step (Running g true c os) (Running g true c (os ++ [TestNil]))
  | step_open i o ok g b c os : os !! i = Some o →
      step (Running g b c os) (Running g b c (<[i := opener_step ok g o]> os)).

(** ** The invariant *)

Record inv (r : running) : Prop := {
  (** once the relay serves, the field is not nil, and what it points to exists *)
  inv_set : run_serving r = true → is_Some (upstreamSession (run_store r));
  inv_known s : upstreamSession (run_store r) = Some s → is_Some (sessions (run_store r) !! s);
  (** nobody has looked before *)
  inv_quiet : run_serving r = false → run_openers r = [] ∧ run_connector r ∉ [Waiting; Testing; Testing2];
  inv_held s : held (run_connector r) = Some s → is_Some (sessions (run_store r) !! s) ∧ upstreamSession (run_store r) ≠ Some s;
  (** a session that is open is the current one or about to become it *)
  inv_open s : sessions (run_store r) !! s = Some false →
    upstreamSession (run_store r) = Some s ∨ held (run_connector r) = Some s;
  inv_closing s : run_connector r = Closed s → ∀ s', sessions (run_store r) !! s' = Some false → s' = s;
  inv_safe : run_connector r ≠ Crashed2 ∧ Crashed ∉ run_openers r
}.

Lemma start_inv : inv start.
Proof.
  split; cbn; try done; (intros _ || idtac); (split; [done|]); rewrite ?not_elem_of_cons; split_and?; try done; apply not_elem_of_nil.
Qed.

Lemma close_at_open s g s' : sessions (close_at s g) !! s' = Some false → sessions g !! s' = Some false ∧ s' ≠ s.
Proof.
  cbn. destruct (decide (s' = s)) as [->|Hne].
  - rewrite lookup_alter_eq. by destruct (sessions g !! s).
  - by rewrite lookup_alter_ne.
Qed.

Lemma close_at_known s g s' : is_Some (sessions (close_at s g) !! s') ↔ is_Some (sessions g !! s').
Proof.
  cbn. destruct (decide (s' = s)) as [->|Hne].
  - rewrite lookup_alter_eq. by destruct (sessions g !! s); split; intros [].
  - by rewrite lookup_alter_ne.
Qed.

Lemma inv_break s g b c os : inv (Running g b c os) → inv (Running (close_at s g) b c os).
Proof.
  intros [I1 I2 I3 I4 I5 I6 I7]. split; cbn -[close_at sessions] in *; try done.
  - intros s' Hs'. apply close_at_known. by apply I2.
  - intros s' Hs'. destruct (I4 s' Hs') as [Hk Hn]. split; [by apply close_at_known|done].
  - intros s' [Hs' _]%close_at_open. by apply I5.
  - intros s' Hc s2 [Hs2 _]%close_at_open. by eapply I6.
Qed.

Lemma inv_connect g b c os g' b' c' :
  connect_step g b c g' b' c' → inv (Running g b c os) → inv (Running g' b' c' os).
Proof.
  intros Hs [I1 I2 I3 I4 I5 I6 [I7 I8]]; cbn in *.
  assert (Hearly : ∀ c2, b = false → c2 ∉ [Waiting; Testing; Testing2] → os = [] ∧ c2 ∉ [Waiting; Testing; Testing2])
    by (intros c2 Hb Hc; by destruct (I3 Hb) as [-> _]).
  assert (Hlate : c ∈ [Waiting; Testing; Testing2] → b = true)
    by (intros Hc; destruct b; [done|by destruct (I3 eq_refl) as [_ []]]).
  destruct Hs as [|s Hs|s|s| | | |]; cbn in *.
  - destruct b; split; cbn; try done. intros _. apply Hearly; [done|]. rewrite !not_elem_of_cons; split_and!; try done; apply not_elem_of_nil.
  - split; cbn; try done.
    + intros s' Hs'. destruct (decide (s' = s)) as [->|]; [by rewrite lookup_insert_eq|rewrite lookup_insert_ne by done; auto].
    + intros Hb. apply Hearly; [done|]. rewrite !not_elem_of_cons; split_and!; try done; apply not_elem_of_nil.
    + intros s' [= <-]. rewrite lookup_insert_eq. split; [done|]. intros E. destruct (I2 s E). congruence.
    + intros s'. destruct (decide (s' = s)) as [->|]; [by right|]. rewrite lookup_insert_ne by done.
      intros [E|E]%I5; [by left|done].
  - destruct (I4 s eq_refl) as [Hk Hn].
    assert (Hq : b = false → os = [] ∧ Closed s ∉ [Waiting; Testing; Testing2])
      by (intros Hb; apply Hearly; [done|]; rewrite !not_elem_of_cons; split_and!; try done; apply not_elem_of_nil).
    destruct (upstreamSession g) as [old|] eqn:Eo.
    + assert (old ≠ s) by congruence. assert (Eu : upstreamSession (close_at old g) = Some old) by exact Eo.
      split; cbn -[close_at sessions upstreamSession]; rewrite ?Eu; try done.
      * intros s' [= <-]. apply close_at_known. by apply I2.
      * intros s' [= <-]. by rewrite close_at_known.
      * intros s' [[[= ->]|[= ->]]%I5 Hne]%close_at_open; [done|by right].
      * intros s' [= <-] s2 [[[= ->]|[= ->]]%I5 Hne]%close_at_open; done.
    + split; cbn; rewrite ?Eo; try done.
      intros s' [= <-] s2 [E|[= ->]]%I5; [congruence|done].
  - destruct (I4 s eq_refl) as [Hk Hn]. split; cbn; try done.
    + by intros s' [= <-].
    + intros s' E. left. f_equal. symmetry. by eapply I6.
  - rewrite (Hlate ltac:(repeat constructor)) in *. by split.
  - rewrite (Hlate ltac:(repeat constructor)) in *. by split.
  - rewrite (Hlate ltac:(repeat constructor)) in *. destruct (upstreamSession g) as [s|] eqn:Eu; split; cbn; rewrite ?Eu; done.
  - rewrite (Hlate ltac:(repeat constructor)) in *. destruct (I1 eq_refl) as [s Eu]. rewrite Eu in *.
    destruct (IsClosed g s); split; cbn; rewrite ?Eu; done.
Qed.

(** The field is never nil where it is dereferenced. *)
Lemma opener_safe ok g o : is_Some (upstreamSession g) → o ≠ Crashed → opener_step ok g o ≠ Crashed.
Proof.
  intros [s Es] Ho. unfold opener_step. rewrite Es. destruct o; try done; by destruct (IsClosed g s), ok.
Qed.

Lemma inv_opener i o ok g b c os :
  os !! i = Some o → inv (Running g b c os) → inv (Running g b c (<[i := opener_step ok g o]> os)).
Proof.
  intros Hi [I1 I2 I3 I4 I5 I6 [I7 I8]]; cbn in *. split; cbn; try done.
  - intros Hb. destruct (I3 Hb) as [-> Hq]. done.
  - split; [done|]. destruct b; [|by destruct (I3 eq_refl) as [-> _]].
    intros (j & Hj)%list_elem_of_lookup. apply list_lookup_insert_Some in Hj as [(<- & Ej & _)|[_ Hj]].
    + apply (opener_safe ok g o (I1 eq_refl)); [|done]. intros ->. apply I8. by eapply list_elem_of_lookup_2.
    + apply I8. by eapply list_elem_of_lookup_2.
Qed.

Lemma upstream_step_inv r r' : step r r' → inv r → inv r'.
Proof.
  intros [g b c os g' b' c' Hs|s g b c os|g c os|i o ok g b c os Hi] Hinv.
  - by eapply inv_connect.
  - by apply inv_break.
  - destruct Hinv as [I1 I2 I3 I4 I5 I6 [I7 I8]]. split; cbn in *; try done. split; [done|].
    intros [?|?%list_elem_of_singleton]%elem_of_app; done.
  - by apply inv_opener.
Qed.

Lemma upstream_inv r : rtc step start r → inv r.
Proof. intros Hr. pattern r. eapply rtc_ind_r; [apply start_inv| |exact Hr]. intros x y _ Hs Hx. by eapply upstream_step_inv. Qed.

(** Undisturbed, the three reads are what Bridge's [relay_OpenStream] does: it
    refuses, fails to open a stream, or goes on with one. *)
Definition stands_for (g : store) (u : upstream) : Prop :=
  match ul_session u with
  | None => upstreamSession g = None
  | Some m => ∃ s, upstreamSession g = Some s ∧ sessions g !! s = Some (ms_closed m)
  end.
Definition next_stream (u : upstream) : bool := is_ok (fst (upstream_stream u)).

Lemma opener_alone g u t a p : stands_for g u →
  let turn := opener_step (next_stream u) g in
  match turn (turn (turn TestNil)) with
  | NotConnected => relay_OpenStream t a p u = (Err (ErrNew "relay: upstream not connected" []), u)
  | OpenFailed => usable (ul_session u) = true ∧ is_ok (fst (upstream_stream u)) = false
  | Got _ => usable (ul_session u) = true ∧ is_ok (fst (upstream_stream u)) = true
  | _ => False
  end.
Proof.
  intros Hg. cbv zeta. unfold stands_for, relay_OpenStream in *. unfold opener_step. erewrite bind_Ok by reflexivity.
  destruct (ul_session u) as [m|] eqn:Eu; [|by rewrite Hg].
  destruct Hg as (s & Es & Em). rewrite Es. unfold IsClosed. rewrite Em. cbn [default usable].
  destruct (ms_closed m); [done|]. cbn [negb orb].
  unfold next_stream. by destruct (is_ok (fst (upstream_stream u))) eqn:E.
Qed.

(** A run in which the session that passed the test is not the one that gives
    the stream: it breaks and is replaced in between. *)
Ltac go := eapply rtc_l; [|].
Lemma overtaken_run :
  rtc step start (Running (Store {[ 1%nat := false; 0%nat := true ]} (Some 1%nat)) true Waiting [Got 1%nat]).
Proof.
  go. { apply step_connect, (connect_makes _ _ 0%nat). done. }
  go. { apply step_connect, connect_closes. }
  go. { apply step_connect, connect_installs. }
  go. { apply step_arrive. }
  go. { apply (step_open 0 TestNil true). done. }
  go. { apply (step_open 0 TestClosed true). done. }
  go. { apply (step_break 0%nat). }
  go. { apply step_connect, maintain_wakes. }
  go. { apply step_connect, maintain_tests. }
  go. { apply step_connect, maintain_tests2. }
  go. { apply step_connect, (connect_makes _ _ 1%nat). done. }
  go. { apply step_connect, connect_closes. }
  go. { apply step_connect, connect_installs. }
  go. { apply (step_open 0 Open true). done. }
  apply rtc_refl.
Qed.

(** C15. The relay's upstream session under concurrency.  However the goroutines
    interleave, and whenever sessions break: the field is never nil where it is
    dereferenced, so none of them panics; no session is leaked, since every one
    that is open is the current one or is about to replace it; a bridged stream is refused as
    not connected only when the session it finds at that moment is closed; and
    the stream it gets belongs to a session that is current and open then, which
    need not be the one that passed the test. *)
Theorem upstream_race r :
  rtc step start r →
  (run_connector r ≠ Crashed2 ∧ Crashed ∉ run_openers r) ∧
  (∀ s, sessions (run_store r) !! s = Some false →
     upstreamSession (run_store r) = Some s ∨ held (run_connector r) = Some s) ∧
  (∀ i o ok, run_openers r !! i = Some o → o ∈ [TestNil; TestClosed; Open] →
     match opener_step ok (run_store r) o with
     | NotConnected => ∃ s, upstreamSession (run_store r) = Some s ∧ sessions (run_store r) !! s = Some true
     | Got s => upstreamSession (run_store r) = Some s ∧ sessions (run_store r) !! s = Some false
     | Crashed => False
     | _ => True
     end).
Proof.
  intros Hr. destruct (upstream_inv r Hr) as [I1 I2 I3 _ I5 _ I7].
  split; [done|]. split; [exact I5|]. intros i o ok Hi Ho.
  assert (Hb : run_serving r = true).
  { destruct (run_serving r); [done|]. destruct (I3 eq_refl) as [E _]. by rewrite E in Hi. }
  destruct (I1 Hb) as [s Es]. destruct (I2 s Es) as [cl Ec]. unfold opener_step, IsClosed. rewrite Es, Ec. cbn [default].
  rewrite !elem_of_cons in Ho. destruct Ho as [->|[->|[->|Ho]]]; [done| | |by apply elem_of_nil in Ho].
  - destruct cl; [by exists s|done].
  - by destruct cl, ok.
Qed.

Lemma upstream_race_witness :
  rtc step start (Running (Store {[ 1%nat := false; 0%nat := true ]} (Some 1%nat)) true Waiting [Got 1%nat]) ∧
  ∀ s, ({[ 1%nat := false; 0%nat := true ]} : gmap nat bool) !! s = Some false → Some 1%nat = Some s ∨ @None nat = Some s.
Proof.
  split; [exact overtaken_run|]. destruct (upstream_race _ overtaken_run) as (_ & H2 & _). exact H2.
Defined.
