(* ===== verification/Invite.v ===== *)
(** [pkg/invite/invite.go], first half: the invite link, its payload, its
    encoding as base64url of JSON, and its signature.  [encoding/base64] and
    [strings.TrimSpace] are modelled; [encoding/json] is the interface of Io. *)

From Stdlib Require Import Strings.Byte String ZArith Lia.
From stdpp Require Import base list countable.
From S2P Require Import Prelude Encoding Io Hash Identity.

(** ** encoding/base64, URL alphabet *)

Definition alphabet : bytes := str "ABCDEFGHIJKLMNOPQRSTUVWXYZabcdefghijklmnopqrstuvwxyz0123456789-_".
Definition b64_char (d : Z) : byte := nth (Z.to_nat d) alphabet x00.
Definition b64_digit (c : byte) : option Z :=
  (λ p, Z.of_nat p.1) <$> list_find (λ a, a = c) alphabet.

(** [RawURLEncoding.EncodeToString] *)
Fixpoint b64_encode (bs : bytes) : bytes :=
  match bs with
  | b0 :: b1 :: b2 :: rest =>
      let v := Z_of_byte b0 * 2 ^ 16 + Z_of_byte b1 * 2 ^ 8 + Z_of_byte b2 in
      b64_char (v / 2 ^ 18) :: b64_char ((v / 2 ^ 12) `mod` 64) :: b64_char ((v / 2 ^ 6) `mod` 64)
        :: b64_char (v `mod` 64) :: b64_encode rest
  | [b0; b1] =>
      let v := Z_of_byte b0 * 2 ^ 16 + Z_of_byte b1 * 2 ^ 8 in
      [b64_char (v / 2 ^ 18); b64_char ((v / 2 ^ 12) `mod` 64); b64_char ((v / 2 ^ 6) `mod` 64)]
  | [b0] =>
      let v := Z_of_byte b0 * 2 ^ 16 in [b64_char (v / 2 ^ 18); b64_char ((v / 2 ^ 12) `mod` 64)]
  | [] => []
  end.

(** The bytes of a group of 2, 3 or 4 characters; trailing bits are ignored. *)
Definition b64_group (cs : bytes) : option bytes :=
  ds ← mapM b64_digit cs;
  let v := match ds with
           | [a; b] => a * 2 ^ 18 + b * 2 ^ 12
           | [a; b; c] => a * 2 ^ 18 + b * 2 ^ 12 + c * 2 ^ 6
           | [a; b; c; d] => a * 2 ^ 18 + b * 2 ^ 12 + c * 2 ^ 6 + d
           | _ => 0
           end in
  Some (take (length cs - 1) [byte_of_Z (v / 2 ^ 16); byte_of_Z (v / 2 ^ 8); byte_of_Z v]).

(** [RawURLEncoding.DecodeString], line breaks removed. *)
Fixpoint b64_decode_raw (cs : bytes) : option bytes :=
  match cs with
  | a :: b :: c :: d :: rest =>
      g ← b64_group [a; b; c; d]; r ← b64_decode_raw rest; Some (g ++ r)
  | [a; b; c] => b64_group [a; b; c]
  | [a; b] => b64_group [a; b]
  | [_] => None
  | [] => Some []
  end.

(** [URLEncoding.DecodeString]: the last group is padded with [=] to four. *)
Definition pad : byte := x3d.
Fixpoint b64_decode_padded (cs : bytes) : option bytes :=
  match cs with
  | a :: b :: c :: d :: rest =>
      if bool_decide (d = pad) then
        if negb (bool_decide (rest = [])) then None
        else if bool_decide (c = pad) then b64_group [a; b] else b64_group [a; b; c]
      else g ← b64_group [a; b; c; d]; r ← b64_decode_padded rest; Some (g ++ r)
  | [] => Some []
  | _ => None
  end.

(** Line breaks are skipped wherever they are. *)
Definition strip_newlines (cs : bytes) : bytes :=
  filter (λ c, negb (bool_decide (c = x0a) || bool_decide (c = x0d)) = true) cs.

Definition illegal_base64 : error := ErrNew "illegal base64 data" [].
Definition RawURL_DecodeString (s : bytes) : result bytes :=
  match b64_decode_raw (strip_newlines s) with Some d => Ok d | None => Err illegal_base64 end.
Definition URL_DecodeString (s : bytes) : result bytes :=
  match b64_decode_padded (strip_newlines s) with Some d => Ok d | None => Err illegal_base64 end.

(** ** strings.TrimSpace: the white space of Unicode, in UTF-8 *)

Definition ascii_space (b : byte) : bool :=
  bool_decide (b ∈ [x09; x0a; x0b; x0c; x0d; x20]).
Definition wide_spaces : list bytes :=
  [[xc2; x85]; [xc2; xa0]; [xe1; x9a; x80]; [xe2; x80; xa8]; [xe2; x80; xa9]; [xe2; x80; xaf];
   [xe2; x81; x9f]; [xe3; x80; x80]] ++
  map (λ b, [xe2; x80; b]) [x80; x81; x82; x83; x84; x85; x86; x87; x88; x89; x8a].

(** The length of the space the text starts with, among those spelt as [wide];
    0 for none. *)
Definition space_len (wide : list bytes) (s : bytes) : nat :=
  match s with
  | [] => 0
  | b :: _ =>
      if ascii_space b then 1
      else match list_find (λ w, take (length w) s = w) wide with
           | Some (_, w) => length w
           | None => 0
           end
  end.
Fixpoint trim_left (fuel : nat) (wide : list bytes) (s : bytes) : bytes :=
  match fuel with
  | O => s
  | S fuel' => match space_len wide s with O => s | n => trim_left fuel' wide (drop n s) end
  end.
Definition TrimSpace (s : bytes) : bytes :=
  let l := trim_left (length s) wide_spaces s in
  rev (trim_left (length l) (map (@rev byte) wide_spaces) (rev l)).

Example TrimSpace_tests :
  map TrimSpace [str "  daxson "; [xc2; xa0; x61; xe2; x80; x83; x0a]; str ""; str " "] =
  [str "daxson"; [x61]; []; []].
Proof. vm_compute. reflexivity. Qed.

(** ** The payload *)

Definition Scheme : bytes := str "daxson://v1/".

Record Payload := mkPayload {
  pl_Version : Z;
  pl_Server : bytes;
  pl_ServerKey : bytes;
  pl_Token : bytes;
  pl_Label : bytes;
  pl_MaxUses : Z;
  pl_ExpiresAt : Z;
  pl_Sig : bytes
}.

#[global] Instance Payload_eq_dec : EqDecision Payload.
Proof. solve_decision. Defined.
#[global] Instance Payload_countable : Countable Payload.
Proof.
  refine (inj_countable' (λ p, (pl_Version p, pl_Server p, pl_ServerKey p, pl_Token p, pl_Label p,
      pl_MaxUses p, pl_ExpiresAt p, pl_Sig p))
    (λ t, let '(a, b, c, d, e, f, g, h) := t in mkPayload a b c d e f g h) _). by intros [].
Defined.

Definition set_Sig (sig : bytes) (p : Payload) : Payload :=
  mkPayload (pl_Version p) (pl_Server p) (pl_ServerKey p) (pl_Token p) (pl_Label p)
    (pl_MaxUses p) (pl_ExpiresAt p) sig.

Section invite.
Context `{JSON Payload}.

(** The error of [json.Marshal] is dropped: the data is then empty. *)
Definition Encode (p : Payload) : bytes :=
  let data := match json_marshal p with Ok d => d | _ => [] end in
  Scheme ++ b64_encode data.

(** The checks [Decode] ends with. *)
Definition check_payload (p : Payload) : result Payload :=
  if negb (pl_Version p =? 1) then Err (ErrNew "invite: unsupported version %d (need v1)" [pl_Version p])
  else if bool_decide (pl_Server p = []) then Err (ErrNew "invite: missing server address" [])
  else if negb (len (pl_Token p) =? 32) then Err (ErrNew "invite: token must be 32 bytes (got %d)" [len (pl_Token p)])
  else Ok p.

Definition Decode (link : bytes) : result Payload :=
  let link := TrimSpace link in
  if negb (bool_decide (take (length Scheme) link = Scheme))
  then Err (ErrNew "invite: not a daxson:// link (got %q)" []) else
  let encoded := drop (length Scheme) link in
  let data := match RawURL_DecodeString encoded with
              | Err _ => match URL_DecodeString encoded with
                         | Err e => Err (ErrWrap "invite: invalid base64" e)
                         | o => o
                         end
              | o => o
              end in
  match data with
  | Err e => Err e
  | Panic => Panic
  | Ok data =>
      match json_unmarshal data with
      | Err e => Err (ErrWrap "invite: parse payload" e)
      | Panic => Panic
      | Ok p => check_payload p
      end
  end.

(** [Sign] and [VerifySignature] run on the payload they point to: the
    signature is cleared while the signed message is made. *)
Definition Sign `{Ed25519} (serverPrivKey : bytes) : M Payload unit :=
  modify (set_Sig []) ;;;
  p <- gets id ;;
  msg <- wrap "invite: marshal for sign" (lift (json_marshal p)) ;;
  sig <- lift (ed25519_Sign serverPrivKey msg) ;;
  modify (set_Sig sig).

Definition VerifySignature `{Ed25519} : M Payload unit :=
  p <- gets id ;;
  if negb (len (pl_ServerKey p) =? 32) then fail (ErrNew "invite: server key length %d != 32" [len (pl_ServerKey p)]) else
  if len (pl_Sig p) =? 0 then fail (ErrNew "invite: missing signature" []) else
  let sig := pl_Sig p in
  modify (set_Sig []) ;;;
  defer (set_Sig sig) (
    p <- gets id ;;
    msg <- wrap "invite: marshal for verify" (lift (json_marshal p)) ;;
    ok <- lift (ed25519_Verify (pl_ServerKey p) msg sig) ;;
    if negb ok then fail (ErrNew "invite: signature verification failed" []) else ret tt).
End invite.

Definition IsExpired (p : Payload) : M clock bool :=
  if pl_ExpiresAt p =? 0 then ret false
  else now <- time_Now ;; ret (unix now >? pl_ExpiresAt p).

Definition TokenFingerprint (p : Payload) : bytes := hex_encode (take 4 (sha256 (pl_Token p))).

(** ** base64 round trips *)

#[local] Arguments b64_digit : simpl never.
#[local] Arguments b64_char : simpl never.

Lemma b64_digit_char d : 0 <= d < 64 → b64_digit (b64_char d) = Some d.
Proof.
  intros Hd. assert (Hall : forallb (λ n, bool_decide (b64_digit (nth n alphabet x00) = Some (Z.of_nat n))) (seq 0 64) = true)
    by (vm_compute; reflexivity).
  rewrite forallb_forall in Hall. specialize (Hall (Z.to_nat d)).
  rewrite bool_decide_eq_true in Hall. unfold b64_char. rewrite Hall by (apply in_seq; lia). f_equal. lia.
Qed.

Lemma byte_pieces b0 b1 b2 v :
  v = Z_of_byte b0 * 2 ^ 16 + Z_of_byte b1 * 2 ^ 8 + Z_of_byte b2 →
  byte_of_Z (v / 2 ^ 16) = b0 ∧ byte_of_Z (v / 2 ^ 8) = b1 ∧ byte_of_Z v = b2 ∧ 0 <= v < 2 ^ 24.
Proof.
  intros ->. pose proof (Z_of_byte_range b0). pose proof (Z_of_byte_range b1). pose proof (Z_of_byte_range b2).
  split_and!; try lia; apply Z_of_byte_inj; rewrite Z_of_byte_of_Z; Z.to_euclidean_division_equations; lia.
Qed.

Lemma mapM_b64_chars ds :
  Forall (λ d, 0 <= d < 64) ds → mapM b64_digit (map b64_char ds) = Some ds.
Proof. induction 1 as [|d ds Hd _ IH]; [done|]. cbn. rewrite b64_digit_char by done. cbn. by rewrite IH. Qed.

Lemma six_bits v :
  0 <= v < 2 ^ 24 →
  0 <= v / 2 ^ 18 < 64 ∧ 0 <= (v / 2 ^ 12) `mod` 64 < 64 ∧ 0 <= (v / 2 ^ 6) `mod` 64 < 64 ∧ 0 <= v `mod` 64 < 64 ∧
  v = v / 2 ^ 18 * 2 ^ 18 + (v / 2 ^ 12) `mod` 64 * 2 ^ 12 + (v / 2 ^ 6) `mod` 64 * 2 ^ 6 + v `mod` 64.
Proof.
  intros Hv. change (2 ^ 24) with 16777216 in Hv. change (2 ^ 18) with (64 * 64 * 64).
  change (2 ^ 12) with (64 * 64). change (2 ^ 6) with 64. rewrite <- !Z.div_div by lia.
  Z.to_euclidean_division_equations; lia.
Qed.

Lemma b64_group3 b0 b1 b2 :
  let v := Z_of_byte b0 * 2 ^ 16 + Z_of_byte b1 * 2 ^ 8 + Z_of_byte b2 in
  b64_group (map b64_char [v / 2 ^ 18; (v / 2 ^ 12) `mod` 64; (v / 2 ^ 6) `mod` 64; v `mod` 64]) = Some [b0; b1; b2].
Proof.
  intros v. destruct (byte_pieces b0 b1 b2 v eq_refl) as (E0 & E1 & E2 & Hv).
  destruct (six_bits v Hv) as (Hd0 & Hd1 & Hd2 & Hd3 & Hsum).
  unfold b64_group. rewrite mapM_b64_chars by (repeat (apply List.Forall_cons; [assumption|]); apply List.Forall_nil).
  cbn [mbind option_bind length map take Nat.sub].
  rewrite <- Hsum.
  by rewrite E0, E1, E2.
Qed.

Lemma b64_group2 b0 b1 :
  let v := Z_of_byte b0 * 2 ^ 16 + Z_of_byte b1 * 2 ^ 8 in
  b64_group (map b64_char [v / 2 ^ 18; (v / 2 ^ 12) `mod` 64; (v / 2 ^ 6) `mod` 64]) = Some [b0; b1].
Proof.
  intros v. destruct (byte_pieces b0 b1 x00 v) as (E0 & E1 & _ & Hv); [change (Z_of_byte x00) with 0; lia|].
  destruct (six_bits v Hv) as (Hd0 & Hd1 & Hd2 & Hd3 & Hsum).
  unfold b64_group. rewrite mapM_b64_chars by (repeat (apply List.Forall_cons; [assumption|]); apply List.Forall_nil).
  cbn [mbind option_bind length map take Nat.sub].
  assert (Hm : v `mod` 64 = 0).
  { unfold v. replace (Z_of_byte b0 * 2 ^ 16 + Z_of_byte b1 * 2 ^ 8) with ((Z_of_byte b0 * 1024 + Z_of_byte b1 * 4) * 64) by lia.
    apply Z.mod_mul. lia. }
  rewrite Hm, Z.add_0_r in Hsum. rewrite <- Hsum.
  by rewrite E0, E1.
Qed.

Lemma b64_group1 b0 :
  let v := Z_of_byte b0 * 2 ^ 16 in
  b64_group (map b64_char [v / 2 ^ 18; (v / 2 ^ 12) `mod` 64]) = Some [b0].
Proof.
  intros v. destruct (byte_pieces b0 x00 x00 v) as (E0 & _ & _ & Hv); [change (Z_of_byte x00) with 0; lia|].
  destruct (six_bits v Hv) as (Hd0 & Hd1 & Hd2 & Hd3 & Hsum).
  unfold b64_group. rewrite mapM_b64_chars by (repeat (apply List.Forall_cons; [assumption|]); apply List.Forall_nil).
  cbn [mbind option_bind length map take Nat.sub].
  assert (Hm : (v / 2 ^ 6) `mod` 64 = 0 ∧ v `mod` 64 = 0).
  { unfold v. replace (Z_of_byte b0 * 2 ^ 16) with (Z_of_byte b0 * 16 * 64 * 64) by lia.
    change (2 ^ 6) with 64. rewrite Z.div_mul by lia. split; apply Z.mod_mul; lia. }
  destruct Hm as [Hm1 Hm2]. rewrite Hm1, Hm2, Z.mul_0_l, !Z.add_0_r in Hsum. rewrite <- Hsum.
  by rewrite E0.
Qed.

(** Induction by groups of three bytes. *)
Lemma bytes_ind3 (P : bytes → Prop) :
  P [] → (∀ a, P [a]) → (∀ a b, P [a; b]) → (∀ a b c l, P l → P (a :: b :: c :: l)) → ∀ l, P l.
Proof.
  intros H0 H1 H2 H3. fix IH 1. intros [|a [|b [|c l]]]; [exact H0|apply H1|apply H2|apply H3, IH].
Qed.

Lemma b64_raw_roundtrip bs : b64_decode_raw (b64_encode bs) = Some bs.
Proof.
  induction bs as [|a|a b|a b c l IH] using bytes_ind3; [done|apply b64_group1|apply b64_group2|].
  cbn [b64_encode b64_decode_raw]. pose proof (b64_group3 a b c) as Hg. cbn [map] in Hg. cbv zeta in Hg.
  rewrite Hg, IH. done.
Qed.

Definition padding (n : nat) : bytes :=
  match (n mod 3)%nat with 1%nat => [pad; pad] | 2%nat => [pad] | _ => [] end.

Lemma padding3 (a b c : byte) l : padding (length (a :: b :: c :: l)) = padding (length l).
Proof.
  unfold padding. cbn [length]. replace (S (S (S (length l)))) with (length l + 1 * 3)%nat by lia.
  by rewrite Nat.Div0.mod_add.
Qed.

Lemma b64_char_not_pad d : 0 <= d < 64 → b64_char d ≠ pad.
Proof. intros Hd E. pose proof (b64_digit_char d Hd) as Hc. rewrite E in Hc. vm_compute in Hc. done. Qed.

Lemma b64_padded_roundtrip bs : b64_decode_padded (b64_encode bs ++ padding (length bs)) = Some bs.
Proof.
  induction bs as [|a|a b|a b c l IH] using bytes_ind3; [done| | |].
  - cbn. apply b64_group1.
  - pose proof (Z_of_byte_range a). pose proof (Z_of_byte_range b).
    pose proof (b64_group2 a b) as Hg. cbn [map] in Hg. cbv zeta in Hg.
    change (padding (length [a; b])) with [pad]. cbn [b64_encode app b64_decode_padded].
    rewrite (bool_decide_true (pad = pad)) by done. cbn [bool_decide negb].
    rewrite (bool_decide_true (@nil byte = [])) by done. cbn [negb].
    rewrite bool_decide_false; [exact Hg|]. apply b64_char_not_pad. apply Z.mod_pos_bound. lia.
  - rewrite padding3. cbn [b64_encode app b64_decode_padded]. rewrite bool_decide_false.
    2: { apply b64_char_not_pad, Z.mod_pos_bound. lia. }
    pose proof (b64_group3 a b c) as Hg. cbn [map] in Hg. cbv zeta in Hg. rewrite Hg, IH. done.
Qed.

(** If the raw decoder reads a padded text at all, there was no padding. *)
Lemma b64_raw_padded bs d :
  b64_decode_raw (b64_encode bs ++ padding (length bs)) = Some d → d = bs.
Proof.
  revert d. induction bs as [|a|a b|a b c l IH] using bytes_ind3; intros d.
  - by intros [= <-].
  - cbn [b64_encode app b64_decode_raw]. change (padding (length [a])) with [pad; pad].
    cbn [app b64_decode_raw]. unfold b64_group.
    assert (Hp : ∀ x y, mapM b64_digit [x; y; pad; pad] = None).
    { intros x y. cbn. destruct (b64_digit x); [|done]. cbn. by destruct (b64_digit y). }
    by rewrite Hp.
  - cbn [b64_encode app b64_decode_raw]. change (padding (length [a; b])) with [pad].
    cbn [app b64_decode_raw]. unfold b64_group.
    assert (Hp : ∀ x y z, mapM b64_digit [x; y; z; pad] = None).
    { intros x y z. cbn. destruct (b64_digit x); [|done]. cbn. destruct (b64_digit y); [|done]. cbn.
      by destruct (b64_digit z). }
    by rewrite Hp.
  - rewrite padding3. cbn [b64_encode app b64_decode_raw]. pose proof (b64_group3 a b c) as Hg. cbn [map] in Hg. cbv zeta in Hg.
    rewrite Hg. cbn [mbind option_bind].
    destruct (b64_decode_raw (b64_encode l ++ padding (length l))) as [r|]; [|done].
    cbn. intros [= <-]. by rewrite (IH r).
Qed.

Example b64_tests :
  b64_encode (str "Man") = str "TWFu" ∧ b64_encode (str "Ma") = str "TWE" ∧ b64_encode (str "M") = str "TQ" ∧
  b64_encode [xfb; xff; xbf] = str "-_-_" ∧ URL_DecodeString (str "TWE=") = Ok (str "Ma") ∧
  is_ok (RawURL_DecodeString (str "TWE=")) = false ∧ RawURL_DecodeString [x54; x0a; x51] = Ok (str "M").
Proof. vm_compute. done. Qed.

(** ** What the encoding contains *)

(** A character of the alphabet, or the padding. *)
Definition b64_plain (c : byte) : bool := bool_decide (c ∈ pad :: alphabet).

Lemma b64_plain_facts c :
  b64_plain c = true → c ≠ x0a ∧ c ≠ x0d ∧ ascii_space c = false ∧
  Forall (λ w, head w ≠ Some c ∧ w ≠ []) (map (@rev byte) wide_spaces).
Proof.
  intros Hc. assert (Hall : forallb (λ c, negb (bool_decide (c = x0a)) && negb (bool_decide (c = x0d)) &&
    negb (ascii_space c) && forallb (λ w, bool_decide (head w ≠ Some c ∧ w ≠ [])) (map (@rev byte) wide_spaces)) (pad :: alphabet) = true)
    by (vm_compute; reflexivity).
  rewrite forallb_forall in Hall. apply bool_decide_eq_true, list_elem_of_In, Hall in Hc.
  rewrite !andb_true_iff, !negb_true_iff, !bool_decide_eq_false in Hc.
  destruct Hc as [[[H1 H2] H3] H4]. split_and!; try done.
  apply List.Forall_forall. intros w Hw. rewrite forallb_forall in H4.
  specialize (H4 w Hw). by apply bool_decide_eq_true in H4.
Qed.

Lemma b64_char_plain d : 0 <= d < 64 → b64_plain (b64_char d) = true.
Proof.
  intros Hd. apply bool_decide_eq_true. right. apply list_elem_of_In. apply nth_In.
  change (length alphabet) with 64%nat. lia.
Qed.

Lemma b64_encode_plain bs : Forall (λ c, b64_plain c = true) (b64_encode bs).
Proof.
  assert (Hr : ∀ b0 b1 b2, 0 <= Z_of_byte b0 * 2 ^ 16 + Z_of_byte b1 * 2 ^ 8 + Z_of_byte b2 < 2 ^ 24).
  { intros b0 b1 b2. by destruct (byte_pieces b0 b1 b2 _ eq_refl) as (_ & _ & _ & Hv). }
  induction bs as [|a|a b|a b c l IH] using bytes_ind3; [constructor| | |].
  - pose proof (six_bits _ (Hr a x00 x00)) as Hs. change (Z_of_byte x00) with 0 in Hs.
    rewrite Z.mul_0_l, !Z.add_0_r in Hs. destruct Hs as (H1 & H2 & _).
    cbn [b64_encode]. repeat (apply List.Forall_cons; [by apply b64_char_plain|]). constructor.
  - pose proof (six_bits _ (Hr a b x00)) as Hs. change (Z_of_byte x00) with 0 in Hs.
    rewrite !Z.add_0_r in Hs. destruct Hs as (H1 & H2 & H3 & _).
    cbn [b64_encode]. repeat (apply List.Forall_cons; [by apply b64_char_plain|]). constructor.
  - destruct (six_bits _ (Hr a b c)) as (H1 & H2 & H3 & H4 & _).
    cbn [b64_encode]. repeat (apply List.Forall_cons; [by apply b64_char_plain|]). exact IH.
Qed.

Lemma padding_plain n : Forall (λ c, b64_plain c = true) (padding n).
Proof. unfold padding. destruct (n mod 3)%nat as [|[|[|?]]]; repeat constructor. Qed.

Lemma strip_newlines_plain cs : Forall (λ c, b64_plain c = true) cs → strip_newlines cs = cs.
Proof.
  induction 1 as [|c cs Hc _ IH]; [done|]. unfold strip_newlines in *.
  destruct (b64_plain_facts c Hc) as (H1 & H2 & _ & _).
  rewrite filter_cons, decide_True; [by rewrite IH|]. by rewrite !bool_decide_false.
Qed.

(** ** Trimming *)

Lemma trim_left_spaces wide fuel ws s :
  Forall (λ c, ascii_space c = true) ws → (length ws <= fuel)%nat →
  trim_left fuel wide (ws ++ s) = trim_left (fuel - length ws) wide s.
Proof.
  intros Hw. revert fuel. induction Hw as [|c ws Hc _ IH]; intros fuel Hf; [by rewrite Nat.sub_0_r|].
  destruct fuel as [|fuel]; cbn in Hf; [lia|]. cbn [trim_left app space_len]. rewrite Hc. cbn [drop length].
  rewrite IH by lia. f_equal.
Qed.

Lemma trim_left_stop wide fuel s : space_len wide s = 0%nat → trim_left fuel wide s = s.
Proof. intros Hs. destruct fuel; [done|]. cbn [trim_left]. by rewrite Hs. Qed.

Lemma space_len_none wide c s :
  ascii_space c = false → Forall (λ w, head w ≠ Some c ∧ w ≠ []) wide → space_len wide (c :: s) = 0%nat.
Proof.
  intros Hc Hw. cbn [space_len]. rewrite Hc.
  destruct (list_find _ wide) as [[i w]|] eqn:E; [|done].
  apply list_find_Some in E as (Hl & Ht & _). rewrite Forall_lookup in Hw.
  destruct (Hw i w Hl) as [Hh Hne]. destruct w as [|c' w]; [done|].
  cbn [length take] in Ht. injection Ht as -> _. by destruct Hh.
Qed.

(** Spaces around a text that starts with [d] and ends with a character of the
    encoding, or is the bare scheme. *)
Lemma TrimSpace_link ws1 ws2 cs :
  Forall (λ c, ascii_space c = true) ws1 → Forall (λ c, ascii_space c = true) ws2 →
  Forall (λ c, b64_plain c = true) cs →
  TrimSpace (ws1 ++ (Scheme ++ cs) ++ ws2) = Scheme ++ cs.
Proof.
  intros H1 H2 Hcs. unfold TrimSpace. cbv zeta.
  rewrite trim_left_spaces by (done || (rewrite !length_app; lia)).
  rewrite (trim_left_stop _ _ ((Scheme ++ cs) ++ ws2)).
  2: { change ((Scheme ++ cs) ++ ws2) with (x64 :: (drop 1 Scheme ++ cs) ++ ws2).
       apply space_len_none; [done|]. repeat constructor; done. }
  rewrite rev_app_distr. rewrite trim_left_spaces.
  2: { by apply List.Forall_rev. }
  2: { rewrite length_rev, length_app. lia. }
  rewrite trim_left_stop; [by rewrite rev_involutive|].
  assert (Hend : ∃ c l, rev (Scheme ++ cs) = c :: l ∧ (c = x2f ∨ b64_plain c = true)).
  { rewrite rev_app_distr. destruct (rev cs) as [|c l] eqn:E.
    - do 2 eexists. split; [reflexivity|]. by left.
    - do 2 eexists. split; [reflexivity|]. right. apply (proj1 (List.Forall_forall _ cs) Hcs).
      apply in_rev. rewrite E. by left. }
  destruct Hend as (c & l & -> & Hc).
  assert (Hf : ascii_space c = false ∧ Forall (λ w, head w ≠ Some c ∧ w ≠ []) (map (@rev byte) wide_spaces)).
  { destruct Hc as [->|Hc]; [split; [done|]|by apply b64_plain_facts in Hc as (_ & _ & ? & ?)].
    repeat constructor; done. }
  destruct Hf as [Hs Hw]. by apply space_len_none.
Qed.

(** ** Links *)

Section links.
Context `{JSON Payload}.

(** What [Decode] asks of a payload. *)
Definition payload_ok (p : Payload) : Prop :=
  pl_Version p = 1 ∧ pl_Server p ≠ [] ∧ length (pl_Token p) = 32%nat.

Lemma check_payload_ok p : payload_ok p → check_payload p = Ok p.
Proof.
  intros (Hv & Hs & Ht). unfold check_payload. rewrite Hv, bool_decide_false by done.
  by rewrite (proj2 (length_of_len _ 32) Ht).
Qed.

(** A link with the padding some programs add, and white space around it. *)
Lemma Decode_link p data (padded : bool) ws1 ws2 :
  json_marshal p = Ok data → json_unmarshal data = Ok p →
  Forall (λ c, ascii_space c = true) ws1 → Forall (λ c, ascii_space c = true) ws2 →
  Decode (ws1 ++ (Encode p ++ if padded then padding (length data) else []) ++ ws2) = check_payload p.
Proof.
  intros Hm Hu H1 H2. unfold Encode. rewrite Hm, <- (app_assoc Scheme).
  set (cs := b64_encode data ++ _).
  assert (Hcs : Forall (λ c, b64_plain c = true) cs).
  { apply List.Forall_app. split; [apply b64_encode_plain|]. destruct padded; [apply padding_plain|constructor]. }
  unfold Decode. cbv zeta. rewrite TrimSpace_link by done.
  rewrite bool_decide_true by (by apply take_app_length). cbn [negb].
  rewrite drop_app_length. unfold RawURL_DecodeString, URL_DecodeString.
  rewrite (strip_newlines_plain cs Hcs). unfold cs.
  assert (Hdec : match match b64_decode_raw (b64_encode data ++ if padded then padding (length data) else []) with
                       | Some d => Ok d | None => Err illegal_base64 end with
                 | Err _ => match match b64_decode_padded (b64_encode data ++ if padded then padding (length data) else []) with
                       | Some d => Ok d | None => Err illegal_base64 end with
                       | Err e => Err (ErrWrap "invite: invalid base64" e) | o => o end
                 | o => o end = Ok data).
  { destruct padded.
    - rewrite b64_padded_roundtrip. destruct (b64_decode_raw _) as [d|] eqn:E; [|done].
      by rewrite (b64_raw_padded _ _ E).
    - by rewrite app_nil_r, b64_raw_roundtrip. }
  by rewrite Hdec, Hu.
Qed.

(** Whatever the text: no panic, and only complete payloads. *)
Lemma Decode_sound link : is_panic (Decode link) = false ∧ ∀ p, Decode link = Ok p → payload_ok p.
Proof.
  unfold Decode. cbv zeta. destruct (negb (bool_decide _)); [done|].
  unfold RawURL_DecodeString, URL_DecodeString.
  destruct (b64_decode_raw _) as [d|]; [|destruct (b64_decode_padded _) as [d|]; [|done]].
  all: pose proof (json_unmarshal_total d) as Hu; destruct (json_unmarshal d) as [q|e|]; [|done|done].
  all: unfold check_payload; destruct (Z.eqb_spec (pl_Version q) 1); [|done]; cbn [negb].
  all: case_bool_decide; [done|].
  all: destruct (Z.eqb_spec (len (pl_Token q)) 32) as [Hl|]; [|done]; cbn [negb].
  all: split; [done|]; intros p [= <-]; split_and!; try done; by apply (length_of_len _ 32).
Qed.

Context `{Ed25519}.

Lemma Sign_run seed p :
  length seed = 32%nat → json_valid (set_Sig [] p) →
  ∃ msg, json_marshal (set_Sig [] p) = Ok msg ∧
    Sign (snd (ed_keygen seed)) p = (Ok tt, set_Sig (ed_sign (snd (ed_keygen seed)) msg) p).
Proof.
  intros Hseed Hj. destruct (json_roundtrip _ Hj) as (msg & Hm & _). exists msg. split; [done|].
  unfold Sign. erewrite bind_Ok by reflexivity. erewrite bind_Ok by reflexivity. unfold id.
  erewrite bind_Ok by (apply wrap_Ok; unfold lift; rewrite Hm; reflexivity).
  unfold ed25519_Sign. rewrite (proj2 (ed_keygen_length seed Hseed)). by erewrite bind_Ok by reflexivity.
Qed.

(** The signature is checked on the payload without it, and is put back. *)
Lemma VerifySignature_run p msg :
  length (pl_ServerKey p) = 32%nat → length (pl_Sig p) = 64%nat → json_marshal (set_Sig [] p) = Ok msg →
  VerifySignature p = (if ed_verify (pl_ServerKey p) msg (pl_Sig p) then Ok tt
                       else Err (ErrNew "invite: signature verification failed" []), p).
Proof.
  intros Hk Hs Hm. unfold VerifySignature. erewrite bind_Ok by reflexivity. unfold id.
  rewrite (proj2 (length_of_len _ 32) Hk), (proj2 (length_of_len _ 64) Hs).
  change (Z.of_nat 32 =? 32) with true. change (Z.of_nat 64 =? 0) with false. cbn [negb].
  erewrite bind_Ok by reflexivity. unfold defer. erewrite bind_Ok by reflexivity.
  erewrite bind_Ok by (apply wrap_Ok; unfold lift; rewrite Hm; reflexivity).
  change (pl_ServerKey (set_Sig [] p)) with (pl_ServerKey p).
  unfold ed25519_Verify. rewrite Hk, Hs. cbn [Nat.eqb andb]. erewrite bind_Ok by reflexivity.
  destruct (ed_verify _ _ _); cbn; by destruct p.
Qed.

(** C30. Invite links.  A complete payload that carries the server's public key
    can be signed with the private one; the link made of it, with or without
    base64 padding and with white space around it, decodes to the same payload,
    whose signature verifies and is still there afterwards.  And whatever text is
    decoded, the decoder does not panic and gives only payloads of version 1 with
    a server and a 32-byte token. *)
Theorem invite_link_roundtrip seed p :
  length seed = 32%nat → payload_ok p → pl_ServerKey p = fst (ed_keygen seed) →
  (∀ sg, json_valid (set_Sig sg p)) →
  (∃ sg p' data, Sign (snd (ed_keygen seed)) p = (Ok tt, p') ∧ p' = set_Sig sg p ∧ length sg = 64%nat ∧
     json_marshal p' = Ok data ∧ VerifySignature p' = (Ok tt, p') ∧
     ∀ (padded : bool) ws1 ws2,
       Forall (λ c, ascii_space c = true) ws1 → Forall (λ c, ascii_space c = true) ws2 →
       Decode (ws1 ++ (Encode p' ++ if padded then padding (length data) else []) ++ ws2) = Ok p') ∧
  (∀ link, is_panic (Decode link) = false ∧ ∀ q, Decode link = Ok q → payload_ok q).
Proof.
  intros Hseed Hp Hk Hj. split; [|exact Decode_sound].
  destruct (Sign_run seed p Hseed (Hj [])) as (msg & Hm & Hsign).
  set (sg := ed_sign (snd (ed_keygen seed)) msg) in *.
  destruct (ed_keygen_length seed Hseed) as [Hpub Hpriv].
  assert (Hsg : length sg = 64%nat) by (by apply ed_sign_length).
  destruct (json_roundtrip _ (Hj sg)) as (data & Hd & Hu).
  exists sg, (set_Sig sg p), data. split; [done|]. split; [done|]. split; [done|]. split; [done|]. split.
  - rewrite (VerifySignature_run (set_Sig sg p) msg); [|by cbn; rewrite Hk|done|done].
    cbn [set_Sig pl_ServerKey pl_Sig]. rewrite Hk. unfold sg. by rewrite ed_correct.
  - intros padded ws1 ws2 H1 H2. rewrite (Decode_link _ data) by done. by apply check_payload_ok.
Qed.
End links.

(** ** A concrete link *)

Definition invite_seed : bytes := replicate 32 x07.
Definition invite_payload : Payload := mkPayload 1 (str "vpn.example.com:443") invite_seed (replicate 32 x2a)
  (str "laptop") 1 0 [].

Lemma invite_link_roundtrip_witness :
  payload_ok invite_payload ∧
  ∃ p', snd (Sign (H0 := toy_Ed25519) (H := countable_JSON Payload) (snd (ed_keygen (Ed25519 := toy_Ed25519) invite_seed)) invite_payload) = p' ∧
    Decode (H := countable_JSON Payload) ([x20] ++ (Encode (H := countable_JSON Payload) p' ++ []) ++ [x0a]) = Ok p'.
Proof.
  assert (Hok : payload_ok invite_payload) by (split_and!; done).
  split; [exact Hok|].
  destruct (invite_link_roundtrip (H := countable_JSON Payload) (H0 := toy_Ed25519) invite_seed invite_payload eq_refl Hok eq_refl
    (λ _, I)) as ((sg & p' & data & Hs & _ & _ & _ & _ & Hdec) & _).
  exists p'. split; [by rewrite Hs|].
  apply (Hdec false [x20] [x0a]); repeat constructor.
Defined.
