(* ===== verification/Dashboard.v ===== *)
(** [internal/dashboard/api.go] and the routes of [internal/dashboard/server.go]:
    the management API over the registry and the collector.  A request is its
    method, its URL path (without percent-encoding) and, for a POST, the outcome of
    decoding its body. *)

From Stdlib Require Import Strings.Byte String ZArith Lia.
From stdpp Require Import base list.
From S2P Require Import Prelude Encoding Net Io Hash Identity Registry Telemetry Invite.

(** ** Responses *)
Inductive response : Type :=
  | RIndex
  | RNotFound
  | RRedirect (path : bytes)
  | RStatus (version : bytes) (sessions devices : Z) (server_id : bytes)
  | RSessions (l : list SessionSnapshot)
  | RDevices (l : list nat)
  | RInvites (l : list nat)
  | RRevoked
  | RCreated (token_id label : bytes) (link : option bytes)
  | RTransportStats (l : list TransportStat)
  | RProbes (l : list ProbeEvent)
  | RErr (code : Z).

Definition StatusMethodNotAllowed : Z := 405.
Definition StatusNotFound : Z := 404.
Definition StatusBadRequest : Z := 400.
Definition StatusInternalServerError : Z := 500.

Record create_body := mkBody { cb_Label : bytes; cb_MaxUses : Z; cb_ExpiresHours : Z }.

Record request := mkRequest { rq_Method : bytes; rq_Path : bytes; rq_Body : result create_body }.

(** ** [strings] *)

Definition TrimPrefix (s p : bytes) : bytes := if HasPrefix s p then drop (length p) s else s.
(** [strings.Trim(s, "/")] *)
Fixpoint trim_slashes (s : bytes) : bytes :=
  match s with c :: s' => if bool_decide (c = slash) then trim_slashes s' else s | [] => [] end.
Definition TrimSlashes (s : bytes) : bytes := rev (trim_slashes (rev (trim_slashes s))).

(** ** [http.ServeMux]: the cleaned path *)

(** The segments that stay, innermost first. *)
Definition clean_segment (stack : list bytes) (seg : bytes) : list bytes :=
  if bool_decide (seg = []) || bool_decide (seg = str ".") then stack
  else if bool_decide (seg = str "..") then drop 1 stack
  else seg :: stack.
Definition cleanPath (p : bytes) : bytes :=
  let segs := rev (fold_left clean_segment (segments [] p) []) in
  let np := concat (map (λ s, slash :: s) segs) in
  if bool_decide (np = []) then [slash]
  else if bool_decide (last p = Some slash) then np ++ [slash] else np.

Example cleanPath_tests :
  map cleanPath [str "/api/v1/devices"; str "/api//v1/./devices"; str "/a/../b/"; str "/"; str ""] =
  [str "/api/v1/devices"; str "/api/v1/devices"; str "/b/"; str "/"; str "/"].
Proof. vm_compute. reflexivity. Qed.

(** ** Handlers *)

Record api := Api { a_reg : rstate; a_collector : Collector }.

Definition on_reg {A} : M rstate A → M api A := zoom a_reg (λ r a, Api r (a_collector a)).

Section api.
Context `{Ed25519} `{JSON storeData} `{JSON Payload}.
Variable serverKey : option KeyPair.
Variable version : bytes.

Definition is_GET (r : request) : bool := bool_decide (rq_Method r = str "GET").
Definition is_POST (r : request) : bool := bool_decide (rq_Method r = str "POST").
Definition is_DELETE (r : request) : bool := bool_decide (rq_Method r = str "DELETE").

Definition writeErr (code : Z) : M api response := ret (RErr code).

Definition handleStatus (r : request) : M api response :=
  if negb (is_GET r) then writeErr StatusMethodNotAllowed else
  sessions <- gets (λ a, SessionCount (a_collector a)) ;;
  devices <- on_reg DeviceCount ;;
  ret (RStatus version sessions devices
         (match serverKey with Some k => Fingerprint k | None => [] end)).

Definition handleSessions (r : request) : M api response :=
  if negb (is_GET r) then writeErr StatusMethodNotAllowed else
  l <- gets (λ a, Sessions (a_collector a)) ;; ret (RSessions l).

Definition handleDevices (r : request) : M api response :=
  let path := TrimSlashes (TrimPrefix (rq_Path r) (str "/api/v1/devices")) in
  if is_GET r && bool_decide (path = []) then l <- on_reg ListDevices ;; ret (RDevices l)
  else if is_DELETE r && negb (bool_decide (path = [])) then
    o <- try (on_reg (RevokeDevice path)) ;;
    match o with inr _ => writeErr StatusNotFound | inl _ => ret RRevoked end
  else writeErr StatusMethodNotAllowed.

Definition Hour : Z := 3600 * second.

(** The link of a new invite, when there is a server key.  An error of [Sign] is
    dropped; [CreateInvite] returned the record. *)
Definition invite_payload (k : KeyPair) (rec : InviteRecord) : Payload :=
  mkPayload 1 [] (kp_PublicKey k) (inv_Token rec) (inv_Label rec) (inv_MaxUses rec) (inv_ExpiresAt rec) [].
Definition invite_link (rec : InviteRecord) : result (option bytes) :=
  match serverKey with
  | None => Ok None
  | Some k =>
      match Sign (kp_PrivateKey k) (invite_payload k rec) with
      | (Panic, _) => Panic
      | (_, p) => Ok (Some (Encode p))
      end
  end.

Definition createInvite (r : request) : M api response :=
  match rq_Body r with
  | Ok body =>
      let label := if bool_decide (cb_Label body = []) then str "invite" else cb_Label body in
      let hours := if cb_ExpiresHours body <=? 0 then 24 else cb_ExpiresHours body in
      let maxUses := if cb_MaxUses body <=? 0 then 1 else cb_MaxUses body in
      let ttl := int64 (hours * Hour) in
      o <- try (on_reg (CreateInvite label maxUses ttl)) ;;
      match o with
      | inr _ => writeErr StatusInternalServerError
      | inl rec => link <- lift (invite_link rec) ;; ret (RCreated (inv_TokenID rec) (inv_Label rec) link)
      end
  | _ => writeErr StatusBadRequest
  end.

Definition handleInvites (r : request) : M api response :=
  let path := TrimSlashes (TrimPrefix (rq_Path r) (str "/api/v1/invites")) in
  if is_GET r && bool_decide (path = []) then l <- on_reg ListInvites ;; ret (RInvites l)
  else if is_POST r && bool_decide (path = []) then createInvite r
  else if is_DELETE r && negb (bool_decide (path = [])) then
    o <- try (on_reg (RevokeInvite path)) ;;
    match o with inr _ => writeErr StatusNotFound | inl _ => ret RRevoked end
  else writeErr StatusMethodNotAllowed.

Definition handleTransportStats (r : request) : M api response :=
  if negb (is_GET r) then writeErr StatusMethodNotAllowed else
  l <- gets (λ a, TransportStats (a_collector a)) ;; ret (RTransportStats l).

Definition handleProbes (r : request) : M api response :=
  if negb (is_GET r) then writeErr StatusMethodNotAllowed else
  l <- gets (λ a, RecentProbes 200 (a_collector a)) ;;
  l <- lift l ;; ret (RProbes l).

(** [register]: every pattern is a full path, without a subtree. *)
Definition routes : list (bytes * (request → M api response)) :=
  [(str "/api/v1/status", handleStatus);
   (str "/api/v1/sessions", handleSessions);
   (str "/api/v1/devices", handleDevices);
   (str "/api/v1/invites", handleInvites);
   (str "/api/v1/transport-stats", handleTransportStats);
   (str "/api/v1/probes", handleProbes)].

(** The handler of "/", which matches what no other pattern does. *)
Definition handleIndex (r : request) : M api response :=
  ret (if negb (bool_decide (rq_Path r = [slash])) then RNotFound else RIndex).

Definition ServeHTTP (r : request) : M api response :=
  if negb (bool_decide (rq_Method r = str "CONNECT")) && negb (bool_decide (cleanPath (rq_Path r) = rq_Path r))
  then ret (RRedirect (cleanPath (rq_Path r)))
  else match list_find (λ ph, rq_Path r = fst ph) routes with
       | Some (_, (_, h)) => h r
       | None => handleIndex r
       end.
End api.

(** ** Which handlers a request can reach *)

Section properties.
Context `{Ed25519} `{JSON storeData} `{JSON Payload}.
Context (serverKey : option KeyPair) (version : bytes).
Implicit Types (a : api) (r : request).

Lemma on_reg_inv {A} (m : M rstate A) a x a' :
  on_reg m a = (x, a') → m (a_reg a) = (x, a_reg a') ∧ a_collector a' = a_collector a.
Proof. unfold on_reg, zoom. destruct (m (a_reg a)) as [y s]. by intros [= <- <-]. Qed.

(** The answer neither revokes nor creates. *)
Definition benign (x : result response) : Prop :=
  match x with Ok RRevoked | Ok (RCreated _ _ _) => False | _ => True end.

(** On the path a pattern has, nothing is left for an ID. *)
Lemma handleDevices_path r a x a' :
  rq_Path r = str "/api/v1/devices" → handleDevices r a = (x, a') → a' = a ∧ benign x.
Proof.
  intros Hp. unfold handleDevices. rewrite Hp. change (TrimSlashes (TrimPrefix _ _)) with (@nil byte).
  rewrite bool_decide_true by done. rewrite andb_false_r, andb_true_r. destruct (is_GET r).
  - unfold bind, on_reg, zoom, ListDevices, get_data, gets, bind, ret. cbn. intros [= <- <-]. by destruct a as [[] ?].
  - by intros [= <- <-].
Qed.

Lemma handleInvites_path r a x a' :
  rq_Path r = str "/api/v1/invites" → handleInvites serverKey r a = (x, a') →
  (a' = a ∧ benign x) ∨ rq_Method r = str "POST" ∧ createInvite serverKey r a = (x, a').
Proof.
  intros Hp. unfold handleInvites. rewrite Hp. change (TrimSlashes (TrimPrefix _ _)) with (@nil byte).
  rewrite bool_decide_true by done. rewrite !andb_true_r, andb_false_r. destruct (is_GET r).
  - unfold bind, on_reg, zoom, ListInvites, get_data, gets, bind, ret. cbn. intros [= <- <-]. left. by destruct a as [[] ?].
  - destruct (is_POST r) eqn:Hpost; [apply bool_decide_eq_true in Hpost; by right|]. intros [= <- <-]. by left.
Qed.

(** The other handlers only read. *)
Lemma reading_handlers h r a x a' :
  h ∈ [handleStatus serverKey version; handleSessions; handleTransportStats; handleProbes] →
  h r a = (x, a') → a' = a ∧ benign x.
Proof.
  rewrite !elem_of_cons, elem_of_nil. intros [->|[->|[->|[->|[]]]]].
  - unfold handleStatus. destruct (negb _); [by intros [= <- <-]|].
    unfold bind, on_reg, zoom, DeviceCount, get_data, gets, bind, ret. cbn. intros [= <- <-]. by destruct a as [[] ?].
  - unfold handleSessions. destruct (negb _); by intros [= <- <-].
  - unfold handleTransportStats. destruct (negb _); by intros [= <- <-].
  - unfold handleProbes. destruct (negb _); [by intros [= <- <-]|].
    unfold bind, gets, lift. destruct (RecentProbes 200 (a_collector a)); by intros [= <- <-].
Qed.

(** A POST to the invites: the method, and the path that the pattern of
    [handleInvites] has. *)
Definition posts_invite (r : request) : Prop :=
  rq_Method r = str "POST" ∧ rq_Path r = str "/api/v1/invites".

Lemma ServeHTTP_writes r a x a' :
  ServeHTTP serverKey version r a = (x, a') →
  (a' = a ∧ benign x) ∨ posts_invite r ∧ createInvite serverKey r a = (x, a').
Proof.
  unfold ServeHTTP. destruct (_ && _); [intros [= <- <-]; by left|].
  destruct (list_find _ _) as [[i [p h]]|] eqn:E.
  2: { unfold handleIndex. intros [= <- <-]. left. by destruct (negb _). }
  apply list_find_Some in E as (Hl & Hp & _). cbn [fst] in Hp. intros Hh.
  do 6 (destruct i as [|i]; [cbn in Hl; injection Hl as <- <-; cbn [fst] in Hp;
    first [apply (handleInvites_path _ _ _ _ Hp) in Hh as [Hh|[Hpost Hh]]; [by left|by right; split; [split|]]
          |left; by apply handleDevices_path in Hh
          |left; eapply reading_handlers; [|exact Hh]; rewrite !elem_of_cons; tauto]|]).
  done.
Qed.

(** A link made for a record names no server. *)
Lemma invite_link_spec rec l :
  invite_link serverKey rec = Ok (Some l) →
  ∃ p, l = Encode p ∧ pl_Server p = [] ∧ pl_Version p = 1 ∧ pl_Token p = inv_Token rec.
Proof.
  unfold invite_link. destruct serverKey as [k|]; [|done].
  assert (Hs : ∃ sg, snd (Sign (kp_PrivateKey k) (invite_payload k rec)) = set_Sig sg (invite_payload k rec)).
  { unfold Sign, bind, modify, gets, wrap, lift, id.
    destruct (json_marshal _) as [msg|e|]; [|by exists []..].
    unfold ed25519_Sign. destruct (_ =? _)%nat; by eexists. }
  destruct Hs as [sg Hs]. destruct (Sign _ _) as [[u|e|] p]; cbn in Hs; [| |done]; subst p;
    intros [= <-]; exists (set_Sig sg (invite_payload k rec)); done.
Qed.

Lemma Decode_no_server p : pl_Version p = 1 → pl_Server p = [] → json_valid p →
  Decode (Encode p) = Err (ErrNew "invite: missing server address" []).
Proof.
  intros Hv Hs Hj. destruct (json_roundtrip p Hj) as (d & Hm & Hu).
  pose proof (Decode_link p d false [] [] Hm Hu ltac:(constructor) ltac:(constructor)) as Hd.
  cbn [app] in Hd. rewrite !app_nil_r in Hd. rewrite Hd. unfold check_payload. by rewrite Hv, Hs.
Qed.

Lemma createInvite_run r a x a' :
  createInvite serverKey r a = (x, a') →
  a_collector a' = a_collector a ∧ x ≠ Ok RRevoked ∧
  st_Devices (data (a_reg a')) = st_Devices (data (a_reg a)) ∧
  (∃ new, st_Invites (data (a_reg a')) = st_Invites (data (a_reg a)) ++ new) ∧
  ∀ id lbl l, x = Ok (RCreated id lbl (Some l)) →
    ∃ p, l = Encode p ∧ pl_Version p = 1 ∧ pl_Server p = [].
Proof.
  unfold createInvite. destruct (rq_Body r) as [body|e|]; [|intros [= <- <-]; split_and!; try done; by exists []; rewrite app_nil_r..].
  cbv zeta. set (label := if bool_decide (cb_Label body = []) then _ else _).
  set (n := if cb_MaxUses body <=? 0 then _ else _). set (ttl := int64 _).
  unfold bind, try, on_reg, zoom.
  destruct (CreateInvite_run label n ttl (a_reg a)) as [(e & s' & ->)|(tok & e & t & s2 & r0 & s3 & Hrun)].
  - intros [= <- <-]. cbn. split_and!; try done. exists []. by rewrite app_nil_r.
  - cbv zeta in Hrun. destruct Hrun as (_ & _ & _ & Hp & ->). set (rec := mkInvite _ _ _ _ _ _ _ _) in *.
    destruct r0 as [u|e0|]; [| |done].
    + cbn [lift]. unfold lift. destruct (invite_link serverKey rec) as [o|e1|] eqn:El;
        intros [= <- <-]; cbn; (split; [done|]); (split; [done|]); (split; [done|]); (split; [by eexists|]); try done.
      intros id lbl l [= _ _ ->]. destruct (invite_link_spec rec l El) as (p & -> & ? & ? & _). eauto.
    + intros [= <- <-]. cbn. split_and!; try done. by eexists.
Qed.

(** C34. What the dashboard can do.  No request, whatever its method, path and
    body, revokes a device or an invite: the patterns are whole paths, so a path
    with an ID never reaches the handlers that revoke.  The requests change
    nothing, of the registry, its file and the collector, unless the method is
    POST and the path is [/api/v1/invites]; such a request appends to the invites
    and does nothing else to the registry's devices or to the collector.  Only
    it is answered with a new invite, and the link in that answer cannot be
    imported: its payload names no server, which [Decode] refuses. *)
Theorem dashboard_effects r a x a' :
  ServeHTTP serverKey version r a = (x, a') →
  a_collector a' = a_collector a ∧
  st_Devices (data (a_reg a')) = st_Devices (data (a_reg a)) ∧
  (∃ new, st_Invites (data (a_reg a')) = st_Invites (data (a_reg a)) ++ new ∧
     (¬ posts_invite r → a' = a)) ∧
  x ≠ Ok RRevoked ∧
  (∀ id lbl o, x = Ok (RCreated id lbl o) → posts_invite r) ∧
  ∀ id lbl l, x = Ok (RCreated id lbl (Some l)) →
    ∃ p, l = Encode p ∧ (json_valid p → Decode l = Err (ErrNew "invite: missing server address" [])).
Proof.
  intros Hs. apply ServeHTTP_writes in Hs as [[-> Hx]|[Hpost Hc]].
  - split_and!; try done; [exists []; by rewrite app_nil_r|by intros ->|by intros id lbl o ->|by intros id lbl l ->].
  - destruct (createInvite_run r a x a' Hc) as (Hcol & Hx & Hd & [new Hn] & Hl).
    split_and!; try done; [exists new; split; [done|by intros []]|].
    intros id lbl l Hr. destruct (Hl id lbl l Hr) as (p & -> & Hv & Hsv).
    exists p. split; [done|]. by apply Decode_no_server.
Qed.
End properties.

(** ** Concrete requests *)

#[local] Instance dash_ed : Ed25519 := toy_Ed25519.
#[local] Instance dash_store : JSON storeData := storeData_JSON.
#[local] Instance dash_payload : JSON Payload := countable_JSON Payload.

Definition dash_key : KeyPair := mkKeyPair (replicate 32 x07) (replicate 64 x07) [] 0.
Definition dash_api : api :=
  Api (RState (mkRegistry (str "registry.json") (mkStore [mkDevice (replicate 32 x01) (str "4a5b6c") [] 0 None false] []))
        (Sys (Clock 0 []) (stream (replicate 32 x2a) EOF) (Fs ∅ []))) Telemetry.New.

Example revoke_by_path :
  fst (ServeHTTP (Some dash_key) [] (mkRequest (str "DELETE") (str "/api/v1/devices/4a5b6c") Panic) dash_api) = Ok RNotFound ∧
  fst (ServeHTTP (Some dash_key) [] (mkRequest (str "DELETE") (str "/api/v1/devices/") Panic) dash_api) = Ok RNotFound ∧
  fst (ServeHTTP (Some dash_key) [] (mkRequest (str "DELETE") (str "/api/v1/devices") Panic) dash_api)
    = Ok (RErr StatusMethodNotAllowed).
Proof. vm_compute. done. Qed.

Definition dash_post : request := mkRequest (str "POST") (str "/api/v1/invites") (Ok (mkBody (str "laptop") 1 24)).

Definition is_created (x : result response) : bool :=
  match x with Ok (RCreated _ _ (Some _)) => true | _ => false end.

Lemma dashboard_effects_witness :
  ∃ x a' id lbl l, ServeHTTP (Some dash_key) [] dash_post dash_api = (x, a') ∧
    x = Ok (RCreated id lbl (Some l)) ∧ Decode l = Err (ErrNew "invite: missing server address" []).
Proof.
  assert (Hx : is_created (fst (ServeHTTP (Some dash_key) [] dash_post dash_api)) = true) by (vm_compute; reflexivity).
  destruct (ServeHTTP (Some dash_key) [] dash_post dash_api) as [x a'] eqn:E. cbn [fst] in Hx.
  destruct x as [[]| |]; try discriminate Hx. destruct link as [l|]; [|discriminate Hx].
  pose proof (dashboard_effects (Some dash_key) [] dash_post dash_api _ a' E) as Hd.
  destruct Hd as (_ & _ & _ & _ & _ & Hlink). destruct (Hlink token_id label l eq_refl) as (p & Hl & Hdec).
  exists (Ok (RCreated token_id label (Some l))), a', token_id, label, l.
  split; [reflexivity|]. split; [reflexivity|]. exact (Hdec I).
Defined.
