(* ===== verification/Terminal.v ===== *)
(** What the commands of [cmd/daxson] share: the terminal and the default paths
    of [cmd/daxson/cmd/root.go], the calls on files that only the commands make,
    and durations for humans ([fmtDuration] of [status.go]). *)

From Stdlib Require Import Strings.Byte String ZArith Lia.
From stdpp Require Import base list gmap sorting.
From S2P Require Import Prelude Encoding Net Io Float Shaping.

(** ** Files *)

(** [os.Stat]: whether there is a file at the path. *)
Definition os_Stat (path : bytes) : M fs unit :=
  o <- fs_fault ;;
  match o with
  | Some (_, e) => fail e
  | None =>
      files <- gets fs_files ;;
      if bool_decide (is_Some (files !! path)) then ret tt else fail ErrNotExist
  end.

Definition os_Remove (path : bytes) : M fs unit :=
  o <- fs_fault ;;
  match o with
  | Some (_, e) => fail e
  | None =>
      files <- gets fs_files ;;
      if bool_decide (is_Some (files !! path)) then fs_update (delete path) else fail ErrNotExist
  end.

(** The entry of a directory that a path below it lies in, and whether that is a
    directory. *)
Definition dir_entry (dir path : bytes) : option (bytes * bool) :=
  let pre := dir ++ [slash] in
  if bool_decide (take (length pre) path = pre) then
    let rest := drop (length pre) path in
    match IndexByte rest slash with
    | Some i => Some (take i rest, true)
    | None => Some (rest, false)
    end
  else None.

Fixpoint bytes_le (a b : bytes) : bool :=
  match a, b with
  | [], _ => true
  | _, [] => false
  | x :: a', y :: b' =>
      (Z_of_byte x <? Z_of_byte y) || ((Z_of_byte x =? Z_of_byte y) && bytes_le a' b')
  end.
Definition entry_le (e1 e2 : bytes * bool) : Prop := bytes_le (fst e1) (fst e2) = true.
#[global] Instance entry_le_dec e1 e2 : Decision (entry_le e1 e2).
Proof. unfold entry_le. apply _. Defined.

(** [os.ReadDir]: the entries, sorted by name. *)
Definition os_ReadDir (dir : bytes) : M fs (list (bytes * bool)) :=
  o <- fs_fault ;;
  match o with
  | Some (_, e) => fail e
  | None =>
      files <- gets fs_files ;;
      let entries := remove_dups (omap (λ kv, dir_entry dir kv.1) (map_to_list files)) in
      if bool_decide (entries = []) then fail ErrNotExist
      else ret (merge_sort entry_le entries)
  end.

(** ** The terminal

    Texts are bytes; the message of an error, a quoted string ([%q]) and a time
    under a layout are left as such. *)
Inductive text : Type :=
  | T (s : bytes)
  | EText (e : error)
  | Quoted (s : bytes)
  | At (layout : string) (t : Z).
Definition msg : Type := list text.

(** What a command writes: a message, or the rows of a [tabwriter]. *)
Inductive output : Type := Out (m : msg) | Tabbed (rows : list (list msg)).

(** A command runs in the environment, with a random source for the transports;
    [c_conns] are the servers it has dialled, with the connection as it was left
    if the dial succeeded. *)
Record cli := Cli {
  c_sys : sys; c_rand : mrand; c_out : list output; c_conns : list (bytes * option conn)
}.

Definition on_csys {A} : M sys A → M cli A :=
  zoom c_sys (λ s c, Cli s (c_rand c) (c_out c) (c_conns c)).
Definition on_cfs {A} (m : M fs A) : M cli A := on_csys (on_fs m).
Definition c_now : M cli Z := on_csys (on_clock time_Now).

Definition emit (o : output) : M cli unit :=
  modify (λ c, Cli (c_sys c) (c_rand c) (c_out c ++ [o]) (c_conns c)).
Definition Printf (m : msg) : M cli unit := emit (Out m).
Definition Println (m : msg) : M cli unit := Printf (m ++ [T [x0a]]).

Definition ansi (code : string) : bytes := x1b :: str code.
Definition ansiReset : bytes := ansi "[0m".
Definition ansiGreen : bytes := ansi "[32m".
Definition ansiYellow : bytes := ansi "[33m".
Definition ansiRed : bytes := ansi "[31m".
Definition ansiCyan : bytes := ansi "[36m".
Definition ansiBold : bytes := ansi "[1m".
Definition ansiDim : bytes := ansi "[2m".

Definition marked (color : bytes) (mark : string) (m : msg) : M cli unit :=
  Println ([T (str "  "); T color; T (str mark); T ansiReset; T (str " ")] ++ m).
Definition printOK : msg → M cli unit := marked ansiGreen "✓".
Definition printFail : msg → M cli unit := marked ansiRed "✗".
Definition printWarn : msg → M cli unit := marked ansiYellow "!".
Definition printInfo : msg → M cli unit := marked ansiCyan "→".
Definition printHeader (m : msg) : M cli unit := Println ([T [x0a]; T ansiBold] ++ m ++ [T ansiReset]).
(** [%-16s] *)
Definition pad16 (k : bytes) : bytes := k ++ replicate (16 - length k) x20.
Definition printKey (k : string) (v : msg) : M cli unit :=
  Println ([T (str "  "); T ansiDim; T (pad16 (str k)); T ansiReset; T (str " ")] ++ v).

Definition txt (s : string) : text := T (str s).
Definition bold (s : bytes) : msg := [T ansiBold; T s; T ansiReset].

(** ** Default paths

    [home] is the outcome of [os.UserHomeDir]; the paths are those of Unix. *)
Section paths.
Variable home : result bytes.

Definition configDir : bytes :=
  match home with Ok h => Join [h; str ".daxson"] | _ => str ".daxson" end.
Definition defaultIdentityPath : bytes := Join [configDir; str "identity.json"].
Definition defaultProfileDir : bytes := Join [configDir; str "profiles"].
Definition defaultStatusPath : bytes := Join [configDir; str "status.json"].
Definition defaultServerConfigPath : bytes := Join [configDir; str "server.yaml"].
Definition defaultRegistryPath : bytes := Join [configDir; str "registry.json"].
Definition defaultServerIdentityPath : bytes := Join [configDir; str "server-identity.json"].
Definition profilePath (name : bytes) : bytes := Join [defaultProfileDir; name ++ str ".yaml"].
End paths.

Example default_paths :
  map (λ f, f (Ok (str "/home/u")))
    [configDir; defaultIdentityPath; defaultProfileDir; defaultRegistryPath] =
  [str "/home/u/.daxson"; str "/home/u/.daxson/identity.json"; str "/home/u/.daxson/profiles"; str "/home/u/.daxson/registry.json"]
  ∧ profilePath (Ok (str "/home/u")) (str "../server") = str "/home/u/.daxson/server.yaml".
Proof. vm_compute. done. Qed.

(** ** Durations *)

Definition maxDuration : Z := 2 ^ 63 - 1.
Definition minDuration : Z := - 2 ^ 63.

(** [t.Sub(u)] saturates. *)
Definition time_Sub (t u : Z) : Z := Z.max minDuration (Z.min maxDuration (t - u)).
Definition time_Since (t : Z) : M cli Z := now <- c_now ;; ret (time_Sub now t).

(** [d.Round(m)]: half away from zero, saturating. *)
Definition Round (d m : Z) : Z :=
  if m <=? 0 then d else
  let r := Z.rem d m in
  if d <? 0 then
    let r := - r in
    if r + r <? m then d + r
    else if int64 (d - m + r) <? d then d - m + r else minDuration
  else if r + r <? m then d - r
  else if int64 (d + m - r) >? d then d + m - r else maxDuration.

(** [d.Hours()] and the like are floats, cut to integers. *)
Definition in_units (unit d : Z) : Z :=
  Z_of_float (fadd (float_of_Z (Z.quot d unit)) (fdiv (float_of_Z (Z.rem d unit)) (float_of_Z unit))).

Definition fmtDuration (d : Z) : bytes :=
  let d := Round d second in
  let h := in_units (3600 * second) d in
  let m := Z.rem (in_units (60 * second) d) 60 in
  let s := Z.rem (in_units second d) 60 in
  if h >? 0 then dec h ++ str "h " ++ dec m ++ str "m"
  else if m >? 0 then dec m ++ str "m " ++ dec s ++ str "s"
  else dec s ++ str "s".

Example fmtDuration_tests :
  map fmtDuration [0; 1500000000; 59400000000; 59600000000; 3599 * second; 90061 * second; -1500000000; maxDuration] =
  [str "0s"; str "2s"; str "59s"; str "1m 0s"; str "59m 59s"; str "25h 1m"; str "-2s"; str "2562047h 47m"].
Proof. vm_compute. reflexivity. Qed.

(** ** Reasoning about commands

    Most of what is said of a command does not depend on what has been printed:
    printing keeps it. *)
Definition emitted (o : output) (c : cli) : cli := Cli (c_sys c) (c_rand c) (c_out c ++ [o]) (c_conns c).
Class Quiet (P : cli → Prop) := quiet o c : P c → P (emitted o c).

Lemma hoare_emit P `{!Quiet P} o E : hoare P (emit o) (λ _, P) E.
Proof. apply hoare_modify. intros c. apply quiet. Qed.

(** A statement about the environment. *)
Definition in_sys (Q : sys → Prop) (c : cli) : Prop := Q (c_sys c).
#[global] Instance in_sys_quiet Q : Quiet (in_sys Q).
Proof. by intros o c. Qed.

Lemma hoare_on_csys {A} (P : sys → Prop) (m : M sys A) (Q : A → sys → Prop) E :
  hoare P m Q E → hoare (in_sys P) (on_csys m) (λ a, in_sys (Q a)) (λ e, in_sys (E e)).
Proof.
  intros Hm c Hc. unfold on_csys, zoom, in_sys in *. specialize (Hm (c_sys c) Hc).
  by destruct (m (c_sys c)) as [[a|e|] s'].
Qed.

Lemma os_Stat_step path f : ∃ r f', os_Stat path f = (r, f') ∧ step_at path f f' ∧ fs_files f' = fs_files f ∧
  is_panic r = false ∧ (fs_faults f = [] → r = if bool_decide (is_Some (fs_files f !! path)) then Ok tt else Err ErrNotExist).
Proof.
  unfold os_Stat, step_at. fs_cases f; try case_bool_decide; cbn; do 2 eexists; (split; [reflexivity|]); cbn; split_and!;
    try done; by intros [_ ?]%Forall_cons.
Qed.

(** [cli_steps]: go past what prints. *)
Ltac past_print := eapply hoare_bind; [eapply hoare_emit; try apply _|intros []].
