(* ===== verification/Commands.v ===== *)
(** [cmd/daxson/cmd]: the commands of the CLI that manage keys, invites, devices
    and profiles and report on them ([keys.go], [invite_cmd.go], [devices.go],
    [import_cmd.go], [status.go], [init_cmd.go], [doctor.go]).  Each runs on the
    environment and the terminal of Terminal and calls the operations of
    Identity, Registry, Invite, Auth and Config. *)

From Stdlib Require Import Strings.Byte String ZArith Lia.
From stdpp Require Import base list gmap.
From S2P Require Import Prelude Encoding Net Io Float Hash Wire Identity Registry Auth.
From S2P Require Import Shaping Config Transport Invite Terminal.

(** ** Operations of the components, run by a command *)

(** A method of the registry that the command has loaded; the command ends with
    the method, so what becomes of the registry in memory is dropped. *)
Definition on_registry_of {A} (reg : Registry) (m : M rstate A) : M cli A := λ c,
  match m (RState reg (c_sys c)) with
  | (r, st) => (r, Cli (rs_sys st) (c_rand c) (c_out c) (c_conns c))
  end.

(** An error is reported, and returned. *)
Definition report_as {A} (say : error → msg) (m : M cli A) : M cli A :=
  r <- try m ;;
  match r with
  | inl a => ret a
  | inr e => printFail (say e) ;;; fail e
  end.
Definition report {A} (prefix : string) : M cli A → M cli A := report_as (λ e, [txt prefix; EText e]).
Definition report_plain {A} : M cli A → M cli A := report_as (λ e, [EText e]).

Lemma hoare_report_as {A} say P (m : M cli A) Q E :
  hoare P m Q E → (∀ e, Quiet (E e)) → hoare P (report_as say m) Q E.
Proof.
  intros Hm Hq c Hc. unfold report_as, bind, try. pose proof (Hm c Hc) as Hc'.
  destruct (m c) as [[a|e|] c']; [done| |done]. exact (Hq e (Out _) _ Hc').
Qed.

Lemma report_as_Ok {A} say (m : M cli A) c a c' : m c = (Ok a, c') → report_as say m c = (Ok a, c').
Proof. intros Hm. unfold report_as, bind, try. by rewrite Hm. Qed.

(** Up to what has been printed. *)
Definition same_but_out (c c' : cli) : Prop :=
  c_sys c' = c_sys c ∧ c_rand c' = c_rand c ∧ c_conns c' = c_conns c.

Lemma report_as_Err {A} say (m : M cli A) c e c' :
  m c = (Err e, c') → ∃ c2, report_as say m c = (Err e, c2) ∧ same_but_out c' c2.
Proof. intros Hm. unfold report_as, bind, try. rewrite Hm. by eexists. Qed.

(** ** connect.go: the status file *)

Record statusRecord := mkStatus {
  sr_Version : Z; sr_Connected : bool; sr_Server : bytes; sr_DeviceID : bytes; sr_Profile : bytes;
  sr_SOCKS5Addr : bytes; sr_HTTPAddr : bytes; sr_ConnectedAt : Z; sr_UpdatedAt : Z
}.

(** What the diagnostics meet: [DialContext], the TLS handshake (the negotiated
    protocol) and [net.Listen]. *)
Record probes := Probes {
  pb_dial : bytes → result unit;
  pb_tls : bytes → result bytes;
  pb_listen : bytes → result unit
}.

Section commands.
Context `{Ed25519} `{JSON storedKey} `{JSON storeData} `{JSON Payload} `{JSON statusRecord} `{YAML}.
Variable home : result bytes.

(** ** keys.go, and a method of identity.go *)

Definition PublicKeyBase64 (kp : KeyPair) : bytes := b64_encode (kp_PublicKey kp).

Definition key_lines (kp : KeyPair) (keyPath : bytes) : M cli unit :=
  printHeader [txt "Device Identity"] ;;;
  printKey "Device ID" (bold (kp_DeviceID kp)) ;;;
  printKey "Public Key" [T (PublicKeyBase64 kp)] ;;;
  printKey "Created" [At "2006-01-02 15:04:05 UTC" (kp_CreatedAt kp)] ;;;
  printKey "Path" [T keyPath] ;;;
  Println [].

Definition runKeysShow : M cli unit :=
  let keyPath := defaultIdentityPath home in
  kp <- report "Device key error: " (on_csys (Identity.Load keyPath)) ;;
  key_lines kp keyPath.

Definition bakPath : bytes := defaultIdentityPath home ++ str ".bak".

Definition runKeysRotate (force : bool) : M cli unit :=
  let keyPath := defaultIdentityPath home in
  existing <- report "Cannot read existing key: " (on_csys (Identity.Load keyPath)) ;;
  statErr <- try (on_cfs (os_Stat bakPath)) ;;
  if match statErr with inl _ => negb force | inr _ => false end then
    printFail [txt "Backup already exists at "; T bakPath; txt " — use --force to overwrite"] ;;;
    fail (ErrNew "keys rotate: backup exists" [])
  else
    report "Cannot back up existing key: " (on_cfs (os_Rename keyPath bakPath)) ;;;
    printOK ([txt "Backed up old key (device: "] ++ bold (kp_DeviceID existing) ++ [txt ") → "; T bakPath]) ;;;
    newKP <- report "Key generation failed: " (on_csys (Identity.Load keyPath)) ;;
    printOK (txt "Generated new key  device: " :: bold (kp_DeviceID newKP)) ;;;
    Println [] ;;;
    printWarn [txt "You must re-register this device with 'daxson import' before connecting again."] ;;;
    Println [].

Definition runKeysExport : M cli unit :=
  kp <- report "Device key error: " (on_csys (Identity.Load (defaultIdentityPath home))) ;;
  Println [T (PublicKeyBase64 kp)].

(** ** invite_cmd.go *)

Definition loadServerRegistry : M cli Registry :=
  report "Registry error: " (on_csys (Registry.Load (defaultRegistryPath home))).

Definition tryLoadServerKey : M cli (option KeyPair) :=
  let path := defaultServerIdentityPath home in
  r <- try (on_cfs (os_Stat path)) ;;
  match r with
  | inr _ => ret None
  | inl _ => kp <- on_csys (Identity.Load path) ;; ret (Some kp)
  end.

Definition invite_of (server : bytes) (rec : InviteRecord) : Payload :=
  mkPayload 1 server [] (inv_Token rec) (inv_Label rec) (inv_MaxUses rec) (inv_ExpiresAt rec) [].
Definition set_ServerKey (pub : bytes) (p : Payload) : Payload :=
  mkPayload (pl_Version p) (pl_Server p) pub (pl_Token p) (pl_Label p) (pl_MaxUses p) (pl_ExpiresAt p) (pl_Sig p).

(** The payload, signed when there is a server key that can be read. *)
Definition sign_invite (payload : Payload) : M cli Payload :=
  r <- try tryLoadServerKey ;;
  match r with
  | inl (Some serverKey) =>
      match Sign (kp_PrivateKey serverKey) (set_ServerKey (kp_PublicKey serverKey) payload) with
      | (Ok _, p) => ret p
      | (Err signErr, p) => printWarn [txt "Could not sign invite link: "; EText signErr] ;;; ret p
      | (Panic, _) => panic
      end
  | _ => printWarn [txt "Server identity not found — invite link will not be signed"] ;;; ret payload
  end.

Definition invite_lines (rec : InviteRecord) (link : bytes) : M cli unit :=
  printOK ([txt "Invite created  (token-id: "] ++ bold (inv_TokenID rec) ++ [txt ")"]) ;;;
  (when negb (inv_ExpiresAt rec =? 0)
   do printKey "Expires" [At "2006-01-02 15:04 UTC" (inv_ExpiresAt rec * second)] od) ;;;
  printKey "Max uses" [T (dec (inv_MaxUses rec))] ;;;
  Println [] ;;;
  Println (bold link ++ [T [x0a]]) ;;;
  Println [txt "Share this link with the device owner. They run:"] ;;;
  Println ([txt "  daxson import "] ++ bold (str "<link>") ++ [T [x0a]]).

(** [runInviteCreate] up to the link, and with its output. *)
Definition make_invite (server label : bytes) (maxUses ttl : Z) : M cli (InviteRecord * Payload) :=
  reg <- loadServerRegistry ;;
  rec <- report "Create invite: " (on_registry_of reg (CreateInvite label maxUses ttl)) ;;
  payload <- sign_invite (invite_of server rec) ;;
  ret (rec, payload).

Definition runInviteCreate (server label : bytes) (maxUses ttl : Z) : M cli unit :=
  rp <- make_invite server label maxUses ttl ;;
  invite_lines (fst rp) (Encode (snd rp)).

Definition invite_row (inv : InviteRecord) : M cli (list msg) :=
  expired <- (if inv_Revoked inv then ret false else on_csys (Registry.IsExpired inv)) ;;
  let status := if inv_Revoked inv then [T ansiRed; txt "revoked"; T ansiReset]
                else if expired : bool then [T ansiYellow; txt "expired"; T ansiReset] else [txt "active"] in
  let maxStr := if inv_MaxUses inv <=? 0 then str "∞" else dec (inv_MaxUses inv) in
  let expires := if inv_ExpiresAt inv =? 0 then txt "never" else At "2006-01-02 15:04" (inv_ExpiresAt inv * second) in
  ret [[T (inv_TokenID inv)]; [T (inv_Label inv)]; [T (dec (inv_Uses inv) ++ str "/" ++ maxStr)]; [expires]; status].

Fixpoint rows {A} (row : A → M cli (list msg)) (l : list A) : M cli (list (list msg)) :=
  match l with
  | [] => ret []
  | a :: l' => r <- row a ;; rs <- rows row l' ;; ret (r :: rs)
  end.

Definition runInviteList : M cli unit :=
  reg <- loadServerRegistry ;;
  ps <- on_registry_of reg ListInvites ;;
  let invites := omap (λ p, st_Invites (r_data reg) !! p) ps in
  if len invites =? 0 then Println [txt "No invites."] else
  rs <- rows invite_row invites ;;
  emit (Tabbed ([[T ansiBold; txt "TOKEN-ID"]; [txt "LABEL"]; [txt "USES"]; [txt "EXPIRES"]; [txt "STATUS"; T ansiReset]] :: rs)).

Definition runInviteRevoke (tokenID : bytes) : M cli unit :=
  reg <- loadServerRegistry ;;
  report_plain (on_registry_of reg (RevokeInvite tokenID)) ;;;
  printOK ([txt "Invite "] ++ bold tokenID ++ [txt " revoked"]).

(** ** devices.go *)

Definition device_row (d : Device) : M cli (list msg) :=
  let status := if dev_Revoked d then [T ansiRed; txt "revoked"; T ansiReset] else [T ansiGreen; txt "active"; T ansiReset] in
  lastSeen <- (match dev_LastSeenAt d with
               | None => ret (str "never")
               | Some t => since <- time_Since t ;; ret (fmtDuration since ++ str " ago")
               end) ;;
  ret [[T (dev_DeviceID d)]; [T (dev_Label d)]; [At "2006-01-02" (dev_RegisteredAt d)]; [T lastSeen]; status].

Definition runDevicesList : M cli unit :=
  reg <- loadServerRegistry ;;
  ps <- on_registry_of reg ListDevices ;;
  let devices := omap (λ p, st_Devices (r_data reg) !! p) ps in
  if len devices =? 0 then Println [txt "No registered devices."] else
  rs <- rows device_row devices ;;
  emit (Tabbed ([[T ansiBold; txt "DEVICE-ID"]; [txt "LABEL"]; [txt "REGISTERED"]; [txt "LAST SEEN"]; [txt "STATUS"; T ansiReset]] :: rs)).

Definition runDevicesRevoke (deviceID : bytes) : M cli unit :=
  reg <- loadServerRegistry ;;
  report_plain (on_registry_of reg (RevokeDevice deviceID)) ;;;
  printOK ([txt "Device "] ++ bold deviceID ++ [txt " revoked — active sessions will be rejected at next re-auth"]).

(** ** import_cmd.go *)

Definition extractHostname (addr : bytes) : bytes :=
  match LastIndexByte addr colon with Some i => take i addr | None => addr end.

(** [tr.Dial]; the connection is kept for the record. *)
Definition dial_server (nt : network) (tr : ClientTransport) (addr : bytes) : M cli conn := λ c,
  match Transport.Dial nt tr addr (c_rand c) with
  | (Ok raw, r) => (Ok raw, Cli (c_sys c) r (c_out c) (c_conns c))
  | (Err e, r) => (Err e, Cli (c_sys c) r (c_out c) (c_conns c ++ [(addr, None)]))
  | (Panic, r) => (Panic, Cli (c_sys c) r (c_out c) (c_conns c))
  end.

(** [auth.BootstrapClient] on a connection that is closed at the end. *)
Definition bootstrap_on (addr : bytes) (raw : conn) (token : bytes) (kp : KeyPair) (label : bytes) : M cli unit := λ c,
  match BootstrapClient token kp label (Host raw (c_sys c) None) with
  | (r, h) => (match r with Ok _ => Ok tt | Err e => Err e | Panic => Panic end,
               Cli (h_sys h) (c_rand c) (c_out c) (c_conns c ++ [(addr, Some (conn_close (h_conn h)))]))
  end.

(** Steps 1 and 2: the link and its signature. *)
Definition accept_link (link : bytes) (noVerify : bool) : M cli Payload :=
  payload <- report "Invalid invite link: " (lift (Decode link)) ;;
  printOK (txt "Server: " :: bold (pl_Server payload)) ;;;
  expired <- on_csys (on_clock (Invite.IsExpired payload)) ;;
  if expired : bool then
    printFail [txt "Invite has expired"] ;;; fail (ErrNew "invite expired" [])
  else
    (if (0 <? len (pl_ServerKey payload)) && negb noVerify then
       report "Signature verification failed: " (lift (fst (VerifySignature payload))) ;;;
       printOK [txt "Server signature verified"]
     else when noVerify do printWarn [txt "Skipping signature verification"] od) ;;;
    ret payload.

Definition device_label (hostname : result bytes) (kp : KeyPair) (deviceLabel : bytes) : bytes :=
  if is_empty deviceLabel then
    match hostname with
    | Ok h => if is_empty h then str "device-" ++ kp_DeviceID kp else h
    | _ => str "device-" ++ kp_DeviceID kp
    end
  else deviceLabel.

Definition import_transport (payload : Payload) : ClientTransport :=
  Transport.NewClient (extractHostname (pl_Server payload)) (str "chrome") [str "h2"; str "http/1.1"] false.

(** The profile of step 5. *)
Definition import_profile (payload : Payload) (name keyPath : bytes) : ClientProfile :=
  let d := ClientProfileDefaults in
  mkProfile 1 name (pl_Server payload) (pl_ServerKey payload) keyPath (cp_TLS d) (cp_Transport d) (cp_Proxy d) (cp_Reconnect d).

Definition runImport (nt : network) (hostname : result bytes) (link profileName deviceLabel : bytes) (noVerify : bool)
    : M cli unit :=
  Println [txt "Importing invite..."; T [x0a]] ;;;
  payload <- accept_link link noVerify ;;
  let keyPath := defaultIdentityPath home in
  kp <- report "Failed to load/generate device key: " (on_csys (Identity.Load keyPath)) ;;
  printOK ([txt "Device identity: "] ++ bold (kp_DeviceID kp) ++ [txt " (key: "; T keyPath; txt ")"]) ;;;
  let label := device_label hostname kp deviceLabel in
  Println [T [x0a]; txt "Registering with server..."] ;;;
  rawConn <- wrap "dial %s" (report "Cannot reach server: " (dial_server nt (import_transport payload) (pl_Server payload))) ;;
  report "Registration failed: " (bootstrap_on (pl_Server payload) rawConn (pl_Token payload) kp label) ;;;
  printOK (txt "Registered as " :: bold label) ;;;
  let path := profilePath home profileName in
  report "Could not save profile: " (on_cfs (SaveClientProfile (import_profile payload profileName keyPath) path)) ;;;
  printOK [txt "Profile saved to "; T path] ;;;
  Println ([T [x0a]; T ansiGreen; txt "Ready!"; T ansiReset; txt " Run "] ++ bold (str "'daxson connect'") ++ [txt " to start the tunnel."]).

(** ** status.go *)

Definition statusStale : Z := 30 * second.

Definition status_lines (rec : statusRecord) (uptime : Z) : M cli unit :=
  printHeader [txt "Connection"] ;;;
  printKey "Server" (bold (sr_Server rec)) ;;;
  printKey "Device" [T (sr_DeviceID rec)] ;;;
  printKey "Profile" [T (sr_Profile rec)] ;;;
  printKey "Uptime" [T (fmtDuration uptime)] ;;;
  (when negb (is_empty (sr_SOCKS5Addr rec)) || negb (is_empty (sr_HTTPAddr rec)) do
     printHeader [txt "Proxy"] ;;;
     (when negb (is_empty (sr_SOCKS5Addr rec)) do printKey "SOCKS5" (bold (sr_SOCKS5Addr rec)) od) ;;;
     (when negb (is_empty (sr_HTTPAddr rec)) do printKey "HTTP" (bold (sr_HTTPAddr rec)) od) od) ;;;
  Println [].

Definition runStatus : M cli unit :=
  r <- try (on_cfs (os_ReadFile (defaultStatusPath home))) ;;
  match r with
  | inr e =>
      if bool_decide (e = ErrNotExist) then
        Println [txt "Not connected."] ;;;
        Println ([txt "Run "] ++ bold (str "'daxson connect'") ++ [txt " to start the tunnel."])
      else fail e
  | inl data =>
      match json_unmarshal data with
      | Panic => panic
      | Err _ => Println [txt "Status file corrupted."]
      | Ok rec =>
          since <- time_Since (sr_UpdatedAt rec) ;;
          if (since >? statusStale) || negb (sr_Connected rec) then
            since <- time_Since (sr_UpdatedAt rec) ;;
            Println [T ansiRed; txt "Not connected"; T ansiReset; txt "  (last seen "; T (fmtDuration since); txt " ago)"]
          else
            uptime <- time_Since (sr_ConnectedAt rec) ;;
            status_lines rec uptime
      end
  end.

(** connect.go: [writeStatus]; the errors of both calls are dropped.
    [connectStartTime] is when the process started. *)
Definition writeStatus (connectStartTime : Z) (path deviceID : bytes) (p : ClientProfile) : M cli unit :=
  now <- c_now ;;
  let rec := mkStatus 1 true (cp_Server p) deviceID (cp_Name p) (px_SOCKS5 (cp_Proxy p)) (px_HTTP (cp_Proxy p))
               connectStartTime now in
  data <- lift (match json_marshal rec with Ok d => Ok d | Err _ => Ok [] | Panic => Panic end) ;;
  ignore (on_cfs (os_WriteFile path data)).

(** ** doctor.go

    The checks carry [allOK], the variable that [fail] and the two helpers
    clear. *)
Definition countFails (allOK : bool) : Z := if allOK then 0 else 1.

Definition checkTCPAndTLS (pb : probes) (addr : bytes) (allOK : bool) : M cli bool :=
  match pb_dial pb addr with
  | Panic => panic
  | Err e => printFail [txt "TCP connect "; T addr; txt ": "; EText e] ;;; ret false
  | Ok _ =>
      printOK (txt "TCP connect  " :: bold addr) ;;;
      let host := match SplitHostPort addr with Ok (host, _) => host | _ => [] end in
      c_now ;;;
      match pb_tls pb host with
      | Panic => panic
      | Err e =>
          printWarn [txt "TLS handshake: "; EText e; txt " (server uses custom fingerprint — may be normal)"] ;;; ret allOK
      | Ok proto => printOK [txt "TLS handshake  proto="; T proto] ;;; ret allOK
      end
  end.

Definition checkPortFree (pb : probes) (label : string) (addr : bytes) (allOK : bool) : M cli bool :=
  match pb_listen pb addr with
  | Panic => panic
  | Err e => printFail [txt label; txt " "; T addr; txt ": port in use — "; EText e] ;;; ret false
  | Ok _ => printOK ([txt label; txt " "] ++ bold addr ++ [txt "  port is free"]) ;;; ret allOK
  end.

Definition check_proxy (pb : probes) (label missing : string) (addr : bytes) (allOK : bool) : M cli bool :=
  if is_empty addr then printWarn [txt missing] ;;; ret allOK else checkPortFree pb label addr allOK.

(** The checks of a profile that was loaded. *)
Definition doctor_profile (pb : probes) (profile : ClientProfile) (allOK : bool) : M cli unit :=
  printOK ([txt "Profile "; Quoted (cp_Name profile); txt "  server: "] ++ bold (cp_Server profile)) ;;;
  printHeader [txt "Connectivity"] ;;;
  ok <- checkTCPAndTLS pb (cp_Server profile) allOK ;;
  printHeader [txt "Proxy"] ;;;
  ok <- check_proxy pb "SOCKS5" "SOCKS5 not configured in profile" (px_SOCKS5 (cp_Proxy profile)) ok ;;
  ok <- check_proxy pb "HTTP" "HTTP proxy not configured in profile" (px_HTTP (cp_Proxy profile)) ok ;;
  printHeader [txt "Status"] ;;;
  st <- try (on_cfs (os_Stat (defaultStatusPath home))) ;;
  (match st with
   | inl _ =>
       d <- try (on_cfs (os_ReadFile (defaultStatusPath home))) ;;
       (when match d with inl data => 0 <? len data | inr _ => false end
        do printOK [txt "Status file present (tunnel may be running — check 'daxson status')"] od)
   | inr _ => printInfo [txt "Not connected (no status file)"]
   end) ;;;
  Println [] ;;;
  if ok : bool then Println [T ansiGreen; txt "All checks passed."; T ansiReset]
  else Println [T ansiRed; txt "Some checks failed."; T ansiReset] ;;; fail (ErrNew "doctor: one or more checks failed" []).

Definition runDoctor (pb : probes) (profileName : bytes) : M cli unit :=
  printHeader [txt "Identity"] ;;;
  let keyPath := defaultIdentityPath home in
  r <- try (on_csys (Identity.Load keyPath)) ;;
  ok <- (match r with
         | inr e => printFail [txt "Device key: "; EText e] ;;; ret false
         | inl kp => printOK ([txt "Device ID  "] ++ bold (kp_DeviceID kp) ++ [txt "  ("; T keyPath; txt ")"]) ;;; ret true
         end) ;;
  printHeader [txt "Profile"] ;;;
  let path := profilePath home profileName in
  p <- try (on_cfs (LoadClientProfile path)) ;;
  match p with
  | inr _ =>
      printFail [txt "Profile "; Quoted profileName; txt " not found ("; T path; txt ")"] ;;;
      printInfo [txt "Run 'daxson import <link>' to create a profile."] ;;;
      Println [] ;;;
      fail (ErrNew "doctor: %d check(s) failed" [countFails false])
  | inl profile => doctor_profile pb profile ok
  end.

(** ** init_cmd.go *)

Definition HasSuffix (s suf : bytes) : bool :=
  (length suf <=? length s)%nat && bool_decide (drop (length s - length suf) s = suf).
Definition yaml_suffix : bytes := str ".yaml".

(** [strings.ToLower], for ASCII (no other letter is lowered to one of the answer's). *)
Definition ToLower (s : bytes) : bytes :=
  map (λ b, if (65 <=? Z_of_byte b) && (Z_of_byte b <=? 90) then byte_of_Z (Z_of_byte b + 32) else b) s.

(** Step 1: the identity is read or, when there is none, generated. *)
Definition init_identity : M cli unit :=
  let keyPath := defaultIdentityPath home in
  st <- try (on_cfs (os_Stat keyPath)) ;;
  match st with
  | inl _ =>
      kp <- report "Existing identity file could not be read: " (on_csys (Identity.Load keyPath)) ;;
      printOK ([txt "Identity already exists  (device: "] ++ bold (kp_DeviceID kp) ++ [txt ")"]) ;;;
      Println [txt "  Path: "; T keyPath]
  | inr _ =>
      printInfo [txt "No identity found — generating a new Ed25519 key pair..."] ;;;
      report "Cannot create config directory: " (on_cfs os_MkdirAll) ;;;
      kp <- report "Key generation failed: " (on_csys (Identity.Load keyPath)) ;;
      printOK ([txt "Generated identity  (device: "] ++ bold (kp_DeviceID kp) ++ [txt ")"]) ;;;
      Println [txt "  Path: "; T keyPath]
  end.

(** The profiles: the [.yaml] files of the directory. *)
Definition profile_names (entries : list (bytes * bool)) : list bytes :=
  map (λ e, take (length (fst e) - length yaml_suffix) (fst e))
    (filter (λ e, negb (snd e) && HasSuffix (fst e) yaml_suffix = true) entries).

(** Steps 2 to 4; [line] is what is typed at the question. *)
Definition runInit (pb : probes) (line : bytes) : M cli unit :=
  Println [T ansiBold; txt "Daxson Setup Wizard"; T ansiReset] ;;;
  Println [T (concat (replicate 40 (str "─")))] ;;;
  Println [] ;;;
  printHeader [txt "Step 1 — Device Identity"] ;;;
  init_identity ;;;
  printHeader [txt "Step 2 — Connection Profiles"] ;;;
  entries <- try (on_cfs (os_ReadDir (defaultProfileDir home))) ;;
  let profiles := profile_names (match entries with inl l => l | inr _ => [] end) in
  (if len profiles =? 0 then
     printInfo [txt "No profiles found yet."] ;;;
     Println [] ;;;
     Println [txt "  To get started, ask your server admin for an invite link, then run:"] ;;;
     Println (txt "    " :: bold (str "daxson import daxson://v1/<token>"))
   else
     each (λ p, printOK [txt "Profile "; Quoted p]) profiles ;;;
     Println [] ;;;
     Println [txt "  To connect, run:"] ;;;
     Println (txt "    " :: bold (str "daxson connect"))) ;;;
  printHeader [txt "Step 3 — Configuration Directory"] ;;;
  printOK (txt "Config directory: " :: bold (configDir home)) ;;;
  Println [] ;;;
  Printf [txt "Run diagnostics now? [y/N] "] ;;;
  let line := TrimSpace (ToLower line) in
  (when bool_decide (line = str "y") || bool_decide (line = str "yes") do
     Println [] ;;;
     ignore (runDoctor pb (str "default")) od) ;;;
  Println [] ;;;
  Println [T ansiGreen; txt "Setup complete."; T ansiReset].
End commands.
