(* ===== verification/CommandFacts.v ===== *)
(** What the commands of Commands guarantee to their user. *)

From Stdlib Require Import Strings.Byte String ZArith Lia.
From stdpp Require Import base list gmap.
From S2P Require Import Prelude Encoding Net Io Float Hash Wire Identity Registry Auth.
From S2P Require Import Shaping Config Transport Invite Terminal Commands.

Section keys.
Context `{Ed25519} `{JSON storedKey}.
Variable home : result bytes.
Let keyPath := defaultIdentityPath home.
Let bak := bakPath home.

Lemma bak_ne_key : bak ≠ keyPath.
Proof.
  unfold bak, bakPath. fold keyPath. intros E%(f_equal length). rewrite length_app in E. cbn in E. lia.
Qed.

(** The file at [path] has these contents, and no fault pretends otherwise. *)
Definition holds (path d : bytes) (s : sys) : Prop := fs_files (s_fs s) !! path = Some d ∧ honest (s_fs s).

(** The old key is in one of its two places. *)
Definition kept (d : bytes) (s : sys) : Prop := holds keyPath d s ∨ holds bak d s.

(** A new key is where the old one was. *)
Definition renewed (s : sys) : Prop := ∃ kp text, kp_wf kp ∧ json_marshal (stored kp) = Ok text ∧
  fs_files (s_fs s) !! keyPath = Some text.

Lemma holds_load d : hoare (holds keyPath d) (Identity.Load keyPath) (λ _, holds keyPath d) (λ _, kept d).
Proof.
  intros s [Hd Hh]. destruct (Load_step keyPath s) as ([Hst _] & Hp & Hf & _).
  destruct (Identity.Load keyPath s) as [r s']. cbn [fst snd] in *.
  assert (Hs' : holds keyPath d s') by (split; [rewrite Hf; by eauto|auto]). destruct r; [done|by left|done].
Qed.

Lemma holds_stat path d : hoare (holds keyPath d) (on_fs (os_Stat path)) (λ _, holds keyPath d) (λ _, holds keyPath d).
Proof.
  intros s [Hd Hh]. destruct (os_Stat_step path (s_fs s)) as (r & f & E & [Hst _] & Hf & Hp & _).
  rewrite (on_fs_eq _ _ _ _ E). destruct r; [..|done]; (split; [cbn; by rewrite Hf|auto]).
Qed.

Lemma holds_rename d : hoare (holds keyPath d) (on_fs (os_Rename keyPath bak))
  (λ _ s, holds bak d s ∧ fs_files (s_fs s) !! keyPath = None) (λ _, kept d).
Proof.
  intros s [Hd Hh]. destruct (os_Rename_step keyPath bak (s_fs s)) as (r & f & E & Hst & Hcase).
  rewrite (on_fs_eq _ _ _ _ E). destruct r; [| |done].
  - destruct Hcase as (d' & Hd' & Hf). rewrite Hd in Hd'. injection Hd' as <-. unfold holds. cbn [s_fs]. rewrite Hf.
    rewrite lookup_insert_eq, lookup_insert_ne, lookup_delete_eq by apply bak_ne_key. auto.
  - left. split; [cbn; by rewrite Hcase|auto].
Qed.

Lemma holds_regenerate d :
  hoare (λ s, holds bak d s ∧ fs_files (s_fs s) !! keyPath = None) (Identity.Load keyPath)
    (λ _ s, holds bak d s ∧ renewed s) (λ _, kept d).
Proof.
  intros s [[Hd Hh] Hn]. destruct (Load_step keyPath s) as ([Hst Hof] & Hp & _ & Hnew).
  destruct (Identity.Load keyPath s) as [r s']. cbn [fst snd] in *.
  assert (Hs' : holds bak d s') by (split; [rewrite Hof; [done|apply bak_ne_key]|auto]).
  destruct r as [kp|e|]; [|by right|done]. split; [done|].
  destruct (Hnew kp eq_refl Hn) as (Hkp & text & H1 & H2). by exists kp, text.
Qed.

Lemma rotate_hoare force d :
  hoare (in_sys (holds keyPath d)) (runKeysRotate home force)
    (λ _, in_sys (λ s, holds bak d s ∧ renewed s)) (λ _, in_sys (kept d)).
Proof.
  unfold runKeysRotate. fold keyPath bak.
  eapply hoare_bind; [apply hoare_report_as; [apply hoare_on_csys, holds_load|apply _]|]. intros existing. cbv beta.
  eapply hoare_bind; [apply hoare_try_inv; apply (hoare_on_csys _ _ (λ _, holds keyPath d)), holds_stat|]. intros st.
  apply hoare_if; intros _.
  - past_print. apply hoare_fail. intros c Hc. by left.
  - eapply hoare_bind; [apply hoare_report_as; [apply hoare_on_csys, holds_rename|apply _]|]. intros []. cbv beta.
    past_print. eapply hoare_bind; [apply hoare_report_as; [apply hoare_on_csys, holds_regenerate|apply _]|].
    intros kp. cbv beta. do 3 past_print. by apply hoare_emit; try apply _.
Qed.

(** C26. [keys rotate] never loses a key.  Whatever fails on the way, the old key's
    file is afterwards in its place or in the backup; on success it is the
    backup, and a new well-formed key is in its place.  Without [--force] an
    existing backup is not touched: the command fails and changes no file.  (The
    check of the backup takes every error of [os.Stat] for its absence, so this
    needs a [Stat] that works.) *)
Theorem rotate_keeps_key force d c :
  holds keyPath d (c_sys c) →
  match runKeysRotate home force c with
  | (Ok _, c') => holds bak d (c_sys c') ∧ renewed (c_sys c')
  | (Err _, c') => kept d (c_sys c')
  | (Panic, _) => False
  end ∧
  (force = false → no_faults (c_sys c) → is_Some (fs_files (s_fs (c_sys c)) !! bak) →
     ∃ e c', runKeysRotate home force c = (Err e, c') ∧ fs_files (s_fs (c_sys c')) = fs_files (s_fs (c_sys c))).
Proof.
  intros Hd. pose proof (rotate_hoare force d c Hd) as Hr. split; [exact Hr|].
  intros -> Hnf Hb. unfold runKeysRotate. fold keyPath bak.
  destruct (Load_present keyPath d (c_sys c) Hnf (proj1 Hd)) as (r & El & Hp).
  assert (Eo : on_csys (Identity.Load keyPath) c = (r, c)) by (unfold on_csys, zoom; rewrite El; by destruct c).
  destruct r as [kp|e|]; [| |done].
  - erewrite bind_Ok by (by apply report_as_Ok).
    destruct (os_Stat_step bak (s_fs (c_sys c))) as (o & f & Es & _ & Hf & _ & Ho).
    rewrite bool_decide_true in Ho by done. rewrite (Ho Hnf) in Es.
    erewrite bind_Ok by (unfold try, on_cfs, on_csys, zoom; rewrite (on_fs_eq _ _ _ _ Es); reflexivity).
    cbv beta iota. cbn [negb]. erewrite bind_Ok by reflexivity. do 2 eexists. split; [reflexivity|]. exact Hf.
  - destruct (report_as_Err (λ e, [txt "Cannot read existing key: "; EText e]) _ _ _ _ Eo) as (c2 & E2 & Hs2 & _).
    erewrite bind_Err by exact E2. do 2 eexists. split; [reflexivity|]. by rewrite Hs2.
Qed.
End keys.

(** ** Importing an invite *)

(** The command has neither changed a file, drawn randomness nor dialled; the
    clock may have been read. *)
Definition untouched (c c' : cli) : Prop :=
  sys_le (c_sys c) (c_sys c') ∧ s_rand (c_sys c') = s_rand (c_sys c) ∧ c_rand c' = c_rand c ∧ c_conns c' = c_conns c.

#[global] Instance untouched_preorder : PreOrder untouched.
Proof.
  split; [intros c; split; [reflexivity|done]|].
  intros c1 c2 c3 (H1 & H2 & H3 & H4) (K1 & K2 & K3 & K4). split; [by etransitivity|]. rewrite K2, K3, K4. done.
Qed.

Lemma untouched_out c c' : same_but_out c c' → untouched c c'.
Proof. intros (H1 & H2 & H3). unfold untouched. rewrite H1. by split. Qed.

Lemma on_clock_now_untouched (c : cli) :
  ∃ t c', on_csys (on_clock time_Now) c = (Ok t, c') ∧ t ∈ clock_readings (s_clock (c_sys c)) ∧ untouched c c'.
Proof.
  destruct (on_clock_reading (c_sys c)) as (t & s' & E & Hin & Hle & Hr).
  exists t. eexists. split; [unfold on_csys, zoom; rewrite E; reflexivity|]. split; [done|]. by split_and!.
Qed.

Section import.
Context `{Ed25519} `{JSON storedKey} `{JSON storeData} `{JSON Payload} `{JSON statusRecord} `{YAML}.
Implicit Types (c : cli) (p : Payload).

(** What makes a link acceptable at a time: it decodes, has not expired, and is
    unsigned, or not to be verified, or verifies. *)
Definition verified (noVerify : bool) p : bool :=
  (len (pl_ServerKey p) =? 0) || noVerify || is_ok (fst (VerifySignature p)).
Definition expired_at (now : Z) p : bool := negb (pl_ExpiresAt p =? 0) && (unix now >? pl_ExpiresAt p).
Definition acceptable (link : bytes) (noVerify : bool) (now : Z) p : Prop :=
  Decode link = Ok p ∧ expired_at now p = false ∧ verified noVerify p = true.

Lemma VerifySignature_total p : is_panic (fst (VerifySignature p)) = false.
Proof.
  unfold VerifySignature. erewrite bind_Ok by reflexivity. unfold id.
  destruct (Z.eqb_spec (len (pl_ServerKey p)) 32) as [Hl|]; [|done]. cbn [negb].
  destruct (len (pl_Sig p) =? 0); [done|]. erewrite bind_Ok by reflexivity. unfold defer.
  erewrite bind_Ok by reflexivity. unfold id, wrap, lift, bind.
  pose proof (json_marshal_total (set_Sig [] p)) as Hj.
  destruct (json_marshal (set_Sig [] p)) as [m|e|]; [|done|done].
  change (pl_ServerKey (set_Sig [] p)) with (pl_ServerKey p). unfold ed25519_Verify.
  rewrite (proj1 (length_of_len _ 32) Hl). cbn [Nat.eqb]. by destruct (_ && _).
Qed.

Lemma IsExpired_run p c :
  ∃ now c', on_csys (on_clock (Invite.IsExpired p)) c = (Ok (expired_at now p), c') ∧
    now ∈ clock_readings (s_clock (c_sys c)) ∧ untouched c c'.
Proof.
  destruct (on_clock_now_untouched c) as (now & c' & E & Hin & Hu). unfold Invite.IsExpired, expired_at.
  destruct (pl_ExpiresAt p =? 0).
  - exists now, c. split; [|by split]. unfold on_csys, on_clock, zoom, ret. by destruct c as [[] ? ? ?].
  - exists now, c'. split; [|done]. unfold on_csys, on_clock, zoom, bind, ret in *.
    destruct (time_Now (s_clock (c_sys c))) as [r k]. by injection E as -> <-.
Qed.

Lemma accept_link_run link noVerify c :
  ∃ now o c', now ∈ clock_readings (s_clock (c_sys c)) ∧ accept_link link noVerify c = (o, c') ∧ untouched c c' ∧
    match o with
    | Ok p => acceptable link noVerify now p
    | Err _ => ∀ p, ~ acceptable link noVerify now p
    | Panic => False
    end.
Proof.
  unfold accept_link. destruct (Decode_sound link) as [Hnp _].
  destruct (Decode link) as [p|e|] eqn:Ed; [| |done].
  2: { destruct (on_clock_now_untouched c) as (now & _ & _ & Hin & _).
       destruct (report_as_Err (λ e, [txt "Invalid invite link: "; EText e]) (lift (Err e : result Payload)) c e c eq_refl) as (c2 & E2 & Hs).
       exists now, (Err e), c2. split; [done|]. split; [by erewrite bind_Err by exact E2|].
       split; [by apply untouched_out|]. intros p [Eq _]. congruence. }
  erewrite bind_Ok by (by apply report_as_Ok). erewrite bind_Ok by reflexivity.
  match goal with |- context [bind _ _ ?c0] => set (c1 := c0) end.
  destruct (IsExpired_run p c1) as (now & c2 & E2 & Hin & Hu2). erewrite bind_Ok by exact E2.
  assert (Hu : untouched c c2) by (etransitivity; [by apply untouched_out|exact Hu2]).
  exists now. destruct (expired_at now p) eqn:Ex.
  - erewrite bind_Ok by reflexivity. do 2 eexists. split; [exact Hin|]. split; [reflexivity|].
    split; [exact Hu|]. intros q (Eq & Eq2 & _). rewrite Ed in Eq. injection Eq as <-. congruence.
  - destruct ((0 <? len (pl_ServerKey p)) && negb noVerify) eqn:Ev.
    + apply andb_true_iff in Ev as [Hk%Z.ltb_lt Hv%negb_true_iff].
      pose proof (VerifySignature_total p) as Ht. destruct (fst (VerifySignature p)) as [u|e|] eqn:Es; [| |done].
      * rewrite bind_bind. erewrite bind_Ok by (by apply report_as_Ok). erewrite bind_Ok by reflexivity.
        do 2 eexists. split; [exact Hin|]. split; [reflexivity|]. split; [exact Hu|].
        split; [done|]. split; [done|]. unfold verified. rewrite Es. by rewrite orb_true_r.
      * rewrite bind_bind.
        destruct (report_as_Err (λ e, [txt "Signature verification failed: "; EText e]) (lift (Err e : result unit)) c2 e c2 eq_refl)
          as (c3 & E3 & Hs). exists (Err e), c3. split; [exact Hin|].
        split; [by erewrite bind_Err by exact E3|]. split; [etransitivity; [exact Hu|by apply untouched_out]|].
        intros q (Eq & _ & Eq2). rewrite Ed in Eq. injection Eq as <-. unfold verified in Eq2. rewrite Es, Hv in Eq2.
        rewrite (proj2 (Z.eqb_neq _ 0)) in Eq2 by lia. done.
    + assert (Hok : acceptable link noVerify now p).
      { split; [done|]. split; [done|]. unfold verified. apply andb_false_iff in Ev as [Hk%Z.ltb_ge|Hv%negb_false_iff].
        - pose proof (len_nonneg (pl_ServerKey p)). rewrite (proj2 (Z.eqb_eq _ 0)) by lia. done.
        - rewrite Hv. by rewrite orb_true_r. }
      exists (Ok p). destruct noVerify; (eexists; split; [exact Hin|]; split; [reflexivity|]; split; [exact Hu|exact Hok]).
Qed.
(** The same invite, for another server and without key or signature. *)
Definition forged (server : bytes) p : Payload :=
  mkPayload 1 server [] (pl_Token p) (pl_Label p) (pl_MaxUses p) (pl_ExpiresAt p) [].

Lemma forged_acceptable link noVerify now p server :
  acceptable link noVerify now p → server ≠ [] → json_valid (forged server p) →
  acceptable (Encode (forged server p)) false now (forged server p).
Proof.
  intros (Hd & Hx & _) Hs Hj. split; [|split; [exact Hx|reflexivity]].
  destruct (json_roundtrip _ Hj) as (data & Hm & Hu).
  pose proof (Decode_link (forged server p) data false [] [] Hm Hu (List.Forall_nil _) (List.Forall_nil _)) as E.
  cbn [app] in E. rewrite !app_nil_r in E. rewrite E. apply check_payload_ok.
  destruct (proj2 (Decode_sound link) p Hd) as (_ & _ & Ht). by split_and!.
Qed.

Lemma report_as_inv_Ok {A} say (m : M cli A) c a c' : report_as say m c = (Ok a, c') → m c = (Ok a, c').
Proof. unfold report_as, bind, try. destruct (m c) as [[x|e|] c1]; intros; naive_solver. Qed.

Lemma emit_inv o c u c' : emit o c = (Ok u, c') → same_but_out c c'.
Proof. by intros [= _ <-]. Qed.

Lemma on_csys_inv {A} (m : M sys A) c a c' :
  on_csys m c = (Ok a, c') → m (c_sys c) = (Ok a, c_sys c') ∧ c_rand c' = c_rand c ∧ c_conns c' = c_conns c.
Proof. unfold on_csys, zoom. destruct (m (c_sys c)) as [r s]. by intros [= -> <-]. Qed.

(** What a successful import has done, once the link is accepted. *)
Definition import_banner c : cli := emitted (Out [txt "Importing invite..."; T [x0a]; T [x0a]]) c.

Lemma import_success home nt hostname link name label noVerify c p c2 u c' :
  accept_link link noVerify (import_banner c) = (Ok p, c2) → untouched c c2 →
  runImport home nt hostname link name label noVerify c = (Ok u, c') →
  ∃ kp raw h sid t lbl s,
    fst (Transport.Dial nt (import_transport p) (pl_Server p) (c_rand c)) = Ok raw ∧
    BootstrapClient (pl_Token p) kp lbl (Host raw s None) = (Ok sid, h) ∧
    c_conns c' = c_conns c ++ [(pl_Server p, Some (conn_close (h_conn h)))] ∧
    yaml_Marshal (import_profile p name (defaultIdentityPath home)) = Ok t ∧
    fs_files (s_fs (c_sys c')) !! profilePath home name = Some t.
Proof.
  intros E2 (_ & _ & R5 & R6). unfold runImport. erewrite bind_Ok by reflexivity.
  erewrite bind_Ok by exact E2. intros Hrun.
  apply bind_inv_Ok in Hrun as (kp & c3 & K3%report_as_inv_Ok%on_csys_inv & Hrun).
  apply bind_inv_Ok in Hrun as ([] & c4 & K4 & Hrun). apply bind_inv_Ok in Hrun as ([] & c5 & K5 & Hrun).
  apply bind_inv_Ok in Hrun as (raw & c6 & K6%wrap_inv_Ok%report_as_inv_Ok & Hrun).
  apply bind_inv_Ok in Hrun as ([] & c7 & K7%report_as_inv_Ok & Hrun).
  apply bind_inv_Ok in Hrun as ([] & c8 & K8 & Hrun). cbv zeta in Hrun.
  apply bind_inv_Ok in Hrun as ([] & c9 & K9%report_as_inv_Ok%on_csys_inv & Hrun).
  apply bind_inv_Ok in Hrun as ([] & c10 & K10 & Hrun).
  pose proof (emit_inv (Out _) _ _ _ K4) as (Q1 & Q2 & Q3). pose proof (emit_inv (Out _) _ _ _ K5) as (Q4 & Q5 & Q6).
  pose proof (emit_inv (Out _) _ _ _ K8) as (Q7 & Q8 & Q9). pose proof (emit_inv (Out _) _ _ _ K10) as (Qa & Qb & Qc).
  pose proof (emit_inv (Out _) _ _ _ Hrun) as (Qd & Qe & Qf). clear K4 K5 K8 K10 Hrun.
  destruct K3 as (_ & R1 & R2), K9 as (K9 & R3 & R4).
  unfold dial_server in K6. rewrite Q5, Q2, R1, R5 in K6.
  destruct (Dial nt (import_transport p) (pl_Server p) (c_rand c)) as [dl rd] eqn:Ed.
  destruct dl as [raw'|e|]; [|done|done]. injection K6 as <- <-.
  unfold bootstrap_on in K7. cbn [c_sys c_rand c_out c_conns] in K7.
  destruct (BootstrapClient _ _ _ _) as [ob h] eqn:Eb. destruct ob as [sid|e|]; [|done|done]. injection K7 as <-.
  unfold on_fs, zoom in K9.
  destruct (SaveClientProfile _ _ _) as [sv f] eqn:Es in K9. injection K9 as -> Hf.
  destruct (SaveClientProfile_ok _ _ _ _ Es) as (t & Hm & Hfile).
  exists kp, raw', h, sid, t. do 2 eexists. split; [done|]. split; [exact Eb|].
  split; [rewrite Qf, Qc, R4, Q9; cbn [c_conns]; by rewrite Q6, Q3, R2, R6|].
  split; [exact Hm|]. rewrite Qd, Qa, <- Hf. exact Hfile.
Qed.

(** C13. Importing an invite.  There is a time, read from the clock, that decides:
    a link that does not decode, has expired by then, or carries a key under
    which its signature does not verify (unless told not to look) is refused
    before a key has been generated, a file written or a server dialled.  When
    the command succeeds, the link was acceptable, the only connection made was
    to its server, where the registration of this device under the link's token
    succeeded, and the profile file holds the profile for that server.  The
    signature does not protect the server's address: whoever can read a link
    can make another one, for a server of theirs and without a signature, that
    is just as acceptable. *)
Theorem import_decision home nt hostname link name label noVerify c :
  ∃ now, now ∈ clock_readings (s_clock (c_sys c)) ∧
  ((∀ p, ~ acceptable link noVerify now p) →
     ∃ e c', runImport home nt hostname link name label noVerify c = (Err e, c') ∧ untouched c c') ∧
  (∀ u c', runImport home nt hostname link name label noVerify c = (Ok u, c') →
     ∃ p kp raw h sid t lbl s,
       acceptable link noVerify now p ∧
       fst (Transport.Dial nt (import_transport p) (pl_Server p) (c_rand c)) = Ok raw ∧
       BootstrapClient (pl_Token p) kp lbl (Host raw s None) = (Ok sid, h) ∧
       c_conns c' = c_conns c ++ [(pl_Server p, Some (conn_close (h_conn h)))] ∧
       yaml_Marshal (import_profile p name (defaultIdentityPath home)) = Ok t ∧
       fs_files (s_fs (c_sys c')) !! profilePath home name = Some t) ∧
  (∀ p server, acceptable link noVerify now p → server ≠ [] → json_valid (forged server p) →
     acceptable (Encode (forged server p)) false now (forged server p)).
Proof.
  destruct (accept_link_run link noVerify (import_banner c)) as (now & o & c2 & Hin & E2 & Hu & Ho).
  assert (Hu' : untouched c c2) by (etransitivity; [by apply untouched_out|exact Hu]).
  exists now. split; [exact Hin|]. split; [|split; [|intros p server; apply forged_acceptable]].
  - intros Hno. destruct o as [p|e|]; [by destruct (Hno p)| |done]. exists e, c2.
    unfold runImport. erewrite bind_Ok by reflexivity. by erewrite bind_Err by exact E2.
  - intros u c' Hrun. destruct o as [p|e|].
    + destruct (import_success home nt hostname link name label noVerify c p c2 u c' E2 Hu' Hrun)
        as (kp & raw & h & sid & t & lbl & s & Hs). by exists p, kp, raw, h, sid, t, lbl, s.
    + unfold runImport in Hrun. erewrite bind_Ok in Hrun by reflexivity. by rewrite (bind_Err _ _ _ _ _ E2) in Hrun.
    + done.
Qed.
End import.


Lemma rotate_keeps_key_witness :
  let ed := toy_Ed25519 in let js := countable_JSON storedKey in let home := Ok (str "/home/u") in
  let d := pos_bytes (encode (stored kp0)) in
  let key := defaultIdentityPath home in
  let c := Cli (Sys (clock_at 3000) (stream (be_put 32 7) EOF) (Fs {[ key := d ]} [])) (Mrand (λ _, 1) (λ _, float_of_Z 0) 0) [] [] in
  match runKeysRotate home false c with
  | (Ok _, c') => holds (bakPath home) d (c_sys c') ∧
      ∃ e c2, runKeysRotate home false c' = (Err e, c2) ∧ fs_files (s_fs (c_sys c2)) = fs_files (s_fs (c_sys c'))
  | _ => False
  end.
Proof.
  intros ed js home d key c.
  assert (Hd : holds key d (c_sys c)) by (split; [reflexivity|constructor]).
  destruct (rotate_keeps_key home false d c Hd) as [H1 _].
  assert (Hok : is_ok (fst (runKeysRotate home false c)) = true ∧
    no_faults (c_sys (snd (runKeysRotate home false c)))) by (split; vm_compute; reflexivity).
  destruct (runKeysRotate home false c) as [[u|e|] c']; cbn [fst snd] in Hok; destruct Hok as [Hok Hnf];
    [|discriminate|discriminate].
  destruct H1 as [Hb (kp & text & _ & _ & Hk)]. split; [exact Hb|].
  destruct (rotate_keeps_key home false text c') as [_ H2]; [split; [exact Hk|apply Hb]|].
  apply H2; [reflexivity|exact Hnf|]. exists d. apply Hb.
Defined.
