(* ===== verification/Processes.v ===== *)
(** Two processes on one registry file: the running server, whose registry stays
    in memory, and the commands [daxson invite] and [daxson devices], each of
    which loads the file, changes its own copy, saves and ends
    ([internal/registry/registry.go] used by [cmd/daxson/cmd/serve.go] and by
    [invite_cmd.go] and [devices.go]).  An event is one whole call of the server
    or one whole command. *)

From Stdlib Require Import Strings.Byte String ZArith Lia.
From stdpp Require Import base list gmap.
From S2P Require Import Prelude Encoding Io Hash Wire Identity Registry Float Shaping Invite Terminal Commands.

Section processes.
Context `{Ed25519} `{JSON storedKey} `{JSON storeData} `{JSON Payload}.
Variable home : result bytes.

Inductive command : Type :=
  | InviteCreate (server label : bytes) (maxUses ttl : Z)
  | InviteList
  | InviteRevoke (tokenID : bytes)
  | DevicesList
  | DevicesRevoke (deviceID : bytes).

Definition run_command (cmd : command) : M cli unit :=
  match cmd with
  | InviteCreate server label maxUses ttl => runInviteCreate home server label maxUses ttl
  | InviteList => runInviteList home
  | InviteRevoke id => runInviteRevoke home id
  | DevicesList => runDevicesList home
  | DevicesRevoke id => runDevicesRevoke home id
  end.

(** The server's registry in memory, and what both processes share. *)
Record procs := Procs { pr_server : Registry; pr_cli : cli }.

Inductive event : Type := Serve (o : rop) | Command (cmd : command).

Definition server_state (p : procs) : rstate := RState (pr_server p) (c_sys (pr_cli p)).
Definition event_step (p : procs) (e : event) : procs :=
  match e with
  | Serve o =>
      let st := snd (run_op o (server_state p)) in
      Procs (rs_reg st) (Cli (rs_sys st) (c_rand (pr_cli p)) (c_out (pr_cli p)) (c_conns (pr_cli p)))
  | Command cmd => Procs (pr_server p) (snd (run_command cmd (pr_cli p)))
  end.
Definition events (es : list event) (p : procs) : procs := fold_left event_step es p.

(** The calls the server itself makes. *)
Definition served (es : list event) : list rop := omap (λ e, match e with Serve o => Some o | Command _ => None end) es.

(** The server's memory evolves by its own calls, whatever the commands do. *)
Lemma events_ind (P : storeData → Prop) es p :
  (∀ o d d', o ∈ served es → data_step d o d' → P d → P d') →
  P (r_data (pr_server p)) → P (r_data (pr_server (events es p))).
Proof.
  revert p. induction es as [|e es IH]; intros p Hstep HP; [done|].
  apply (IH (event_step p e)).
  - intros o d d' Ho. apply Hstep. destruct e; [by right|done].
  - destruct e as [o|cmd]; [|done]. destruct (run_op_step o (server_state p)) as (Hs & _).
    eapply Hstep; [by left|exact Hs|done].
Qed.

(** Registered and in force. *)
Definition active (pub : bytes) (d : storeData) : Prop :=
  ∃ i v, find_device pub d = Some (i, v) ∧ dev_Revoked v = false ∧ dev_DeviceID v = shortDeviceID pub.

Lemma active_step pub o d d' :
  o ≠ OpRevokeDevice (shortDeviceID pub) → data_step d o d' → active pub d → active pub d'.
Proof.
  intros Ho Hs%data_step_device (i & v & Hv & Hr & Hid).
  destruct (find_device_step d o d' pub i v Hs Hv) as (w & Hw & _ & Hidw & Hrw).
  exists i, w. split_and!; [done| |congruence].
  destruct Hrw as [E|(_ & id & x & -> & Hx)]; [congruence|]. exfalso.
  apply list_find_Some in Hx as (Hx & Hxid & _). apply list_find_Some in Hv as (Hi & _). simplify_eq.
  apply bool_decide_spec in Hxid. congruence.
Qed.

Lemma unknown_step token o d d' :
  (∀ label n ttl, o ≠ OpCreateInvite label n ttl) → data_step d o d' →
  find_invite token d = None → find_invite token d' = None.
Proof.
  intros Ho Hs. unfold find_invite. rewrite !list_find_None, !Forall_lookup. intros Hn.
  assert (Hall : ∀ f k, (∀ v, ~ Is_true (negb (inv_Revoked v) && bytesEqual (inv_Token v) token) →
      ~ Is_true (negb (inv_Revoked (f v)) && bytesEqual (inv_Token (f v)) token)) →
      ∀ j w, alter f k (st_Invites d) !! j = Some w →
      ~ Is_true (negb (inv_Revoked w) && bytesEqual (inv_Token w) token)).
  { intros f k Hf j w Hw. destruct (decide (j = k)) as [->|Hjk].
    - rewrite list_lookup_alter_eq in Hw. apply fmap_Some in Hw as (v & Hv & ->). eauto.
    - rewrite list_lookup_alter_ne in Hw by done. eauto. }
  destruct Hs as [|pub i v t|token' pub l i v t|l n ttl| |]; cbn [st_Invites]; try done.
  - apply Hall. by intros v'.
  - by edestruct Ho.
  - apply Hall. intros v' _ [].
Qed.

Lemma authorize_active pub st :
  active pub (data st) → ∃ st', AuthorizeDevice pub st = (Ok AuthStatusOK, st').
Proof.
  intros (i & v & Hf & Hr & _). pose proof (AuthorizeDevice_run pub st) as Ha.
  rewrite Hf, Hr in Ha. destruct Ha as (t & s' & ->). by eexists.
Qed.

(** An authorized device is on file, whoever revoked it there. *)
Lemma authorize_saves pub st :
  active pub (data st) → no_faults (rs_sys st) → json_valid (data (snd (AuthorizeDevice pub st))) →
  ∃ st', AuthorizeDevice pub st = (Ok AuthStatusOK, st') ∧ active pub (data st') ∧
    Load (r_path (rs_reg st')) (rs_sys st') = (Ok (rs_reg st'), rs_sys st').
Proof.
  intros Ha Hnf Hv. pose proof Ha as (i & v & Hf & Hrev & _).
  assert (Hrun : ∃ t s2 r s3, no_faults s2 ∧
    let st2 := RState (mkRegistry (r_path (rs_reg st))
      (mkStore (alter (set_LastSeenAt t) i (st_Devices (data st))) (st_Invites (data st)))) s2 in
    ignore save st2 = (r, s3) ∧ AuthorizeDevice pub st = (Ok AuthStatusOK, s3) ∧ rs_reg s3 = rs_reg st2).
  { unfold AuthorizeDevice, find_device, data in *. destruct (on_clock_now (rs_sys st)) as (t & c' & Ht).
    set (st2 := RState (mkRegistry (r_path (rs_reg st))
      (mkStore (alter (set_LastSeenAt t) i (st_Devices (r_data (rs_reg st)))) (st_Invites (r_data (rs_reg st)))))
      (Sys c' (s_rand (rs_sys st)) (s_fs (rs_sys st)))).
    destruct (ignore_save_frame st2) as (s' & Hs).
    exists t, (Sys c' (s_rand (rs_sys st)) (s_fs (rs_sys st))), (Ok tt), (RState (rs_reg st2) s').
    split; [exact Hnf|]. split; [exact Hs|]. split; [|done].
    erewrite bind_Ok by done. rewrite Hf, Hrev. erewrite bind_Ok by (by apply on_sys_eq).
    erewrite bind_Ok by done. by erewrite bind_Ok by exact Hs. }
  destruct Hrun as (t & s2 & r & s3 & Hnf2 & Hs & Hrun & Hreg). rewrite Hrun in *. cbn [snd] in Hv.
  exists s3. split; [done|]. unfold data in *. rewrite Hreg in Hv. rewrite Hreg. cbn [r_data rs_reg] in *.
  split.
  - eapply active_step; [|by eapply (step_seen (r_data (rs_reg st)) pub)|exact Ha]. done.
  - match type of Hs with ignore save ?x = _ => destruct (save_healthy x Hnf2 Hv) as (st' & Hsave & Hreg' & _ & Hload) end.
    unfold ignore, try, bind in Hs. rewrite Hsave in Hs. injection Hs as <- <-. exact Hload.
Qed.

(** C12. The registry of a running server is its own.  Whatever [daxson invite]
    and [daxson devices] do meanwhile to the file, and in whatever order: a
    device that was in force in the server's memory is still authorized, revoked
    on the command line or not, unless the server itself was asked to revoke its
    ID; when that authorization can write the file, a server started afterwards
    authorizes the device too, since the file then holds the server's own
    store and no longer the revocation; and a token unknown to the server's
    memory, such as that of an invite made on the command line, registers
    nothing. *)
Theorem running_server_is_alone es p pub token label :
  let st := server_state (events es p) in
  (active pub (r_data (pr_server p)) → OpRevokeDevice (shortDeviceID pub) ∉ served es →
     ∃ st', AuthorizeDevice pub st = (Ok AuthStatusOK, st') ∧
       (no_faults (rs_sys st) → json_valid (data st') →
          ∃ reg s, Load (r_path (rs_reg st')) (rs_sys st') = (Ok reg, s) ∧
            fst (AuthorizeDevice pub (RState reg s)) = Ok AuthStatusOK)) ∧
  (find_invite token (r_data (pr_server p)) = None → (∀ l n ttl, OpCreateInvite l n ttl ∉ served es) →
     Bootstrap token pub label st = (Ok (BootstrapStatusInvalidToken, None), st)).
Proof.
  intros st. split.
  - intros Ha Hrev. assert (Hst : active pub (data st)).
    { apply (events_ind (active pub)); [|exact Ha]. intros o d d' Ho. apply active_step. by intros ->. }
    destruct (authorize_active pub st Hst) as (st' & Hok). exists st'. split; [exact Hok|]. intros Hnf Hv.
    destruct (authorize_saves pub st Hst Hnf) as (st2 & E & Ha' & Hload); [by rewrite Hok|].
    rewrite Hok in E. injection E as <-. do 2 eexists. split; [exact Hload|].
    destruct (authorize_active pub (RState (rs_reg st') (rs_sys st')) Ha') as (st3 & ->). done.
  - intros Hn Hc. assert (Hst : find_invite token (data st) = None).
    { apply (events_ind (λ d, find_invite token d = None)); [|exact Hn].
      intros o d d' Ho. apply unknown_step. intros l n ttl ->. by eapply Hc. }
    pose proof (Bootstrap_run token pub label st) as Hb. by rewrite Hst in Hb.
Qed.
End processes.

(** A device revoked on the command line while the server runs. *)
Lemma running_server_is_alone_witness :
  let ed := toy_Ed25519 in let home := Ok (str "/home/u") in
  let store := mkStore [set_LastSeenAt 3000 (new_device key1 (str "a") 5)] [] in
  let ks := countable_JSON storedKey in let js := single_JSON store in let jp := single_JSON (mkPayload 1 [] [] [] [] 1 0 []) in
  let c := Cli (Sys (Clock 3000 []) (stream (be_put 32 7) EOF) (Fs {[ defaultRegistryPath home := [x7b; x7d] ]} []))
             (Mrand (λ _, 1) (λ _, float_of_Z 0) 0) [] [] in
  let p := Procs (mkRegistry (defaultRegistryPath home) (mkStore [new_device key1 (str "a") 5] [])) c in
  let es := [Command (DevicesRevoke (str "693bcd")); Serve (OpAuthorize key2);
             Command (InviteCreate (str "h:1") (str "l") 1 0)] in
  let st := server_state (events home es p) in
  (∃ st', AuthorizeDevice key1 st = (Ok AuthStatusOK, st') ∧
     ∃ reg s, Load (r_path (rs_reg st')) (rs_sys st') = (Ok reg, s) ∧
       fst (AuthorizeDevice key1 (RState reg s)) = Ok AuthStatusOK) ∧
  Bootstrap (be_put 32 7) key2 (str "b") st = (Ok (BootstrapStatusInvalidToken, None), st).
Proof.
  intros ed home store ks js jp c p es st.
  destruct (running_server_is_alone home es p key1 (be_put 32 7) (str "b")) as [H1 H2]. split.
  - destruct H1 as (st' & E & Hw).
    + exists 0%nat, (new_device key1 (str "a") 5). split; [by vm_compute|]. split; vm_compute; reflexivity.
    + intros [E|E]%elem_of_cons; [discriminate|by apply elem_of_nil in E].
    + exists st'. split; [exact E|]. apply Hw; [by vm_compute|].
      change st' with (snd (Ok AuthStatusOK, st')). rewrite <- E. by vm_compute.
  - apply H2; [by vm_compute|]. intros l n ttl [E|E]%elem_of_cons; [discriminate|by apply elem_of_nil in E].
Defined.
