(* ===== verification/Launch.v ===== *)
(** The commands that start the program's long-running parts: [daxson connect]
    ([cmd/daxson/cmd/connect.go]), [daxson serve] ([serve.go]) and [daxsond]
    ([cmd/daxsond/main.go]).  They build the configuration and the components
    and hand them the environment. *)

From Stdlib Require Import Strings.Byte String ZArith Lia.
From stdpp Require Import base list gmap.
From S2P Require Import Prelude Encoding Net Io Float Hash Frame Wire Identity Registry Auth.
From S2P Require Import Shaping Pipe Telemetry Metrics Config Transport HttpProxy Tunnel Client Invite Terminal Commands CommandFacts.

(** ** connect.go *)

(** A client profile as a configuration of the tunnel client. *)
Definition buildLegacyConfig (p : ClientProfile) : Config :=
  mkConfig ModeClient (cp_Proxy p)
    (mkTunnel (cp_Server p) (cp_TLS p) (mkAuth (str "unused-device-auth")) (cp_Transport p) (cp_Reconnect p))
    (cf_Server Defaults) (cf_Upstream Defaults) (cf_Metrics Defaults) (cf_Logging Defaults) (cf_PProf Defaults).

(** The [--socks5] and [--http] flags. *)
Definition override (socks5 http : bytes) (p : ClientProfile) : ClientProfile :=
  let px := cp_Proxy p in
  mkProfile (cp_Version p) (cp_Name p) (cp_Server p) (cp_ServerKey p) (cp_DeviceKey p) (cp_TLS p) (cp_Transport p)
    (mkProxy (if is_empty socks5 then px_SOCKS5 px else socks5) (if is_empty http then px_HTTP px else http))
    (cp_Reconnect p).

(** What happens while the command runs: the attempts of the tunnel client, what
    binding the address of a proxy gives and is then accepted there, how often the status is written again, and the
    error that ends it ([None]: interrupted). *)
Record session_script := Script {
  ss_attempts : list attempt;
  ss_socks : bytes → result (list (option conn));
  ss_http : bytes → result (list (option conn));
  ss_ticks : nat;
  ss_error : option error
}.

Section launch.
Context `{Ed25519} `{JSON storedKey} `{JSON storeData} `{JSON Payload} `{JSON statusRecord} `{YAML} `{Prometheus}.
Variable home : result bytes.

(** The tunnel client of the command has no metrics. *)
Definition connect_client (p : ClientProfile) (kp : KeyPair) : Client DeviceAuth :=
  NewClientWithAuth (buildLegacyConfig p) (NewDeviceAuth kp).

Definition tunnel_goroutine (p : ClientProfile) (kp : KeyPair) (ks : list attempt) (c : cli) : result (list run_action) :=
  fst (client_Run (connect_client p kp) ks (CState (c_sys c) (c_rand c) None [] None)).

(** The goroutines that are started; a panic in any of them ends the process. *)
Definition goroutines (p : ClientProfile) (kp : KeyPair) (s : session_script) (c : cli) : result unit :=
  if is_panic (tunnel_goroutine p kp (ss_attempts s) c)
     || negb (is_empty (px_SOCKS5 (cp_Proxy p))) && is_panic (fst (socks_ListenAndServe (ss_socks s) (socks_NewServer (px_SOCKS5 (cp_Proxy p)) None)))
     || negb (is_empty (px_HTTP (cp_Proxy p))) && is_panic (fst (http_ListenAndServe (ss_http s) (http_NewServer (px_HTTP (cp_Proxy p)) None)))
  then Panic else Ok tt.

Definition banner (p : ClientProfile) (kp : KeyPair) : M cli unit :=
  printOK ([txt "Authenticated  (device: "] ++ bold (kp_DeviceID kp) ++ [txt ")"]) ;;;
  Println [T [x0a]; T ansiGreen; txt "Tunnel ready"; T ansiReset] ;;;
  (when negb (is_empty (px_SOCKS5 (cp_Proxy p))) do printInfo (txt "SOCKS5  " :: bold (px_SOCKS5 (cp_Proxy p))) od) ;;;
  (when negb (is_empty (px_HTTP (cp_Proxy p))) do printInfo (txt "HTTP    " :: bold (px_HTTP (cp_Proxy p))) od) ;;;
  Println ([T [x0a]; txt "Press "] ++ bold (str "Ctrl+C") ++ [txt " to disconnect."; T [x0a]]).

(** The profile with its overrides, and the device key it names. *)
Definition connect_prepare (profileName socks5 http : bytes) : M cli (ClientProfile * KeyPair) :=
  profile <- report_as (λ _, [txt "Profile "; Quoted profileName; txt " not found. Run 'daxson import <link>' first."])
               (on_cfs (LoadClientProfile (profilePath home profileName))) ;;
  let profile := override socks5 http profile in
  let keyPath := if is_empty (cp_DeviceKey profile) then defaultIdentityPath home else cp_DeviceKey profile in
  kp <- report "Device key error: " (on_csys (Identity.Load keyPath)) ;;
  ret (profile, kp).

Definition runConnect (startTime : Z) (s : session_script) (profileName socks5 http : bytes) : M cli unit :=
  pk <- connect_prepare profileName socks5 http ;;
  let '(profile, kp) := pk in
  Println ([txt "Connecting to "] ++ bold (cp_Server profile) ++ [txt "..."]) ;;;
  c <- gets id ;;
  lift (goroutines profile kp s c) ;;;
  on_csys (on_clock (time_Sleep 500000000)) ;;;
  banner profile kp ;;;
  let statusPath := defaultStatusPath home in
  writeStatus startTime statusPath (kp_DeviceID kp) profile ;;;
  times (ss_ticks s) (writeStatus startTime statusPath (kp_DeviceID kp) profile) ;;;
  match ss_error s with
  | None => Println [T [x0a]; txt "Disconnected."] ;;; ignore (on_cfs (os_Remove statusPath))
  | Some e => ignore (on_cfs (os_Remove statusPath)) ;;; fail e
  end.

(** ** serve.go *)

(** What [daxson serve] runs. *)
Record serving := Serving {
  sg_server : Server; sg_registry : Registry; sg_key : KeyPair; sg_dashboard : bytes;
  sg_collector : option Collector; sg_met : option Metrics
}.

Definition serve_identity (cfg : Config) : M cli KeyPair :=
  let identityPath := if is_empty (sv_IdentityKey (cf_Server cfg)) then defaultServerIdentityPath home
                      else sv_IdentityKey (cf_Server cfg) in
  identityExisted <- try (on_cfs (os_Stat identityPath)) ;;
  serverKey <- report "Server identity error: " (on_csys (Identity.Load identityPath)) ;;
  (if match identityExisted with inr e => bool_decide (e = ErrNotExist) | inl _ => false end
   then printOK ([txt "Server identity generated  (id: "] ++ bold (kp_DeviceID serverKey) ++ [txt ")  "; T identityPath])
   else printOK ([txt "Server identity loaded  (id: "] ++ bold (kp_DeviceID serverKey) ++ [txt ")"])) ;;;
  ret serverKey.

Definition serve_registry (cfg : Config) : M cli Registry :=
  let registryPath := if is_empty (sv_Registry (cf_Server cfg)) then defaultRegistryPath home
                      else sv_Registry (cf_Server cfg) in
  reg <- report "Registry error: " (on_csys (Registry.Load registryPath)) ;;
  n <- on_registry_of reg DeviceCount ;;
  printOK [txt "Registry loaded  ("; T (dec n); txt " device(s))"] ;;;
  ret reg.

Definition serve_start (cfgFile dashboardOverride : bytes) : M cli serving :=
  let cfgFile := if is_empty cfgFile then defaultServerConfigPath home else cfgFile in
  cfg <- report "Config error: " (on_cfs (Config.Load cfgFile)) ;;
  if negb (bool_decide (cf_Mode cfg = ModeServer)) then
    printFail [txt "Config mode is "; Quoted (cf_Mode cfg); txt " but serve requires mode: server"] ;;;
    fail (ErrNew "serve: wrong mode %q" [])
  else
    serverKey <- serve_identity cfg ;;
    reg <- serve_registry cfg ;;
    let dashAddr := if is_empty dashboardOverride then da_Listen (sv_Dashboard (cf_Server cfg)) else dashboardOverride in
    (when negb (is_empty dashAddr) do printOK (txt "Dashboard listening on " :: bold dashAddr) od) ;;;
    let ts := WithTransportLabel (tl_Fingerprint (tu_TLS (cf_Tunnel cfg))) (Tunnel.NewServer cfg) in
    Println ([T [x0a]; T ansiGreen; txt "Tunnel server ready"; T ansiReset; txt "  listening on "] ++ bold (sv_Listen (cf_Server cfg))) ;;;
    Println ([txt "Press "] ++ bold (str "Ctrl+C") ++ [txt " to stop."; T [x0a]]) ;;;
    ret (Serving ts reg serverKey dashAddr (Some Telemetry.New) (Some Metrics.New)).

(** [ending]: what arrives on [errCh], or the interrupt. *)
Definition runServe (cfgFile dashboardOverride : bytes) (ending : option error) : M cli unit :=
  serve_start cfgFile dashboardOverride ;;;
  match ending with
  | None => Println [T [x0a]; txt "Server stopped."]
  | Some e => fail e
  end.

(** A connection as the server of [daxson serve] sees it. *)
Definition serve_world (s : serving) (c : conn) (e : sys) : world :=
  World (Host c e (Some (sg_registry s))) (sg_collector s) (sg_met s).

(** ** daxsond: the server alone, without registry and telemetry *)

Definition daxsond_run (cfgFile : bytes) : M fs Server :=
  cfg <- wrap "config: %w" (Config.Load cfgFile) ;;
  if negb (bool_decide (cf_Mode cfg = ModeServer)) then fail (ErrNew "daxsond requires mode: server, got %q" []) else
  ret (Tunnel.NewServer cfg).

(** The whole command: [ending] is what the server's [ListenAndServe] returns. *)
Definition runDaemon (cfgFile : bytes) (ending : option error) : M cli unit :=
  on_cfs (daxsond_run cfgFile) ;;;
  match ending with None => ret tt | Some e => fail (ErrWrap "server: %w" e) end.

Definition daxsond_world (c : conn) (e : sys) : world := World (Host c e None) None (Some Metrics.New).
End launch.

(** ** [daxson connect] *)

Section connect.
Context `{Ed25519} `{JSON storedKey} `{JSON storeData} `{JSON Payload} `{JSON statusRecord} `{YAML} `{Prometheus}.
Variable home : result bytes.
Implicit Types (c : cli).

(** Without metrics the first attempt that is not cancelled panics, whether it
    succeeds or not. *)
Lemma client_without_metrics {A} `{ClientAuth A} (cl : Client A) k ks s :
  cs_met s = None → at_cancel k ≠ CancelledInAttempt → fst (client_Run cl (k :: ks) s) = Panic.
Proof.
  intros Hm Hk. unfold client_Run. cbn [client_loop].
  assert (Hc : match connect cl k s with (Ok _, _) => False | (_, s') => cs_met s' = None end).
  { unfold connect. unfold bind at 1, wrap at 1, on_cs_rand, zoom.
    destruct (Transport.Dial _ _ _ _) as [[raw|e|] r]; [|exact Hm|exact Hm].
    unfold bind at 1, wrap at 1, client_auth. cbn [cs_sys cs_rand cs_session cs_closed cs_met].
    destruct (Handshake _ _) as [[sid|e|] h]; [|exact Hm|exact Hm].
    unfold bind at 1, wrap at 1, lift. destruct (at_session k _ _ _) as [sess|e|]; [|exact Hm|exact Hm].
    unfold bind at 1, modify, on_cs_met, zoom, RecordConnect, inc_label. cbn [install cs_met]. rewrite Hm.
    by destruct (prom_accepts _). }
  unfold try, bind at 1. destruct (connect cl k s) as [[u|e|] s']; [done| |done].
  destruct (at_cancel k); [|done|]; unfold bind at 1, on_cs_met, zoom, RecordReconnect, call; by rewrite Hc.
Qed.

Lemma goroutines_panic p kp s c k ks :
  ss_attempts s = k :: ks → at_cancel k ≠ CancelledInAttempt → goroutines p kp s c = Panic.
Proof.
  intros Ha Hk. unfold goroutines, tunnel_goroutine. rewrite Ha. by rewrite client_without_metrics.
Qed.

(** C21. [daxson connect] does not connect.  After a successful import the profile
    it has written cannot be read: the command fails with nothing dialled and no
    file changed, and so it will until somebody edits the file.  With a profile
    that can be read the process panics at the outcome of the tunnel's first
    attempt, be it a failure or a success, since the tunnel client counts both in
    metrics that the command does not give it; and at the first connection to
    one of its proxies. *)
Theorem connect_never_serves :
  (∀ nt hostname link name label noVerify c u c1 t0 s socks5 http,
     runImport home nt hostname link name label noVerify c = (Ok u, c1) → no_faults (c_sys c1) →
     ∃ e c2, runConnect home t0 s name socks5 http c1 = (Err e, c2) ∧ same_but_out c1 c2) ∧
  (∀ t0 s name socks5 http c p kp c1 k ks,
     connect_prepare home name socks5 http c = (Ok (p, kp), c1) →
     ss_attempts s = k :: ks → at_cancel k ≠ CancelledInAttempt →
     fst (runConnect home t0 s name socks5 http c) = Panic) ∧
  (∀ t0 s name socks5 http c p kp c1 client rest,
     connect_prepare home name socks5 http c = (Ok (p, kp), c1) →
     px_SOCKS5 (cp_Proxy p) ≠ [] → ss_socks s (px_SOCKS5 (cp_Proxy p)) = Ok (Some client :: rest) →
     fst (runConnect home t0 s name socks5 http c) = Panic).
Proof.
  assert (Hrun : ∀ t0 s name socks5 http c p kp c1, connect_prepare home name socks5 http c = (Ok (p, kp), c1) →
    (∀ c2, goroutines p kp s c2 = Panic) → fst (runConnect home t0 s name socks5 http c) = Panic).
  { intros t0 s name socks5 http c p kp c1 E Hg. unfold runConnect. erewrite bind_Ok by exact E. cbv beta iota.
    erewrite bind_Ok by reflexivity. erewrite bind_Ok by reflexivity. unfold bind at 1, lift. by rewrite Hg. }
  split; [|split].
  - intros nt hostname link name label noVerify c u c1 t0 s socks5 http Hi Hnf.
    destruct (accept_link_run link noVerify (import_banner c)) as (now & o & c2 & _ & E2 & Hu & Ho).
    assert (Hu' : untouched c c2) by (etransitivity; [by apply untouched_out|exact Hu]).
    destruct o as [p|e|].
    + destruct (import_success home nt hostname link name label noVerify c p c2 u c1 E2 Hu' Hi)
        as (_ & _ & _ & _ & t & _ & _ & _ & _ & _ & Hm & Hfile).
      destruct (saved_unloadable _ t _ (s_fs (c_sys c1)) Hm Hfile Hnf) as [e E].
      assert (E' : on_cfs (LoadClientProfile (profilePath home name)) c1 = (Err e, c1)).
      { unfold on_cfs, on_csys, on_fs, zoom. rewrite E. by destruct c1 as [[] ? ? ?]. }
      unfold runConnect, connect_prepare.
      destruct (report_as_Err (λ _, [txt "Profile "; Quoted name; txt " not found. Run 'daxson import <link>' first."]) _ _ _ _ E')
        as (c3 & E3 & Hs). exists e, c3. rewrite bind_bind. erewrite bind_Err by exact E3. done.
    + unfold runImport in Hi. erewrite bind_Ok in Hi by reflexivity. by rewrite (bind_Err _ _ _ _ _ E2) in Hi.
    + done.
  - intros t0 s name socks5 http c p kp c1 k ks E Ha Hk. eapply Hrun; [exact E|].
    intros c2. by eapply goroutines_panic.
  - intros t0 s name socks5 http c p kp c1 client rest E Hp Ha. eapply Hrun; [exact E|].
    intros c2. unfold goroutines. rewrite (socks_ListenAndServe_nil _ _ _ _ Ha).
    unfold is_empty. rewrite bool_decide_false by done. cbn [negb andb is_panic]. by rewrite orb_true_r.
Qed.
End connect.

(** ** A run *)

(** A registrar behind every name, an invite for it, and the commands run with
    libraries of the simplest kind. *)
Definition registrar : network :=
  Network (λ _, Ok (conn_of []))
    (λ cfg _ _, if bool_decide (ut_ServerName cfg = []) && negb (ut_InsecureSkipVerify cfg)
                then Err (ErrNew "tls: at least one of ServerName, InsecureSkipVerify must be specified" [])
                else Ok (conn_of (BootstrapResponse_Marshal (mkBResp BootstrapStatusOK (replicate 16 x09))))).
Definition plain_invite : Payload := mkPayload 1 (str "vpn.example.com:443") [] (replicate 32 x2a) (str "laptop") 1 0 [].
Definition new_user : cli := Cli (sys_at 3000) (Mrand (λ _, 1) (λ _, float_of_Z 0) 0) [] [].

#[local] Existing Instance toy_Ed25519.
#[local] Existing Instance Config.toy_YAML.
#[local] Existing Instance utf8_Prometheus.
#[local] Instance key_codec : JSON storedKey := single_JSON (stored kp0).
#[local] Instance payload_codec : JSON Payload := single_JSON plain_invite.

#[local] Instance status_codec : JSON statusRecord := single_JSON (mkStatus 1 true [] [] [] [] [] 0 0).

Lemma connect_never_serves_witness :
  let s := Script [good_attempt] (λ _, Ok []) (λ _, Ok []) 0 None in
  match runImport (Ok (str "/home/u")) registrar (Ok (str "laptop")) (Encode plain_invite) (str "default") [] false new_user with
  | (Ok _, c1) => map fst (c_conns c1) = [str "vpn.example.com:443"] ∧
      ∃ e c2, runConnect (Ok (str "/home/u")) 0 s (str "default") [] [] c1 = (Err e, c2)
  | _ => False
  end.
Proof.
  intros s. destruct (connect_never_serves (Ok (str "/home/u"))) as (Himp & _ & _).
  pose proof (Himp registrar (Ok (str "laptop")) (Encode plain_invite) (str "default") [] false new_user) as Hi.
  assert (Hok : let r := runImport (Ok (str "/home/u")) registrar (Ok (str "laptop")) (Encode plain_invite) (str "default") [] false new_user in
    is_ok (fst r) = true ∧ map fst (c_conns (snd r)) = [str "vpn.example.com:443"] ∧ no_faults (c_sys (snd r)))
    by (vm_compute; split; [|split]; reflexivity).
  cbv zeta in Hok.
  destruct (runImport (Ok (str "/home/u")) registrar (Ok (str "laptop")) (Encode plain_invite) (str "default") [] false new_user)
    as [[u|e|] c1]; cbn [fst snd] in Hok; destruct Hok as (Hok & Hc & Hf); [|discriminate|discriminate].
  split; [exact Hc|]. destruct (Hi u c1 0 s [] [] eq_refl Hf) as (e & c2 & E & _). exists e, c2. exact E.
Defined.
