(* ===== verification/Diagnostics.v ===== *)
(** What the commands that report on the client say: [daxson doctor]
    ([cmd/daxson/cmd/doctor.go]) and [daxson status] ([status.go]) with the
    [writeStatus] of [connect.go], all defined in Commands. *)

From Stdlib Require Import Strings.Byte String ZArith Lia.
From stdpp Require Import base list gmap.
From S2P Require Import Prelude Encoding Net Io Float Hash Frame Wire Identity Registry Auth.
From S2P Require Import Shaping Config Transport HttpProxy Client Invite Terminal Commands CommandFacts Launch.

Section diagnostics.
Context `{Ed25519} `{JSON storedKey} `{JSON storeData} `{JSON Payload} `{JSON statusRecord} `{YAML}.
Variable home : result bytes.
Implicit Types (c : cli).

(** ** doctor *)

(** The net package panics on no address. *)
Definition probes_total (pb : probes) : Prop :=
  ∀ a, is_panic (pb_dial pb a) = false ∧ is_panic (pb_tls pb a) = false ∧ is_panic (pb_listen pb a) = false.

Definition port_ok (pb : probes) (addr : bytes) : bool := is_empty addr || is_ok (pb_listen pb addr).
(** What the checks come down to; the TLS handshake is not among them. *)
Definition healthy (pb : probes) (p : ClientProfile) : bool :=
  is_ok (pb_dial pb (cp_Server p)) && port_ok pb (px_SOCKS5 (cp_Proxy p)) && port_ok pb (px_HTTP (cp_Proxy p)).

Definition files_are (F : gmap bytes bytes) : cli → Prop := in_sys (λ s, fs_files (s_fs s) = F).
(** The check changes no file and gives [b]. *)
Definition checks (F : gmap bytes bytes) (m : M cli bool) (b : bool) : Prop :=
  hoare (files_are F) m (λ ok c, files_are F c ∧ ok = b) (λ _ _, False).

Lemma checks_said F (say : M cli unit) o b : say = emit o → checks F (say ;;; ret b) b.
Proof. intros ->. unfold checks, files_are. past_print. by apply hoare_ret. Qed.

Lemma files_now F : hoare (files_are F) c_now (λ _, files_are F) (λ _ _, False).
Proof.
  apply (hoare_on_csys _ _ (λ _ s, fs_files (s_fs s) = F) (λ _ _, False)). intros s Hs.
  by destruct (on_clock_now s) as (t & k & ->).
Qed.

Lemma checkTCPAndTLS_checks F pb addr b :
  probes_total pb → checks F (checkTCPAndTLS pb addr b) (b && is_ok (pb_dial pb addr)).
Proof.
  intros Ht. unfold checkTCPAndTLS. destruct (Ht addr) as (Hd & _ & _).
  destruct (pb_dial pb addr) as [u|e|]; [| |done]; cbn [is_ok]; rewrite ?andb_true_r, ?andb_false_r; [|by eapply checks_said].
  unfold checks, files_are. past_print. cbv zeta. eapply hoare_bind; [apply files_now|intros t].
  destruct (Ht (match SplitHostPort addr with Ok (host, _) => host | _ => [] end)) as (_ & Hl & _).
  destruct (pb_tls pb _) as [proto|e|]; [| |done]; by eapply checks_said.
Qed.

Lemma check_proxy_checks F pb label missing addr b :
  probes_total pb → checks F (check_proxy pb label missing addr b) (b && port_ok pb addr).
Proof.
  intros Ht. unfold check_proxy, checkPortFree, port_ok. destruct (Ht addr) as (_ & _ & Hl).
  destruct (is_empty addr); cbn [orb]; [rewrite andb_true_r; by eapply checks_said|].
  destruct (pb_listen pb addr) as [u|e|]; [| |done]; cbn [is_ok]; rewrite ?andb_true_r, ?andb_false_r; by eapply checks_said.
Qed.

Lemma hoare_checks {B} F m b (k : bool → M cli B) Q E :
  checks F m b → hoare (files_are F) (k b) Q E → hoare (files_are F) (bind m k) Q E.
Proof.
  intros Hm Hk c Hc. unfold bind. specialize (Hm c Hc). destruct (m c) as [[x|e|] c']; [|done|done].
  destruct Hm as [Hf ->]. by apply Hk.
Qed.

Lemma files_on_cfs {A} F (m : M fs A) :
  (∀ f, is_panic (fst (m f)) = false ∧ fs_files (snd (m f)) = fs_files f) →
  hoare (files_are F) (try (on_cfs m)) (λ _, files_are F) (λ _ _, False).
Proof.
  intros Hm c Hc. unfold try, on_cfs, on_csys, on_fs, zoom. destruct (Hm (s_fs (c_sys c))) as [Hp Hf].
  destruct (m (s_fs (c_sys c))) as [[a|e|] f]; cbn in *; [| |done]; unfold files_are, in_sys in *; cbn; by rewrite Hf.
Qed.

Lemma doctor_profile_hoare F pb p b :
  probes_total pb →
  hoare (files_are F) (doctor_profile home pb p b)
    (λ _ c, files_are F c ∧ b && healthy pb p = true) (λ _ c, files_are F c ∧ b && healthy pb p = false).
Proof.
  intros Ht. unfold doctor_profile, healthy, files_are. rewrite !andb_assoc. do 2 past_print.
  eapply hoare_checks; [by apply checkTCPAndTLS_checks|]. past_print.
  eapply hoare_checks; [by apply check_proxy_checks|]. eapply hoare_checks; [by apply check_proxy_checks|]. past_print.
  eapply hoare_bind.
  { eapply hoare_weaken; [apply (files_on_cfs F (os_Stat (defaultStatusPath home)))|done|done|done].
    intros f. by destruct (os_Stat_step (defaultStatusPath home) f) as (r & f' & -> & _ & ? & ? & _). }
  intros st. eapply (hoare_bind _ _ _ _ (λ _, files_are F)).
  { destruct st as [u|e]; [|by apply hoare_emit; try apply _]. eapply hoare_bind.
    - eapply hoare_weaken; [apply (files_on_cfs F (os_ReadFile (defaultStatusPath home)))|done|done|done].
      intros f. destruct (os_ReadFile_cases (defaultStatusPath home) f) as (r & f' & -> & Hf & Hr). by destruct r.
    - intros d. cbv beta. destruct (match d with inl _ => _ | inr _ => _ end); [by apply hoare_emit; try apply _|by apply hoare_ret]. }
  intros []. past_print. destruct (b && _ && _ && _).
  - apply hoare_weaken with (P' := files_are F) (Q' := λ _, files_are F) (E' := λ _ _, False); [by apply hoare_emit; try apply _|done|done|done].
  - past_print. by apply hoare_fail.
Qed.

Lemma LoadClientProfile_files path f : fs_files (snd (LoadClientProfile path f)) = fs_files f.
Proof.
  unfold LoadClientProfile, wrap, lift. unfold bind at 1.
  destruct (os_ReadFile_cases path f) as (r & f' & -> & Hf & Hr). destruct r as [d|e|]; [|done|done].
  unfold bind, ret. destruct (yaml_Unmarshal_profile _ _ _) as [p|e|]; [|done|done]. by destruct (ValidateClientProfile p).
Qed.

(** The verdict of the whole command, on the outcomes of reading the key (which is
    generated when there is none) and the profile. *)
Definition doctor_ok (pb : probes) (key : result KeyPair) (prof : result ClientProfile) : bool :=
  match prof with Ok p => is_ok key && healthy pb p | _ => false end.

Lemma runDoctor_run pb name c :
  probes_total pb →
  let key := Identity.Load (defaultIdentityPath home) (c_sys c) in
  let prof := fst (LoadClientProfile (profilePath home name) (s_fs (snd key))) in
  is_panic prof = false →
  ∃ o c', runDoctor home pb name c = (o, c') ∧ is_panic o = false ∧ is_ok o = doctor_ok pb (fst key) prof ∧
    fs_files (s_fs (c_sys c')) = fs_files (s_fs (snd key)).
Proof.
  intros Ht key prof Hp. destruct (Load_step (defaultIdentityPath home) (c_sys c)) as (_ & Hk & _).
  pose proof (LoadClientProfile_files (profilePath home name) (s_fs (snd key))) as Hf.
  subst prof key. destruct (Identity.Load (defaultIdentityPath home) (c_sys c)) as [kr s1] eqn:Ek. cbn [fst snd] in *.
  destruct (LoadClientProfile (profilePath home name) (s_fs s1)) as [pr f1] eqn:Ep. cbn [fst snd] in *.
  unfold runDoctor. erewrite bind_Ok by reflexivity. cbv zeta.
  assert (Hrest : ∀ c1, c_sys c1 = s1 → ∃ c2, try (on_cfs (LoadClientProfile (profilePath home name))) c1 =
    (match pr with Ok p => Ok (inl p) | Err e => Ok (inr e) | Panic => Panic end, c2) ∧ files_are (fs_files (s_fs s1)) c2).
  { intros c1 <-. unfold try, on_cfs, on_csys, on_fs, zoom. rewrite Ep. destruct pr; [by eexists..|done]. }
  assert (Htail : ∀ b c1, c_sys c1 = s1 → b = is_ok kr →
    ∃ o c', (printHeader [txt "Profile"] ;;;
      p <- try (on_cfs (LoadClientProfile (profilePath home name))) ;;
      match p with
      | inr _ =>
          printFail [txt "Profile "; Quoted name; txt " not found ("; T (profilePath home name); txt ")"] ;;;
          printInfo [txt "Run 'daxson import <link>' to create a profile."] ;;;
          Println [] ;;; fail (ErrNew "doctor: %d check(s) failed" [countFails false])
      | inl profile => doctor_profile home pb profile b
      end) c1 = (o, c') ∧ is_panic o = false ∧ is_ok o = doctor_ok pb kr pr ∧ fs_files (s_fs (c_sys c')) = fs_files (s_fs s1)).
  { intros b c1 Hc ->. erewrite bind_Ok by reflexivity.
    match goal with |- context [bind (try _) _ ?x] => destruct (Hrest x Hc) as (c2 & E2 & H2') end.
    destruct pr as [p|e|]; [| |done].
    - erewrite bind_Ok by exact E2. cbn [doctor_ok].
      pose proof (doctor_profile_hoare (fs_files (s_fs s1)) pb p (is_ok kr) Ht c2 H2') as Hd.
      destruct (doctor_profile home pb p (is_ok kr) c2) as [[u|e|] c3]; [| |done]; destruct Hd as [Hd1 Hd2];
        do 2 eexists; (split; [reflexivity|]); by rewrite Hd2.
    - erewrite bind_Ok by exact E2. do 2 eexists. split; [reflexivity|]. done. }
  destruct kr as [kp|e|]; [| |done].
  - erewrite bind_Ok by (unfold try, on_csys, zoom; cbn [c_sys]; rewrite Ek; reflexivity).
    erewrite bind_Ok by reflexivity. by apply Htail.
  - erewrite bind_Ok by (unfold try, on_csys, zoom; cbn [c_sys]; rewrite Ek; reflexivity).
    erewrite bind_Ok by reflexivity. by apply Htail.
Qed.

(** ** status *)

Definition status_of (connectStartTime : Z) (deviceID : bytes) (p : ClientProfile) (now : Z) : statusRecord :=
  mkStatus 1 true (cp_Server p) deviceID (cp_Name p) (px_SOCKS5 (cp_Proxy p)) (px_HTTP (cp_Proxy p)) connectStartTime now.

Lemma writeStatus_run t0 path id p c :
  no_faults (c_sys c) → (∀ now, now ∈ clock_readings (s_clock (c_sys c)) → json_valid (status_of t0 id p now)) →
  ∃ now d c1, writeStatus t0 path id p c = (Ok tt, c1) ∧ now ∈ clock_readings (s_clock (c_sys c)) ∧
    json_unmarshal d = Ok (status_of t0 id p now) ∧ fs_files (s_fs (c_sys c1)) = <[path := d]> (fs_files (s_fs (c_sys c))) ∧
    no_faults (c_sys c1).
Proof.
  intros Hf Hv. destruct (on_clock_now_untouched c) as (now & c1 & E1 & Hin & [(_ & Hfs) _]).
  destruct (json_roundtrip _ (Hv now Hin)) as (d & Hm & Hu). exists now, d. unfold writeStatus.
  erewrite bind_Ok by exact E1. cbv zeta. fold (status_of t0 id p now). rewrite Hm. erewrite bind_Ok by reflexivity.
  unfold no_faults in *. rewrite <- Hfs in *. destruct c1 as [[k r [files faults]] m o l]. cbn in Hf. subst faults.
  eexists. split; [reflexivity|]. done.
Qed.

Lemma time_Since_run t c :
  ∃ now c', time_Since t c = (Ok (time_Sub now t), c') ∧ now ∈ clock_readings (s_clock (c_sys c)) ∧ untouched c c' ∧ c_out c' = c_out c.
Proof.
  unfold time_Since, c_now. destruct (on_clock_now_untouched c) as (now & c1 & E1 & Hin & Hu).
  exists now, c1. split; [by erewrite bind_Ok by exact E1|]. split; [done|]. split; [done|].
  revert E1. unfold on_csys, zoom. destruct (on_clock time_Now (c_sys c)). by intros [= _ <-].
Qed.

(** The two lines a user looks for. *)
Definition server_line (rec : statusRecord) : output :=
  Out (([T (str "  "); T ansiDim; T (pad16 (str "Server")); T ansiReset; T (str " ")] ++ bold (sr_Server rec)) ++ [T [x0a]]).
Definition stale_line (ago : bytes) : output :=
  Out ([T ansiRed; txt "Not connected"; T ansiReset; txt "  (last seen "; T ago; txt " ago)"] ++ [T [x0a]]).

Lemma status_lines_run rec uptime c :
  ∃ l c', status_lines rec uptime c = (Ok tt, c') ∧ c_out c' = c_out c ++ l ∧ server_line rec ∈ l.
Proof.
  unfold status_lines. erewrite bind_Ok by reflexivity. erewrite bind_Ok by reflexivity.
  destruct (is_empty (sr_SOCKS5Addr rec)), (is_empty (sr_HTTPAddr rec)); do 2 eexists; (split; [reflexivity|]);
    cbn [c_out]; rewrite <- !app_assoc; (split; [reflexivity|]); right; left.
Qed.

Lemma runStatus_run rec d c :
  no_faults (c_sys c) → fs_files (s_fs (c_sys c)) !! defaultStatusPath home = Some d → json_unmarshal d = Ok rec →
  sr_Connected rec = true →
  ∃ now c', runStatus home c = (Ok tt, c') ∧ now ∈ clock_readings (s_clock (c_sys c)) ∧
    if time_Sub now (sr_UpdatedAt rec) >? statusStale then ∃ ago, c_out c' = c_out c ++ [stale_line ago]
    else ∃ l, c_out c' = c_out c ++ l ∧ server_line rec ∈ l.
Proof.
  intros Hf Hd Hu Hc. unfold runStatus. pose proof (os_ReadFile_ok _ _ _ Hf Hd) as E.
  assert (Er : try (on_cfs (os_ReadFile (defaultStatusPath home))) c = (Ok (inl d), c)).
  { unfold try, on_cfs, on_csys, zoom. rewrite (on_fs_eq _ _ _ _ E). by destruct c as [[]]. }
  erewrite bind_Ok by exact Er. cbv beta iota. rewrite Hu. cbv beta iota. rewrite Hc. cbn [negb].
  destruct (time_Since_run (sr_UpdatedAt rec) c) as (now & c1 & E1 & Hin & Hu1 & Ho1). exists now.
  erewrite bind_Ok by exact E1. rewrite orb_false_r. destruct (_ >? statusStale).
  - destruct (time_Since_run (sr_UpdatedAt rec) c1) as (now2 & c2 & E2 & _ & _ & Ho2).
    erewrite bind_Ok by exact E2. eexists. split; [reflexivity|]. split; [done|]. eexists. cbn [c_out]. by rewrite Ho2, Ho1.
  - destruct (time_Since_run (sr_ConnectedAt rec) c1) as (now2 & c2 & E2 & _ & _ & Ho2).
    erewrite bind_Ok by exact E2. destruct (status_lines_run rec (time_Sub now2 (sr_ConnectedAt rec)) c2) as (l & c3 & E3 & Ho3 & Hl).
    exists c3. split; [exact E3|]. split; [done|]. exists l. by rewrite Ho3, Ho2, Ho1.
Qed.

(** ** The diagnostics *)

(** A profile as [daxson import] saves it is not read, with or without faults. *)
Lemma saved_unreadable p t path f :
  yaml_Marshal p = Ok t → fs_files f !! path = Some t → ∃ e, fst (LoadClientProfile path f) = Err e.
Proof.
  intros Hm Hfile. destruct (saved_unloadable p t path (Fs (fs_files f) []) Hm Hfile eq_refl) as [e E].
  destruct (os_ReadFile_cases path f) as (r & f' & Er & _ & Hr).
  pose proof (os_ReadFile_ok path t (Fs (fs_files f) []) eq_refl Hfile) as Eok.
  unfold LoadClientProfile, wrap in *. unfold bind at 1 in E. rewrite Eok in E. unfold bind at 1. rewrite Er.
  destruct r as [d|e'|]; [|by eexists|done]. rewrite Hfile in Hr. injection Hr as <-.
  unfold bind, lift, ret in *. destruct (yaml_Unmarshal_profile _ _ _) as [q|e'|]; [|by eexists|done].
  destruct (ValidateClientProfile q); [done|by eexists|done].
Qed.

(** C25. What the diagnostics say.  [daxson doctor] succeeds exactly when the device
    key can be read (or, when there is none, generated), the profile is
    readable, its server accepts a TCP connection and each port it configures is
    free; whatever becomes of the TLS handshake, and changing no file but that
    key.  So after a successful [daxson import] it fails, since the profile that
    was saved is not readable.  [daxson status] shows the server of the
    last status written, as a live connection if that was at most thirty seconds
    ago by the clock of its own process and as not connected otherwise. *)
Theorem diagnostics :
  (∀ pb name c, probes_total pb →
     let key := Identity.Load (defaultIdentityPath home) (c_sys c) in
     let prof := fst (LoadClientProfile (profilePath home name) (s_fs (snd key))) in
     is_panic prof = false →
     ∃ o c', runDoctor home pb name c = (o, c') ∧ is_panic o = false ∧
       (is_ok o = true ↔ is_ok (fst key) = true ∧ ∃ p, prof = Ok p ∧ healthy pb p = true) ∧
       (∀ q, q ≠ defaultIdentityPath home → fs_files (s_fs (c_sys c')) !! q = fs_files (s_fs (c_sys c)) !! q)) ∧
  (∀ nt hostname link name label noVerify c u c1 pb,
     runImport home nt hostname link name label noVerify c = (Ok u, c1) →
     probes_total pb → profilePath home name ≠ defaultIdentityPath home →
     ∃ e c2, runDoctor home pb name c1 = (Err e, c2)) ∧
  (∀ t0 id p c, no_faults (c_sys c) → (∀ now, now ∈ clock_readings (s_clock (c_sys c)) → json_valid (status_of t0 id p now)) →
     ∃ wrote c1, writeStatus t0 (defaultStatusPath home) id p c = (Ok tt, c1) ∧ wrote ∈ clock_readings (s_clock (c_sys c)) ∧
       ∀ c2, s_fs (c_sys c2) = s_fs (c_sys c1) →
         ∃ now c3, runStatus home c2 = (Ok tt, c3) ∧ now ∈ clock_readings (s_clock (c_sys c2)) ∧
           if time_Sub now wrote >? 30 * second then ∃ ago, c_out c3 = c_out c2 ++ [stale_line ago]
           else ∃ l, c_out c3 = c_out c2 ++ l ∧ server_line (status_of t0 id p wrote) ∈ l).
Proof.
  split; [|split].
  - intros pb name c Ht key prof Hp. destruct (runDoctor_run pb name c Ht Hp) as (o & c' & E & Ho & Hv & Hf).
    destruct (Load_step (defaultIdentityPath home) (c_sys c)) as ([_ Hother] & _).
    exists o, c'. split; [exact E|]. split; [exact Ho|]. split; [|intros q Hq; rewrite Hf; by apply Hother].
    rewrite Hv. fold key prof. unfold doctor_ok. destruct prof as [p|e|]; [|naive_solver..].
    rewrite andb_true_iff. naive_solver.
  - intros nt hostname link name label noVerify c u c1 pb Hi Ht Hne.
    destruct (accept_link_run link noVerify (import_banner c)) as (now & o & c2 & _ & E2 & Hu & Ho).
    assert (Hu' : untouched c c2) by (etransitivity; [by apply untouched_out|exact Hu]).
    destruct o as [p|e|]; [| |done].
    + destruct (import_success home nt hostname link name label noVerify c p c2 u c1 E2 Hu' Hi)
        as (_ & _ & _ & _ & t & _ & _ & _ & _ & _ & Hm & Hfile).
      destruct (Load_step (defaultIdentityPath home) (c_sys c1)) as ([_ Hother] & _).
      rewrite <- Hother in Hfile by done. destruct (saved_unreadable _ _ _ _ Hm Hfile) as [e E].
      destruct (runDoctor_run pb name c1 Ht) as (o & c' & Er & Hp & Hv & _); [by rewrite E|].
      rewrite E in Hv. destruct o as [v|e'|]; [done|by do 2 eexists|done].
    + unfold runImport in Hi. erewrite bind_Ok in Hi by reflexivity. by rewrite (bind_Err _ _ _ _ _ E2) in Hi.
  - intros t0 id p c Hf Hv. destruct (writeStatus_run t0 (defaultStatusPath home) id p c Hf Hv)
      as (wrote & d & c1 & Ew & Hin & Hu & Hd & Hf1). exists wrote, c1. split; [exact Ew|]. split; [exact Hin|].
    intros c2 Hc2. destruct (runStatus_run (status_of t0 id p wrote) d c2) as (now & c3 & Er & Hnow & Hout); try done.
    + unfold no_faults. by rewrite Hc2.
    + by rewrite Hc2, Hd, lookup_insert_eq.
    + by exists now, c3.
Qed.
End diagnostics.

(** ** A run *)

#[local] Existing Instance toy_Ed25519.
#[local] Existing Instance Config.toy_YAML.
#[local] Instance keys_codec : JSON storedKey := single_JSON (stored kp0).
#[local] Instance stores_codec : JSON storeData := single_JSON (mkStore [] []).
#[local] Instance payloads_codec : JSON Payload := single_JSON plain_invite.
#[local] Instance statuses_codec : JSON statusRecord := 
  single_JSON (status_of 0 (str "4a5b6c") (import_profile plain_invite (str "default") []) (3000 * second)).

Definition fine_probes : probes := Probes (λ _, Ok tt) (λ _, Ok (str "h2")) (λ _, Ok tt).

(** After the import that Launch runs, [doctor] fails with everything in order; a
    status written at 3000 s is live at 3020 s and not at 3031 s. *)
Lemma diagnostics_witness :
  let home := Ok (str "/home/u") in
  let later (t : Z) (c : cli) := Cli (Sys (Clock (t * second) []) (s_rand (c_sys c)) (s_fs (c_sys c))) (c_rand c) (c_out c) (c_conns c) in
  let at_3000 := later 3000 new_user in
  (match runImport home registrar (Ok (str "laptop")) (Encode plain_invite) (str "default") [] false new_user with
   | (Ok _, c1) => ∃ e c2, runDoctor home fine_probes (str "default") c1 = (Err e, c2)
   | _ => False
   end) ∧
  ∃ c1, writeStatus 0 (defaultStatusPath home) (str "4a5b6c") (import_profile plain_invite (str "default") []) at_3000 = (Ok tt, c1) ∧
    (∃ c3 l, runStatus home (later 3020 c1) = (Ok tt, c3) ∧
       server_line (status_of 0 (str "4a5b6c") (import_profile plain_invite (str "default") []) (3000 * second)) ∈ l ∧ c_out c3 = c_out c1 ++ l) ∧
    (∃ c3 ago, runStatus home (later 3031 c1) = (Ok tt, c3) ∧ c_out c3 = c_out c1 ++ [stale_line ago]).
Proof.
  intros home later at_3000. destruct (diagnostics home) as (_ & Himp & Hst). split.
  - pose proof (Himp registrar (Ok (str "laptop")) (Encode plain_invite) (str "default") [] false new_user) as Hi.
    assert (Hok : is_ok (fst (runImport home registrar (Ok (str "laptop")) (Encode plain_invite) (str "default") [] false new_user)) = true)
      by (vm_compute; reflexivity).
    destruct (runImport home registrar _ _ _ _ _ new_user) as [[u|e|] c1]; [|discriminate Hok..].
    apply (Hi u c1 fine_probes eq_refl); [by intros a|by vm_compute].
  - destruct (Hst 0 (str "4a5b6c") (import_profile plain_invite (str "default") []) at_3000) as (wrote & c1 & E & Hin & Hrun);
      [reflexivity|by intros now ->%list_elem_of_singleton|]. exists c1. split; [exact E|].
    apply list_elem_of_singleton in Hin. split.
    + destruct (Hrun (later 3020 c1) eq_refl) as (now & c3 & E3 & Hnow & Hout). apply list_elem_of_singleton in Hnow. subst now wrote.
      destruct Hout as (l & Ho & Hl). by exists c3, l.
    + destruct (Hrun (later 3031 c1) eq_refl) as (now & c3 & E3 & Hnow & Hout). apply list_elem_of_singleton in Hnow. subst now wrote.
      destruct Hout as (ago & Ho). by exists c3, ago.
Defined.
