(* ===== verification/Enrolment.v ===== *)
(** From an invite to a session, across the three parties: the operator's
    [daxson invite create] ([cmd/daxson/cmd/invite_cmd.go]), the server started
    afterwards ([cmd/daxson/cmd/serve.go], [internal/tunnel/server.go]) and the
    new device's [daxson import] ([cmd/daxson/cmd/import_cmd.go]).  Nothing is
    modelled here: the file composes the runs of Commands, Launch, Tunnel and
    Auth. *)

From Stdlib Require Import Strings.Byte String ZArith Lia.
From stdpp Require Import base list gmap.
From S2P Require Import Prelude Encoding Net Io Float Hash Frame Wire Identity Registry Auth.
From S2P Require Import Shaping Telemetry Metrics Config Transport Tunnel Invite Terminal Commands CommandFacts Launch.

(** ** The operator *)

Section operator.
Context `{Ed25519} `{JSON storedKey} `{JSON storeData} `{JSON Payload} `{JSON statusRecord} `{YAML}.
Variable home : result bytes.
Let regPath := defaultRegistryPath home.
Let keyPath := defaultServerIdentityPath home.
Implicit Types (c : cli) (p : Payload).

Lemma Registry_Load_inv path s reg s' :
  no_faults s → Registry.Load path s = (Ok reg, s') → s' = s ∧ r_path reg = path.
Proof.
  intros Hn. unfold Registry.Load, try. unfold bind at 1.
  destruct (os_ReadFile_step path (s_fs s)) as (r & f & Hr & _ & Hf & _).
  assert (f = s_fs s) as ->.
  { revert Hr. unfold os_ReadFile, fs_fault, bind, gets. unfold no_faults in Hn. rewrite Hn. cbn.
    destruct (fs_files (s_fs s) !! path); by intros [= _ <-]. }
  rewrite (on_fs_eq _ _ _ _ Hr). replace (Sys (s_clock s) (s_rand s) (s_fs s)) with s by (by destruct s).
  destruct r as [d|e|]; [| |done].
  - unfold wrap, lift, bind, ret. destruct (json_unmarshal d); [by intros [= <- <-]|done|done].
  - case_bool_decide; [by intros [= <- <-]|done].
Qed.

(** A key file, if there is one, is one that [Generate] and [Save] have made. *)
Definition genuine_key (path : bytes) (f : fs) : Prop :=
  ∀ d sk, fs_files f !! path = Some d → json_unmarshal d = Ok sk → ∃ kp, kp_wf kp ∧ sk = stored kp.

Lemma genuine_Load path s kp s' :
  no_faults s → genuine_key path (s_fs s) → is_Some (fs_files (s_fs s) !! path) → Identity.Load path s = (Ok kp, s') → kp_wf kp.
Proof.
  intros Hn Hg [d Hd]. unfold Identity.Load, try. unfold bind at 1.
  rewrite (on_fs_eq _ _ (Ok d) (s_fs s)) by (by apply os_ReadFile_ok).
  unfold wrap, lift, bind, ret, fail. destruct (json_unmarshal d) as [sk|e|] eqn:E; [|done|done].
  destruct (negb _ || negb _); [done|]. intros [= <- _].
  destruct (Hg d sk Hd E) as (kp' & Hkp & ->). by destruct kp'.
Qed.

Lemma os_Stat_calm path f :
  fs_faults f = [] → os_Stat path f = (if bool_decide (is_Some (fs_files f !! path)) then Ok tt else Err ErrNotExist, f).
Proof. unfold os_Stat, fs_fault, bind, gets. intros ->. by repeat case_bool_decide. Qed.

Lemma tryLoadServerKey_run c :
  no_faults (c_sys c) →
  ∃ r, try (tryLoadServerKey home) c = (Ok r, c) ∧
    ∀ kp, r = inl (Some kp) → is_Some (fs_files (s_fs (c_sys c)) !! keyPath) ∧
      Identity.Load keyPath (c_sys c) = (Ok kp, c_sys c).
Proof.
  intros Hn. unfold tryLoadServerKey. fold keyPath.
  assert (Eo : on_cfs (os_Stat keyPath) c =
    (if bool_decide (is_Some (fs_files (s_fs (c_sys c)) !! keyPath)) then Ok tt else Err ErrNotExist, c)).
  { unfold on_cfs, on_csys, zoom. rewrite (on_fs_eq _ _ _ _ (os_Stat_calm keyPath _ Hn)). by destruct c as [[] ? ? ?]. }
  unfold try at 1, bind at 1. unfold try. rewrite Eo. case_bool_decide as Hex; [|eexists; by split].
  pose proof Hex as [d Hd]. destruct (Load_present keyPath d (c_sys c) Hn Hd) as (rk & El & Hrk).
  assert (Ec : on_csys (Identity.Load keyPath) c = (rk, c)) by (unfold on_csys, zoom; rewrite El; by destruct c).
  unfold bind at 1. rewrite Ec. destruct rk as [kp|e|]; [| |done]; eexists; (split; [reflexivity|]); [by intros kp' [= <-]|done].
Qed.

Lemma ret_inv {S A} (a b : A) (s s' : S) : ret a s = (Ok b, s') → a = b ∧ s = s'.
Proof. by intros [= -> ->]. Qed.

(** Signing only changes the signature. *)
Lemma Sign_leaves priv p : ∃ sg, snd (Invite.Sign priv p) = set_Sig sg p.
Proof.
  unfold Invite.Sign. erewrite bind_Ok by reflexivity. erewrite bind_Ok by reflexivity. unfold id, wrap, lift, bind.
  destruct (json_marshal (set_Sig [] p)) as [m|e|]; [|by eexists..].
  destruct (ed25519_Sign priv m) as [sg|e|]; [|by eexists..]. by exists sg.
Qed.

(** The signature: none without a server key, and one that verifies with one
    that was generated. *)
Lemma sign_invite_run q c p c' :
  no_faults (c_sys c) → pl_ServerKey q = [] → pl_Sig q = [] →
  genuine_key keyPath (s_fs (c_sys c)) →
  sign_invite home q c = (Ok p, c') → json_valid (set_Sig [] p) →
  c_sys c' = c_sys c ∧ (pl_ServerKey p = [] ∨ fst (VerifySignature p) = Ok tt) ∧
  ∃ key sg, p = set_Sig sg (set_ServerKey key q).
Proof.
  intros Hn Hqk Hqs Hkey Hs Hj. unfold sign_invite in Hs.
  assert (unsigned : ∀ m, (printWarn m ;;; ret q) c = (Ok p, c') →
    c_sys c' = c_sys c ∧ (pl_ServerKey p = [] ∨ fst (VerifySignature p) = Ok tt) ∧ ∃ key sg, p = set_Sig sg (set_ServerKey key q)).
  { intros m (u & c1 & K & [<- <-]%ret_inv)%bind_inv_Ok. destruct (emit_inv (Out _) _ _ _ K) as (E1 & _).
    clear K. split; [exact E1|]. split; [by left|]. exists [], []. unfold set_Sig, set_ServerKey. destruct q as [? ? k ? ? ? ? g]. cbn in Hqk, Hqs |- *. by subst. }
  destruct (tryLoadServerKey_run c Hn) as (r & Et & Hr). erewrite bind_Ok in Hs by exact Et.
  destruct r as [[kp|]|e].
  - destruct (Hr kp eq_refl) as [Hex El]. destruct (genuine_Load _ _ _ _ Hn Hkey Hex El) as (seed & Hseed & Epub & Epriv & _).
    rewrite Epub, Epriv in Hs. set (p0 := set_ServerKey (fst (ed_keygen seed)) q) in *.
    assert (Hj0 : json_valid (set_Sig [] p0)).
    { destruct (Sign_leaves (snd (ed_keygen seed)) p0) as [sg Esg].
      destruct (Invite.Sign (snd (ed_keygen seed)) p0) as [[u|e|] p1]; cbn [snd] in Esg; subst p1; cbv iota in Hs; [| |done].
      - by apply ret_inv in Hs as [<- _].
      - apply bind_inv_Ok in Hs as ([] & c1 & _ & [<- _]%ret_inv). exact Hj. }
    destruct (Sign_run seed p0 Hseed Hj0) as (msg & Hm & Esign). rewrite Esign in Hs. apply ret_inv in Hs as [<- <-].
    destruct (ed_keygen_length seed Hseed) as [Hpub Hpriv]. split; [done|]. split; [|by do 2 eexists]. right.
    set (sg := ed_sign _ _). assert (Hsg : length sg = 64%nat) by (by apply ed_sign_length).
    rewrite (VerifySignature_run (set_Sig sg p0) msg Hpub Hsg Hm). cbn [fst set_Sig pl_ServerKey pl_Sig p0 set_ServerKey].
    unfold sg. by rewrite ed_correct.
  - exact (unsigned _ Hs).
  - exact (unsigned _ Hs).
Qed.
(** What the operator ends with: a new invite in the registry's file, and a
    payload that carries it and verifies. *)
Definition invited (server : bytes) (d0 : storeData) (rec : InviteRecord) (p : Payload) (c : cli) : Prop :=
  no_faults (c_sys c) ∧ length (inv_Token rec) = 32%nat ∧ inv_Uses rec = 0 ∧ inv_Revoked rec = false ∧
  on_disk (mkRegistry regPath (mkStore (st_Devices d0) (st_Invites d0 ++ [rec]))) (s_fs (c_sys c)) ∧
  (pl_ServerKey p = [] ∨ fst (VerifySignature p) = Ok tt) ∧
  ∃ key sg, p = set_Sig sg (set_ServerKey key (invite_of server rec)).

Lemma report_inv_Ok {A} prefix (m : M cli A) c a c' : report prefix m c = (Ok a, c') → m c = (Ok a, c').
Proof. apply report_as_inv_Ok. Qed.

Lemma make_invite_run server label n ttl c reg0 rec p c' :
  no_faults (c_sys c) → Registry.Load regPath (c_sys c) = (Ok reg0, c_sys c) →
  genuine_key keyPath (s_fs (c_sys c)) → keyPath ≠ regPath → keyPath ≠ tmp_path regPath →
  make_invite home server label n ttl c = (Ok (rec, p), c') →
  json_valid (mkStore (st_Devices (r_data reg0)) (st_Invites (r_data reg0) ++ [rec])) → json_valid (set_Sig [] p) →
  inv_Token rec = take 32 (flatten (s_rand (c_sys c))) ∧ invited server (r_data reg0) rec p c'.
Proof.
  intros Hn Hload Hkey Hne1 Hne2 Hm Hv Hj. unfold make_invite, loadServerRegistry in Hm. fold regPath in Hm.
  apply bind_inv_Ok in Hm as (reg & c1 & (K1 & _ & _)%report_inv_Ok%on_csys_inv & Hm).
  rewrite Hload in K1. injection K1 as <- Es1.
  apply bind_inv_Ok in Hm as (rec' & c2 & K2%report_inv_Ok & Hm).
  apply bind_inv_Ok in Hm as (p' & c3 & K3 & [[= -> ->] ->]%ret_inv).
  unfold on_registry_of in K2. rewrite <- Es1 in K2.
  destruct (CreateInvite_run label n ttl (RState reg0 (c_sys c))) as [(e & s' & E)|(tok & e & t & s2 & r & s3 & Hrun)];
    [rewrite E in K2; done|]. cbv zeta in Hrun. unfold data in Hrun. cbn [rs_reg rs_sys] in Hrun.
  destruct Hrun as ((Hl & Htok & Hf) & _ & Hsv & _ & E). rewrite E in K2. cbn [rs_sys] in K2. clear E.
  destruct r as [[]|e'|]; [|done|done]. injection K2 as <- <-.
  assert (Hpath : r_path reg0 = regPath) by (by apply Registry_Load_inv in Hload as [_ ?]).
  set (st2 := RState _ s2) in Hsv.
  destruct (save_on_disk st2) as (f & Es & Hff & Hd & Hoth);
    [unfold no_faults; cbn; by rewrite Hf|exact Hv|]. rewrite Es in Hsv. injection Hsv as <-.
  unfold st2 in *. clear st2. cbn [rs_reg rs_sys r_path s_fs] in *. rewrite Hpath in *. rewrite Hf in Hoth.
  assert (Hgen : genuine_key keyPath f) by (unfold genuine_key in *; by rewrite Hoth).
  eapply sign_invite_run in K3; [destruct K3 as (E3 & Hver & Hshape)|exact Hff|done|done|exact Hgen|exact Hj].
  split; [exact Htok|]. unfold invited. rewrite E3. by split_and!.
Qed.

(** The command itself, and the line with the link. *)
Lemma runInviteCreate_run server label n ttl c rec p c' :
  make_invite home server label n ttl c = (Ok (rec, p), c') →
  ∃ c2, runInviteCreate home server label n ttl c = (Ok tt, c2) ∧ c_sys c2 = c_sys c' ∧
    Out (bold (Encode p) ++ [T [x0a]; T [x0a]]) ∈ c_out c2.
Proof.
  intros Hm. unfold runInviteCreate. erewrite bind_Ok by exact Hm. unfold invite_lines. cbn [fst snd].
  set (line := Out _). erewrite bind_Ok by reflexivity. set (c1 := Cli _ _ _ _).
  assert (Hw : ∃ c2, (when negb (inv_ExpiresAt rec =? 0)
    do printKey "Expires" [At "2006-01-02 15:04 UTC" (inv_ExpiresAt rec * second)] od) c1 = (Ok tt, c2) ∧ c_sys c2 = c_sys c').
  { destruct (negb _); by eexists. }
  destruct Hw as (c2 & Ew & Hs). erewrite bind_Ok by exact Ew. do 4 (erewrite bind_Ok by reflexivity).
  eexists. split; [reflexivity|]. split; [exact Hs|]. cbn [c_out].
  change (bold (Encode p) ++ [T [x0a]] ++ [T [x0a]]) with (bold (Encode p) ++ [T [x0a]; T [x0a]]).
  do 2 (apply elem_of_app; left). apply elem_of_app. right. by apply list_elem_of_singleton.
Qed.
End operator.

(** ** The server *)

Section server.
Context `{Ed25519} `{JSON storedKey} `{JSON storeData} `{JSON Payload} `{JSON statusRecord} `{YAML}.

(** [daxson serve] starts with the registry on file. *)
Lemma serve_registry_run home cfg reg c :
  no_faults (c_sys c) → on_disk reg (s_fs (c_sys c)) → r_path reg = defaultRegistryPath home →
  sv_Registry (cf_Server cfg) = [] →
  ∃ c', serve_registry home cfg c = (Ok reg, c') ∧ c_sys c' = c_sys c.
Proof.
  intros Hn Hd Hp Hr. unfold serve_registry. rewrite Hr. change (is_empty []) with true. cbv iota. rewrite <- Hp.
  assert (E1 : on_csys (Registry.Load (r_path reg)) c = (Ok reg, c))
    by (unfold on_csys, zoom; rewrite (on_disk_Load reg (c_sys c) Hd Hn); by destruct c).
  erewrite bind_Ok by (apply report_as_Ok; exact E1).
  assert (E2 : ∃ n, on_registry_of reg DeviceCount c = (Ok n, c)) by (destruct c; by eexists).
  destruct E2 as [n E2]. erewrite bind_Ok by exact E2. erewrite bind_Ok by reflexivity. by eexists.
Qed.

Lemma serve_session_device s remote res pub h col mt :
  ar_DevicePub res = Some pub → length pub = 32%nat →
  ∃ recd sh mux w', serve_session s remote None res (World h col (Some mt)) = (Ok (Served res recd sh mux), w') ∧
    h_conn (w_host w') = h_conn h ∧ hstep h (w_host w').
Proof.
  intros Hpub Hl. unfold serve_session. rewrite Hpub.
  erewrite bind_Ok by reflexivity. erewrite bind_Ok by reflexivity. cbn [w_collector w_host w_met].
  destruct col as [c|]; [|by do 4 eexists].
  erewrite bind_Ok by (unfold lift; rewrite (slice_nat pub 0 3 ltac:(lia) : slice pub 0 3 = _); reflexivity).
  destruct (on_clock_reading (h_sys h)) as (t & s' & Et & _ & Hle & _).
  erewrite bind_Ok by (apply on_host_eq; unfold h_now, on_hsys, zoom; rewrite Et; reflexivity).
  unfold OpenSession. cbn zeta iota. erewrite bind_Ok by reflexivity. by do 4 eexists.
Qed.

(** The bytes of a bootstrap request. *)
Lemma request_bytes req : BootstrapRequest_wf req → br_Version req = MsgTypeBootstrap →
  ∃ b, BootstrapRequest_Marshal req = MsgTypeBootstrap :: b ∧ length b = 144%nat ∧
    UnmarshalBootstrapRequest (MsgTypeBootstrap :: b) = Ok req.
Proof.
  intros Hwf Hv. pose proof (BootstrapRequest_Marshal_bytes req Hwf) as Hm. rewrite Hv in Hm. eexists. split; [exact Hm|].
  pose proof (msg_length (A := BootstrapRequest) req Hwf) as Hlen. pose proof (msg_roundtrip req Hwf) as Hrt.
  change (length (BootstrapRequest_Marshal req) = 145%nat) in Hlen.
  change (UnmarshalBootstrapRequest (BootstrapRequest_Marshal req) = Ok req) in Hrt.
  rewrite Hm in Hlen, Hrt. cbn in Hlen. split; [lia|exact Hrt].
Qed.

(** A device whose token the registry honours is registered, on file too, told
    so, and served. *)
Lemma handleConn_bootstrap s remote dial w reg out b rest req :
  view (h_conn (w_host w)) out (MsgTypeBootstrap :: b ++ rest) → h_reg (w_host w) = Some reg → length b = 144%nat →
  is_Some (w_met w) → no_faults (h_sys (w_host w)) → UnmarshalBootstrapRequest (MsgTypeBootstrap :: b) = Ok req →
  length (br_DevicePub req) = 32%nat →
  let lbl := nullTrimBytes (br_Label req) in
  (∀ now, now ∈ clock_readings (s_clock (h_sys (w_host w))) →
     bootstrap_status now (br_Token req) (r_data reg) = BootstrapStatusOK) →
  (∀ i v t, find_invite (br_Token req) (r_data reg) = Some (i, v) → t ∈ clock_readings (s_clock (h_sys (w_host w))) →
     json_valid (mkStore (st_Devices (r_data reg) ++ [new_device (br_DevicePub req) lbl t])
                         (alter inv_use i (st_Invites (r_data reg))))) →
  ∃ sid reg' recd sh mux w' i v t,
    handleConn s remote dial None w = (Ok (Served (mkAuthResult sid (Some (br_DevicePub req)) "bootstrap") recd sh mux), w') ∧
    length sid = 16%nat ∧ view (h_conn (w_host w')) (out ++ BootstrapStatusOK :: sid) rest ∧
    find_invite (br_Token req) (r_data reg) = Some (i, v) ∧
    reg' = mkRegistry (r_path reg) (mkStore (st_Devices (r_data reg) ++ [new_device (br_DevicePub req) lbl t])
                                            (alter inv_use i (st_Invites (r_data reg)))) ∧
    h_reg (w_host w') = Some reg' ∧ no_faults (h_sys (w_host w')) ∧ on_disk reg' (s_fs (h_sys (w_host w'))).
Proof.
  intros Hv Hreg Hb [mt Hmt] Hn Hreq Hpl lbl Hst Hj. destruct w as [h col km]. cbn [w_host w_collector w_met] in *. subst km.
  unfold handleConn.
  destruct (deadline_in_run put_dl 15 h _ _ (view_put_dl _ _) Hv) as (h1 & E1 & V1 & Q1).
  erewrite bind_Ok by (apply on_host_eq; exact E1).
  destruct (ServerDispatch_run (ts_hmacAuth s) h1 _ MsgTypeBootstrap (b ++ rest) V1) as (h2 & E2 & V2 & Q2).
  assert (S2 : hstep h h2) by (etrans; [apply Q1|apply Q2]).
  assert (Hreg1 : h_reg h1 = Some reg) by (destruct Q1 as [[_ ->] _]; done).
  assert (Hreg2 : h_reg h2 = Some reg) by (destruct S2 as [_ ->]; done).
  destruct (bootstrapServerHandshake_run h2 reg _ b rest V2 Hreg2 Hb)
    as (req' & now & saved & sid & reg' & h3 & Hreq' & Hin & Hl & Hr' & Heff & V3 & E3).
  rewrite Hreq in Hreq'. injection Hreq' as <-.
  assert (Hin' : now ∈ clock_readings (s_clock (h_sys h))) by (by eapply hstep_readings).
  rewrite (Hst now Hin') in *. rewrite bool_decide_true in E3 by done.
  unfold bootstrap_effect in Heff. rewrite (Hst now Hin'), bool_decide_true in Heff by done.
  destruct Heff as ((i & v & t & Hfi & Ht & Hd) & Hpath & Hsave).
  assert (Ht' : t ∈ clock_readings (s_clock (h_sys h))) by (by eapply hstep_readings).
  destruct Hsave as (-> & Hn3 & Hdisk).
  { unfold no_faults in *. by replace (s_fs (h_sys h2)) with (s_fs (h_sys h)) by (symmetry; apply S2). }
  { rewrite Hd. by apply (Hj i v t). }
  assert (E2' : ServerDispatch (ts_hmacAuth s) h1 = (Ok (mkAuthResult sid (Some (br_DevicePub req)) "bootstrap"), h3)).
  { rewrite E2. unfold dispatch_on. do 2 rewrite bool_decide_false by done. rewrite bool_decide_true by done.
    by rewrite Hreg1. }
  erewrite bind_Ok by (unfold try; rewrite (on_host_eq _ _ _ _ _ _ E2'); reflexivity).
  destruct (deadline_clear_run put_dl h3 _ _ (view_put_dl _ _) V3) as (h4 & E4 & V4 & Q4).
  erewrite bind_Ok by (apply on_host_eq; exact E4). cbn iota.
  destruct (serve_session_device s remote (mkAuthResult sid (Some (br_DevicePub req)) "bootstrap") (br_DevicePub req) h4 col mt eq_refl Hpl)
    as (recd & sh & mux & w' & E5 & Hc & S5).
  assert (S35 : hstep h3 (w_host w')) by (etrans; [apply Q4|exact S5]).
  exists sid, reg', recd, sh, mux, w', i, v, t. split; [exact E5|]. split; [done|]. split; [by rewrite Hc|].
  split; [done|]. split; [by destruct reg'; cbn in *; subst|]. destruct S35 as [[_ Hfs] Hr35].
  unfold no_faults. by rewrite Hr35, Hfs.
Qed.
End server.

(** ** The device *)

Section device.
Context `{Ed25519} `{JSON storedKey} `{JSON storeData} `{JSON Payload} `{JSON statusRecord} `{YAML}.
Variable home : result bytes.
Let keyPath := defaultIdentityPath home.
Implicit Types (c : cli) (p : Payload).

(** The pair made of a seed at a time. *)
Definition new_key (seed : bytes) (t : Z) : KeyPair :=
  mkKeyPair (fst (ed_keygen seed)) (snd (ed_keygen seed)) (shortID (fst (ed_keygen seed))) t.

(** The key file holds the pair. *)
Definition key_on_disk (path : bytes) (kp : KeyPair) (f : fs) : Prop :=
  ∃ text, fs_files f !! path = Some text ∧ json_unmarshal text = Ok (stored kp).

Lemma key_on_disk_Load path kp s :
  kp_wf kp → no_faults s → key_on_disk path kp (s_fs s) → Identity.Load path s = (Ok kp, s).
Proof.
  intros Hkp Hn (text & Hf & Hu). unfold Identity.Load, try. unfold bind at 1.
  rewrite (on_fs_eq _ _ (Ok text) (s_fs s)) by (by apply os_ReadFile_ok).
  unfold wrap, lift. erewrite bind_Ok by (by rewrite Hu).
  destruct (kp_wf_length kp Hkp) as [E1 E2]. cbn [stored sk_PublicKey sk_PrivateKey].
  rewrite E1, E2. cbn. by destruct kp, s.
Qed.

Lemma new_key_wf seed t : length seed = 32%nat → kp_wf (new_key seed t).
Proof. intros Hl. by exists seed. Qed.

(** The first [Load] makes the identity from the randomness that is drawn. *)
Lemma Load_new path s :
  no_faults s → fs_files (s_fs s) !! path = None → (32 <= length (flatten (s_rand s)))%nat →
  let seed := take 32 (flatten (s_rand s)) in
  (∀ t, t ∈ clock_readings (s_clock s) → json_valid (stored (new_key seed t))) →
  ∃ t s', Identity.Load path s = (Ok (new_key seed t), s') ∧ no_faults s' ∧ key_on_disk path (new_key seed t) (s_fs s').
Proof.
  intros Hn Hf Hl seed Hj. unfold Identity.Load, try. unfold bind at 1.
  assert (Er : os_ReadFile path (s_fs s) = (Err ErrNotExist, s_fs s)).
  { unfold os_ReadFile, fs_fault, bind, gets. unfold no_faults in Hn. rewrite Hn. cbn. by rewrite Hf. }
  rewrite (on_fs_eq _ _ _ _ Er). rewrite bool_decide_true by done.
  replace (Sys (s_clock s) (s_rand s) (s_fs s)) with s by (by destruct s).
  unfold generateAndSave, Generate.
  destruct (ReadFull_ok 32 (s_rand s) Hl) as (r' & Hrd & _).
  assert (Hg : ed25519_GenerateKey (s_rand s) = (Ok (ed_keygen seed), r')).
  { unfold ed25519_GenerateKey. by erewrite bind_Ok by exact Hrd. }
  rewrite bind_bind. erewrite bind_Ok by (by apply wrap_Ok, on_rand_eq).
  set (s1 := Sys (s_clock s) r' (s_fs s)). destruct (on_clock_reading s1) as (t & s2 & Et & Hin & [_ Hf2] & _).
  rewrite bind_bind. erewrite bind_Ok by exact Et. erewrite bind_Ok by reflexivity. fold (new_key seed t).
  destruct (json_roundtrip _ (Hj t Hin)) as (text & Hm & Hu). exists t.
  unfold Save. rewrite bind_bind.
  assert (Hn2 : fs_faults (s_fs s2) = []) by (by rewrite Hf2).
  erewrite bind_Ok by (apply wrap_Ok, on_fs_eq; unfold os_MkdirAll, fs_fault, bind; rewrite Hn2; reflexivity).
  rewrite bind_bind. erewrite bind_Ok by (apply wrap_Ok; unfold lift; rewrite Hm; reflexivity).
  erewrite bind_Ok by (apply wrap_Ok, on_fs_eq; unfold os_WriteFile, fs_fault, fs_update, modify, bind; cbn; rewrite Hn2; reflexivity).
  eexists. split; [reflexivity|]. split; [exact Hn2|]. exists text. split; [apply lookup_insert_eq|exact Hu].
Qed.

Lemma SaveClientProfile_calm (profile : ClientProfile) path t f :
  fs_faults f = [] → yaml_Marshal profile = Ok t → SaveClientProfile profile path f = (Ok tt, Fs (<[path := t]> (fs_files f)) []).
Proof.
  intros Hf Hm. unfold SaveClientProfile.
  erewrite bind_Ok by (apply wrap_Ok; unfold os_MkdirAll, fs_fault, bind; rewrite Hf; reflexivity).
  erewrite bind_Ok by (apply wrap_Ok; unfold lift; rewrite Hm; reflexivity).
  destruct f as [files faults]. cbn in Hf. by subst.
Qed.

Lemma device_label_new hostname seed t dlabel :
  device_label hostname (new_key seed t) dlabel = device_label hostname (new_key seed 0) dlabel.
Proof. done. Qed.
(** An import up to the dial makes the device's identity; from there on it goes
    as the dial and the registration go. *)
Lemma runImport_run hostname link name dlabel noVerify p ptext c :
  let s0 := c_sys c in let seed := take 32 (flatten (s_rand s0)) in
  no_faults s0 → fs_files (s_fs s0) !! keyPath = None → (32 <= length (flatten (s_rand s0)))%nat →
  (∀ t, t ∈ clock_readings (s_clock s0) → json_valid (stored (new_key seed t))) →
  (∀ now, now ∈ clock_readings (s_clock s0) → acceptable link noVerify now p) →
  yaml_Marshal (import_profile p name keyPath) = Ok ptext → profilePath home name ≠ keyPath →
  ∃ t s1, ∀ nt raw sid h,
    fst (Transport.Dial nt (import_transport p) (pl_Server p) (c_rand c)) = Ok raw →
    BootstrapClient (pl_Token p) (new_key seed t) (device_label hostname (new_key seed 0) dlabel) (Host raw s1 None) = (Ok sid, h) →
    s_fs (h_sys h) = s_fs s1 →
    ∃ c', runImport home nt hostname link name dlabel noVerify c = (Ok tt, c') ∧
      c_conns c' = c_conns c ++ [(pl_Server p, Some (conn_close (h_conn h)))] ∧
      no_faults (c_sys c') ∧ key_on_disk keyPath (new_key seed t) (s_fs (c_sys c')).
Proof.
  intros s0 seed Hn Hf Hl Hj Hacc Hy Hne.
  destruct (accept_link_run link noVerify (import_banner c)) as (now & o & c2 & Hin & E2 & ([Hck Hfs] & Hrand & Hcr & Hcc) & Ho).
  assert (o = Ok p) as ->.
  { destruct (Hacc now Hin) as (Hd & Hx & Hver). destruct o as [q|e|]; [|by destruct (Ho p (Hacc now Hin))|done].
    destruct Ho as (Hd' & _). congruence. }
  change (c_sys (import_banner c)) with s0 in *. change (c_rand (import_banner c)) with (c_rand c) in *.
  change (c_conns (import_banner c)) with (c_conns c) in *.
  destruct (Load_new keyPath (c_sys c2)) as (t & s1 & EL & Hn1 & Hk1).
  { unfold no_faults. by rewrite Hfs. } { by rewrite Hfs. } { by rewrite Hrand. }
  { rewrite Hrand. intros t Ht. apply Hj. by apply Hck. }
  rewrite Hrand in EL, Hk1. fold seed in EL, Hk1. exists t, s1. intros nt raw sid h Hdial Hboot Hfh.
  destruct (Dial nt (import_transport p) (pl_Server p) (c_rand c)) as [dl rd] eqn:Edial. cbn [fst] in Hdial. subst dl.
  unfold runImport. erewrite bind_Ok by reflexivity. erewrite bind_Ok by exact E2. cbv zeta. fold keyPath.
  erewrite bind_Ok by (apply report_as_Ok; unfold on_csys, zoom; rewrite EL; reflexivity).
  erewrite bind_Ok by reflexivity. erewrite bind_Ok by reflexivity.
  erewrite bind_Ok.
  2: { apply wrap_Ok, report_as_Ok. unfold dial_server. cbn [Terminal.c_rand Terminal.c_sys Terminal.c_out Terminal.c_conns]. rewrite Hcr.
    rewrite Edial. reflexivity. }
  erewrite bind_Ok.
  2: { apply report_as_Ok. unfold bootstrap_on. cbn [Terminal.c_rand Terminal.c_sys Terminal.c_out Terminal.c_conns].
    rewrite device_label_new, Hboot. reflexivity. }
  erewrite bind_Ok by reflexivity.
  erewrite bind_Ok.
  2: { apply report_as_Ok. unfold on_cfs, on_csys, zoom. erewrite on_fs_eq; [reflexivity|].
    apply SaveClientProfile_calm; [|exact Hy]. cbn. by rewrite Hfh. }
  erewrite bind_Ok by reflexivity. eexists. split; [reflexivity|].
  split; [cbn; by rewrite Hcc|]. split; [done|]. cbn [Terminal.c_sys s_fs].
  destruct Hk1 as (text & Ht & Hu). exists text. split; [|exact Hu]. cbn. rewrite Hfh. by rewrite lookup_insert_ne by done.
Qed.
End device.

(** ** The three together *)

Section enrolment.
Context `{Ed25519} `{JSON storedKey} `{JSON storeData} `{JSON Payload} `{JSON statusRecord} `{YAML}.

(** A device with a key pair and a server with a registry whose clocks are within
    a bucket of each other can open a session. *)
Definition logs_in (kp : KeyPair) (reg : Registry) : Prop := ∀ hs0 hc hs,
  h_reg hs = Some reg →
  (∀ tc ts, tc ∈ clock_readings (s_clock (h_sys hc)) → ts ∈ clock_readings (s_clock (h_sys hs)) →
     sane tc ∧ sane ts ∧ bucket ts - 1 <= bucket tc <= bucket ts + 1) →
  ∃ sid hc' hs', length sid = 16%nat ∧
    exchange (DeviceAuth_Handshake kp) (ServerDispatch hs0) hc hs
      (Ok sid) (Ok (mkAuthResult sid (Some (kp_PublicKey kp)) "device")) hc' hs'.

Lemma find_new_invite d0 rec :
  find_invite (inv_Token rec) d0 = None → inv_Revoked rec = false →
  find_invite (inv_Token rec) (mkStore (st_Devices d0) (st_Invites d0 ++ [rec])) = Some (length (st_Invites d0) + 0, rec)%nat.
Proof.
  intros Hn Hr. unfold find_invite in *. cbn [st_Invites]. rewrite list_find_app_r by done. cbn [list_find].
  rewrite decide_True; [by rewrite Nat.add_0_r|]. rewrite Hr, bytesEqual_spec. cbn. by apply bool_decide_spec.
Qed.

Lemma new_invite_status d0 rec now :
  find_invite (inv_Token rec) d0 = None → inv_Revoked rec = false → inv_Uses rec = 0 →
  negb (inv_ExpiresAt rec =? 0) && (unix now >? inv_ExpiresAt rec) = false →
  bootstrap_status now (inv_Token rec) (mkStore (st_Devices d0) (st_Invites d0 ++ [rec])) = BootstrapStatusOK.
Proof.
  intros Hn Hr Hu He. unfold bootstrap_status. rewrite find_new_invite, Hu by done. rewrite Z.gtb_ltb in He. rewrite He.
  unfold max_uses. destruct (Z.leb_spec (inv_MaxUses rec) 0); [done|]. by rewrite (proj2 (Z.leb_gt _ _)) by lia.
Qed.

Lemma alter_last {A} (f : A → A) (l : list A) (a : A) : alter f (length l + 0)%nat (l ++ [a]) = l ++ [f a].
Proof. rewrite Nat.add_0_r. induction l as [|x l IH]; [done|]. cbn. f_equal. exact IH. Qed.

(** The operator: the server's home, its registry before, and the invite. *)
Variables (shome : result bytes) (server label : bytes) (maxUses ttl : Z) (op op1 : cli) (reg0 : Registry)
  (rec : InviteRecord) (p : Payload).
Let regPath := defaultRegistryPath shome.
Let serverKey := defaultServerIdentityPath shome.
Let d0 := r_data reg0.
Let reg1 := mkRegistry regPath (mkStore (st_Devices d0) (st_Invites d0 ++ [rec])).
Hypothesis op_calm : no_faults (c_sys op).
Hypothesis op_registry : Registry.Load regPath (c_sys op) = (Ok reg0, c_sys op).
Hypothesis op_key : genuine_key serverKey (s_fs (c_sys op)).
Hypothesis op_paths : serverKey ≠ regPath ∧ serverKey ≠ tmp_path regPath.
Hypothesis op_invite : make_invite shome server label maxUses ttl op = (Ok (rec, p), op1).
Hypothesis op_server : server ≠ [].
Hypothesis token_fresh : find_invite (inv_Token rec) d0 = None.
Hypothesis link_valid : json_valid p ∧ json_valid (set_Sig [] p).
Hypothesis store_valid : json_valid (r_data reg1).

(** The server: an environment and what else it runs with. *)
Variables (cfg : Config) (s : Server) (remote : bytes) (dial : result conn) (e : sys) (col : option Collector) (mt : Metrics).
Hypothesis srv_registry : sv_Registry (cf_Server cfg) = [].
Hypothesis srv_calm : no_faults e.

(** The device: a user that has no identity yet. *)
Variables (home hostname : result bytes) (name dlabel : bytes) (noVerify : bool) (dev : cli) (profile : bytes).
Let keyPath := defaultIdentityPath home.
Let seed := take 32 (flatten (s_rand (c_sys dev))).
Let pub := fst (ed_keygen seed).
Let registered (t : Z) : storeData := mkStore
  (st_Devices d0 ++ [new_device pub (nullTrimBytes (take 64 (device_label hostname (new_key seed 0) dlabel))) t])
  (st_Invites d0 ++ [inv_use rec]).
Hypothesis dev_calm : no_faults (c_sys dev).
Hypothesis dev_new : fs_files (s_fs (c_sys dev)) !! keyPath = None.
Hypothesis dev_rand : (32 <= length (flatten (s_rand (c_sys dev))))%nat.
Hypothesis dev_unknown : find_device pub d0 = None.
Hypothesis key_valid : ∀ t, t ∈ clock_readings (s_clock (c_sys dev)) → json_valid (stored (new_key seed t)).
Hypothesis dev_profile : yaml_Marshal (import_profile p name keyPath) = Ok profile.
Hypothesis dev_paths : profilePath home name ≠ keyPath.
Hypothesis in_time : ∀ now, now ∈ clock_readings (s_clock (c_sys dev)) ∨ now ∈ clock_readings (s_clock e) →
  expired_at now p = false.
Hypothesis registered_valid : ∀ t, t ∈ clock_readings (s_clock e) → json_valid (registered t).

(** What the operator hands over. *)
Lemma invite_facts :
  (no_faults (c_sys op1) ∧ length (inv_Token rec) = 32%nat ∧ inv_Uses rec = 0 ∧ inv_Revoked rec = false ∧
     on_disk reg1 (s_fs (c_sys op1))) ∧
  (pl_Server p = server ∧ pl_Token p = inv_Token rec ∧ pl_ExpiresAt p = inv_ExpiresAt rec) ∧
  ∀ now, now ∈ clock_readings (s_clock (c_sys dev)) → acceptable (Encode p) noVerify now p.
Proof.
  destruct op_paths as [Hp1 Hp2], link_valid as [Hjp Hjs].
  destruct (make_invite_run shome server label maxUses ttl op reg0 rec p op1)
    as (_ & Hn1 & Hl & Huses & Hrev & Hdisk & Hver & key & sg & Ep); try done.
  split; [done|]. split; [by rewrite Ep|]. intros now Hin.
  split; [|split; [apply in_time; by left|]].
  - destruct (json_roundtrip p Hjp) as (text & Hm & Hu).
    pose proof (Decode_link p text false [] [] Hm Hu (List.Forall_nil _) (List.Forall_nil _)) as Ed.
    cbn [app] in Ed. rewrite !app_nil_r in Ed. rewrite Ed. apply check_payload_ok. rewrite Ep. by split_and!.
  - unfold verified. destruct Hver as [->| ->]; [done|]. by rewrite orb_true_r.
Qed.

Lemma pub_length : length seed = 32%nat ∧ length pub = 32%nat.
Proof.
  assert (Hseed : length seed = 32%nat) by (apply length_take_le; lia). split; [done|]. apply (ed_keygen_length seed Hseed).
Qed.

(** What the server does with the request of the import. *)
Lemma request_served req :
  BootstrapRequest_wf req → br_Version req = MsgTypeBootstrap → br_Token req = inv_Token rec → br_DevicePub req = pub →
  nullTrimBytes (br_Label req) = nullTrimBytes (take 64 (device_label hostname (new_key seed 0) dlabel)) →
  let reg2 t := mkRegistry regPath (registered t) in
  ∃ sid recd sh mux w' t,
    handleConn s remote dial None (World (Host (conn_of (BootstrapRequest_Marshal req)) e (Some reg1)) col (Some mt)) =
      (Ok (Served (mkAuthResult sid (Some pub) "bootstrap") recd sh mux), w') ∧ length sid = 16%nat ∧
    view (h_conn (w_host w')) (BootstrapStatusOK :: sid) [] ∧ h_reg (w_host w') = Some (reg2 t) ∧
    no_faults (h_sys (w_host w')) ∧ on_disk (reg2 t) (s_fs (h_sys (w_host w'))).
Proof.
  intros Hwf Hv Htk Hpk Hlb reg2. destruct invite_facts as ((_ & _ & Huses & Hrev & _) & (_ & _ & Eexp) & _).
  destruct (request_bytes req Hwf Hv) as (b & Hm & Hb & Hu). rewrite Hm.
  destruct (handleConn_bootstrap s remote dial (World (Host (conn_of (MsgTypeBootstrap :: b)) e (Some reg1)) col (Some mt))
    reg1 [] b [] req) as (sid & reg' & recd & sh & mux & w' & i & v & t & Ehc & Hsl & Vw & Hfi & Ereg & Hr2 & Hn2 & Hd2).
  { cbn [w_host h_conn]. rewrite app_nil_r. apply view_conn_of. }
  all: try done; try by eexists.
  { rewrite Hpk. apply pub_length. }
  { intros now Hin. rewrite Htk. apply new_invite_status; try done. rewrite <- Eexp. apply (in_time now). by right. }
  { rewrite Htk, Hpk, Hlb. intros i v t Hfi Ht. cbn [r_data reg1] in Hfi. rewrite find_new_invite in Hfi by done.
    injection Hfi as <- <-. cbn [r_data reg1 st_Devices st_Invites]. rewrite alter_last. by apply registered_valid. }
  rewrite Htk, Hpk, Hlb in *. cbn [r_data reg1] in Hfi, Ereg. rewrite find_new_invite in Hfi by done.
  injection Hfi as <- <-. cbn [st_Devices st_Invites r_path reg1] in Ereg. rewrite alter_last in Ereg.
  fold (registered t) in Ereg. exists sid, recd, sh, mux, w', t. subst reg'. by split_and!.
Qed.

(** C8. From an invite to a session.  The operator makes an invite with
    [daxson invite create] and hands the printed link over; then the server is
    started, or restarted; then a user without identity runs [daxson import] on
    the link before it expires.  On file systems that work, and with a label
    and server that JSON can carry, there is a conversation in which: the command
    prints the link; the server's start finds the invite; the import, over any
    network that delivers the server's answers, succeeds and leaves the generated
    key on disk; the server's handler, on what the import sent, registers exactly
    that key, counts one use of the invite, saves both and serves the connection;
    and from then on the device logs in with the key of its file, to that server
    and to one that is started again on the saved registry. *)
Theorem enrolment :
  ∃ req resp sid t tk recd sh mux reg2 w',
    (∃ op2, runInviteCreate shome server label maxUses ttl op = (Ok tt, op2) ∧ s_fs (c_sys op2) = s_fs (c_sys op1) ∧
       Out (bold (Encode p) ++ [T [x0a]; T [x0a]]) ∈ c_out op2) ∧
    (∀ c, s_fs (c_sys c) = s_fs (c_sys op1) → ∃ c', serve_registry shome cfg c = (Ok reg1, c')) ∧
    (∀ nt, fst (Transport.Dial nt (import_transport p) server (c_rand dev)) = Ok (conn_of resp) →
       ∃ dev' c, runImport home nt hostname (Encode p) name dlabel noVerify dev = (Ok tt, dev') ∧
         c_conns dev' = c_conns dev ++ [(server, Some c)] ∧ Io.c_out c = req ∧
         ∀ s', s_fs s' = s_fs (c_sys dev') → Identity.Load keyPath s' = (Ok (new_key seed tk), s')) ∧
    handleConn s remote dial None (World (Host (conn_of req) e (Some reg1)) col (Some mt)) =
      (Ok (Served (mkAuthResult sid (Some pub) "bootstrap") recd sh mux), w') ∧
    Io.c_out (h_conn (w_host w')) = resp ∧ h_reg (w_host w') = Some reg2 ∧ reg2 = mkRegistry regPath (registered t) ∧
    logs_in (new_key seed tk) reg2 ∧
    (∀ s', s_fs s' = s_fs (h_sys (w_host w')) → Registry.Load regPath s' = (Ok reg2, s')).
Proof.
  destruct invite_facts as ((Hn1 & Hl & _ & _ & Hdisk) & (Eserver & Etok & _) & Hacc). destruct pub_length as [Hseed Hpub].
  destruct (runImport_run home hostname (Encode p) name dlabel noVerify p profile dev)
    as (tk & s1 & Himport); try done.
  destruct (BootstrapClient_run (pl_Token p) (new_key seed tk) (device_label hostname (new_key seed 0) dlabel) s1 None)
    as (req & Hwf & Hv & Htk & Hpk & Hlb & Hclient); [by rewrite Etok|done|].
  destruct (request_served req) as (sid & recd & sh & mux & w' & t & Ehc & Hsl & Vw & Hr2 & Hn2 & Hd2);
    [done|done|by rewrite Htk|done|done|].
  exists (BootstrapRequest_Marshal req), (BootstrapStatusOK :: sid), sid, t, tk, recd, sh, mux, (mkRegistry regPath (registered t)), w'.
  split_and!.
  - destruct (runInviteCreate_run shome server label maxUses ttl op rec p op1 op_invite) as (op2 & E2 & Es & Eo).
    exists op2. split_and!; [exact E2|by rewrite Es|exact Eo].
  - intros c Hc. destruct (serve_registry_run shome cfg reg1 c) as (c' & Ec & _); [| | |done|by exists c'].
    + unfold no_faults. by rewrite Hc.
    + by rewrite Hc.
    + done.
  - intros nt Hdial. rewrite <- Eserver in Hdial |- *.
    destruct (Hclient (conn_of (BootstrapStatusOK :: sid)) [] sid []) as (h' & Eb & Vb & Sb); [|done|].
    { rewrite app_nil_r. apply view_conn_of. }
    destruct (Himport nt _ sid h' Hdial Eb) as (dev' & Ei & Econns & Hnf & Hk); [apply Sb|].
    exists dev', (conn_close (h_conn h')). split_and!; [exact Ei|exact Econns|apply Vb|].
    intros s' Hs'. apply key_on_disk_Load; [by apply new_key_wf| |by rewrite Hs'].
    unfold no_faults. by rewrite Hs'.
  - exact Ehc.
  - apply Vw.
  - exact Hr2.
  - done.
  - intros hs0 hc hs Hreg Hclk. eapply (device_exchange hs0 (new_key seed tk) hc hs); [by apply new_key_wf|exact Hreg| |exact Hclk].
    by apply registered_status.
  - intros s' Hs'. apply (on_disk_Load (mkRegistry regPath (registered t))); [by rewrite Hs'|]. unfold no_faults. by rewrite Hs'.
Qed.
End enrolment.

(** ** A run *)

Definition vpn_server : bytes := str "vpn.example.com:443".
Definition vpn_token : bytes := replicate 32 x00.
Definition vpn_invite : InviteRecord := mkInvite vpn_token (shortHex vpn_token) (str "laptop") 1 0 0 (3000 * second) false.
Definition vpn_link : Payload := invite_of vpn_server vpn_invite.
Definition user_seed : bytes := take 32 (be_put 40 99).
Definition user_registered : storeData := mkStore [new_device user_seed (str "laptop") (3000 * second)] [inv_use vpn_invite].
Definition empty_store : storeData := mkStore [] [].
Definition invited_store : storeData := mkStore [] [vpn_invite].

#[local] Existing Instance toy_Ed25519.
#[local] Existing Instance Config.toy_YAML.
#[local] Instance keys_codec : JSON storedKey := countable_JSON storedKey.
#[local] Instance stores_codec : JSON storeData := table_JSON [empty_store; invited_store; user_registered].
#[local] Instance payloads_codec : JSON Payload := single_JSON vpn_link.
#[local] Instance statuses_codec : JSON statusRecord := single_JSON (mkStatus 1 true [] [] [] [] [] 0 0).

Definition answering (resp : bytes) : network := Network (λ _, Ok (conn_of [])) (λ _ _ _, Ok (conn_of resp)).

Lemma enrolment_witness :
  let home := Ok (str "/home/u") in
  ∃ resp tk reg2 dev',
    runImport home (answering resp) (Err (ErrEnv 2)) (Encode vpn_link) (str "default") (str "laptop") false new_user = (Ok tt, dev') ∧
    st_Invites (r_data reg2) = [inv_use vpn_invite] ∧ logs_in (new_key user_seed tk) reg2.
Proof.
  intros home.
  destruct (enrolment home vpn_server (str "laptop") 1 0 new_user (snd (make_invite home vpn_server (str "laptop") 1 0 new_user))
    (mkRegistry (defaultRegistryPath home) empty_store) vpn_invite vpn_link) with
    (cfg := Defaults) (s := NewServer Defaults) (remote := str "203.0.113.9:4711") (dial := Err (ErrEnv 111) : result conn)
    (e := sys_at 3000) (col := @None Collector) (mt := Metrics.New) (home := home) (hostname := Err (ErrEnv 2) : result bytes)
    (name := str "default") (dlabel := str "laptop") (noVerify := false) (dev := new_user) (profile := dec (1 * second))
    as (req & resp & sid & t & tk & recd & sh & mux & reg2 & w' & _ & _ & Himp & _ & _ & _ & Hreg2 & Hlog & _).
  - reflexivity.
  - vm_compute. reflexivity.
  - intros d sk Hd. vm_compute in Hd. discriminate.
  - split; vm_compute; discriminate.
  - vm_compute. reflexivity.
  - discriminate.
  - reflexivity.
  - split; reflexivity.
  - right. left.
  - reflexivity.
  - reflexivity.
  - reflexivity.
  - vm_compute. reflexivity.
  - vm_compute. lia.
  - reflexivity.
  - intros t _. exact I.
  - vm_compute. reflexivity.
  - vm_compute. discriminate.
  - intros now _. reflexivity.
  - intros t ->%reading_at. right. right. left.
  - destruct (Himp (answering resp)) as (dev' & c & E & _); [reflexivity|].
    exists resp, tk, reg2, dev'. split; [exact E|]. split; [by rewrite Hreg2|exact Hlog].
Defined.
