(* ===== verification/Cli.v ===== *)
(** The command line of the two binaries: the command tree of
    [cmd/daxson/cmd/root.go] with the [new...Cmd] functions of the other files,
    [cmd/daxson/main.go] and [cmd/daxsond/main.go], and the loggers they build.
    The tree is data; reading an argument list against it is the library
    [spf13/cobra], an interface here.  What a command does is an action, which
    [perform] hands to the function of Commands or Launch. *)

From Stdlib Require Import Strings.Byte Strings.Ascii String ZArith Lia.
From stdpp Require Import base list gmap.
From S2P Require Import Prelude Encoding Net Io Float Hash Frame Wire Identity Registry Auth.
From S2P Require Import Shaping Telemetry Metrics Config Transport Tunnel Client Invite Terminal Commands CommandFacts Launch.

(** ** The command tree *)

Inductive flag_value : Type :=
  | FString (s : bytes) | FBool (b : bool) | FInt (n : Z) | FDuration (d : Z).

Record flag := Flag { fl_name : string; fl_default : flag_value; fl_required : bool }.
Definition string_flag (name : string) (d : bytes) : flag := Flag name (FString d) false.

Inductive arg_check : Type := AnyArgs | ExactArgs (n : Z).
Definition args_ok (c : arg_check) (args : list bytes) : Prop :=
  match c with AnyArgs => True | ExactArgs n => len args = n end.

(** The values of the flags, as the variables they are bound to. *)
Definition flags : Type := string → flag_value.
Definition get_string (fs : flags) (name : string) : bytes := match fs name with FString s => s | _ => [] end.
Definition get_bool (fs : flags) (name : string) : bool := match fs name with FBool b => b | _ => false end.
Definition get_int (fs : flags) (name : string) : Z := match fs name with FInt n => n | FDuration n => n | _ => 0 end.

(** What the closures of the commands call, with their arguments. *)
Inductive action : Type :=
  | RunImport (link profileName deviceLabel : bytes) (noVerify : bool)
  | RunConnect (profileName socks5Addr httpAddr logLevel : bytes)
  | RunStatus
  | RunDoctor (profileName : bytes)
  | RunInit
  | RunServe (cfgFile dashboardAddr : bytes)
  | RunKeysShow | RunKeysRotate (force : bool) | RunKeysExport
  | RunInviteCreate (server label : bytes) (maxUses ttl : Z) | RunInviteList | RunInviteRevoke (tokenID : bytes)
  | RunDevicesList | RunDevicesRevoke (deviceID : bytes)
  | PrintVersion
  | RunDaemon (cfgFile logLevel : bytes).

Definition closure : Type := flags → list bytes → result action.

Inductive Command : Type := mkCommand {
  Use : string; Args : arg_check; Flags : list flag; RunE : option closure; SubCommands : list Command
}.

(** [args[0]] *)
Definition arg0 (args : list bytes) : result bytes := match args with a :: _ => Ok a | [] => Panic end.

Definition newImportCmd : Command := mkCommand "import <daxson://...>" (ExactArgs 1)
  [string_flag "name" (str "default"); string_flag "label" []; Flag "no-verify" (FBool false) false]
  (Some (λ fs args, match arg0 args with
                    | Ok link => Ok (RunImport link (get_string fs "name") (get_string fs "label") (get_bool fs "no-verify"))
                    | Err e => Err e | Panic => Panic end)) [].

Definition newConnectCmd : Command := mkCommand "connect" AnyArgs
  [string_flag "profile" (str "default"); string_flag "socks5" []; string_flag "http" []; string_flag "log-level" (str "info")]
  (Some (λ fs _, Ok (RunConnect (get_string fs "profile") (get_string fs "socks5") (get_string fs "http") (get_string fs "log-level")))) [].

Definition newStatusCmd : Command := mkCommand "status" AnyArgs [] (Some (λ _ _, Ok RunStatus)) [].

Definition newDoctorCmd : Command := mkCommand "doctor" AnyArgs [string_flag "profile" (str "default")]
  (Some (λ fs _, Ok (RunDoctor (get_string fs "profile")))) [].

Definition newInitCmd : Command := mkCommand "init" AnyArgs [] (Some (λ _ _, Ok RunInit)) [].

Definition newServeCmd : Command := mkCommand "serve" AnyArgs [string_flag "config" []; string_flag "dashboard" []]
  (Some (λ fs _, Ok (RunServe (get_string fs "config") (get_string fs "dashboard")))) [].

Definition newKeysShowCmd : Command := mkCommand "show" AnyArgs [] (Some (λ _ _, Ok RunKeysShow)) [].
Definition newKeysRotateCmd : Command := mkCommand "rotate" AnyArgs [Flag "force" (FBool false) false]
  (Some (λ fs _, Ok (RunKeysRotate (get_bool fs "force")))) [].
Definition newKeysExportCmd : Command := mkCommand "export" AnyArgs [] (Some (λ _ _, Ok RunKeysExport)) [].
Definition newKeysCmd : Command := mkCommand "keys" AnyArgs [] None [newKeysShowCmd; newKeysRotateCmd; newKeysExportCmd].

Definition newInviteCreateCmd : Command := mkCommand "create" AnyArgs
  [Flag "server" (FString []) true; string_flag "label" []; Flag "max-uses" (FInt 1) false;
   Flag "ttl" (FDuration (24 * 3600 * second)) false]
  (Some (λ fs _, Ok (RunInviteCreate (get_string fs "server") (get_string fs "label") (get_int fs "max-uses") (get_int fs "ttl")))) [].
Definition newInviteListCmd : Command := mkCommand "list" AnyArgs [] (Some (λ _ _, Ok RunInviteList)) [].
Definition newInviteRevokeCmd : Command := mkCommand "revoke <token-id>" (ExactArgs 1) []
  (Some (λ _ args, match arg0 args with Ok id => Ok (RunInviteRevoke id) | Err e => Err e | Panic => Panic end)) [].
Definition newInviteCmd : Command := mkCommand "invite" AnyArgs [] None [newInviteCreateCmd; newInviteListCmd; newInviteRevokeCmd].

Definition newDevicesListCmd : Command := mkCommand "list" AnyArgs [] (Some (λ _ _, Ok RunDevicesList)) [].
Definition newDevicesRevokeCmd : Command := mkCommand "revoke <device-id>" (ExactArgs 1) []
  (Some (λ _ args, match arg0 args with Ok id => Ok (RunDevicesRevoke id) | Err e => Err e | Panic => Panic end)) [].
Definition newDevicesCmd : Command := mkCommand "devices" AnyArgs [] None [newDevicesListCmd; newDevicesRevokeCmd].

Definition versionCmd : Command := mkCommand "version" AnyArgs [] (Some (λ _ _, Ok PrintVersion)) [].

Definition NewRootCmd : Command := mkCommand "daxson" AnyArgs [] None
  [newImportCmd; newConnectCmd; newStatusCmd; newDoctorCmd; newInitCmd; newServeCmd; newKeysCmd; newInviteCmd;
   newDevicesCmd; versionCmd].

(** The root of [daxsond]. *)
Definition daemonCmd : Command := mkCommand "daxsond" AnyArgs [string_flag "config" (str "server.yaml"); string_flag "log-level" []]
  (Some (λ fs _, Ok (RunDaemon (get_string fs "config") (get_string fs "log-level")))) [].

(** ** github.com/spf13/cobra *)

(** The name of a command: its usage up to the first space. *)
Fixpoint name_of_usage (s : string) : string :=
  match s with
  | String c s' => if Ascii.eqb c " "%char then "" else String c (name_of_usage s')
  | EmptyString => ""
  end%string.
Definition Name (c : Command) : bytes := str (name_of_usage (Use c)).

Inductive in_tree : Command → Command → Prop :=
  | tree_self c : in_tree c c
  | tree_sub c d e : d ∈ SubCommands c → in_tree d e → in_tree c e.

Definition same_kind (v w : flag_value) : Prop :=
  match v, w with
  | FString _, FString _ | FBool _, FBool _ | FInt _, FInt _ | FDuration _, FDuration _ => True
  | _, _ => False
  end.

(** What [root.Execute()] does with the arguments: it runs a command's closure
    (with the flags that were given, the values of all, and the positional
    arguments), prints a help text, or returns an error. *)
Inductive outcome : Type :=
  | Ran (c : Command) (given : list string) (fs : flags) (args : list bytes)
  | Helped
  | Refused (e : error).

Definition builtin_commands : list bytes := map str ["help"; "completion"; "__complete"; "__completeNoDesc"]%string.
Definition is_flag (arg : bytes) : bool := bool_decide (head arg = Some x2d).

(** Documented behaviour: the command that is run belongs to the tree, has a
    closure, and its arguments pass its check; a flag that was not given has its
    default, one that was has a value of its type, and required ones were given;
    a first word that is no command of a root that has some is an error. *)
Class Cobra := {
  Execute : Command → list bytes → outcome;
  cobra_ran root argv c given fs args : Execute root argv = Ran c given fs args →
    in_tree root c ∧ is_Some (RunE c) ∧ args_ok (Args c) args ∧
    ∀ f, f ∈ Flags c →
      (fl_name f ∉ given → fs (fl_name f) = fl_default f) ∧ same_kind (fl_default f) (fs (fl_name f)) ∧
      (fl_required f = true → fl_name f ∈ given);
  cobra_unknown root word argv :
    SubCommands root ≠ [] → is_flag word = false → word ≠ [] → word ∉ builtin_commands →
    Forall (λ c, Name c ≠ word) (SubCommands root) →
    ∃ e, Execute root (word :: argv) = Refused e
}.

(** ** go.uber.org/zap *)

Inductive Level : Type := DebugLevel | InfoLevel | WarnLevel | ErrorLevel | DPanicLevel | PanicLevel | FatalLevel.
#[global] Instance Level_eq_dec : EqDecision Level.
Proof. solve_decision. Defined.

(** Documented: [UnmarshalText] knows the levels by their names; building a
    logger from one of the two standard configurations may fail. *)
Inductive preset : Type := Development | Production.
Class Zap := {
  UnmarshalText : bytes → result Level;
  Build : preset → Level → result unit;
  zap_total l p lv : is_panic (UnmarshalText l) = false ∧ is_panic (Build p lv) = false;
  zap_names : map UnmarshalText (map str ["debug"; "info"; "warn"; "error"]%string) =
    map Ok [DebugLevel; InfoLevel; WarnLevel; ErrorLevel]
}.

Inductive logger : Type := Nop | Logger (p : preset) (l : Level).

Section loggers.
Context `{Zap}.

Definition level_of (text : bytes) : Level := match UnmarshalText text with Ok l => l | _ => InfoLevel end.
Definition build (p : preset) (l : Level) : logger := match Build p l with Ok _ => Logger p l | _ => Nop end.

(** root.go *)
Definition buildLogger (level : bytes) : logger :=
  let lvl := level_of level in
  build (if decide (lvl = DebugLevel) then Development else Production) lvl.

(** daxsond: the level may be overridden, and the format decides. *)
Definition daemon_buildLogger (cfg : Config) (override : bytes) : logger :=
  let level := if is_empty override then lo_Level (cf_Logging cfg) else override in
  let lvl := level_of level in
  build (if bool_decide (lo_Format (cf_Logging cfg) = str "console") then Development else Production) lvl.
End loggers.

Definition Version : bytes := str "0.2.0".

(** ** The binaries *)

(** What the commands meet outside the terminal: the home directory, the network
    and the host name of an import, the probes of the diagnostics, the line that
    is typed at the wizard, and what happens during a connection or a server. *)
Record surroundings := Surroundings {
  su_home : result bytes; su_net : network; su_hostname : result bytes; su_probes : probes; su_line : bytes;
  su_start : Z; su_session : session_script; su_ending : option error
}.

Section binaries.
Context `{Ed25519} `{JSON storedKey} `{JSON storeData} `{JSON Payload} `{JSON statusRecord} `{YAML} `{Prometheus}.
Context `{Cobra}.
Variable su : surroundings.
Let home := su_home su.

Definition perform (a : action) : M cli unit :=
  match a with
  | RunImport link name label noVerify => runImport home (su_net su) (su_hostname su) link name label noVerify
  | RunConnect profile socks5 http _ => runConnect home (su_start su) (su_session su) profile socks5 http
  | RunStatus => runStatus home
  | RunDoctor profile => runDoctor home (su_probes su) profile
  | RunInit => runInit home (su_probes su) (su_line su)
  | RunServe cfgFile dashboard => runServe home cfgFile dashboard (su_ending su)
  | RunKeysShow => runKeysShow home
  | RunKeysRotate force => runKeysRotate home force
  | RunKeysExport => runKeysExport home
  | RunInviteCreate server label maxUses ttl => runInviteCreate home server label maxUses ttl
  | RunInviteList => runInviteList home
  | RunInviteRevoke id => runInviteRevoke home id
  | RunDevicesList => runDevicesList home
  | RunDevicesRevoke id => runDevicesRevoke home id
  | PrintVersion => Println [txt "daxson "; T Version]
  | RunDaemon cfgFile _ => runDaemon cfgFile (su_ending su)
  end.

(** The closure of a command. *)
Definition call_closure (c : Command) (fs : flags) (args : list bytes) : result (option action) :=
  match RunE c with
  | Some f => match f fs args with Ok a => Ok (Some a) | Err e => Err e | Panic => Panic end
  | None => Ok None
  end.

(** [main]: the exit status. *)
Definition binary (root : Command) (argv : list bytes) : M cli Z :=
  r <- try (match Execute root argv with
            | Ran c _ fs args =>
                a <- lift (call_closure c fs args) ;;
                match a with Some a => perform a | None => ret tt end
            | Helped => ret tt
            | Refused e => fail e
            end) ;;
  match r with
  | inl _ => ret 0
  | inr e => Println [EText e] ;;; ret 1
  end.

Definition daxson : list bytes → M cli Z := binary NewRootCmd.
Definition daxsond : list bytes → M cli Z := binary daemonCmd.
End binaries.

(** ** A simple reader of arguments

    Without flags, and with words only.  It satisfies the laws. *)
#[global] Instance flag_value_eq_dec : EqDecision flag_value.
Proof. solve_decision. Defined.

Definition default_flags (fl : list flag) : flags := λ name,
  match list_find (λ f, String.eqb name (fl_name f) = true) fl with Some (_, f) => fl_default f | None => FString [] end.
Definition args_okb (c : arg_check) (args : list bytes) : bool :=
  match c with AnyArgs => true | ExactArgs n => len args =? n end.
Definition plain_flags (c : Command) : bool :=
  forallb (λ f, bool_decide (default_flags (Flags c) (fl_name f) = fl_default f) && negb (fl_required f)) (Flags c).

Fixpoint plain_Execute (root : Command) (argv : list bytes) : outcome :=
  match argv with
  | word :: rest =>
      match list_find (λ c, Name c = word) (SubCommands root) with
      | Some (_, c) => plain_Execute c rest
      | None =>
          if bool_decide (SubCommands root = []) && bool_decide (is_Some (RunE root)) && args_okb (Args root) argv && plain_flags root
          then Ran root [] (default_flags (Flags root)) argv else Refused (ErrNew "unknown command" [])
      end
  | [] =>
      match RunE root with
      | None => Helped
      | Some _ => if args_okb (Args root) [] && plain_flags root then Ran root [] (default_flags (Flags root)) []
                  else Refused (ErrNew "accepts %d arg(s), received %d" [])
      end
  end.

#[global] Instance Command_nil_dec (l : list Command) : Decision (l = []).
Proof. destruct l; [by left|by right]. Defined.

Lemma plain_flags_spec c f : plain_flags c = true → f ∈ Flags c →
  default_flags (Flags c) (fl_name f) = fl_default f ∧ fl_required f = false.
Proof.
  unfold plain_flags. rewrite forallb_forall. intros Hc Hf%list_elem_of_In. specialize (Hc f Hf).
  apply andb_true_iff in Hc as [Hd%bool_decide_eq_true Hr%negb_true_iff]. done.
Qed.

Lemma plain_ran root argv c given fs args : plain_Execute root argv = Ran c given fs args →
  in_tree root c ∧ is_Some (RunE c) ∧ args_ok (Args c) args ∧
  ∀ f, f ∈ Flags c →
    (fl_name f ∉ given → fs (fl_name f) = fl_default f) ∧ same_kind (fl_default f) (fs (fl_name f)) ∧
    (fl_required f = true → fl_name f ∈ given).
Proof.
  assert (Hleaf : ∀ root args, is_Some (RunE root) → args_okb (Args root) args && plain_flags root = true →
    in_tree root root ∧ is_Some (RunE root) ∧ args_ok (Args root) args ∧
    ∀ f, f ∈ Flags root →
      (fl_name f ∉ [] → default_flags (Flags root) (fl_name f) = fl_default f) ∧
      same_kind (fl_default f) (default_flags (Flags root) (fl_name f)) ∧ (fl_required f = true → fl_name f ∈ [])).
  { intros r a Hr [Ha Hp]%andb_true_iff. split; [constructor|]. split; [done|]. split.
    - destruct (Args r); [done|]. by apply Z.eqb_eq.
    - intros f Hf. destruct (plain_flags_spec r f Hp Hf) as [-> ->]. split; [done|]. split; [by destruct (fl_default f)|done]. }
  revert root. induction argv as [|word rest IH]; intros root; cbn [plain_Execute].
  - destruct (RunE root) eqn:Er; [|done]. destruct (_ && _) eqn:E; [|done]. intros [= <- <- <- <-]. apply Hleaf; [by rewrite Er|exact E].
  - destruct (list_find _ _) as [[i d]|] eqn:Ef.
    + intros Hx. destruct (IH d Hx) as (Ht & Hrest). split; [|exact Hrest]. econstructor; [|exact Ht].
      apply list_find_Some in Ef as (Hi & _). by eapply list_elem_of_lookup_2.
    + destruct (_ && _ && _ && _) eqn:E; [|done]. intros [= <- <- <- <-].
      apply andb_true_iff in E as [E E4]. apply andb_true_iff in E as [E E3]. apply andb_true_iff in E as [_ E2%bool_decide_eq_true].
      apply Hleaf; [done|]. by rewrite E3, E4.
Qed.

Lemma plain_unknown root word argv :
  SubCommands root ≠ [] → Forall (λ c, Name c ≠ word) (SubCommands root) →
  ∃ e, plain_Execute root (word :: argv) = Refused e.
Proof.
  intros Hs Hn. cbn [plain_Execute]. destruct (list_find _ _) as [[i d]|] eqn:Ef.
  - apply list_find_Some in Ef as (Hi & Hd & _). rewrite Forall_lookup in Hn. by destruct (Hn i d Hi).
  - rewrite bool_decide_false by done. by eexists.
Qed.

Definition plain_Cobra : Cobra.
Proof. refine {| Execute := plain_Execute |}; [exact plain_ran|]. intros. by apply plain_unknown. Defined.

(** ** What the command line guarantees *)

Definition all_commands : list Command :=
  [NewRootCmd; newImportCmd; newConnectCmd; newStatusCmd; newDoctorCmd; newInitCmd; newServeCmd; newKeysCmd; newKeysShowCmd;
   newKeysRotateCmd; newKeysExportCmd; newInviteCmd; newInviteCreateCmd; newInviteListCmd; newInviteRevokeCmd; newDevicesCmd;
   newDevicesListCmd; newDevicesRevokeCmd; versionCmd].

Lemma all_commands_closed c d : c ∈ all_commands → d ∈ SubCommands c → d ∈ all_commands.
Proof.
  unfold all_commands. rewrite !elem_of_cons, elem_of_nil. intros Hc Hd.
  repeat (destruct Hc as [->|Hc]; [cbn in Hd; rewrite ?elem_of_cons, ?elem_of_nil in Hd; tauto|]). done.
Qed.

Lemma tree_commands c d : in_tree c d → c ∈ all_commands → d ∈ all_commands.
Proof. induction 1 as [c|c d e Hd _ IH]; [done|]. intros Hc. apply IH. by eapply all_commands_closed. Qed.

Lemma closure_safe c fs args : c ∈ all_commands → args_ok (Args c) args → ∃ oa, call_closure c fs args = Ok oa.
Proof.
  unfold all_commands. rewrite !elem_of_cons, elem_of_nil. intros Hc Ha.
  repeat (destruct Hc as [->|Hc]; [cbn in *; try (destruct args as [|a args]; [done|]); by eexists|]). done.
Qed.

Section properties.
Context `{Ed25519} `{JSON storedKey} `{JSON storeData} `{JSON Payload} `{JSON statusRecord} `{YAML} `{Prometheus} `{Cobra}.
Variable su : surroundings.
Implicit Types (c : cli).

(** An error ends in exit status 1, and nothing but its text is added. *)
Lemma binary_Err root argv c e c1 :
  (match Execute root argv with
   | Ran cmd _ fs args => a <- lift (call_closure cmd fs args) ;; match a with Some a => perform su a | None => ret tt end
   | Helped => ret tt
   | Refused e => fail e
   end) c = (Err e, c1) →
  ∃ c2, binary su root argv c = (Ok 1, c2) ∧ same_but_out c1 c2.
Proof. intros E. unfold binary, bind at 1, try. rewrite E. by eexists. Qed.

(** C20. What a command line does.  Whatever the arguments of [daxson]: a help text
    ends in exit status 0 and a refusal in 1, with no effect but the text; any
    other run performs at most one action, whose success or error is the exit
    status and whose effects are all there are, and it panics only if the action
    does, since the closures that look at their first argument are only called
    with one.  An invite is only created when [--server] was given. *)
Theorem command_line argv c :
  match Execute NewRootCmd argv with
  | Helped => daxson su argv c = (Ok 0, c)
  | Refused _ => ∃ c', daxson su argv c = (Ok 1, c') ∧ same_but_out c c'
  | Ran cmd given fs args =>
      ∃ oa, call_closure cmd fs args = Ok oa ∧
        match oa with
        | None => daxson su argv c = (Ok 0, c)
        | Some a =>
            (∀ server label n ttl, a = RunInviteCreate server label n ttl → "server"%string ∈ given) ∧
            match perform su a c with
            | (Ok _, c1) => daxson su argv c = (Ok 0, c1)
            | (Err _, c1) => ∃ c2, daxson su argv c = (Ok 1, c2) ∧ same_but_out c1 c2
            | (Panic, c1) => daxson su argv c = (Panic, c1)
            end
        end
  end.
Proof.
  unfold daxson. pose proof (binary_Err NewRootCmd argv c) as Herr.
  unfold binary in *. destruct (Execute NewRootCmd argv) as [cmd given fs args| |e] eqn:Ex; [|done|].
  2:{ destruct (Herr e c eq_refl) as (c2 & E2 & Hs). by exists c2. }
  destruct (cobra_ran _ _ _ _ _ _ Ex) as (Ht & _ & Ha & Hf).
  assert (Hin : cmd ∈ all_commands) by (eapply tree_commands; [exact Ht|]; left).
  destruct (closure_safe cmd fs args Hin Ha) as [oa Eoa]. exists oa. split; [done|]. rewrite Eoa in *.
  destruct oa as [a|]; [|done]. split.
  - intros server label n ttl ->. unfold all_commands in Hin. rewrite !elem_of_cons, elem_of_nil in Hin.
    repeat (destruct Hin as [->|Hin];
      [first [by apply (Hf (Flag "server" (FString []) true)); [left|]
             |cbn in Eoa; try (destruct args as [|x args]); cbn in Eoa; discriminate]|]). done.
  - unfold bind, try, lift in *. destruct (perform su a c) as [[u|e|] c1]; [done| |done]. by apply (Herr e c1).
Qed.

(** The relay cannot be started.  [daxson relay], which the systemd unit
    [daxson-relay.service] runs, is refused whatever follows it; and a
    configuration whose mode is relay, which [Config.Load] accepts, is refused by
    [daxson serve] and by [daxsond], the only commands that load one. *)
Theorem relay_is_not_started :
  (∀ argv c, ∃ c', daxson su (str "relay" :: argv) c = (Ok 1, c') ∧ same_but_out c c') ∧
  (∀ cfgFile dashboard c cfg f,
     Config.Load (if is_empty cfgFile then defaultServerConfigPath (su_home su) else cfgFile) (s_fs (c_sys c)) = (Ok cfg, f) →
     cf_Mode cfg = ModeRelay → is_ok (fst (perform su (RunServe cfgFile dashboard) c)) = false) ∧
  (∀ cfgFile level c cfg f,
     Config.Load cfgFile (s_fs (c_sys c)) = (Ok cfg, f) → cf_Mode cfg = ModeRelay →
     is_ok (fst (perform su (RunDaemon cfgFile level) c)) = false).
Proof.
  split; [|split].
  - intros argv c. destruct (cobra_unknown NewRootCmd (str "relay") argv) as [e Ex]; [done|reflexivity|done| | |].
    + apply (bool_decide_unpack _). vm_compute. exact I.
    + apply (bool_decide_unpack _). vm_compute. exact I.
    + unfold daxson. apply (binary_Err NewRootCmd (str "relay" :: argv) c e c). by rewrite Ex.
  - intros cfgFile dashboard c cfg f El Hm. cbn [perform]. unfold runServe, serve_start.
    erewrite bind_Err; [done|]. erewrite bind_Ok by (apply report_as_Ok; unfold on_cfs, on_csys, zoom; erewrite on_fs_eq by exact El; reflexivity).
    rewrite Hm. rewrite bool_decide_false by done. cbn [negb]. by erewrite bind_Ok by reflexivity.
  - intros cfgFile level c cfg f El Hm. cbn [perform]. unfold runDaemon. erewrite bind_Err; [done|].
    unfold on_cfs, on_csys, zoom. erewrite on_fs_eq; [reflexivity|]. unfold daxsond_run.
    erewrite bind_Ok by (apply wrap_Ok; exact El). rewrite Hm. by rewrite bool_decide_false by done.
Qed.
End properties.

(** The loggers: a documented name gives its level, and only debug the
    development preset of [daxson]; any other text is info. *)
Lemma logger_levels `{Zap} text :
  (∀ l, (text, l) ∈ [(str "debug", DebugLevel); (str "info", InfoLevel); (str "warn", WarnLevel); (str "error", ErrorLevel)] →
     level_of text = l ∧ (buildLogger text = Nop ∨ buildLogger text = Logger (if decide (l = DebugLevel) then Development else Production) l)) ∧
  (is_ok (UnmarshalText text) = false → buildLogger text = Nop ∨ buildLogger text = Logger Production InfoLevel).
Proof.
  pose proof zap_names as Hn. cbn [map] in Hn. injection Hn as N1 N2 N3 N4.
  assert (Hb : ∀ p l, build p l = Nop ∨ build p l = Logger p l) by (intros p l; unfold build; destruct (Build p l); auto).
  split.
  - intros l Hin. assert (Hl : level_of text = l).
    { unfold level_of. rewrite !elem_of_cons, elem_of_nil in Hin.
      destruct Hin as [[= -> ->]|[[= -> ->]|[[= -> ->]|[[= -> ->]|[]]]]]; by rewrite ?N1, ?N2, ?N3, ?N4. }
    split; [done|]. unfold buildLogger. rewrite Hl. apply Hb.
  - intros Hu. unfold buildLogger, level_of. destruct (UnmarshalText text); [done|apply Hb..].
Qed.

(** ** A run: a relay configuration, and the three ways to start it *)

Definition relay_config : Config := mkConfig ModeRelay (cf_Proxy Defaults) (cf_Tunnel Defaults)
  (mkServer (str ":443") (mkTLS (str "/etc/cert.pem") (str "/etc/key.pem") [] [] false []) (mkAuth (str "downstream secret")) [] [] [] (mkDashboard [] false))
  (mkUpstream (str "198.51.100.7:443") no_tls (mkAuth (str "upstream secret")))
  (cf_Metrics Defaults) (cf_Logging Defaults) (cf_PProf Defaults).

Definition relay_YAML : YAML.
Proof.
  refine {|
    yaml_Marshal := @yaml_Marshal Config.toy_YAML;
    yaml_Unmarshal_profile := @yaml_Unmarshal_profile Config.toy_YAML;
    yaml_Unmarshal_config _ _ _ := Ok relay_config;
    yaml_tree := @yaml_tree Config.toy_YAML;
    yaml_Decode_string := @yaml_Decode_string Config.toy_YAML
  |}; [apply (@yaml_embedded Config.toy_YAML)|apply (@yaml_hook Config.toy_YAML)|apply (@yaml_mapping Config.toy_YAML)].
Defined.

Lemma relay_is_not_started_witness :
  let ed := toy_Ed25519 in let ks := single_JSON (stored kp0) in let rs := single_JSON (mkStore [] []) in
  let ps := single_JSON plain_invite in let ss := single_JSON (mkStatus 1 true [] [] [] [] [] 0 0) in
  let ya := relay_YAML in let pr := utf8_Prometheus in let co := plain_Cobra in
  let file := str "/etc/daxson/relay.yaml" in
  let su := Surroundings (Ok (str "/root")) registrar (Err (ErrEnv 2)) (Probes (λ _, Ok tt) (λ _, Ok []) (λ _, Ok tt)) [] 0
              (Script [] (λ _, Ok []) (λ _, Ok []) 0 None) None in
  let c := Cli (Sys (clock_at 3000) (stream [] EOF) (Fs {[ file := str "mode: relay" ]} [])) (Mrand (λ _, 1) (λ _, float_of_Z 0) 0) [] [] in
  (∃ c', daxson su [str "relay"; str "--config"; file] c = (Ok 1, c') ∧ same_but_out c c') ∧
  is_ok (fst (perform su (RunServe file []) c)) = false ∧ is_ok (fst (perform su (RunDaemon file []) c)) = false.
Proof.
  intros ed ks rs ps ss ya pr co file su c. destruct (relay_is_not_started su) as (H1 & H2 & H3).
  split; [apply H1|]. split.
  - apply (H2 file [] c relay_config (s_fs (c_sys c))); reflexivity.
  - apply (H3 file [] c relay_config (s_fs (c_sys c))); reflexivity.
Defined.
