(* ===== verification/Serving.v ===== *)
(** The server process of [daxson serve] as a whole: the creation of the
    listeners ([ListenAndServe] of [internal/tunnel/server.go], [Run] of the relay),
    the two HTTP servers ([Serve] of [internal/metrics/metrics.go], [New] and
    [Start] of [internal/dashboard/server.go]), and tunnel connections interleaved
    with requests to the dashboard, which share the registry and the collector. *)

From Stdlib Require Import Strings.Byte String ZArith Lia.
From stdpp Require Import base list gmap relations.
From S2P Require Import Prelude Encoding Net Io Float Hash Frame Connect Wire Identity Registry Auth.
From S2P Require Import Shaping Pipe Telemetry Metrics Config Transport Tunnel Listener Bridge Invite Dashboard Terminal Commands Processes.

(** ** The metrics endpoint *)

Inductive metrics_reply : Type :=
  | MetricsPage (events : list mevent)
  | Healthy
  | MRedirect (path : bytes)
  | MNotFound.

Definition metrics_ServeHTTP (m : Metrics) (path : bytes) : metrics_reply :=
  if negb (bool_decide (cleanPath path = path)) then MRedirect (cleanPath path)
  else if bool_decide (path = str "/metrics") then MetricsPage (m_events m)
  else if bool_decide (path = str "/healthz") then Healthy
  else MNotFound.

(** Without an address there is no server. *)
Definition Serve (addr : bytes) : option (Metrics → bytes → metrics_reply) :=
  if is_empty addr then None else Some metrics_ServeHTTP.

(** ** The dashboard's server *)

Record dashboard := mkDash { db_addr : bytes; db_serverKey : option KeyPair; db_version : bytes }.
Definition dashboard_New (addr : bytes) (serverKey : KeyPair) (version : bytes) : dashboard :=
  mkDash addr (Some serverKey) version.

Section http.
Context `{Ed25519} `{JSON storeData} `{JSON Payload}.

(** A request; net/http recovers the panic of a handler. *)
Definition dashboard_request (d : dashboard) (r : request) : M api (option response) := λ a,
  match ServeHTTP (db_serverKey d) (db_version d) r a with
  | (Ok x, a') => (Ok (Some x), a')
  | (_, a') => (Ok None, a')
  end.

Fixpoint dashboard_serve (d : dashboard) (rs : list request) : M api (list (option response)) :=
  match rs with
  | [] => ret []
  | r :: rs' => x <- dashboard_request d r ;; l <- dashboard_serve d rs' ;; ret (x :: l)
  end.

(** [Start], by the outcome of binding the address and the requests that come
    until the context is done. *)
Definition Start (d : dashboard) (bind_addr : bytes → result unit) (rs : list request) : M api (list (option response)) :=
  lift (bind_addr (db_addr d)) ;;; dashboard_serve d rs.
End http.

(** ** The tunnel server's listener *)

Section server.
Context `{Ed25519} `{JSON storeData} `{Prometheus}.
Variable s : Server.

(** The whole of [Server.ListenAndServe]: [loaded] is the outcome of loading the
    certificate, [tls_listen] what binding an address gives. *)
Definition server_ListenAndServe (loaded : result unit) (tls_listen : bytes → result (list levent)) : M listener unit :=
  let sc := cf_Server (ts_cfg s) in
  tr <- wrap "server: TLS init" (lift (Transport.NewServer loaded (tl_CertFile (sv_TLS sc)) (tl_KeyFile (sv_TLS sc)) (tl_NextProtos (sv_TLS sc)))) ;;
  evs <- wrap "server: listen %s" (lift (transport_Listen tls_listen tr (sv_Listen sc))) ;;
  ListenAndServe s evs.
End server.

(** ** The relay's listener *)

Section relay.
Context `{Prometheus}.
Variable r : Relay.

(** What [Accept] returns to the relay: an error, or a connection with the
    outcome of its multiplexed session. *)
Inductive devent : Type := DAcceptError | DAccepted (c : conn) (mux_err : option error).

(** The relay's environment and metrics. *)
Record downstreams := Downstreams { ds_sys : sys; ds_met : option Metrics; ds_served : list (option Personality * smuxConfig) }.

Definition downstream_event (e : devent) : M downstreams unit :=
  match e with
  | DAcceptError => ret tt
  | DAccepted c mux_err => λ d,
      let '(o, w) := accept_downstream r mux_err (World (Host c (ds_sys d) None) None (ds_met d)) in
      match o with
      | Ok (Some p) => (Ok tt, Downstreams (h_sys (w_host w)) (w_met w) (ds_served d ++ [p]))
      | Ok None => (Ok tt, Downstreams (h_sys (w_host w)) (w_met w) (ds_served d))
      | Err e => (Err e, Downstreams (h_sys (w_host w)) (w_met w) (ds_served d))
      | Panic => (Panic, Downstreams (h_sys (w_host w)) (w_met w) (ds_served d))
      end
  end.

Definition listenDownstream (loaded : result unit) (tls_listen : bytes → result (list devent)) : M downstreams unit :=
  let sc := cf_Server (ry_cfg r) in
  tr <- wrap "relay: downstream TLS init" (lift (Transport.NewServer loaded (tl_CertFile (sv_TLS sc)) (tl_KeyFile (sv_TLS sc)) (tl_NextProtos (sv_TLS sc)))) ;;
  evs <- wrap "relay: downstream listen %s" (lift (transport_Listen tls_listen tr (sv_Listen sc))) ;;
  each downstream_event evs.
End relay.

(** ** The process *)

Section process.
Context `{Ed25519} `{JSON storeData} `{JSON Payload} `{Prometheus}.
Variable s : Server.
Variable d : dashboard.

(** The dashboard works on the server's registry and collector, which it
    dereferences. *)
Definition on_api {A} (m : M api A) : M listener A := λ l,
  match li_reg l, li_collector l with
  | Some reg, Some col =>
      let '(x, a) := m (Api (RState reg (li_sys l)) col) in
      (x, Listener (rs_sys (a_reg a)) (Some (rs_reg (a_reg a))) (Some (a_collector a)) (li_met l) (li_open l))
  | _, _ => (Panic, l)
  end.

(** The relays of the streams.  When a session ends its relays end too, each in
    its own time. *)
Record process := Process { ps_listener : listener; ps_streams : list pipe }.
Definition on_listener {A} : M listener A → M process A := zoom ps_listener (λ l p, Process l (ps_streams p)).
Definition put_streams (l : list pipe) (p : process) : process := Process (ps_listener p) l.

(** The handler of a stream on the shared clock and metrics. *)
Definition in_stream {A} (c : conn) (m : M stream_state A) : M listener A := λ l,
  let '(r, st) := m (SStream c (s_clock (li_sys l)) (li_met l)) in
  (r, Listener (Sys (st_clock st) (s_rand (li_sys l)) (s_fs (li_sys l))) (li_reg l) (li_collector l) (st_met st) (li_open l)).

(** What dialling a target gives. *)
Definition dial_of (dial : bytes → conn + error) (target : bytes) : result conn :=
  match dial target with inl c => Ok c | inr e => Err e end.

(** A connection or the end of a session; a stream [c] on the session [i] with
    what its dial will meet; the end of the relay [j]; a request. *)
Inductive process_event : Type :=
  | Tunnels (e : levent)
  | StreamArrives (i : nat) (c : conn) (dial : bytes → conn + error)
  | StreamEnds (j : nat)
  | Asks (r : request).

Definition process_step (e : process_event) : M process unit :=
  match e with
  | Tunnels e => on_listener (listen_event s e)
  | StreamArrives i c dial =>
      open <- gets (λ p, li_open (ps_listener p)) ;;
      match open !! i with
      | None => ret tt
      | Some _ =>
          r <- on_listener (in_stream c (handleStream (dial_of dial))) ;;
          match r with
          | Some relay => modify (λ p, put_streams (ps_streams p ++ [relay]) p)
          | None => ret tt
          end
      end
  | StreamEnds j =>
      streams <- gets ps_streams ;;
      match streams !! j with
      | None => ret tt
      | Some _ => modify (put_streams (delete j streams)) ;;; on_listener (on_li_met RecordStreamClose)
      end
  | Asks r => on_listener (on_api (dashboard_request d r)) ;;; ret tt
  end.
Definition process_run : list process_event → M process unit := each process_step.

(** How the store evolves in a server process. *)
Definition grows (d d' : storeData) : Prop :=
  ∃ o, data_step d o d' ∧
    match o with OpAuthorize _ | OpBootstrap _ _ _ | OpCreateInvite _ _ _ => True | _ => False end.

Definition grown (reg0 : Registry) (h : host) : Prop :=
  ∃ reg, h_reg h = Some reg ∧ r_path reg = r_path reg0 ∧ rtc grows (r_data reg0) (r_data reg).

#[local] Hint Extern 5 (keeps (grown _) (match ?x with _ => _ end)) => destruct x : gokeeps.

Lemma keeps_elsewhere {A} reg0 (m : M host A) : (∀ h, h_reg (snd (m h)) = h_reg h) → keeps (grown reg0) m.
Proof. intros Hm h (reg & Hr & Hrest). exists reg. by rewrite Hm. Qed.

Lemma keeps_on_conn {A} reg0 (m : M conn A) : keeps (grown reg0) (on_conn m).
Proof. apply keeps_elsewhere. intros h. unfold on_conn, zoom. by destruct (m (h_conn h)). Qed.
Lemma keeps_on_hsys {A} reg0 (m : M sys A) : keeps (grown reg0) (on_hsys m).
Proof. apply keeps_elsewhere. intros h. unfold on_hsys, zoom. by destruct (m (h_sys h)). Qed.
Lemma keeps_put_conn reg0 (f : conn → conn) : keeps (grown reg0) (modify (λ h, h_put_conn (f (h_conn h)) h)).
Proof. by apply keeps_elsewhere. Qed.
#[local] Hint Resolve keeps_on_conn keeps_on_hsys keeps_put_conn : gokeeps.

Lemma keeps_deadline_in reg0 set n : keeps (grown reg0) (deadline_in set n).
Proof. unfold deadline_in, h_now. eauto with gokeeps. Qed.
Lemma keeps_deadline_clear reg0 set : keeps (grown reg0) (deadline_clear set).
Proof. apply keeps_put_conn. Qed.

(** A method call of the server is one step of the store. *)
Lemma keeps_on_registry {A} reg0 o (m : M rstate A) :
  match o with OpAuthorize _ | OpBootstrap _ _ _ | OpCreateInvite _ _ _ => True | _ => False end →
  run_op o = ignore m → keeps (grown reg0) (on_registry m).
Proof.
  intros Ho Hm h (reg & Hr & Hp & Hg). unfold on_registry. rewrite Hr.
  destruct (run_op_step o (RState reg (h_sys h))) as (Hs & Hpath & _). rewrite Hm, !snd_ignore in *.
  destruct (m (RState reg (h_sys h))) as [x st]. cbn in *.
  exists (rs_reg st). split; [done|]. split; [by rewrite Hpath|]. eapply rtc_r; [exact Hg|]. by exists o.
Qed.
Lemma keeps_AuthorizeDevice reg0 pub : keeps (grown reg0) (on_registry (AuthorizeDevice pub)).
Proof. by apply (keeps_on_registry reg0 (OpAuthorize pub)). Qed.
Lemma keeps_Bootstrap reg0 token pub label : keeps (grown reg0) (on_registry (Bootstrap token pub label)).
Proof. by apply (keeps_on_registry reg0 (OpBootstrap token pub label)). Qed.
#[local] Hint Resolve keeps_deadline_in keeps_deadline_clear keeps_AuthorizeDevice keeps_Bootstrap : gokeeps.

Lemma keeps_answers reg0 b :
  keeps (grown reg0) (writeDeviceAuthFail b) ∧ keeps (grown reg0) (writeBootstrapFail b) ∧ keeps (grown reg0) writeFailResponse.
Proof.
  split_and!; unfold writeDeviceAuthFail, writeBootstrapFail, writeFailResponse, h_rand_ignoring; eauto 10 with gokeeps.
Qed.

Lemma keeps_ServerDispatch reg0 hs : keeps (grown reg0) (ServerDispatch hs).
Proof.
  assert (Ha := keeps_answers reg0).
  assert (K1 : ∀ b, keeps (grown reg0) (writeDeviceAuthFail b)) by (intros b; apply Ha).
  assert (K2 : ∀ b, keeps (grown reg0) (writeBootstrapFail b)) by (intros b; apply Ha).
  assert (K3 : keeps (grown reg0) writeFailResponse) by (apply (Ha x00)).
  assert (Hh : keeps (grown reg0) (ServerHandshake hs)) by (unfold ServerHandshake, h_now, h_rand; eauto 30 with gokeeps).
  assert (Hd : ∀ b, keeps (grown reg0) (deviceServerHandshake b))
    by (intros b; unfold deviceServerHandshake, h_now, h_rand_ignoring; eauto 40 with gokeeps).
  assert (Hb : ∀ b, keeps (grown reg0) (bootstrapServerHandshake b))
    by (intros b; unfold bootstrapServerHandshake, h_rand_ignoring; eauto 40 with gokeeps).
  unfold ServerDispatch. eauto 40 with gokeeps.
Qed.

(** The same of a connection's world and of the listener. *)
Definition grown_w (reg0 : Registry) (w : world) : Prop := grown reg0 (w_host w) ∧ is_Some (w_collector w).
Definition grown_l (reg0 : Registry) (l : listener) : Prop :=
  (∃ reg, li_reg l = Some reg ∧ r_path reg = r_path reg0 ∧ rtc grows (r_data reg0) (r_data reg)) ∧ is_Some (li_collector l).

#[local] Hint Extern 5 (keeps (grown_w _) (match ?x with _ => _ end)) => destruct x : gokeeps.

Lemma keeps_on_host {A} reg0 (m : M host A) : keeps (grown reg0) m → keeps (grown_w reg0) (on_host m).
Proof. intros Hm w [Hw Hc]. unfold on_host, zoom, grown_w in *. specialize (Hm _ Hw). by destruct (m (w_host w)). Qed.
Lemma keeps_same_host {A} reg0 (m : M world A) :
  (∀ w, w_host (snd (m w)) = w_host w ∧ (is_Some (w_collector w) → is_Some (w_collector (snd (m w))))) → keeps (grown_w reg0) m.
Proof. intros Hm w [Hw Hc]. unfold grown_w. destruct (Hm w) as [-> Hc']. eauto. Qed.
Lemma keeps_on_w_met {A} reg0 (m : M (option Metrics) A) : keeps (grown_w reg0) (on_w_met m).
Proof. apply keeps_same_host. intros w. unfold on_w_met, zoom. by destruct (m (w_met w)). Qed.
Lemma keeps_close_raw reg0 : keeps (grown_w reg0) close_raw.
Proof. apply keeps_on_host, keeps_put_conn. Qed.
#[local] Hint Resolve keeps_on_host keeps_on_w_met keeps_close_raw keeps_ServerDispatch : gokeeps.

Lemma keeps_handleConn reg0 remote dial mux_err : keeps (grown_w reg0) (handleConn s remote dial mux_err).
Proof.
  assert (Hs : ∀ res, keeps (grown_w reg0) (serve_session s remote mux_err res)).
  { intros res. unfold serve_session. destruct mux_err; [eauto with gokeeps|].
    apply keeps_bind; [eauto with gokeeps|intros []]. apply keeps_bind; [eauto with gokeeps|intros [c|]]; [|eauto with gokeeps].
    apply keeps_bind; [apply keeps_lift|intros id]. apply keeps_bind; [unfold h_now; eauto with gokeeps|intros now].
    destruct (OpenSession _ _ _ _ _ _ _ _) as [rec c']. apply keeps_bind; [|eauto with gokeeps].
    apply keeps_modify. intros w [Hw _]. by split. }
  unfold handleConn. do 2 (apply keeps_bind; [eauto 10 with gokeeps|intros ?]). apply keeps_bind; [eauto 10 with gokeeps|intros _].
  destruct a0 as [res|e]; [apply Hs|]. apply keeps_if; [|eauto with gokeeps].
  apply keeps_bind; [eauto with gokeeps|intros _]. apply keeps_bind; [unfold h_now; eauto with gokeeps|intros now].
  apply keeps_bind; [|intros _; apply keeps_bind; eauto 10 with gokeeps].
  apply keeps_modify. intros w [Hw [c Hc]]. split; [exact Hw|]. rewrite Hc. by eexists.
Qed.

Lemma keeps_listen_event reg0 e : keeps (grown_l reg0) (listen_event s e).
Proof.
  assert (Hmod : ∀ f, (∀ l, li_reg (f l) = li_reg l ∧ (is_Some (li_collector l) → is_Some (li_collector (f l)))) →
    keeps (grown_l reg0) (modify f)).
  { intros f Hf. apply keeps_modify. intros l [Hl Hc]. unfold grown_l. destruct (Hf l) as [-> Hc']. eauto. }
  assert (Hmet : ∀ A (m : M (option Metrics) A), keeps (grown_l reg0) (on_li_met m)).
  { intros A m l Hl. unfold on_li_met, zoom. by destruct (m (li_met l)). }
  destruct e as [|cn remote dial mux_err|i]; cbn [listen_event]; [apply keeps_ret| |].
  - apply keeps_bind; [apply Hmet|intros _]. apply keeps_bind.
    + intros l Hl. unfold in_world.
      pose proof (keeps_handleConn reg0 remote dial mux_err (World (Host cn (li_sys l) (li_reg l)) (li_collector l) (li_met l)) Hl) as Hk.
      by destruct (handleConn _ _ _ _ _).
    + intros [| |res record sh cfg]; [apply keeps_ret|apply keeps_ret|by apply Hmod].
  - apply keeps_bind; [apply keeps_gets|intros open]. destruct (open !! i) as [key|]; [|apply keeps_ret].
    apply keeps_bind; [by apply Hmod|intros _]. unfold end_session. apply keeps_bind; [|intros _; apply Hmet].
    destruct key; [|apply keeps_ret].
    apply Hmod. intros l'. split; [done|]. intros [c Hc]. cbn. rewrite Hc. by eexists.
Qed.

(** ** The dashboard in the process *)

Lemma createInvite_step serverKey r a x a' :
  createInvite serverKey r a = (x, a') →
  (a_reg a' = a_reg a) ∨ ∃ o, a_reg a' = snd (run_op o (a_reg a)) ∧ match o with OpCreateInvite _ _ _ => True | _ => False end.
Proof.
  unfold createInvite. destruct (rq_Body r) as [body|e|]; [|intros [= <- <-]; by left..].
  cbv zeta. set (label := if bool_decide (cb_Label body = []) then _ else _).
  set (n := if cb_MaxUses body <=? 0 then _ else _). set (ttl := int64 _).
  intros E. right. exists (OpCreateInvite label n ttl). split; [|done]. cbn [run_op]. rewrite snd_ignore.
  revert E. unfold bind at 1, try, on_reg, zoom. destruct (CreateInvite label n ttl (a_reg a)) as [[rec|e|] st].
  - unfold bind, lift, ret. destruct (invite_link serverKey rec); by intros [= <- <-].
  - by intros [= <- <-].
  - by intros [= <- <-].
Qed.

Lemma on_api_run r reg0 l :
  grown_l reg0 l →
  ∃ o l', on_api (dashboard_request d r) l = (Ok o, l') ∧ grown_l reg0 l' ∧ li_collector l' = li_collector l ∧
    li_met l' = li_met l ∧ li_open l' = li_open l.
Proof.
  intros ((reg & Hr & Hp & Hg) & c & Hc). unfold on_api, dashboard_request. rewrite Hr, Hc.
  destruct (ServeHTTP (db_serverKey d) (db_version d) r (Api (RState reg (li_sys l)) c)) as [x a'] eqn:E.
  assert (Hcol : a_collector a' = c ∧
    (a_reg a' = RState reg (li_sys l) ∨ ∃ o, a_reg a' = snd (run_op o (RState reg (li_sys l))) ∧
       match o with OpCreateInvite _ _ _ => True | _ => False end)).
  { apply ServeHTTP_writes in E as [[-> _]|[_ E]]; [by split; [|left]|].
    split; [apply (createInvite_run _ _ _ _ _ E)|by apply createInvite_step in E]. }
  destruct Hcol as [Hc2 Hreg].
  assert (Hgl : ∃ reg', rs_reg (a_reg a') = reg' ∧ r_path reg' = r_path reg0 ∧ rtc grows (r_data reg0) (r_data reg')).
  { eexists. split; [reflexivity|]. destruct Hreg as [->|(o & -> & Ho)]; [done|].
    destruct (run_op_step o (RState reg (li_sys l))) as (Hs & Hpath & _). split; [by rewrite Hpath|].
    eapply rtc_r; [exact Hg|]. exists o. split; [exact Hs|by destruct o]. }
  assert (Hl : grown_l reg0 (Listener (rs_sys (a_reg a')) (Some (rs_reg (a_reg a'))) (Some (a_collector a')) (li_met l) (li_open l))).
  { destruct Hgl as (reg' & <- & Hgl). split; [by eexists|by eexists]. }
  destruct x as [x|e|]; do 2 eexists; (split; [reflexivity|]); (split; [exact Hl|]); by rewrite Hc2.
Qed.

(** ** Invariants of the process *)

Lemma grows_inv d1 d2 : rtc grows d1 d2 → store_inv d1 → store_inv d2.
Proof. induction 1 as [|d1 d2 d3 (o & Hs & _) _ IH]; [done|]. intros Hi. apply IH. by eapply data_step_inv. Qed.

(** Registered, and revoked or not. *)
Definition known (pub : bytes) (revoked : bool) (d : storeData) : Prop :=
  ∃ i v, find_device pub d = Some (i, v) ∧ dev_Revoked v = revoked.

Lemma grows_known pub b d1 d2 : rtc grows d1 d2 → known pub b d1 → known pub b d2.
Proof.
  induction 1 as [|d1 d2 d3 (o & Hs & Ho) _ IH]; [done|]. intros (i & v & Hv & Hb). apply IH.
  destruct (find_device_step d1 o d2 pub i v (data_step_device _ _ _ Hs) Hv) as (w & Hw & _ & _ & Hrw).
  exists i, w. split; [done|]. destruct Hrw as [->|(_ & id & x & -> & _)]; [done|by destruct Ho].
Qed.

(** ** Streams in the process *)

Definition stream_met (n : Z) (mt mt' : Metrics) : Prop :=
  streams_active mt' = streams_active mt + n ∧ sessions_active mt' = sessions_active mt ∧ opened_total mt' = opened_total mt.

(** The dial that takes the process down. *)
Definition bad_dial (dial : bytes → conn + error) : Prop :=
  ∃ a p, is_ok (dial_of dial (targetAddr a p)) = true ∧ prom_accepts (dial_label a p) = false.

Lemma readConnectRequest_safe c : is_panic (fst (readConnectRequest c)) = false.
Proof.
  assert (Hr : ∀ k, hoare (λ _ : conn, True) (conn_ReadFull k) (λ _ _, True) (λ _ _, True)).
  { intros k c' _. unfold conn_ReadFull, zoom. destruct (c_closed c'); [done|].
    destruct (ReadFull_spec k (c_rd c')) as (r' & _ & _ & _ & ->). by destruct (Nat.leb _ _). }
  assert (Hh : hoare (λ _ : conn, True) readConnectRequest (λ _ _, True) (λ _ _, True)).
  { unfold readConnectRequest. eapply hoare_bind; [apply hoare_wrap, Hr|intros hdr].
    cbv zeta. destruct (_ =? 0)%nat; [by apply hoare_fail|].
    eapply hoare_bind; [apply hoare_wrap, Hr|intros buf]. by apply hoare_ret. }
  specialize (Hh c I). by destruct (readConnectRequest c) as [[]].
Qed.

Lemma conn_Write_safe bs c : is_panic (fst (conn_Write bs c)) = false.
Proof. unfold conn_Write. destruct (c_closed c); [done|]. by destruct (c_wr c) as [|[[n e]|] w]. Qed.

Lemma stream_met_opened mt : stream_met 1 mt (mkMet (m_events mt ++ [Inc "daxson_streams_active" []])).
Proof. unfold stream_met, streams_active, sessions_active, opened_total. rewrite !gauge_app. destruct mt. cbn. lia. Qed.
Lemma stream_met_closed n mt mt' :
  stream_met n mt mt' → stream_met (n - 1) mt (mkMet (m_events mt' ++ [Dec "daxson_streams_active"])).
Proof. unfold stream_met, streams_active, sessions_active, opened_total. rewrite !gauge_app. destruct mt'. cbn. lia. Qed.
Lemma stream_met_dialled n mt mt' l :
  stream_met n mt mt' → stream_met n mt (mkMet (m_events mt' ++ [Inc "daxson_dials_total" l])).
Proof. unfold stream_met, streams_active, sessions_active, opened_total. rewrite !gauge_app. destruct mt'. cbn. lia. Qed.

(** Whatever a stream sends and its dial meets, the handler balances the gauges or
    panics on the label. *)
Lemma handleStream_any dial c k mt :
  match handleStream (dial_of dial) (SStream c k (Some mt)) with
  | (Ok r, s') => ∃ mt', st_met s' = Some mt' ∧ stream_met (match r with Some _ => 1 | None => 0 end) mt mt'
  | (Err _, _) => False
  | (Panic, _) => bad_dial dial
  end.
Proof.
  destruct (time_Now_ok k) as (now & k' & Hnow). unfold handleStream.
  erewrite bind_Ok by reflexivity. cbn [st_conn st_clock st_met].
  erewrite bind_Ok by (unfold on_stream_clock, zoom; cbn [st_clock]; rewrite Hnow; reflexivity).
  erewrite bind_Ok by reflexivity. cbn [st_conn st_clock st_met].
  pose proof (stream_met_opened mt) as H1'. set (mt1 := mkMet _) in *. clearbody mt1.
  assert (Hclosed := stream_met_closed 1 mt mt1 H1').
  set (c1 := put_dl (Some (now + 10 * second)) c). clearbody c1.
  pose proof (readConnectRequest_safe c1) as Hsafe.
  destruct (readConnectRequest c1) as [[[[t a] p]|e|] c2] eqn:E; [| |done];
    (erewrite bind_Ok by (unfold try, on_stream, zoom; cbn [st_conn st_clock st_met]; rewrite E; reflexivity));
    (erewrite bind_Ok by reflexivity); cbn [st_conn st_clock st_met].
  2:{ cbn. by eexists. }
  destruct (dial_of dial (targetAddr a p)) as [tconn|e|] eqn:Ed.
  - erewrite bind_Ok by reflexivity. cbn iota. pose proof (conn_Write_safe [connectOK] (put_dl None c2)) as Hw.
    destruct (conn_Write [connectOK] (put_dl None c2)) as [[u|e|] c3] eqn:Ew; [| |done];
      (erewrite bind_Ok by (unfold try, on_stream, zoom, writeConnectResponse; cbn [st_conn st_met]; rewrite Ew; reflexivity)).
    + unfold on_stream_met, RecordDial, inc_label, zoom. unfold bind at 1. cbn [st_met].
      destruct (prom_accepts (dial_label a p)) eqn:Ep.
      * cbn. eexists. split; [reflexivity|by apply stream_met_dialled].
      * exists a, p. by rewrite Ed.
    + cbn. by eexists.
  - erewrite bind_Ok by reflexivity. cbn iota. pose proof (conn_Write_safe [connectFail] (put_dl None c2)) as Hw.
    destruct (conn_Write [connectFail] (put_dl None c2)) as [[u|e'|] c3] eqn:Ew; [| |done];
      (erewrite bind_Ok by (unfold ignore, try, bind, on_stream, zoom, writeConnectResponse; cbn [st_conn st_met]; rewrite Ew; reflexivity));
      cbn; by eexists.
  - unfold dial_of in Ed. by destruct (dial _).
Qed.

(** What holds between two events: the registry has grown from [reg0], the
    gauges agree, and [n] connections have been accepted. *)
Definition books (reg0 : Registry) (n : Z) (p : process) : Prop :=
  grown_l reg0 (ps_listener p) ∧ accounted n (len (ps_streams p)) (ps_listener p).

Definition is_connection (e : process_event) : bool := match e with Tunnels e => is_accepted e | _ => false end.
Definition crashing (e : process_event) : Prop := match e with StreamArrives _ _ dial => bad_dial dial | _ => False end.

Lemma on_listener_eq {A} (m : M listener A) l ps r l' : m l = (r, l') → on_listener m (Process l ps) = (r, Process l' ps).
Proof. unfold on_listener, zoom. cbn. by intros ->. Qed.

Lemma process_step_books reg0 e n p :
  books reg0 n p →
  match process_step e p with
  | (Ok _, p') => books reg0 (n + if is_connection e then 1 else 0) p'
  | (Err _, _) => False
  | (Panic, _) => crashing e
  end.
Proof.
  intros [Hg Ha]. destruct p as [l ps]. cbn [ps_listener ps_streams] in *.
  destruct e as [e|i c dial|j|r]; cbn [process_step is_connection crashing]; rewrite ?Z.add_0_r.
  - destruct (listen_event_run s e n _ l Ha) as (l' & E & Ha'). rewrite (on_listener_eq _ _ _ _ _ E). split; [|exact Ha'].
    pose proof (keeps_listen_event reg0 e l Hg) as Hk. by rewrite E in Hk.
  - erewrite bind_Ok by reflexivity. cbn [ps_listener]. destruct (li_open l !! i); [|by split].
    destruct l as [y rg col km op]. destruct Ha as (mt & Hm & Hs & Ho & Hz & Hk). cbn in Hm, Hs, Ho, Hz, Hk. subst km.
    pose proof (handleStream_any dial c (s_clock y) mt) as Hany.
    destruct (handleStream (dial_of dial) (SStream c (s_clock y) (Some mt))) as [[r|e|] st] eqn:E; [|done|].
    2:{ unfold bind. rewrite (on_listener_eq _ _ ps Panic (Listener (Sys (st_clock st) (s_rand y) (s_fs y)) rg col (st_met st) op)); [done|].
        unfold in_stream. cbn [li_sys li_met]. by rewrite E. }
    destruct Hany as (mt' & Hm' & Hs' & Ha' & Ho').
    erewrite bind_Ok by (apply on_listener_eq; unfold in_stream; cbn [li_sys li_met]; rewrite E; reflexivity).
    cbn [li_reg li_collector li_open]. rewrite Hm'.
    destruct r as [relay|]; (split; [exact Hg|]); exists mt'; cbn [put_streams ps_listener ps_streams li_met li_open li_collector];
      (split; [done|]); (split; [lia|]); (split; [lia|]); (split; [|exact Hk]).
    + unfold len in *. rewrite length_app. cbn [length]. lia.
    + lia.
  - erewrite bind_Ok by reflexivity. cbn [ps_streams]. destruct (ps !! j) as [relay|] eqn:Ej; [|by split].
    erewrite bind_Ok by reflexivity. destruct l as [y rg col km op].
    destruct Ha as (mt & Hm & Hs & Ho & Hz & Hk). cbn in Hm, Hs, Ho, Hz, Hk. subst km.
    cbn. split; [exact Hg|]. eexists. split; [reflexivity|]. cbn [ps_streams ps_listener li_open li_collector].
    assert (Hlen : len ps = len (delete j ps) + 1).
    { unfold len. rewrite length_delete by by eexists. apply lookup_lt_Some in Ej. lia. }
    assert (Hmt : stream_met 0 mt mt) by (unfold stream_met; lia). apply (stream_met_closed 0) in Hmt as (H1' & H2' & H3').
    split; [lia|]. split; [lia|]. split; [lia|exact Hk].
  - destruct (on_api_run r reg0 l Hg) as (o & l' & E & Hg' & Hc & Hm & Ho).
    erewrite bind_Ok by (apply on_listener_eq; exact E). split; [exact Hg'|].
    unfold accounted in *. cbn [ps_listener ps_streams]. by rewrite Hc, Hm, Ho.
Qed.

Lemma process_run_books reg0 evs n p :
  books reg0 n p →
  match process_run evs p with
  | (Ok _, p') => books reg0 (n + len (filter (λ e, is_connection e = true) evs)) p'
  | (Err _, _) => False
  | (Panic, _) => Exists crashing evs
  end.
Proof.
  revert n p. induction evs as [|e evs IH]; intros n p Hb.
  - cbn. by rewrite Z.add_0_r.
  - pose proof (process_step_books reg0 e n p Hb) as He. unfold process_run in *. cbn [each]. unfold bind.
    destruct (process_step e p) as [[u|x|] p1]; [|done|by left]. specialize (IH _ _ He).
    destruct (each process_step evs p1) as [[u'|x|] p2]; [|done|by right].
    rewrite filter_cons. destruct (is_connection e); [rewrite decide_True by done|rewrite decide_False by done].
    + unfold len in *. cbn [length]. by replace (n + Z.of_nat (S (length (filter (λ e, is_connection e = true) evs))))
        with (n + 1 + Z.of_nat (length (filter (λ e, is_connection e = true) evs))) by lia.
    + by rewrite Z.add_0_r in IH.
Qed.

(** C11. The serving process keeps its books.  However tunnel connections, their
    streams, the ends of both and requests to the dashboard interleave in a
    process that started with a registry, whatever the peers and the browsers
    send and whatever fails: the process stops only when a stream dials, with
    success, a target that the metrics refuse as a label.  Until then its
    registry stays well-formed if it was, and no device that the registry knew
    at the start is lost, revoked or restored, so that whoever is on the list is
    served, or refused, as at the start; the gauges of active sessions and of
    active streams are the numbers of open ones, every accepted connection is
    counted once, and the dashboard shows no session that is not open. *)
Theorem process_keeps_books evs y reg :
  match process_run evs (Process (Listener y (Some reg) (Some Telemetry.New) (Some Metrics.New) []) []) with
  | (Ok _, Process l streams) =>
      ∃ reg' c mt, li_reg l = Some reg' ∧ li_collector l = Some c ∧ li_met l = Some mt ∧
        r_path reg' = r_path reg ∧ (store_inv (r_data reg) → store_inv (r_data reg')) ∧
        (∀ pub b, known pub b (r_data reg) → known pub b (r_data reg') ∧
           fst (AuthorizeDevice pub (RState reg' (li_sys l))) = Ok (if b then AuthStatusRevoked else AuthStatusOK)) ∧
        sessions_active mt = len (li_open l) ∧ streams_active mt = len streams ∧
        gauge "daxson_connections_total" mt = len (filter (λ e, is_connection e = true) evs) ∧
        (∀ k, is_Some (co_sessions c !! k) → Some k ∈ li_open l)
  | (Err _, _) => False
  | (Panic, _) => ∃ i c dial a port, StreamArrives i c dial ∈ evs ∧
      is_ok (dial_of dial (targetAddr a port)) = true ∧ prom_accepts (dial_label a port) = false
  end.
Proof.
  pose proof (process_run_books reg evs 0 (Process (Listener y (Some reg) (Some Telemetry.New) (Some Metrics.New) []) [])) as Hrun.
  destruct (process_run evs _) as [[u|e|] [l streams]]; (lapply Hrun; [clear Hrun; intros Hrun|
    split; [split; [by exists reg|by eexists]|exists Metrics.New; split_and!; [done..|]; cbn; rewrite dom_empty_L; set_solver]]); [|done|].
  - destruct Hrun as [((reg' & Hr & Hp & Hg) & c & Hc) (mt & Hm & Ha & Ho & Hz & Hk)]. cbn [ps_listener ps_streams] in *.
    exists reg', c, mt. do 4 (split; [assumption|]). split; [by apply grows_inv|].
    split; [|split; [exact Ha|split; [exact Hz|split; [exact Ho|]]]].
    + intros pub b Hb. pose proof (grows_known pub b _ _ Hg Hb) as Hb'. split; [exact Hb'|].
      destruct Hb' as (i & v & Hf & Hrev). pose proof (AuthorizeDevice_run pub (RState reg' (li_sys l))) as Hrun.
      unfold data in Hrun. cbn [rs_reg] in Hrun. rewrite Hf, Hrev in Hrun. destruct b; [by rewrite Hrun|].
      by destruct Hrun as (t & s' & ->).
    + rewrite Hc in Hk. intros k Hin. apply Hk. cbn. by apply elem_of_dom.
  - apply Exists_exists in Hrun as ([|i c dial| |] & Hin & Hb); [done| |done|done].
    destruct Hb as (a & port & Hd & Hl). by exists i, c, dial, a, port.
Qed.
End process.

(** ** A run of the process *)

(** One device in force, one revoked. *)
Definition process_registry : Registry :=
  mkRegistry (str "/r.json") (mkStore [new_device key1 (str "a") 5; mkDevice key2 (shortDeviceID key2) [] 0 None true] []).
Definition process_sys : sys := Sys (Clock 3000000000000 []) (stream (be_put 200 7) EOF) (Fs ∅ []).

(** What a client with the configured key sends at the same time. *)
Definition login : bytes :=
  Io.c_out (h_conn (snd (ClientHandshake (Auth.New (au_PSK (sv_Auth (cf_Server Defaults))))
    (Host (conn_of []) (Sys (Clock 3000000000000 []) (stream (be_put 16 9) EOF) (Fs ∅ [])) None)))).

(** One login with two streams, the second of which ends; in between, an invite
    asked for over HTTP, a failed accept, a peer of an unknown protocol, a target
    that refuses. *)
Definition process_events : list process_event :=
  let web := conn_of (connect_bytes AddrDomain (str "example.com") 80) in
  let refused := ErrNew "refused" [] in
  [Tunnels (Accepted (conn_of login) (str "1.2.3.4:5") (Err refused) None); Asks dash_post;
   StreamArrives 0 web (λ _, inl (conn_of [])); Tunnels AcceptError; StreamArrives 0 web (λ _, inl (conn_of []));
   Tunnels (Accepted (conn_of (str "GET /")) (str "1.2.3.4:6") (Err refused) None); StreamEnds 1;
   StreamArrives 0 web (λ _, inr refused); Asks (mkRequest (str "GET") (str "/api/v1/devices") Panic)].

Lemma process_keeps_books_witness :
  let ht := utf8_Prometheus in let ed := toy_Ed25519 in
  let js := countable_JSON storeData in let jp := countable_JSON Payload in
  let start := Process (Listener process_sys (Some process_registry) (Some Telemetry.New) (Some Metrics.New) []) [] in
  let d := dashboard_New (str ":9090") dash_key [] in
  ∃ l streams reg' mt,
    process_run (Tunnel.NewServer Defaults) d process_events start = (Ok tt, Process l streams) ∧
    li_reg l = Some reg' ∧ li_met l = Some mt ∧
    fst (AuthorizeDevice key1 (RState reg' (li_sys l))) = Ok AuthStatusOK ∧
    fst (AuthorizeDevice key2 (RState reg' (li_sys l))) = Ok AuthStatusRevoked ∧
    gauge "daxson_connections_total" mt = 2 ∧ sessions_active mt = 1 ∧ streams_active mt = 1.
Proof.
  intros ht ed js jp start d.
  pose proof (process_keeps_books (Tunnel.NewServer Defaults) d process_events process_sys process_registry) as Hbooks.
  assert (Hrun : let '(o, p) := process_run (Tunnel.NewServer Defaults) d process_events start in
    (is_ok o, length (li_open (ps_listener p)), length (ps_streams p)) = (true, 1%nat, 1%nat)) by (vm_compute; reflexivity).
  fold start in Hbooks. destruct (process_run _ d process_events start) as [[[]|e|] [l streams]]; [|discriminate Hrun..].
  injection Hrun as Ho Hs. destruct Hbooks as (reg' & c & mt & Hr & Hc & Hm & _ & _ & Hk & Hopen & Hstr & Hn & _).
  exists l, streams, reg', mt. split; [reflexivity|]. split; [exact Hr|]. split; [exact Hm|].
  unfold len in Hopen, Hstr. cbn [ps_listener ps_streams] in Ho, Hs. rewrite Ho in Hopen. rewrite Hs in Hstr.
  split; [|split; [|split; [exact Hn|split; [exact Hopen|exact Hstr]]]].
  - apply (Hk key1 false). exists 0%nat, (new_device key1 (str "a") 5). split; vm_compute; reflexivity.
  - apply (Hk key2 true). exists 1%nat, (mkDevice key2 (shortDeviceID key2) [] 0 None true). split; vm_compute; reflexivity.
Defined.
